(* ===== verification/_CoqProject ===== *)
-Q . S2P
Prelude.v
Queue.v
Ev.v
CStr.v
Printf.v
Log.v
CTypes.v
CMem.v
VmlinuxBase.v
VmlinuxFs.v
VmlinuxRest.v
Vmlinux.v
Bpf.v
Ride.v
KernelHook.v
Hasher.v
Slab.v
Quic.v
State.v
Verifier.v
Transport.v
Processor.v
Examples.v
Thread.v
Pipeline.v
Connect.v
Fuel.v
ThreadInv.v
System.v
Boot.v
Files.v
Armed.v
Progress.v
Program.v
Server.v
Client.v
