(* ===== verification/Prelude.v ===== *)
(** * RIDE: real-time intrusion detection events

    A verification of the C program under src/src: a BPF hook reports opened
    files, a queue hands them to processor threads, each thread reads and
    hashes the files through io_uring, prints the hashes and sends them to a
    remote verifier over QUIC; and of the Go program under src/verifier that
    receives them.

    ** The program and its model

    - ride.bpf.c filters file-open events by pid, file type, file system and
      watched path and submits [struct event] records to a BPF ring buffer.
      [Bpf]: the whole hook, [ride], with [in_watch_path] and its loop; the
      BPF helpers are arguments. [KernelHook]: the same hook on the bytes of
      kernel memory, with its loads at the offsets of the declarations, and the
      bytes of the records it leaves in the ring buffer.
    - vmlinux.h declares the kernel's types. [CTypes] has C declarations as
      data and the rules of the System V ABI that lay them out; [VmlinuxBase],
      [VmlinuxFs] and [VmlinuxRest] are the declarations of the structures the
      hook reads, of everything they hold by value and of what their members
      point to, one definition per declaration, in the order of the header; an
      anonymous structure or union is a member without a name. [Vmlinux] is
      their environment. [CMem] has bytes, members of objects, and memory.
    - ride.c, main.c parse the command line, canonicalise the watched path,
      load it into the hook, start the threads and feed the queue.
      [Ride]: [parse_env], [ride_stat], [ride_ringbuf_handle], [ride_run] (its
      set-up, [ride_setup], and its loops, [ride_loop]); what library and system
      calls give in a run is a record, [run_env].
    - queue.c is the bounded ring between the feeder and the threads, with one
      semaphore eventfd per thread. [Queue].
    - ev.c is a small event loop on the shared submission and completion rings
      of io_uring. [Ev]: the rings with their free-running 32-bit indices,
      [ev_iou_req], [ev_loop_run]; a request is an object with an address
      ([req_ptr]), a callback a constructor of [callback_t].
    - hasher.c wraps BLAKE3. [Hasher].
    - processor.c: each thread has a slab of request containers ([Slab]) and
      the callbacks from a queued event to the reported hash ([Processor]), on
      the thread's state ([State]: [struct processor], [struct verifier], the
      heap strings, the queue and eventfd it shares, its output). [Thread] is
      the event loop on these callbacks, [Pipeline] one event through the
      callbacks and the kernel's part of serving them, [Fuel] that every callback
      ends. [ThreadInv] is the
      invariant of a thread with any number of requests in flight, in the three
      phases of its connection, [System] the thread as a step relation with the
      kernel, [Boot] its start, [Files] the thread with a kernel that serves
      files and the table of its open descriptors, [Armed] the requests a
      thread waits for, [Progress] its runs counted in the completions of a
      file, [Program] all threads with the hook and the main thread, for any
      relation that describes the steps of a thread; [Examples] has concrete
      instances and states for the witnesses.
    - verifier.c, verifier_quic.h: the QUIC client of a thread. [Quic] is the
      stream slots and the flush, [Transport] what the thread relies on in it, an
      interface with two implementations (bytes, and streams),
      [Verifier] the socket and timer callbacks and what a new connection is
      given (callbacks, settings, transport parameters, the protocol name),
      [Connect] the sequence of completions that connects.
    - server.go, main.go under src/verifier: the server that prints the records
      it receives. [Server]: its set-up, its loop over the streams of a
      connection and its command line.
    - client.c: an earlier client on quiche, not part of the build. [Client].
    - log.h, and the log callback of verifier_quic.h: [Log], on the conversions
      of [Printf].
    - [CStr] models the C library functions on strings that the program uses,
      [Printf] the formatted output.

    Every function is a state-passing definition in the monad [M] below, with
    the early returns, error branches and calls of the source; undefined
    behaviour, failing assertions and [exit] are outcomes. Machine integers are
    [Z] with the conversions written out ([u32], [s64], ...).

    External code is a class of operations with the state it acts on as a
    parameter: [Eventfd], [IoUring], [Blake3], [Ngtcp2], [Host] (clock and
    [sendmsg]), [Net] (TLS, addresses, sockets), [Malloc], [Quiche], [Sockets],
    [QuicGo] (quic-go and Go's crypto packages).
    What the theorems need of it is a second class of laws that state documented
    behaviour ([EventfdSem], [Blake3Laws], [Ngtcp2Laws], [StreamLaws],
    [HostLaws], [RecvLaws], [NetV4]) or that the network is there ([NetUp]) and
    delivers streams whole and in order ([Delivers]), each with an instance.
    Nothing is assumed of when ngtcp2 grants a stream, how much it accepts or
    whether a packet is sent. [bpf_path_d_path] finds a path or fails and leaves
    any bytes ([d_path_spec]); [pthread_join] returns when the function of the
    thread has ([join_waits]).

    ** What is shown

    - What is reported ([Program], [Files]): against a kernel that serves files,
      in any interleaving of any number of files, the lines a thread passes to
      [write] and the bytes its connection has accepted, followed by those that
      wait in the slot, are those of the same reports in the same order, and
      every report is of a path of the watched file or
      directory, with the digest of exactly the content of the file there. The
      claims on paths, reports, bytes hashed so far and descriptors held are a
      parameter of the invariant of a thread ([claims] of [ThreadInv]);
      nothing is claimed where the kernel may answer anything, and [Files]
      claims what the files are. A thread's open descriptors are exactly those
      its containers are reading: none outlives its container, is closed twice
      or is read after its close.
    - A file from event to report ([Pipeline]): a thread woken with an event
      queued opens the file, reads it to the end whatever sizes the kernel
      returns, prints the line with the digest of exactly the content, calls the
      verifier and releases everything; a file that cannot be opened leaves no
      trace; [processor_setup] establishes what this starts from.
    - The program under load ([Program], [Boot], [System]): files are opened,
      the hook writes records, the main thread moves them into the queue, and
      threads start, connect and run, in any interleaving and whatever the
      kernel completes, in whatever order and with whatever results. Containers,
      buffers and path strings are neither leaked nor used after they were
      released, and every handler ends without a fault. This is proved by an
      invariant on a thread and the submissions the kernel holds ([ThreadInv]),
      against the interface [Transport]; [processor_start] establishes it, and a
      state of the program is good when every thread is, on the common queue.
      The steps are those with defined behaviour. The theorems on faults say
      which those are: all, but the completion that ends a file when there is no
      connection, no stream is granted, the slot has no room or the path could
      not be looked up ([report_ready]; each of the four is shown to have
      undefined behaviour), and the record after the counter of signals has
      reached the largest [int]. As long as events wait in the queue, some
      thread has a signal it has not taken, with which it takes the oldest.
    - Nothing gets stuck ([Armed], [Progress], [Program]): on rings with three
      entries more than a thread has containers, every request a thread waits
      for is in its ring or with the kernel exactly once, in every state: the
      poll of its eventfd, the request of its connection, and that of every
      file in flight. So an event in the queue always has a thread that is
      signalled and listening, and a file in flight is reported once the kernel
      has completed its requests as often as it has bytes plus two times, in any
      interleaving with everything else.
    - The server ([Server]): when each record was accepted before the next was
      reported, each is alone on a stream, and for the streams delivered of a
      thread's connection the server prints exactly the records of the reports
      the thread has printed, in order; it accepts one connection only.
    - Kernel memory ([Vmlinux], [KernelHook]): the transcribed declarations are
      accepted and their layouts sound, so that the hook's accesses have types
      and offsets; on memory that holds an open file the hook decides what it
      decides on records; and an event written into a record is read back as
      the same event by the main thread.
    - The rings: the queue refines a bounded FIFO with a semaphore and delivers
      in order; the submission ring is a FIFO to the kernel under any
      interleaving; a turn of the loop handles exactly the pending completions,
      for any callbacks ([Ev]) and for those of the thread ([Thread], where
      every callback is shown to respect the rest of the thread's state).
    - The slab refines a stack of free containers; no container is handed out
      twice.
    - The hook submits exactly the events of watched regular files; the watched
      path reaches it intact; its byte loop is a prefix test, for every length;
      option values are in range; a run creates exactly the threads its settings
      ask for, with the arguments they should have.
    - The verifier sends a record completely and in order on a fresh stream;
      the timer is armed with the timeout of the flush; the set-up goes from
      socket to connection to the first read ([Connect]).
    - The quiche client asks to be called again within bounds and terminates.
    - A log function writes one line with its label, the time and the formatted
      text, to the stream and under the build options it should.
    - Defects, as theorems about the code as it is: a spurious wake-up opens
      the empty path; a full ring loses a request; a file hashed before the
      connection is made is reported on a null pointer; an unsent record is
      overrun; an ngtcp2 error is used as an index; the timer is never moved;
      the program exits when there is no timer; shutdown never completes; an
      array of no threads on one CPU; an unterminated directory path that is
      printed; events after a path error; leaked sockets; settings made on a missing configuration;
      connection ids the log does not tell apart; a server that reads the
      reports of one thread, and whose only option it does not accept.

    ** Bounds and fuel

    Loops that are not structural take fuel, and the theorems state how much is
    enough, or that some amount is ([Fuel], for every callback): the reaping loop takes the number of pending completions, the
    comparison loop of the hook the length of the watched path, a file one more
    than its bytes, the QUIC flush more than the packets the connection can
    still write and the interruptions of [sendmsg], the receive loop of the
    quiche client more than what is pending on the socket. [ev_loop_run] has no
    exit; its fuel is the number of turns observed, as is that of the server's
    loop. Ten digits are enough for an
    [int].

    ** Not modelled

    The content of socket addresses and of connection ids (their lengths are);
    changes of files while they are read; how much of a line [write] writes,
    which the program only logs; memory ordering of the rings' indices
    (each side's accesses are atomic steps); the calls of the log functions,
    which touch no state of their callers; the declarations of vmlinux.h that
    nothing the program uses depends on; tests and build files. Each thread of
    [Program] has its own heap strings and its own copy of the verifier's
    address; the queue and the eventfds are common.

    This file: outcomes and the monad, relations respected by code, code that
    ends, machine integers, arrays and ring buffers. *)

From stdpp Require Import base numbers list list_numbers gmap.
From Stdlib Require Import ZArith Lia.

Open Scope Z_scope.

(** ** Outcomes of C code

    A C function either returns, ends the process ([exit], a failing
    [assert]) or has no defined behaviour. [OutOfFuel] is no behaviour of the
    program: it is what a loop modelled with fuel gives when the fuel is too
    small, and the theorems on such loops state how much is enough. *)

Inductive ub : Set :=
  | OutOfBounds
  | NullDeref
  | BadPointer
  | BadFree
  | SignedOverflow
  | DivisionByZero
  | ZeroLengthArray
  | Uninitialised.

#[export] Instance ub_eq_dec : EqDecision ub.
Proof. solve_decision. Defined.

Inductive outcome (A : Type) : Type :=
  | Ret (a : A)
  | Exit (code : Z)
  | AssertFailed
  | Undef (u : ub)
  | OutOfFuel.
Arguments Ret {A} a.
Arguments Exit {A} code.
Arguments AssertFailed {A}.
Arguments Undef {A} u.
Arguments OutOfFuel {A}.

(** Stateful C code: explicit state passing with the outcomes above. *)
Definition M (S A : Type) : Type := S -> outcome (A * S).

#[export] Instance M_ret (S : Type) : MRet (M S) := fun A a s => Ret (a, s).

#[export] Instance M_bind (S : Type) : MBind (M S) := fun A B f m s =>
  match m s with
  | Ret (a, s') => f a s'
  | Exit c => Exit c
  | AssertFailed => AssertFailed
  | Undef u => Undef u
  | OutOfFuel => OutOfFuel
  end.

Definition gets {S A} (f : S -> A) : M S A := fun s => Ret (f s, s).
Definition modify {S} (f : S -> S) : M S unit := fun s => Ret (tt, f s).
Definition exit_ {S A} (c : Z) : M S A := fun _ => Exit c.
Definition undef {S A} (u : ub) : M S A := fun _ => Undef u.
Definition assert_ {S} (b : bool) : M S unit :=
  fun s => if b then Ret (tt, s) else AssertFailed.
Definition of_option {S A} (u : ub) (o : option A) : M S A :=
  match o with Some a => mret a | None => undef u end.

Section monad_laws.
Context {S : Type}.

Lemma bind_ret_l {A B} (a : A) (f : A -> M S B) s : (mret a ≫= f) s = f a s.
Proof. reflexivity. Qed.

Lemma bind_Ret {A B} (m : M S A) (f : A -> M S B) s a s' :
  m s = Ret (a, s') -> (m ≫= f) s = f a s'.
Proof. intros H. unfold mbind, M_bind. by rewrite H. Qed.

Lemma bind_modify {B} (f : S -> S) (g : unit -> M S B) s : (modify f ≫= g) s = g tt (f s).
Proof. reflexivity. Qed.

Lemma bind_gets {A B} (f : S -> A) (g : A -> M S B) s : (gets f ≫= g) s = g (f s) s.
Proof. reflexivity. Qed.

Lemma bind_Ret_inv {A B} (m : M S A) (f : A -> M S B) s b s' :
  (m ≫= f) s = Ret (b, s') ->
  exists a s1, m s = Ret (a, s1) /\ f a s1 = Ret (b, s').
Proof.
  unfold mbind, M_bind. destruct (m s) as [[a s1]| | | |]; intros H; try done.
  eauto.
Qed.

Lemma bind_assoc {A B C} (m : M S A) (f : A -> M S B) (g : B -> M S C) s :
  ((m ≫= f) ≫= g) s = (m ≫= (fun a => f a ≫= g)) s.
Proof. unfold mbind, M_bind. by destruct (m s) as [[a s1]| | | |]. Qed.
End monad_laws.

(** ** Code that respects a relation

    [respects R m]: whenever [m] returns, the state before and after are
    related by [R]. With a preorder this composes along the code, and the hints
    in [respects] prove it by walking through a program. *)

Definition respects {S A} (R : S -> S -> Prop) (m : M S A) : Prop :=
  forall s a s', m s = Ret (a, s') -> R s s'.

Section respects.
Context {S : Type} (R : S -> S -> Prop) `{!PreOrder R}.

Lemma respects_ret {A} (a : A) : respects R (mret a).
Proof. intros s b s' [= <- <-]. reflexivity. Qed.

Lemma respects_bind {A B} (m : M S A) (f : A -> M S B) :
  respects R m -> (forall a, respects R (f a)) -> respects R (m ≫= f).
Proof.
  intros Hm Hf s b s' (a & s1 & H1 & H2)%bind_Ret_inv.
  transitivity s1; [by eapply Hm|by eapply Hf].
Qed.

Lemma respects_gets {A} (f : S -> A) : respects R (gets f).
Proof. intros s b s' [= <- <-]. reflexivity. Qed.

Lemma respects_modify (f : S -> S) : (forall s, R s (f s)) -> respects R (modify f).
Proof. intros Hf s b s' [= <- <-]. apply Hf. Qed.

Lemma respects_exit {A} c : respects R (exit_ (A := A) c).
Proof. by intros s b s' ?. Qed.

Lemma respects_undef {A} u : respects R (undef (A := A) u).
Proof. by intros s b s' ?. Qed.

Lemma respects_of_option {A} u (o : option A) : respects R (of_option u o).
Proof. destruct o; [apply respects_ret|apply respects_undef]. Qed.
End respects.

Create HintDb respects.
#[export] Hint Resolve respects_ret respects_gets respects_exit respects_undef
  respects_of_option : respects.

(** Walk through a program, splitting binds, conditionals and matches. *)
Ltac respects_step :=
  match goal with
  | |- forall _, _ => intros ?
  | |- PreOrder _ => typeclasses eauto
  | |- respects _ (mbind _ _) => apply respects_bind
  | |- respects _ (match ?x with _ => _ end) => destruct x
  | |- respects _ (if ?b then _ else _) => destruct b
  | |- respects _ _ => solve [eauto with respects typeclass_instances]
  end.
Ltac respects_tac := repeat respects_step.

(** ** Code that ends

    [total m]: [m] needs no fuel. [ends m]: from each state, [m] does not run
    out of fuel once it is given enough. *)

Definition total {S A} (m : M S A) : Prop := forall s, m s <> OutOfFuel.

Definition ends {S A} (m : nat -> M S A) : Prop :=
  forall s, exists n, forall fuel, (n <= fuel)%nat -> m fuel s <> OutOfFuel.

Section ends.
Context {S : Type}.

Lemma total_bind {A B} (m : M S A) (f : A -> M S B) : total m -> (forall a, total (f a)) -> total (m ≫= f).
Proof.
  intros Hm Hf s. unfold mbind, M_bind. specialize (Hm s). destruct (m s) as [[a s1]| | | |]; try done. apply Hf.
Qed.

Lemma ends_total {A} (m : M S A) : total m -> ends (fun _ => m).
Proof. intros Hm s. exists 0%nat. intros fuel _. apply Hm. Qed.

(** Fuel is needed after a step that needs none, or before one. *)
Lemma ends_after {A B} (m : M S A) (f : nat -> A -> M S B) :
  total m -> (forall a, ends (fun fuel => f fuel a)) -> ends (fun fuel => m ≫= f fuel).
Proof.
  intros Hm Hf s. specialize (Hm s). destruct (m s) as [[a s1]| | | |] eqn:E; try done.
  - destruct (Hf a s1) as [n Hn]. exists n. intros fuel Hl. rewrite (bind_Ret _ _ _ _ _ E). by apply Hn.
  - exists 0%nat. intros fuel _. unfold mbind, M_bind. by rewrite E.
  - exists 0%nat. intros fuel _. unfold mbind, M_bind. by rewrite E.
  - exists 0%nat. intros fuel _. unfold mbind, M_bind. by rewrite E.
Qed.

Lemma ends_before {A B} (m : nat -> M S A) (f : A -> M S B) :
  ends m -> (forall a, total (f a)) -> ends (fun fuel => m fuel ≫= f).
Proof.
  intros Hm Hf s. destruct (Hm s) as [n Hn]. exists n. intros fuel Hl. specialize (Hn fuel Hl).
  unfold mbind, M_bind. destruct (m fuel s) as [[a s1]| | | |]; try done. apply Hf.
Qed.
End ends.

Create HintDb total.

(** Walk through a program that needs no fuel; what is left is unfolded. *)
Ltac total_step :=
  match goal with
  | |- forall _, _ => intros ?
  | |- total (mbind _ _) => apply total_bind
  | |- total (match ?x with _ => _ end) => destruct x
  | |- total (modify _) => by intros ?
  | |- total (gets _) => by intros ?
  | |- total (mret _) => by intros ?
  | |- total (exit_ _) => by intros ?
  | |- total (undef _) => by intros ?
  | |- total _ => solve [eauto with total]
  end.
Ltac total_tac := repeat total_step.

(** Walk to the step that needs fuel. *)
Ltac ends_step :=
  match goal with
  | |- forall _, _ => intros ?
  | |- ends (fun _ => mbind _ ?m) => apply ends_after; [solve [total_tac]|]
  | |- ends (fun _ => match ?x with _ => _ end) => destruct x
  | |- ends (fun _ => ?m) => apply ends_total; solve [total_tac]
  end.
Ltac ends_tac := repeat ends_step.

(** ** Machine integers *)

Definition u16 (z : Z) : Z := z mod 2 ^ 16.
Definition u32 (z : Z) : Z := z mod 2 ^ 32.
Definition u64 (z : Z) : Z := z mod 2 ^ 64.
Definition s32 (z : Z) : Z := (z + 2 ^ 31) mod 2 ^ 32 - 2 ^ 31.
Definition s64 (z : Z) : Z := (z + 2 ^ 63) mod 2 ^ 64 - 2 ^ 63.

Lemma u32_range z : 0 <= u32 z < 2 ^ 32.
Proof. apply Z.mod_pos_bound; lia. Qed.
Lemma u64_range z : 0 <= u64 z < 2 ^ 64.
Proof. apply Z.mod_pos_bound; lia. Qed.
Lemma s32_range z : - 2 ^ 31 <= s32 z < 2 ^ 31.
Proof. unfold s32. pose proof (Z.mod_pos_bound (z + 2^31) (2^32)). lia. Qed.
Lemma s64_range z : - 2 ^ 63 <= s64 z < 2 ^ 63.
Proof. unfold s64. pose proof (Z.mod_pos_bound (z + 2^63) (2^64)). lia. Qed.

Lemma u32_small z : 0 <= z < 2 ^ 32 -> u32 z = z.
Proof. apply Z.mod_small. Qed.
Lemma u64_small z : 0 <= z < 2 ^ 64 -> u64 z = z.
Proof. apply Z.mod_small. Qed.
Lemma s32_small z : - 2 ^ 31 <= z < 2 ^ 31 -> s32 z = z.
Proof. intros. unfold s32. rewrite Z.mod_small; lia. Qed.
Lemma s64_small z : - 2 ^ 63 <= z < 2 ^ 63 -> s64 z = z.
Proof. intros. unfold s64. rewrite Z.mod_small; lia. Qed.
Lemma s64_u64 z : s64 (u64 z) = s64 z.
Proof.
  unfold s64, u64. f_equal. by rewrite Zplus_mod_idemp_l.
Qed.
Lemma u64_neg z : - 2 ^ 64 <= z < 0 -> u64 z = z + 2 ^ 64.
Proof.
  intros. unfold u64. rewrite <- (Z.mod_small (z + 2^64) (2^64)) by lia.
  by rewrite <- Zplus_mod_idemp_r, Z_mod_same_full, Z.add_0_r.
Qed.

Create HintDb machine.
#[export] Hint Resolve u32_range u64_range s32_range s64_range : machine.
Create Rewrite HintDb machine_rw.
#[export] Hint Rewrite @s64_u64 : machine_rw.

(** ** Masks of power-of-two rings: [x & (2^k - 1)] is [x mod 2^k]. *)

Definition is_mask (m : Z) : Prop := exists k, 0 <= k <= 31 /\ m = 2 ^ k - 1.

Lemma land_mask m x : is_mask m -> Z.land x m = x mod (m + 1).
Proof.
  intros (k & Hk & ->). replace (2 ^ k - 1) with (Z.ones k) by (rewrite Z.ones_equiv; lia).
  rewrite Z.land_ones by lia. f_equal. rewrite Z.ones_equiv. lia.
Qed.

Lemma is_mask_range m : is_mask m -> 0 <= m < 2 ^ 31.
Proof.
  intros (k & Hk & ->). pose proof (Z.pow_pos_nonneg 2 k).
  pose proof (Z.pow_le_mono_r 2 k 31). lia.
Qed.

Lemma u32_mod_mask m x : is_mask m -> u32 x mod (m + 1) = x mod (m + 1).
Proof.
  intros (k & Hk & ->). unfold u32. replace (2 ^ k - 1 + 1) with (2 ^ k) by lia.
  apply Z.mod_mod_divide.
  exists (2 ^ (32 - k)). rewrite <- Z.pow_add_r by lia. f_equal. lia.
Qed.

(** Lengths of windows between free-running 32-bit indices. *)

Lemma window_end m h t : is_mask m -> (h + u32 (t - h)) mod (m + 1) = t mod (m + 1).
Proof.
  intros Hm. rewrite <- Zplus_mod_idemp_r, u32_mod_mask, Zplus_mod_idemp_r by done.
  f_equal. lia.
Qed.

Lemma window_grow t h :
  u32 (t - h) < 2 ^ 32 - 1 -> u32 (u32 (t + 1) - h) = u32 (t - h) + 1.
Proof.
  intros Hl. unfold u32 in *. rewrite Zminus_mod_idemp_l.
  replace (t + 1 - h) with (t - h + 1) by lia. rewrite <- Zplus_mod_idemp_l.
  apply Z.mod_small. pose proof (Z.mod_pos_bound (t - h) (2 ^ 32)). lia.
Qed.

Lemma window_shrink t h :
  0 < u32 (t - h) -> u32 (t - u32 (h + 1)) = u32 (t - h) - 1.
Proof.
  intros Hl. unfold u32 in *. rewrite Zminus_mod_idemp_r.
  replace (t - (h + 1)) with (t - h - 1) by lia. rewrite <- Zminus_mod_idemp_l.
  apply Z.mod_small. pose proof (Z.mod_pos_bound (t - h) (2 ^ 32)). lia.
Qed.

Lemma window_empty t h :
  0 <= t < 2 ^ 32 -> 0 <= h < 2 ^ 32 -> (u32 (t - h) = 0 <-> h = t).
Proof.
  intros. unfold u32. split; [|intros ->; by rewrite Z.sub_diag].
  intros Hz. apply Z.mod_divide in Hz; [|lia]. destruct Hz as [q Hq]. lia.
Qed.

(** ** Arrays

    C arrays are lists; an access outside the list has no defined
    behaviour, which [arr_get] and [arr_set] report as [None]. *)

Definition arr_get {A} (l : list A) (i : Z) : option A :=
  if 0 <=? i then l !! Z.to_nat i else None.

Definition arr_set {A} (l : list A) (i : Z) (x : A) : option (list A) :=
  if (0 <=? i) && (i <? Z.of_nat (length l))
  then Some (<[Z.to_nat i := x]> l) else None.

Lemma take_drop_length {A} n (l : list A) : take n l ++ drop (length (take n l)) l = l.
Proof.
  rewrite length_take. destruct (Nat.le_ge_cases n (length l)).
  - rewrite Nat.min_l by done. apply take_drop.
  - rewrite drop_ge, app_nil_r by lia. by apply take_ge.
Qed.

Section arrays.
Context {A : Type}.
Implicit Types (l : list A) (x : A).

Lemma arr_set_in l i x :
  0 <= i < Z.of_nat (length l) -> arr_set l i x = Some (<[Z.to_nat i := x]> l).
Proof.
  intros. unfold arr_set.
  destruct (Z.leb_spec 0 i), (Z.ltb_spec i (Z.of_nat (length l))); done || lia.
Qed.

Lemma arr_set_out l i x :
  ~ (0 <= i < Z.of_nat (length l)) -> arr_set l i x = None.
Proof.
  intros. unfold arr_set.
  destruct (Z.leb_spec 0 i), (Z.ltb_spec i (Z.of_nat (length l))); done || lia.
Qed.

Lemma arr_get_total `{!Inhabited A} l i :
  0 <= i < Z.of_nat (length l) -> arr_get l i = Some (l !!! Z.to_nat i).
Proof.
  intros. unfold arr_get. destruct (Z.leb_spec 0 i); [|lia].
  apply list_lookup_lookup_total_lt. lia.
Qed.

Lemma arr_get_out l i : ~ (0 <= i < Z.of_nat (length l)) -> arr_get l i = None.
Proof.
  intros. unfold arr_get. destruct (Z.leb_spec 0 i); [|done].
  apply lookup_ge_None_2. lia.
Qed.
End arrays.

(** ** Ring buffers

    [ring_slice buf size start n] reads [n] consecutive entries of a ring
    of [size] slots, starting at the (possibly free-running) index [start].
    It is the abstraction function of the event queue and of both io_uring
    rings. *)

Definition ring_at {A} `{!Inhabited A} (buf : list A) (size i : Z) : A :=
  buf !!! Z.to_nat (i mod size).

Definition ring_slice {A} `{!Inhabited A} (buf : list A) (size start n : Z) : list A :=
  ring_at buf size <$> seqZ start n.

Section ring.
Context {A : Type} `{!Inhabited A}.
Implicit Types (buf : list A) (x : A).

Lemma length_ring_slice buf size start n :
  length (ring_slice buf size start n) = Z.to_nat n.
Proof. unfold ring_slice. by rewrite length_fmap, length_seqZ. Qed.

Lemma ring_slice_nil buf size start : ring_slice buf size start 0 = [].
Proof. reflexivity. Qed.

Lemma ring_slice_snoc buf size start n :
  0 <= n ->
  ring_slice buf size start (n + 1) =
  ring_slice buf size start n ++ [ring_at buf size (start + n)].
Proof.
  intros. unfold ring_slice. rewrite seqZ_app by lia.
  rewrite fmap_app. by rewrite (seqZ_cons _ 1) by lia.
Qed.

Lemma ring_slice_cons buf size start n :
  0 < n ->
  ring_slice buf size start n =
  ring_at buf size start :: ring_slice buf size (start + 1) (n - 1).
Proof. intros. unfold ring_slice. by rewrite seqZ_cons. Qed.

Lemma ring_at_congr buf size i j :
  i mod size = j mod size -> ring_at buf size i = ring_at buf size j.
Proof. unfold ring_at. by intros ->. Qed.

Lemma ring_slice_congr buf size i j n :
  i mod size = j mod size -> ring_slice buf size i n = ring_slice buf size j n.
Proof.
  intros Hij. unfold ring_slice. apply list_eq. intros k.
  rewrite !list_lookup_fmap.
  destruct (decide (Z.of_nat k < n)) as [Hk|Hk].
  - rewrite !lookup_seqZ_lt by lia. simpl. f_equal. apply ring_at_congr.
    rewrite <- (Zplus_mod_idemp_l i), <- (Zplus_mod_idemp_l j). by rewrite Hij.
  - by rewrite !lookup_seqZ_ge by lia.
Qed.

Lemma ring_at_write_eq buf size i x :
  0 < size -> Z.of_nat (length buf) = size ->
  ring_at (<[Z.to_nat (i mod size) := x]> buf) size i = x.
Proof.
  intros Hs Hl. unfold ring_at. apply list_lookup_total_insert_eq.
  pose proof (Z.mod_pos_bound i size Hs). lia.
Qed.

Lemma mod_window i j size :
  0 < size -> i mod size = j mod size -> Z.abs (i - j) < size -> i = j.
Proof.
  intros Hs Hm Hd. assert (Hz : (i - j) mod size = 0).
  { rewrite Zminus_mod, Hm, Z.sub_diag. apply Zmod_0_l. }
  apply Z.mod_divide in Hz; [|lia]. destruct Hz as [q Hq].
  rewrite Hq, Z.abs_mul, (Z.abs_eq size) in Hd by lia.
  assert (q = 0) by nia. lia.
Qed.

(** Writing the slot just past the window leaves the window unchanged. *)
Lemma ring_slice_write buf size start n x :
  0 < size -> 0 <= n < size ->
  ring_slice (<[Z.to_nat ((start + n) mod size) := x]> buf) size start n =
  ring_slice buf size start n.
Proof.
  intros Hs Hn. unfold ring_slice. apply list_fmap_ext. intros k z Hz.
  apply lookup_seqZ in Hz as [-> Hk]. unfold ring_at.
  apply list_lookup_total_insert_ne. intros Heq.
  apply Z2Nat.inj in Heq; [|apply Z.mod_pos_bound; lia..].
  apply mod_window in Heq; lia.
Qed.

(** A write past the window followed by growing it appends the value. *)
Lemma ring_slice_push buf size start n x :
  0 < size -> 0 <= n < size -> Z.of_nat (length buf) = size ->
  ring_slice (<[Z.to_nat ((start + n) mod size) := x]> buf) size start (n + 1) =
  ring_slice buf size start n ++ [x].
Proof.
  intros. rewrite ring_slice_snoc by lia.
  by rewrite ring_slice_write, ring_at_write_eq by lia.
Qed.
End ring.

(** ** Proof automation *)

Ltac z_cases :=
  repeat match goal with
  | |- context [?a <? ?b] => destruct (Z.ltb_spec a b)
  | |- context [?a <=? ?b] => destruct (Z.leb_spec a b)
  | |- context [?a =? ?b] => destruct (Z.eqb_spec a b)
  | H : context [?a <? ?b] |- _ => destruct (Z.ltb_spec a b)
  | H : context [?a <=? ?b] |- _ => destruct (Z.leb_spec a b)
  | H : context [?a =? ?b] |- _ => destruct (Z.eqb_spec a b)
  end.

(** Run one step of a monadic program on a concrete state. *)
Ltac mrun :=
  unfold of_option, gets, modify, exit_, undef, assert_, mbind, M_bind, mret, M_ret in *;
  cbn beta iota in *.
