(* ===== verification/Queue.v ===== *)
(** * The event queue (src/queue.c, src/queue.h, struct event of src/ride.h)

    The bounded ring of file events between the BPF ring-buffer callback
    (producer) and the processor threads (consumers), with the semaphore
    eventfd that every consumer reads before it takes an event.

    Every operation holds [queue_lock] from its first access to its last, so
    it is one atomic step of the model; interleavings of threads are sequences
    of such steps.  Logging is not modelled. *)

From stdpp Require Import base numbers list list_numbers.
From S2P Require Import Prelude.

Open Scope Z_scope.

Definition QUEUE_SIZE : Z := 8192.
Definition MAX_FILENAME_LEN : Z := 128.
Definition EAGAIN : Z := 11.
Definition EXIT_FAILURE : Z := 1.

(** [struct event]: [char path[MAX_FILENAME_LEN]] and [long path_len]. *)
Record event : Set := Event {
  path : list Z;
  path_len : Z;
}.

#[export] Instance event_eq_dec : EqDecision event.
Proof. solve_decision. Defined.

(** [memset(&event, 0, sizeof(struct event))], also the value of the entries
    of the statically allocated queue. *)
Definition event_zero : event :=
  {| path := replicate (Z.to_nat MAX_FILENAME_LEN) 0; path_len := 0 |}.

#[export] Instance event_inhabited : Inhabited event := populate event_zero.

(** [struct queue]. *)
Record queue : Set := Queue {
  events : list event;
  head : Z;
  tail : Z;
}.

(** The zero-initialised global [queue]. *)
Definition queue_static : queue :=
  {| events := replicate (Z.to_nat QUEUE_SIZE) event_zero; head := 0; tail := 0 |}.

(** ** The eventfd interface

    [eventfd_read] and [eventfd_write] are library calls on a kernel object;
    the queue is written against the operations of [Eventfd], and its theorems
    against the documented behaviour of a descriptor created with
    [EFD_SEMAPHORE | EFD_NONBLOCK] ([EventfdSem]). A read or write is [inl] its
    result or [inr errno]. *)

Class Eventfd (F : Type) := {
  eventfd_read : F -> (Z + Z) * F;
  eventfd_write : F -> Z -> (unit + Z) * F;
}.

(** The largest value an eventfd counter takes (eventfd(2)). *)
Definition EFD_MAX : Z := 2 ^ 64 - 2.

Class EventfdSem (F : Type) `{!Eventfd F} := {
  efd_count : F -> Z;
  efd_count_nonneg f : 0 <= efd_count f;
  efd_read_zero f : efd_count f = 0 -> eventfd_read f = (inr EAGAIN, f);
  efd_read_pos f : 0 < efd_count f ->
    exists f', eventfd_read f = (inl 1, f') /\ efd_count f' = efd_count f - 1;
  efd_write_ok f v : 0 <= v -> efd_count f + v <= EFD_MAX ->
    exists f', eventfd_write f v = (inl tt, f') /\ efd_count f' = efd_count f + v;
  efd_write_full f v : EFD_MAX < efd_count f + v ->
    eventfd_write f v = (inr EAGAIN, f);
}.

(** ** Operations *)

Definition queue_init : M queue unit :=
  modify (fun q => {| events := events q; head := 0; tail := 0 |}).

Definition queue_add (ev : event) : M queue Z :=
  q ← gets (fun q => q);
  if Z.rem (head q + 1) QUEUE_SIZE =? tail q then mret 1
  else
    evs ← of_option OutOfBounds (arr_set (events q) (head q) ev);
    modify (fun q => {| events := evs;
                        head := Z.rem (head q + 1) QUEUE_SIZE;
                        tail := tail q |});;
    mret 0.

(** The second component of the result is the caller's [struct event], which
    is written only when an event is taken. *)
Definition queue_consume_try {F} `{!Eventfd F} (ev : event)
    : M (queue * F) (Z * event) := fun '(q, efd) =>
  match eventfd_read efd with
  | (inr errno, efd') =>
      if negb (errno =? EAGAIN) then Exit EXIT_FAILURE
      else Ret ((EAGAIN, ev), (q, efd'))
  | (inl _, efd') =>
      if head q =? tail q then Ret ((1, ev), (q, efd'))
      else
        match arr_get (events q) (tail q) with
        | None => Undef OutOfBounds
        | Some e =>
            Ret ((0, e), ({| events := events q; head := head q;
                             tail := Z.rem (tail q + 1) QUEUE_SIZE |}, efd'))
        end
  end.

(** ** Invariant and abstraction *)

Definition queue_wf (q : queue) : Prop :=
  Z.of_nat (length (events q)) = QUEUE_SIZE /\
  0 <= head q < QUEUE_SIZE /\ 0 <= tail q < QUEUE_SIZE.

Definition queue_len (q : queue) : Z := (head q - tail q) mod QUEUE_SIZE.

(** The queued events, oldest first. *)
Definition contents (q : queue) : list event :=
  ring_slice (events q) QUEUE_SIZE (tail q) (queue_len q).

(** The specification: a bounded FIFO and the count of the semaphore. *)
Module Fifo.
Definition capacity : Z := QUEUE_SIZE - 1.

Definition add (ev : event) (l : list event) : Z * list event :=
  if Z.of_nat (length l) <? capacity then (0, l ++ [ev]) else (1, l).

Definition consume (ev : event) (l : list event) (n : Z)
    : (Z * event) * (list event * Z) :=
  if n =? 0 then ((EAGAIN, ev), (l, n))
  else match l with
       | [] => ((1, ev), ([], n - 1))
       | x :: l' => ((0, x), (l', n - 1))
       end.
End Fifo.

(** ** Lemmas *)

Lemma queue_size_pos : 0 < QUEUE_SIZE.
Proof. reflexivity. Qed.

Lemma rem_next i : 0 <= i -> Z.rem (i + 1) QUEUE_SIZE = (i + 1) mod QUEUE_SIZE.
Proof. intros. apply Z.rem_mod_nonneg; [lia|reflexivity]. Qed.

Lemma queue_len_range q : 0 <= queue_len q < QUEUE_SIZE.
Proof. apply Z.mod_pos_bound. reflexivity. Qed.

Lemma length_contents q : Z.of_nat (length (contents q)) = queue_len q.
Proof.
  unfold contents. rewrite length_ring_slice. pose proof (queue_len_range q). lia.
Qed.

(** The window ends at [head]. *)
Lemma queue_window q : queue_wf q -> (tail q + queue_len q) mod QUEUE_SIZE = head q.
Proof.
  intros (_ & Hh & _). unfold queue_len. rewrite Zplus_mod_idemp_r.
  replace (tail q + (head q - tail q)) with (head q) by lia. by apply Z.mod_small.
Qed.

(** The full test of [queue_add] holds exactly on a queue of 8191 events. *)
Lemma queue_full_iff q : queue_wf q ->
  (Z.rem (head q + 1) QUEUE_SIZE = tail q <-> queue_len q = Fifo.capacity).
Proof.
  intros Hwf. pose proof (queue_window q Hwf) as Hw. destruct Hwf as (_ & Hh & Ht).
  pose proof (queue_len_range q) as Hl. rewrite rem_next by lia.
  rewrite <- Hw at 1. rewrite Zplus_mod_idemp_l. unfold Fifo.capacity.
  rewrite <- (Z.mod_small (tail q) QUEUE_SIZE) at 2 by lia.
  split; intros H.
  - destruct (Z.eq_dec (queue_len q) (QUEUE_SIZE - 1)) as [|Hne]; [done|].
    apply mod_window in H; lia.
  - rewrite H. replace (tail q + (QUEUE_SIZE - 1) + 1) with (tail q + 1 * QUEUE_SIZE) by lia.
    by rewrite Z_mod_plus_full.
Qed.

(** The empty test of [queue_consume_try] holds exactly on the empty queue. *)
Lemma queue_empty_iff q : queue_wf q -> (head q = tail q <-> queue_len q = 0).
Proof.
  intros Hwf. pose proof (queue_window q Hwf) as Hw. destruct Hwf as (_ & Hh & Ht).
  unfold queue_len in *. split; intros H.
  - by rewrite H, Z.sub_diag.
  - rewrite H, Z.add_0_r, Z.mod_small in Hw; lia.
Qed.

Lemma mod_range i : 0 <= i mod QUEUE_SIZE < QUEUE_SIZE.
Proof. apply Z.mod_pos_bound. reflexivity. Qed.

#[export] Hint Resolve queue_size_pos queue_len_range mod_range : machine.

(** ** Behaviour of the operations *)

Lemma queue_init_spec q :
  Z.of_nat (length (events q)) = QUEUE_SIZE ->
  exists q', queue_init q = Ret (tt, q') /\ queue_wf q' /\ contents q' = [].
Proof.
  intros Hl. eexists; split; [reflexivity|]. split; [|reflexivity].
  repeat split; simpl; done || lia.
Qed.

Lemma queue_len_push q h :
  queue_wf q -> queue_len q <> Fifo.capacity ->
  h = Z.rem (head q + 1) QUEUE_SIZE ->
  (h - tail q) mod QUEUE_SIZE = queue_len q + 1.
Proof.
  intros Hwf Hn ->. destruct Hwf as (_ & Hh & Ht). rewrite rem_next by lia.
  rewrite Zminus_mod_idemp_l.
  replace (head q + 1 - tail q) with (head q - tail q + 1) by lia.
  rewrite <- Zplus_mod_idemp_l. fold (queue_len q). apply Z.mod_small.
  pose proof (queue_len_range q). unfold Fifo.capacity in Hn. lia.
Qed.

Lemma queue_add_push ev q :
  queue_wf q -> queue_len q <> Fifo.capacity ->
  exists q', queue_add ev q = Ret (0, q') /\ queue_wf q' /\
             contents q' = contents q ++ [ev].
Proof.
  intros Hwf Hn. pose proof (queue_window q Hwf) as Hw.
  pose proof (queue_full_iff q Hwf) as Hf. destruct (Hwf) as (Hl & Hh & Ht).
  unfold queue_add. mrun.
  rewrite (proj2 (Z.eqb_neq _ _)) by tauto. rewrite arr_set_in by lia. simpl.
  eexists; split; [reflexivity|]. split.
  - unfold queue_wf. cbn [events head tail]. rewrite length_insert, rem_next by lia.
    auto with machine.
  - unfold contents at 1. simpl. unfold queue_len. simpl.
    rewrite (queue_len_push q _ Hwf Hn) by done. rewrite <- Hw at 1.
    apply ring_slice_push; [done| |lia].
    pose proof (queue_len_range q). lia.
Qed.

Lemma queue_add_full ev q :
  queue_wf q -> queue_len q = Fifo.capacity -> queue_add ev q = Ret (1, q).
Proof.
  intros Hwf Hf. apply queue_full_iff in Hf; [|done].
  unfold queue_add. mrun. by rewrite (proj2 (Z.eqb_eq _ _) Hf).
Qed.

(** [queue_add] implements [Fifo.add]. *)
Lemma queue_add_refines ev q :
  queue_wf q ->
  exists q', queue_add ev q = Ret (fst (Fifo.add ev (contents q)), q') /\
             queue_wf q' /\ contents q' = snd (Fifo.add ev (contents q)).
Proof.
  intros Hwf. unfold Fifo.add. rewrite length_contents.
  pose proof (queue_len_range q). unfold Fifo.capacity.
  destruct (Z.ltb_spec (queue_len q) (QUEUE_SIZE - 1)).
  - apply queue_add_push; [done|unfold Fifo.capacity; lia].
  - exists q. split; [apply queue_add_full; [done|unfold Fifo.capacity; lia]|done].
Qed.

Section consume.
Context {F : Type} `{!Eventfd F, !EventfdSem F}.

Lemma queue_pop_wf q :
  queue_wf q -> head q <> tail q ->
  let q' := {| events := events q; head := head q;
               tail := Z.rem (tail q + 1) QUEUE_SIZE |} in
  queue_wf q' /\
  contents q = events q !!! Z.to_nat (tail q) :: contents q'.
Proof.
  intros Hwf Hne q'. pose proof (queue_empty_iff q Hwf) as He.
  destruct Hwf as (Hl & Hh & Ht). pose proof (queue_len_range q) as Hr.
  assert (Hlen : queue_len q' = queue_len q - 1).
  { unfold queue_len at 1. simpl. rewrite rem_next, Zminus_mod_idemp_r by lia.
    replace (head q - (tail q + 1)) with (head q - tail q - 1) by lia.
    rewrite <- Zminus_mod_idemp_l. apply Z.mod_small. fold (queue_len q).
    destruct (Z.eq_dec (queue_len q) 0); [tauto|lia]. }
  split.
  - unfold queue_wf, q'. cbn [events head tail]. rewrite rem_next by lia.
    auto with machine.
  - unfold contents at 1. rewrite ring_slice_cons by (destruct (Z.eq_dec (queue_len q) 0); [tauto|lia]).
    f_equal.
    + unfold ring_at. by rewrite Z.mod_small by lia.
    + unfold contents. rewrite Hlen. simpl. rewrite rem_next by lia.
      apply ring_slice_congr. by rewrite Zmod_mod.
Qed.

(** [queue_consume_try] implements [Fifo.consume]. *)
Lemma queue_consume_refines ev q efd :
  queue_wf q ->
  let s := Fifo.consume ev (contents q) (efd_count efd) in
  exists q' efd',
    queue_consume_try ev (q, efd) = Ret (fst s, (q', efd')) /\
    queue_wf q' /\ contents q' = fst (snd s) /\ efd_count efd' = snd (snd s).
Proof.
  intros Hwf s. subst s. unfold Fifo.consume, queue_consume_try.
  pose proof (efd_count_nonneg efd) as Hc.
  destruct (Z.eqb_spec (efd_count efd) 0) as [Hz|Hz].
  { rewrite efd_read_zero by done. simpl. eauto 10. }
  destruct (efd_read_pos efd) as (efd' & -> & Hcnt); [lia|].
  pose proof (queue_empty_iff q Hwf) as He. pose proof (length_contents q) as Hlc.
  destruct (Z.eqb_spec (head q) (tail q)) as [Ht|Ht].
  - assert (Hnil : contents q = []).
    { apply nil_length_inv. rewrite (proj1 He Ht) in Hlc. lia. }
    rewrite Hnil. simpl. exists q, efd'. eauto 10.
  - destruct (queue_pop_wf q Hwf Ht) as [Hwf' Hcons].
    destruct (Hwf) as (Hl & Hh & Htl).
    rewrite arr_get_total by lia.
    rewrite Hcons. simpl. eauto 10.
Qed.
End consume.

(** A concrete eventfd: the semaphore counter itself. *)
#[export] Instance N_eventfd : Eventfd N := {
  eventfd_read n := if (n =? 0)%N then (inr EAGAIN, n) else (inl 1, N.pred n);
  eventfd_write n v :=
    if EFD_MAX <? Z.of_N n + v then (inr EAGAIN, n) else (inl tt, Z.to_N (Z.of_N n + v));
}.

#[export] Instance N_eventfd_sem : EventfdSem N.
Proof.
  refine {| efd_count := Z.of_N |}; intros; simpl.
  - lia.
  - by assert (f = 0%N) as -> by lia.
  - destruct (N.eqb_spec f 0); [lia|]. exists (N.pred f). split; [done|lia].
  - z_cases; [lia|]. eexists; split; [done|lia].
  - by z_cases; [|lia].
Defined.

(** ** Traces

    Any interleaving of producers and consumers is a sequence of the atomic
    operations below (an [eventfd_write] is a single system call). *)

Inductive qop : Set :=
  | QAdd (ev : event)
  | QSignal
  | QConsume (out : event).

Definition run_qop {F} `{!Eventfd F} (op : qop) : M (queue * F) (Z * event) :=
  fun '(q, efd) =>
  match op with
  | QAdd ev =>
      match queue_add ev q with
      | Ret (r, q') => Ret ((r, ev), (q', efd))
      | Exit c => Exit c
      | AssertFailed => AssertFailed
      | Undef u => Undef u
      | OutOfFuel => OutOfFuel
      end
  | QSignal =>
      match eventfd_write efd 1 with
      | (inl _, efd') => Ret ((0, event_zero), (q, efd'))
      | (inr e, efd') => Ret ((e, event_zero), (q, efd'))
      end
  | QConsume out => queue_consume_try out (q, efd)
  end.

Fixpoint run_qops {F} `{!Eventfd F} (ops : list qop) : M (queue * F) (list (Z * event)) :=
  match ops with
  | [] => mret []
  | op :: ops => r ← run_qop op; rs ← run_qops ops; mret (r :: rs)
  end.

Module FifoTrace.
Definition step (op : qop) (s : list event * Z) : (Z * event) * (list event * Z) :=
  let '(l, n) := s in
  match op with
  | QAdd ev => let '(r, l') := Fifo.add ev l in ((r, ev), (l', n))
  | QSignal => if EFD_MAX <? n + 1 then ((EAGAIN, event_zero), (l, n))
               else ((0, event_zero), (l, n + 1))
  | QConsume out => Fifo.consume out l n
  end.

Fixpoint run (ops : list qop) (s : list event * Z) : list (Z * event) * (list event * Z) :=
  match ops with
  | [] => ([], s)
  | op :: ops =>
      let '(r, s1) := step op s in
      let '(rs, s2) := run ops s1 in (r :: rs, s2)
  end.

(** The events that [queue_add] accepted and that [queue_consume_try] handed
    out, in order. *)
Definition accepted (op : qop) (r : Z * event) : list event :=
  match op with QAdd ev => if fst r =? 0 then [ev] else [] | _ => [] end.
Definition delivered (op : qop) (r : Z * event) : list event :=
  match op with QConsume _ => if fst r =? 0 then [snd r] else [] | _ => [] end.
Definition log (f : qop -> Z * event -> list event) (ops : list qop) (rs : list (Z * event)) :=
  concat (zip_with f ops rs).
End FifoTrace.

Section traces.
Context {F : Type} `{!Eventfd F, !EventfdSem F}.

Definition queue_rel (s : queue * F) (a : list event * Z) : Prop :=
  queue_wf (fst s) /\ contents (fst s) = fst a /\ efd_count (snd s) = snd a.

Lemma run_qop_refines op s a :
  queue_rel s a ->
  exists s', run_qop op s = Ret (fst (FifoTrace.step op a), s') /\
             queue_rel s' (snd (FifoTrace.step op a)).
Proof.
  destruct s as [q efd], a as [l n]. intros (Hwf & Hc & Hn).
  cbn [fst snd] in *. subst l n.
  destruct op as [ev| |out]; cbn [run_qop FifoTrace.step].
  - destruct (queue_add_refines ev q Hwf) as (q' & -> & Hwf' & Hc').
    destruct (Fifo.add ev (contents q)) as [r l']. simpl in *.
    eexists; split; [done|]. unfold queue_rel; simpl; auto.
  - destruct (Z.ltb_spec EFD_MAX (efd_count efd + 1)).
    + rewrite efd_write_full by done. eexists; split; [done|]. unfold queue_rel; simpl; auto.
    + destruct (efd_write_ok efd 1) as (efd' & -> & He); [lia..|].
      eexists; split; [done|]. unfold queue_rel; simpl; auto.
  - destruct (queue_consume_refines out q efd Hwf) as (q' & efd' & -> & Hwf' & Hc' & He').
    eexists; split; [done|]. unfold queue_rel; simpl; auto.
Qed.

Lemma run_qops_refines ops s a :
  queue_rel s a ->
  exists s', run_qops ops s = Ret (fst (FifoTrace.run ops a), s') /\
             queue_rel s' (snd (FifoTrace.run ops a)).
Proof.
  revert s a. induction ops as [|op ops IH]; intros s a Hrel; simpl.
  { exists s. by split. }
  destruct (run_qop_refines op s a Hrel) as (s1 & H1 & Hrel1).
  destruct (FifoTrace.step op a) as [r a1]. simpl in *.
  destruct (IH s1 a1 Hrel1) as (s2 & H2 & Hrel2).
  rewrite (bind_Ret _ _ _ _ _ H1), (bind_Ret _ _ _ _ _ H2).
  destruct (FifoTrace.run ops a1) as [rs a2]. simpl in *. eauto.
Qed.
End traces.

(** In the specification, what was delivered followed by what is still queued
    is what was queued at the start followed by what was accepted. *)
Lemma fifo_run_order ops l n :
  let '(rs, (l', _)) := FifoTrace.run ops (l, n) in
  FifoTrace.log FifoTrace.delivered ops rs ++ l' = l ++ FifoTrace.log FifoTrace.accepted ops rs.
Proof.
  revert l n. induction ops as [|op ops IH]; intros l n; cbn [FifoTrace.run].
  { symmetry. apply app_nil_r. }
  destruct op as [ev| |out]; cbn [FifoTrace.step]; unfold Fifo.add, Fifo.consume.
  - destruct (Z.of_nat (length l) <? Fifo.capacity).
    + specialize (IH (l ++ [ev]) n). destruct (FifoTrace.run _ _) as [rs [l' n']].
      unfold FifoTrace.log in *. simpl. rewrite IH. by rewrite <- app_assoc.
    + specialize (IH l n). by destruct (FifoTrace.run _ _) as [rs [l' n']].
  - destruct (EFD_MAX <? n + 1).
    + specialize (IH l n). by destruct (FifoTrace.run _ _) as [rs [l' n']].
    + specialize (IH l (n + 1)). by destruct (FifoTrace.run _ _) as [rs [l' n']].
  - destruct (n =? 0); [|destruct l as [|x l]].
    + specialize (IH l n). by destruct (FifoTrace.run _ _) as [rs [l' n']].
    + specialize (IH [] (n - 1)). by destruct (FifoTrace.run _ _) as [rs [l' n']].
    + specialize (IH l (n - 1)). destruct (FifoTrace.run _ _) as [rs [l' n']].
      unfold FifoTrace.log in *. simpl. by rewrite IH.
Qed.

(** ** Properties *)

Section properties.
Context {F : Type} `{!Eventfd F, !EventfdSem F}.

(** C7. Refinement: after [queue_init], every sequence of [queue_add],
    eventfd signals and [queue_consume_try] calls, by any threads in any
    order, returns exactly what a bounded FIFO of 8191 events with a counting
    semaphore returns, never accesses the ring out of bounds, and leaves the
    ring well formed with the FIFO's contents. *)
Theorem queue_refines_fifo ops (efd : F) :
  exists q0 s',
    queue_init queue_static = Ret (tt, q0) /\
    run_qops ops (q0, efd) = Ret (fst (FifoTrace.run ops ([], efd_count efd)), s') /\
    queue_rel s' (snd (FifoTrace.run ops ([], efd_count efd))).
Proof.
  destruct (queue_init_spec queue_static) as (q0 & Hq & Hwf & Hc); [by vm_compute|].
  destruct (run_qops_refines ops (q0, efd) ([], efd_count efd)) as (s' & Hr & Hrel).
  { unfold queue_rel; auto. }
  eauto.
Qed.

(** Ordering: the events handed to consumers followed by the events
    still queued are exactly the accepted events in the order they were
    added: none is lost, duplicated or reordered. *)
Theorem queue_delivers_in_order ops q (efd : F) :
  queue_wf q ->
  exists rs q' efd',
    run_qops ops (q, efd) = Ret (rs, (q', efd')) /\
    FifoTrace.log FifoTrace.delivered ops rs ++ contents q' =
    contents q ++ FifoTrace.log FifoTrace.accepted ops rs.
Proof.
  intros Hwf.
  destruct (run_qops_refines ops (q, efd) (contents q, efd_count efd))
    as ([q' efd'] & Hr & _ & Hc & _); [unfold queue_rel; auto|].
  pose proof (fifo_run_order ops (contents q) (efd_count efd)) as Ho.
  destruct (FifoTrace.run ops _) as [rs [l n]]. simpl in *. subst l. eauto 10.
Qed.

(** The eventfd gates consumption: with its counter at zero
    [queue_consume_try] returns [EAGAIN] (11) and takes nothing, however many
    events are queued. *)
Theorem queue_consume_needs_token ev q (efd : F) :
  efd_count efd = 0 ->
  queue_consume_try ev (q, efd) = Ret ((EAGAIN, ev), (q, efd)).
Proof. intros Hz. unfold queue_consume_try. by rewrite efd_read_zero. Qed.
End properties.

Definition ev_a : event := {| path := [47; 97; 0]; path_len := 2 |}.
Definition ev_b : event := {| path := [47; 98; 0]; path_len := 2 |}.

Lemma queue_refines_fifo_witness :
  exists q0 s',
    queue_init queue_static = Ret (tt, q0) /\
    run_qops [QAdd ev_a; QSignal; QAdd ev_b; QConsume event_zero; QConsume event_zero] (q0, 0%N)
      = Ret ([(0, ev_a); (0, event_zero); (0, ev_b); (0, ev_a); (EAGAIN, event_zero)], s').
Proof.
  destruct (queue_refines_fifo
    [QAdd ev_a; QSignal; QAdd ev_b; QConsume event_zero; QConsume event_zero] 0%N)
    as (q0 & s' & H0 & H1 & _).
  exists q0, s'. split; [exact H0|]. rewrite H1. reflexivity.
Defined.

Lemma queue_delivers_in_order_witness :
  queue_wf queue_static /\
  exists rs q' efd',
    run_qops [QAdd ev_a; QSignal; QConsume event_zero] (queue_static, 0%N) = Ret (rs, (q', efd')) /\
    FifoTrace.log FifoTrace.delivered [QAdd ev_a; QSignal; QConsume event_zero] rs ++ contents q' =
    contents queue_static ++
      FifoTrace.log FifoTrace.accepted [QAdd ev_a; QSignal; QConsume event_zero] rs.
Proof.
  assert (H : queue_wf queue_static) by (split; [by vm_compute|split; by vm_compute]).
  split; [exact H|].
  apply (queue_delivers_in_order [QAdd ev_a; QSignal; QConsume event_zero] queue_static 0%N H).
Defined.

(** A queue holding one event, whose consumer's eventfd is not signalled. *)
Lemma queue_consume_needs_token_witness :
  let q := {| events := <[0%nat := ev_a]> (events queue_static); head := 1; tail := 0 |} in
  contents q = [ev_a] /\
  queue_consume_try event_zero (q, 0%N) = Ret ((EAGAIN, event_zero), (q, 0%N)).
Proof.
  intros q. split; [by vm_compute|].
  apply (queue_consume_needs_token event_zero q 0%N). reflexivity.
Defined.
