(* ===== verification/Ev.v ===== *)
(** * The io_uring event loop (src/ev.c, src/ev.h)

    Requests are objects with an address: [req_ptr] names the requests the
    program submits (the poll request of a processor, the requests of its slab,
    the three requests of its verifier) and [ptr] the other objects whose
    address goes through an integer or [void *] field. Distinct objects have
    distinct addresses; nothing else of an address is used.

    The submission ring (SQ) and completion ring (CQ) are the memory shared
    with the kernel: free-running 32-bit indices, a mask and an entry array.
    The kernel advances the SQ head and the CQ tail; the program the others.
    Logging is not modelled. *)

From stdpp Require Import base numbers list list_numbers.
From S2P Require Import Prelude.

Open Scope Z_scope.

(** ** Data *)

Inductive req_ptr : Set :=
  | RQueuePoll            (* &processor->queue_poll_req *)
  | RSlot (i : nat)       (* &processor->reqs[i].req *)
  | RConn                 (* &verifier->conn_req *)
  | RRecv                 (* &verifier->recv_req *)
  | RTimer.               (* &verifier->timer_req *)

#[export] Instance req_ptr_eq_dec : EqDecision req_ptr.
Proof. solve_decision. Defined.

Inductive ptr : Set :=
  | PReq (r : req_ptr)
  | PProcessor            (* the processor *)
  | PVerifier             (* &processor->verifier *)
  | PIouReq (i : nat)     (* &processor->reqs[i] *)
  | PStr (a : nat)        (* a heap string *)
  | PBuffer (i : nat)     (* processor->buffers[i] *)
  | PExpiry               (* &verifier->expiry *)
  | PReadbuf              (* verifier->readbuf *)
  | PRemoteAddr.          (* &verifier->remote_addr *)

#[export] Instance ptr_eq_dec : EqDecision ptr.
Proof. solve_decision. Defined.

(** A [uint64_t] field that holds an integer or a pointer cast to one. *)
Inductive word64 : Set :=
  | WInt (z : Z)
  | WPtr (p : ptr).

#[export] Instance word64_eq_dec : EqDecision word64.
Proof. solve_decision. Defined.

(** The functions stored in [callback] fields. *)
Inductive callback_t : Set :=
  | on_queue_event_cb
  | on_file_open_cb
  | on_file_read_cb
  | on_socket_create_cb
  | on_socket_connect_cb
  | on_socket_read_cb
  | on_socket_timeout_cb
  | on_socket_timeout_update_cb.

#[export] Instance callback_eq_dec : EqDecision callback_t.
Proof. solve_decision. Defined.

(** [ev_io_req_t]; a null [void *] or function pointer is [None]. *)
Record ev_io_req : Set := EvIoReq {
  opcode : Z;
  off : word64;
  addr : word64;
  fd : Z;
  len : Z;
  flags : Z;
  result : Z;
  result_flags : Z;
  data : option ptr;
  data2 : option ptr;
  callback : option callback_t;
}.

Definition ev_io_req_zero : ev_io_req :=
  {| opcode := 0; off := WInt 0; addr := WInt 0; fd := 0; len := 0; flags := 0;
     result := 0; result_flags := 0; data := None; data2 := None; callback := None |}.

#[export] Instance ev_io_req_inhabited : Inhabited ev_io_req := populate ev_io_req_zero.

(** The fields of [struct io_uring_sqe] and [struct io_uring_cqe] that ev.c
    uses. *)
Record io_uring_sqe : Set := Sqe {
  sqe_opcode : Z;
  sqe_flags : Z;
  sqe_fd : Z;
  sqe_off : word64;
  sqe_addr : word64;
  sqe_len : Z;
  sqe_poll32_events : Z;
  sqe_user_data : word64;
}.

Definition sqe_zero : io_uring_sqe :=
  {| sqe_opcode := 0; sqe_flags := 0; sqe_fd := 0; sqe_off := WInt 0; sqe_addr := WInt 0;
     sqe_len := 0; sqe_poll32_events := 0; sqe_user_data := WInt 0 |}.

#[export] Instance sqe_inhabited : Inhabited io_uring_sqe := populate sqe_zero.

Record io_uring_cqe : Set := Cqe {
  cqe_user_data : word64;
  cqe_res : Z;
  cqe_flags : Z;
}.

#[export] Instance cqe_inhabited : Inhabited io_uring_cqe := populate (Cqe (WInt 0) 0 0).

(** [struct ev__iou_ring], with the words its pointers refer to. *)
Record ev__iou_ring : Set := IouRing {
  ring_head : Z;
  ring_tail : Z;
  ring_mask : Z;
  ring_flags : Z;
}.

Record ev_loop : Set := EvLoop {
  iou_sqe : ev__iou_ring;
  iou_cqe : ev__iou_ring;
  sqes : list io_uring_sqe;
  cqes : list io_uring_cqe;
  ringfd : Z;
}.

Definition EV_FULL : Z := 1.
Definition IOU_SIZE_WANT : Z := 128.
Definition IORING_SETUP_SQPOLL : Z := 2.
Definition IORING_SETUP_NO_SQARRAY : Z := 2 ^ 16.
Definition IORING_SQ_NEED_WAKEUP : Z := 1.
Definition IORING_ENTER_GETEVENTS : Z := 1.
Definition IORING_ENTER_SQ_WAKEUP : Z := 2.

(** ** The kernel interface

    The system calls, on an abstract state [W] of the rest of the world.
    [io_uring_enter fd to_submit min_complete flags] returns the C [int].  A
    successful [mmap] gives the shared words as the kernel set them up. *)

Class IoUring (W : Type) := {
  io_uring_setup : Z -> Z -> W -> Z * W;
  mmap_sq : Z -> W -> option ev__iou_ring * W;
  mmap_cq : Z -> W -> option (ev__iou_ring * list io_uring_cqe) * W;
  mmap_sqes : Z -> W -> option (list io_uring_sqe) * W;
  io_uring_enter : Z -> Z -> Z -> Z -> W -> Z * W;
}.

Section ev.
Context {W : Type} `{!IoUring W}.

Definition ev__setup_io_uring : M (option ev_loop * W) Z := fun '(_, w) =>
  let '(ringfd, w) := io_uring_setup IOU_SIZE_WANT
                        (Z.lor IORING_SETUP_SQPOLL IORING_SETUP_NO_SQARRAY) w in
  if ringfd <? 1 then Exit 1
  else
    let '(sq, w) := mmap_sq ringfd w in
    let '(cq, w) := mmap_cq ringfd w in
    let '(sqes, w) := mmap_sqes ringfd w in
    match sq, cq, sqes with
    | Some sqe, Some (cqe, cqes), Some sqes =>
        Ret (0, (Some {| iou_sqe := sqe; iou_cqe := cqe; sqes := sqes; cqes := cqes;
                         ringfd := ringfd |}, w))
    | _, _, _ => Exit 1
    end.

Definition ev_loop_init : M (option ev_loop * W) Z :=
  ev__setup_io_uring;; mret 0.

Definition set_sq_tail (l : ev_loop) (t : Z) : ev_loop :=
  {| iou_sqe := {| ring_head := ring_head (iou_sqe l); ring_tail := t;
                   ring_mask := ring_mask (iou_sqe l); ring_flags := ring_flags (iou_sqe l) |};
     iou_cqe := iou_cqe l; sqes := sqes l; cqes := cqes l; ringfd := ringfd l |}.

Definition set_sqes (l : ev_loop) (s : list io_uring_sqe) : ev_loop :=
  {| iou_sqe := iou_sqe l; iou_cqe := iou_cqe l; sqes := s; cqes := cqes l;
     ringfd := ringfd l |}.

Definition set_cq_head (l : ev_loop) (h : Z) : ev_loop :=
  {| iou_sqe := iou_sqe l;
     iou_cqe := {| ring_head := h; ring_tail := ring_tail (iou_cqe l);
                   ring_mask := ring_mask (iou_cqe l); ring_flags := ring_flags (iou_cqe l) |};
     sqes := sqes l; cqes := cqes l; ringfd := ringfd l |}.

(** [ret] is a [uint32_t], so the [int] of [io_uring_enter] is converted
    before it is compared with zero. *)
Definition ev__iou_submit : M (ev_loop * W) Z := fun '(l, w) =>
  let l := set_sq_tail l (u32 (ring_tail (iou_sqe l) + 1)) in
  let flags := ring_flags (iou_sqe l) in
  if negb (Z.land flags IORING_SQ_NEED_WAKEUP =? 0) then
    let '(r, w) := io_uring_enter (ringfd l) 1 0 IORING_ENTER_SQ_WAKEUP w in
    let ret := u32 r in
    if ret <? 0 then Exit 1 else Ret (0, (l, w))
  else Ret (0, (l, w)).

(** The entry [ev_iou_req] writes: zeroed, then filled from the request;
    [user_data] is the address of the request. *)
Definition sqe_of_req (rp : req_ptr) (req : ev_io_req) : io_uring_sqe :=
  {| sqe_opcode := opcode req; sqe_flags := 0; sqe_fd := fd req; sqe_off := off req;
     sqe_addr := addr req; sqe_len := len req; sqe_poll32_events := flags req;
     sqe_user_data := WPtr (PReq rp) |}.

Definition ev_iou_req (rp : req_ptr) (req : ev_io_req) : M (ev_loop * W) Z := fun '(l, w) =>
  let head := ring_head (iou_sqe l) in
  let tail := ring_tail (iou_sqe l) in
  let index := Z.land tail (ring_mask (iou_sqe l)) in
  if ring_mask (iou_sqe l) <? u32 (tail - head) then Ret (EV_FULL, (l, w))
  else
    match arr_set (sqes l) index (sqe_of_req rp req) with
    | None => Undef OutOfBounds
    | Some s => ev__iou_submit (set_sqes l s, w)
    end.

Definition ev__io_poll : M (ev_loop * W) Z := fun '(l, w) =>
  let '(r, w) := io_uring_enter (ringfd l) 0 1 IORING_ENTER_GETEVENTS w in
  Ret (r, (l, w)).
End ev.

(** ** The reaping loop

    [ev_loop_run] runs inside a host state [S] (the processor thread) that
    contains the loop; [store_result r res flags] is the pair of assignments to
    [req->result] and [req->result_flags], [run_callback r] the call
    [req->callback(req)]. *)

Class LoopHost (S W : Type) := {
  host_loop : S -> ev_loop;
  host_world : S -> W;
  host_set : ev_loop -> W -> S -> S;
  host_loop_set l w s : host_loop (host_set l w s) = l;
  host_world_set l w s : host_world (host_set l w s) = w;
}.

(** Run code of the loop inside the host. *)
Definition in_loop {S W A} `{!LoopHost S W} (m : M (ev_loop * W) A) : M S A := fun s =>
  match m (host_loop s, host_world s) with
  | Ret (a, (l, w)) => Ret (a, host_set l w s)
  | Exit c => Exit c
  | AssertFailed => AssertFailed
  | Undef u => Undef u
  | OutOfFuel => OutOfFuel
  end.

Section run.
Context {S W : Type} `{!IoUring W, !LoopHost S W}.
Context (store_result : req_ptr -> Z -> Z -> S -> S).
Context (run_callback : req_ptr -> M S unit).

(** The body of the [for] loop, for the entry [c]. *)
Definition ev_complete (c : io_uring_cqe) : M S unit :=
  match cqe_user_data c with
  | WPtr (PReq r) =>
      modify (store_result r (cqe_res c) (cqe_flags c));;
      run_callback r
  | _ => undef BadPointer
  end.

Fixpoint ev_reap (fuel : nat) (i tail mask : Z) : M S unit :=
  if i =? tail then mret tt
  else
    match fuel with
    | O => fun _ => OutOfFuel
    | Datatypes.S fuel =>
        l ← gets host_loop;
        c ← of_option OutOfBounds (arr_get (cqes l) (Z.land i mask));
        ev_complete c;;
        ev_reap fuel (u32 (i + 1)) tail mask
    end.

(** One turn of [while (1)]. *)
Definition ev_loop_turn : M S unit :=
  r ← in_loop ev__io_poll;
  if u32 r <? 0 then exit_ 1
  else
    l ← gets host_loop;
    let tail := ring_tail (iou_cqe l) in
    let head := ring_head (iou_cqe l) in
    let mask := ring_mask (iou_cqe l) in
    ev_reap (Z.to_nat (u32 (tail - head))) head tail mask;;
    modify (fun s => host_set (set_cq_head (host_loop s) tail) (host_world s) s).

(** [fuel] bounds the turns observed; the loop has no exit of its own. *)
Fixpoint ev_loop_run (fuel : nat) : M S Z :=
  match fuel with
  | O => fun _ => OutOfFuel
  | Datatypes.S fuel => ev_loop_turn;; ev_loop_run fuel
  end.

(** The reference: handle a list of completions in order. *)
Fixpoint complete_all (cs : list io_uring_cqe) : M S unit :=
  match cs with
  | [] => mret tt
  | c :: cs => ev_complete c;; complete_all cs
  end.
End run.

(** ** Abstraction of the rings *)

Definition sq_size (l : ev_loop) : Z := ring_mask (iou_sqe l) + 1.
Definition sq_len (l : ev_loop) : Z := u32 (ring_tail (iou_sqe l) - ring_head (iou_sqe l)).

(** The entries the kernel has not consumed, oldest first. *)
Definition sq_pending (l : ev_loop) : list io_uring_sqe :=
  ring_slice (sqes l) (sq_size l) (ring_head (iou_sqe l)) (sq_len l).

Definition sq_wf (l : ev_loop) : Prop :=
  is_mask (ring_mask (iou_sqe l)) /\
  Z.of_nat (length (sqes l)) = sq_size l /\
  0 <= ring_tail (iou_sqe l) < 2 ^ 32 /\
  0 <= ring_head (iou_sqe l) < 2 ^ 32 /\
  sq_len l <= sq_size l.

Definition cq_size (l : ev_loop) : Z := ring_mask (iou_cqe l) + 1.
Definition cq_len (l : ev_loop) : Z := u32 (ring_tail (iou_cqe l) - ring_head (iou_cqe l)).

(** The completions the program has not handled, oldest first. *)
Definition cq_pending (l : ev_loop) : list io_uring_cqe :=
  ring_slice (cqes l) (cq_size l) (ring_head (iou_cqe l)) (cq_len l).

Definition cq_wf (l : ev_loop) : Prop :=
  is_mask (ring_mask (iou_cqe l)) /\
  Z.of_nat (length (cqes l)) = cq_size l /\
  0 <= ring_tail (iou_cqe l) < 2 ^ 32 /\
  0 <= ring_head (iou_cqe l) < 2 ^ 32.

(** The kernel takes the oldest entry of the SQ. *)
Definition kernel_take (l : ev_loop) : ev_loop :=
  {| iou_sqe := {| ring_head := u32 (ring_head (iou_sqe l) + 1);
                   ring_tail := ring_tail (iou_sqe l);
                   ring_mask := ring_mask (iou_sqe l);
                   ring_flags := ring_flags (iou_sqe l) |};
     iou_cqe := iou_cqe l; sqes := sqes l; cqes := cqes l; ringfd := ringfd l |}.

(** The kernel posts a completion. *)
Definition kernel_post (c : io_uring_cqe) (l : ev_loop) : ev_loop :=
  {| iou_sqe := iou_sqe l;
     iou_cqe := {| ring_head := ring_head (iou_cqe l);
                   ring_tail := u32 (ring_tail (iou_cqe l) + 1);
                   ring_mask := ring_mask (iou_cqe l);
                   ring_flags := ring_flags (iou_cqe l) |};
     sqes := sqes l;
     cqes := <[Z.to_nat (Z.land (ring_tail (iou_cqe l)) (ring_mask (iou_cqe l))) := c]> (cqes l);
     ringfd := ringfd l |}.

(** The world after the wake-up call of a submission. *)
Definition wakeup {W} `{!IoUring W} (l : ev_loop) (w : W) : W :=
  if negb (Z.land (ring_flags (iou_sqe l)) IORING_SQ_NEED_WAKEUP =? 0)
  then snd (io_uring_enter (ringfd l) 1 0 IORING_ENTER_SQ_WAKEUP w) else w.

(** ** Lemmas *)

Lemma cq_len_range l : 0 <= cq_len l < 2 ^ 32.
Proof. apply u32_range. Qed.
Lemma sq_len_range l : 0 <= sq_len l < 2 ^ 32.
Proof. apply u32_range. Qed.
#[export] Hint Resolve cq_len_range sq_len_range : machine.

Lemma length_sq_pending l : Z.of_nat (length (sq_pending l)) = sq_len l.
Proof. unfold sq_pending. rewrite length_ring_slice. pose proof (sq_len_range l). lia. Qed.

Lemma sq_size_pos l : sq_wf l -> 0 < sq_size l <= 2 ^ 31.
Proof. intros (Hm & _). apply is_mask_range in Hm. unfold sq_size. lia. Qed.

Section submit.
Context {W : Type} `{!IoUring W}.

(** The [int] result of the wake-up call never reaches the error branch. *)
Lemma ev__iou_submit_ok l (w : W) :
  ev__iou_submit (l, w) =
  Ret (0, (set_sq_tail l (u32 (ring_tail (iou_sqe l) + 1)), wakeup l w)).
Proof.
  unfold ev__iou_submit, wakeup. simpl.
  destruct (negb _); [|done].
  destruct (io_uring_enter _ _ _ _ w) as [r w']. simpl.
  pose proof (u32_range r). by destruct (Z.ltb_spec (u32 r) 0); [lia|].
Qed.

(** The loop after a submission that found room. *)
Definition sq_push (rp : req_ptr) (req : ev_io_req) (l : ev_loop) : ev_loop :=
  set_sq_tail
    (set_sqes l (<[Z.to_nat (ring_tail (iou_sqe l) mod sq_size l) := sqe_of_req rp req]> (sqes l)))
    (u32 (ring_tail (iou_sqe l) + 1)).

Lemma ev_iou_req_room rp req l (w : W) :
  sq_wf l -> sq_len l < sq_size l ->
  ev_iou_req rp req (l, w) = Ret (0, (sq_push rp req l, wakeup l w)).
Proof.
  intros Hwf Hr. pose proof (sq_size_pos l Hwf) as Hp. destruct Hwf as (Hm & Hl & Ht & Hh & _).
  unfold ev_iou_req. unfold sq_len, sq_size in Hr.
  destruct (Z.ltb_spec (ring_mask (iou_sqe l)) (u32 (ring_tail (iou_sqe l) - ring_head (iou_sqe l))));
    [lia|].
  rewrite land_mask by done. fold (sq_size l).
  pose proof (Z.mod_pos_bound (ring_tail (iou_sqe l)) (sq_size l)).
  rewrite arr_set_in by lia. by rewrite ev__iou_submit_ok.
Qed.

Lemma ev_iou_req_full rp req l (w : W) :
  sq_len l = sq_size l -> ev_iou_req rp req (l, w) = Ret (EV_FULL, (l, w)).
Proof.
  intros Hf. unfold ev_iou_req. unfold sq_len, sq_size in Hf.
  by destruct (Z.ltb_spec (ring_mask (iou_sqe l))
    (u32 (ring_tail (iou_sqe l) - ring_head (iou_sqe l)))); [|lia].
Qed.
End submit.

Lemma sq_push_len rp req l :
  sq_wf l -> sq_len l < sq_size l -> sq_len (sq_push rp req l) = sq_len l + 1.
Proof.
  intros Hwf Hr. pose proof (sq_size_pos l Hwf). unfold sq_len at 1. simpl.
  apply window_grow. fold (sq_len l). lia.
Qed.

Lemma sq_push_wf rp req l :
  sq_wf l -> sq_len l < sq_size l -> sq_wf (sq_push rp req l).
Proof.
  intros Hwf Hr. pose proof (sq_push_len rp req l Hwf Hr) as Hlen.
  destruct Hwf as (Hm & Hl & Ht & Hh & _). unfold sq_wf. rewrite Hlen.
  change (sq_size (sq_push rp req l)) with (sq_size l).
  split_and!; simpl; rewrite ?length_insert; auto with machine; try lia.
  - apply u32_range.
  - apply u32_range.
Qed.

Lemma sq_push_pending rp req l :
  sq_wf l -> sq_len l < sq_size l ->
  sq_pending (sq_push rp req l) = sq_pending l ++ [sqe_of_req rp req].
Proof.
  intros Hwf Hr. pose proof (sq_size_pos l Hwf). unfold sq_pending at 1.
  rewrite sq_push_len by done. change (sq_size (sq_push rp req l)) with (sq_size l).
  destruct Hwf as (Hm & Hl & Ht & Hh & _). simpl.
  pose proof (window_end _ (ring_head (iou_sqe l)) (ring_tail (iou_sqe l)) Hm) as He.
  fold (sq_len l) (sq_size l) in He. rewrite <- He.
  apply ring_slice_push; auto with machine; try lia.
  pose proof (sq_len_range l). lia.
Qed.

Lemma kernel_take_len l : 0 < sq_len l -> sq_len (kernel_take l) = sq_len l - 1.
Proof. apply window_shrink. Qed.

Lemma kernel_take_wf l : sq_wf l -> 0 < sq_len l -> sq_wf (kernel_take l).
Proof.
  intros Hwf Hp. pose proof (kernel_take_len l Hp) as Hlen.
  destruct Hwf as (Hm & Hl & Ht & Hh & Hs). unfold sq_wf. rewrite Hlen.
  change (sq_size (kernel_take l)) with (sq_size l).
  split_and!; simpl; auto; try lia; apply u32_range.
Qed.

Lemma kernel_take_pending l :
  sq_wf l -> 0 < sq_len l ->
  exists e, sq_pending l = e :: sq_pending (kernel_take l).
Proof.
  intros Hwf Hp. destruct Hwf as (Hm & Hl & Ht & Hh & Hs).
  unfold sq_pending. rewrite ring_slice_cons by done. eexists. f_equal.
  rewrite kernel_take_len by done. change (sq_size (kernel_take l)) with (sq_size l).
  simpl. apply ring_slice_congr. unfold sq_size. by rewrite u32_mod_mask.
Qed.

Section reap.
Context {S W : Type} `{!IoUring W, !LoopHost S W}.
Context (store_result : req_ptr -> Z -> Z -> S -> S).
Context (run_callback : req_ptr -> M S unit).

(** Callbacks submit requests but never write the completion entries or the
    indices of the CQ. *)
Definition keeps_cq (m : M S unit) : Prop := forall s u s',
  m s = Ret (u, s') ->
  cqes (host_loop s') = cqes (host_loop s) /\ iou_cqe (host_loop s') = iou_cqe (host_loop s).

Hypothesis complete_keeps_cq : forall c, keeps_cq (ev_complete store_result run_callback c).

Lemma complete_all_keeps_cq cs : keeps_cq (complete_all store_result run_callback cs).
Proof.
  induction cs as [|c cs IH]; intros s u s'; simpl.
  { intros [= <- <-]. done. }
  intros (u1 & s1 & H1 & H2)%bind_Ret_inv.
  destruct (complete_keeps_cq _ _ _ _ H1) as [E1 E2].
  destruct (IH _ _ _ H2) as [E3 E4]. split; congruence.
Qed.

(** The reaping loop ends, with fuel the number of pending completions, and
    handles exactly these in order, across the wrap-around of the indices. *)
Lemma ev_reap_all fuel i tail mask s :
  is_mask mask -> Z.of_nat (length (cqes (host_loop s))) = mask + 1 ->
  0 <= i < 2 ^ 32 -> 0 <= tail < 2 ^ 32 ->
  u32 (tail - i) <= Z.of_nat fuel ->
  ev_reap store_result run_callback fuel i tail mask s =
  complete_all store_result run_callback
    (ring_slice (cqes (host_loop s)) (mask + 1) i (u32 (tail - i))) s.
Proof.
  intros Hm. revert i s. induction fuel as [|fuel IH]; intros i s Hl Hi Ht Hf; cbn [ev_reap];
    pose proof (window_empty tail i Ht Hi) as He; pose proof (u32_range (tail - i)).
  { destruct (Z.eqb_spec i tail) as [Hi0|]; [by rewrite (proj2 He Hi0)|exfalso; lia]. }
  destruct (Z.eqb_spec i tail) as [Hi0|Hne]; [by rewrite (proj2 He Hi0)|].
  assert (Hp : 0 < u32 (tail - i)) by (destruct (Z.eq_dec (u32 (tail - i)) 0); [tauto|lia]).
  rewrite ring_slice_cons by done. cbn [complete_all].
  pose proof (is_mask_range mask Hm). pose proof (Z.mod_pos_bound i (mask + 1)).
  rewrite land_mask by done. mrun. rewrite arr_get_total by lia.
  fold (ring_at (cqes (host_loop s)) (mask + 1) i). cbn beta iota.
  destruct (ev_complete _ _ _ s) as [[u s1]| | | |] eqn:Hc; [|done..].
  destruct (complete_keeps_cq _ _ _ _ Hc) as [Hcq _].
  rewrite IH.
  - rewrite Hcq, window_shrink by done. f_equal.
    apply ring_slice_congr. by rewrite u32_mod_mask.
  - by rewrite Hcq.
  - apply u32_range.
  - done.
  - rewrite window_shrink by done. lia.
Qed.
End reap.

(** ** Traces of the submission ring

    The program submits; the kernel thread consumes, in any interleaving. *)

Inductive sqop : Set :=
  | SqSubmit (rp : req_ptr) (req : ev_io_req)
  | SqTake.

(** Results: the code returned by [ev_iou_req], and the entries the kernel
    took. A take on an empty ring does nothing. *)
Fixpoint run_sqops {W} `{!IoUring W} (ops : list sqop) : M (ev_loop * W) (list Z * list io_uring_sqe) :=
  match ops with
  | [] => mret ([], [])
  | SqSubmit rp req :: ops =>
      r ← ev_iou_req rp req;
      '(rs, es) ← run_sqops ops;
      mret (r :: rs, es)
  | SqTake :: ops =>
      '(l, w) ← gets (fun s => s);
      modify (fun s => if 0 <? sq_len l then (kernel_take l, w) else s);;
      '(rs, es) ← run_sqops ops;
      mret (rs, (if 0 <? sq_len l then [ring_at (sqes l) (sq_size l) (ring_head (iou_sqe l))] else []) ++ es)
  end.

(** The entries of the submissions that returned 0. *)
Fixpoint sq_accepted (ops : list sqop) (rs : list Z) : list io_uring_sqe :=
  match ops, rs with
  | SqSubmit rp req :: ops, r :: rs =>
      (if r =? 0 then [sqe_of_req rp req] else []) ++ sq_accepted ops rs
  | SqTake :: ops, rs => sq_accepted ops rs
  | _, _ => []
  end.

Lemma kernel_take_head l :
  0 < sq_len l -> sq_wf l ->
  sq_pending l = ring_at (sqes l) (sq_size l) (ring_head (iou_sqe l)) :: sq_pending (kernel_take l).
Proof.
  intros Hp Hwf. destruct (kernel_take_pending l Hwf Hp) as [e He].
  pose proof He as He'. unfold sq_pending at 1 in He'. rewrite ring_slice_cons in He' by done.
  rewrite He. congruence.
Qed.

Lemma run_sqops_order {W} `{!IoUring W} ops l (w : W) :
  sq_wf l ->
  exists rs es l' w',
    run_sqops ops (l, w) = Ret ((rs, es), (l', w')) /\ sq_wf l' /\
    es ++ sq_pending l' = sq_pending l ++ sq_accepted ops rs.
Proof.
  revert l w. induction ops as [|[rp req|] ops IH]; intros l w Hwf.
  - exists [], [], l, w. simpl. by rewrite app_nil_r.
  - cbn [run_sqops]. destruct (Z.lt_ge_cases (sq_len l) (sq_size l)) as [Hr|Hr].
    + destruct (IH (sq_push rp req l) (wakeup l w)) as (rs & es & l' & w' & Hrun & Hwf' & Ho).
      { by apply sq_push_wf. }
      exists (0 :: rs), es, l', w'.
      rewrite (bind_Ret _ _ _ _ _ (ev_iou_req_room rp req l w Hwf Hr)).
      rewrite (bind_Ret _ _ _ _ _ Hrun). split; [done|]. split; [done|].
      rewrite Ho, sq_push_pending by done. simpl. by rewrite <- app_assoc.
    + assert (Hf : sq_len l = sq_size l) by (destruct Hwf as (_ & _ & _ & _ & Hs); lia).
      destruct (IH l w Hwf) as (rs & es & l' & w' & Hrun & Hwf' & Ho).
      exists (EV_FULL :: rs), es, l', w'.
      rewrite (bind_Ret _ _ _ _ _ (ev_iou_req_full rp req l w Hf)).
      by rewrite (bind_Ret _ _ _ _ _ Hrun).
  - cbn [run_sqops sq_accepted]. mrun. destruct (Z.ltb_spec 0 (sq_len l)) as [Hp|Hp].
    + destruct (IH (kernel_take l) w) as (rs & es & l' & w' & Hrun & Hwf' & Ho).
      { by apply kernel_take_wf. }
      exists rs, (ring_at (sqes l) (sq_size l) (ring_head (iou_sqe l)) :: es), l', w'.
      rewrite Hrun. split; [done|]. split; [done|].
      rewrite (kernel_take_head l Hp Hwf). simpl. by rewrite Ho.
    + destruct (IH l w Hwf) as (rs & es & l' & w' & Hrun & Hwf' & Ho).
      exists rs, es, l', w'. by rewrite Hrun.
Qed.

(** ** Properties *)

(** C9. The submission ring is a FIFO to the kernel: under any interleaving
    of [ev_iou_req] calls with the kernel consuming entries, from a well-formed
    ring and across the wrap-around of the 32-bit indices, the calls never
    access the ring out of bounds, and the entries the kernel took followed by
    those still pending are the ones pending at the start followed by those of
    the calls that returned 0, in order. *)
Theorem sq_submits_in_order {W} `{!IoUring W} ops l (w : W) :
  sq_wf l ->
  exists rs es l' w',
    run_sqops ops (l, w) = Ret ((rs, es), (l', w')) /\ sq_wf l' /\
    es ++ sq_pending l' = sq_pending l ++ sq_accepted ops rs.
Proof. apply run_sqops_order. Qed.

(** C21. [ev_iou_req] on every branch: [EV_FULL] and no change exactly when
    all [mask + 1] entries are pending; otherwise it returns 0, whatever the
    wake-up system call returned, appends the entry built from the request and
    makes the wake-up call exactly when the kernel asked for it. *)
Theorem ev_iou_req_spec {W} `{!IoUring W} rp req l (w : W) :
  sq_wf l ->
  (sq_len l = sq_size l -> ev_iou_req rp req (l, w) = Ret (EV_FULL, (l, w))) /\
  (sq_len l <> sq_size l ->
   exists l', ev_iou_req rp req (l, w) = Ret (0, (l', wakeup l w)) /\ sq_wf l' /\
     sq_pending l' = sq_pending l ++ [sqe_of_req rp req] /\
     iou_cqe l' = iou_cqe l /\ cqes l' = cqes l).
Proof.
  intros Hwf. split; [apply ev_iou_req_full|]. intros Hn.
  assert (Hr : sq_len l < sq_size l) by (destruct Hwf as (_ & _ & _ & _ & Hs); lia).
  exists (sq_push rp req l). rewrite ev_iou_req_room by done.
  auto using sq_push_wf, sq_push_pending.
Qed.

Section turn.
Context {S W : Type} `{!IoUring W, !LoopHost S W}.
Context (store_result : req_ptr -> Z -> Z -> S -> S).
Context (run_callback : req_ptr -> M S unit).

(** The error branch of the poll is unreachable: its result is an unsigned
    integer when it is compared with zero. *)
Lemma ev_loop_turn_reap s :
  exists w,
  ev_loop_turn store_result run_callback s =
  let s := host_set (host_loop s) w s in
  let q := iou_cqe (host_loop s) in
  (ev_reap store_result run_callback (Z.to_nat (cq_len (host_loop s)))
     (ring_head q) (ring_tail q) (ring_mask q);;
   modify (fun s => host_set (set_cq_head (host_loop s) (ring_tail q)) (host_world s) s)) s.
Proof.
  unfold ev_loop_turn, in_loop, ev__io_poll.
  destruct (io_uring_enter (ringfd (host_loop s)) 0 1 IORING_ENTER_GETEVENTS (host_world s))
    as [r w] eqn:Hw. exists w.
  unfold mbind at 1, M_bind at 1. rewrite Hw. cbn beta iota zeta.
  pose proof (u32_range r). destruct (Z.ltb_spec (u32 r) 0); [lia|].
  unfold gets, mbind at 1, M_bind at 1. done.
Qed.

(** The turn in terms of the reference [complete_all]. *)
Lemma ev_loop_turn_all s :
  cq_wf (host_loop s) ->
  (forall c, keeps_cq (ev_complete store_result run_callback c)) ->
  exists w,
    let s0 := host_set (host_loop s) w s in
    match complete_all store_result run_callback (cq_pending (host_loop s)) s0 with
    | Ret (_, s1) =>
        exists s2, ev_loop_turn store_result run_callback s = Ret (tt, s2) /\
          s2 = host_set (set_cq_head (host_loop s1) (ring_tail (iou_cqe (host_loop s))))
                 (host_world s1) s1 /\
          cq_pending (host_loop s2) = []
    | Exit c => ev_loop_turn store_result run_callback s = Exit c
    | AssertFailed => ev_loop_turn store_result run_callback s = AssertFailed
    | Undef u => ev_loop_turn store_result run_callback s = Undef u
    | OutOfFuel => ev_loop_turn store_result run_callback s = OutOfFuel
    end.
Proof.
  intros (Hm & Hl & Ht & Hh) Hk. destruct (ev_loop_turn_reap s) as [w Hw]. exists w.
  rewrite Hw. cbv zeta. rewrite !host_loop_set. set (s0 := host_set (host_loop s) w s).
  pose proof (cq_len_range (host_loop s)) as Hr. unfold mbind, M_bind.
  rewrite (ev_reap_all _ _ Hk); unfold s0; rewrite ?host_loop_set; auto;
    [|fold (cq_len (host_loop s)); lia].
  fold (cq_size (host_loop s)) (cq_len (host_loop s)) (cq_pending (host_loop s)).
  destruct (complete_all _ _ _ _) as [[u s1]| | | |] eqn:Hc; [|done..].
  destruct (complete_all_keeps_cq _ _ Hk _ _ _ _ Hc) as [Hcq Hi].
  rewrite host_loop_set in Hcq, Hi.
  eexists. split; [done|]. split; [done|]. rewrite host_loop_set.
  unfold cq_pending, cq_len. simpl. by rewrite Hi, Z.sub_diag.
Qed.

(** C15. One turn of [ev_loop_run] handles exactly the completions pending in
    the CQ, in order, each by storing its result in the request it names and
    calling the request's callback, and then publishes the head so that none is
    left pending, whatever the poll system call returned. The reaping loop
    terminates across index wrap-around. *)
Theorem ev_loop_turn_handles_all s :
  cq_wf (host_loop s) ->
  (forall c, keeps_cq (ev_complete store_result run_callback c)) ->
  exists w,
    let s0 := host_set (host_loop s) w s in
    match complete_all store_result run_callback (cq_pending (host_loop s)) s0 with
    | Ret (_, s1) =>
        exists s2, ev_loop_turn store_result run_callback s = Ret (tt, s2) /\
          s2 = host_set (set_cq_head (host_loop s1) (ring_tail (iou_cqe (host_loop s))))
                 (host_world s1) s1 /\
          cq_pending (host_loop s2) = []
    | Exit c => ev_loop_turn store_result run_callback s = Exit c
    | AssertFailed => ev_loop_turn store_result run_callback s = AssertFailed
    | Undef u => ev_loop_turn store_result run_callback s = Undef u
    | OutOfFuel => ev_loop_turn store_result run_callback s = OutOfFuel
    end.
Proof. apply ev_loop_turn_all. Qed.

(** [ev_loop_run] never returns to its caller: whatever the callbacks do
    and however many turns are run, the loop has no return. *)
Theorem ev_loop_run_never_returns fuel s r s' :
  ev_loop_run store_result run_callback fuel s <> Ret (r, s').
Proof.
  revert s. induction fuel as [|fuel IH]; intros s; simpl; [done|].
  intros (u & s1 & _ & H)%bind_Ret_inv. by apply (IH s1).
Qed.
End turn.

(** ** Witnesses, on rings of two entries whose indices are about to wrap *)

(** A kernel whose system calls all fail with [EBUSY], returned as [-16]. *)
Definition busy_uring : IoUring unit := {|
  io_uring_setup := fun _ _ w => (-16, w);
  mmap_sq := fun _ w => (None, w);
  mmap_cq := fun _ w => (None, w);
  mmap_sqes := fun _ w => (None, w);
  io_uring_enter := fun _ _ _ _ w => (-16, w);
|}.

Definition wrap_ring : ev__iou_ring :=
  {| ring_head := 2 ^ 32 - 1; ring_tail := 2 ^ 32 - 1; ring_mask := 1; ring_flags := 1 |}.

Definition wrap_loop : ev_loop :=
  {| iou_sqe := wrap_ring;
     iou_cqe := {| ring_head := 2 ^ 32 - 1; ring_tail := 1; ring_mask := 1; ring_flags := 0 |};
     sqes := [sqe_zero; sqe_zero];
     cqes := [Cqe (WPtr (PReq (RSlot 0))) 7 0; Cqe (WPtr (PReq RQueuePoll)) 1 2];
     ringfd := 3 |}.

Lemma is_mask_1 : is_mask 1.
Proof. exists 1. split; [lia|reflexivity]. Qed.

Lemma wrap_loop_wf : sq_wf wrap_loop /\ cq_wf wrap_loop.
Proof. split; (split; [exact is_mask_1|]); repeat split; vm_compute; congruence. Qed.

Lemma sq_submits_in_order_witness :
  exists rs es l' w',
    run_sqops (IoUring0 := busy_uring)
      [SqSubmit RConn ev_io_req_zero; SqSubmit RRecv ev_io_req_zero;
       SqSubmit RTimer ev_io_req_zero; SqTake] (wrap_loop, tt) = Ret ((rs, es), (l', w')) /\
    sq_wf l' /\
    es ++ sq_pending l' = sq_pending wrap_loop ++
      sq_accepted [SqSubmit RConn ev_io_req_zero; SqSubmit RRecv ev_io_req_zero;
                   SqSubmit RTimer ev_io_req_zero; SqTake] rs.
Proof.
  apply (@sq_submits_in_order unit busy_uring _ wrap_loop tt). exact (proj1 wrap_loop_wf).
Defined.

Lemma ev_iou_req_spec_witness :
  sq_len wrap_loop <> sq_size wrap_loop /\
  exists l', ev_iou_req (IoUring0 := busy_uring) RConn ev_io_req_zero (wrap_loop, tt) =
             Ret (0, (l', tt)) /\ sq_wf l' /\
             sq_pending l' = [sqe_of_req RConn ev_io_req_zero].
Proof.
  assert (Hn : sq_len wrap_loop <> sq_size wrap_loop) by (vm_compute; congruence).
  split; [exact Hn|].
  destruct (@ev_iou_req_spec unit busy_uring RConn ev_io_req_zero wrap_loop tt (proj1 wrap_loop_wf))
    as [_ H].
  destruct (H Hn) as (l' & H1 & H2 & H3 & _). exists l'. split; [exact H1|]. split; [exact H2|].
  rewrite H3. reflexivity.
Defined.

(** A host that records the completions it is given. *)
Definition rec_host : Type := ev_loop * list (req_ptr * Z).

Definition rec_host_loop : LoopHost rec_host unit.
Proof.
  refine {| host_loop := fst; host_world := fun _ => tt;
            host_set := fun l _ s => (l, snd s) |}; [done|by intros ? [] ?].
Defined.

Definition rec_store (r : req_ptr) (res fl : Z) (s : rec_host) : rec_host :=
  (fst s, snd s ++ [(r, res)]).

Definition rec_callback (r : req_ptr) : M rec_host unit := mret tt.

Lemma rec_keeps_cq c :
  keeps_cq (LoopHost0 := rec_host_loop) (ev_complete rec_store rec_callback c).
Proof.
  intros [l log] u s'. unfold ev_complete. destruct (cqe_user_data c) as [|[]]; try done.
  intros [= <- <-]. done.
Qed.

Lemma ev_loop_turn_handles_all_witness :
  exists s2, ev_loop_turn (IoUring0 := busy_uring) (LoopHost0 := rec_host_loop)
               rec_store rec_callback (wrap_loop, []) = Ret (tt, s2) /\
             snd s2 = [(RQueuePoll, 1); (RSlot 0, 7)] /\ cq_pending (fst s2) = [].
Proof.
  destruct (@ev_loop_turn_handles_all _ unit busy_uring rec_host_loop rec_store rec_callback
              (wrap_loop, []) (proj2 wrap_loop_wf) rec_keeps_cq) as [w H].
  assert (Hc : complete_all rec_store rec_callback (cq_pending wrap_loop) (wrap_loop, []) =
               Ret (tt, (wrap_loop, [(RQueuePoll, 1); (RSlot 0, 7)]))) by reflexivity.
  cbv zeta in H. cbn [host_loop host_set rec_host_loop fst snd] in H. rewrite Hc in H.
  destruct H as (s2 & H1 & H2 & H3).
  exists s2. split; [exact H1|]. split; [rewrite H2; reflexivity|exact H3].
Defined.
