(* ===== verification/CStr.v ===== *)
(** * C strings and the library functions the program calls on them

    A [char] array is a list of bytes (values 0..255); a C string is the part
    before the first NUL. *)

From stdpp Require Import base numbers list list_numbers.
From S2P Require Import Prelude.

Open Scope Z_scope.

(** The C string held in a buffer; [None] when no byte is NUL, in which case
    reading it as a string runs past the array. *)
Fixpoint c_string (buf : list Z) : option (list Z) :=
  match buf with
  | [] => None
  | c :: buf => if c =? 0 then Some [] else cons c <$> c_string buf
  end.

(** Text without a NUL byte. *)
Definition no_nul (s : list Z) : Prop := Forall (fun c => c <> 0) s.

(** [strncpy(dst, src, n)] on a destination of exactly [n] bytes: at most [n]
    bytes of the string, padded with NULs. *)
Definition strncpy (src : list Z) (n : nat) : list Z :=
  take n (src ++ replicate n 0).

Lemma length_strncpy src n : length (strncpy src n) = n.
Proof. unfold strncpy. rewrite length_take, length_app, length_replicate. lia. Qed.

Lemma c_string_app s buf : no_nul s -> c_string (s ++ 0 :: buf) = Some s.
Proof.
  induction 1 as [|c s Hc _ IH]; simpl; [done|].
  destruct (Z.eqb_spec c 0); [done|]. by rewrite IH.
Qed.

Lemma c_string_none buf : no_nul buf -> c_string buf = None.
Proof.
  induction 1 as [|c s Hc _ IH]; simpl; [done|].
  destruct (Z.eqb_spec c 0); [done|]. by rewrite IH.
Qed.

Lemma c_string_no_nul buf s : c_string buf = Some s -> no_nul s.
Proof.
  revert s. induction buf as [|c buf IH]; intros s; simpl; [done|].
  destruct (Z.eqb_spec c 0) as [|Hc]; [intros [= <-]; constructor|].
  intros (s' & Hs & ->)%fmap_Some. constructor; [done|by apply IH].
Qed.

Lemma c_string_shape buf s :
  c_string buf = Some s -> exists rest, buf = s ++ 0 :: rest.
Proof.
  revert s. induction buf as [|c buf IH]; intros s; simpl; [done|].
  destruct (Z.eqb_spec c 0) as [->|Hc]; [intros [= <-]; by exists buf|].
  intros (s' & Hs & ->)%fmap_Some. destruct (IH s' Hs) as [rest ->]. by exists rest.
Qed.

(** A string that fits with its terminator is copied whole. *)
Lemma strncpy_short src n :
  (length src < n)%nat ->
  strncpy src n = src ++ 0 :: replicate (n - length src - 1) 0.
Proof.
  intros Hl. unfold strncpy. rewrite take_app_ge by lia. f_equal.
  rewrite take_replicate.
  replace ((n - length src) `min` n)%nat with (S (n - length src - 1)) by lia. done.
Qed.

(** A string as long as the destination leaves it without a terminator. *)
Lemma strncpy_long src n : (n <= length src)%nat -> strncpy src n = take n src.
Proof. intros. unfold strncpy. by rewrite take_app_le. Qed.

(** [strtoll(s, NULL, 0)]: optional blanks and sign, then a hexadecimal
    ([0x]), octal (leading [0]) or decimal number, saturating at the limits of
    [long long]; 0 when there are no digits. *)
Definition is_space (c : Z) : bool := (c =? 32) || ((9 <=? c) && (c <=? 13)).

Fixpoint skip_spaces (s : list Z) : list Z :=
  match s with
  | c :: s' => if is_space c then skip_spaces s' else s
  | [] => []
  end.

Definition digit_val (c : Z) : option Z :=
  if (48 <=? c) && (c <=? 57) then Some (c - 48)
  else if (97 <=? c) && (c <=? 122) then Some (c - 87)
  else if (65 <=? c) && (c <=? 90) then Some (c - 55)
  else None.

Fixpoint digits (base : Z) (acc : Z) (s : list Z) : Z :=
  match s with
  | c :: s' =>
      match digit_val c with
      | Some d => if d <? base then digits base (acc * base + d) s' else acc
      | None => acc
      end
  | [] => acc
  end.

Definition strtoll_clamp (z : Z) : Z := Z.max (- 2 ^ 63) (Z.min (2 ^ 63 - 1) z).

(** Is [s] "x" or "X" followed by a hexadecimal digit? *)
Definition hex_prefix (s : list Z) : bool :=
  match s with
  | x :: d :: _ => ((x =? 120) || (x =? 88)) &&
      match digit_val d with Some v => v <? 16 | None => false end
  | _ => false
  end.

Definition strtoll_unsigned (s : list Z) : Z :=
  match s with
  | 48 :: s' => if hex_prefix s' then digits 16 0 (drop 1 s') else digits 8 0 s'
  | _ => digits 10 0 s
  end.

Definition strtoll (s : list Z) : Z :=
  let s := skip_spaces s in
  match s with
  | 45 :: s' => strtoll_clamp (- strtoll_unsigned s')
  | 43 :: s' => strtoll_clamp (strtoll_unsigned s')
  | _ => strtoll_clamp (strtoll_unsigned s)
  end.

Lemma strtoll_range s : - 2 ^ 63 <= strtoll s < 2 ^ 63.
Proof.
  assert (H : forall z, - 2 ^ 63 <= strtoll_clamp z < 2 ^ 63) by (unfold strtoll_clamp; lia).
  unfold strtoll. repeat case_match; apply H.
Qed.

Example strtoll_examples :
  strtoll [50; 48] = 20 /\ strtoll [48; 120; 49; 70] = 31 /\ strtoll [48; 49; 55] = 15 /\
  strtoll [45; 49] = -1 /\ strtoll [97] = 0.
Proof. repeat split. Qed.
