(* ===== verification/Printf.v ===== *)
(** * Formatted output (printf and its relatives)

    The conversions the program uses: a format is parsed into literal bytes and
    conversions, which are filled with the arguments. *)

From stdpp Require Import base numbers list list_numbers strings.
From Stdlib Require Import ZArith Lia.
From S2P Require Import Prelude.

Open Scope Z_scope.

(** The bytes of a text of the source. *)
Definition bytes_of (s : string) : list Z :=
  (fun c => Z.of_nat (Ascii.nat_of_ascii c)) <$> String.list_ascii_of_string s.

(** ** Numbers *)

(** Decimal digits of a natural number, [fuel] at least their number. *)
Fixpoint dec_digits (fuel : nat) (n : Z) (acc : list Z) : list Z :=
  match fuel with
  | O => acc
  | S fuel =>
      let acc := (48 + n mod 10) :: acc in
      if n <? 10 then acc else dec_digits fuel (n / 10) acc
  end.

(** [%d] of an [int]. *)
Definition print_int (z : Z) : list Z :=
  if z <? 0 then 45 :: dec_digits 10 (- z) [] else dec_digits 10 z [].

(** [%ld] and [%zd]. *)
Definition print_long (z : Z) : list Z :=
  if z <? 0 then 45 :: dec_digits 19 (- z) [] else dec_digits 19 z [].

(** [%zu]. *)
Definition print_ulong (z : Z) : list Z := dec_digits 20 z [].

(** Hexadecimal digits, lower case. *)
Fixpoint hex_digits (fuel : nat) (n : Z) (acc : list Z) : list Z :=
  match fuel with
  | O => acc
  | S fuel =>
      let d := n mod 16 in
      let acc := (if d <? 10 then 48 + d else 87 + d) :: acc in
      if n <? 16 then acc else hex_digits fuel (n / 16) acc
  end.

(** Reading back decimal text. *)
Definition read_dec (s : list Z) : Z := fold_left (fun acc c => acc * 10 + (c - 48)) s 0.
Definition read_int (s : list Z) : Z :=
  match s with 45 :: s => - read_dec s | _ => read_dec s end.

Lemma read_dec_app acc s t :
  fold_left (fun acc c => acc * 10 + (c - 48)) (s ++ t) acc =
  fold_left (fun acc c => acc * 10 + (c - 48)) t (fold_left (fun acc c => acc * 10 + (c - 48)) s acc).
Proof. apply fold_left_app. Qed.

Definition is_digit (c : Z) : Prop := 48 <= c <= 57.

(** [fuel] digits are enough below [10 ^ fuel]. *)
Lemma dec_digits_spec fuel n acc :
  (0 < fuel)%nat -> 0 <= n < 10 ^ Z.of_nat fuel ->
  exists ds, dec_digits fuel n acc = ds ++ acc /\ read_dec ds = n /\ Forall is_digit ds /\
    (1 <= length ds <= fuel)%nat.
Proof.
  revert n acc. induction fuel as [|fuel IH]; intros n acc Hf Hn; [lia|].
  cbn [dec_digits]. pose proof (Z.mod_pos_bound n 10) as Hm.
  destruct (Z.ltb_spec n 10) as [Hs|Hs].
  - exists [48 + n mod 10]. rewrite Z.mod_small by lia. unfold read_dec, is_digit. simpl.
    split; [done|]. split; [lia|]. split; [|lia]. constructor; [lia|constructor].
  - destruct fuel as [|fuel]; [simpl in Hn; lia|].
    destruct (IH (n / 10) (48 + n mod 10 :: acc)) as (ds & -> & Hr & Hd & Hl); [lia| |].
    { split; [apply Z.div_pos; lia|]. apply Z.div_lt_upper_bound; [lia|].
      rewrite (Nat2Z.inj_succ (S fuel)), Z.pow_succ_r in Hn by lia. lia. }
    exists (ds ++ [48 + n mod 10]). rewrite <- app_assoc. split; [done|]. split; [|split].
    + unfold read_dec. rewrite read_dec_app. fold (read_dec ds). simpl. rewrite Hr.
      pose proof (Z.div_mod n 10). lia.
    + apply Forall_app. split; [done|]. constructor; [unfold is_digit; lia|constructor].
    + rewrite length_app. simpl. lia.
Qed.

Lemma read_dec_digits ds n : read_dec ds = n -> Forall is_digit ds -> read_int ds = n.
Proof.
  intros Hr Hd. unfold read_int. destruct Hd as [|c ds Hc Hd]; [done|].
  unfold is_digit in Hc. destruct c as [|c|c]; try lia.
  do 6 (destruct c as [c|c|]; try done; try lia).
Qed.

(** [%d] prints every [int] in at most 11 characters, and what it prints reads
    back. *)
Lemma print_int_spec z :
  - 2 ^ 31 <= z < 2 ^ 31 -> read_int (print_int z) = z /\ (length (print_int z) <= 11)%nat.
Proof.
  intros Hz. unfold print_int. destruct (Z.ltb_spec z 0).
  - destruct (dec_digits_spec 10 (- z) []) as (ds & -> & Hr & Hd & Hl); [lia|simpl; lia|].
    rewrite app_nil_r. simpl. split; [rewrite Hr; lia|lia].
  - destruct (dec_digits_spec 10 z []) as (ds & -> & Hr & Hd & Hl); [lia|simpl; lia|].
    rewrite app_nil_r. split; [by apply read_dec_digits|lia].
Qed.

(** ** Formats *)

Inductive conv : Set :=
  | CvPercent | CvInt | CvLong | CvULong | CvHex | CvChar | CvPtr | CvStr | CvStrPrec.

Inductive item : Set := Lit (c : Z) | Conv (k : conv).

(** An argument: an integer or pointer, or the characters a pointer leads to. *)
Inductive arg : Set := AInt (z : Z) | AStr (s : list Z).

Fixpoint strip_prefix (p l : list Z) : option (list Z) :=
  match p, l with
  | [], _ => Some l
  | a :: p, b :: l => if a =? b then strip_prefix p l else None
  | _ :: _, [] => None
  end.

Definition conversions : list (list Z * conv) := Eval vm_compute in
  [(bytes_of "%", CvPercent); (bytes_of "d", CvInt); (bytes_of "ld", CvLong); (bytes_of "zd", CvLong);
   (bytes_of "zu", CvULong); (bytes_of "x", CvHex); (bytes_of "c", CvChar); (bytes_of "p", CvPtr);
   (bytes_of "s", CvStr); (bytes_of ".*s", CvStrPrec)].

Fixpoint find_conv (l : list (list Z * conv)) (fmt : list Z) : option (conv * list Z) :=
  match l with
  | [] => None
  | (p, k) :: l =>
      match strip_prefix p fmt with
      | Some rest => Some (k, rest)
      | None => find_conv l fmt
      end
  end.

(** [fuel] at least the length of the format. *)
Fixpoint parse_format (fuel : nat) (fmt : list Z) : option (list item) :=
  match fuel, fmt with
  | _, [] => Some []
  | O, _ => None
  | S fuel, c :: fmt =>
      if c =? 37 then
        '(k, rest) ← find_conv conversions fmt;
        its ← parse_format fuel rest;
        Some (Conv k :: its)
      else its ← parse_format fuel fmt; Some (Lit c :: its)
  end.

(** What the items print; arguments that are left over are ignored. *)
Fixpoint render (its : list item) (args : list arg) : option (list Z) :=
  match its with
  | [] => Some []
  | Lit c :: its => cons c <$> render its args
  | Conv CvPercent :: its => cons 37 <$> render its args
  | Conv CvStrPrec :: its =>
      match args with
      | AInt n :: AStr s :: args =>
          app (if s32 n <? 0 then s else take (Z.to_nat (s32 n)) s) <$> render its args
      | _ => None
      end
  | Conv CvStr :: its =>
      match args with AStr s :: args => app s <$> render its args | _ => None end
  | Conv k :: its =>
      match args with
      | AInt z :: args =>
          app (match k with
               | CvInt => print_int (s32 z)
               | CvLong => print_long (s64 z)
               | CvULong => print_ulong (u64 z)
               | CvHex => hex_digits 8 (u32 z) []
               | CvPtr => 48 :: 120 :: hex_digits 16 (u64 z) []
               | _ => [z mod 256]
               end) <$> render its args
      | _ => None
      end
  end.

(** What a call prints; [None] when the format is not one of these, or the
    arguments do not fit it, which is undefined. *)
Definition format (fmt : list Z) (args : list arg) : option (list Z) :=
  its ← parse_format (length fmt) fmt; render its args.

(** ** Literal text *)

Definition no_percent (l : list Z) : Prop := Forall (fun c => c <> 37) l.

Lemma parse_literal fuel l : no_percent l -> (length l <= fuel)%nat -> parse_format fuel l = Some (Lit <$> l).
Proof.
  intros Hl. revert fuel. induction Hl as [|c l Hc Hl IH]; intros [|fuel] Hf; cbn in *; try done; [lia|].
  rewrite (proj2 (Z.eqb_neq _ _) Hc), IH by lia. done.
Qed.

Lemma render_literal l args : render (Lit <$> l) args = Some l.
Proof. induction l as [|c l IH]; [done|]. cbn. by rewrite IH. Qed.

Lemma render_lits l its args : render ((Lit <$> l) ++ its) args = app l <$> render its args.
Proof. induction l as [|c l IH]; cbn; [by destruct (render its args)|]. rewrite IH. by destruct (render its args). Qed.

(** A text without [%] is printed as it is. *)
Lemma format_literal l args : no_percent l -> format l args = Some l.
Proof. intros Hl. unfold format. rewrite parse_literal by done. apply render_literal. Qed.
