(* ===== verification/Log.v ===== *)
(** * Log lines (src/log.h, and the log callback of src/verifier_quic.h)

    The functions as what they write: a line is written in three calls,
    the time and level, the message and the newline. *)

From stdpp Require Import base numbers list list_numbers strings.
From S2P Require Import Prelude CStr Printf.

Open Scope Z_scope.

(** The macros of the build. *)
Record log_build : Set := LogBuild { LOG_TRACE : bool; LOG_DEBUG : bool }.

Inductive stream : Set := Stdout | Stderr.

(** The escape character of the colours. *)
Definition esc : list Z := [27].

(** One line on [out]: [ts] is what [ctime_r] returns, a text that ends in a
    newline, or a null pointer, whose length would be taken. *)
Definition log_line (out : stream) (label : list Z) (ts : option (list Z)) (fmt : list Z) (args : list arg) :
    outcome (list (stream * list Z)) :=
  match ts with
  | None => Undef NullDeref
  | Some m =>
      match format (bytes_of "[%.*s] " ++ label) [AInt (Z.of_nat (length m) - 1); AStr m], format fmt args with
      | Some a, Some b => Ret [(out, a); (out, b); (out, [10])]
      | _, _ => Undef BadPointer
      end
  end.

Definition log_trace (b : log_build) (ts : option (list Z)) (fmt : list Z) (args : list arg) :
    outcome (list (stream * list Z)) :=
  if LOG_TRACE b then log_line Stdout (esc ++ bytes_of "[33mTRACE" ++ esc ++ bytes_of "[0m: ") ts fmt args
  else Ret [].

Definition log_debug (b : log_build) (ts : option (list Z)) (fmt : list Z) (args : list arg) :
    outcome (list (stream * list Z)) :=
  if LOG_DEBUG b || LOG_TRACE b
  then log_line Stdout (esc ++ bytes_of "[34mDEBUG" ++ esc ++ bytes_of "[0m: ") ts fmt args
  else Ret [].

Definition log_info (ts : option (list Z)) (fmt : list Z) (args : list arg) : outcome (list (stream * list Z)) :=
  log_line Stdout (esc ++ bytes_of "[32mINFO" ++ esc ++ bytes_of "[0m;: ") ts fmt args.

Definition log_error (ts : option (list Z)) (fmt : list Z) (args : list arg) : outcome (list (stream * list Z)) :=
  log_line Stderr (esc ++ bytes_of "[31mERROR" ++ esc ++ bytes_of "[0m: ") ts fmt args.

(** The callback that ngtcp2 logs through: no time and no level. *)
Definition log_printf (b : log_build) (fmt : list Z) (args : list arg) : outcome (list (stream * list Z)) :=
  if LOG_DEBUG b || LOG_TRACE b then
    match format fmt args with
    | Some m => Ret [(Stderr, m); (Stderr, [10])]
    | None => Undef BadPointer
    end
  else Ret [].

(** The time and level of a line, for a time text [t] followed by its newline. *)
Lemma log_head label t :
  no_percent label -> Z.of_nat (length t) < 2 ^ 31 ->
  format (bytes_of "[%.*s] " ++ label) [AInt (Z.of_nat (length (t ++ [10])) - 1); AStr (t ++ [10])] =
  Some (bytes_of "[" ++ t ++ bytes_of "] " ++ label).
Proof.
  intros Hl Ht. unfold format. change (bytes_of "[%.*s] ") with [91; 37; 46; 42; 115; 93; 32].
  change (bytes_of "[") with [91]. change (bytes_of "] ") with [93; 32].
  assert (Hp : forall n, parse_format (7 + n) ([91; 37; 46; 42; 115; 93; 32] ++ label) =
    (its ← parse_format (3 + n) label; Some (Lit 91 :: Conv CvStrPrec :: Lit 93 :: Lit 32 :: its))).
  { intros n. change (parse_format (7 + n) _) with
      (its ← (its ← (its ← (its ← parse_format (3 + n) label; Some (Lit 32 :: its)); Some (Lit 93 :: its));
        Some (Conv CvStrPrec :: its)); Some (Lit 91 :: its)).
    by destruct (parse_format (3 + n) label). }
  change (length (_ ++ label)) with (7 + length label)%nat.
  rewrite Hp, parse_literal by (done || lia). cbn -[s32]. rewrite render_literal. cbn -[s32].
  rewrite length_app, Nat2Z.inj_add. cbn [length]. replace (Z.of_nat (length t) + Z.of_nat 1 - 1) with (Z.of_nat (length t)) by lia.
  rewrite s32_small, (proj2 (Z.ltb_ge _ _)), Nat2Z.id, take_app_length by lia. done.
Qed.

Lemma log_line_ok out label t fmt args msg :
  no_percent label -> Z.of_nat (length t) < 2 ^ 31 -> format fmt args = Some msg ->
  log_line out label (Some (t ++ [10])) fmt args =
  Ret [(out, bytes_of "[" ++ t ++ bytes_of "] " ++ label); (out, msg); (out, [10])].
Proof. intros Hl Ht Hm. unfold log_line. by rewrite log_head, Hm. Qed.

(** ** Properties *)

(** What the log functions write, for a time text and a message whose
    format fits its arguments: the bracketed time without its newline, the
    level in colour, the message and a newline; errors to the error stream, the
    rest to the output. Traces are written only when the build defines
    [LOG_TRACE], debug lines also when it defines [LOG_DEBUG]; the
    lines of ngtcp2 under the same condition, to the error stream, with neither
    time nor level. *)
Theorem log_functions_exact b t fmt args msg :
  Z.of_nat (length t) < 2 ^ 31 -> format fmt args = Some msg ->
  let line out label :=
    [(out, bytes_of "[" ++ t ++ bytes_of "] " ++ esc ++ label); (out, msg); (out, [10])] in
  log_error (Some (t ++ [10])) fmt args = Ret (line Stderr (bytes_of "[31mERROR" ++ esc ++ bytes_of "[0m: ")) /\
  log_info (Some (t ++ [10])) fmt args = Ret (line Stdout (bytes_of "[32mINFO" ++ esc ++ bytes_of "[0m;: ")) /\
  log_debug b (Some (t ++ [10])) fmt args =
    Ret (if LOG_DEBUG b || LOG_TRACE b
         then line Stdout (bytes_of "[34mDEBUG" ++ esc ++ bytes_of "[0m: ") else []) /\
  log_trace b (Some (t ++ [10])) fmt args =
    Ret (if LOG_TRACE b then line Stdout (bytes_of "[33mTRACE" ++ esc ++ bytes_of "[0m: ") else []) /\
  log_printf b fmt args = Ret (if LOG_DEBUG b || LOG_TRACE b then [(Stderr, msg); (Stderr, [10])] else []).
Proof.
  intros Ht Hm line. unfold log_error, log_info, log_debug, log_trace, log_printf.
  rewrite !(log_line_ok _ _ t fmt args msg) by (done || (repeat constructor; done)).
  rewrite Hm. split; [done|]. split; [done|]. by destruct b as [[] []].
Qed.

Lemma log_functions_exact_witness :
  log_error (Some (bytes_of "Thu Jan  1 00:00:00 1970" ++ [10])) (bytes_of "error reading: fd=%d path=%s: %s")
    [AInt 7; AStr (bytes_of "/t/a"); AStr (bytes_of "EIO")] =
  Ret [(Stderr, bytes_of "[Thu Jan  1 00:00:00 1970] " ++ esc ++ bytes_of "[31mERROR" ++ esc ++ bytes_of "[0m: ");
       (Stderr, bytes_of "error reading: fd=7 path=/t/a: EIO"); (Stderr, [10])].
Proof.
  apply (log_functions_exact (LogBuild false false) (bytes_of "Thu Jan  1 00:00:00 1970")
    (bytes_of "error reading: fd=%d path=%s: %s") [AInt 7; AStr (bytes_of "/t/a"); AStr (bytes_of "EIO")]
    (bytes_of "error reading: fd=7 path=/t/a: EIO")); vm_compute; reflexivity.
Defined.
