(* ===== verification/CTypes.v ===== *)
(** * C type declarations and their layout

    The declarations of a header as data, and the layout the compiler gives
    them: sizes, alignments and the offset of every member, bit-fields, packed
    and anonymous members included, by the rules of the System V ABI for 64-bit
    little-endian targets (those of BPF are the same for these types). A header
    is laid out declaration by declaration, so a type has to be complete before
    it is used by value. *)

From stdpp Require Import base numbers list strings gmap.
From Stdlib Require Import ZArith Lia.
From S2P Require Import Prelude.

Open Scope Z_scope.

(** ** Declarations *)

Inductive base : Set :=
  | Void | Bool | Char | SChar | UChar | Short | UShort | Int | UInt
  | Long | ULong | LongLong | ULongLong | Int128 | UInt128.

Inductive su : Set := StructKind | UnionKind.

(** A member of a structure or union: its name, if it has one, its type and its
    width, if it is a bit-field. [Anon] is a structure or union without a tag,
    with whether it is packed, [AnonEnum] an enumeration without a tag. Array
    lengths that are missing are 0. *)
Inductive ctype : Set :=
  | Base (b : base)
  | Ptr (t : ctype)
  | Fun (ret : ctype) (args : list ctype)
  | Array (t : ctype) (n : Z)
  | Const (t : ctype)
  | Volatile (t : ctype)
  | Struct (tag : string)
  | Union (tag : string)
  | Enum (tag : string)
  | Typedef (name : string)
  | AnonEnum (l : list (string * Z))
  | Anon (k : su) (packed : bool) (ms : list member)
with member : Set :=
  | Member (name : option string) (t : ctype) (width : option Z).

(** Enumerators are given with their values; [byte] is the mode attribute. *)
Inductive decl : Set :=
  | DeclSu (k : su) (tag : string) (packed : bool) (ms : list member)
  | DeclEnum (tag : option string) (byte : bool) (l : list (string * Z))
  | DeclTypedef (name : string) (t : ctype)
  | DeclExtern (name : string) (t : ctype).

(** Abbreviations in which the declarations are written. *)
Definition fld (t : ctype) (name : string) : member := Member (Some name) t None.
Definition bits (t : ctype) (name : string) (w : Z) : member := Member (Some name) t (Some w).
Definition pad (t : ctype) (w : Z) : member := Member None t (Some w).
Definition anon (t : ctype) : member := Member None t None.
Definition struct_ (tag : string) (ms : list member) : decl := DeclSu StructKind tag false ms.
Definition union_ (tag : string) (ms : list member) : decl := DeclSu UnionKind tag false ms.
Definition enum_ (tag : string) (l : list (string * Z)) : decl := DeclEnum (Some tag) false l.

(** ** Layout *)

(** Where a member is, in bits from the start. *)
Record field : Set := Field {
  fd_name : option string;
  fd_off : Z;
  fd_bits : Z;
  fd_type : ctype;
}.

(** Size and alignment in bytes; the members of a structure or union, and its
    fields by name, those of anonymous members included. *)
Record tinfo : Set := TInfo {
  ti_size : Z;
  ti_align : Z;
  ti_members : list field;
  ti_fields : list field;
}.

Definition scalar (n : Z) : tinfo := TInfo n n [] [].

Definition base_size (b : base) : option Z :=
  match b with
  | Void => None
  | Bool | Char | SChar | UChar => Some 1
  | Short | UShort => Some 2
  | Int | UInt => Some 4
  | Long | ULong | LongLong | ULongLong => Some 8
  | Int128 | UInt128 => Some 16
  end.

(** An enumeration is an [int] or [unsigned int] unless a value does not fit. *)
Definition enum_size (byte : bool) (l : list (string * Z)) : Z :=
  if byte then 1
  else if forallb (fun v => (- 2 ^ 31 <=? snd v) && (snd v <? 2 ^ 32)) l then 4 else 8.

Definition roundup (p a : Z) : Z := (p + a - 1) / a * a.

(** A member with the layout of its type. *)
Record minfo : Set := MInfo {
  mi_name : option string;
  mi_width : option Z;
  mi_type : ctype;
  mi_info : tinfo;
}.

Definition mi_size (m : minfo) : Z := ti_size (mi_info m).
Definition mi_align (m : minfo) : Z := ti_align (mi_info m).

(** The bits a member takes. *)
Definition mi_bits (m : minfo) : Z :=
  match mi_width m with None => 8 * mi_size m | Some w => w end.

(** Where a member goes when [pos] bits are taken: a bit-field goes to the next
    bit unless it would cross a unit of its type, and one of width 0 closes the
    unit. *)
Definition member_off (packed : bool) (pos : Z) (m : minfo) : Z :=
  match mi_width m with
  | None => if packed then roundup pos 8 else roundup pos (8 * mi_align m)
  | Some w =>
      if w =? 0 then roundup pos (8 * mi_align m)
      else if negb packed && (8 * mi_size m <? pos mod (8 * mi_size m) + w)
      then roundup pos (8 * mi_align m)
      else pos
  end.

(** What a member asks of the alignment of the whole: padding asks nothing. *)
Definition member_align (packed : bool) (m : minfo) : Z :=
  match mi_width m, mi_name m with
  | Some _, None => 1
  | _, _ => if packed then 1 else mi_align m
  end.

Definition field_of (off : Z) (m : minfo) : field :=
  Field (mi_name m) off (mi_bits m) (mi_type m).

Definition shift (off : Z) (f : field) : field :=
  Field (fd_name f) (fd_off f + off) (fd_bits f) (fd_type f).

(** The fields a member gives: itself, or those of an anonymous one. *)
Definition member_fields (off : Z) (m : minfo) : list field :=
  match mi_name m, mi_width m with
  | None, None => shift off <$> ti_fields (mi_info m)
  | None, Some _ => []
  | Some _, _ => [field_of off m]
  end.

(** The members one after the other (structures) or each at 0 (unions): their
    offsets, the bits taken and the alignment. *)
Fixpoint place (k : su) (packed : bool) (pos align : Z) (ms : list minfo) : list Z * Z * Z :=
  match ms with
  | [] => ([], pos, align)
  | m :: ms =>
      let off := match k with StructKind => member_off packed pos m | UnionKind => 0 end in
      let pos := match k with StructKind => off + mi_bits m | UnionKind => Z.max pos (mi_bits m) end in
      let '(offs, p, a) := place k packed pos (Z.max align (member_align packed m)) ms in
      (off :: offs, p, a)
  end.

Definition layout_su (k : su) (packed : bool) (ms : list minfo) : tinfo :=
  let '(offs, pos, align) := place k packed 0 1 ms in
  TInfo (roundup pos (8 * align) / 8) align
    (zip_with field_of offs ms) (concat (zip_with member_fields offs ms)).

(** Is the member allowed: a bit-field fits in its type, and has bits if it has
    a name. *)
Definition mi_ok (m : minfo) : bool :=
  match mi_width m with
  | None => true
  | Some w => (0 <=? w) && (w <=? 8 * mi_size m) && (bool_decide (mi_name m = None) || (0 <? w))
  end.

(** The layouts of the tags declared so far, and the types behind the typedef
    names, with no typedef name left in them where the size depends on it. *)
Record env : Set := Env {
  e_tags : gmap string tinfo;
  e_types : gmap string ctype;
}.

Definition key_su (k : su) (tag : string) : string :=
  match k with StructKind => "struct " +:+ tag | UnionKind => "union " +:+ tag end.
Definition key_enum (tag : string) : string := "enum " +:+ tag.

(** Typedef names replaced. *)
Fixpoint normal (Γ : env) (t : ctype) : option ctype :=
  match t with
  | Array t n => t ← normal Γ t; Some (Array t n)
  | Const t => t ← normal Γ t; Some (Const t)
  | Volatile t => t ← normal Γ t; Some (Volatile t)
  | Typedef n => e_types Γ !! n
  | Anon k p ms =>
      ms ← (fix go ms := match ms with
            | [] => Some []
            | Member n t w :: ms => t ← normal Γ t; ms ← go ms; Some (Member n t w :: ms)
            end) ms;
      Some (Anon k p ms)
  | _ => Some t
  end.

(** The layout of a type without typedef names; [None] for an incomplete type,
    a function and a member that is not allowed. *)
Fixpoint layout_type (Γ : env) (t : ctype) : option tinfo :=
  match t with
  | Base b => scalar <$> base_size b
  | Ptr _ => Some (scalar 8)
  | Fun _ _ | Typedef _ => None
  | Array t n =>
      i ← layout_type Γ t;
      if 0 <=? n then Some (TInfo (n * ti_size i) (ti_align i) [] []) else None
  | Const t | Volatile t => layout_type Γ t
  | Struct tag => e_tags Γ !! key_su StructKind tag
  | Union tag => e_tags Γ !! key_su UnionKind tag
  | Enum tag => e_tags Γ !! key_enum tag
  | AnonEnum l => Some (scalar (enum_size false l))
  | Anon k p ms =>
      ms ← (fix go ms := match ms with
            | [] => Some []
            | Member n t w :: ms =>
                i ← layout_type Γ t; ms ← go ms; Some (MInfo n w t i :: ms)
            end) ms;
      if forallb mi_ok ms then Some (layout_su k p ms) else None
  end.

Definition type_info (Γ : env) (t : ctype) : option tinfo := normal Γ t ≫= layout_type Γ.

Definition add_tag (k : string) (i : tinfo) (Γ : env) : option env :=
  match e_tags Γ !! k with
  | Some _ => None
  | None => Some (Env (<[k := i]> (e_tags Γ)) (e_types Γ))
  end.

(** A typedef of a function type, or of a type that is not complete, is allowed. *)
Definition declare (Γ : env) (d : decl) : option env :=
  match d with
  | DeclSu k tag p ms => i ← type_info Γ (Anon k p ms); add_tag (key_su k tag) i Γ
  | DeclEnum (Some tag) b l => add_tag (key_enum tag) (scalar (enum_size b l)) Γ
  | DeclEnum None _ _ => Some Γ
  | DeclTypedef n t =>
      t ← normal Γ t;
      match e_types Γ !! n with
      | Some _ => None
      | None => Some (Env (e_tags Γ) (<[n := t]> (e_types Γ)))
      end
  | DeclExtern _ t => _ ← normal Γ t; Some Γ
  end.

Fixpoint declare_all (Γ : env) (ds : list decl) : option env :=
  match ds with
  | [] => Some Γ
  | d :: ds => Γ' ← declare Γ d; declare_all Γ' ds
  end.

(** The value of an enumerator. *)
Definition enumerator (ds : list decl) (n : string) : option Z :=
  (fun x => x.2.2) <$> list_find (fun v : string * Z => v.1 = n)
    (concat ((fun d => match d with DeclEnum _ _ l => l | _ => [] end) <$> ds)).

Definition env_empty : env := Env ∅ ∅.

(** The field of structure [tag] with this name. *)
Definition field_named (n : string) (l : list field) : option field :=
  snd <$> list_find (fun f => fd_name f = Some n) l.

Definition struct_field (Γ : env) (tag n : string) : option field :=
  i ← e_tags Γ !! key_su StructKind tag; field_named n (ti_fields i).

Definition sizeof (Γ : env) (tag : string) : option Z :=
  ti_size <$> e_tags Γ !! key_su StructKind tag.

(** ** Induction on types *)

Definition m_name (m : member) : option string := let 'Member n _ _ := m in n.
Definition m_type (m : member) : ctype := let 'Member _ t _ := m in t.
Definition m_width (m : member) : option Z := let 'Member _ _ w := m in w.

Section ctype_rect.
Context (P : ctype -> Prop).
Context (HBase : forall b, P (Base b)) (HPtr : forall t, P (Ptr t)) (HFun : forall r a, P (Fun r a)).
Context (HArray : forall t n, P t -> P (Array t n)).
Context (HConst : forall t, P t -> P (Const t)) (HVolatile : forall t, P t -> P (Volatile t)).
Context (HStruct : forall s, P (Struct s)) (HUnion : forall s, P (Union s)) (HEnum : forall s, P (Enum s)).
Context (HTypedef : forall s, P (Typedef s)) (HAnonEnum : forall l, P (AnonEnum l)).
Context (HAnon : forall k p ms, Forall (fun m => P (m_type m)) ms -> P (Anon k p ms)).

Fixpoint ctype_nested_ind (t : ctype) : P t :=
  match t with
  | Base b => HBase b
  | Ptr t => HPtr t
  | Fun r a => HFun r a
  | Array t n => HArray t n (ctype_nested_ind t)
  | Const t => HConst t (ctype_nested_ind t)
  | Volatile t => HVolatile t (ctype_nested_ind t)
  | Struct s => HStruct s
  | Union s => HUnion s
  | Enum s => HEnum s
  | Typedef s => HTypedef s
  | AnonEnum l => HAnonEnum l
  | Anon k p ms => HAnon k p ms
      ((fix go ms : Forall (fun m => P (m_type m)) ms :=
          match ms with
          | [] => Forall_nil_2 _
          | Member n t w :: ms => Forall_cons_2 _ (Member n t w) ms (ctype_nested_ind t) (go ms)
          end) ms)
  end.
End ctype_rect.

(** The loops over the members, as traversals. *)
Definition normal_member (Γ : env) (m : member) : option member :=
  t ← normal Γ (m_type m); Some (Member (m_name m) t (m_width m)).

Definition layout_member (Γ : env) (m : member) : option minfo :=
  i ← layout_type Γ (m_type m); Some (MInfo (m_name m) (m_width m) (m_type m) i).

Lemma normal_anon Γ k p ms :
  normal Γ (Anon k p ms) = (ms ← mapM (normal_member Γ) ms; Some (Anon k p ms)).
Proof.
  cbn [normal]. f_equal. induction ms as [|[n t w] ms IH]; [done|]. cbn. rewrite IH.
  unfold normal_member. cbn. by destruct (normal Γ t).
Qed.

Lemma layout_anon Γ k p ms :
  layout_type Γ (Anon k p ms) =
  (ms ← mapM (layout_member Γ) ms; if forallb mi_ok ms then Some (layout_su k p ms) else None).
Proof.
  cbn [layout_type]. f_equal. induction ms as [|[n t w] ms IH]; [done|]. cbn. rewrite IH.
  unfold layout_member. cbn. by destruct (layout_type Γ t).
Qed.

(** ** Later declarations do not change a layout *)

Definition env_le (Γ Γ' : env) : Prop := e_tags Γ ⊆ e_tags Γ' /\ e_types Γ ⊆ e_types Γ'.

#[export] Instance env_le_preorder : PreOrder env_le.
Proof. split; [done|]. intros ? ? ? [] []. split; by etrans. Qed.

Lemma mapM_mono {A B} (f g : A -> option B) l r :
  Forall (fun x => forall y, f x = Some y -> g x = Some y) l -> mapM f l = Some r -> mapM g l = Some r.
Proof.
  intros Hl. rewrite !mapM_Some. intros H. induction H as [|x y l r Hx H IH]; [constructor|].
  apply Forall_cons in Hl as [? ?]. constructor; auto.
Qed.

Lemma normal_mono Γ Γ' t t' : env_le Γ Γ' -> normal Γ t = Some t' -> normal Γ' t = Some t'.
Proof.
  intros [_ Hle]. revert t'. induction t as [| | | | | | | | |s| |k p ms IH] using ctype_nested_ind; try done.
  1-3: cbn; intros t' (u & ? & [= <-])%bind_Some; erewrite IHt by done; done.
  - cbn. intros t' Hs. by eapply lookup_weaken.
  - intros t'. rewrite !normal_anon. intros (l & Hl & [= <-])%bind_Some.
    erewrite mapM_mono; [done| |exact Hl]. eapply Forall_impl; [exact IH|]. cbn.
    intros m Hm y (u & Hu & [= <-])%bind_Some. unfold normal_member. by rewrite (Hm _ Hu).
Qed.

Lemma layout_mono Γ Γ' t i : env_le Γ Γ' -> layout_type Γ t = Some i -> layout_type Γ' t = Some i.
Proof.
  intros [Hle _]. revert i. induction t as [| | | | | |s|s|s| | |k p ms IH] using ctype_nested_ind; try done.
  - cbn. intros i (u & Hu & Hi)%bind_Some. by rewrite (IHt _ Hu).
  - cbn. intros i Hs. by eapply lookup_weaken.
  - cbn. intros i Hs. by eapply lookup_weaken.
  - cbn. intros i Hs. by eapply lookup_weaken.
  - intros i. rewrite !layout_anon. intros (l & Hl & Hi)%bind_Some.
    erewrite mapM_mono; [exact Hi| |exact Hl]. eapply Forall_impl; [exact IH|]. cbn.
    intros m Hm y (u & Hu & [= <-])%bind_Some. unfold layout_member. by rewrite (Hm _ Hu).
Qed.

Lemma type_info_mono Γ Γ' t i : env_le Γ Γ' -> type_info Γ t = Some i -> type_info Γ' t = Some i.
Proof.
  intros Hle (u & Hu & Hi)%bind_Some. unfold type_info. erewrite normal_mono by done. by eapply layout_mono.
Qed.

Lemma add_tag_le k i Γ Γ' : add_tag k i Γ = Some Γ' -> env_le Γ Γ' /\ e_tags Γ' !! k = Some i.
Proof.
  unfold add_tag. destruct (e_tags Γ !! k) eqn:E; [done|]. intros [= <-]. split; [|apply lookup_insert_eq].
  split; [|done]. cbn. by apply insert_subseteq.
Qed.

Lemma declare_le Γ d Γ' : declare Γ d = Some Γ' -> env_le Γ Γ'.
Proof.
  destruct d as [k tag p ms|[tag|] b l|n t|n t]; cbn.
  - intros (i & _ & H)%bind_Some. by apply add_tag_le in H as [? _].
  - intros H. by apply add_tag_le in H as [? _].
  - by intros [= <-].
  - intros (u & _ & H)%bind_Some. destruct (e_types Γ !! n) eqn:E; [done|]. injection H as <-.
    split; [done|]. cbn. by apply insert_subseteq.
  - by intros (u & _ & [= <-])%bind_Some.
Qed.

Lemma declare_all_le Γ ds Γ' : declare_all Γ ds = Some Γ' -> env_le Γ Γ'.
Proof.
  revert Γ. induction ds as [|d ds IH]; intros Γ; cbn; [by intros [= <-]|].
  intros (Γ1 & H1 & H2)%bind_Some. etrans; [by eapply declare_le|by apply IH].
Qed.

(** ** Soundness of a layout *)

Definition pow2 (x : Z) : Prop := exists n, 0 <= n /\ x = 2 ^ n.

Lemma pow2_pos x : pow2 x -> 0 < x.
Proof. intros (n & Hn & ->). lia. Qed.

Lemma pow2_divide x y : pow2 x -> pow2 y -> x <= y -> (x | y).
Proof.
  intros (n & Hn & ->) (m & Hm & ->) Hle.
  assert (n <= m) by (apply (Z.pow_le_mono_r_iff 2); lia).
  exists (2 ^ (m - n)). rewrite <- Z.pow_add_r by lia. f_equal. lia.
Qed.

Lemma pow2_max x y : pow2 x -> pow2 y -> pow2 (Z.max x y).
Proof. intros ? ?. by destruct (Z.max_spec x y) as [[_ ->]|[_ ->]]. Qed.

Lemma roundup_spec p a : 0 < a -> p <= roundup p a /\ (a | roundup p a).
Proof.
  intros Ha. unfold roundup. split; [|apply Z.divide_factor_r].
  pose proof (Z.div_mod (p + a - 1) a ltac:(lia)). pose proof (Z.mod_pos_bound (p + a - 1) a Ha). lia.
Qed.

Definition in_bounds (size : Z) (f : field) : Prop :=
  0 <= fd_off f /\ 0 <= fd_bits f /\ fd_off f + fd_bits f <= 8 * size.

Record info_wf (i : tinfo) : Prop := {
  iw_size : 0 <= ti_size i;
  iw_align : pow2 (ti_align i);
  iw_multiple : (ti_align i | ti_size i);
  iw_members : Forall (in_bounds (ti_size i)) (ti_members i);
  iw_fields : Forall (in_bounds (ti_size i)) (ti_fields i);
}.

Definition mi_wf (m : minfo) : Prop := info_wf (mi_info m) /\ mi_ok m = true.

Lemma mi_bits_nonneg m : mi_wf m -> 0 <= mi_bits m.
Proof.
  intros [Hw Hok]. unfold mi_bits, mi_ok in *. destruct (mi_width m) as [w|].
  - apply andb_prop in Hok as [Hok _]. apply andb_prop in Hok as [H _]. by apply Z.leb_le in H.
  - unfold mi_size. pose proof (iw_size _ Hw). lia.
Qed.

Lemma member_off_ge packed pos m : mi_wf m -> 0 <= pos -> pos <= member_off packed pos m.
Proof.
  intros [Hw _] Hp. pose proof (pow2_pos _ (iw_align _ Hw)) as Ha. unfold member_off, mi_align.
  pose proof (roundup_spec pos (8 * ti_align (mi_info m)) ltac:(lia)) as [? _].
  pose proof (roundup_spec pos 8 ltac:(lia)) as [? _]. repeat case_match; lia.
Qed.

Lemma member_off_aligned pos m :
  mi_wf m -> mi_width m = None -> (8 * mi_align m | member_off false pos m).
Proof.
  intros [Hw _] Hn. pose proof (pow2_pos _ (iw_align _ Hw)). unfold member_off. rewrite Hn.
  apply roundup_spec. unfold mi_align. lia.
Qed.

Lemma member_align_pow2 packed m : mi_wf m -> pow2 (member_align packed m).
Proof.
  intros [Hw _]. pose proof (iw_align _ Hw). assert (pow2 1) by (by exists 0).
  unfold member_align, mi_align. repeat case_match; done.
Qed.

(** Members of a structure follow each other: each is at or after the end of
    the one before, and at a multiple of its alignment. *)
Lemma place_struct packed pos align ms offs p a :
  place StructKind packed pos align ms = (offs, p, a) -> 0 <= pos -> Forall mi_wf ms ->
  pos <= p /\ length offs = length ms /\
  forall j m off, ms !! j = Some m -> offs !! j = Some off ->
    pos <= off /\ off + mi_bits m <= p /\
    (packed = false -> mi_width m = None -> (8 * mi_align m | off)) /\
    forall k mk offk, (j < k)%nat -> ms !! k = Some mk -> offs !! k = Some offk -> off + mi_bits m <= offk.
Proof.
  revert pos align offs p a. induction ms as [|m ms IH]; intros pos align offs p a; cbn.
  { intros [= <- <- <-] Hp _. split; [lia|]. split; [done|]. intros [|j] m off Hj; done. }
  set (o := member_off packed pos m). destruct (place _ _ _ _ ms) as [[offs' p'] a'] eqn:Hpl.
  intros [= <- <- <-] Hp [Hm Hms]%Forall_cons.
  pose proof (member_off_ge packed pos m Hm Hp) as Hge. pose proof (mi_bits_nonneg m Hm) as Hb.
  destruct (IH _ _ _ _ _ Hpl) as (Hp' & Hl & Hall); [lia|done|]. fold o in Hge.
  split; [lia|]. split; [cbn; lia|]. intros [|j] mj off.
  - intros [= <-] [= <-]. split; [done|]. split; [lia|]. split.
    + intros -> Hn. by apply member_off_aligned.
    + intros [|k] mk offk Hk Hmk Hok; [lia|]. by destruct (Hall k mk offk Hmk Hok).
  - cbn. intros Hj Hoj. destruct (Hall j mj off Hj Hoj) as (H1 & H2 & H3 & H4). split; [lia|].
    split; [done|]. split; [done|]. intros [|k] mk offk Hk Hmk Hok; [lia|]. eapply (H4 k); [lia|done|done].
Qed.

Lemma place_union packed pos align ms offs p a :
  place UnionKind packed pos align ms = (offs, p, a) ->
  pos <= p /\ length offs = length ms /\
  forall j m off, ms !! j = Some m -> offs !! j = Some off -> off = 0 /\ mi_bits m <= p.
Proof.
  revert pos align offs p a. induction ms as [|m ms IH]; intros pos align offs p a; cbn.
  { intros [= <- <- <-]. split; [lia|]. split; [done|]. intros [|j] m off Hj; done. }
  destruct (place _ _ _ _ ms) as [[offs' p'] a'] eqn:Hpl. intros [= <- <- <-].
  destruct (IH _ _ _ _ _ Hpl) as (Hp' & Hl & Hall). split; [lia|]. split; [cbn; lia|].
  intros [|j] mj off; [|apply Hall]. intros [= <-] [= <-]. lia.
Qed.

Lemma place_align k packed pos align ms offs p a :
  place k packed pos align ms = (offs, p, a) -> pow2 align -> Forall mi_wf ms ->
  pow2 a /\ align <= a /\ Forall (fun m => member_align packed m <= a) ms.
Proof.
  revert pos align offs p a. induction ms as [|m ms IH]; intros pos align offs p a; cbn.
  { intros [= <- <- <-] Ha _. split; [done|]. split; [lia|constructor]. }
  destruct (place _ _ _ _ ms) as [[offs' p'] a'] eqn:Hpl. intros [= <- <- <-] Ha [Hm Hms]%Forall_cons.
  destruct (IH _ _ _ _ _ Hpl) as (H1 & H2 & H3); [by apply pow2_max, member_align_pow2|done|].
  split; [done|]. split; [lia|]. constructor; [lia|done].
Qed.

Lemma place_bounds k packed align ms offs p a :
  place k packed 0 align ms = (offs, p, a) -> Forall mi_wf ms ->
  0 <= p /\ length offs = length ms /\
  forall j m off, ms !! j = Some m -> offs !! j = Some off ->
    0 <= off /\ 0 <= mi_bits m /\ off + mi_bits m <= p.
Proof.
  intros Hpl Hms. assert (Hb : forall j m, ms !! j = Some m -> 0 <= mi_bits m).
  { intros j m Hj. apply mi_bits_nonneg. by eapply Forall_lookup_1. }
  destruct k.
  - destruct (place_struct _ _ _ _ _ _ _ Hpl ltac:(lia) Hms) as (Hp & Hl & Hall).
    split; [done|]. split; [done|]. intros j m off Hj Ho.
    destruct (Hall j m off Hj Ho) as (H1 & H2 & _). eauto.
  - destruct (place_union _ _ _ _ _ _ _ Hpl) as (Hp & Hl & Hall).
    split; [done|]. split; [done|]. intros j m off Hj Ho.
    destruct (Hall j m off Hj Ho) as (-> & ?). split; [lia|]. split; [eauto|lia].
Qed.

(** The size covers the bits taken and is a multiple of the alignment. *)
Lemma size_covers p a :
  0 <= p -> 0 < a -> p <= 8 * (roundup p (8 * a) / 8) /\ (a | roundup p (8 * a) / 8).
Proof.
  intros Hp Ha. destruct (roundup_spec p (8 * a) ltac:(lia)) as [Hle [q Hq]].
  rewrite Hq in *. replace (q * (8 * a)) with (q * a * 8) in * by lia.
  rewrite Z.div_mul by lia. split; [lia|]. apply Z.divide_factor_r.
Qed.

Lemma member_fields_bounds size off m :
  mi_wf m -> 0 <= off -> off + mi_bits m <= 8 * size -> Forall (in_bounds size) (member_fields off m).
Proof.
  intros Hm Ho Hle. pose proof (mi_bits_nonneg m Hm) as Hb. unfold member_fields, mi_bits in *.
  destruct (mi_name m); [|destruct (mi_width m) as [w|]; [constructor|]].
  - constructor; [|constructor]. done.
  - apply Forall_fmap. eapply Forall_impl; [apply (iw_fields _ (proj1 Hm))|].
    intros f (H1 & H2 & H3). unfold in_bounds, mi_size in *. cbn. lia.
Qed.

Lemma layout_su_wf k packed ms : Forall mi_wf ms -> info_wf (layout_su k packed ms).
Proof.
  intros Hms. unfold layout_su. destruct (place k packed 0 1 ms) as [[offs p] a] eqn:Hpl.
  destruct (place_bounds _ _ _ _ _ _ _ Hpl Hms) as (Hp & Hl & Hall).
  destruct (place_align _ _ _ _ _ _ _ _ Hpl ltac:(by exists 0) Hms) as (Ha & _ & _).
  destruct (size_covers p a Hp (pow2_pos _ Ha)) as [Hs Hd].
  split; cbn [ti_size ti_align ti_members ti_fields]; [lia|done|done| |].
  - apply Forall_lookup. intros j f (off & m & -> & Ho & Hm)%lookup_zip_with_Some.
    destruct (Hall j m off Hm Ho) as (H1 & H2 & H3). unfold in_bounds. cbn. lia.
  - apply Forall_concat, Forall_lookup. intros j l (off & m & -> & Ho & Hm)%lookup_zip_with_Some.
    destruct (Hall j m off Hm Ho) as (H1 & H2 & H3).
    apply member_fields_bounds; [by eapply Forall_lookup_1|lia|lia].
Qed.

Definition env_wf (Γ : env) : Prop := map_Forall (fun _ i => info_wf i) (e_tags Γ).

Lemma scalar_wf n : pow2 n -> info_wf (scalar n).
Proof. intros Hn. pose proof (pow2_pos _ Hn). split; cbn; [lia|done|done|constructor|constructor]. Qed.

Lemma enum_wf b l : info_wf (scalar (enum_size b l)).
Proof.
  apply scalar_wf. unfold enum_size. destruct b; [by exists 0|]. case_match; [by exists 2|by exists 3].
Qed.

Lemma forallb_lookup {A} (f : A -> bool) l j x : forallb f l = true -> l !! j = Some x -> f x = true.
Proof.
  intros H Hj. rewrite forallb_forall in H. by eapply H, list_elem_of_In, list_elem_of_lookup_2.
Qed.

Lemma layout_type_wf Γ t i : env_wf Γ -> layout_type Γ t = Some i -> info_wf i.
Proof.
  intros HΓ. revert i. induction t as [b| | |t n IH| | |s|s|s| |l|k p ms IH] using ctype_nested_ind; try done.
  - intros i (n & Hn & ->)%fmap_Some. apply scalar_wf.
    destruct b; inversion Hn; subst; [by exists 0..|by exists 1|by exists 1|by exists 2|by exists 2|
      by exists 3|by exists 3|by exists 3|by exists 3|by exists 4|by exists 4].
  - intros i [= <-]. apply scalar_wf. by exists 3.
  - intros i (u & Hu & Hi)%bind_Some. destruct (Z.leb_spec 0 n); [|done]. injection Hi as <-.
    destruct (IH _ Hu) as [H1 H2 H3 _ _]. split; cbn; [lia|done|by apply Z.divide_mul_r|constructor|constructor].
  - intros i Hs. by eapply HΓ.
  - intros i Hs. by eapply HΓ.
  - intros i Hs. by eapply HΓ.
  - intros i [= <-]. apply (enum_wf false).
  - intros i. rewrite layout_anon. intros (l & Hl & Hi)%bind_Some.
    destruct (forallb mi_ok l) eqn:Hok; [|done]. injection Hi as <-. apply layout_su_wf, Forall_lookup.
    intros j m Hm. apply mapM_Some in Hl.
    destruct (Forall2_lookup_r _ _ _ _ _ Hl Hm) as (m0 & Hm0 & (u & Hu & [= <-])%bind_Some).
    split; [cbn; eapply Forall_lookup_1 in IH; [|exact Hm0]; by apply IH|].
    by eapply forallb_lookup.
Qed.

Lemma add_tag_wf k i Γ Γ' : env_wf Γ -> info_wf i -> add_tag k i Γ = Some Γ' -> env_wf Γ'.
Proof.
  unfold add_tag. intros HΓ Hi. case_match; [done|]. intros [= <-]. by apply map_Forall_insert_2.
Qed.

Lemma declare_wf Γ d Γ' : env_wf Γ -> declare Γ d = Some Γ' -> env_wf Γ'.
Proof.
  intros HΓ. destruct d as [k tag p ms|[tag|] b l|n t|n t]; cbn.
  - intros (i & (u & _ & Hi)%bind_Some & H)%bind_Some. eapply add_tag_wf, H; [done|].
    by eapply layout_type_wf.
  - apply add_tag_wf; [done|apply enum_wf].
  - by intros [= <-].
  - intros (u & _ & H)%bind_Some. case_match; [done|]. by injection H as <-.
  - by intros (u & _ & [= <-])%bind_Some.
Qed.

Lemma declare_all_wf Γ ds Γ' : env_wf Γ -> declare_all Γ ds = Some Γ' -> env_wf Γ'.
Proof.
  revert Γ. induction ds as [|d ds IH]; intros Γ HΓ; cbn; [by intros [= <-]|].
  intros (Γ1 & H1 & H2)%bind_Some. eapply IH, H2. by eapply declare_wf.
Qed.

Lemma env_empty_wf : env_wf env_empty.
Proof. apply map_Forall_empty. Qed.

(** What a structure or union looks like once laid out: member by member, the
    fields have the names and the sizes of their types; a member that is no
    bit-field is aligned, and so it is at any address the whole may have; the
    members of a structure follow each other without overlap. *)
Record su_sound (Γ : env) (k : su) (packed : bool) (ms : list member) (i : tinfo) : Prop := {
  ss_info : info_wf i;
  ss_members : Forall2 (fun m f => fd_name f = m_name m /\
    exists im, type_info Γ (m_type m) = Some im /\
      fd_bits f = (match m_width m with None => 8 * ti_size im | Some w => w end) /\
      (m_width m = None -> packed = false ->
        (8 * ti_align im | fd_off f) /\ (ti_align im | ti_align i))) ms (ti_members i);
  ss_disjoint : k = StructKind -> forall a b fa fb, (a < b)%nat ->
    ti_members i !! a = Some fa -> ti_members i !! b = Some fb -> fd_off fa + fd_bits fa <= fd_off fb;
}.

(** From members with their layouts to the laid out whole. *)
Lemma layout_su_sound Γ k packed ms mis :
  Forall2 (fun m mi => mi_name mi = m_name m /\ mi_width mi = m_width m /\
    type_info Γ (m_type m) = Some (mi_info mi)) ms mis ->
  Forall mi_wf mis -> su_sound Γ k packed ms (layout_su k packed mis).
Proof.
  intros Hm Hwf. pose proof (layout_su_wf k packed mis Hwf) as Hi. unfold layout_su in *.
  destruct (place k packed 0 1 mis) as [[offs p] a] eqn:Hpl.
  destruct (place_bounds _ _ _ _ _ _ _ Hpl Hwf) as (_ & Hl & _).
  destruct (place_align _ _ _ _ _ _ _ _ Hpl ltac:(by exists 0) Hwf) as (Ha & _ & Hal).
  split; [done| |]; cbn [ti_members ti_align ti_size].
  - apply Forall2_same_length_lookup. split.
    { rewrite length_zip_with, Hl, Nat.min_id. by eapply Forall2_length. }
    intros j m f Hj (off & mi & -> & Ho & Hmi)%lookup_zip_with_Some.
    destruct (Forall2_lookup_lr _ _ _ _ _ _ Hm Hj Hmi) as (En & Ew & Et).
    split; [done|]. exists (mi_info mi). split; [done|]. cbn. unfold mi_bits. rewrite Ew. split; [done|].
    intros Hw ->. pose proof (Forall_lookup_1 _ _ _ _ Hwf Hmi) as Hmw.
    pose proof (Forall_lookup_1 _ _ _ _ Hal Hmi) as Hle. unfold member_align in Hle.
    rewrite Ew, Hw in Hle. split; [|by apply pow2_divide; [apply Hmw|done|]].
    destruct k; [|destruct (place_union _ _ _ _ _ _ _ Hpl) as (_ & _ & Hall);
                  destruct (Hall j mi off Hmi Ho) as [-> _]; apply Z.divide_0_r].
    destruct (place_struct _ _ _ _ _ _ _ Hpl ltac:(lia) Hwf) as (_ & _ & Hall).
    destruct (Hall j mi off Hmi Ho) as (_ & _ & H3 & _). apply H3; [done|congruence].
  - intros -> x y fa fb Hxy (oa & ma & -> & Hoa & Hma)%lookup_zip_with_Some
      (ob & mb & -> & Hob & Hmb)%lookup_zip_with_Some. cbn.
    destruct (place_struct _ _ _ _ _ _ _ Hpl ltac:(lia) Hwf) as (_ & _ & Hall).
    destruct (Hall x ma oa Hma Hoa) as (_ & _ & _ & H4). by eapply H4.
Qed.

Lemma declare_sound Γ k tag packed ms Γ' :
  env_wf Γ -> declare Γ (DeclSu k tag packed ms) = Some Γ' ->
  exists i, e_tags Γ' !! key_su k tag = Some i /\ su_sound Γ k packed ms i.
Proof.
  intros HΓ. cbn [declare]. intros (i & Hi & Hadd)%bind_Some. apply add_tag_le in Hadd as [_ Hk].
  exists i. split; [done|]. unfold type_info in Hi. apply bind_Some in Hi as (t & Ht & Hi).
  rewrite normal_anon in Ht. apply bind_Some in Ht as (ms' & Hms' & [= <-]).
  pose proof (layout_type_wf _ _ _ HΓ Hi) as Hiw.
  rewrite layout_anon in Hi. apply bind_Some in Hi as (mis & Hmis & Hi).
  destruct (forallb mi_ok mis) eqn:Hok; [|done]. injection Hi as <-.
  apply mapM_Some in Hms', Hmis. apply layout_su_sound.
  - apply Forall2_same_length_lookup. split; [by rewrite (Forall2_length _ _ _ Hms'), (Forall2_length _ _ _ Hmis)|].
    intros j m mi Hj Hmi. destruct (Forall2_lookup_r _ _ _ _ _ Hmis Hmi) as (m' & Hm' & (im & Him & [= <-])%bind_Some).
    pose proof (Forall2_lookup_lr _ _ _ _ _ _ Hms' Hj Hm') as (t & Ht & [= <-])%bind_Some. cbn in *.
    split; [done|]. split; [done|]. unfold type_info. by rewrite Ht.
  - apply Forall_lookup. intros j mi Hmi.
    destruct (Forall2_lookup_r _ _ _ _ _ Hmis Hmi) as (m' & Hm' & (im & Him & [= <-])%bind_Some).
    split; [by eapply layout_type_wf|by eapply forallb_lookup].
Qed.

Lemma su_sound_mono Γ Γ' k packed ms i : env_le Γ Γ' -> su_sound Γ k packed ms i -> su_sound Γ' k packed ms i.
Proof.
  intros Hle [H1 H2 H3]. split; [done| |done]. eapply Forall2_impl; [exact H2|].
  intros m f (Hn & im & Hi & Hr). split; [done|]. exists im. split; [by eapply type_info_mono|done].
Qed.

(** Every structure and union of a header that is accepted has a sound layout. *)
Lemma declare_all_sound Γ0 ds Γ k tag packed ms :
  env_wf Γ0 -> declare_all Γ0 ds = Some Γ -> DeclSu k tag packed ms ∈ ds ->
  exists i, e_tags Γ !! key_su k tag = Some i /\ su_sound Γ k packed ms i.
Proof.
  revert Γ0. induction ds as [|d ds IH]; intros Γ0 Hwf; [by intros _ ?%elem_of_nil|]. cbn.
  intros (Γ1 & H1 & H2)%bind_Some [<-|Hin]%elem_of_cons; [|by eapply (IH Γ1); [eapply declare_wf|..]].
  destruct (declare_sound _ _ _ _ _ _ Hwf H1) as (i & Hi & Hs). exists i.
  pose proof (declare_all_le _ _ _ H2) as Hle. split; [by eapply lookup_weaken; [|apply Hle]|].
  eapply su_sound_mono, Hs. etrans; [by eapply declare_le|done].
Qed.
