(* ===== verification/CMem.v ===== *)
(** * C objects as bytes

    Little-endian integers, byte-addressed memory, and the members of an object
    read and written at the offsets of its layout. *)

From stdpp Require Import base numbers list list_numbers strings gmap.
From Stdlib Require Import ZArith Lia.
From S2P Require Import Prelude CTypes.

Open Scope Z_scope.

(** ** Integers *)

Fixpoint le_value (l : list Z) : Z :=
  match l with [] => 0 | b :: l => b + 256 * le_value l end.

Fixpoint le_bytes (n : nat) (z : Z) : list Z :=
  match n with O => [] | S n => z mod 256 :: le_bytes n (z / 256) end.

Lemma length_le_bytes n z : length (le_bytes n z) = n.
Proof. revert z. induction n as [|n IH]; intros z; cbn; [done|]. by rewrite IH. Qed.

Lemma le_value_bytes n z : le_value (le_bytes n z) = z mod 256 ^ Z.of_nat n.
Proof.
  revert z. induction n as [|n IH]; intros z; cbn [le_bytes le_value]; [by rewrite Z.mod_1_r|].
  rewrite IH, Nat2Z.inj_succ, Z.pow_succ_r by lia. rewrite Z.rem_mul_r by lia. lia.
Qed.

Lemma le_value_unsigned n z : 0 <= z < 256 ^ Z.of_nat n -> le_value (le_bytes n z) = z.
Proof. intros Hz. by rewrite le_value_bytes, Z.mod_small. Qed.

(** ** Slices of a buffer *)

Definition slice (o n : nat) (l : list Z) : list Z := take n (drop o l).

Definition splice (o : nat) (bs l : list Z) : list Z := take o l ++ bs ++ drop (o + length bs) l.

Lemma length_splice o bs l : (o + length bs <= length l)%nat -> length (splice o bs l) = length l.
Proof. intros H. unfold splice. rewrite !length_app, length_take, length_drop. lia. Qed.

Lemma slice_splice o bs l : (o + length bs <= length l)%nat -> slice o (length bs) (splice o bs l) = bs.
Proof.
  intros H. unfold slice, splice. rewrite drop_app_length' by (rewrite length_take; lia).
  by rewrite take_app_length.
Qed.

Lemma slice_splice_ne o bs l o' n :
  (o + length bs <= length l)%nat -> (o' + n <= o \/ o + length bs <= o')%nat ->
  slice o' n (splice o bs l) = slice o' n l.
Proof.
  intros Hl Hd. unfold slice. apply list_eq. intros i.
  destruct (decide (i < n)%nat); [|by rewrite !lookup_take_ge by lia].
  rewrite !lookup_take_lt, !lookup_drop by lia. unfold splice. destruct Hd.
  - rewrite lookup_app_l by (rewrite length_take; lia). by rewrite lookup_take_lt by lia.
  - rewrite app_assoc, lookup_app_r by (rewrite length_app, length_take; lia).
    rewrite lookup_drop. f_equal. rewrite length_app, length_take. lia.
Qed.

(** ** Members of an object *)

(** The bytes of a field that is no bit-field. *)
Definition extent (f : field) : option (nat * nat) :=
  if (fd_off f mod 8 =? 0) && (fd_bits f mod 8 =? 0)
  then Some (Z.to_nat (fd_off f / 8), Z.to_nat (fd_bits f / 8)) else None.

Definition member_extent (Γ : env) (tag n : string) : option (nat * nat) :=
  struct_field Γ tag n ≫= extent.

Definition get_member (Γ : env) (tag n : string) (buf : list Z) : option (list Z) :=
  '(o, l) ← member_extent Γ tag n; Some (slice o l buf).

(** Writing a member needs as many bytes as it has. *)
Definition set_member (Γ : env) (tag n : string) (bs buf : list Z) : option (list Z) :=
  '(o, l) ← member_extent Γ tag n;
  if (length bs =? l)%nat then Some (splice o bs buf) else None.

Fixpoint encode (Γ : env) (tag : string) (vals : list (string * list Z)) (buf : list Z) : option (list Z) :=
  match vals with
  | [] => Some buf
  | (n, bs) :: vals => buf ← set_member Γ tag n bs buf; encode Γ tag vals buf
  end.

(** Do two members have no byte in common? *)
Definition apart (Γ : env) (tag n n' : string) : bool :=
  match member_extent Γ tag n, member_extent Γ tag n' with
  | Some (o, l), Some (o', l') => (o + l <=? o')%nat || (o' + l' <=? o)%nat
  | _, _ => false
  end.

Fixpoint all_apart (Γ : env) (tag : string) (ns : list string) : bool :=
  match ns with
  | [] => true
  | n :: ns => forallb (apart Γ tag n) ns && all_apart Γ tag ns
  end.

Section members.
Context (Γ : env) (tag : string) (i : tinfo).
Context (Htag : e_tags Γ !! key_su StructKind tag = Some i) (Hwf : info_wf i).

(** Layouts are sound, so members are inside the object. *)
Lemma extent_bounds n o l : member_extent Γ tag n = Some (o, l) -> (o + l <= Z.to_nat (ti_size i))%nat.
Proof.
  unfold member_extent, struct_field. rewrite Htag. cbn. intros (f & Hf & He)%bind_Some.
  unfold field_named in Hf. apply fmap_Some in Hf as ([j g] & Hg & ->). cbn in He.
  apply list_find_Some in Hg as (Hj & _ & _).
  destruct (Forall_lookup_1 _ _ _ _ (iw_fields _ Hwf) Hj) as (H1 & H2 & H3).
  unfold extent in He. destruct (Z.eqb_spec (fd_off g mod 8) 0); [|done].
  destruct (Z.eqb_spec (fd_bits g mod 8) 0); [|done]. injection He as <- <-.
  pose proof (Z.div_mod (fd_off g) 8 ltac:(lia)). pose proof (Z.div_mod (fd_bits g) 8 ltac:(lia)). lia.
Qed.

Lemma set_member_length n bs buf buf' :
  length buf = Z.to_nat (ti_size i) -> set_member Γ tag n bs buf = Some buf' -> length buf' = length buf.
Proof.
  intros Hl ([o l] & He & Hs)%bind_Some. cbn in Hs. destruct (Nat.eqb_spec (length bs) l); [|done].
  injection Hs as <-. apply length_splice. pose proof (extent_bounds _ _ _ He). lia.
Qed.

Lemma encode_length vals buf buf' :
  length buf = Z.to_nat (ti_size i) -> encode Γ tag vals buf = Some buf' -> length buf' = length buf.
Proof.
  revert buf. induction vals as [|[n bs] vals IH]; intros buf Hl; cbn; [by intros [= <-]|].
  intros (b & Hb & He)%bind_Some. pose proof (set_member_length _ _ _ _ Hl Hb) as E.
  rewrite <- E. apply IH; [by rewrite E|done].
Qed.

Lemma get_set_same n bs buf buf' :
  length buf = Z.to_nat (ti_size i) -> set_member Γ tag n bs buf = Some buf' ->
  get_member Γ tag n buf' = Some bs.
Proof.
  intros Hl ([o l] & He & Hs)%bind_Some. cbn in Hs. destruct (Nat.eqb_spec (length bs) l) as [<-|]; [|done].
  injection Hs as <-. unfold get_member. rewrite He. cbn. f_equal. apply slice_splice.
  pose proof (extent_bounds _ _ _ He). lia.
Qed.

Lemma get_set_apart n n' bs buf buf' :
  length buf = Z.to_nat (ti_size i) -> set_member Γ tag n' bs buf = Some buf' ->
  apart Γ tag n n' = true -> get_member Γ tag n buf' = get_member Γ tag n buf.
Proof.
  intros Hl ([o' l'] & He' & Hs)%bind_Some. cbn in Hs.
  destruct (Nat.eqb_spec (length bs) l') as [<-|]; [|done]. injection Hs as <-.
  unfold apart, get_member. rewrite He'. destruct (member_extent Γ tag n) as [[o l]|] eqn:He; [|done].
  intros Ha%orb_true_iff. cbn. f_equal. apply slice_splice_ne.
  - pose proof (extent_bounds _ _ _ He'). lia.
  - rewrite !Nat.leb_le in Ha. tauto.
Qed.

Lemma get_encode_apart n vals buf buf' :
  length buf = Z.to_nat (ti_size i) -> encode Γ tag vals buf = Some buf' ->
  forallb (apart Γ tag n) vals.*1 = true -> get_member Γ tag n buf' = get_member Γ tag n buf.
Proof.
  revert buf. induction vals as [|[n' bs] vals IH]; intros buf Hl; cbn; [by intros [= <-]|].
  intros (b & Hb & He)%bind_Some [Ha Hall]%andb_prop.
  assert (Hlb : length b = Z.to_nat (ti_size i)) by (by rewrite (set_member_length _ _ _ _ Hl Hb)).
  rewrite (IH b Hlb He Hall). by eapply get_set_apart.
Qed.

(** What is encoded is read back. *)
Lemma get_encode vals buf buf' n bs :
  length buf = Z.to_nat (ti_size i) -> encode Γ tag vals buf = Some buf' ->
  all_apart Γ tag vals.*1 = true -> (n, bs) ∈ vals -> get_member Γ tag n buf' = Some bs.
Proof.
  revert buf. induction vals as [|[n' bs'] vals IH]; intros buf Hl; cbn; [by intros _ _ ?%elem_of_nil|].
  intros (b & Hb & He)%bind_Some [Ha Hall]%andb_prop Hin.
  assert (Hlb : length b = Z.to_nat (ti_size i)) by (by rewrite (set_member_length _ _ _ _ Hl Hb)).
  apply elem_of_cons in Hin as [[= -> ->]|Hin]; [|by eapply (IH b)].
  rewrite (get_encode_apart n' vals b buf') by done. exact (get_set_same _ _ _ _ Hl Hb).
Qed.
End members.

(** ** Memory *)

(** The byte at an address, if it is mapped. *)
Definition mem : Type := Z -> option Z.

Definition load (m : mem) (a : Z) (n : nat) : option (list Z) := mapM m (seqZ a (Z.of_nat n)).

Lemma load_slice m a n buf o l :
  load m a n = Some buf -> (o + l <= n)%nat -> load m (a + Z.of_nat o) l = Some (slice o l buf).
Proof.
  unfold load. rewrite !mapM_Some, !Forall2_same_length_lookup, !length_seqZ. intros [Hl Hb] Hle.
  unfold slice. split; [rewrite length_take, length_drop; lia|]. intros i x y.
  intros [-> Hi]%lookup_seqZ Hy. rewrite lookup_take_lt, lookup_drop in Hy by lia.
  apply (Hb (o + i)%nat); [|done]. apply lookup_seqZ. lia.
Qed.

(** An object of a structure type at an address, with these members; its other
    bytes are arbitrary. *)
Definition object_at (Γ : env) (m : mem) (a : Z) (tag : string) (vals : list (string * list Z)) : Prop :=
  exists i buf0 buf, e_tags Γ !! key_su StructKind tag = Some i /\
    length buf0 = Z.to_nat (ti_size i) /\ encode Γ tag vals buf0 = Some buf /\
    load m a (length buf) = Some buf.

Definition load_member (Γ : env) (m : mem) (a : Z) (tag n : string) : option (list Z) :=
  '(o, l) ← member_extent Γ tag n; load m (a + Z.of_nat o) l.

Lemma load_member_object Γ m a tag vals n bs :
  env_wf Γ -> object_at Γ m a tag vals -> all_apart Γ tag vals.*1 = true -> (n, bs) ∈ vals ->
  load_member Γ m a tag n = Some bs.
Proof.
  intros HΓ (i & buf0 & buf & Hi & Hl & He & Hm) Ha Hin. pose proof (HΓ _ _ Hi) as Hw.
  pose proof (get_encode Γ tag i Hi Hw _ _ _ _ _ Hl He Ha Hin) as Hg.
  unfold load_member, get_member in *. apply bind_Some in Hg as ([o l] & Ho & [= <-]). rewrite Ho. cbn.
  pose proof (extent_bounds Γ tag i Hi Hw _ _ _ Ho) as Hb.
  pose proof (encode_length Γ tag i Hi Hw _ _ _ Hl He) as Hl'.
  apply (load_slice _ _ (length buf)); [done|lia].
Qed.
