(* ===== verification/VmlinuxBase.v ===== *)
(** * Declarations of src/vmlinux.h, first part

    Enumerations, typedef names, lists, locks and other small structures, in
    the order of the header. *)

From stdpp Require Import base list strings.
From Stdlib Require Import ZArith.
From S2P Require Import CTypes.

Open Scope Z_scope.

(** Flags of the ring buffer helpers; the enumeration has no tag. *)
Definition enum_bpf_ringbuf_flags : decl :=
  DeclEnum None false [
    ("BPF_RB_NO_WAKEUP", 1);
    ("BPF_RB_FORCE_WAKEUP", 2)].

Definition enum_bpf_map_type : decl :=
  enum_ "bpf_map_type" [
    ("BPF_MAP_TYPE_UNSPEC", 0);
    ("BPF_MAP_TYPE_HASH", 1);
    ("BPF_MAP_TYPE_ARRAY", 2);
    ("BPF_MAP_TYPE_PROG_ARRAY", 3);
    ("BPF_MAP_TYPE_PERF_EVENT_ARRAY", 4);
    ("BPF_MAP_TYPE_PERCPU_HASH", 5);
    ("BPF_MAP_TYPE_PERCPU_ARRAY", 6);
    ("BPF_MAP_TYPE_STACK_TRACE", 7);
    ("BPF_MAP_TYPE_CGROUP_ARRAY", 8);
    ("BPF_MAP_TYPE_LRU_HASH", 9);
    ("BPF_MAP_TYPE_LRU_PERCPU_HASH", 10);
    ("BPF_MAP_TYPE_LPM_TRIE", 11);
    ("BPF_MAP_TYPE_ARRAY_OF_MAPS", 12);
    ("BPF_MAP_TYPE_HASH_OF_MAPS", 13);
    ("BPF_MAP_TYPE_DEVMAP", 14);
    ("BPF_MAP_TYPE_SOCKMAP", 15);
    ("BPF_MAP_TYPE_CPUMAP", 16);
    ("BPF_MAP_TYPE_XSKMAP", 17);
    ("BPF_MAP_TYPE_SOCKHASH", 18);
    ("BPF_MAP_TYPE_CGROUP_STORAGE_DEPRECATED", 19);
    ("BPF_MAP_TYPE_CGROUP_STORAGE", 19);
    ("BPF_MAP_TYPE_REUSEPORT_SOCKARRAY", 20);
    ("BPF_MAP_TYPE_PERCPU_CGROUP_STORAGE_DEPRECATED", 21);
    ("BPF_MAP_TYPE_PERCPU_CGROUP_STORAGE", 21);
    ("BPF_MAP_TYPE_QUEUE", 22);
    ("BPF_MAP_TYPE_STACK", 23);
    ("BPF_MAP_TYPE_SK_STORAGE", 24);
    ("BPF_MAP_TYPE_DEVMAP_HASH", 25);
    ("BPF_MAP_TYPE_STRUCT_OPS", 26);
    ("BPF_MAP_TYPE_RINGBUF", 27);
    ("BPF_MAP_TYPE_INODE_STORAGE", 28);
    ("BPF_MAP_TYPE_TASK_STORAGE", 29);
    ("BPF_MAP_TYPE_BLOOM_FILTER", 30);
    ("BPF_MAP_TYPE_USER_RINGBUF", 31);
    ("BPF_MAP_TYPE_CGRP_STORAGE", 32);
    ("BPF_MAP_TYPE_ARENA", 33);
    ("BPF_MAP_TYPE_INSN_ARRAY", 34);
    ("__MAX_BPF_MAP_TYPE", 35)].

Definition enum_d_real_type : decl :=
  enum_ "d_real_type" [
    ("D_REAL_DATA", 0);
    ("D_REAL_METADATA", 1)].

Definition enum_device_removable : decl :=
  enum_ "device_removable" [
    ("DEVICE_REMOVABLE_NOT_SUPPORTED", 0);
    ("DEVICE_REMOVABLE_UNKNOWN", 1);
    ("DEVICE_FIXED", 2);
    ("DEVICE_REMOVABLE", 3)].

Definition enum_dl_dev_state : decl :=
  enum_ "dl_dev_state" [
    ("DL_DEV_NO_DRIVER", 0);
    ("DL_DEV_PROBING", 1);
    ("DL_DEV_DRIVER_BOUND", 2);
    ("DL_DEV_UNBINDING", 3)].

Definition enum_freeze_holder : decl :=
  enum_ "freeze_holder" [
    ("FREEZE_HOLDER_KERNEL", 1);
    ("FREEZE_HOLDER_USERSPACE", 2);
    ("FREEZE_MAY_NEST", 4);
    ("FREEZE_EXCL", 8)].

Definition enum_fs_update_time : decl :=
  enum_ "fs_update_time" [
    ("FS_UPD_ATIME", 0);
    ("FS_UPD_CMTIME", 1)].

Definition enum_hrtimer_restart : decl :=
  enum_ "hrtimer_restart" [
    ("HRTIMER_NORESTART", 0);
    ("HRTIMER_RESTART", 1)].

Definition enum_inode_state_flags_enum : decl :=
  enum_ "inode_state_flags_enum" [
    ("I_NEW", 1);
    ("I_SYNC", 2);
    ("I_LRU_ISOLATING", 4);
    ("I_DIRTY_SYNC", 16);
    ("I_DIRTY_DATASYNC", 32);
    ("I_DIRTY_PAGES", 64);
    ("I_WILL_FREE", 128);
    ("I_FREEING", 256);
    ("I_CLEAR", 512);
    ("I_REFERENCED", 1024);
    ("I_LINKABLE", 2048);
    ("I_DIRTY_TIME", 4096);
    ("I_WB_SWITCH", 8192);
    ("I_OVL_INUSE", 16384);
    ("I_CREATING", 32768);
    ("I_DONTCACHE", 65536);
    ("I_SYNC_QUEUED", 131072);
    ("I_PINNING_NETFS_WB", 262144)].

Definition enum_migrate_mode : decl :=
  enum_ "migrate_mode" [
    ("MIGRATE_ASYNC", 0);
    ("MIGRATE_SYNC_LIGHT", 1);
    ("MIGRATE_SYNC", 2)].

Definition enum_module_state : decl :=
  enum_ "module_state" [
    ("MODULE_STATE_LIVE", 0);
    ("MODULE_STATE_COMING", 1);
    ("MODULE_STATE_GOING", 2);
    ("MODULE_STATE_UNFORMED", 3)].

Definition enum_pid_type : decl :=
  enum_ "pid_type" [
    ("PIDTYPE_PID", 0);
    ("PIDTYPE_TGID", 1);
    ("PIDTYPE_PGID", 2);
    ("PIDTYPE_SID", 3);
    ("PIDTYPE_MAX", 4)].

Definition enum_rpm_request : decl :=
  enum_ "rpm_request" [
    ("RPM_REQ_NONE", 0);
    ("RPM_REQ_IDLE", 1);
    ("RPM_REQ_SUSPEND", 2);
    ("RPM_REQ_AUTOSUSPEND", 3);
    ("RPM_REQ_RESUME", 4)].

Definition enum_rpm_status : decl :=
  enum_ "rpm_status" [
    ("RPM_INVALID", (-1));
    ("RPM_ACTIVE", 0);
    ("RPM_RESUMING", 1);
    ("RPM_SUSPENDED", 2);
    ("RPM_SUSPENDING", 3);
    ("RPM_BLOCKED", 4)].

Definition enum_rw_hint : decl :=
  DeclEnum (Some "rw_hint") true [
    ("WRITE_LIFE_NOT_SET", 0);
    ("WRITE_LIFE_NONE", 1);
    ("WRITE_LIFE_SHORT", 2);
    ("WRITE_LIFE_MEDIUM", 3);
    ("WRITE_LIFE_LONG", 4);
    ("WRITE_LIFE_EXTREME", 5);
    ("WRITE_LIFE_HINT_NR", 6)].

Definition enum_rwsem_waiter_type : decl :=
  enum_ "rwsem_waiter_type" [
    ("RWSEM_WAITING_FOR_WRITE", 0);
    ("RWSEM_WAITING_FOR_READ", 1)].

Definition enum_timespec_type : decl :=
  enum_ "timespec_type" [
    ("TT_NONE", 0);
    ("TT_NATIVE", 1);
    ("TT_COMPAT", 2)].

Definition enum_vtime_state : decl :=
  enum_ "vtime_state" [
    ("VTIME_INACTIVE", 0);
    ("VTIME_IDLE", 1);
    ("VTIME_SYS", 2);
    ("VTIME_USER", 3);
    ("VTIME_GUEST", 4)].

Definition enum_wb_reason : decl :=
  enum_ "wb_reason" [
    ("WB_REASON_BACKGROUND", 0);
    ("WB_REASON_VMSCAN", 1);
    ("WB_REASON_SYNC", 2);
    ("WB_REASON_PERIODIC", 3);
    ("WB_REASON_FS_FREE_SPACE", 4);
    ("WB_REASON_FORKER_THREAD", 5);
    ("WB_REASON_FOREIGN_FLUSH", 6);
    ("WB_REASON_MAX", 7)].

Definition typedef_bool : decl :=
  DeclTypedef "bool" (Base Bool).

Definition typedef___kernel_clockid_t : decl :=
  DeclTypedef "__kernel_clockid_t" (Base Int).

Definition typedef___kernel_pid_t : decl :=
  DeclTypedef "__kernel_pid_t" (Base Int).

Definition typedef___s32 : decl :=
  DeclTypedef "__s32" (Base Int).

Definition typedef_clockid_t : decl :=
  DeclTypedef "clockid_t" (Typedef "__kernel_clockid_t").

Definition typedef_s32 : decl :=
  DeclTypedef "s32" (Typedef "__s32").

Definition typedef_pid_t : decl :=
  DeclTypedef "pid_t" (Typedef "__kernel_pid_t").

Definition typedef_tracepoint_ptr_t : decl :=
  DeclTypedef "tracepoint_ptr_t" (Const (Base Int)).

Definition typedef___kernel_long_t : decl :=
  DeclTypedef "__kernel_long_t" (Base Long).

Definition typedef___kernel_ptrdiff_t : decl :=
  DeclTypedef "__kernel_ptrdiff_t" (Typedef "__kernel_long_t").

Definition typedef___kernel_ssize_t : decl :=
  DeclTypedef "__kernel_ssize_t" (Typedef "__kernel_long_t").

Definition typedef_ptrdiff_t : decl :=
  DeclTypedef "ptrdiff_t" (Typedef "__kernel_ptrdiff_t").

Definition typedef_ssize_t : decl :=
  DeclTypedef "ssize_t" (Typedef "__kernel_ssize_t").

Definition typedef___s64 : decl :=
  DeclTypedef "__s64" (Base LongLong).

Definition typedef_s64 : decl :=
  DeclTypedef "s64" (Typedef "__s64").

Definition typedef___kernel_loff_t : decl :=
  DeclTypedef "__kernel_loff_t" (Base LongLong).

Definition typedef_ktime_t : decl :=
  DeclTypedef "ktime_t" (Typedef "s64").

Definition typedef_loff_t : decl :=
  DeclTypedef "loff_t" (Typedef "__kernel_loff_t").

Definition typedef_qsize_t : decl :=
  DeclTypedef "qsize_t" (Base LongLong).

Definition typedef_time64_t : decl :=
  DeclTypedef "time64_t" (Typedef "__s64").

Definition typedef___u64 : decl :=
  DeclTypedef "__u64" (Base ULongLong).

Definition typedef_u64 : decl :=
  DeclTypedef "u64" (Typedef "__u64").

Definition typedef_blkcnt_t : decl :=
  DeclTypedef "blkcnt_t" (Typedef "u64").

Definition typedef_sector_t : decl :=
  DeclTypedef "sector_t" (Typedef "u64").

Definition typedef___kernel_ulong_t : decl :=
  DeclTypedef "__kernel_ulong_t" (Base ULong).

Definition typedef___kernel_size_t : decl :=
  DeclTypedef "__kernel_size_t" (Typedef "__kernel_ulong_t").

Definition typedef_size_t : decl :=
  DeclTypedef "size_t" (Typedef "__kernel_size_t").

Definition typedef___u16 : decl :=
  DeclTypedef "__u16" (Base UShort).

Definition typedef_u16 : decl :=
  DeclTypedef "u16" (Typedef "__u16").

Definition typedef_umode_t : decl :=
  DeclTypedef "umode_t" (Base UShort).

Definition typedef___u8 : decl :=
  DeclTypedef "__u8" (Base UChar).

Definition typedef_u8 : decl :=
  DeclTypedef "u8" (Typedef "__u8").

Definition typedef___u32 : decl :=
  DeclTypedef "__u32" (Base UInt).

Definition typedef_u32 : decl :=
  DeclTypedef "u32" (Typedef "__u32").

Definition typedef___kernel_dev_t : decl :=
  DeclTypedef "__kernel_dev_t" (Typedef "u32").

Definition typedef___kernel_gid32_t : decl :=
  DeclTypedef "__kernel_gid32_t" (Base UInt).

Definition typedef___kernel_uid32_t : decl :=
  DeclTypedef "__kernel_uid32_t" (Base UInt).

Definition typedef___poll_t : decl :=
  DeclTypedef "__poll_t" (Base UInt).

Definition typedef_dev_t : decl :=
  DeclTypedef "dev_t" (Typedef "__kernel_dev_t").

Definition typedef_errseq_t : decl :=
  DeclTypedef "errseq_t" (Typedef "u32").

Definition typedef_fmode_t : decl :=
  DeclTypedef "fmode_t" (Base UInt).

Definition typedef_fop_flags_t : decl :=
  DeclTypedef "fop_flags_t" (Base UInt).

Definition typedef_gfp_t : decl :=
  DeclTypedef "gfp_t" (Base UInt).

Definition typedef_gid_t : decl :=
  DeclTypedef "gid_t" (Typedef "__kernel_gid32_t").

Definition typedef_pipe_index_t : decl :=
  DeclTypedef "pipe_index_t" (Base UInt).

Definition typedef_projid_t : decl :=
  DeclTypedef "projid_t" (Typedef "__kernel_uid32_t").

Definition typedef_uid_t : decl :=
  DeclTypedef "uid_t" (Typedef "__kernel_uid32_t").

Definition struct_list_head : decl :=
  struct_ "list_head" [
    fld (Ptr (Struct "list_head")) "next";
    fld (Ptr (Struct "list_head")) "prev"].

Definition typedef_atomic_t : decl :=
  DeclTypedef "atomic_t" (Anon StructKind false [
    fld (Base Int) "counter"]).

Definition struct_refcount_struct : decl :=
  struct_ "refcount_struct" [
    fld (Typedef "atomic_t") "refs"].

Definition typedef_refcount_t : decl :=
  DeclTypedef "refcount_t" (Struct "refcount_struct").

Definition typedef_atomic64_t : decl :=
  DeclTypedef "atomic64_t" (Anon StructKind false [
    fld (Typedef "s64") "counter"]).

Definition typedef_atomic_long_t : decl :=
  DeclTypedef "atomic_long_t" (Typedef "atomic64_t").

Definition typedef_raw_spinlock_t : decl :=
  DeclTypedef "raw_spinlock_t" (Struct "raw_spinlock").

Definition typedef_rwlock_t : decl :=
  DeclTypedef "rwlock_t" (Struct "rwlock").

Definition typedef_spinlock_t : decl :=
  DeclTypedef "spinlock_t" (Struct "spinlock").

Definition typedef_file_ref_t : decl :=
  DeclTypedef "file_ref_t" (Anon StructKind false [
    fld (Typedef "atomic64_t") "refcnt"]).

Definition typedef_freeptr_t : decl :=
  DeclTypedef "freeptr_t" (Anon StructKind false [
    fld (Base ULong) "v"]).

Definition typedef_kernel_cap_t : decl :=
  DeclTypedef "kernel_cap_t" (Anon StructKind false [
    fld (Typedef "u64") "val"]).

Definition typedef_kgid_t : decl :=
  DeclTypedef "kgid_t" (Anon StructKind false [
    fld (Typedef "gid_t") "val"]).

Definition typedef_kprojid_t : decl :=
  DeclTypedef "kprojid_t" (Anon StructKind false [
    fld (Typedef "projid_t") "val"]).

Definition typedef_kuid_t : decl :=
  DeclTypedef "kuid_t" (Anon StructKind false [
    fld (Typedef "uid_t") "val"]).

Definition struct_optimistic_spin_queue : decl :=
  struct_ "optimistic_spin_queue" [
    fld (Typedef "atomic_t") "tail"].

Definition struct_qspinlock : decl :=
  struct_ "qspinlock" [
    anon (Anon UnionKind false [
      fld (Typedef "atomic_t") "val";
      anon (Anon StructKind false [
        fld (Typedef "u8") "locked";
        fld (Typedef "u8") "pending"]);
      anon (Anon StructKind false [
        fld (Typedef "u16") "locked_pending";
        fld (Typedef "u16") "tail"])])].

Definition typedef_arch_spinlock_t : decl :=
  DeclTypedef "arch_spinlock_t" (Struct "qspinlock").

Definition struct_raw_spinlock : decl :=
  struct_ "raw_spinlock" [
    fld (Typedef "arch_spinlock_t") "raw_lock"].

Definition struct_rw_semaphore : decl :=
  struct_ "rw_semaphore" [
    fld (Typedef "atomic_long_t") "count";
    fld (Typedef "atomic_long_t") "owner";
    fld (Struct "optimistic_spin_queue") "osq";
    fld (Typedef "raw_spinlock_t") "wait_lock";
    fld (Ptr (Struct "rwsem_waiter")) "first_waiter"].

Definition struct_mutex : decl :=
  struct_ "mutex" [
    fld (Typedef "atomic_long_t") "owner";
    fld (Typedef "raw_spinlock_t") "wait_lock";
    fld (Struct "optimistic_spin_queue") "osq";
    fld (Ptr (Struct "mutex_waiter")) "first_waiter"].

Definition typedef_uuid_t : decl :=
  DeclTypedef "uuid_t" (Anon StructKind false [
    fld (Array (Typedef "__u8") 16) "b"]).

Definition struct_spinlock : decl :=
  struct_ "spinlock" [
    anon (Anon UnionKind false [
      fld (Struct "raw_spinlock") "rlock"])].

Definition typedef_nodemask_t : decl :=
  DeclTypedef "nodemask_t" (Anon StructKind false [
    fld (Array (Base ULong) 1) "bits"]).

Definition struct_seqcount : decl :=
  struct_ "seqcount" [
    fld (Base UInt) "sequence"].

Definition typedef_seqcount_t : decl :=
  DeclTypedef "seqcount_t" (Struct "seqcount").

Definition typedef_sigset_t : decl :=
  DeclTypedef "sigset_t" (Anon StructKind false [
    fld (Array (Base ULong) 1) "sig"]).

Definition struct_wait_queue_head : decl :=
  struct_ "wait_queue_head" [
    fld (Typedef "spinlock_t") "lock";
    fld (Struct "list_head") "head"].

Definition typedef_wait_queue_head_t : decl :=
  DeclTypedef "wait_queue_head_t" (Struct "wait_queue_head").

Definition struct_hlist_node : decl :=
  struct_ "hlist_node" [
    fld (Ptr (Struct "hlist_node")) "next";
    fld (Ptr (Ptr (Struct "hlist_node"))) "pprev"].

Definition struct_llist_head : decl :=
  struct_ "llist_head" [
    fld (Ptr (Struct "llist_node")) "first"].

Definition struct_callback_head : decl :=
  struct_ "callback_head" [
    fld (Ptr (Struct "callback_head")) "next";
    fld (Ptr (Fun (Base Void) [Ptr (Struct "callback_head")])) "func"].

Definition struct_lock_class_key : decl :=
  struct_ "lock_class_key" [].

Definition struct_llist_node : decl :=
  struct_ "llist_node" [
    fld (Ptr (Struct "llist_node")) "next"].

Definition struct___call_single_node : decl :=
  struct_ "__call_single_node" [
    fld (Struct "llist_node") "llist";
    anon (Anon UnionKind false [
      fld (Base UInt) "u_flags";
      fld (Typedef "atomic_t") "a_flags"]);
    fld (Typedef "u16") "src";
    fld (Typedef "u16") "dst"].

Definition typedef_work_func_t : decl :=
  DeclTypedef "work_func_t" (Ptr (Fun (Base Void) [Ptr (Struct "work_struct")])).

Definition struct_work_struct : decl :=
  struct_ "work_struct" [
    fld (Typedef "atomic_long_t") "data";
    fld (Struct "list_head") "entry";
    fld (Typedef "work_func_t") "func"].

Definition struct__ddebug_info : decl :=
  struct_ "_ddebug_info" [
    fld (Ptr (Struct "_ddebug")) "descs";
    fld (Ptr (Struct "ddebug_class_map")) "classes";
    fld (Base UInt) "num_descs";
    fld (Base UInt) "num_classes"].

Definition struct_timer_list : decl :=
  struct_ "timer_list" [
    fld (Struct "hlist_node") "entry";
    fld (Base ULong) "expires";
    fld (Ptr (Fun (Base Void) [Ptr (Struct "timer_list")])) "function";
    fld (Typedef "u32") "flags"].

Definition struct_delayed_work : decl :=
  struct_ "delayed_work" [
    fld (Struct "work_struct") "work";
    fld (Struct "timer_list") "timer";
    fld (Ptr (Struct "workqueue_struct")) "wq";
    fld (Base Int) "cpu"].

Definition struct_kref : decl :=
  struct_ "kref" [
    fld (Typedef "refcount_t") "refcount"].

Definition struct_rb_node : decl :=
  struct_ "rb_node" [
    fld (Base ULong) "__rb_parent_color";
    fld (Ptr (Struct "rb_node")) "rb_right";
    fld (Ptr (Struct "rb_node")) "rb_left"].

Definition struct_qrwlock : decl :=
  struct_ "qrwlock" [
    anon (Anon UnionKind false [
      fld (Typedef "atomic_t") "cnts";
      anon (Anon StructKind false [
        fld (Typedef "u8") "wlocked";
        fld (Array (Typedef "u8") 3) "__lstate"])]);
    fld (Typedef "arch_spinlock_t") "wait_lock"].

Definition typedef_arch_rwlock_t : decl :=
  DeclTypedef "arch_rwlock_t" (Struct "qrwlock").

Definition struct_rwlock : decl :=
  struct_ "rwlock" [
    fld (Typedef "arch_rwlock_t") "raw_lock"].

Definition struct_rb_root : decl :=
  struct_ "rb_root" [
    fld (Ptr (Struct "rb_node")) "rb_node"].

(** In the order of the header. *)
Definition decls_base : list decl :=
  [enum_bpf_ringbuf_flags; enum_bpf_map_type; enum_d_real_type; enum_device_removable; enum_dl_dev_state;
   enum_freeze_holder; enum_fs_update_time; enum_hrtimer_restart; enum_inode_state_flags_enum;
   enum_migrate_mode; enum_module_state; enum_pid_type; enum_rpm_request; enum_rpm_status; enum_rw_hint;
   enum_rwsem_waiter_type; enum_timespec_type; enum_vtime_state; enum_wb_reason; typedef_bool;
   typedef___kernel_clockid_t; typedef___kernel_pid_t; typedef___s32; typedef_clockid_t; typedef_s32;
   typedef_pid_t; typedef_tracepoint_ptr_t; typedef___kernel_long_t; typedef___kernel_ptrdiff_t;
   typedef___kernel_ssize_t; typedef_ptrdiff_t; typedef_ssize_t; typedef___s64; typedef_s64;
   typedef___kernel_loff_t; typedef_ktime_t; typedef_loff_t; typedef_qsize_t; typedef_time64_t;
   typedef___u64; typedef_u64; typedef_blkcnt_t; typedef_sector_t; typedef___kernel_ulong_t;
   typedef___kernel_size_t; typedef_size_t; typedef___u16; typedef_u16; typedef_umode_t; typedef___u8;
   typedef_u8; typedef___u32; typedef_u32; typedef___kernel_dev_t; typedef___kernel_gid32_t;
   typedef___kernel_uid32_t; typedef___poll_t; typedef_dev_t; typedef_errseq_t; typedef_fmode_t;
   typedef_fop_flags_t; typedef_gfp_t; typedef_gid_t; typedef_pipe_index_t; typedef_projid_t; typedef_uid_t;
   struct_list_head; typedef_atomic_t; struct_refcount_struct; typedef_refcount_t; typedef_atomic64_t;
   typedef_atomic_long_t; typedef_raw_spinlock_t; typedef_rwlock_t; typedef_spinlock_t; typedef_file_ref_t;
   typedef_freeptr_t; typedef_kernel_cap_t; typedef_kgid_t; typedef_kprojid_t; typedef_kuid_t;
   struct_optimistic_spin_queue; struct_qspinlock; typedef_arch_spinlock_t; struct_raw_spinlock;
   struct_rw_semaphore; struct_mutex; typedef_uuid_t; struct_spinlock; typedef_nodemask_t; struct_seqcount;
   typedef_seqcount_t; typedef_sigset_t; struct_wait_queue_head; typedef_wait_queue_head_t;
   struct_hlist_node; struct_llist_head; struct_callback_head; struct_lock_class_key; struct_llist_node;
   struct___call_single_node; typedef_work_func_t; struct_work_struct; struct__ddebug_info;
   struct_timer_list; struct_delayed_work; struct_kref; struct_rb_node; struct_qrwlock;
   typedef_arch_rwlock_t; struct_rwlock; struct_rb_root].
