(* ===== verification/VmlinuxFs.v ===== *)
(** * Declarations of src/vmlinux.h, second part

    Devices, inodes, files, credentials and directory entries. *)

From stdpp Require Import base list strings.
From Stdlib Require Import ZArith.
From S2P Require Import CTypes.

Open Scope Z_scope.

Definition struct_kobject : decl :=
  struct_ "kobject" [
    fld (Ptr (Const (Base Char))) "name";
    fld (Struct "list_head") "entry";
    fld (Ptr (Struct "kobject")) "parent";
    fld (Ptr (Struct "kset")) "kset";
    fld (Ptr (Const (Struct "kobj_type"))) "ktype";
    fld (Ptr (Struct "kernfs_node")) "sd";
    fld (Struct "kref") "kref";
    bits (Base UInt) "state_initialized" 1;
    bits (Base UInt) "state_in_sysfs" 1;
    bits (Base UInt) "state_add_uevent_sent" 1;
    bits (Base UInt) "state_remove_uevent_sent" 1;
    bits (Base UInt) "uevent_suppress" 1].

Definition struct_swait_queue_head : decl :=
  struct_ "swait_queue_head" [
    fld (Typedef "raw_spinlock_t") "lock";
    fld (Struct "list_head") "task_list"].

Definition struct_completion : decl :=
  struct_ "completion" [
    fld (Base UInt) "done";
    fld (Struct "swait_queue_head") "wait"].

Definition struct_dev_links_info : decl :=
  struct_ "dev_links_info" [
    fld (Struct "list_head") "suppliers";
    fld (Struct "list_head") "consumers";
    fld (Struct "list_head") "defer_sync";
    fld (Enum "dl_dev_state") "status"].

Definition struct_pm_message : decl :=
  struct_ "pm_message" [
    fld (Base Int) "event"].

Definition typedef_pm_message_t : decl :=
  DeclTypedef "pm_message_t" (Struct "pm_message").

Definition struct_rb_node_linked : decl :=
  struct_ "rb_node_linked" [
    fld (Struct "rb_node") "node";
    fld (Ptr (Struct "rb_node_linked")) "prev";
    fld (Ptr (Struct "rb_node_linked")) "next"].

Definition struct_timerqueue_linked_node : decl :=
  struct_ "timerqueue_linked_node" [
    fld (Struct "rb_node_linked") "node";
    fld (Typedef "ktime_t") "expires"].

Definition struct_hrtimer : decl :=
  struct_ "hrtimer" [
    fld (Struct "timerqueue_linked_node") "node";
    fld (Ptr (Struct "hrtimer_clock_base")) "base";
    fld (Typedef "bool") "is_queued";
    fld (Typedef "bool") "is_rel";
    fld (Typedef "bool") "is_soft";
    fld (Typedef "bool") "is_hard";
    fld (Typedef "bool") "is_lazy";
    fld (Typedef "ktime_t") "_softexpires";
    fld (Ptr (Fun (Enum "hrtimer_restart") [Ptr (Struct "hrtimer")])) "function"].

Definition struct_dev_pm_info : decl :=
  struct_ "dev_pm_info" [
    fld (Typedef "pm_message_t") "power_state";
    bits (Typedef "bool") "can_wakeup" 1;
    bits (Typedef "bool") "async_suspend" 1;
    bits (Typedef "bool") "in_dpm_list" 1;
    bits (Typedef "bool") "is_prepared" 1;
    bits (Typedef "bool") "is_suspended" 1;
    bits (Typedef "bool") "is_noirq_suspended" 1;
    bits (Typedef "bool") "is_late_suspended" 1;
    bits (Typedef "bool") "no_pm" 1;
    bits (Typedef "bool") "early_init" 1;
    bits (Typedef "bool") "direct_complete" 1;
    fld (Typedef "u32") "driver_flags";
    fld (Typedef "spinlock_t") "lock";
    fld (Struct "list_head") "entry";
    fld (Struct "completion") "completion";
    fld (Ptr (Struct "wakeup_source")) "wakeup";
    fld (Typedef "bool") "work_in_progress";
    bits (Typedef "bool") "wakeup_path" 1;
    bits (Typedef "bool") "syscore" 1;
    bits (Typedef "bool") "no_pm_callbacks" 1;
    bits (Typedef "bool") "smart_suspend" 1;
    bits (Typedef "bool") "must_resume" 1;
    bits (Typedef "bool") "may_skip_resume" 1;
    bits (Typedef "bool") "out_band_wakeup" 1;
    bits (Typedef "bool") "strict_midlayer" 1;
    fld (Struct "hrtimer") "suspend_timer";
    fld (Typedef "u64") "timer_expires";
    fld (Struct "work_struct") "work";
    fld (Typedef "wait_queue_head_t") "wait_queue";
    fld (Ptr (Struct "wake_irq")) "wakeirq";
    fld (Typedef "atomic_t") "usage_count";
    fld (Typedef "atomic_t") "child_count";
    bits (Base UInt) "disable_depth" 3;
    bits (Typedef "bool") "idle_notification" 1;
    bits (Typedef "bool") "request_pending" 1;
    bits (Typedef "bool") "deferred_resume" 1;
    bits (Typedef "bool") "needs_force_resume" 1;
    bits (Typedef "bool") "runtime_auto" 1;
    bits (Typedef "bool") "ignore_children" 1;
    bits (Typedef "bool") "no_callbacks" 1;
    bits (Typedef "bool") "irq_safe" 1;
    bits (Typedef "bool") "use_autosuspend" 1;
    bits (Typedef "bool") "timer_autosuspends" 1;
    bits (Typedef "bool") "memalloc_noio" 1;
    fld (Base UInt) "links_count";
    fld (Enum "rpm_request") "request";
    fld (Enum "rpm_status") "runtime_status";
    fld (Enum "rpm_status") "last_status";
    fld (Base Int) "runtime_error";
    fld (Base Int) "autosuspend_delay";
    fld (Typedef "u64") "last_busy";
    fld (Typedef "u64") "active_time";
    fld (Typedef "u64") "suspended_time";
    fld (Typedef "u64") "accounting_timestamp";
    fld (Ptr (Struct "pm_subsys_data")) "subsys_data";
    fld (Ptr (Fun (Base Void) [Ptr (Struct "device"); Typedef "s32"])) "set_latency_tolerance";
    fld (Ptr (Struct "dev_pm_qos")) "qos";
    bits (Typedef "bool") "detach_power_off" 1].

Definition struct_dev_msi_info : decl :=
  struct_ "dev_msi_info" [
    fld (Ptr (Struct "irq_domain")) "domain";
    fld (Ptr (Struct "msi_device_data")) "data"].

Definition struct_dev_archdata : decl :=
  struct_ "dev_archdata" [].

Definition struct_device : decl :=
  struct_ "device" [
    fld (Struct "kobject") "kobj";
    fld (Ptr (Struct "device")) "parent";
    fld (Ptr (Struct "device_private")) "p";
    fld (Ptr (Const (Base Char))) "init_name";
    fld (Ptr (Const (Struct "device_type"))) "type";
    fld (Ptr (Const (Struct "bus_type"))) "bus";
    fld (Ptr (Struct "device_driver")) "driver";
    fld (Ptr (Base Void)) "platform_data";
    fld (Ptr (Base Void)) "driver_data";
    fld (Anon StructKind false [
      fld (Ptr (Const (Base Char))) "name";
      fld (Typedef "spinlock_t") "lock"]) "driver_override";
    fld (Struct "mutex") "mutex";
    fld (Struct "dev_links_info") "links";
    fld (Struct "dev_pm_info") "power";
    fld (Ptr (Struct "dev_pm_domain")) "pm_domain";
    fld (Ptr (Struct "em_perf_domain")) "em_pd";
    fld (Ptr (Struct "dev_pin_info")) "pins";
    fld (Struct "dev_msi_info") "msi";
    fld (Ptr (Const (Struct "dma_map_ops"))) "dma_ops";
    fld (Ptr (Typedef "u64")) "dma_mask";
    fld (Typedef "u64") "coherent_dma_mask";
    fld (Typedef "u64") "bus_dma_limit";
    fld (Ptr (Const (Struct "bus_dma_region"))) "dma_range_map";
    fld (Ptr (Struct "device_dma_parameters")) "dma_parms";
    fld (Struct "list_head") "dma_pools";
    fld (Ptr (Struct "dma_coherent_mem")) "dma_mem";
    fld (Ptr (Struct "cma")) "cma_area";
    fld (Ptr (Struct "io_tlb_mem")) "dma_io_tlb_mem";
    fld (Struct "dev_archdata") "archdata";
    fld (Ptr (Struct "device_node")) "of_node";
    fld (Ptr (Struct "fwnode_handle")) "fwnode";
    fld (Base Int) "numa_node";
    fld (Typedef "dev_t") "devt";
    fld (Typedef "u32") "id";
    fld (Typedef "spinlock_t") "devres_lock";
    fld (Struct "list_head") "devres_head";
    fld (Ptr (Const (Struct "class"))) "class";
    fld (Ptr (Ptr (Const (Struct "attribute_group")))) "groups";
    fld (Ptr (Fun (Base Void) [Ptr (Struct "device")])) "release";
    fld (Ptr (Struct "iommu_group")) "iommu_group";
    fld (Ptr (Struct "dev_iommu")) "iommu";
    fld (Ptr (Struct "device_physical_location")) "physical_location";
    fld (Enum "device_removable") "removable";
    bits (Typedef "bool") "offline_disabled" 1;
    bits (Typedef "bool") "offline" 1;
    bits (Typedef "bool") "of_node_reused" 1;
    bits (Typedef "bool") "state_synced" 1;
    bits (Typedef "bool") "can_match" 1;
    bits (Typedef "bool") "dma_skip_sync" 1;
    bits (Typedef "bool") "dma_iommu" 1;
    fld (Array (Base ULong) 1) "flags"].

Definition struct_xarray : decl :=
  struct_ "xarray" [
    fld (Typedef "spinlock_t") "xa_lock";
    fld (Typedef "gfp_t") "xa_flags";
    fld (Ptr (Base Void)) "xa_head"].

Definition struct_cpumask : decl :=
  struct_ "cpumask" [
    fld (Array (Base ULong) 6) "bits"].

Definition struct_plist_node : decl :=
  struct_ "plist_node" [
    fld (Base Int) "prio";
    fld (Struct "list_head") "prio_list";
    fld (Struct "list_head") "node_list"].

Definition struct_rb_root_cached : decl :=
  struct_ "rb_root_cached" [
    fld (Struct "rb_root") "rb_root";
    fld (Ptr (Struct "rb_node")) "rb_leftmost"].

Definition struct_address_space : decl :=
  struct_ "address_space" [
    fld (Ptr (Struct "inode")) "host";
    fld (Struct "xarray") "i_pages";
    fld (Struct "rw_semaphore") "invalidate_lock";
    fld (Typedef "gfp_t") "gfp_mask";
    fld (Typedef "atomic_t") "i_mmap_writable";
    fld (Struct "rb_root_cached") "i_mmap";
    fld (Base ULong) "nrpages";
    fld (Base ULong) "writeback_index";
    fld (Ptr (Const (Struct "address_space_operations"))) "a_ops";
    fld (Base ULong) "flags";
    fld (Typedef "errseq_t") "wb_err";
    fld (Typedef "spinlock_t") "i_private_lock";
    fld (Struct "rw_semaphore") "i_mmap_rwsem"].

Definition struct_address_space_operations : decl :=
  struct_ "address_space_operations" [
    fld (Ptr (Fun (Base Int) [Ptr (Struct "file"); Ptr (Struct "folio")])) "read_folio";
    fld (Ptr (Fun (Base Int) [Ptr (Struct "address_space"); Ptr (Struct "writeback_control")])) "writepages";
    fld (Ptr (Fun (Typedef "bool") [Ptr (Struct "address_space"); Ptr (Struct "folio")])) "dirty_folio";
    fld (Ptr (Fun (Base Void) [Ptr (Struct "readahead_control")])) "readahead";
    fld (Ptr (Fun (Base Int) [Ptr (Const (Struct "kiocb")); Ptr (Struct "address_space"); Typedef "loff_t";
        Base UInt; Ptr (Ptr (Struct "folio")); Ptr (Ptr (Base Void))])) "write_begin";
    fld (Ptr (Fun (Base Int) [Ptr (Const (Struct "kiocb")); Ptr (Struct "address_space"); Typedef "loff_t";
        Base UInt; Base UInt; Ptr (Struct "folio"); Ptr (Base Void)])) "write_end";
    fld (Ptr (Fun (Typedef "sector_t") [Ptr (Struct "address_space"); Typedef "sector_t"])) "bmap";
    fld (Ptr (Fun (Base Void) [Ptr (Struct "folio"); Typedef "size_t"; Typedef "size_t"])) "invalidate_folio";
    fld (Ptr (Fun (Typedef "bool") [Ptr (Struct "folio"); Typedef "gfp_t"])) "release_folio";
    fld (Ptr (Fun (Base Void) [Ptr (Struct "folio")])) "free_folio";
    fld (Ptr (Fun (Typedef "ssize_t") [Ptr (Struct "kiocb"); Ptr (Struct "iov_iter")])) "direct_IO";
    fld (Ptr (Fun (Base Int) [Ptr (Struct "address_space"); Ptr (Struct "folio"); Ptr (Struct "folio"); Enum
        "migrate_mode"])) "migrate_folio";
    fld (Ptr (Fun (Base Int) [Ptr (Struct "folio")])) "launder_folio";
    fld (Ptr (Fun (Typedef "bool") [Ptr (Struct "folio"); Typedef "size_t"; Typedef "size_t"]))
        "is_partially_uptodate";
    fld (Ptr (Fun (Base Void) [Ptr (Struct "folio"); Ptr (Typedef "bool"); Ptr (Typedef "bool")]))
        "is_dirty_writeback";
    fld (Ptr (Fun (Base Int) [Ptr (Struct "address_space"); Ptr (Struct "folio")])) "error_remove_folio";
    fld (Ptr (Fun (Base Int) [Ptr (Struct "swap_info_struct"); Ptr (Struct "file"); Ptr (Typedef "sector_t")]))
        "swap_activate";
    fld (Ptr (Fun (Base Void) [Ptr (Struct "file")])) "swap_deactivate";
    fld (Ptr (Fun (Base Int) [Ptr (Struct "kiocb"); Ptr (Struct "iov_iter")])) "swap_rw"].

Definition struct_timespec64 : decl :=
  struct_ "timespec64" [
    fld (Typedef "time64_t") "tv_sec";
    fld (Base Long) "tv_nsec"].

Definition struct_inode_state_flags : decl :=
  struct_ "inode_state_flags" [
    fld (Enum "inode_state_flags_enum") "__state"].

Definition struct_hlist_head : decl :=
  struct_ "hlist_head" [
    fld (Ptr (Struct "hlist_node")) "first"].

Definition struct_inode : decl :=
  struct_ "inode" [
    fld (Typedef "umode_t") "i_mode";
    fld (Base UShort) "i_opflags";
    fld (Base UInt) "i_flags";
    fld (Ptr (Struct "posix_acl")) "i_acl";
    fld (Ptr (Struct "posix_acl")) "i_default_acl";
    fld (Typedef "kuid_t") "i_uid";
    fld (Typedef "kgid_t") "i_gid";
    fld (Ptr (Const (Struct "inode_operations"))) "i_op";
    fld (Ptr (Struct "super_block")) "i_sb";
    fld (Ptr (Struct "address_space")) "i_mapping";
    fld (Ptr (Base Void)) "i_security";
    fld (Typedef "u64") "i_ino";
    anon (Anon UnionKind false [
      fld (Const (Base UInt)) "i_nlink";
      fld (Base UInt) "__i_nlink"]);
    fld (Typedef "dev_t") "i_rdev";
    fld (Typedef "loff_t") "i_size";
    fld (Typedef "time64_t") "i_atime_sec";
    fld (Typedef "time64_t") "i_mtime_sec";
    fld (Typedef "time64_t") "i_ctime_sec";
    fld (Typedef "u32") "i_atime_nsec";
    fld (Typedef "u32") "i_mtime_nsec";
    fld (Typedef "u32") "i_ctime_nsec";
    fld (Typedef "u32") "i_generation";
    fld (Typedef "spinlock_t") "i_lock";
    fld (Base UShort) "i_bytes";
    fld (Typedef "u8") "i_blkbits";
    fld (Enum "rw_hint") "i_write_hint";
    fld (Typedef "blkcnt_t") "i_blocks";
    fld (Struct "inode_state_flags") "i_state";
    fld (Struct "rw_semaphore") "i_rwsem";
    fld (Base ULong) "dirtied_when";
    fld (Base ULong) "dirtied_time_when";
    fld (Struct "hlist_node") "i_hash";
    fld (Struct "list_head") "i_io_list";
    fld (Ptr (Struct "bdi_writeback")) "i_wb";
    fld (Base Int) "i_wb_frn_winner";
    fld (Typedef "u16") "i_wb_frn_avg_time";
    fld (Typedef "u16") "i_wb_frn_history";
    fld (Struct "list_head") "i_lru";
    fld (Struct "list_head") "i_sb_list";
    fld (Struct "list_head") "i_wb_list";
    anon (Anon UnionKind false [
      fld (Struct "hlist_head") "i_dentry";
      fld (Struct "callback_head") "i_rcu"]);
    fld (Typedef "atomic64_t") "i_version";
    fld (Typedef "atomic64_t") "i_sequence";
    fld (Typedef "atomic_t") "i_count";
    fld (Typedef "atomic_t") "i_dio_count";
    fld (Typedef "atomic_t") "i_writecount";
    fld (Typedef "atomic_t") "i_readcount";
    anon (Anon UnionKind false [
      fld (Ptr (Const (Struct "file_operations"))) "i_fop";
      fld (Ptr (Fun (Base Void) [Ptr (Struct "inode")])) "free_inode"]);
    fld (Ptr (Struct "file_lock_context")) "i_flctx";
    fld (Struct "address_space") "i_data";
    anon (Anon UnionKind false [
      fld (Struct "list_head") "i_devices";
      fld (Base Int) "i_linklen"]);
    anon (Anon UnionKind false [
      fld (Ptr (Struct "pipe_inode_info")) "i_pipe";
      fld (Ptr (Struct "cdev")) "i_cdev";
      fld (Ptr (Base Char)) "i_link";
      fld (Base UInt) "i_dir_seq"]);
    fld (Typedef "__u32") "i_fsnotify_mask";
    fld (Ptr (Struct "fsnotify_mark_connector")) "i_fsnotify_marks";
    fld (Ptr (Base Void)) "i_private"].

Definition struct_timerqueue_head : decl :=
  struct_ "timerqueue_head" [
    fld (Struct "rb_root_cached") "rb_root"].

Definition struct_path : decl :=
  struct_ "path" [
    fld (Ptr (Struct "vfsmount")) "mnt";
    fld (Ptr (Struct "dentry")) "dentry"].

Definition struct_arch_tlbflush_unmap_batch : decl :=
  struct_ "arch_tlbflush_unmap_batch" [
    fld (Struct "cpumask") "cpumask";
    fld (Typedef "bool") "unmapped_pages"].

Definition struct_percpu_counter : decl :=
  struct_ "percpu_counter" [
    fld (Typedef "raw_spinlock_t") "lock";
    fld (Typedef "s64") "count";
    fld (Struct "list_head") "list";
    fld (Ptr (Typedef "s32")) "counters"].

Definition struct_fprop_local_percpu : decl :=
  struct_ "fprop_local_percpu" [
    fld (Struct "percpu_counter") "events";
    fld (Base UInt) "period";
    fld (Typedef "raw_spinlock_t") "lock"].

Definition struct_percpu_ref : decl :=
  struct_ "percpu_ref" [
    fld (Base ULong) "percpu_count_ptr";
    fld (Ptr (Struct "percpu_ref_data")) "data"].

Definition struct_bdi_writeback : decl :=
  struct_ "bdi_writeback" [
    fld (Ptr (Struct "backing_dev_info")) "bdi";
    fld (Base ULong) "state";
    fld (Base ULong) "last_old_flush";
    fld (Struct "list_head") "b_dirty";
    fld (Struct "list_head") "b_io";
    fld (Struct "list_head") "b_more_io";
    fld (Struct "list_head") "b_dirty_time";
    fld (Typedef "spinlock_t") "list_lock";
    fld (Typedef "atomic_t") "writeback_inodes";
    fld (Array (Struct "percpu_counter") 4) "stat";
    fld (Base ULong) "bw_time_stamp";
    fld (Base ULong) "dirtied_stamp";
    fld (Base ULong) "written_stamp";
    fld (Base ULong) "write_bandwidth";
    fld (Base ULong) "avg_write_bandwidth";
    fld (Base ULong) "dirty_ratelimit";
    fld (Base ULong) "balanced_dirty_ratelimit";
    fld (Struct "fprop_local_percpu") "completions";
    fld (Base Int) "dirty_exceeded";
    fld (Enum "wb_reason") "start_all_reason";
    fld (Typedef "spinlock_t") "work_lock";
    fld (Struct "list_head") "work_list";
    fld (Struct "delayed_work") "dwork";
    fld (Struct "delayed_work") "bw_dwork";
    fld (Struct "list_head") "bdi_node";
    fld (Struct "percpu_ref") "refcnt";
    fld (Struct "fprop_local_percpu") "memcg_completions";
    fld (Ptr (Struct "cgroup_subsys_state")) "memcg_css";
    fld (Ptr (Struct "cgroup_subsys_state")) "blkcg_css";
    fld (Struct "list_head") "memcg_node";
    fld (Struct "list_head") "blkcg_node";
    fld (Struct "list_head") "b_attached";
    fld (Struct "list_head") "offline_node";
    fld (Struct "work_struct") "switch_work";
    fld (Struct "llist_head") "switch_wbs_ctxs";
    anon (Anon UnionKind false [
      fld (Struct "work_struct") "release_work";
      fld (Struct "callback_head") "rcu"])].

Definition struct_backing_dev_info : decl :=
  struct_ "backing_dev_info" [
    fld (Typedef "u64") "id";
    fld (Struct "rb_node") "rb_node";
    fld (Struct "list_head") "bdi_list";
    fld (Base ULong) "ra_pages";
    fld (Base ULong) "io_pages";
    fld (Struct "kref") "refcnt";
    fld (Base UInt) "capabilities";
    fld (Base UInt) "min_ratio";
    fld (Base UInt) "max_ratio";
    fld (Base UInt) "max_prop_frac";
    fld (Typedef "atomic_long_t") "tot_write_bandwidth";
    fld (Base ULong) "last_bdp_sleep";
    fld (Struct "bdi_writeback") "wb";
    fld (Struct "list_head") "wb_list";
    fld (Struct "xarray") "cgwb_tree";
    fld (Struct "mutex") "cgwb_release_mutex";
    fld (Struct "rw_semaphore") "wb_switch_rwsem";
    fld (Typedef "wait_queue_head_t") "wb_waitq";
    fld (Ptr (Struct "device")) "dev";
    fld (Array (Base Char) 64) "dev_name";
    fld (Ptr (Struct "device")) "owner";
    fld (Ptr (Struct "dentry")) "debug_dir"].

Definition struct_file_ra_state : decl :=
  struct_ "file_ra_state" [
    fld (Base ULong) "start";
    fld (Base UInt) "size";
    fld (Base UInt) "async_size";
    fld (Base UInt) "ra_pages";
    fld (Base UShort) "order";
    fld (Base UShort) "mmap_miss";
    fld (Typedef "loff_t") "prev_pos"].

Definition struct_file : decl :=
  struct_ "file" [
    fld (Typedef "spinlock_t") "f_lock";
    fld (Typedef "fmode_t") "f_mode";
    fld (Ptr (Const (Struct "file_operations"))) "f_op";
    fld (Ptr (Struct "address_space")) "f_mapping";
    fld (Ptr (Base Void)) "private_data";
    fld (Ptr (Struct "inode")) "f_inode";
    fld (Base UInt) "f_flags";
    fld (Base UInt) "f_iocb_flags";
    fld (Ptr (Const (Struct "cred"))) "f_cred";
    fld (Ptr (Struct "fown_struct")) "f_owner";
    anon (Anon UnionKind false [
      fld (Const (Struct "path")) "f_path";
      fld (Struct "path") "__f_path"]);
    anon (Anon UnionKind false [
      fld (Struct "mutex") "f_pos_lock";
      fld (Typedef "u64") "f_pipe"]);
    fld (Typedef "loff_t") "f_pos";
    fld (Ptr (Base Void)) "f_security";
    fld (Typedef "errseq_t") "f_wb_err";
    fld (Typedef "errseq_t") "f_sb_err";
    fld (Ptr (Struct "hlist_head")) "f_ep";
    anon (Anon UnionKind false [
      fld (Struct "callback_head") "f_task_work";
      fld (Struct "llist_node") "f_llist";
      fld (Struct "file_ra_state") "f_ra";
      fld (Typedef "freeptr_t") "f_freeptr"]);
    fld (Typedef "file_ref_t") "f_ref"].

Definition struct_seqcount_spinlock : decl :=
  struct_ "seqcount_spinlock" [
    fld (Typedef "seqcount_t") "seqcount"].

Definition typedef_seqcount_spinlock_t : decl :=
  DeclTypedef "seqcount_spinlock_t" (Struct "seqcount_spinlock").

Definition struct_block_device : decl :=
  struct_ "block_device" [
    fld (Typedef "sector_t") "bd_start_sect";
    fld (Typedef "sector_t") "bd_nr_sectors";
    fld (Ptr (Struct "gendisk")) "bd_disk";
    fld (Ptr (Struct "request_queue")) "bd_queue";
    fld (Ptr (Struct "disk_stats")) "bd_stats";
    fld (Base ULong) "bd_stamp";
    fld (Typedef "atomic_t") "__bd_flags";
    fld (Typedef "dev_t") "bd_dev";
    fld (Ptr (Struct "address_space")) "bd_mapping";
    fld (Typedef "atomic_t") "bd_openers";
    fld (Typedef "spinlock_t") "bd_size_lock";
    fld (Ptr (Base Void)) "bd_claiming";
    fld (Ptr (Base Void)) "bd_holder";
    fld (Ptr (Const (Struct "blk_holder_ops"))) "bd_holder_ops";
    fld (Struct "mutex") "bd_holder_lock";
    fld (Base Int) "bd_holders";
    fld (Ptr (Struct "kobject")) "bd_holder_dir";
    fld (Typedef "atomic_t") "bd_fsfreeze_count";
    fld (Struct "mutex") "bd_fsfreeze_mutex";
    fld (Ptr (Struct "partition_meta_info")) "bd_meta_info";
    fld (Base Int) "bd_writers";
    fld (Ptr (Base Void)) "bd_security";
    fld (Struct "device") "bd_device"].

Definition struct_rcuwait : decl :=
  struct_ "rcuwait" [
    fld (Ptr (Struct "task_struct")) "task"].

Definition typedef_cpumask_t : decl :=
  DeclTypedef "cpumask_t" (Struct "cpumask").

Definition struct_page_frag : decl :=
  struct_ "page_frag" [
    fld (Ptr (Struct "page")) "page";
    fld (Typedef "__u32") "offset";
    fld (Typedef "__u32") "size"].

Definition struct_latch_tree_node : decl :=
  struct_ "latch_tree_node" [
    fld (Array (Struct "rb_node") 2) "node"].

Definition struct_scx_dsq_list_node : decl :=
  struct_ "scx_dsq_list_node" [
    fld (Struct "list_head") "node";
    fld (Typedef "u32") "flags";
    fld (Typedef "u32") "priv"].

Definition struct_cdev : decl :=
  struct_ "cdev" [
    fld (Struct "kobject") "kobj";
    fld (Ptr (Struct "module")) "owner";
    fld (Ptr (Const (Struct "file_operations"))) "ops";
    fld (Struct "list_head") "list";
    fld (Typedef "dev_t") "dev";
    fld (Base UInt) "count"].

Definition struct_load_weight : decl :=
  struct_ "load_weight" [
    fld (Base ULong) "weight";
    fld (Typedef "u32") "inv_weight"].

Definition struct_sched_avg : decl :=
  struct_ "sched_avg" [
    fld (Typedef "u64") "last_update_time";
    fld (Typedef "u64") "load_sum";
    fld (Typedef "u64") "runnable_sum";
    fld (Typedef "u32") "util_sum";
    fld (Typedef "u32") "period_contrib";
    fld (Base ULong) "load_avg";
    fld (Base ULong) "runnable_avg";
    fld (Base ULong) "util_avg";
    fld (Base UInt) "util_est"].

Definition struct_prev_cputime : decl :=
  struct_ "prev_cputime" [
    fld (Typedef "u64") "utime";
    fld (Typedef "u64") "stime";
    fld (Typedef "raw_spinlock_t") "lock"].

Definition struct_ns_tree_node : decl :=
  struct_ "ns_tree_node" [
    fld (Struct "rb_node") "ns_node";
    fld (Struct "list_head") "ns_list_entry"].

Definition struct_ns_tree_root : decl :=
  struct_ "ns_tree_root" [
    fld (Struct "rb_root") "ns_rb";
    fld (Struct "list_head") "ns_list_head"].

Definition struct_ns_tree : decl :=
  struct_ "ns_tree" [
    fld (Typedef "u64") "ns_id";
    fld (Typedef "atomic_t") "__ns_ref_active";
    fld (Struct "ns_tree_node") "ns_unified_node";
    fld (Struct "ns_tree_node") "ns_tree_node";
    fld (Struct "ns_tree_node") "ns_owner_node";
    fld (Struct "ns_tree_root") "ns_owner_root"].

Definition struct_ns_common : decl :=
  struct_ "ns_common" [
    anon (Anon StructKind false [
      fld (Typedef "refcount_t") "__ns_ref";
      pad (Base Long) 64;
      pad (Base Long) 64;
      pad (Base Long) 64;
      pad (Base Long) 64;
      pad (Base Long) 64;
      pad (Base Long) 64;
      pad (Base Long) 64]);
    fld (Typedef "u32") "ns_type";
    fld (Ptr (Struct "dentry")) "stashed";
    fld (Ptr (Const (Struct "proc_ns_operations"))) "ops";
    fld (Base UInt) "inum";
    anon (Anon UnionKind false [
      anon (Struct "ns_tree");
      fld (Struct "callback_head") "ns_rcu"])].

Definition typedef_kernel_siginfo_t : decl :=
  DeclTypedef "kernel_siginfo_t" (Struct "kernel_siginfo").

Definition struct_cred : decl :=
  struct_ "cred" [
    fld (Typedef "atomic_long_t") "usage";
    fld (Typedef "kuid_t") "uid";
    fld (Typedef "kgid_t") "gid";
    fld (Typedef "kuid_t") "suid";
    fld (Typedef "kgid_t") "sgid";
    fld (Typedef "kuid_t") "euid";
    fld (Typedef "kgid_t") "egid";
    fld (Typedef "kuid_t") "fsuid";
    fld (Typedef "kgid_t") "fsgid";
    fld (Base UInt) "securebits";
    fld (Typedef "kernel_cap_t") "cap_inheritable";
    fld (Typedef "kernel_cap_t") "cap_permitted";
    fld (Typedef "kernel_cap_t") "cap_effective";
    fld (Typedef "kernel_cap_t") "cap_bset";
    fld (Typedef "kernel_cap_t") "cap_ambient";
    fld (Base UChar) "jit_keyring";
    fld (Ptr (Struct "key")) "session_keyring";
    fld (Ptr (Struct "key")) "process_keyring";
    fld (Ptr (Struct "key")) "thread_keyring";
    fld (Ptr (Struct "key")) "request_key_auth";
    fld (Ptr (Base Void)) "security";
    fld (Ptr (Struct "user_struct")) "user";
    fld (Ptr (Struct "user_namespace")) "user_ns";
    fld (Ptr (Struct "ucounts")) "ucounts";
    fld (Ptr (Struct "group_info")) "group_info";
    anon (Anon UnionKind false [
      fld (Base Int) "non_rcu";
      fld (Struct "callback_head") "rcu"])].

Definition struct_ctl_table_header : decl :=
  struct_ "ctl_table_header" [
    anon (Anon UnionKind false [
      anon (Anon StructKind false [
        fld (Ptr (Const (Struct "ctl_table"))) "ctl_table";
        fld (Base Int) "ctl_table_size";
        fld (Base Int) "used";
        fld (Base Int) "count";
        fld (Base Int) "nreg"]);
      fld (Struct "callback_head") "rcu"]);
    fld (Ptr (Struct "completion")) "unregistering";
    fld (Ptr (Const (Struct "ctl_table"))) "ctl_table_arg";
    fld (Ptr (Struct "ctl_table_root")) "root";
    fld (Ptr (Struct "ctl_table_set")) "set";
    fld (Ptr (Struct "ctl_dir")) "parent";
    fld (Ptr (Struct "ctl_node")) "node";
    fld (Struct "hlist_head") "inodes";
    fld (AnonEnum [("SYSCTL_TABLE_TYPE_DEFAULT", 0); ("SYSCTL_TABLE_TYPE_PERMANENTLY_EMPTY", 1)]) "type"].

Definition struct_ctl_dir : decl :=
  struct_ "ctl_dir" [
    fld (Struct "ctl_table_header") "header";
    fld (Struct "rb_root") "root"].

Definition struct_ctl_table_set : decl :=
  struct_ "ctl_table_set" [
    fld (Ptr (Fun (Base Int) [Ptr (Struct "ctl_table_set")])) "is_seen";
    fld (Struct "ctl_dir") "dir"].

Definition struct_hlist_bl_node : decl :=
  struct_ "hlist_bl_node" [
    fld (Ptr (Struct "hlist_bl_node")) "next";
    fld (Ptr (Ptr (Struct "hlist_bl_node"))) "pprev"].

Definition struct_qstr : decl :=
  struct_ "qstr" [
    anon (Anon UnionKind false [
      anon (Anon StructKind false [
        fld (Typedef "u32") "hash";
        fld (Typedef "u32") "len"]);
      fld (Typedef "u64") "hash_len"]);
    fld (Ptr (Const (Base UChar))) "name"].

Definition union_shortname_store : decl :=
  union_ "shortname_store" [
    fld (Array (Base UChar) 40) "string";
    fld (Array (Base ULong) 5) "words"].

Definition struct_lockref : decl :=
  struct_ "lockref" [
    anon (Anon UnionKind false [
      fld (Typedef "__u64") "lock_count";
      anon (Anon StructKind false [
        fld (Typedef "spinlock_t") "lock";
        fld (Base Int) "count"])])].

Definition struct_dentry : decl :=
  struct_ "dentry" [
    fld (Base UInt) "d_flags";
    fld (Typedef "seqcount_spinlock_t") "d_seq";
    fld (Struct "hlist_bl_node") "d_hash";
    fld (Ptr (Struct "dentry")) "d_parent";
    anon (Anon UnionKind false [
      fld (Struct "qstr") "__d_name";
      fld (Const (Struct "qstr")) "d_name"]);
    fld (Ptr (Struct "inode")) "d_inode";
    fld (Union "shortname_store") "d_shortname";
    fld (Ptr (Const (Struct "dentry_operations"))) "d_op";
    fld (Ptr (Struct "super_block")) "d_sb";
    fld (Base ULong) "d_time";
    fld (Ptr (Base Void)) "d_fsdata";
    fld (Struct "lockref") "d_lockref";
    anon (Anon UnionKind false [
      fld (Struct "list_head") "d_lru";
      fld (Ptr (Typedef "wait_queue_head_t")) "d_wait"]);
    fld (Struct "hlist_node") "d_sib";
    fld (Struct "hlist_head") "d_children";
    anon (Anon UnionKind false [
      fld (Struct "hlist_node") "d_alias";
      fld (Struct "hlist_bl_node") "d_in_lookup_hash";
      fld (Struct "callback_head") "d_rcu";
      fld (Ptr (Struct "completion_list")) "waiters"])].

Definition struct_dentry_operations : decl :=
  struct_ "dentry_operations" [
    fld (Ptr (Fun (Base Int) [Ptr (Struct "inode"); Ptr (Const (Struct "qstr")); Ptr (Struct "dentry"); Base
        UInt])) "d_revalidate";
    fld (Ptr (Fun (Base Int) [Ptr (Struct "dentry"); Base UInt])) "d_weak_revalidate";
    fld (Ptr (Fun (Base Int) [Ptr (Const (Struct "dentry")); Ptr (Struct "qstr")])) "d_hash";
    fld (Ptr (Fun (Base Int) [Ptr (Const (Struct "dentry")); Base UInt; Ptr (Const (Base Char)); Ptr (Const
        (Struct "qstr"))])) "d_compare";
    fld (Ptr (Fun (Base Int) [Ptr (Const (Struct "dentry"))])) "d_delete";
    fld (Ptr (Fun (Base Int) [Ptr (Struct "dentry")])) "d_init";
    fld (Ptr (Fun (Base Void) [Ptr (Struct "dentry")])) "d_release";
    fld (Ptr (Fun (Base Void) [Ptr (Struct "dentry")])) "d_prune";
    fld (Ptr (Fun (Base Void) [Ptr (Struct "dentry"); Ptr (Struct "inode")])) "d_iput";
    fld (Ptr (Fun (Ptr (Base Char)) [Ptr (Struct "dentry"); Ptr (Base Char); Base Int])) "d_dname";
    fld (Ptr (Fun (Ptr (Struct "vfsmount")) [Ptr (Struct "path")])) "d_automount";
    fld (Ptr (Fun (Base Int) [Ptr (Const (Struct "path")); Typedef "bool"])) "d_manage";
    fld (Ptr (Fun (Ptr (Struct "dentry")) [Ptr (Struct "dentry"); Enum "d_real_type"])) "d_real";
    fld (Ptr (Fun (Typedef "bool") [Ptr (Const (Struct "dentry"))])) "d_unalias_trylock";
    fld (Ptr (Fun (Base Void) [Ptr (Const (Struct "dentry"))])) "d_unalias_unlock";
    pad (Base Long) 64].

Definition struct_desc_struct : decl :=
  struct_ "desc_struct" [
    fld (Typedef "u16") "limit0";
    fld (Typedef "u16") "base0";
    bits (Typedef "u16") "base1" 8;
    bits (Typedef "u16") "type" 4;
    bits (Typedef "u16") "s" 1;
    bits (Typedef "u16") "dpl" 2;
    bits (Typedef "u16") "p" 1;
    bits (Typedef "u16") "limit1" 4;
    bits (Typedef "u16") "avl" 1;
    bits (Typedef "u16") "l" 1;
    bits (Typedef "u16") "d" 1;
    bits (Typedef "u16") "g" 1;
    bits (Typedef "u16") "base2" 8].

(** In the order of the header. *)
Definition decls_fs : list decl :=
  [struct_kobject; struct_swait_queue_head; struct_completion; struct_dev_links_info; struct_pm_message;
   typedef_pm_message_t; struct_rb_node_linked; struct_timerqueue_linked_node; struct_hrtimer;
   struct_dev_pm_info; struct_dev_msi_info; struct_dev_archdata; struct_device; struct_xarray;
   struct_cpumask; struct_plist_node; struct_rb_root_cached; struct_address_space;
   struct_address_space_operations; struct_timespec64; struct_inode_state_flags; struct_hlist_head;
   struct_inode; struct_timerqueue_head; struct_path; struct_arch_tlbflush_unmap_batch;
   struct_percpu_counter; struct_fprop_local_percpu; struct_percpu_ref; struct_bdi_writeback;
   struct_backing_dev_info; struct_file_ra_state; struct_file; struct_seqcount_spinlock;
   typedef_seqcount_spinlock_t; struct_block_device; struct_rcuwait; typedef_cpumask_t; struct_page_frag;
   struct_latch_tree_node; struct_scx_dsq_list_node; struct_cdev; struct_load_weight; struct_sched_avg;
   struct_prev_cputime; struct_ns_tree_node; struct_ns_tree_root; struct_ns_tree; struct_ns_common;
   typedef_kernel_siginfo_t; struct_cred; struct_ctl_table_header; struct_ctl_dir; struct_ctl_table_set;
   struct_hlist_bl_node; struct_qstr; union_shortname_store; struct_lockref; struct_dentry;
   struct_dentry_operations; struct_desc_struct].
