(* ===== verification/VmlinuxRest.v ===== *)
(** * Declarations of src/vmlinux.h, third part

    File systems, mounts, modules, super blocks and tasks; the operations
    tables. *)

From stdpp Require Import base list strings.
From Stdlib Require Import ZArith.
From S2P Require Import CTypes.

Open Scope Z_scope.

Definition typedef_fl_owner_t : decl :=
  DeclTypedef "fl_owner_t" (Ptr (Base Void)).

Definition struct_dquot_operations : decl :=
  struct_ "dquot_operations" [
    fld (Ptr (Fun (Base Int) [Ptr (Struct "dquot")])) "write_dquot";
    fld (Ptr (Fun (Ptr (Struct "dquot")) [Ptr (Struct "super_block"); Base Int])) "alloc_dquot";
    fld (Ptr (Fun (Base Void) [Ptr (Struct "dquot")])) "destroy_dquot";
    fld (Ptr (Fun (Base Int) [Ptr (Struct "dquot")])) "acquire_dquot";
    fld (Ptr (Fun (Base Int) [Ptr (Struct "dquot")])) "release_dquot";
    fld (Ptr (Fun (Base Int) [Ptr (Struct "dquot")])) "mark_dirty";
    fld (Ptr (Fun (Base Int) [Ptr (Struct "super_block"); Base Int])) "write_info";
    fld (Ptr (Fun (Ptr (Typedef "qsize_t")) [Ptr (Struct "inode")])) "get_reserved_space";
    fld (Ptr (Fun (Base Int) [Ptr (Struct "inode"); Ptr (Typedef "kprojid_t")])) "get_projid";
    fld (Ptr (Fun (Base Int) [Ptr (Struct "inode"); Ptr (Typedef "qsize_t")])) "get_inode_usage";
    fld (Ptr (Fun (Base Int) [Ptr (Struct "super_block"); Ptr (Struct "kqid")])) "get_next_id"].

Definition typedef_Elf64_Sym : decl :=
  DeclTypedef "Elf64_Sym" (Struct "elf64_sym").

Definition struct_export_operations : decl :=
  struct_ "export_operations" [
    fld (Ptr (Fun (Base Int) [Ptr (Struct "inode"); Ptr (Typedef "__u32"); Ptr (Base Int); Ptr (Struct
        "inode")])) "encode_fh";
    fld (Ptr (Fun (Ptr (Struct "dentry")) [Ptr (Struct "super_block"); Ptr (Struct "fid"); Base Int; Base
        Int])) "fh_to_dentry";
    fld (Ptr (Fun (Ptr (Struct "dentry")) [Ptr (Struct "super_block"); Ptr (Struct "fid"); Base Int; Base
        Int])) "fh_to_parent";
    fld (Ptr (Fun (Base Int) [Ptr (Struct "dentry"); Ptr (Base Char); Ptr (Struct "dentry")])) "get_name";
    fld (Ptr (Fun (Ptr (Struct "dentry")) [Ptr (Struct "dentry")])) "get_parent";
    fld (Ptr (Fun (Base Int) [Ptr (Struct "inode")])) "commit_metadata";
    fld (Ptr (Fun (Base Int) [Ptr (Struct "super_block"); Ptr (Typedef "u8"); Ptr (Typedef "u32"); Ptr (Typedef
        "u64")])) "get_uuid";
    fld (Ptr (Fun (Base Int) [Ptr (Struct "inode"); Typedef "loff_t"; Typedef "u64"; Ptr (Struct "iomap");
        Typedef "bool"; Ptr (Typedef "u32")])) "map_blocks";
    fld (Ptr (Fun (Base Int) [Ptr (Struct "inode"); Ptr (Struct "iomap"); Base Int; Ptr (Struct "iattr")]))
        "commit_blocks";
    fld (Ptr (Fun (Base Int) [Ptr (Struct "handle_to_path_ctx"); Base UInt])) "permission";
    fld (Ptr (Fun (Ptr (Struct "file")) [Ptr (Const (Struct "path")); Base UInt])) "open";
    fld (Base ULong) "flags"].

Definition struct_file_lock_context : decl :=
  struct_ "file_lock_context" [
    fld (Typedef "spinlock_t") "flc_lock";
    fld (Struct "list_head") "flc_flock";
    fld (Struct "list_head") "flc_posix";
    fld (Struct "list_head") "flc_lease"].

Definition struct_file_operations : decl :=
  struct_ "file_operations" [
    fld (Ptr (Struct "module")) "owner";
    fld (Typedef "fop_flags_t") "fop_flags";
    fld (Ptr (Fun (Typedef "loff_t") [Ptr (Struct "file"); Typedef "loff_t"; Base Int])) "llseek";
    fld (Ptr (Fun (Typedef "ssize_t") [Ptr (Struct "file"); Ptr (Base Char); Typedef "size_t"; Ptr (Typedef
        "loff_t")])) "read";
    fld (Ptr (Fun (Typedef "ssize_t") [Ptr (Struct "file"); Ptr (Const (Base Char)); Typedef "size_t"; Ptr
        (Typedef "loff_t")])) "write";
    fld (Ptr (Fun (Typedef "ssize_t") [Ptr (Struct "kiocb"); Ptr (Struct "iov_iter")])) "read_iter";
    fld (Ptr (Fun (Typedef "ssize_t") [Ptr (Struct "kiocb"); Ptr (Struct "iov_iter")])) "write_iter";
    fld (Ptr (Fun (Base Int) [Ptr (Struct "kiocb"); Ptr (Struct "io_comp_batch"); Base UInt])) "iopoll";
    fld (Ptr (Fun (Base Int) [Ptr (Struct "file"); Ptr (Struct "dir_context")])) "iterate_shared";
    fld (Ptr (Fun (Typedef "__poll_t") [Ptr (Struct "file"); Ptr (Struct "poll_table_struct")])) "poll";
    fld (Ptr (Fun (Base Long) [Ptr (Struct "file"); Base UInt; Base ULong])) "unlocked_ioctl";
    fld (Ptr (Fun (Base Long) [Ptr (Struct "file"); Base UInt; Base ULong])) "compat_ioctl";
    fld (Ptr (Fun (Base Int) [Ptr (Struct "file"); Ptr (Struct "vm_area_struct")])) "mmap";
    fld (Ptr (Fun (Base Int) [Ptr (Struct "inode"); Ptr (Struct "file")])) "open";
    fld (Ptr (Fun (Base Int) [Ptr (Struct "file"); Typedef "fl_owner_t"])) "flush";
    fld (Ptr (Fun (Base Int) [Ptr (Struct "inode"); Ptr (Struct "file")])) "release";
    fld (Ptr (Fun (Base Int) [Ptr (Struct "file"); Typedef "loff_t"; Typedef "loff_t"; Base Int])) "fsync";
    fld (Ptr (Fun (Base Int) [Base Int; Ptr (Struct "file"); Base Int])) "fasync";
    fld (Ptr (Fun (Base Int) [Ptr (Struct "file"); Base Int; Ptr (Struct "file_lock")])) "lock";
    fld (Ptr (Fun (Base ULong) [Ptr (Struct "file"); Base ULong; Base ULong; Base ULong; Base ULong]))
        "get_unmapped_area";
    fld (Ptr (Fun (Base Int) [Base Int])) "check_flags";
    fld (Ptr (Fun (Base Int) [Ptr (Struct "file"); Base Int; Ptr (Struct "file_lock")])) "flock";
    fld (Ptr (Fun (Typedef "ssize_t") [Ptr (Struct "pipe_inode_info"); Ptr (Struct "file"); Ptr (Typedef
        "loff_t"); Typedef "size_t"; Base UInt])) "splice_write";
    fld (Ptr (Fun (Typedef "ssize_t") [Ptr (Struct "file"); Ptr (Typedef "loff_t"); Ptr (Struct
        "pipe_inode_info"); Typedef "size_t"; Base UInt])) "splice_read";
    fld (Ptr (Fun (Base Void) [Ptr (Struct "file")])) "splice_eof";
    fld (Ptr (Fun (Base Int) [Ptr (Struct "file"); Base Int; Ptr (Ptr (Struct "file_lease")); Ptr (Ptr (Base
        Void))])) "setlease";
    fld (Ptr (Fun (Base Long) [Ptr (Struct "file"); Base Int; Typedef "loff_t"; Typedef "loff_t"])) "fallocate";
    fld (Ptr (Fun (Base Void) [Ptr (Struct "seq_file"); Ptr (Struct "file")])) "show_fdinfo";
    fld (Ptr (Fun (Typedef "ssize_t") [Ptr (Struct "file"); Typedef "loff_t"; Ptr (Struct "file"); Typedef
        "loff_t"; Typedef "size_t"; Base UInt])) "copy_file_range";
    fld (Ptr (Fun (Typedef "loff_t") [Ptr (Struct "file"); Typedef "loff_t"; Ptr (Struct "file"); Typedef
        "loff_t"; Typedef "loff_t"; Base UInt])) "remap_file_range";
    fld (Ptr (Fun (Base Int) [Ptr (Struct "file"); Typedef "loff_t"; Typedef "loff_t"; Base Int])) "fadvise";
    fld (Ptr (Fun (Base Int) [Ptr (Struct "io_uring_cmd"); Base UInt])) "uring_cmd";
    fld (Ptr (Fun (Base Int) [Ptr (Struct "io_uring_cmd"); Ptr (Struct "io_comp_batch"); Base UInt]))
        "uring_cmd_iopoll";
    fld (Ptr (Fun (Base Int) [Ptr (Struct "vm_area_desc")])) "mmap_prepare"].

Definition struct_file_system_type : decl :=
  struct_ "file_system_type" [
    fld (Ptr (Const (Base Char))) "name";
    fld (Base Int) "fs_flags";
    fld (Ptr (Fun (Base Int) [Ptr (Struct "fs_context")])) "init_fs_context";
    fld (Ptr (Const (Struct "fs_parameter_spec"))) "parameters";
    fld (Ptr (Fun (Base Void) [Ptr (Struct "super_block")])) "kill_sb";
    fld (Ptr (Struct "module")) "owner";
    fld (Ptr (Struct "file_system_type")) "next";
    fld (Struct "hlist_head") "fs_supers";
    fld (Struct "lock_class_key") "s_lock_key";
    fld (Struct "lock_class_key") "s_umount_key";
    fld (Struct "lock_class_key") "s_vfs_rename_key";
    fld (Array (Struct "lock_class_key") 3) "s_writers_key";
    fld (Struct "lock_class_key") "i_lock_key";
    fld (Struct "lock_class_key") "i_mutex_key";
    fld (Struct "lock_class_key") "invalidate_lock_key";
    fld (Struct "lock_class_key") "i_mutex_dir_key"].

Definition struct_fown_struct : decl :=
  struct_ "fown_struct" [
    fld (Ptr (Struct "file")) "file";
    fld (Typedef "rwlock_t") "lock";
    fld (Ptr (Struct "pid")) "pid";
    fld (Enum "pid_type") "pid_type";
    fld (Typedef "kuid_t") "uid";
    fld (Typedef "kuid_t") "euid";
    fld (Base Int) "signum"].

Definition typedef_fs_param_type : decl :=
  DeclTypedef "fs_param_type" (Fun (Base Int) [Ptr (Struct "p_log"); Ptr (Const (Struct "fs_parameter_spec"));
      Ptr (Struct "fs_parameter"); Ptr (Struct "fs_parse_result")]).

Definition struct_fs_parameter_spec : decl :=
  struct_ "fs_parameter_spec" [
    fld (Ptr (Const (Base Char))) "name";
    fld (Ptr (Typedef "fs_param_type")) "type";
    fld (Typedef "u8") "opt";
    fld (Base UShort) "flags";
    fld (Ptr (Const (Base Void))) "data"].

Definition struct_fscrypt_keyring : decl :=
  struct_ "fscrypt_keyring" [
    fld (Typedef "spinlock_t") "lock";
    fld (Array (Struct "hlist_head") 128) "key_hashtable"].

Definition struct_fscrypt_operations : decl :=
  struct_ "fscrypt_operations" [
    fld (Typedef "ptrdiff_t") "inode_info_offs";
    bits (Base UInt) "needs_bounce_pages" 1;
    bits (Base UInt) "has_32bit_inodes" 1;
    bits (Base UInt) "supports_subblock_data_units" 1;
    fld (Ptr (Const (Base Char))) "legacy_key_prefix";
    fld (Ptr (Fun (Base Int) [Ptr (Struct "inode"); Ptr (Base Void); Typedef "size_t"])) "get_context";
    fld (Ptr (Fun (Base Int) [Ptr (Struct "inode"); Ptr (Const (Base Void)); Typedef "size_t"; Ptr (Base
        Void)])) "set_context";
    fld (Ptr (Fun (Ptr (Const (Union "fscrypt_policy"))) [Ptr (Struct "super_block")])) "get_dummy_policy";
    fld (Ptr (Fun (Typedef "bool") [Ptr (Struct "inode")])) "empty_dir";
    fld (Ptr (Fun (Typedef "bool") [Ptr (Struct "super_block")])) "has_stable_inodes";
    fld (Ptr (Fun (Ptr (Ptr (Struct "block_device"))) [Ptr (Struct "super_block"); Ptr (Base UInt)]))
        "get_devices"].

Definition struct_fsnotify_mark_connector : decl :=
  struct_ "fsnotify_mark_connector" [
    fld (Typedef "spinlock_t") "lock";
    fld (Base UChar) "type";
    fld (Base UChar) "prio";
    fld (Base UShort) "flags";
    anon (Anon UnionKind false [
      fld (Ptr (Base Void)) "obj";
      fld (Ptr (Struct "fsnotify_mark_connector")) "destroy_next"]);
    fld (Struct "hlist_head") "list"].

Definition struct_fsnotify_sb_info : decl :=
  struct_ "fsnotify_sb_info" [
    fld (Ptr (Struct "fsnotify_mark_connector")) "sb_marks";
    fld (Struct "list_head") "inode_conn_list";
    fld (Typedef "spinlock_t") "list_lock";
    fld (Array (Typedef "atomic_long_t") 3) "watched_objects"].

Definition struct_fsverity_operations : decl :=
  struct_ "fsverity_operations" [
    fld (Ptr (Fun (Base Int) [Ptr (Struct "file")])) "begin_enable_verity";
    fld (Ptr (Fun (Base Int) [Ptr (Struct "file"); Ptr (Const (Base Void)); Typedef "size_t"; Typedef "u64"]))
        "end_enable_verity";
    fld (Ptr (Fun (Base Int) [Ptr (Struct "inode"); Ptr (Base Void); Typedef "size_t"]))
        "get_verity_descriptor";
    fld (Ptr (Fun (Ptr (Struct "page")) [Ptr (Struct "inode"); Base ULong])) "read_merkle_tree_page";
    fld (Ptr (Fun (Base Void) [Ptr (Struct "inode"); Base ULong; Base ULong])) "readahead_merkle_tree";
    fld (Ptr (Fun (Base Int) [Ptr (Struct "file"); Ptr (Const (Base Void)); Typedef "u64"; Base UInt]))
        "write_merkle_tree_block"].

Definition struct_hlist_bl_head : decl :=
  struct_ "hlist_bl_head" [
    fld (Ptr (Struct "hlist_bl_node")) "first"].

Definition struct_inode_operations : decl :=
  struct_ "inode_operations" [
    fld (Ptr (Fun (Ptr (Struct "dentry")) [Ptr (Struct "inode"); Ptr (Struct "dentry"); Base UInt])) "lookup";
    fld (Ptr (Fun (Ptr (Const (Base Char))) [Ptr (Struct "dentry"); Ptr (Struct "inode"); Ptr (Struct
        "delayed_call")])) "get_link";
    fld (Ptr (Fun (Base Int) [Ptr (Struct "mnt_idmap"); Ptr (Struct "inode"); Base Int])) "permission";
    fld (Ptr (Fun (Ptr (Struct "posix_acl")) [Ptr (Struct "inode"); Base Int; Typedef "bool"])) "get_inode_acl";
    fld (Ptr (Fun (Base Int) [Ptr (Struct "dentry"); Ptr (Base Char); Base Int])) "readlink";
    fld (Ptr (Fun (Base Int) [Ptr (Struct "mnt_idmap"); Ptr (Struct "inode"); Ptr (Struct "dentry"); Typedef
        "umode_t"; Typedef "bool"])) "create";
    fld (Ptr (Fun (Base Int) [Ptr (Struct "dentry"); Ptr (Struct "inode"); Ptr (Struct "dentry")])) "link";
    fld (Ptr (Fun (Base Int) [Ptr (Struct "inode"); Ptr (Struct "dentry")])) "unlink";
    fld (Ptr (Fun (Base Int) [Ptr (Struct "mnt_idmap"); Ptr (Struct "inode"); Ptr (Struct "dentry"); Ptr (Const
        (Base Char))])) "symlink";
    fld (Ptr (Fun (Ptr (Struct "dentry")) [Ptr (Struct "mnt_idmap"); Ptr (Struct "inode"); Ptr (Struct
        "dentry"); Typedef "umode_t"])) "mkdir";
    fld (Ptr (Fun (Base Int) [Ptr (Struct "inode"); Ptr (Struct "dentry")])) "rmdir";
    fld (Ptr (Fun (Base Int) [Ptr (Struct "mnt_idmap"); Ptr (Struct "inode"); Ptr (Struct "dentry"); Typedef
        "umode_t"; Typedef "dev_t"])) "mknod";
    fld (Ptr (Fun (Base Int) [Ptr (Struct "mnt_idmap"); Ptr (Struct "inode"); Ptr (Struct "dentry"); Ptr
        (Struct "inode"); Ptr (Struct "dentry"); Base UInt])) "rename";
    fld (Ptr (Fun (Base Int) [Ptr (Struct "mnt_idmap"); Ptr (Struct "dentry"); Ptr (Struct "iattr")]))
        "setattr";
    fld (Ptr (Fun (Base Int) [Ptr (Struct "mnt_idmap"); Ptr (Const (Struct "path")); Ptr (Struct "kstat");
        Typedef "u32"; Base UInt])) "getattr";
    fld (Ptr (Fun (Typedef "ssize_t") [Ptr (Struct "dentry"); Ptr (Base Char); Typedef "size_t"])) "listxattr";
    fld (Ptr (Fun (Base Int) [Ptr (Struct "inode"); Ptr (Struct "fiemap_extent_info"); Typedef "u64"; Typedef
        "u64"])) "fiemap";
    fld (Ptr (Fun (Base Int) [Ptr (Struct "inode"); Enum "fs_update_time"; Base UInt])) "update_time";
    fld (Ptr (Fun (Base Void) [Ptr (Struct "inode")])) "sync_lazytime";
    fld (Ptr (Fun (Base Int) [Ptr (Struct "inode"); Ptr (Struct "dentry"); Ptr (Struct "file"); Base UInt;
        Typedef "umode_t"])) "atomic_open";
    fld (Ptr (Fun (Base Int) [Ptr (Struct "mnt_idmap"); Ptr (Struct "inode"); Ptr (Struct "file"); Typedef
        "umode_t"])) "tmpfile";
    fld (Ptr (Fun (Ptr (Struct "posix_acl")) [Ptr (Struct "mnt_idmap"); Ptr (Struct "dentry"); Base Int]))
        "get_acl";
    fld (Ptr (Fun (Base Int) [Ptr (Struct "mnt_idmap"); Ptr (Struct "dentry"); Ptr (Struct "posix_acl"); Base
        Int])) "set_acl";
    fld (Ptr (Fun (Base Int) [Ptr (Struct "mnt_idmap"); Ptr (Struct "dentry"); Ptr (Struct "file_kattr")]))
        "fileattr_set";
    fld (Ptr (Fun (Base Int) [Ptr (Struct "dentry"); Ptr (Struct "file_kattr")])) "fileattr_get";
    fld (Ptr (Fun (Ptr (Struct "offset_ctx")) [Ptr (Struct "inode")])) "get_offset_ctx";
    pad (Base Long) 64;
    pad (Base Long) 64;
    pad (Base Long) 64;
    pad (Base Long) 64;
    pad (Base Long) 64;
    pad (Base Long) 64].

Definition struct_its_array : decl :=
  struct_ "its_array" [
    fld (Ptr (Ptr (Base Void))) "pages";
    fld (Base Int) "num"].

Definition struct_kmap_ctrl : decl :=
  struct_ "kmap_ctrl" [].

Definition struct_lazy_mmu_state : decl :=
  struct_ "lazy_mmu_state" [
    fld (Typedef "u8") "enable_count";
    fld (Typedef "u8") "pause_count"].

Definition struct_list_lru : decl :=
  struct_ "list_lru" [
    fld (Ptr (Struct "list_lru_node")) "node";
    fld (Struct "list_head") "list";
    fld (Base Int) "shrinker_id";
    fld (Typedef "bool") "memcg_aware";
    fld (Struct "xarray") "xa"].

Definition struct_list_lru_one : decl :=
  struct_ "list_lru_one" [
    fld (Struct "list_head") "list";
    fld (Base Long) "nr_items";
    fld (Typedef "spinlock_t") "lock"].

Definition struct_list_lru_node : decl :=
  struct_ "list_lru_node" [
    fld (Struct "list_lru_one") "lru";
    fld (Typedef "atomic_long_t") "nr_items";
    pad (Base Long) 64;
    pad (Base Long) 64;
    pad (Base Long) 64].

Definition struct_mem_dqinfo : decl :=
  struct_ "mem_dqinfo" [
    fld (Ptr (Struct "quota_format_type")) "dqi_format";
    fld (Base Int) "dqi_fmt_id";
    fld (Struct "list_head") "dqi_dirty_list";
    fld (Base ULong) "dqi_flags";
    fld (Base UInt) "dqi_bgrace";
    fld (Base UInt) "dqi_igrace";
    fld (Typedef "qsize_t") "dqi_max_spc_limit";
    fld (Typedef "qsize_t") "dqi_max_ino_limit";
    fld (Ptr (Base Void)) "dqi_priv"].

Definition struct_uid_gid_extent : decl :=
  struct_ "uid_gid_extent" [
    fld (Typedef "u32") "first";
    fld (Typedef "u32") "lower_first";
    fld (Typedef "u32") "count"].

Definition struct_uid_gid_map : decl :=
  struct_ "uid_gid_map" [
    anon (Anon UnionKind false [
      anon (Anon StructKind false [
        fld (Array (Struct "uid_gid_extent") 5) "extent";
        fld (Typedef "u32") "nr_extents"]);
      anon (Anon StructKind false [
        fld (Ptr (Struct "uid_gid_extent")) "forward";
        fld (Ptr (Struct "uid_gid_extent")) "reverse"])])].

Definition struct_mod_arch_specific : decl :=
  struct_ "mod_arch_specific" [
    fld (Base UInt) "num_orcs";
    fld (Ptr (Base Int)) "orc_unwind_ip";
    fld (Ptr (Struct "orc_entry")) "orc_unwind";
    fld (Struct "its_array") "its_pages"].

Definition struct_mod_kallsyms : decl :=
  struct_ "mod_kallsyms" [
    fld (Ptr (Typedef "Elf64_Sym")) "symtab";
    fld (Base UInt) "num_symtab";
    fld (Ptr (Base Char)) "strtab";
    fld (Ptr (Base Char)) "typetab"].

Definition struct_mod_tree_node : decl :=
  struct_ "mod_tree_node" [
    fld (Ptr (Struct "module")) "mod";
    fld (Struct "latch_tree_node") "node"].

Definition struct_module_kobject : decl :=
  struct_ "module_kobject" [
    fld (Struct "kobject") "kobj";
    fld (Ptr (Struct "module")) "mod";
    fld (Ptr (Struct "kobject")) "drivers_dir";
    fld (Ptr (Struct "module_param_attrs")) "mp";
    fld (Ptr (Struct "completion")) "kobj_completion"].

Definition struct_module_memory : decl :=
  struct_ "module_memory" [
    fld (Ptr (Base Void)) "base";
    fld (Typedef "bool") "is_rox";
    fld (Base UInt) "size";
    fld (Struct "mod_tree_node") "mtn"].

Definition struct_module : decl :=
  struct_ "module" [
    fld (Enum "module_state") "state";
    fld (Struct "list_head") "list";
    fld (Array (Base Char) 56) "name";
    fld (Struct "module_kobject") "mkobj";
    fld (Ptr (Struct "module_attribute")) "modinfo_attrs";
    fld (Ptr (Const (Base Char))) "version";
    fld (Ptr (Const (Base Char))) "srcversion";
    fld (Ptr (Const (Base Char))) "imported_namespaces";
    fld (Ptr (Struct "kobject")) "holders_dir";
    fld (Ptr (Const (Struct "kernel_symbol"))) "syms";
    fld (Ptr (Const (Typedef "u32"))) "crcs";
    fld (Ptr (Const (Typedef "u8"))) "flagstab";
    fld (Base UInt) "num_syms";
    fld (Struct "mutex") "param_lock";
    fld (Ptr (Struct "kernel_param")) "kp";
    fld (Base UInt) "num_kp";
    fld (Typedef "bool") "using_gplonly_symbols";
    fld (Typedef "bool") "async_probe_requested";
    fld (Base UInt) "num_exentries";
    fld (Ptr (Struct "exception_table_entry")) "extable";
    fld (Ptr (Fun (Base Int) [])) "init";
    pad (Base Long) 64;
    fld (Array (Struct "module_memory") 7) "mem";
    fld (Struct "mod_arch_specific") "arch";
    fld (Base ULong) "taints";
    fld (Base UInt) "num_bugs";
    fld (Struct "list_head") "bug_list";
    fld (Ptr (Struct "bug_entry")) "bug_table";
    fld (Ptr (Struct "mod_kallsyms")) "kallsyms";
    fld (Struct "mod_kallsyms") "core_kallsyms";
    fld (Ptr (Struct "module_sect_attrs")) "sect_attrs";
    fld (Ptr (Struct "module_notes_attrs")) "notes_attrs";
    fld (Ptr (Base Char)) "args";
    fld (Ptr (Base Void)) "percpu";
    fld (Base UInt) "percpu_size";
    fld (Ptr (Base Void)) "noinstr_text_start";
    fld (Base UInt) "noinstr_text_size";
    fld (Base UInt) "num_tracepoints";
    fld (Ptr (Typedef "tracepoint_ptr_t")) "tracepoints_ptrs";
    fld (Base UInt) "num_srcu_structs";
    fld (Ptr (Ptr (Struct "srcu_struct"))) "srcu_struct_ptrs";
    fld (Base UInt) "num_bpf_raw_events";
    fld (Ptr (Struct "bpf_raw_event_map")) "bpf_raw_events";
    fld (Base UInt) "btf_data_size";
    fld (Base UInt) "btf_base_data_size";
    fld (Ptr (Base Void)) "btf_data";
    fld (Ptr (Base Void)) "btf_base_data";
    fld (Ptr (Struct "jump_entry")) "jump_entries";
    fld (Base UInt) "num_jump_entries";
    fld (Base UInt) "num_trace_bprintk_fmt";
    fld (Ptr (Ptr (Const (Base Char)))) "trace_bprintk_fmt_start";
    fld (Ptr (Ptr (Struct "trace_event_call"))) "trace_events";
    fld (Base UInt) "num_trace_events";
    fld (Ptr (Ptr (Struct "trace_eval_map"))) "trace_evals";
    fld (Base UInt) "num_trace_evals";
    fld (Base UInt) "num_ftrace_callsites";
    fld (Ptr (Base ULong)) "ftrace_callsites";
    fld (Ptr (Base Void)) "kprobes_text_start";
    fld (Base UInt) "kprobes_text_size";
    fld (Ptr (Base ULong)) "kprobe_blacklist";
    fld (Base UInt) "num_kprobe_blacklist";
    fld (Base Int) "num_static_call_sites";
    fld (Ptr (Struct "static_call_site")) "static_call_sites";
    fld (Base UInt) "printk_index_size";
    fld (Ptr (Ptr (Struct "pi_entry"))) "printk_index_start";
    fld (Struct "list_head") "source_list";
    fld (Struct "list_head") "target_list";
    fld (Ptr (Fun (Base Void) [])) "exit";
    fld (Typedef "atomic_t") "refcnt";
    fld (Struct "_ddebug_info") "dyndbg_info";
    pad (Base Long) 64;
    pad (Base Long) 64;
    pad (Base Long) 64].

Definition struct_vfsmount : decl :=
  struct_ "vfsmount" [
    fld (Ptr (Struct "dentry")) "mnt_root";
    fld (Ptr (Struct "super_block")) "mnt_sb";
    fld (Base Int) "mnt_flags";
    fld (Ptr (Struct "mnt_idmap")) "mnt_idmap"].

Definition struct_mount : decl :=
  struct_ "mount" [
    fld (Struct "hlist_node") "mnt_hash";
    fld (Ptr (Struct "mount")) "mnt_parent";
    fld (Ptr (Struct "dentry")) "mnt_mountpoint";
    fld (Struct "vfsmount") "mnt";
    anon (Anon UnionKind false [
      fld (Struct "rb_node") "mnt_node";
      fld (Struct "callback_head") "mnt_rcu";
      fld (Struct "llist_node") "mnt_llist"]);
    fld (Ptr (Struct "mnt_pcp")) "mnt_pcp";
    fld (Struct "list_head") "mnt_mounts";
    fld (Struct "list_head") "mnt_child";
    fld (Ptr (Struct "mount")) "mnt_next_for_sb";
    fld (Ptr (Ptr (Struct "mount"))) "mnt_pprev_for_sb";
    fld (Ptr (Const (Base Char))) "mnt_devname";
    fld (Struct "list_head") "mnt_list";
    fld (Struct "list_head") "mnt_expire";
    fld (Struct "list_head") "mnt_share";
    fld (Struct "hlist_head") "mnt_slave_list";
    fld (Struct "hlist_node") "mnt_slave";
    fld (Ptr (Struct "mount")) "mnt_master";
    fld (Ptr (Struct "mnt_namespace")) "mnt_ns";
    fld (Ptr (Struct "mountpoint")) "mnt_mp";
    anon (Anon UnionKind false [
      fld (Struct "hlist_node") "mnt_mp_list";
      fld (Struct "hlist_node") "mnt_umount"]);
    fld (Ptr (Struct "fsnotify_mark_connector")) "mnt_fsnotify_marks";
    fld (Typedef "__u32") "mnt_fsnotify_mask";
    fld (Struct "list_head") "to_notify";
    fld (Ptr (Struct "mnt_namespace")) "prev_ns";
    fld (Base Int) "mnt_t_flags";
    fld (Base Int) "mnt_id";
    fld (Typedef "u64") "mnt_id_unique";
    fld (Base Int) "mnt_group_id";
    fld (Base Int) "mnt_expiry_mark";
    fld (Struct "hlist_head") "mnt_pins";
    fld (Struct "hlist_head") "mnt_stuck_children";
    fld (Ptr (Struct "mount")) "overmount"].

Definition struct_mutex_waiter : decl :=
  struct_ "mutex_waiter" [
    fld (Struct "list_head") "list";
    fld (Ptr (Struct "task_struct")) "task";
    fld (Ptr (Struct "ww_acquire_ctx")) "ww_ctx"].

Definition struct_rcu_sync : decl :=
  struct_ "rcu_sync" [
    fld (Base Int) "gp_state";
    fld (Base Int) "gp_count";
    fld (Typedef "wait_queue_head_t") "gp_wait";
    fld (Struct "callback_head") "cb_head"].

Definition struct_percpu_rw_semaphore : decl :=
  struct_ "percpu_rw_semaphore" [
    fld (Struct "rcu_sync") "rss";
    fld (Ptr (Base UInt)) "read_count";
    fld (Struct "rcuwait") "writer";
    fld (Typedef "wait_queue_head_t") "waiters";
    fld (Typedef "atomic_t") "block"].

Definition union_pipe_index : decl :=
  union_ "pipe_index" [
    fld (Base ULong) "head_tail";
    anon (Anon StructKind false [
      fld (Typedef "pipe_index_t") "head";
      fld (Typedef "pipe_index_t") "tail"])].

Definition struct_pipe_inode_info : decl :=
  struct_ "pipe_inode_info" [
    fld (Struct "mutex") "mutex";
    fld (Typedef "wait_queue_head_t") "rd_wait";
    fld (Typedef "wait_queue_head_t") "wr_wait";
    anon (Union "pipe_index");
    fld (Base UInt) "max_usage";
    fld (Base UInt) "ring_size";
    fld (Base UInt) "nr_accounted";
    fld (Base UInt) "readers";
    fld (Base UInt) "writers";
    fld (Base UInt) "files";
    fld (Base UInt) "r_counter";
    fld (Base UInt) "w_counter";
    fld (Typedef "bool") "poll_usage";
    fld (Typedef "bool") "note_loss";
    fld (Array (Ptr (Struct "page")) 2) "tmp_page";
    fld (Ptr (Struct "fasync_struct")) "fasync_readers";
    fld (Ptr (Struct "fasync_struct")) "fasync_writers";
    fld (Ptr (Struct "pipe_buffer")) "bufs";
    fld (Ptr (Struct "user_struct")) "user";
    fld (Ptr (Struct "watch_queue")) "watch_queue"].

Definition struct_posix_acl_hdr : decl :=
  struct_ "posix_acl_hdr" [
    fld (Typedef "refcount_t") "a_refcount";
    fld (Base UInt) "a_count";
    fld (Struct "callback_head") "a_rcu"].

Definition struct_posix_acl_entry : decl :=
  struct_ "posix_acl_entry" [
    fld (Base Short) "e_tag";
    fld (Base UShort) "e_perm";
    anon (Anon UnionKind false [
      fld (Typedef "kuid_t") "e_uid";
      fld (Typedef "kgid_t") "e_gid"])].

Definition struct_posix_acl : decl :=
  struct_ "posix_acl" [
    anon (Anon UnionKind false [
      anon (Anon StructKind false [
        fld (Typedef "refcount_t") "a_refcount";
        fld (Base UInt) "a_count";
        fld (Struct "callback_head") "a_rcu"]);
      fld (Struct "posix_acl_hdr") "hdr"]);
    fld (Array (Struct "posix_acl_entry") 0) "a_entries"].

Definition struct_posix_cputimer_base : decl :=
  struct_ "posix_cputimer_base" [
    fld (Typedef "u64") "nextevt";
    fld (Struct "timerqueue_head") "tqhead"].

Definition struct_posix_cputimers : decl :=
  struct_ "posix_cputimers" [
    fld (Array (Struct "posix_cputimer_base") 3) "bases";
    fld (Base UInt) "timers_active";
    fld (Base UInt) "expiry_active"].

Definition struct_posix_cputimers_work : decl :=
  struct_ "posix_cputimers_work" [
    fld (Struct "callback_head") "work";
    fld (Struct "mutex") "mutex";
    fld (Base UInt) "scheduled"].

Definition struct_quota_format_ops : decl :=
  struct_ "quota_format_ops" [
    fld (Ptr (Fun (Base Int) [Ptr (Struct "super_block"); Base Int])) "check_quota_file";
    fld (Ptr (Fun (Base Int) [Ptr (Struct "super_block"); Base Int])) "read_file_info";
    fld (Ptr (Fun (Base Int) [Ptr (Struct "super_block"); Base Int])) "write_file_info";
    fld (Ptr (Fun (Base Int) [Ptr (Struct "super_block"); Base Int])) "free_file_info";
    fld (Ptr (Fun (Base Int) [Ptr (Struct "dquot")])) "read_dqblk";
    fld (Ptr (Fun (Base Int) [Ptr (Struct "dquot")])) "commit_dqblk";
    fld (Ptr (Fun (Base Int) [Ptr (Struct "dquot")])) "release_dqblk";
    fld (Ptr (Fun (Base Int) [Ptr (Struct "super_block"); Ptr (Struct "kqid")])) "get_next_id"].

Definition struct_quota_format_type : decl :=
  struct_ "quota_format_type" [
    fld (Base Int) "qf_fmt_id";
    fld (Ptr (Const (Struct "quota_format_ops"))) "qf_ops";
    fld (Ptr (Struct "module")) "qf_owner";
    fld (Ptr (Struct "quota_format_type")) "qf_next"].

Definition struct_quota_info : decl :=
  struct_ "quota_info" [
    fld (Base UInt) "flags";
    fld (Struct "rw_semaphore") "dqio_sem";
    fld (Array (Ptr (Struct "inode")) 3) "files";
    fld (Array (Struct "mem_dqinfo") 3) "info";
    fld (Array (Ptr (Const (Struct "quota_format_ops"))) 3) "ops"].

Definition struct_quotactl_ops : decl :=
  struct_ "quotactl_ops" [
    fld (Ptr (Fun (Base Int) [Ptr (Struct "super_block"); Base Int; Base Int; Ptr (Const (Struct "path"))]))
        "quota_on";
    fld (Ptr (Fun (Base Int) [Ptr (Struct "super_block"); Base Int])) "quota_off";
    fld (Ptr (Fun (Base Int) [Ptr (Struct "super_block"); Base UInt])) "quota_enable";
    fld (Ptr (Fun (Base Int) [Ptr (Struct "super_block"); Base UInt])) "quota_disable";
    fld (Ptr (Fun (Base Int) [Ptr (Struct "super_block"); Base Int])) "quota_sync";
    fld (Ptr (Fun (Base Int) [Ptr (Struct "super_block"); Base Int; Ptr (Struct "qc_info")])) "set_info";
    fld (Ptr (Fun (Base Int) [Ptr (Struct "super_block"); Struct "kqid"; Ptr (Struct "qc_dqblk")])) "get_dqblk";
    fld (Ptr (Fun (Base Int) [Ptr (Struct "super_block"); Ptr (Struct "kqid"); Ptr (Struct "qc_dqblk")]))
        "get_nextdqblk";
    fld (Ptr (Fun (Base Int) [Ptr (Struct "super_block"); Struct "kqid"; Ptr (Struct "qc_dqblk")])) "set_dqblk";
    fld (Ptr (Fun (Base Int) [Ptr (Struct "super_block"); Ptr (Struct "qc_state")])) "get_state";
    fld (Ptr (Fun (Base Int) [Ptr (Struct "super_block"); Base UInt])) "rm_xquota"].

Definition union_rcu_special : decl :=
  union_ "rcu_special" [
    fld (Anon StructKind false [
      fld (Typedef "u8") "blocked";
      fld (Typedef "u8") "need_qs";
      fld (Typedef "u8") "exp_hint";
      fld (Typedef "u8") "need_mb"]) "b";
    fld (Typedef "u32") "s"].

Definition struct_restart_block : decl :=
  struct_ "restart_block" [
    fld (Base ULong) "arch_data";
    fld (Ptr (Fun (Base Long) [Ptr (Struct "restart_block")])) "fn";
    anon (Anon UnionKind false [
      fld (Anon StructKind false [
        fld (Ptr (Typedef "u32")) "uaddr";
        fld (Typedef "u32") "val";
        fld (Typedef "u32") "flags";
        fld (Typedef "u32") "bitset";
        fld (Typedef "ktime_t") "time";
        fld (Ptr (Typedef "u32")) "uaddr2"]) "futex";
      fld (Anon StructKind false [
        fld (Typedef "clockid_t") "clockid";
        fld (Enum "timespec_type") "type";
        anon (Anon UnionKind false [
          fld (Ptr (Struct "__kernel_timespec")) "rmtp";
          fld (Ptr (Struct "old_timespec32")) "compat_rmtp"]);
        fld (Typedef "ktime_t") "expires"]) "nanosleep";
      fld (Anon StructKind false [
        fld (Ptr (Struct "pollfd")) "ufds";
        fld (Base Int) "nfds";
        fld (Base Int) "has_timeout";
        fld (Struct "timespec64") "end_time"]) "poll"])].

Definition typedef_dl_server_pick_f : decl :=
  DeclTypedef "dl_server_pick_f" (Ptr (Fun (Ptr (Struct "task_struct")) [Ptr (Struct "sched_dl_entity"); Ptr
      (Struct "rq_flags")])).

Definition struct_sched_dl_entity : decl :=
  struct_ "sched_dl_entity" [
    fld (Struct "rb_node") "rb_node";
    fld (Typedef "u64") "dl_runtime";
    fld (Typedef "u64") "dl_deadline";
    fld (Typedef "u64") "dl_period";
    fld (Typedef "u64") "dl_bw";
    fld (Typedef "u64") "dl_density";
    fld (Typedef "s64") "runtime";
    fld (Typedef "u64") "deadline";
    fld (Base UInt) "flags";
    bits (Base UInt) "dl_throttled" 1;
    bits (Base UInt) "dl_yielded" 1;
    bits (Base UInt) "dl_non_contending" 1;
    bits (Base UInt) "dl_overrun" 1;
    bits (Base UInt) "dl_server" 1;
    bits (Base UInt) "dl_server_active" 1;
    bits (Base UInt) "dl_defer" 1;
    bits (Base UInt) "dl_defer_armed" 1;
    bits (Base UInt) "dl_defer_running" 1;
    bits (Base UInt) "dl_defer_idle" 1;
    fld (Struct "hrtimer") "dl_timer";
    fld (Struct "hrtimer") "inactive_timer";
    fld (Ptr (Struct "rq")) "rq";
    fld (Typedef "dl_server_pick_f") "server_pick_task";
    fld (Ptr (Struct "sched_dl_entity")) "pi_se"].

Definition struct_sched_info : decl :=
  struct_ "sched_info" [
    fld (Base ULong) "pcount";
    fld (Base ULongLong) "run_delay";
    fld (Base ULongLong) "max_run_delay";
    fld (Base ULongLong) "min_run_delay";
    fld (Base ULongLong) "last_arrival";
    fld (Base ULongLong) "last_queued";
    fld (Struct "timespec64") "max_run_delay_ts"].

Definition struct_rseq_event : decl :=
  struct_ "rseq_event" [
    anon (Anon UnionKind false [
      fld (Typedef "u64") "all";
      anon (Anon StructKind false [
        anon (Anon UnionKind false [
          fld (Typedef "u32") "events";
          anon (Anon StructKind false [
            fld (Typedef "u8") "sched_switch";
            fld (Typedef "u8") "ids_changed";
            fld (Typedef "u8") "user_irq"])]);
        fld (Typedef "u8") "has_rseq";
        fld (Typedef "u8") "__pad";
        anon (Anon UnionKind false [
          fld (Typedef "u16") "error";
          anon (Anon StructKind false [
            fld (Typedef "u8") "fatal";
            fld (Typedef "u8") "slowpath"])])])])].

Definition struct_rseq_ids : decl :=
  struct_ "rseq_ids" [
    anon (Anon UnionKind false [
      fld (Typedef "u64") "cpu_cid";
      anon (Anon StructKind false [
        fld (Typedef "u32") "cpu_id";
        fld (Typedef "u32") "mm_cid"])]);
    fld (Typedef "u32") "node_id"].

Definition struct_rseq_data : decl :=
  struct_ "rseq_data" [
    fld (Ptr (Struct "rseq")) "usrptr";
    fld (Typedef "u32") "len";
    fld (Typedef "u32") "sig";
    fld (Struct "rseq_event") "event";
    fld (Struct "rseq_ids") "ids"].

Definition struct_rwsem_waiter : decl :=
  struct_ "rwsem_waiter" [
    fld (Struct "list_head") "list";
    fld (Ptr (Struct "task_struct")) "task";
    fld (Enum "rwsem_waiter_type") "type";
    fld (Base ULong) "timeout";
    fld (Typedef "bool") "handoff_set"].

Definition struct_sb_writers : decl :=
  struct_ "sb_writers" [
    fld (Base UShort) "frozen";
    fld (Base Int) "freeze_kcount";
    fld (Base Int) "freeze_ucount";
    fld (Ptr (Const (Base Void))) "freeze_owner";
    fld (Array (Struct "percpu_rw_semaphore") 3) "rw_sem"].

Definition struct_sched_entity : decl :=
  struct_ "sched_entity" [
    fld (Struct "load_weight") "load";
    fld (Struct "rb_node") "run_node";
    fld (Typedef "u64") "deadline";
    fld (Typedef "u64") "min_vruntime";
    fld (Typedef "u64") "min_slice";
    fld (Typedef "u64") "max_slice";
    fld (Struct "list_head") "group_node";
    fld (Base UChar) "on_rq";
    fld (Base UChar) "sched_delayed";
    fld (Base UChar) "rel_deadline";
    fld (Base UChar) "custom_slice";
    fld (Typedef "u64") "exec_start";
    fld (Typedef "u64") "sum_exec_runtime";
    fld (Typedef "u64") "prev_sum_exec_runtime";
    fld (Typedef "u64") "vruntime";
    fld (Typedef "s64") "vlag";
    fld (Typedef "u64") "vprot";
    fld (Typedef "u64") "slice";
    fld (Typedef "u64") "nr_migrations";
    fld (Base Int) "depth";
    fld (Ptr (Struct "sched_entity")) "parent";
    fld (Ptr (Struct "cfs_rq")) "cfs_rq";
    fld (Ptr (Struct "cfs_rq")) "my_q";
    fld (Base ULong) "runnable_weight";
    pad (Base Long) 64;
    pad (Base Long) 64;
    pad (Base Long) 64;
    pad (Base Long) 64;
    pad (Base Long) 64;
    pad (Base Long) 64;
    pad (Base Long) 64;
    fld (Struct "sched_avg") "avg"].

Definition struct_sched_statistics : decl :=
  struct_ "sched_statistics" [
    fld (Typedef "u64") "wait_start";
    fld (Typedef "u64") "wait_max";
    fld (Typedef "u64") "wait_count";
    fld (Typedef "u64") "wait_sum";
    fld (Typedef "u64") "iowait_count";
    fld (Typedef "u64") "iowait_sum";
    fld (Typedef "u64") "sleep_start";
    fld (Typedef "u64") "sleep_max";
    fld (Typedef "s64") "sum_sleep_runtime";
    fld (Typedef "u64") "block_start";
    fld (Typedef "u64") "block_max";
    fld (Typedef "s64") "sum_block_runtime";
    fld (Typedef "s64") "exec_max";
    fld (Typedef "u64") "slice_max";
    fld (Typedef "u64") "nr_migrations_cold";
    fld (Typedef "u64") "nr_failed_migrations_affine";
    fld (Typedef "u64") "nr_failed_migrations_running";
    fld (Typedef "u64") "nr_failed_migrations_hot";
    fld (Typedef "u64") "nr_forced_migrations";
    fld (Typedef "u64") "nr_wakeups";
    fld (Typedef "u64") "nr_wakeups_sync";
    fld (Typedef "u64") "nr_wakeups_migrate";
    fld (Typedef "u64") "nr_wakeups_local";
    fld (Typedef "u64") "nr_wakeups_remote";
    fld (Typedef "u64") "nr_wakeups_affine";
    fld (Typedef "u64") "nr_wakeups_affine_attempts";
    fld (Typedef "u64") "nr_wakeups_passive";
    fld (Typedef "u64") "nr_wakeups_idle";
    fld (Typedef "u64") "core_forceidle_sum";
    pad (Base Long) 64;
    pad (Base Long) 64;
    pad (Base Long) 64].

Definition struct_sched_ext_entity : decl :=
  struct_ "sched_ext_entity" [
    fld (Ptr (Struct "scx_sched")) "sched";
    fld (Ptr (Struct "scx_dispatch_q")) "dsq";
    fld (Typedef "atomic_long_t") "ops_state";
    fld (Typedef "u64") "ddsp_dsq_id";
    fld (Typedef "u64") "ddsp_enq_flags";
    fld (Struct "scx_dsq_list_node") "dsq_list";
    fld (Struct "rb_node") "dsq_priq";
    fld (Typedef "u32") "dsq_seq";
    fld (Typedef "u32") "dsq_flags";
    fld (Typedef "u32") "flags";
    fld (Typedef "u32") "weight";
    fld (Typedef "s32") "sticky_cpu";
    fld (Typedef "s32") "holding_cpu";
    fld (Typedef "s32") "selected_cpu";
    fld (Array (Ptr (Struct "task_struct")) 2) "kf_tasks";
    fld (Struct "list_head") "runnable_node";
    fld (Base ULong) "runnable_at";
    fld (Typedef "u64") "core_sched_at";
    fld (Typedef "u64") "slice";
    fld (Typedef "u64") "dsq_vtime";
    fld (Typedef "bool") "disallow";
    fld (Ptr (Struct "cgroup")) "cgrp_moving_from";
    fld (Struct "list_head") "tasks_node"].

Definition struct_sched_mm_cid : decl :=
  struct_ "sched_mm_cid" [
    fld (Base UInt) "active";
    fld (Base UInt) "cid";
    fld (Struct "hlist_node") "node"].

Definition struct_sched_rt_entity : decl :=
  struct_ "sched_rt_entity" [
    fld (Struct "list_head") "run_list";
    fld (Base ULong) "timeout";
    fld (Base ULong) "watchdog_stamp";
    fld (Base UInt) "time_slice";
    fld (Base UShort) "on_rq";
    fld (Base UShort) "on_list";
    fld (Ptr (Struct "sched_rt_entity")) "back"].

Definition struct_seccomp : decl :=
  struct_ "seccomp" [
    fld (Base Int) "mode";
    fld (Typedef "atomic_t") "filter_count";
    fld (Ptr (Struct "seccomp_filter")) "filter"].

Definition struct_shrinker : decl :=
  struct_ "shrinker" [
    fld (Ptr (Fun (Base ULong) [Ptr (Struct "shrinker"); Ptr (Struct "shrink_control")])) "count_objects";
    fld (Ptr (Fun (Base ULong) [Ptr (Struct "shrinker"); Ptr (Struct "shrink_control")])) "scan_objects";
    fld (Base Long) "batch";
    fld (Base Int) "seeks";
    fld (Base UInt) "flags";
    fld (Typedef "refcount_t") "refcount";
    fld (Struct "completion") "done";
    fld (Struct "callback_head") "rcu";
    fld (Ptr (Base Void)) "private_data";
    fld (Struct "list_head") "list";
    fld (Base Int) "id";
    fld (Ptr (Typedef "atomic_long_t")) "nr_deferred"].

Definition struct_sigpending : decl :=
  struct_ "sigpending" [
    fld (Struct "list_head") "list";
    fld (Typedef "sigset_t") "signal"].

Definition struct_task_io_accounting : decl :=
  struct_ "task_io_accounting" [
    fld (Typedef "u64") "rchar";
    fld (Typedef "u64") "wchar";
    fld (Typedef "u64") "syscr";
    fld (Typedef "u64") "syscw";
    fld (Typedef "u64") "read_bytes";
    fld (Typedef "u64") "write_bytes";
    fld (Typedef "u64") "cancelled_write_bytes"].

Definition struct_super_block : decl :=
  struct_ "super_block" [
    fld (Struct "list_head") "s_list";
    fld (Typedef "dev_t") "s_dev";
    fld (Base UChar) "s_blocksize_bits";
    fld (Base ULong) "s_blocksize";
    fld (Typedef "loff_t") "s_maxbytes";
    fld (Ptr (Struct "file_system_type")) "s_type";
    fld (Ptr (Const (Struct "super_operations"))) "s_op";
    fld (Ptr (Const (Struct "dquot_operations"))) "dq_op";
    fld (Ptr (Const (Struct "quotactl_ops"))) "s_qcop";
    fld (Ptr (Const (Struct "export_operations"))) "s_export_op";
    fld (Base ULong) "s_flags";
    fld (Base ULong) "s_iflags";
    fld (Base ULong) "s_magic";
    fld (Ptr (Struct "dentry")) "s_root";
    fld (Struct "rw_semaphore") "s_umount";
    fld (Base Int) "s_count";
    fld (Typedef "atomic_t") "s_active";
    fld (Ptr (Base Void)) "s_security";
    fld (Ptr (Const (Ptr (Const (Struct "xattr_handler"))))) "s_xattr";
    fld (Ptr (Const (Struct "fscrypt_operations"))) "s_cop";
    fld (Ptr (Struct "fscrypt_keyring")) "s_master_keys";
    fld (Ptr (Const (Struct "fsverity_operations"))) "s_vop";
    fld (Ptr (Struct "unicode_map")) "s_encoding";
    fld (Typedef "__u16") "s_encoding_flags";
    fld (Struct "hlist_bl_head") "s_roots";
    fld (Ptr (Struct "mount")) "s_mounts";
    fld (Ptr (Struct "block_device")) "s_bdev";
    fld (Ptr (Struct "file")) "s_bdev_file";
    fld (Ptr (Struct "backing_dev_info")) "s_bdi";
    fld (Ptr (Struct "mtd_info")) "s_mtd";
    fld (Struct "hlist_node") "s_instances";
    fld (Base UInt) "s_quota_types";
    fld (Struct "quota_info") "s_dquot";
    fld (Struct "sb_writers") "s_writers";
    fld (Ptr (Base Void)) "s_fs_info";
    fld (Typedef "u32") "s_time_gran";
    fld (Typedef "time64_t") "s_time_min";
    fld (Typedef "time64_t") "s_time_max";
    fld (Typedef "u32") "s_fsnotify_mask";
    fld (Ptr (Struct "fsnotify_sb_info")) "s_fsnotify_info";
    fld (Array (Base Char) 32) "s_id";
    fld (Typedef "uuid_t") "s_uuid";
    fld (Typedef "u8") "s_uuid_len";
    fld (Array (Base Char) 37) "s_sysfs_name";
    fld (Base UInt) "s_max_links";
    fld (Base UInt) "s_d_flags";
    fld (Struct "mutex") "s_vfs_rename_mutex";
    fld (Ptr (Const (Base Char))) "s_subtype";
    fld (Ptr (Const (Struct "dentry_operations"))) "__s_d_op";
    fld (Ptr (Struct "shrinker")) "s_shrink";
    fld (Typedef "atomic_long_t") "s_remove_count";
    fld (Base Int) "s_readonly_remount";
    fld (Typedef "errseq_t") "s_wb_err";
    fld (Ptr (Struct "workqueue_struct")) "s_dio_done_wq";
    fld (Struct "hlist_head") "s_pins";
    fld (Ptr (Struct "user_namespace")) "s_user_ns";
    fld (Struct "list_lru") "s_dentry_lru";
    fld (Struct "list_lru") "s_inode_lru";
    fld (Struct "callback_head") "rcu";
    fld (Struct "work_struct") "destroy_work";
    fld (Struct "mutex") "s_sync_lock";
    fld (Base Int) "s_stack_depth";
    pad (Base Long) 64;
    pad (Base Long) 64;
    pad (Base Long) 64;
    pad (Base Long) 64;
    pad (Base Long) 64;
    fld (Typedef "spinlock_t") "s_inode_list_lock";
    fld (Struct "list_head") "s_inodes";
    fld (Typedef "spinlock_t") "s_inode_wblist_lock";
    fld (Struct "list_head") "s_inodes_wb";
    fld (Base Long) "s_min_writeback_pages";
    fld (Typedef "refcount_t") "s_pending_errors"].

Definition struct_super_operations : decl :=
  struct_ "super_operations" [
    fld (Ptr (Fun (Ptr (Struct "inode")) [Ptr (Struct "super_block")])) "alloc_inode";
    fld (Ptr (Fun (Base Void) [Ptr (Struct "inode")])) "destroy_inode";
    fld (Ptr (Fun (Base Void) [Ptr (Struct "inode")])) "free_inode";
    fld (Ptr (Fun (Base Void) [Ptr (Struct "inode"); Base Int])) "dirty_inode";
    fld (Ptr (Fun (Base Int) [Ptr (Struct "inode"); Ptr (Struct "writeback_control")])) "write_inode";
    fld (Ptr (Fun (Base Int) [Ptr (Struct "inode")])) "drop_inode";
    fld (Ptr (Fun (Base Void) [Ptr (Struct "inode")])) "evict_inode";
    fld (Ptr (Fun (Base Void) [Ptr (Struct "super_block")])) "put_super";
    fld (Ptr (Fun (Base Int) [Ptr (Struct "super_block"); Base Int])) "sync_fs";
    fld (Ptr (Fun (Base Int) [Ptr (Struct "super_block"); Enum "freeze_holder"; Ptr (Const (Base Void))]))
        "freeze_super";
    fld (Ptr (Fun (Base Int) [Ptr (Struct "super_block")])) "freeze_fs";
    fld (Ptr (Fun (Base Int) [Ptr (Struct "super_block"); Enum "freeze_holder"; Ptr (Const (Base Void))]))
        "thaw_super";
    fld (Ptr (Fun (Base Int) [Ptr (Struct "super_block")])) "unfreeze_fs";
    fld (Ptr (Fun (Base Int) [Ptr (Struct "dentry"); Ptr (Struct "kstatfs")])) "statfs";
    fld (Ptr (Fun (Base Void) [Ptr (Struct "super_block")])) "umount_begin";
    fld (Ptr (Fun (Base Int) [Ptr (Struct "seq_file"); Ptr (Struct "dentry")])) "show_options";
    fld (Ptr (Fun (Base Int) [Ptr (Struct "seq_file"); Ptr (Struct "dentry")])) "show_devname";
    fld (Ptr (Fun (Base Int) [Ptr (Struct "seq_file"); Ptr (Struct "dentry")])) "show_path";
    fld (Ptr (Fun (Base Int) [Ptr (Struct "seq_file"); Ptr (Struct "dentry")])) "show_stats";
    fld (Ptr (Fun (Typedef "ssize_t") [Ptr (Struct "super_block"); Base Int; Ptr (Base Char); Typedef "size_t";
        Typedef "loff_t"])) "quota_read";
    fld (Ptr (Fun (Typedef "ssize_t") [Ptr (Struct "super_block"); Base Int; Ptr (Const (Base Char)); Typedef
        "size_t"; Typedef "loff_t"])) "quota_write";
    fld (Ptr (Fun (Ptr (Ptr (Struct "dquot"))) [Ptr (Struct "inode")])) "get_dquots";
    fld (Ptr (Fun (Base Long) [Ptr (Struct "super_block"); Ptr (Struct "shrink_control")])) "nr_cached_objects";
    fld (Ptr (Fun (Base Long) [Ptr (Struct "super_block"); Ptr (Struct "shrink_control")]))
        "free_cached_objects";
    fld (Ptr (Fun (Base Int) [Ptr (Struct "super_block"); Ptr (Struct "block_device")])) "remove_bdev";
    fld (Ptr (Fun (Base Void) [Ptr (Struct "super_block")])) "shutdown";
    fld (Ptr (Fun (Base Void) [Ptr (Const (Struct "fserror_event"))])) "report_error"].

Definition struct_syscall_user_dispatch : decl :=
  struct_ "syscall_user_dispatch" [
    fld (Ptr (Base Char)) "selector";
    fld (Base ULong) "offset";
    fld (Base ULong) "len";
    fld (Typedef "bool") "on_dispatch"].

Definition struct_sysv_sem : decl :=
  struct_ "sysv_sem" [
    fld (Ptr (Struct "sem_undo_list")) "undo_list"].

Definition struct_sysv_shm : decl :=
  struct_ "sysv_shm" [
    fld (Struct "list_head") "shm_clist"].

Definition struct_uclamp_se : decl :=
  struct_ "uclamp_se" [
    bits (Base UInt) "value" 11;
    bits (Base UInt) "bucket_id" 3;
    bits (Base UInt) "active" 1;
    bits (Base UInt) "user_defined" 1].

Definition struct_thread_info : decl :=
  struct_ "thread_info" [
    fld (Base ULong) "flags";
    fld (Base ULong) "syscall_work";
    fld (Typedef "u32") "status";
    fld (Typedef "u32") "cpu"].

Definition struct_vtime : decl :=
  struct_ "vtime" [
    fld (Typedef "seqcount_t") "seqcount";
    fld (Base ULongLong) "starttime";
    fld (Enum "vtime_state") "state";
    fld (Base UInt) "cpu";
    fld (Typedef "u64") "utime";
    fld (Typedef "u64") "stime";
    fld (Typedef "u64") "gtime"].

Definition struct_wake_q_node : decl :=
  struct_ "wake_q_node" [
    fld (Ptr (Struct "wake_q_node")) "next"].

Definition struct_tlbflush_unmap_batch : decl :=
  struct_ "tlbflush_unmap_batch" [
    fld (Struct "arch_tlbflush_unmap_batch") "arch";
    fld (Typedef "bool") "flush_required";
    fld (Typedef "bool") "writable"].

Definition union_unwind_task_id : decl :=
  union_ "unwind_task_id" [
    anon (Anon StructKind false [
      fld (Typedef "u32") "cpu";
      fld (Typedef "u32") "cnt"]);
    fld (Typedef "u64") "id"].

Definition struct_unwind_task_info : decl :=
  struct_ "unwind_task_info" [
    fld (Typedef "atomic_long_t") "unwind_mask";
    fld (Ptr (Struct "unwind_cache")) "cache";
    fld (Struct "callback_head") "work";
    fld (Union "unwind_task_id") "id"].

Definition struct_thread_shstk : decl :=
  struct_ "thread_shstk" [
    fld (Typedef "u64") "base";
    fld (Typedef "u64") "size"].

Definition struct_thread_struct : decl :=
  struct_ "thread_struct" [
    fld (Array (Struct "desc_struct") 3) "tls_array";
    fld (Base ULong) "sp";
    fld (Base UShort) "es";
    fld (Base UShort) "ds";
    fld (Base UShort) "fsindex";
    fld (Base UShort) "gsindex";
    fld (Base ULong) "fsbase";
    fld (Base ULong) "gsbase";
    fld (Array (Ptr (Struct "perf_event")) 4) "ptrace_bps";
    fld (Base ULong) "virtual_dr6";
    fld (Base ULong) "ptrace_dr7";
    fld (Base ULong) "cr2";
    fld (Base ULong) "trap_nr";
    fld (Base ULong) "error_code";
    fld (Ptr (Struct "io_bitmap")) "io_bitmap";
    fld (Base ULong) "iopl_emul";
    bits (Base UInt) "iopl_warn" 1;
    fld (Typedef "u32") "pkru";
    fld (Base ULong) "features";
    fld (Base ULong) "features_locked";
    fld (Struct "thread_shstk") "shstk"].

Definition struct_task_struct : decl :=
  struct_ "task_struct" [
    fld (Struct "thread_info") "thread_info";
    fld (Base UInt) "__state";
    fld (Base UInt) "saved_state";
    fld (Ptr (Base Void)) "stack";
    fld (Typedef "refcount_t") "usage";
    fld (Base UInt) "flags";
    fld (Base UInt) "ptrace";
    fld (Ptr (Struct "alloc_tag")) "alloc_tag";
    fld (Base Int) "on_cpu";
    fld (Struct "__call_single_node") "wake_entry";
    fld (Base UInt) "wakee_flips";
    fld (Base ULong) "wakee_flip_decay_ts";
    fld (Ptr (Struct "task_struct")) "last_wakee";
    fld (Base Int) "recent_used_cpu";
    fld (Base Int) "wake_cpu";
    fld (Base Int) "on_rq";
    fld (Base Int) "prio";
    fld (Base Int) "static_prio";
    fld (Base Int) "normal_prio";
    fld (Base UInt) "rt_priority";
    pad (Base Long) 64;
    pad (Base Long) 64;
    pad (Base Long) 64;
    pad (Base Long) 64;
    pad (Base Long) 64;
    pad (Base Long) 64;
    fld (Struct "sched_entity") "se";
    fld (Struct "sched_rt_entity") "rt";
    fld (Struct "sched_dl_entity") "dl";
    fld (Ptr (Struct "sched_dl_entity")) "dl_server";
    fld (Struct "sched_ext_entity") "scx";
    fld (Ptr (Const (Struct "sched_class"))) "sched_class";
    fld (Struct "rb_node") "core_node";
    fld (Base ULong) "core_cookie";
    fld (Base UInt) "core_occupation";
    fld (Ptr (Struct "task_group")) "sched_task_group";
    fld (Struct "callback_head") "sched_throttle_work";
    fld (Struct "list_head") "throttle_node";
    fld (Typedef "bool") "throttled";
    fld (Array (Struct "uclamp_se") 2) "uclamp_req";
    fld (Array (Struct "uclamp_se") 2) "uclamp";
    pad (Base Long) 64;
    pad (Base Long) 64;
    pad (Base Long) 64;
    pad (Base Long) 64;
    pad (Base Long) 64;
    pad (Base Long) 64;
    fld (Struct "sched_statistics") "stats";
    fld (Struct "hlist_head") "preempt_notifiers";
    fld (Base UInt) "btrace_seq";
    fld (Base UInt) "policy";
    fld (Base ULong) "max_allowed_capacity";
    fld (Base Int) "nr_cpus_allowed";
    fld (Ptr (Const (Typedef "cpumask_t"))) "cpus_ptr";
    fld (Ptr (Typedef "cpumask_t")) "user_cpus_ptr";
    fld (Typedef "cpumask_t") "cpus_mask";
    fld (Ptr (Base Void)) "migration_pending";
    fld (Base UShort) "migration_disabled";
    fld (Base UShort) "migration_flags";
    fld (Base Int) "rcu_read_lock_nesting";
    fld (Union "rcu_special") "rcu_read_unlock_special";
    fld (Struct "list_head") "rcu_node_entry";
    fld (Ptr (Struct "rcu_node")) "rcu_blocked_node";
    fld (Base ULong) "rcu_tasks_nvcsw";
    fld (Typedef "u8") "rcu_tasks_holdout";
    fld (Typedef "u8") "rcu_tasks_idx";
    fld (Base Int) "rcu_tasks_idle_cpu";
    fld (Struct "list_head") "rcu_tasks_holdout_list";
    fld (Base Int) "rcu_tasks_exit_cpu";
    fld (Struct "list_head") "rcu_tasks_exit_list";
    fld (Base Int) "trc_reader_nesting";
    fld (Ptr (Struct "srcu_ctr")) "trc_reader_scp";
    fld (Struct "sched_info") "sched_info";
    fld (Struct "list_head") "tasks";
    fld (Struct "plist_node") "pushable_tasks";
    fld (Struct "rb_node") "pushable_dl_tasks";
    fld (Ptr (Struct "mm_struct")) "mm";
    fld (Ptr (Struct "mm_struct")) "active_mm";
    fld (Base Int) "exit_state";
    fld (Base Int) "exit_code";
    fld (Base Int) "exit_signal";
    fld (Base Int) "pdeath_signal";
    fld (Base ULong) "jobctl";
    fld (Base UInt) "personality";
    bits (Base UInt) "sched_reset_on_fork" 1;
    bits (Base UInt) "sched_contributes_to_load" 1;
    bits (Base UInt) "sched_migrated" 1;
    bits (Base UInt) "sched_task_hot" 1;
    pad (Base Long) 28;
    bits (Base UInt) "sched_remote_wakeup" 1;
    bits (Base UInt) "sched_rt_mutex" 1;
    bits (Base UInt) "user_dumpable" 1;
    bits (Base UInt) "in_execve" 1;
    bits (Base UInt) "in_iowait" 1;
    bits (Base UInt) "restore_sigmask" 1;
    bits (Base UInt) "in_lru_fault" 1;
    bits (Base UInt) "no_cgroup_migration" 1;
    bits (Base UInt) "frozen" 1;
    bits (Base UInt) "use_memdelay" 1;
    bits (Base UInt) "in_memstall" 1;
    bits (Base UInt) "in_eventfd" 1;
    bits (Base UInt) "pasid_activated" 1;
    bits (Base UInt) "reported_split_lock" 1;
    bits (Base UInt) "in_thrashing" 1;
    bits (Base UInt) "in_nf_duplicate" 1;
    fld (Base ULong) "atomic_flags";
    fld (Struct "restart_block") "restart_block";
    fld (Typedef "pid_t") "pid";
    fld (Typedef "pid_t") "tgid";
    fld (Base ULong) "stack_canary";
    fld (Ptr (Struct "task_struct")) "real_parent";
    fld (Ptr (Struct "task_struct")) "parent";
    fld (Struct "list_head") "children";
    fld (Struct "list_head") "sibling";
    fld (Ptr (Struct "task_struct")) "group_leader";
    fld (Struct "list_head") "ptraced";
    fld (Struct "list_head") "ptrace_entry";
    fld (Ptr (Struct "pid")) "thread_pid";
    fld (Array (Struct "hlist_node") 4) "pid_links";
    fld (Struct "list_head") "thread_node";
    fld (Ptr (Struct "completion")) "vfork_done";
    fld (Ptr (Base Int)) "set_child_tid";
    fld (Ptr (Base Int)) "clear_child_tid";
    fld (Ptr (Base Void)) "worker_private";
    fld (Typedef "u64") "utime";
    fld (Typedef "u64") "stime";
    fld (Typedef "u64") "gtime";
    fld (Struct "prev_cputime") "prev_cputime";
    fld (Struct "vtime") "vtime";
    fld (Typedef "atomic_t") "tick_dep_mask";
    fld (Base ULong) "nvcsw";
    fld (Base ULong) "nivcsw";
    fld (Typedef "u64") "start_time";
    fld (Typedef "u64") "start_boottime";
    fld (Base ULong) "min_flt";
    fld (Base ULong) "maj_flt";
    fld (Struct "posix_cputimers") "posix_cputimers";
    fld (Struct "posix_cputimers_work") "posix_cputimers_work";
    fld (Ptr (Const (Struct "cred"))) "ptracer_cred";
    fld (Ptr (Const (Struct "cred"))) "real_cred";
    fld (Ptr (Const (Struct "cred"))) "cred";
    fld (Ptr (Struct "key")) "cached_requested_key";
    fld (Array (Base Char) 16) "comm";
    fld (Ptr (Struct "nameidata")) "nameidata";
    fld (Struct "sysv_sem") "sysvsem";
    fld (Struct "sysv_shm") "sysvshm";
    fld (Base ULong) "last_switch_count";
    fld (Base ULong) "last_switch_time";
    fld (Ptr (Struct "fs_struct")) "fs";
    fld (Ptr (Struct "files_struct")) "files";
    fld (Ptr (Struct "io_uring_task")) "io_uring";
    fld (Ptr (Struct "io_restriction")) "io_uring_restrict";
    fld (Ptr (Struct "nsproxy")) "nsproxy";
    fld (Ptr (Struct "signal_struct")) "signal";
    fld (Ptr (Struct "sighand_struct")) "sighand";
    fld (Typedef "sigset_t") "blocked";
    fld (Typedef "sigset_t") "real_blocked";
    fld (Typedef "sigset_t") "saved_sigmask";
    fld (Struct "sigpending") "pending";
    fld (Base ULong) "sas_ss_sp";
    fld (Typedef "size_t") "sas_ss_size";
    fld (Base UInt) "sas_ss_flags";
    fld (Ptr (Struct "callback_head")) "task_works";
    fld (Ptr (Struct "audit_context")) "audit_context";
    fld (Typedef "kuid_t") "loginuid";
    fld (Base UInt) "sessionid";
    fld (Struct "seccomp") "seccomp";
    fld (Struct "syscall_user_dispatch") "syscall_dispatch";
    fld (Typedef "u64") "parent_exec_id";
    fld (Typedef "u64") "self_exec_id";
    fld (Typedef "spinlock_t") "alloc_lock";
    fld (Typedef "raw_spinlock_t") "pi_lock";
    fld (Struct "wake_q_node") "wake_q";
    fld (Struct "rb_root_cached") "pi_waiters";
    fld (Ptr (Struct "task_struct")) "pi_top_task";
    fld (Ptr (Struct "rt_mutex_waiter")) "pi_blocked_on";
    fld (Ptr (Struct "mutex")) "blocked_on";
    fld (Typedef "raw_spinlock_t") "blocked_lock";
    fld (Base ULong) "blocker";
    fld (Ptr (Base Void)) "journal_info";
    fld (Ptr (Struct "bio_list")) "bio_list";
    fld (Ptr (Struct "blk_plug")) "plug";
    fld (Ptr (Struct "reclaim_state")) "reclaim_state";
    fld (Ptr (Struct "io_context")) "io_context";
    fld (Ptr (Struct "capture_control")) "capture_control";
    fld (Base ULong) "ptrace_message";
    fld (Ptr (Typedef "kernel_siginfo_t")) "last_siginfo";
    fld (Struct "task_io_accounting") "ioac";
    fld (Base UInt) "psi_flags";
    fld (Typedef "u64") "acct_rss_mem1";
    fld (Typedef "u64") "acct_vm_mem1";
    fld (Typedef "u64") "acct_timexpd";
    fld (Typedef "nodemask_t") "mems_allowed";
    fld (Typedef "seqcount_spinlock_t") "mems_allowed_seq";
    fld (Base Int) "cpuset_mem_spread_rotor";
    fld (Ptr (Struct "css_set")) "cgroups";
    fld (Struct "list_head") "cg_list";
    fld (Typedef "u32") "closid";
    fld (Typedef "u32") "rmid";
    fld (Ptr (Struct "robust_list_head")) "robust_list";
    fld (Ptr (Struct "compat_robust_list_head")) "compat_robust_list";
    fld (Struct "list_head") "pi_state_list";
    fld (Ptr (Struct "futex_pi_state")) "pi_state_cache";
    fld (Struct "mutex") "futex_exit_mutex";
    fld (Base UInt) "futex_state";
    fld (Array (Typedef "u8") 4) "perf_recursion";
    fld (Ptr (Struct "perf_event_context")) "perf_event_ctxp";
    fld (Struct "mutex") "perf_event_mutex";
    fld (Struct "list_head") "perf_event_list";
    fld (Ptr (Struct "perf_ctx_data")) "perf_ctx_data";
    fld (Ptr (Struct "mempolicy")) "mempolicy";
    fld (Base Short) "il_prev";
    fld (Typedef "u8") "il_weight";
    fld (Base Short) "pref_node_fork";
    fld (Base Int) "numa_scan_seq";
    fld (Base UInt) "numa_scan_period";
    fld (Base UInt) "numa_scan_period_max";
    fld (Base Int) "numa_preferred_nid";
    fld (Base ULong) "numa_migrate_retry";
    fld (Typedef "u64") "node_stamp";
    fld (Typedef "u64") "last_task_numa_placement";
    fld (Typedef "u64") "last_sum_exec_runtime";
    fld (Struct "callback_head") "numa_work";
    fld (Ptr (Struct "numa_group")) "numa_group";
    fld (Ptr (Base ULong)) "numa_faults";
    fld (Base ULong) "total_numa_faults";
    fld (Array (Base ULong) 3) "numa_faults_locality";
    fld (Base ULong) "numa_pages_migrated";
    fld (Struct "rseq_data") "rseq";
    fld (Struct "sched_mm_cid") "mm_cid";
    fld (Struct "tlbflush_unmap_batch") "tlb_ubc";
    fld (Ptr (Struct "pipe_inode_info")) "splice_pipe";
    fld (Struct "page_frag") "task_frag";
    fld (Struct "lazy_mmu_state") "lazy_mmu_state";
    fld (Ptr (Struct "task_delay_info")) "delays";
    fld (Base Int) "nr_dirtied";
    fld (Base Int) "nr_dirtied_pause";
    fld (Base ULong) "dirty_paused_when";
    fld (Typedef "u64") "timer_slack_ns";
    fld (Typedef "u64") "default_timer_slack_ns";
    fld (Base Int) "curr_ret_stack";
    fld (Base Int) "curr_ret_depth";
    fld (Ptr (Base ULong)) "ret_stack";
    fld (Base ULongLong) "ftrace_timestamp";
    fld (Base ULongLong) "ftrace_sleeptime";
    fld (Typedef "atomic_t") "trace_overrun";
    fld (Typedef "atomic_t") "tracing_graph_pause";
    fld (Base ULong) "trace_recursion";
    fld (Base UInt) "memcg_nr_pages_over_high";
    fld (Ptr (Struct "mem_cgroup")) "active_memcg";
    fld (Ptr (Struct "obj_cgroup")) "objcg";
    fld (Ptr (Struct "gendisk")) "throttle_disk";
    fld (Ptr (Struct "uprobe_task")) "utask";
    fld (Base UInt) "sequential_io";
    fld (Base UInt) "sequential_io_avg";
    fld (Struct "kmap_ctrl") "kmap_ctrl";
    fld (Struct "callback_head") "rcu";
    fld (Typedef "refcount_t") "rcu_users";
    fld (Base Int) "pagefault_disabled";
    fld (Ptr (Struct "task_struct")) "oom_reaper_list";
    fld (Struct "timer_list") "oom_reaper_timer";
    fld (Ptr (Struct "vm_struct")) "stack_vm_area";
    fld (Typedef "refcount_t") "stack_refcount";
    fld (Ptr (Base Void)) "security";
    fld (Ptr (Struct "bpf_local_storage")) "bpf_storage";
    fld (Ptr (Struct "bpf_run_ctx")) "bpf_ctx";
    fld (Ptr (Struct "bpf_net_context")) "bpf_net_context";
    fld (Ptr (Base Void)) "mce_vaddr";
    fld (Typedef "__u64") "mce_kflags";
    fld (Typedef "u64") "mce_addr";
    bits (Typedef "__u64") "mce_ripv" 1;
    bits (Typedef "__u64") "mce_whole_page" 1;
    bits (Typedef "__u64") "__mce_reserved" 62;
    fld (Struct "callback_head") "mce_kill_me";
    fld (Base Int) "mce_count";
    fld (Struct "llist_head") "kretprobe_instances";
    fld (Struct "llist_head") "rethooks";
    fld (Struct "callback_head") "l1d_flush_kill";
    fld (Struct "unwind_task_info") "unwind_info";
    fld (Struct "thread_struct") "thread"].

Definition struct_unicode_map : decl :=
  struct_ "unicode_map" [
    fld (Base UInt) "version";
    fld (Array (Ptr (Const (Struct "utf8data"))) 2) "ntab";
    fld (Ptr (Const (Struct "utf8data_table"))) "tables"].

Definition struct_user_namespace : decl :=
  struct_ "user_namespace" [
    fld (Struct "uid_gid_map") "uid_map";
    fld (Struct "uid_gid_map") "gid_map";
    fld (Struct "uid_gid_map") "projid_map";
    fld (Ptr (Struct "user_namespace")) "parent";
    fld (Base Int) "level";
    fld (Typedef "kuid_t") "owner";
    fld (Typedef "kgid_t") "group";
    pad (Base Long) 64;
    pad (Base Long) 64;
    pad (Base Long) 64;
    pad (Base Long) 64;
    pad (Base Long) 64;
    fld (Struct "ns_common") "ns";
    fld (Base ULong) "flags";
    fld (Typedef "bool") "parent_could_setfcap";
    fld (Struct "list_head") "keyring_name_list";
    fld (Ptr (Struct "key")) "user_keyring_register";
    fld (Struct "rw_semaphore") "keyring_sem";
    fld (Ptr (Struct "key")) "persistent_keyring_register";
    fld (Struct "work_struct") "work";
    fld (Struct "ctl_table_set") "set";
    fld (Ptr (Struct "ctl_table_header")) "sysctls";
    fld (Ptr (Struct "ucounts")) "ucounts";
    fld (Array (Base Long) 12) "ucount_max";
    fld (Array (Base Long) 4) "rlimit_max";
    fld (Ptr (Struct "binfmt_misc")) "binfmt_misc";
    pad (Base Long) 64;
    pad (Base Long) 64].

Definition struct_workqueue_struct : decl :=
  struct_ "workqueue_struct" [
    fld (Struct "list_head") "pwqs";
    fld (Struct "list_head") "list";
    fld (Struct "mutex") "mutex";
    fld (Base Int) "work_color";
    fld (Base Int) "flush_color";
    fld (Typedef "atomic_t") "nr_pwqs_to_flush";
    fld (Ptr (Struct "wq_flusher")) "first_flusher";
    fld (Struct "list_head") "flusher_queue";
    fld (Struct "list_head") "flusher_overflow";
    fld (Struct "list_head") "maydays";
    fld (Ptr (Struct "worker")) "rescuer";
    fld (Base Int) "nr_drainers";
    fld (Base Int) "max_active";
    fld (Base Int) "min_active";
    fld (Base Int) "saved_max_active";
    fld (Base Int) "saved_min_active";
    fld (Ptr (Struct "workqueue_attrs")) "unbound_attrs";
    fld (Ptr (Struct "pool_workqueue")) "dfl_pwq";
    fld (Ptr (Struct "wq_device")) "wq_dev";
    fld (Array (Base Char) 32) "name";
    fld (Struct "callback_head") "rcu";
    pad (Base Long) 64;
    pad (Base Long) 64;
    pad (Base Long) 64;
    fld (Base UInt) "flags";
    fld (Ptr (Ptr (Struct "pool_workqueue"))) "cpu_pwq";
    fld (Array (Ptr (Struct "wq_node_nr_active")) 0) "node_nr_active";
    pad (Base Long) 64;
    pad (Base Long) 64;
    pad (Base Long) 64;
    pad (Base Long) 64;
    pad (Base Long) 64;
    pad (Base Long) 64].

Definition struct_xattr_handler : decl :=
  struct_ "xattr_handler" [
    fld (Ptr (Const (Base Char))) "name";
    fld (Ptr (Const (Base Char))) "prefix";
    fld (Base Int) "flags";
    fld (Ptr (Fun (Typedef "bool") [Ptr (Struct "dentry")])) "list";
    fld (Ptr (Fun (Base Int) [Ptr (Const (Struct "xattr_handler")); Ptr (Struct "dentry"); Ptr (Struct
        "inode"); Ptr (Const (Base Char)); Ptr (Base Void); Typedef "size_t"])) "get";
    fld (Ptr (Fun (Base Int) [Ptr (Const (Struct "xattr_handler")); Ptr (Struct "mnt_idmap"); Ptr (Struct
        "dentry"); Ptr (Struct "inode"); Ptr (Const (Base Char)); Ptr (Const (Base Void)); Typedef "size_t";
        Base Int])) "set"].

Definition bpf_path_d_path_decl : decl :=
  DeclExtern "bpf_path_d_path" (Fun (Base Int) [Ptr (Const (Struct "path")); Ptr (Base Char); Typedef "size_t"]).

(** In the order of the header. *)
Definition decls_rest : list decl :=
  [typedef_fl_owner_t; struct_dquot_operations; typedef_Elf64_Sym; struct_export_operations;
   struct_file_lock_context; struct_file_operations; struct_file_system_type; struct_fown_struct;
   typedef_fs_param_type; struct_fs_parameter_spec; struct_fscrypt_keyring; struct_fscrypt_operations;
   struct_fsnotify_mark_connector; struct_fsnotify_sb_info; struct_fsverity_operations;
   struct_hlist_bl_head; struct_inode_operations; struct_its_array; struct_kmap_ctrl; struct_lazy_mmu_state;
   struct_list_lru; struct_list_lru_one; struct_list_lru_node; struct_mem_dqinfo; struct_uid_gid_extent;
   struct_uid_gid_map; struct_mod_arch_specific; struct_mod_kallsyms; struct_mod_tree_node;
   struct_module_kobject; struct_module_memory; struct_module; struct_vfsmount; struct_mount;
   struct_mutex_waiter; struct_rcu_sync; struct_percpu_rw_semaphore; union_pipe_index;
   struct_pipe_inode_info; struct_posix_acl_hdr; struct_posix_acl_entry; struct_posix_acl;
   struct_posix_cputimer_base; struct_posix_cputimers; struct_posix_cputimers_work; struct_quota_format_ops;
   struct_quota_format_type; struct_quota_info; struct_quotactl_ops; union_rcu_special;
   struct_restart_block; typedef_dl_server_pick_f; struct_sched_dl_entity; struct_sched_info;
   struct_rseq_event; struct_rseq_ids; struct_rseq_data; struct_rwsem_waiter; struct_sb_writers;
   struct_sched_entity; struct_sched_statistics; struct_sched_ext_entity; struct_sched_mm_cid;
   struct_sched_rt_entity; struct_seccomp; struct_shrinker; struct_sigpending; struct_task_io_accounting;
   struct_super_block; struct_super_operations; struct_syscall_user_dispatch; struct_sysv_sem;
   struct_sysv_shm; struct_uclamp_se; struct_thread_info; struct_vtime; struct_wake_q_node;
   struct_tlbflush_unmap_batch; union_unwind_task_id; struct_unwind_task_info; struct_thread_shstk;
   struct_thread_struct; struct_task_struct; struct_unicode_map; struct_user_namespace;
   struct_workqueue_struct; struct_xattr_handler; bpf_path_d_path_decl].
