(* ===== verification/Vmlinux.v ===== *)
(** * The kernel's type declarations (src/vmlinux.h)

    The declarations of the header that the hook depends on: the structures it
    reads, everything their members hold by value, the structures their members
    point to, every name these use, and the constants and the kernel function
    of src/ride.bpf.c. They are listed in the order of the header and laid out
    by the rules of [CTypes]. The header is generated from a kernel built with
    tagged anonymous members; two structures have one ([ns_common] and
    [pipe_inode_info]), none of those the hook reads. *)

From stdpp Require Import base numbers list strings gmap.
From Stdlib Require Import ZArith Lia.
From S2P Require Import CTypes VmlinuxBase VmlinuxFs VmlinuxRest.

Open Scope Z_scope.

Definition vmlinux : list decl := decls_base ++ decls_fs ++ decls_rest.

Definition vmlinux_env : env := default env_empty (declare_all env_empty vmlinux).

(** The declarations are accepted one after the other. *)
Lemma vmlinux_declared : declare_all env_empty vmlinux = Some vmlinux_env.
Proof.
  unfold vmlinux_env. destruct (declare_all env_empty vmlinux) eqn:E; [done|].
  assert (H : bool_decide (is_Some (declare_all env_empty vmlinux)) = true) by (vm_compute; reflexivity).
  apply bool_decide_eq_true in H. rewrite E in H. by destruct H.
Qed.

(** The type, byte offset and size of a member access. *)
Definition access (Γ : env) (tag n : string) : option (ctype * Z * Z) :=
  (fun f => (fd_type f, fd_off f / 8, fd_bits f / 8)) <$> struct_field Γ tag n.

(** ** The hook's accesses, and the layouts *)

(** The transcribed declarations give the hook what it uses: every
    declaration is accepted (a type is complete before it is used by value,
    names are declared once, bit-fields fit their types), the member accesses of
    the hook exist, with the types, offsets and sizes below, the path whose
    address is passed on is a [struct path], and the constants and the kernel
    function it names are declared. *)
Lemma vmlinux_hook_typed :
  declare_all env_empty vmlinux = Some vmlinux_env /\
  access vmlinux_env "file" "f_inode" = Some (Ptr (Struct "inode"), 32, 8) /\
  access vmlinux_env "file" "f_path" = Some (Const (Struct "path"), 64, 16) /\
  access vmlinux_env "inode" "i_mode" = Some (Base UShort, 0, 2) /\
  access vmlinux_env "inode" "i_sb" = Some (Ptr (Struct "super_block"), 40, 8) /\
  access vmlinux_env "super_block" "s_type" = Some (Ptr (Struct "file_system_type"), 40, 8) /\
  access vmlinux_env "file_system_type" "fs_flags" = Some (Base Int, 8, 4) /\
  (sizeof vmlinux_env "file", sizeof vmlinux_env "inode", sizeof vmlinux_env "super_block",
   sizeof vmlinux_env "file_system_type") = (Some 176, Some 560, Some 1408, Some 64) /\
  enumerator vmlinux "BPF_MAP_TYPE_RINGBUF" = Some 27 /\
  enumerator vmlinux "BPF_RB_FORCE_WAKEUP" = Some 2 /\
  DeclExtern "bpf_path_d_path"
    (Fun (Base Int) [Ptr (Const (Struct "path")); Ptr (Base Char); Typedef "size_t"]) ∈ vmlinux.
Proof.
  split; [apply vmlinux_declared|]. split_and!; try (vm_compute; reflexivity).
  apply (list_elem_of_lookup_2 _ (length vmlinux - 1)). vm_compute. reflexivity.
Qed.

(** Every structure and union transcribed has a sound layout: members
    lie within it and have the sizes of their types, its size is a multiple of
    its alignment, members that are no bit-fields are at multiples of their
    alignment unless it is packed, and the members of a structure follow each
    other without overlap. *)
Lemma vmlinux_layout_sound k tag packed ms :
  DeclSu k tag packed ms ∈ vmlinux ->
  exists i, e_tags vmlinux_env !! key_su k tag = Some i /\ su_sound vmlinux_env k packed ms i.
Proof.
  intros Hin. eapply declare_all_sound; [apply env_empty_wf|apply vmlinux_declared|exact Hin].
Qed.
