(* ===== verification/Bpf.v ===== *)
(** * The BPF program (src/ride.bpf.c, the declarations of src/ride.h it uses)

    The [file_open] LSM hook: it filters file opens by process, file type,
    file system and watched path and submits an event for the rest. Kernel
    helpers are arguments: what [bpf_ringbuf_reserve] returns (the reserved
    record with the bytes it happens to hold) and [bpf_path_d_path]. The debug
    printing of [in_watch_path] is not modelled. *)

From stdpp Require Import base numbers list list_numbers.
From S2P Require Import Prelude CStr Queue.

Open Scope Z_scope.

Inductive watch_path_type_t : Set := WATCH_FILE | WATCH_DIRECRTORY.

#[export] Instance watch_path_type_eq_dec : EqDecision watch_path_type_t.
Proof. solve_decision. Defined.

Definition S_IFMT : Z := 61440.
Definition S_IFREG : Z := 32768.
Definition S_ISREG (m : Z) : bool := Z.land m S_IFMT =? S_IFREG.
Definition FS_REQUIRES_DEV : Z := 1.

(** The read-only data the loader sets. *)
Record rodata : Set := Rodata {
  watch_path : list Z;
  watch_path_len : Z;
  watch_path_type : watch_path_type_t;
  userspace_pid : Z;
}.

(** The kernel structures (vmlinux.h), with the fields the hook reads; a null
    [s_type] is [None]. *)
Record file_system_type : Set := FileSystemType { fs_flags : Z }.
Record super_block : Set := SuperBlock { s_type : option file_system_type }.
Record inode : Set := Inode { i_mode : Z; i_sb : super_block }.
Record file : Set := File { f_inode : inode }.

Definition fs_requires_dev (sb : super_block) : bool :=
  match s_type sb with
  | None => false
  | Some t => negb (Z.land (fs_flags t) FS_REQUIRES_DEV =? 0)
  end.

(** The comparison loop from index [i], with [fuel] iterations left at most.
    [i] is an [int] compared with a [size_t]. *)
Fixpoint path_loop (fuel : nat) (ro : rodata) (p : list Z) (i : Z) : outcome bool :=
  if u64 i <? watch_path_len ro then
    match fuel with
    | O => OutOfFuel
    | S fuel =>
        match arr_get p i, arr_get (watch_path ro) i with
        | Some a, Some b => if a =? b then path_loop fuel ro p (i + 1) else Ret false
        | _, _ => Undef OutOfBounds
        end
    end
  else Ret true.

(** [plen] is an [int]; comparing it with the [size_t] [watch_path_len]
    converts it to an unsigned 64-bit integer. *)
Definition in_watch_path (ro : rodata) (p : list Z) (plen : Z) : outcome bool :=
  if (u64 plen <? watch_path_len ro) ||
     (bool_decide (watch_path_type ro = WATCH_FILE) && negb (watch_path_len ro =? u64 plen))
  then Ret false
  else path_loop (Z.to_nat (watch_path_len ro)) ro p 0.

(** What happened to a record reserved in the ring buffer. *)
Inductive rb_op : Set := RbDiscard | RbSubmit (ev : event).

(** The hook returns 0 on every path; the second component lists the ring
    buffer operations after the reservation. This is the part from the
    reservation on. *)
Definition ride_report (ro : rodata) (reserve : option event) (d_path : list Z -> Z * list Z) :
    outcome (Z * list rb_op) :=
  match reserve with
  | None => Ret (0, [])
  | Some ev =>
      let '(r, buf) := d_path (path ev) in
      let plen := s32 (r - 1) in
      match arr_set buf (MAX_FILENAME_LEN - 1) 0 with
      | None => Undef OutOfBounds
      | Some buf =>
          let ev := {| path := buf; path_len := plen |} in
          match in_watch_path ro (path ev) plen with
          | Ret false => Ret (0, [RbDiscard])
          | Ret true => Ret (0, [RbSubmit ev])
          | Exit c => Exit c
          | AssertFailed => AssertFailed
          | Undef u => Undef u
          | OutOfFuel => OutOfFuel
          end
      end
  end.

Definition ride (ro : rodata) (pid_tgid : Z) (f : file)
    (reserve : option event) (d_path : list Z -> Z * list Z) : outcome (Z * list rb_op) :=
  if Z.shiftr pid_tgid 32 =? u64 (userspace_pid ro) then Ret (0, [])
  else if negb (S_ISREG (i_mode (f_inode f))) || negb (fs_requires_dev (i_sb (f_inode f))) then Ret (0, [])
  else ride_report ro reserve d_path.

(** ** Specification *)

(** The watched path as text. *)
Definition watched (ro : rodata) : list Z := take (Z.to_nat (watch_path_len ro)) (watch_path ro).

(** Does the text [p] lie in the watched path? *)
Definition matches_watch (ro : rodata) (p : list Z) : Prop :=
  match watch_path_type ro with
  | WATCH_FILE => p = watched ro
  | WATCH_DIRECRTORY => watched ro `prefix_of` p
  end.

(** The comparison without a loop: the length test on the length [n] as an
    unsigned number, and a prefix test on the bytes of the record. *)
Definition path_matches (ro : rodata) (buf : list Z) (n : Z) : bool :=
  match watch_path_type ro with
  | WATCH_FILE => u64 n =? watch_path_len ro
  | WATCH_DIRECRTORY => watch_path_len ro <=? u64 n
  end && bool_decide (watched ro `prefix_of` buf).

#[export] Instance matches_watch_dec ro p : Decision (matches_watch ro p).
Proof. unfold matches_watch. destruct (watch_path_type ro); apply _. Defined.

Definition rodata_wf (ro : rodata) : Prop :=
  Z.of_nat (length (watch_path ro)) = MAX_FILENAME_LEN /\
  0 <= watch_path_len ro <= MAX_FILENAME_LEN.

(** The documented behaviour of a successful [bpf_path_d_path]: it leaves the
    path with its terminator at the start of the buffer and returns the number
    of bytes, the terminator included. *)
Definition d_path_gives (d_path : list Z -> Z * list Z) (p : list Z) : Prop :=
  forall buf, length buf = Z.to_nat MAX_FILENAME_LEN ->
  exists rest, d_path buf = (Z.of_nat (length p) + 1, p ++ 0 :: rest) /\
               length (p ++ 0 :: rest) = Z.to_nat MAX_FILENAME_LEN.

(** The filters before the path comparison. *)
Definition passes_filters (ro : rodata) (pid_tgid : Z) (f : file) : bool :=
  negb (Z.shiftr pid_tgid 32 =? u64 (userspace_pid ro)) && S_ISREG (i_mode (f_inode f)) &&
  fs_requires_dev (i_sb (f_inode f)).

(** ** Lemmas *)

Lemma drop_take_S {A} (l : list A) x i n :
  l !! i = Some x -> take (S n) (drop i l) = x :: take n (drop (S i) l).
Proof. intros H. by rewrite (drop_S l x i H). Qed.

(** The loop decides equality of the two windows. *)
Lemma path_loop_spec ro p n i :
  rodata_wf ro -> length p = Z.to_nat MAX_FILENAME_LEN ->
  watch_path_len ro = Z.of_nat (i + n) ->
  path_loop n ro p (Z.of_nat i) =
  Ret (bool_decide (take n (drop i p) = take n (drop i (watch_path ro)))).
Proof.
  intros [Hw Hl] Hp. unfold MAX_FILENAME_LEN in *. revert i.
  induction n as [|n IH]; intros i Hn; cbn [path_loop]; rewrite u64_small by lia.
  - destruct (Z.ltb_spec (Z.of_nat i) (watch_path_len ro)); [lia|].
    by rewrite bool_decide_true by done.
  - destruct (Z.ltb_spec (Z.of_nat i) (watch_path_len ro)); [|lia].
    destruct (lookup_lt_is_Some_2 p i) as [a Ha]; [lia|].
    destruct (lookup_lt_is_Some_2 (watch_path ro) i) as [b Hb]; [lia|].
    unfold arr_get. destruct (Z.leb_spec 0 (Z.of_nat i)); [|lia].
    rewrite Nat2Z.id, Ha, Hb. rewrite (drop_take_S p a), (drop_take_S _ b) by done.
    destruct (Z.eqb_spec a b) as [->|Hab].
    + replace (Z.of_nat i + 1) with (Z.of_nat (S i)) by lia. rewrite IH by lia. f_equal.
      apply bool_decide_ext. split; [by intros ->|]. by intros [=].
    + rewrite bool_decide_false by congruence. done.
Qed.

Lemma length_watched ro : rodata_wf ro -> length (watched ro) = Z.to_nat (watch_path_len ro).
Proof. intros [Hw Hl]. unfold watched. rewrite length_take. lia. Qed.

Lemma in_watch_path_loop ro p plen :
  rodata_wf ro -> length p = Z.to_nat MAX_FILENAME_LEN ->
  ~ u64 plen < watch_path_len ro ->
  (watch_path_type ro = WATCH_FILE -> watch_path_len ro = u64 plen) ->
  in_watch_path ro p plen =
  Ret (bool_decide (take (Z.to_nat (watch_path_len ro)) p = watched ro)).
Proof.
  intros Hwf Hp Hlt Hfile. unfold in_watch_path.
  destruct (Z.ltb_spec (u64 plen) (watch_path_len ro)); [lia|]. cbn [orb].
  replace (_ && negb _) with false.
  - rewrite (path_loop_spec ro p _ 0); [|done..|destruct Hwf; lia].
    by rewrite !drop_0.
  - case_bool_decide; [|done]. rewrite (proj2 (Z.eqb_eq _ _)); [done|auto].
Qed.

Lemma take_split (p : list Z) (k n : nat) :
  (k <= n)%nat -> take k p `prefix_of` take n p.
Proof.
  intros. exists (take (n - k) (drop k p)). rewrite take_take_drop. f_equal. lia.
Qed.

Lemma matches_watch_iff ro p plen :
  rodata_wf ro -> length p = Z.to_nat MAX_FILENAME_LEN ->
  0 <= plen < MAX_FILENAME_LEN ->
  matches_watch ro (take (Z.to_nat plen) p) <->
  watch_path_len ro <= plen /\
  (watch_path_type ro = WATCH_FILE -> watch_path_len ro = plen) /\
  take (Z.to_nat (watch_path_len ro)) p = watched ro.
Proof.
  intros Hwf Hp Hr. pose proof (length_watched ro Hwf) as Hlw. destruct Hwf as [Hw Hl].
  unfold MAX_FILENAME_LEN in *. unfold matches_watch. destruct (watch_path_type ro).
  - split.
    + intros He. pose proof (f_equal length He) as Hlen. rewrite length_take in Hlen.
      assert (watch_path_len ro = plen) as Hx by lia. rewrite Hx in *. by split_and!; [lia| |].
    + intros (_ & Hx & He). by rewrite <- Hx.
  - split.
    + intros Hpre. pose proof (prefix_length _ _ Hpre) as Hlen. rewrite length_take in Hlen.
      split; [lia|]. split; [done|]. destruct Hpre as [k Hk].
      rewrite <- (take_app_length (watched ro) k), <- Hk, take_take, Hlw. f_equal. lia.
    + intros (Hle & _ & <-). apply take_split. lia.
Qed.

(** On a valid length [in_watch_path] decides the specification. *)
Lemma in_watch_path_matches ro p plen :
  rodata_wf ro -> length p = Z.to_nat MAX_FILENAME_LEN ->
  0 <= plen < MAX_FILENAME_LEN ->
  in_watch_path ro p plen = Ret (bool_decide (matches_watch ro (take (Z.to_nat plen) p))).
Proof.
  intros Hwf Hp Hr. pose proof (matches_watch_iff ro p plen Hwf Hp Hr) as Hiff.
  assert (Hu : u64 plen = plen) by (apply u64_small; unfold MAX_FILENAME_LEN in Hr; lia).
  destruct (decide (watch_path_len ro <= plen /\
    (watch_path_type ro = WATCH_FILE -> watch_path_len ro = plen))) as [[Hle Hf]|Hn].
  - rewrite in_watch_path_loop; auto; rewrite ?Hu; [|lia|done]. f_equal.
    apply bool_decide_ext. tauto.
  - rewrite (bool_decide_false (matches_watch _ _)) by tauto. unfold in_watch_path. rewrite Hu.
    destruct (Z.ltb_spec plen (watch_path_len ro)); [done|]. cbn [orb].
    destruct (Z.eqb_spec (watch_path_len ro) plen) as [He|He]; [exfalso; apply Hn; by split; [lia|]|].
    rewrite bool_decide_true; [done|].
    destruct (watch_path_type ro); [done|]. exfalso. apply Hn. by split; [lia|].
Qed.

(** The hook past its filters, with a reserved record. *)
Lemma ride_filtered ro pid f ev d_path :
  passes_filters ro pid f = true ->
  ride ro pid f (Some ev) d_path =
  let '(r, buf) := d_path (path ev) in
  match arr_set buf (MAX_FILENAME_LEN - 1) 0 with
  | None => Undef OutOfBounds
  | Some buf =>
      match in_watch_path ro buf (s32 (r - 1)) with
      | Ret false => Ret (0, [RbDiscard])
      | Ret true => Ret (0, [RbSubmit {| path := buf; path_len := s32 (r - 1) |}])
      | Exit c => Exit c
      | AssertFailed => AssertFailed
      | Undef u => Undef u
      | OutOfFuel => OutOfFuel
      end
  end.
Proof.
  unfold passes_filters, ride. intros H.
  apply andb_true_iff in H as [H Hfs]. apply andb_true_iff in H as [Hpid Hreg].
  apply negb_true_iff in Hpid. by rewrite Hpid, Hreg, Hfs.
Qed.

(** The terminator the hook stores does not touch a path that fits. *)
Lemma set_last_nul (p rest : list Z) :
  length (p ++ 0 :: rest) = Z.to_nat MAX_FILENAME_LEN ->
  exists rest', arr_set (p ++ 0 :: rest) (MAX_FILENAME_LEN - 1) 0 = Some (p ++ 0 :: rest') /\
                length (p ++ 0 :: rest') = Z.to_nat MAX_FILENAME_LEN.
Proof.
  intros Hl. pose proof Hl as Hl'. rewrite length_app in Hl. simpl in Hl.
  unfold MAX_FILENAME_LEN in *. rewrite arr_set_in by (rewrite Hl'; lia).
  replace (Z.to_nat (128 - 1)) with (length p + (127 - length p))%nat by lia.
  rewrite insert_app_r. destruct (127 - length p)%nat as [|k] eqn:E; simpl.
  - exists rest. split; [done|exact Hl'].
  - exists (<[k := 0]> rest). split; [done|].
    rewrite length_app. simpl. rewrite length_insert. lia.
Qed.

(** The loop is a prefix test, for every length. *)
Lemma in_watch_path_decides ro buf plen :
  rodata_wf ro -> length buf = Z.to_nat MAX_FILENAME_LEN ->
  in_watch_path ro buf plen = Ret (path_matches ro buf plen).
Proof.
  intros Hwf Hb. pose proof (length_watched ro Hwf) as Hl.
  assert (Hpre : bool_decide (take (Z.to_nat (watch_path_len ro)) buf = watched ro) =
                 bool_decide (watched ro `prefix_of` buf)).
  { apply bool_decide_ext. split; [intros <-; apply prefix_take|].
    intros [k ->]. by rewrite <- Hl, take_app_length. }
  unfold path_matches. rewrite <- Hpre. destruct (Z.ltb_spec (u64 plen) (watch_path_len ro)) as [Hlt|Hge].
  - unfold in_watch_path. rewrite (proj2 (Z.ltb_lt _ _) Hlt). cbn [orb].
    by destruct (watch_path_type ro); [destruct (Z.eqb_spec (u64 plen) (watch_path_len ro))
      |destruct (Z.leb_spec (watch_path_len ro) (u64 plen))]; try lia.
  - destruct (watch_path_type ro) eqn:Ht.
    + destruct (Z.eqb_spec (u64 plen) (watch_path_len ro)) as [He|Hne].
      * by rewrite in_watch_path_loop by (done || lia).
      * unfold in_watch_path. rewrite Ht, bool_decide_true, (proj2 (Z.eqb_neq _ _)) by (done || congruence).
        by rewrite orb_true_r.
    + rewrite (proj2 (Z.leb_le _ _) Hge). by rewrite in_watch_path_loop by (done || lia || congruence).
Qed.

(** ** Properties *)

(** C8. The hook is exact on paths that fit: for a file whose path has at
    most 127 bytes, it returns 0 and submits an event iff the opener is not the
    program itself, the file is a regular file of a device-backed file system,
    a record could be reserved, and the path is the watched file or lies under
    the watched directory. The event then holds the NUL-terminated path and its
    length. A reserved record that is not submitted is discarded. *)
Theorem ride_hook_exact ro pid f reserve d_path p :
  rodata_wf ro -> d_path_gives d_path p ->
  (forall ev, reserve = Some ev -> length (path ev) = Z.to_nat MAX_FILENAME_LEN) ->
  exists ops, ride ro pid f reserve d_path = Ret (0, ops) /\
  match reserve with
  | Some ev =>
      if passes_filters ro pid f then
        if bool_decide (matches_watch ro p)
        then exists rest, ops = [RbSubmit {| path := p ++ 0 :: rest;
                                             path_len := Z.of_nat (length p) |}] /\
             length (p ++ 0 :: rest) = Z.to_nat MAX_FILENAME_LEN
        else ops = [RbDiscard]
      else ops = []
  | None => ops = []
  end.
Proof.
  intros Hwf Hd Hev. destruct (passes_filters ro pid f) eqn:Hpf.
  2:{ exists []. split; [|by destruct reserve]. unfold passes_filters in Hpf. unfold ride.
      destruct (Z.shiftr pid 32 =? u64 (userspace_pid ro)); [done|]. simpl in Hpf.
      by destruct (S_ISREG (i_mode (f_inode f))), (fs_requires_dev (i_sb (f_inode f))). }
  destruct reserve as [ev|].
  2:{ exists []. split; [|done]. unfold ride. by repeat case_match. }
  rewrite ride_filtered by done. destruct (Hd (path ev) (Hev ev eq_refl)) as (rest & -> & Hl).
  destruct (set_last_nul p rest Hl) as (rest' & -> & Hl').
  assert (Hlen : 0 <= Z.of_nat (length p) < MAX_FILENAME_LEN).
  { rewrite length_app in Hl. simpl in Hl. unfold MAX_FILENAME_LEN in *. lia. }
  replace (s32 (Z.of_nat (length p) + 1 - 1)) with (Z.of_nat (length p)).
  2:{ rewrite s32_small; unfold MAX_FILENAME_LEN in Hlen; lia. }
  rewrite in_watch_path_matches by done. rewrite Nat2Z.id, take_app_length.
  destruct (bool_decide (matches_watch ro p)); eexists; split; [done|eauto|done|done].
Qed.

(** C38. A failing [bpf_path_d_path] is not filtered out on a directory
    watch: its negative result, minus one, is converted to a large unsigned
    length, so the hook compares whatever bytes the record holds with the
    watched path and, when they agree, submits an event with a negative
    [path_len]. *)
Theorem ride_hook_d_path_error ro pid f ev d_path r buf :
  rodata_wf ro -> watch_path_type ro = WATCH_DIRECRTORY ->
  passes_filters ro pid f = true ->
  d_path (path ev) = (r, buf) -> -4095 <= r < 0 ->
  length buf = Z.to_nat MAX_FILENAME_LEN ->
  watched ro `prefix_of` buf ->
  watch_path_len ro < MAX_FILENAME_LEN ->
  exists p, ride ro pid f (Some ev) d_path = Ret (0, [RbSubmit {| path := p; path_len := r - 1 |}]).
Proof.
  intros Hwf Ht Hpf Hd Hr Hl Hpre Hlt. rewrite ride_filtered by done. rewrite Hd.
  unfold MAX_FILENAME_LEN in Hlt.
  rewrite arr_set_in by (rewrite Hl; unfold MAX_FILENAME_LEN; lia).
  rewrite s32_small by lia. eexists.
  rewrite in_watch_path_loop; [|done|by rewrite length_insert| |congruence].
  2:{ rewrite u64_neg by lia. lia. }
  rewrite bool_decide_true; [done|].
  rewrite take_insert_ge by (unfold MAX_FILENAME_LEN; lia).
  destruct Hpre as [k ->]. pose proof (length_watched ro Hwf) as Hlw.
  by rewrite <- Hlw, take_app_length.
Qed.

(** C20. The byte loop of [in_watch_path] is a prefix test: on every record and
    for every length, also the negative ones an error leaves, it returns what
    the test of the length and of the prefix gives, and reads neither array out
    of bounds. *)
Theorem in_watch_path_equiv ro buf plen :
  rodata_wf ro -> length buf = Z.to_nat MAX_FILENAME_LEN ->
  in_watch_path ro buf plen = Ret (path_matches ro buf plen).
Proof. apply in_watch_path_decides. Qed.

(** ** Witnesses: the directory "/t/" and the file "/t/a" *)

Definition ro_t : rodata :=
  {| watch_path := strncpy [47; 116; 47] 128; watch_path_len := 3;
     watch_path_type := WATCH_DIRECRTORY; userspace_pid := 77 |}.

Definition file_reg : file := File (Inode 33188 (SuperBlock (Some (FileSystemType 1)))).

Definition d_path_ta (buf : list Z) : Z * list Z :=
  (5, [47; 116; 47; 97] ++ 0 :: drop 5 buf).

Lemma ro_t_wf : rodata_wf ro_t.
Proof. split; [reflexivity|split; vm_compute; congruence]. Qed.

Lemma d_path_ta_gives : d_path_gives d_path_ta [47; 116; 47; 97].
Proof.
  intros buf Hl. exists (drop 5 buf). split; [reflexivity|].
  simpl. rewrite length_drop, Hl. reflexivity.
Qed.

Lemma ride_hook_exact_witness :
  exists rest,
    ride ro_t (Z.shiftl 5 32) file_reg (Some event_zero) d_path_ta =
    Ret (0, [RbSubmit {| path := [47; 116; 47; 97] ++ 0 :: rest; path_len := 4 |}]).
Proof.
  destruct (ride_hook_exact ro_t (Z.shiftl 5 32) file_reg (Some event_zero) d_path_ta
              [47; 116; 47; 97] ro_t_wf d_path_ta_gives) as (ops & H & Hops).
  { intros ev [= <-]. reflexivity. }
  replace (passes_filters ro_t (Z.shiftl 5 32) file_reg) with true in Hops by reflexivity.
  replace (bool_decide (matches_watch ro_t [47; 116; 47; 97])) with true in Hops by reflexivity.
  destruct Hops as (rest & -> & _). exists rest. exact H.
Defined.

Lemma in_watch_path_equiv_witness :
  in_watch_path ro_t (strncpy [47; 116; 47; 97] 128) (-37) = Ret true /\
  in_watch_path ro_t (strncpy [47; 116; 47; 97] 128) 2 = Ret false.
Proof.
  rewrite (in_watch_path_equiv ro_t (strncpy [47; 116; 47; 97] 128) (-37) ro_t_wf eq_refl).
  rewrite (in_watch_path_equiv ro_t (strncpy [47; 116; 47; 97] 128) 2 ro_t_wf eq_refl).
  split; vm_compute; reflexivity.
Defined.

(** A record whose bytes still hold "/t/a", and a path lookup that fails with
    [ENAMETOOLONG]. *)
Lemma ride_hook_d_path_error_witness :
  exists p,
    ride ro_t (Z.shiftl 5 32) file_reg
      (Some {| path := strncpy [47; 116; 47; 97] 128; path_len := 4 |}) (fun buf => (-36, buf)) =
    Ret (0, [RbSubmit {| path := p; path_len := -37 |}]).
Proof.
  apply (ride_hook_d_path_error ro_t (Z.shiftl 5 32) file_reg
           {| path := strncpy [47; 116; 47; 97] 128; path_len := 4 |} (fun buf => (-36, buf))
           (-36) (strncpy [47; 116; 47; 97] 128)); try reflexivity.
  - exact ro_t_wf.
  - lia.
  - exists (97 :: replicate 124 0). reflexivity.
Defined.
