(* ===== verification/Ride.v ===== *)
(** * The main program (src/ride.c, src/main.c, constants of src/ride.h)

    Option parsing, canonicalisation of the watched path, the ring-buffer
    callback that feeds the queue, and [ride_run]. Library and system calls are
    arguments: the results of the successive [getopt] calls, [stat],
    [realpath], [sysconf], the libbpf loader, [eventfd] and so on.

    Output is not modelled, except that printing an array as a string needs
    its terminator. *)

From stdpp Require Import base numbers list list_numbers.
From S2P Require Import Prelude CStr Queue Bpf.

Open Scope Z_scope.

Definition MAX_THREADS : Z := 20.
Definition MAX_CONCURRENT_TASKS : Z := 256.
Definition MAX_CONCURRENCY : Z := MAX_CONCURRENT_TASKS.
Definition DEFAULT_IO_CONCURRENCY : Z := 32.
Definition EXIT_SUCCESS : Z := 0.

(** [DEFAULT_THREADS], for the value of [sysconf(_SC_NPROCESSORS_ONLN)]. *)
Definition DEFAULT_THREADS (nproc : Z) : Z :=
  if nproc <? 1 then 1 else Z.quot nproc 2.

Record ride_cli_args : Set := CliArgs {
  cli_watch_path : list Z;
  cli_watch_path_len : Z;
  cli_watch_path_type : watch_path_type_t;
  fingerprint_alg : list Z;
  threads : Z;
  io_concurrency : Z;
  verify : bool;
}.

(** ** parse_env

    [opts] lists what the successive [getopt] calls return before [-1]: the
    character and [optarg] ([None] for NULL). [arg] is [argv[optind]], [None]
    when [optind == argc]. *)

Definition str_BLAKE3 : list Z := [66; 76; 65; 75; 69; 51].
Definition ch_v : Z := 118.
Definition ch_f : Z := 102.
Definition ch_t : Z := 116.
Definition ch_c : Z := 99.
Definition ch_colon : Z := 58.
Definition ch_quest : Z := 63.

Definition set_verify (a : ride_cli_args) : ride_cli_args :=
  {| cli_watch_path := cli_watch_path a; cli_watch_path_len := cli_watch_path_len a;
     cli_watch_path_type := cli_watch_path_type a; fingerprint_alg := fingerprint_alg a;
     threads := threads a; io_concurrency := io_concurrency a; verify := true |}.
Definition set_alg (a : ride_cli_args) (s : list Z) : ride_cli_args :=
  {| cli_watch_path := cli_watch_path a; cli_watch_path_len := cli_watch_path_len a;
     cli_watch_path_type := cli_watch_path_type a; fingerprint_alg := s;
     threads := threads a; io_concurrency := io_concurrency a; verify := verify a |}.
Definition set_threads (a : ride_cli_args) (n : Z) : ride_cli_args :=
  {| cli_watch_path := cli_watch_path a; cli_watch_path_len := cli_watch_path_len a;
     cli_watch_path_type := cli_watch_path_type a; fingerprint_alg := fingerprint_alg a;
     threads := n; io_concurrency := io_concurrency a; verify := verify a |}.
Definition set_concurrency (a : ride_cli_args) (n : Z) : ride_cli_args :=
  {| cli_watch_path := cli_watch_path a; cli_watch_path_len := cli_watch_path_len a;
     cli_watch_path_type := cli_watch_path_type a; fingerprint_alg := fingerprint_alg a;
     threads := threads a; io_concurrency := n; verify := verify a |}.
Definition set_path (a : ride_cli_args) (p : list Z) (n : Z) (t : watch_path_type_t)
    : ride_cli_args :=
  {| cli_watch_path := p; cli_watch_path_len := n; cli_watch_path_type := t;
     fingerprint_alg := fingerprint_alg a; threads := threads a;
     io_concurrency := io_concurrency a; verify := verify a |}.

(** [strncpy] into an array of [n] bytes, then a NUL in its last byte. *)
Definition strncpy_term (src : list Z) (n : nat) : list Z := <[(n - 1)%nat := 0]> (strncpy src n).

(** The option loop; the first component is the value returned from within
    it, if any. *)
Fixpoint parse_opts (opts : list (Z * option (list Z))) (out : ride_cli_args)
    : outcome (option Z * ride_cli_args) :=
  match opts with
  | [] => Ret (None, out)
  | (ch, optarg) :: opts =>
      if ch =? ch_v then parse_opts opts (set_verify out)
      else if ch =? ch_f then
        match optarg with
        | Some s => parse_opts opts (set_alg out (strncpy_term s 10))
        | None =>
            parse_opts opts
              (set_alg out (str_BLAKE3 ++ 0 :: drop 7 (fingerprint_alg out)))
        end
      else if ch =? ch_t then
        match optarg with
        | None => Undef NullDeref
        | Some s =>
            let out := set_threads out (u64 (strtoll s)) in
            if (threads out =? 0) || (MAX_THREADS <? threads out)
            then Ret (Some EXIT_FAILURE, out) else parse_opts opts out
        end
      else if ch =? ch_c then
        match optarg with
        | None => Undef NullDeref
        | Some s =>
            let out := set_concurrency out (u64 (strtoll s)) in
            if (io_concurrency out =? 0) || (MAX_CONCURRENCY <? io_concurrency out)
            then Ret (Some EXIT_FAILURE, out) else parse_opts opts out
        end
      else if ch =? ch_colon then Ret (Some 1, out)
      else if ch =? ch_quest then Ret (Some EXIT_FAILURE, out)
      else parse_opts opts out
  end.

Definition parse_env (opts : list (Z * option (list Z))) (arg : option (list Z))
    (out : ride_cli_args) : outcome (Z * ride_cli_args) :=
  match parse_opts opts out with
  | Ret (Some code, out) => Ret (code, out)
  | Ret (None, out) =>
      match arg with
      | None => Ret (EXIT_FAILURE, out)
      | Some s =>
          Ret (0, set_path out (strncpy_term s (Z.to_nat MAX_FILENAME_LEN))
                    (cli_watch_path_len out) (cli_watch_path_type out))
      end
  | Exit c => Exit c
  | AssertFailed => AssertFailed
  | Undef u => Undef u
  | OutOfFuel => OutOfFuel
  end.

(** ** ride_stat *)

Definition S_IFDIR : Z := 16384.
Definition S_ISDIR (m : Z) : bool := Z.land m S_IFMT =? S_IFDIR.

(** [stat] gives the mode or fails, [realpath] the canonical path or NULL;
    both are given the C string in [watch_path]. The path type stays what it
    was when the function returns before setting it. *)
Definition ride_stat (stat : list Z -> option Z) (realpath : list Z -> option (list Z))
    (a : ride_cli_args) : outcome (Z * ride_cli_args) :=
  match c_string (cli_watch_path a) with
  | None => Undef OutOfBounds
  | Some p =>
    match stat p with
    | None => Ret (1, a)
    | Some mode =>
      let ty := if S_ISDIR mode then Some WATCH_DIRECRTORY
                else if S_ISREG mode then Some WATCH_FILE else None in
      match ty with
      | None => Ret (1, a)
      | Some ty =>
        let a := set_path a (cli_watch_path a) (cli_watch_path_len a) ty in
        match realpath p with
        | None => Ret (1, a)
        | Some abspath =>
          let pathlen := Z.of_nat (length abspath) in
          if MAX_FILENAME_LEN - 1 <? pathlen then Ret (1, a)
          else
            (* the "Watch path too large" branch only prints *)
            let wp := strncpy_term abspath (Z.to_nat MAX_FILENAME_LEN) in
            if bool_decide (ty = WATCH_DIRECRTORY) then
              match arr_set wp pathlen 47 with
              | None => Undef OutOfBounds
              | Some wp => Ret (0, set_path a wp (pathlen + 1) ty)
              end
            else Ret (0, set_path a wp pathlen ty)
        end
      end
    end
  end.

(** ** ride_ringbuf_handle *)

(** The state the callback works on: the queue, the processors' eventfds and
    the [static int efd_next]. *)
Record feeder (F : Type) : Type := Feeder {
  f_queue : queue;
  queue_eventfd : list F;
  efd_next : Z;
}.
Arguments Feeder {F}.
Arguments f_queue {F}.
Arguments queue_eventfd {F}.
Arguments efd_next {F}.

Definition ride_ringbuf_handle {F} `{!Eventfd F} (ev : event) : M (feeder F) Z := fun s =>
  match queue_add ev (f_queue s) with
  | Ret (_, q) =>                       (* the result is not looked at *)
      let queue_eventfd_len := Z.of_nat (length (queue_eventfd s)) in
      if queue_eventfd_len =? 0 then Undef DivisionByZero
      else if efd_next s =? 2 ^ 31 - 1 then Undef SignedOverflow
      else
        let i := u32 (efd_next s) mod queue_eventfd_len in
        match arr_get (queue_eventfd s) i with
        | None => Undef OutOfBounds
        | Some efd =>
            match eventfd_write efd 1 with
            | (inr _, _) => Exit EXIT_FAILURE
            | (inl _, efd') =>
                Ret (0, {| f_queue := q;
                           queue_eventfd := <[Z.to_nat i := efd']> (queue_eventfd s);
                           efd_next := efd_next s + 1 |})
            end
        end
  | Exit c => Exit c
  | AssertFailed => AssertFailed
  | Undef u => Undef u
  | OutOfFuel => OutOfFuel
  end.

(** ** ride_run *)

Definition EINTR : Z := 4.

(** [struct processor_args] (src/processor.h). *)
Record processor_args : Set := ProcessorArgs {
  pa_id : Z;
  pa_io_concurrency : Z;
  pa_queue_eventfd : Z;
  pa_quit_eventfd : Z;
  pa_verify : bool;
}.

(** What the calls of one turn of the thread-creation loop give: whether
    [malloc] succeeds, the descriptor [eventfd] returns, and whether
    [pthread_create] creates the thread. *)
Record thread_env : Set := ThreadEnv { te_malloc : bool; te_eventfd : Z; te_create : bool }.

(** What the library and system calls of one run give. [env_rb] is whether
    [ring_buffer__new] returns a buffer, and not NULL; [env_polls] lists, for
    each turn of the main loop, the signals that arrived before it and the
    result of [ring_buffer__poll]; [env_join i] is whether the [pthread_join] of
    thread [i] returns. *)
Record run_env : Type := RunEnv {
  env_nproc : Z;
  env_opts : list (Z * option (list Z));
  env_arg : option (list Z);
  env_stat : list Z -> option Z;
  env_realpath : list Z -> option (list Z);
  env_quit_efd : Z;
  env_bpf_open : bool;
  env_getpid : Z;
  env_bpf_load : Z;
  env_rb : bool;
  env_malloc_efds : bool;
  env_thread : nat -> thread_env;
  env_bpf_attach : Z;
  env_polls : list (list Z * Z);
  env_quit_write_fails : bool;
  env_join : nat -> bool;
}.

(** How far a run gets: it returns a code, it waits for a thread that does not
    finish, or the main loop is still polling. *)
Inductive run_end : Set :=
  | Returned (code : Z)
  | BlockedInJoin
  | StillPolling.

(** What a run leaves behind: the program's read-only data once loaded and the
    arguments of the threads it created. *)
Record run_result : Set := RunResult {
  run_status : run_end;
  run_rodata : option rodata;
  run_threads : list processor_args;
}.

(** The arguments of thread [i]. *)
Definition thread_args (env : run_env) (args : ride_cli_args) (i : nat) : processor_args :=
  {| pa_id := Z.of_nat i; pa_io_concurrency := io_concurrency args;
     pa_queue_eventfd := s32 (u32 (te_eventfd (env_thread env i)));
     pa_quit_eventfd := env_quit_efd env; pa_verify := verify args |}.

(** The thread-creation loop from thread [i], [n] threads to go; [inr] is the
    early return, with the threads created so far. The result of
    [pthread_create] is not looked at. *)
Fixpoint create_threads (env : run_env) (args : ride_cli_args) (n i : nat)
    : list processor_args + list processor_args :=
  match n with
  | O => inl []
  | S n =>
      let t := env_thread env i in
      if negb (te_malloc t) then inr []
      else if u32 (te_eventfd t) =? u32 (-1) then inr []
      else
        let new := if te_create t then [thread_args env args i] else [] in
        match create_threads env args n (S i) with
        | inl l => inl (new ++ l)
        | inr l => inr (new ++ l)
        end
  end.

(** The handler of SIGINT, SIGTERM and SIGHUP: the new value of [quit]. *)
Definition ride_sig_handler (quit signal : Z) : Z := 1.

(** The main loop: [Some err] when it ends, with the last value of [err], and
    [None] when it is still polling. [ring_buffer__poll] needs a buffer. *)
Fixpoint poll_loop (rb : bool) (polls : list (list Z * Z)) (quit err : Z) : outcome (option Z) :=
  match polls with
  | [] => Ret None
  | (signals, r) :: polls =>
      let quit := foldl ride_sig_handler quit signals in
      if negb (quit =? 0) then Ret (Some err)
      else if negb rb then Undef NullDeref
      else if (r <? 0) && negb (r =? - EINTR) then Ret (Some r)
      else poll_loop rb polls quit r
  end.

(** The join loop from thread [i], [n] threads to go: whether it ends. The
    [pthread_t] of a thread that was not created has no value. *)
Fixpoint join_threads (env : run_env) (n i : nat) : outcome bool :=
  match n with
  | O => Ret true
  | S n =>
      if negb (te_create (env_thread env i)) then Undef Uninitialised
      else if env_join env i then join_threads env n (S i)
      else Ret false
  end.

Definition default_args (env : run_env) : ride_cli_args :=
  {| cli_watch_path := replicate (Z.to_nat MAX_FILENAME_LEN) 0; cli_watch_path_len := 0;
     cli_watch_path_type := WATCH_FILE; fingerprint_alg := strncpy str_BLAKE3 10;
     threads := u64 (DEFAULT_THREADS (env_nproc env));
     io_concurrency := DEFAULT_IO_CONCURRENCY; verify := false |}.

(** The [strncpy] and assignments to [obj->rodata]. *)
Definition load_rodata (env : run_env) (args : ride_cli_args) : rodata :=
  {| watch_path := strncpy (match c_string (cli_watch_path args) with
                            | Some s => s
                            | None => cli_watch_path args
                            end) (Z.to_nat MAX_FILENAME_LEN);
     watch_path_len := cli_watch_path_len args;
     watch_path_type := cli_watch_path_type args;
     userspace_pid := env_getpid env |}.

(** The [printf] of the settings reads two arrays as C strings. *)
Definition is_terminated (buf : list Z) : bool := bool_decide (is_Some (c_string buf)).

(** [ride_run] up to the main loop: [inl] is an early return. *)
Definition ride_setup (env : run_env) : outcome (run_result + ride_cli_args * rodata * list processor_args) :=
  let stop ro ts := Ret (inl {| run_status := Returned EXIT_FAILURE; run_rodata := ro; run_threads := ts |}) in
  match parse_env (env_opts env) (env_arg env) (default_args env) with
  | Ret (code, args) =>
    if negb (code =? 0) then stop None []
    else
    match ride_stat (env_stat env) (env_realpath env) args with
    | Ret (code, args) =>
      if negb (code =? 0) then stop None []
      else if negb (is_terminated (cli_watch_path args) && is_terminated (fingerprint_alg args))
      then Undef OutOfBounds
      else if env_quit_efd env =? -1 then stop None []
      else if negb (env_bpf_open env) then stop None []
      else
      let ro := load_rodata env args in
      if negb (env_bpf_load env =? 0) then stop None []
      else if threads args =? 0 then Undef ZeroLengthArray
      else if negb (env_malloc_efds env) then stop (Some ro) []
      else
      match create_threads env args (Z.to_nat (threads args)) 0 with
      | inr ts => stop (Some ro) ts
      | inl ts =>
        if negb (env_bpf_attach env =? 0) then stop (Some ro) ts
        else Ret (inr (args, ro, ts))
      end
    | Exit c => Exit c
    | AssertFailed => AssertFailed
    | Undef u => Undef u
    | OutOfFuel => OutOfFuel
    end
  | Exit c => Exit c
  | AssertFailed => AssertFailed
  | Undef u => Undef u
  | OutOfFuel => OutOfFuel
  end.

(** From the main loop on. *)
Definition ride_loop (env : run_env) (args : ride_cli_args) (ro : rodata) (ts : list processor_args)
    : outcome run_result :=
  let result st := Ret {| run_status := st; run_rodata := Some ro; run_threads := ts |} in
  match poll_loop (env_rb env) (env_polls env) 0 0 with
  | Ret None => result StillPolling
  | Ret (Some err) =>
      if env_quit_write_fails env then Exit EXIT_FAILURE
      else
        match join_threads env (Z.to_nat (threads args)) 0 with
        | Ret true => result (Returned (if negb (err =? 0) then EXIT_FAILURE else EXIT_SUCCESS))
        | Ret false => result BlockedInJoin
        | Exit c => Exit c
        | AssertFailed => AssertFailed
        | Undef u => Undef u
        | OutOfFuel => OutOfFuel
        end
  | Exit c => Exit c
  | AssertFailed => AssertFailed
  | Undef u => Undef u
  | OutOfFuel => OutOfFuel
  end.

Definition ride_run (env : run_env) : outcome run_result :=
  match ride_setup env with
  | Ret (inl r) => Ret r
  | Ret (inr (args, ro, ts)) => ride_loop env args ro ts
  | Exit c => Exit c
  | AssertFailed => AssertFailed
  | Undef u => Undef u
  | OutOfFuel => OutOfFuel
  end.

(** ** Lemmas on option parsing *)

Lemma length_strncpy_term s n : length (strncpy_term s n) = n.
Proof. unfold strncpy_term. by rewrite length_insert, length_strncpy. Qed.

Lemma strncpy_term_terminated s n : (0 < n)%nat -> is_Some (c_string (strncpy_term s n)).
Proof.
  intros Hn. unfold strncpy_term.
  assert (Hl : length (strncpy s n) = n) by apply length_strncpy.
  revert Hl. generalize (strncpy s n). intros l. revert n Hn.
  induction l as [|c l IH]; intros n Hn Hl; simpl in Hl; [lia|].
  destruct n as [|[|n]]; [lia| |]; simpl; [eauto|].
  destruct (c =? 0); [eauto|]. destruct (IH (S n)) as [t Ht]; [lia|lia|].
  replace (S n - 1)%nat with n in Ht by lia. rewrite Ht. eauto.
Qed.

(** A string that fits is copied as it is. *)
Lemma strncpy_term_short s n :
  (length s < n)%nat -> strncpy_term s n = s ++ 0 :: replicate (n - length s - 1) 0.
Proof.
  intros Hl. unfold strncpy_term. rewrite strncpy_short by done.
  replace (n - 1)%nat with (length s + (n - length s - 1))%nat by lia.
  rewrite insert_app_r. f_equal. generalize (n - length s - 1)%nat as m. intros m.
  apply (insert_replicate 0 (S m) m).
Qed.

(** What the option loop keeps or establishes when it runs to its end. *)
Lemma parse_opts_ok opts out out' :
  parse_opts opts out = Ret (None, out') ->
  (threads out' = threads out \/ 1 <= threads out' <= MAX_THREADS) /\
  (io_concurrency out' = io_concurrency out \/ 1 <= io_concurrency out' <= MAX_CONCURRENCY) /\
  (is_Some (c_string (fingerprint_alg out)) -> is_Some (c_string (fingerprint_alg out'))).
Proof.
  revert out. induction opts as [|[ch optarg] opts IH]; intros out; cbn [parse_opts].
  { intros [= <-]. auto. }
  assert (Hu : forall s, 0 <= u64 (strtoll s)) by (intros s; apply u64_range).
  destruct (ch =? ch_v). { intros H%IH. exact H. }
  destruct (ch =? ch_f).
  { destruct optarg as [s|]; intros H%IH; simpl in H; destruct H as (H1 & H2 & H3);
      (split; [done|]; split; [done|]); intros _; apply H3.
    - apply strncpy_term_terminated. lia.
    - simpl. eauto. }
  destruct (ch =? ch_t).
  { destruct optarg as [s|]; [|done]. cbn zeta. simpl threads. specialize (Hu s).
    destruct (Z.eqb_spec (u64 (strtoll s)) 0), (Z.ltb_spec MAX_THREADS (u64 (strtoll s)));
      simpl orb; [done..|].
    intros Hk%IH. simpl in Hk. destruct Hk as (H1 & H2 & H3). split; [right; lia|done]. }
  destruct (ch =? ch_c).
  { destruct optarg as [s|]; [|done]. cbn zeta. simpl io_concurrency. specialize (Hu s).
    destruct (Z.eqb_spec (u64 (strtoll s)) 0), (Z.ltb_spec MAX_CONCURRENCY (u64 (strtoll s)));
      simpl orb; [done..|].
    intros Hk%IH. simpl in Hk. destruct Hk as (H1 & H2 & H3). split; [done|]. split; [right; lia|done]. }
  destruct (ch =? ch_colon); [done|]. destruct (ch =? ch_quest); [done|]. apply IH.
Qed.

Lemma parse_env_ok opts arg out out' :
  parse_env opts arg out = Ret (0, out') ->
  exists s out1, arg = Some s /\ parse_opts opts out = Ret (None, out1) /\
    out' = set_path out1 (strncpy_term s (Z.to_nat MAX_FILENAME_LEN))
             (cli_watch_path_len out1) (cli_watch_path_type out1).
Proof.
  unfold parse_env. destruct (parse_opts opts out) as [[[code|] out1]| | | |] eqn:Hp; try done.
  - intros [= -> ->]. exfalso. revert Hp. clear. revert out.
    induction opts as [|[ch o] opts IH]; intros out; cbn [parse_opts]; [done|].
    repeat case_match; try done; eauto.
  - destruct arg as [s|]; [|done]. intros [= <-]. eauto.
Qed.

(** ** Lemmas on the canonical path *)

(** The text [ride_stat] is meant to leave in [watch_path]. *)
Definition watch_text (ty : watch_path_type_t) (abspath : list Z) : list Z :=
  match ty with WATCH_DIRECRTORY => abspath ++ [47] | WATCH_FILE => abspath end.

Definition mode_type (mode : Z) : option watch_path_type_t :=
  if S_ISDIR mode then Some WATCH_DIRECRTORY else if S_ISREG mode then Some WATCH_FILE else None.

Lemma strncpy_term_dir abs n :
  (length abs + 1 < n)%nat ->
  arr_set (strncpy_term abs n) (Z.of_nat (length abs)) 47 = Some (strncpy_term (abs ++ [47]) n).
Proof.
  intros Hl. rewrite arr_set_in by (rewrite length_strncpy_term; lia).
  rewrite Nat2Z.id, !strncpy_term_short by (rewrite ?length_app; simpl; lia).
  f_equal. rewrite insert_app_r_alt, Nat.sub_diag by lia. simpl.
  rewrite <- app_assoc. simpl. do 2 f_equal. rewrite length_app. simpl.
  replace (n - length abs - 1)%nat with (S (n - (length abs + 1) - 1)) by lia. done.
Qed.

Lemma ride_stat_ok stat realpath a p mode ty abs :
  c_string (cli_watch_path a) = Some p ->
  stat p = Some mode -> mode_type mode = Some ty -> realpath p = Some abs ->
  Z.of_nat (length (watch_text ty abs)) < MAX_FILENAME_LEN ->
  ride_stat stat realpath a =
  Ret (0, set_path a (strncpy_term (watch_text ty abs) (Z.to_nat MAX_FILENAME_LEN))
            (Z.of_nat (length (watch_text ty abs))) ty).
Proof.
  intros Hp Hs Ht Hr Hl. unfold ride_stat. rewrite Hp, Hs. unfold mode_type in Ht. rewrite Ht, Hr.
  destruct ty; cbn [watch_text] in *.
  - destruct (Z.ltb_spec (MAX_FILENAME_LEN - 1) (Z.of_nat (length abs))); [lia|]. done.
  - rewrite length_app in *. simpl length in *.
    destruct (Z.ltb_spec (MAX_FILENAME_LEN - 1) (Z.of_nat (length abs))); [lia|].
    rewrite bool_decide_true by done.
    rewrite strncpy_term_dir by (unfold MAX_FILENAME_LEN in *; lia).
    do 3 f_equal. lia.
Qed.

(** The read-only data of the BPF program after a successful [ride_stat]. *)
Lemma load_rodata_watched env a ty abs :
  no_nul abs -> Z.of_nat (length (watch_text ty abs)) < MAX_FILENAME_LEN ->
  let ro := load_rodata env
    (set_path a (strncpy_term (watch_text ty abs) (Z.to_nat MAX_FILENAME_LEN))
       (Z.of_nat (length (watch_text ty abs))) ty) in
  rodata_wf ro /\ watched ro = watch_text ty abs /\ watch_path_type ro = ty.
Proof.
  intros Hn Hl ro. set (t := watch_text ty abs) in *.
  assert (Ht : no_nul t).
  { unfold t, watch_text. destruct ty; [done|]. apply Forall_app. by repeat constructor. }
  assert (Hwp : watch_path ro = t ++ 0 :: replicate (128 - length t - 1) 0).
  { unfold ro. simpl. unfold MAX_FILENAME_LEN in *.
    rewrite strncpy_term_short by lia. rewrite c_string_app by done.
    by rewrite strncpy_short by lia. }
  split; [|split; [|done]].
  - split; [|simpl; lia]. rewrite Hwp, length_app. simpl. rewrite length_replicate.
    unfold MAX_FILENAME_LEN in *. lia.
  - unfold watched. rewrite Hwp. simpl. by rewrite Nat2Z.id, take_app_length.
Qed.

(** ** The feeder and the processors that consume from it

    [FProduce] is one call of the ring-buffer callback on the main thread,
    [FConsume i] one [queue_consume_try] of processor [i] on its own eventfd. *)

Inductive fop : Set :=
  | FProduce (ev : event)
  | FConsume (i : nat) (out : event).

Definition run_fop {F} `{!Eventfd F} (op : fop) : M (feeder F) Z := fun s =>
  match op with
  | FProduce ev => ride_ringbuf_handle ev s
  | FConsume i out =>
      match queue_eventfd s !! i with
      | None => Ret (0, s)          (* there is no such processor *)
      | Some efd =>
          match queue_consume_try out (f_queue s, efd) with
          | Ret ((r, _), (q, efd')) =>
              Ret (r, {| f_queue := q; queue_eventfd := <[i := efd']> (queue_eventfd s);
                         efd_next := efd_next s |})
          | Exit c => Exit c
          | AssertFailed => AssertFailed
          | Undef u => Undef u
          | OutOfFuel => OutOfFuel
          end
      end
  end.

Inductive feeder_reach {F} `{!Eventfd F} (s0 : feeder F) : feeder F -> Prop :=
  | feeder_start : feeder_reach s0 s0
  | feeder_step s op r s' :
      feeder_reach s0 s -> run_fop op s = Ret (r, s') -> feeder_reach s0 s'.

Section feeder.
Context {F : Type} `{!Eventfd F, !EventfdSem F}.
Implicit Types s : feeder F.

(** The signals not yet taken, over all processors. *)
Definition tokens (l : list F) : Z := foldr (fun f n => efd_count f + n) 0 l.

(** Every queued event has its own pending signal. *)
Definition feeder_ok s : Prop :=
  queue_wf (f_queue s) /\
  Z.of_nat (length (contents (f_queue s))) <= tokens (queue_eventfd s) /\
  0 <= efd_next s.

Lemma tokens_insert (l : list F) i f f' :
  l !! i = Some f -> tokens (<[i := f']> l) = tokens l - efd_count f + efd_count f'.
Proof.
  revert i. induction l as [|x l IH]; intros [|i] Hi; simplify_eq/=; [lia|].
  rewrite (IH i Hi). lia.
Qed.

Lemma tokens_nonneg (l : list F) : 0 <= tokens l.
Proof. induction l as [|x l IH]; simpl; [lia|]. pose proof (efd_count_nonneg x). lia. Qed.

Lemma tokens_ge (l : list F) i f : l !! i = Some f -> efd_count f <= tokens l.
Proof.
  revert i. induction l as [|x l IH]; intros [|i] Hi; simplify_eq/=.
  - pose proof (tokens_nonneg l). lia.
  - pose proof (IH i Hi). pose proof (efd_count_nonneg x). lia.
Qed.

Lemma tokens_pos (l : list F) : 0 < tokens l -> exists i f, l !! i = Some f /\ 0 < efd_count f.
Proof.
  induction l as [|x l IH]; simpl; [lia|]. intros H.
  destruct (Z.lt_ge_cases 0 (efd_count x)); [by exists 0%nat, x|].
  pose proof (efd_count_nonneg x). destruct IH as (i & f & Hi & Hf); [lia|]. by exists (S i), f.
Qed.

(** The eventfd the callback signals. *)
Definition next_index s : Z := u32 (efd_next s) mod Z.of_nat (length (queue_eventfd s)).

(** What one call of the callback does, once it returns. *)
Lemma handle_inv ev s r s' :
  queue_wf (f_queue s) -> 0 <= efd_next s ->
  ride_ringbuf_handle ev s = Ret (r, s') ->
  r = 0 /\ queue_wf (f_queue s') /\
  contents (f_queue s') = snd (Fifo.add ev (contents (f_queue s))) /\
  efd_next s' = efd_next s + 1 /\
  exists f f', queue_eventfd s !! Z.to_nat (next_index s) = Some f /\
    efd_count f' = efd_count f + 1 /\
    queue_eventfd s' = <[Z.to_nat (next_index s) := f']> (queue_eventfd s).
Proof.
  intros Hwf Hn. unfold ride_ringbuf_handle.
  destruct (queue_add_refines ev _ Hwf) as (q' & -> & Hwf' & Hc).
  destruct (Z.eqb_spec (Z.of_nat (length (queue_eventfd s))) 0); [done|].
  destruct (Z.eqb_spec (efd_next s) (2 ^ 31 - 1)); [done|]. fold (next_index s).
  assert (Hr : 0 <= next_index s < Z.of_nat (length (queue_eventfd s)))
    by (apply Z.mod_pos_bound; lia).
  unfold arr_get. destruct (Z.leb_spec 0 (next_index s)); [|lia].
  destruct (queue_eventfd s !! Z.to_nat (next_index s)) as [f|] eqn:Hf; [|done].
  destruct (Z.le_gt_cases (efd_count f + 1) EFD_MAX).
  - destruct (efd_write_ok f 1) as (f' & -> & Hf'); [lia|done|]. intros [= <- <-]. simpl.
    split_and!; eauto 10.
  - by rewrite efd_write_full by lia.
Qed.

Lemma fifo_add_length ev l :
  Z.of_nat (length (snd (Fifo.add ev l))) <= Z.of_nat (length l) + 1.
Proof. unfold Fifo.add. case_match; simpl; rewrite ?length_app; simpl; lia. Qed.

Lemma run_fop_ok op s r s' : feeder_ok s -> run_fop op s = Ret (r, s') -> feeder_ok s'.
Proof.
  intros (Hwf & Hl & Hn). destruct op as [ev|i out]; cbn [run_fop].
  - intros H. destruct (handle_inv _ _ _ _ Hwf Hn H) as (_ & Hwf' & Hc & He & f & f' & Hf & Hcnt & Hq).
    split_and!; [done| |lia]. rewrite Hq, Hc, (tokens_insert _ _ _ _ Hf), Hcnt.
    pose proof (fifo_add_length ev (contents (f_queue s))). lia.
  - destruct (queue_eventfd s !! i) as [efd|] eqn:Hi; [|by intros [= _ <-]].
    destruct (queue_consume_refines out (f_queue s) efd Hwf) as (q' & efd' & -> & Hwf' & Hc & He).
    pose proof (tokens_ge _ _ _ Hi). pose proof (efd_count_nonneg efd).
    unfold Fifo.consume in *. destruct (Z.eqb_spec (efd_count efd) 0) as [Hz|Hz].
    + intros [= <- <-]. split_and!; simpl in *; [done| |done].
      rewrite Hc, (tokens_insert _ _ _ _ Hi), He. lia.
    + destruct (contents (f_queue s)) as [|e l]; intros [= <- <-];
        (split_and!; simpl in *; [done| |done]);
        rewrite Hc, (tokens_insert _ _ _ _ Hi), He; simpl; lia.
Qed.

Lemma feeder_reach_ok s0 s : feeder_ok s0 -> feeder_reach s0 s -> feeder_ok s.
Proof. intros H. induction 1; eauto using run_fop_ok. Qed.
End feeder.

(** ** Lemmas on [ride_run] *)

(** The threads that are created: those for which [pthread_create] succeeds. *)
Definition thread_created (env : run_env) (i : nat) : Prop := te_create (env_thread env i) = true.

#[export] Instance thread_created_dec env i : Decision (thread_created env i).
Proof. unfold thread_created. apply _. Defined.

Lemma filter_every {A} (P : A -> Prop) `{!forall x, Decision (P x)} (l : list A) : (forall x, x ∈ l -> P x) -> filter P l = l.
Proof.
  induction l as [|x l IH]; intros Hl; [done|]. rewrite filter_cons_True by (apply Hl; by left).
  f_equal. apply IH. intros y Hy. apply Hl. by right.
Qed.

Lemma create_threads_all env args n i ts :
  create_threads env args n i = inl ts -> ts = thread_args env args <$> filter (thread_created env) (seq i n).
Proof.
  revert i ts. induction n as [|n IH]; intros i ts; cbn [create_threads seq]; [by intros [= <-]|].
  destruct (negb _); [done|]. destruct (_ =? _); [done|].
  destruct (create_threads env args n (S i)) as [l|l] eqn:E; [|done]. intros [= <-]. rewrite (IH _ _ E).
  rewrite filter_cons. destruct (decide (thread_created env i)) as [Hc|Hc]; unfold thread_created in Hc; [by rewrite Hc|].
  apply not_true_is_false in Hc. by rewrite Hc.
Qed.

(** An early return leaves threads with the same settings. *)
Lemma create_threads_some env args n i :
  let l := match create_threads env args n i with inl l => l | inr l => l end in
  Forall (fun a => pa_io_concurrency a = io_concurrency args) l.
Proof.
  revert i. induction n as [|n IH]; intros i; cbn [create_threads]; [done|].
  destruct (negb _); [done|]. destruct (_ =? _); [done|]. specialize (IH (S i)). cbv zeta in IH.
  destruct (create_threads env args n (S i)) as [l|l]; apply Forall_app; (split; [|done]);
    destruct (te_create _); by repeat constructor.
Qed.

(** The settings a run starts with, once parsing and [ride_stat] succeeded. *)
Lemma ride_run_args env code args code' args' :
  parse_env (env_opts env) (env_arg env) (default_args env) = Ret (code, args) -> code = 0 ->
  ride_stat (env_stat env) (env_realpath env) args = Ret (code', args') ->
  (threads args' = u64 (DEFAULT_THREADS (env_nproc env)) \/ 1 <= threads args' <= MAX_THREADS) /\
  1 <= io_concurrency args' <= MAX_CONCURRENCY.
Proof.
  intros Hp -> Hs.
  destruct (parse_env_ok _ _ _ _ Hp) as (s & out1 & _ & Ho & ->).
  destruct (parse_opts_ok _ _ _ Ho) as (H1 & H2 & _). simpl in H1, H2.
  assert (Ht : threads args' = threads out1 /\ io_concurrency args' = io_concurrency out1).
  { unfold ride_stat in Hs. repeat case_match; simplify_eq; done. }
  destruct Ht as [-> ->]. split; [done|]. destruct H2 as [->|]; [|done].
  unfold DEFAULT_IO_CONCURRENCY, MAX_CONCURRENCY, MAX_CONCURRENT_TASKS. lia.
Qed.

(** The settings of a run: what the command line and [ride_stat] leave. *)
Definition settings (env : run_env) (args : ride_cli_args) : Prop :=
  exists args0, parse_env (env_opts env) (env_arg env) (default_args env) = Ret (0, args0) /\
    ride_stat (env_stat env) (env_realpath env) args0 = Ret (0, args).

(** A set-up that succeeds. *)
Lemma ride_setup_ok env args ro ts :
  ride_setup env = Ret (inr (args, ro, ts)) ->
  settings env args /\ threads args <> 0 /\ create_threads env args (Z.to_nat (threads args)) 0 = inl ts.
Proof.
  unfold ride_setup. destruct (parse_env _ _ _) as [[code args0]| | | |] eqn:Hp; [|done..].
  destruct (Z.eqb_spec code 0) as [->|]; [|done]. cbn [negb].
  destruct (ride_stat _ _ args0) as [[code' args']| | | |] eqn:Hs; [|done..].
  destruct (Z.eqb_spec code' 0) as [->|]; [|done]. cbn [negb].
  destruct (negb (_ && _)); [done|]. destruct (_ =? -1); [done|]. destruct (negb (env_bpf_open env)); [done|].
  destruct (negb (env_bpf_load env =? 0)); [done|]. destruct (Z.eqb_spec (threads args') 0) as [|Ht]; [done|].
  destruct (negb (env_malloc_efds env)); [done|]. destruct (create_threads _ _ _ _) as [l|l] eqn:Hc; [|done].
  destruct (negb _); [done|]. intros [= <- <- <-]. split_and!; [by exists args0|done|done].
Qed.

(** One that does not returns [EXIT_FAILURE]. *)
Lemma ride_setup_stop env r :
  ride_setup env = Ret (inl r) ->
  run_status r = Returned EXIT_FAILURE /\ Forall (fun a => 1 <= pa_io_concurrency a <= MAX_CONCURRENCY) (run_threads r).
Proof.
  unfold ride_setup. destruct (parse_env _ _ _) as [[code args0]| | | |] eqn:Hp; [|done..].
  destruct (Z.eqb_spec code 0) as [->|]; [|by intros [= <-]]. cbn [negb].
  destruct (ride_stat _ _ args0) as [[code' args']| | | |] eqn:Hs; [|done..].
  destruct (ride_run_args env _ _ _ _ Hp eq_refl Hs) as [_ Hio].
  pose proof (create_threads_some env args' (Z.to_nat (threads args')) 0) as Hall. cbv zeta in Hall.
  assert (Hts : forall l, Forall (fun a => pa_io_concurrency a = io_concurrency args') l ->
    Forall (fun a => 1 <= pa_io_concurrency a <= MAX_CONCURRENCY) l).
  { intros l Hl. eapply Forall_impl; [exact Hl|]. intros a ->. exact Hio. }
  destruct (negb (code' =? 0)); [by intros [= <-]|]. destruct (negb (_ && _)); [done|].
  destruct (_ =? -1); [by intros [= <-]|]. destruct (negb (env_bpf_open env)); [by intros [= <-]|].
  destruct (negb (env_bpf_load env =? 0)); [by intros [= <-]|]. destruct (threads args' =? 0); [done|].
  destruct (negb (env_malloc_efds env)); [by intros [= <-]|].
  destruct (create_threads _ _ _ _) as [l|l]; [destruct (negb _); [|done]|]; intros [= <-]; (split; [done|by apply Hts]).
Qed.

(** What the loops leave of the set-up. *)
Lemma ride_loop_result env args ro ts r :
  ride_loop env args ro ts = Ret r ->
  run_rodata r = Some ro /\ run_threads r = ts /\
  (run_status r = Returned EXIT_SUCCESS -> join_threads env (Z.to_nat (threads args)) 0 = Ret true).
Proof. unfold ride_loop. repeat case_match; intros; simplify_eq; done. Qed.

(** Without [-t] the number of threads is the default. *)
Lemma parse_opts_threads opts out out' :
  Forall (fun o => fst o <> ch_t) opts -> parse_opts opts out = Ret (None, out') -> threads out' = threads out.
Proof.
  intros Ho. revert out. induction Ho as [|[ch optarg] opts Hc _ IH]; intros out; cbn [parse_opts]; [by intros [= <-]|].
  cbn in Hc. rewrite (proj2 (Z.eqb_neq ch ch_t)) by done.
  repeat case_match; try done; by intros ->%IH.
Qed.

Lemma default_threads_pos nproc : 2 <= nproc < 2 ^ 63 -> 1 <= u64 (DEFAULT_THREADS nproc).
Proof.
  intros. unfold DEFAULT_THREADS. destruct (Z.ltb_spec nproc 1); [lia|].
  rewrite Z.quot_div_nonneg by lia. rewrite u64_small; [|]; Z.div_mod_to_equations; lia.
Qed.

(** ** Properties *)

Section feeder_properties.
Context {F : Type} `{!Eventfd F, !EventfdSem F}.

(** No event is stranded: in every state reached from start-up by any
    interleaving of the ring-buffer callback and of consumption by any of the
    processors, a non-empty queue leaves at least one processor's eventfd
    signalled, and that processor's next [queue_consume_try] takes the oldest
    event. *)
Theorem no_event_stranded (efds : list F) s out :
  feeder_reach {| f_queue := queue_static; queue_eventfd := efds; efd_next := 0 |} s ->
  contents (f_queue s) <> [] ->
  exists i efd e l s', queue_eventfd s !! i = Some efd /\ 0 < efd_count efd /\
    contents (f_queue s) = e :: l /\
    run_fop (FConsume i out) s = Ret (0, s') /\ contents (f_queue s') = l.
Proof.
  intros Hreach Hne. apply feeder_reach_ok in Hreach as (Hwf & Hl & _).
  - destruct (contents (f_queue s)) as [|e l] eqn:Hc; [done|]. simpl in Hl.
    destruct (tokens_pos (queue_eventfd s)) as (i & efd & Hi & Hpos); [lia|].
    destruct (queue_consume_refines out _ efd Hwf) as (q' & efd' & Hcons & _ & Hc' & _).
    rewrite Hc in Hcons, Hc'. unfold Fifo.consume in Hcons, Hc'.
    destruct (Z.eqb_spec (efd_count efd) 0); [lia|]. cbn [fst snd] in Hcons, Hc'.
    exists i, efd, e, l. eexists. split_and!; [done..| |].
    + cbn [run_fop]. rewrite Hi, Hcons. reflexivity.
    + done.
  - split_and!; simpl; [|apply tokens_nonneg|lia].
    split; [by vm_compute|split; by vm_compute].
Qed.

(** The callback on every branch: with at least one processor and the
    counters below their limits it returns 0, adds the event unless the queue
    holds 8191 events, and signals exactly the eventfd whose turn it is, also
    when the event was dropped. *)
Theorem ride_ringbuf_handle_spec ev (s : feeder F) :
  queue_wf (f_queue s) -> 0 <= efd_next s < 2 ^ 31 - 1 ->
  queue_eventfd s <> [] -> Forall (fun f => efd_count f < EFD_MAX) (queue_eventfd s) ->
  exists s' f f', ride_ringbuf_handle ev s = Ret (0, s') /\
    contents (f_queue s') = snd (Fifo.add ev (contents (f_queue s))) /\
    let i := Z.to_nat (efd_next s mod Z.of_nat (length (queue_eventfd s))) in
    queue_eventfd s !! i = Some f /\ efd_count f' = efd_count f + 1 /\
    queue_eventfd s' = <[i := f']> (queue_eventfd s).
Proof.
  intros Hwf Hn Hne Hf.
  assert (Hlen : 0 < Z.of_nat (length (queue_eventfd s))) by (destruct (queue_eventfd s); simpl; [done|lia]).
  assert (Hi : next_index s = efd_next s mod Z.of_nat (length (queue_eventfd s)))
    by (unfold next_index; rewrite u32_small by lia; done).
  assert (Hret : exists r s', ride_ringbuf_handle ev s = Ret (r, s')).
  { unfold ride_ringbuf_handle. destruct (queue_add_refines ev _ Hwf) as (q' & -> & _).
    destruct (Z.eqb_spec (Z.of_nat (length (queue_eventfd s))) 0); [lia|].
    destruct (Z.eqb_spec (efd_next s) (2 ^ 31 - 1)); [lia|]. fold (next_index s). rewrite Hi.
    pose proof (Z.mod_pos_bound (efd_next s) _ Hlen) as Hb.
    destruct (lookup_lt_is_Some_2 (queue_eventfd s)
      (Z.to_nat (efd_next s mod Z.of_nat (length (queue_eventfd s))))) as [f Hfl]; [lia|].
    unfold arr_get. destruct (Z.leb_spec 0 (efd_next s mod Z.of_nat (length (queue_eventfd s)))); [|lia].
    rewrite Hfl. pose proof (Forall_lookup_1 _ _ _ _ Hf Hfl) as Hm. simpl in Hm.
    destruct (efd_write_ok f 1) as (f' & -> & _); [lia|lia|]. eauto. }
  destruct Hret as (r & s' & Hr).
  destruct (handle_inv ev s r s' Hwf ltac:(lia) Hr) as (-> & _ & Hc & _ & f & f' & H1 & H2 & H3).
  rewrite Hi in H1, H3. eauto 10.
Qed.
End feeder_properties.

(** Without a thread the first event makes the ring-buffer callback divide by
    zero. *)
Lemma no_threads_divides_by_zero {F} `{!Eventfd F} ev (q : queue) :
  queue_wf q ->
  ride_ringbuf_handle ev {| f_queue := q; queue_eventfd := [] : list F; efd_next := 0 |} = Undef DivisionByZero.
Proof.
  intros Hwf. unfold ride_ringbuf_handle. cbn [f_queue].
  by destruct (queue_add_refines ev q Hwf) as (q' & -> & _).
Qed.

(** C36. On a machine with one processor the program does not work without the
    option [-t]: the default is half the number of processors, so that every run
    that gets past its command line, the watched path and the loading of the BPF
    program has an array of no threads, which has no defined behaviour. *)
Theorem single_cpu_no_threads env args args' :
  env_nproc env = 1 -> Forall (fun o => fst o <> ch_t) (env_opts env) ->
  parse_env (env_opts env) (env_arg env) (default_args env) = Ret (0, args) ->
  ride_stat (env_stat env) (env_realpath env) args = Ret (0, args') ->
  is_Some (c_string (cli_watch_path args')) ->
  env_quit_efd env <> -1 -> env_bpf_open env = true -> env_bpf_load env = 0 ->
  ride_run env = Undef ZeroLengthArray.
Proof.
  intros Hn Ht Hp Hs Hw Hq Ho Hl. unfold ride_run, ride_setup. rewrite Hp. cbn [Z.eqb negb]. rewrite Hs. cbn [Z.eqb negb].
  destruct (parse_env_ok _ _ _ _ Hp) as (s & out1 & _ & Hopt & ->).
  destruct (parse_opts_ok _ _ _ Hopt) as (_ & _ & Halg).
  assert (Hsame : threads args' = threads out1 /\ fingerprint_alg args' = fingerprint_alg out1).
  { unfold ride_stat in Hs. repeat case_match; simplify_eq; done. }
  destruct Hsame as [Eth Efp]. unfold is_terminated. rewrite !bool_decide_true; [|rewrite Efp; apply Halg; by eexists|done].
  cbn [andb negb]. rewrite (proj2 (Z.eqb_neq _ _) Hq), Ho, Hl. cbn [Z.eqb negb].
  rewrite Eth, (parse_opts_threads _ _ _ Ht Hopt). unfold default_args. cbn [threads]. by rewrite Hn.
Qed.

(** C25. Option parsing: when [parse_env] succeeds, a thread count given with
    [-t] is between 1 and 20 and a concurrency given with [-c] between 1 and
    256 (as [strtoll] reads them, wrapped to [size_t]); the watched path is the
    argument cut to 127 bytes, in a NUL-terminated array of 128. *)
Theorem parse_env_bounds opts s out out' :
  no_nul s -> parse_env opts (Some s) out = Ret (0, out') ->
  (threads out' = threads out \/ 1 <= threads out' <= MAX_THREADS) /\
  (io_concurrency out' = io_concurrency out \/ 1 <= io_concurrency out' <= MAX_CONCURRENCY) /\
  length (cli_watch_path out') = Z.to_nat MAX_FILENAME_LEN /\
  c_string (cli_watch_path out') = Some (take 127 s).
Proof.
  intros Hn Hp. destruct (parse_env_ok _ _ _ _ Hp) as (s' & out1 & [= <-] & Ho & ->).
  destruct (parse_opts_ok _ _ _ Ho) as (H1 & H2 & _). simpl. rewrite length_strncpy_term.
  split_and!; [done..|]. change (Z.to_nat MAX_FILENAME_LEN) with 128%nat.
  destruct (Nat.lt_ge_cases (length s) 128) as [Hl|Hl].
  - rewrite strncpy_term_short, c_string_app by done. by rewrite take_ge by lia.
  - unfold strncpy_term. rewrite strncpy_long by lia.
    replace 128%nat with (127 + 1)%nat at 2 by lia. rewrite <- take_take_drop.
    change (128 - 1)%nat with 127%nat.
    rewrite insert_app_r_alt by (rewrite length_take; lia).
    rewrite length_take, (Nat.min_l 127) by lia. rewrite Nat.sub_diag.
    destruct (drop 127 s) as [|c k] eqn:Hd; [apply (f_equal length) in Hd; rewrite length_drop in Hd; simpl in Hd; lia|].
    simpl. apply c_string_app. by apply Forall_take.
Qed.

(** C22. End to end from the command line to the BPF filter: when the watched
    argument names a regular file or a directory whose canonical path (with the
    [/] added to directories) has at most 127 bytes, [ride_stat] succeeds and
    the data loaded into the BPF program selects exactly the watched file, or
    exactly the paths under the directory. *)
Theorem watch_path_reaches_bpf env stat realpath a p mode ty abs q :
  c_string (cli_watch_path a) = Some p ->
  stat p = Some mode -> mode_type mode = Some ty ->
  realpath p = Some abs -> no_nul abs ->
  Z.of_nat (length (watch_text ty abs)) < MAX_FILENAME_LEN ->
  exists a', ride_stat stat realpath a = Ret (0, a') /\
    rodata_wf (load_rodata env a') /\
    (matches_watch (load_rodata env a') q <->
     match ty with
     | WATCH_FILE => q = abs
     | WATCH_DIRECRTORY => abs ++ [47] `prefix_of` q
     end).
Proof.
  intros Hp Hs Ht Hr Hn Hl. eexists. split; [by eapply ride_stat_ok|].
  destruct (load_rodata_watched env a ty abs Hn Hl) as (Hwf & Hw & Hty).
  split; [done|]. unfold matches_watch. rewrite Hty, Hw. by destruct ty.
Qed.

(** C37. A directory whose canonical path has exactly 127 bytes is only warned
    about: [ride_stat] succeeds and writes the [/] over the terminator, so the
    array is not a C string any more, and every run of the program on such a
    directory has no defined behaviour when it prints its settings. *)
Theorem long_directory_unterminated env args p mode abs :
  parse_env (env_opts env) (env_arg env) (default_args env) = Ret (0, args) ->
  c_string (cli_watch_path args) = Some p ->
  env_stat env p = Some mode -> mode_type mode = Some WATCH_DIRECRTORY ->
  env_realpath env p = Some abs -> no_nul abs -> length abs = 127%nat ->
  (exists args', ride_stat (env_stat env) (env_realpath env) args = Ret (0, args') /\
    cli_watch_path_len args' = 128 /\ c_string (cli_watch_path args') = None) /\
  ride_run env = Undef OutOfBounds.
Proof.
  intros Hparse Hp Hs Ht Hr Hn Hl.
  assert (Hst : exists args', ride_stat (env_stat env) (env_realpath env) args = Ret (0, args') /\
    cli_watch_path_len args' = 128 /\ c_string (cli_watch_path args') = None).
  { unfold ride_stat. rewrite Hp, Hs. unfold mode_type in Ht.
    rewrite Ht, Hr. rewrite Hl. change (Z.of_nat 127) with 127.
    change (MAX_FILENAME_LEN - 1 <? 127) with false. cbn iota.
    rewrite bool_decide_true by done.
    rewrite arr_set_in by (rewrite length_strncpy_term; done).
    rewrite strncpy_term_short by (rewrite Hl; unfold MAX_FILENAME_LEN; lia). rewrite Hl.
    eexists. split; [reflexivity|]. split; [reflexivity|]. cbn [cli_watch_path set_path].
    replace (Z.to_nat 127) with (length abs + 0)%nat by lia. rewrite insert_app_r. simpl.
    apply c_string_none. apply Forall_app. split; [done|]. by repeat constructor. }
  split; [exact Hst|]. destruct Hst as (args' & Hst & _ & Hnone).
  unfold ride_run, ride_setup. rewrite Hparse. cbn [Z.eqb negb]. rewrite Hst. cbn [Z.eqb negb].
  unfold is_terminated. rewrite Hnone. by rewrite bool_decide_false by (by intros [? ?]).
Qed.

(** C26. The threads of a run: a run that gets to its main loop, whether it is
    still polling or waits for its threads, has created exactly one thread for
    each index below the number its settings ask for, in order, but for those
    [pthread_create] failed for; with the settings of the command line, the
    eventfd of its own index and a concurrency between 1 and 256. The settings
    ask for 1 to 20 threads, or for half the number of processors, and never for
    none. Every thread of a run that stops earlier has a concurrency in these
    bounds as well. *)
Theorem ride_run_threads env r :
  ride_run env = Ret r ->
  Forall (fun a => 1 <= pa_io_concurrency a <= MAX_CONCURRENCY) (run_threads r) /\
  (run_status r = StillPolling \/ run_status r = BlockedInJoin ->
   exists args, settings env args /\
     (threads args = u64 (DEFAULT_THREADS (env_nproc env)) /\ threads args <> 0 \/ 1 <= threads args <= MAX_THREADS) /\
     run_threads r = thread_args env args <$> filter (thread_created env) (seq 0 (Z.to_nat (threads args))) /\
     ((forall i, (i < Z.to_nat (threads args))%nat -> thread_created env i) -> length (run_threads r) = Z.to_nat (threads args))).
Proof.
  unfold ride_run. destruct (ride_setup env) as [[r0|[[args ro] ts]]| | | |] eqn:Hset; [..|done|done|done|done].
  { intros [= <-]. destruct (ride_setup_stop _ _ Hset) as [-> Hf]. split; [exact Hf|by intros [?|?]]. }
  intros (_ & Ets & _)%ride_loop_result. destruct (ride_setup_ok _ _ _ _ Hset) as (Hsett & Hnz & Hc).
  pose proof Hsett as (args0 & Hp & Hs). destruct (ride_run_args env _ _ _ _ Hp eq_refl Hs) as [Hth Hio].
  pose proof (create_threads_some env args (Z.to_nat (threads args)) 0) as Hall. cbv zeta in Hall. rewrite Hc in Hall.
  rewrite Ets. split; [eapply Forall_impl; [exact Hall|]; intros a ->; exact Hio|]. intros _.
  exists args. split; [done|]. split; [destruct Hth; [by left|by right]|].
  rewrite (create_threads_all _ _ _ _ _ Hc). split; [done|]. intros Hcr. rewrite length_fmap.
  rewrite filter_every, length_seq; [done|]. intros i Hi%elem_of_seq. apply Hcr. lia.
Qed.

(** A signal ends the main loop. *)
Lemma signal_ends_loop polls err k signals r :
  polls !! k = Some (signals, r) -> signals <> [] -> exists e, poll_loop true polls 0 err = Ret (Some e).
Proof.
  assert (Hh : forall l q, l <> [] -> foldl ride_sig_handler q l = 1).
  { intros l. induction l as [|x l IH]; intros q Hl; [done|]. cbn. destruct l; [done|by apply IH]. }
  revert k err. induction polls as [|[sg r'] polls IH]; intros k err Hk Hs; [done|]. cbn.
  destruct sg as [|x sg]; [|rewrite Hh by done; by eexists]. cbn.
  destruct ((r' <? 0) && _); [by eexists|]. destruct k as [|k]; [by injection Hk as <- _|]. by apply (IH k).
Qed.

(** Threads that do not finish keep the program from ending: it never returns
    [EXIT_SUCCESS], and after a signal it waits for ever. *)
Lemma ride_run_waits env :
  (forall i, env_join env i = false) ->
  (forall r, ride_run env = Ret r -> run_status r <> Returned EXIT_SUCCESS) /\
  forall args ro ts k signals res,
    ride_setup env = Ret (inr (args, ro, ts)) -> env_rb env = true -> thread_created env 0 ->
    env_polls env !! k = Some (signals, res) -> signals <> [] -> env_quit_write_fails env = false ->
    ride_run env = Ret {| run_status := BlockedInJoin; run_rodata := Some ro; run_threads := ts |}.
Proof.
  intros Hj. assert (Hjoin : forall args ro ts, ride_setup env = Ret (inr (args, ro, ts)) ->
    join_threads env (Z.to_nat (threads args)) 0 <> Ret true /\
    (thread_created env 0 -> join_threads env (Z.to_nat (threads args)) 0 = Ret false)).
  { intros args ro ts Hset. destruct (ride_setup_ok _ _ _ _ Hset) as ((args0 & Hp & Hs) & Hnz & _).
    destruct (ride_run_args env _ _ _ _ Hp eq_refl Hs) as [Hth _].
    assert (0 <= threads args) by (destruct Hth as [->|]; [apply u64_range|lia]).
    destruct (Z.to_nat (threads args)) as [|n] eqn:E; [lia|]. cbn. rewrite Hj. unfold thread_created.
    by destruct (te_create _). }
  split.
  - intros r. unfold ride_run. destruct (ride_setup env) as [[r0|[[args ro] ts]]| | | |] eqn:Hset; [..|done|done|done|done].
    + intros [= <-]. by destruct (ride_setup_stop _ _ Hset) as [-> _].
    + intros (_ & _ & Hx)%ride_loop_result Hr. by destruct (Hjoin _ _ _ eq_refl) as [Hno _], Hno, Hx.
  - intros args ro ts k signals res Hset Hrb Hcr Hk Hsg Hw. unfold ride_run. rewrite Hset. unfold ride_loop.
    rewrite Hrb. destruct (signal_ends_loop _ 0 _ _ _ Hk Hsg) as [e ->]. rewrite Hw.
    by rewrite (proj2 (Hjoin _ _ _ Hset) Hcr).
Qed.

(** ** Witnesses *)

Lemma queue_static_wf : queue_wf queue_static.
Proof. split; [by vm_compute|split; by vm_compute]. Qed.

Definition feeder0 : feeder N :=
  {| f_queue := queue_static; queue_eventfd := [0%N; 0%N]; efd_next := 0 |}.

Lemma ride_ringbuf_handle_spec_witness :
  exists s' f f', ride_ringbuf_handle ev_a feeder0 = Ret (0, s') /\
    contents (f_queue s') = [ev_a] /\
    queue_eventfd feeder0 !! 0%nat = Some f /\ efd_count f' = efd_count f + 1 /\
    queue_eventfd s' = <[0%nat := f']> (queue_eventfd feeder0).
Proof.
  destruct (ride_ringbuf_handle_spec ev_a feeder0 queue_static_wf) as (s' & f & f' & H).
  - simpl. lia.
  - discriminate.
  - repeat constructor.
  - exists s', f, f'. destruct H as (H1 & H2 & H3 & H4 & H5). auto.
Defined.

(** A state with one queued event, reached by one callback. *)
Lemma no_event_stranded_witness :
  exists s i efd e l s', queue_eventfd s !! i = Some efd /\ 0 < efd_count efd /\
    contents (f_queue s) = e :: l /\
    run_fop (FConsume i event_zero) s = Ret (0, s') /\ contents (f_queue s') = l.
Proof.
  destruct (ride_ringbuf_handle_spec ev_a feeder0 queue_static_wf) as (s1 & f & f' & H1 & H2 & _);
    [simpl; lia|discriminate|repeat constructor|].
  exists s1. apply (no_event_stranded [0%N; 0%N] s1 event_zero).
  - apply (feeder_step _ feeder0 (FProduce ev_a) 0 s1); [constructor|exact H1].
  - rewrite H2. discriminate.
Defined.

(** [ride -t 4 -c 0x10 /t]. *)
Definition env_ok : run_env :=
  {| env_nproc := 8; env_opts := [(ch_t, Some [52]); (ch_c, Some [48; 120; 49; 48])];
     env_arg := Some [47; 116];
     env_stat := fun _ => Some 16877; env_realpath := fun p => Some p;
     env_quit_efd := 3; env_bpf_open := true; env_getpid := 77; env_bpf_load := 0;
     env_rb := true; env_malloc_efds := true; env_thread := fun i => ThreadEnv true (10 + Z.of_nat i) true;
     env_bpf_attach := 0; env_polls := [([], 1); ([15], 0)];
     env_quit_write_fails := false; env_join := fun _ => false |}.

Lemma parse_env_bounds_witness :
  exists out', parse_env (env_opts env_ok) (Some [47; 116]) (default_args env_ok) = Ret (0, out') /\
    threads out' = 4 /\ io_concurrency out' = 16 /\
    c_string (cli_watch_path out') = Some [47; 116].
Proof.
  destruct (parse_env (env_opts env_ok) (Some [47; 116]) (default_args env_ok))
    as [[code out']| | | |] eqn:H; [|exfalso; revert H; vm_compute; discriminate..].
  assert (Hf : code = 0 /\ threads out' = 4 /\ io_concurrency out' = 16).
  { revert H. vm_compute. intros [= <- <-]. auto. }
  destruct Hf as (-> & H4 & H16). exists out'. split; [reflexivity|].
  split; [exact H4|]. split; [exact H16|].
  apply (parse_env_bounds (env_opts env_ok) [47; 116] (default_args env_ok) out'); [|exact H].
  repeat constructor; discriminate.
Defined.

Lemma watch_path_reaches_bpf_witness :
  exists a', ride_stat (fun _ => Some 16877) (fun p => Some p)
    (set_path (default_args env_ok) (strncpy_term [47; 116] 128) 0 WATCH_FILE) = Ret (0, a') /\
    rodata_wf (load_rodata env_ok a') /\
    (matches_watch (load_rodata env_ok a') [47; 116; 47; 97] <->
     [47; 116] ++ [47] `prefix_of` [47; 116; 47; 97]).
Proof.
  apply (watch_path_reaches_bpf env_ok (fun _ => Some 16877) (fun p => Some p)
    (set_path (default_args env_ok) (strncpy_term [47; 116] 128) 0 WATCH_FILE)
    [47; 116] 16877 WATCH_DIRECRTORY [47; 116] [47; 116; 47; 97]); try reflexivity.
  repeat constructor; discriminate.
Defined.

(** [ride /t] where "/t" leads to a directory with a long path. *)
Definition env_long : run_env :=
  {| env_nproc := 8; env_opts := []; env_arg := Some [47; 116];
     env_stat := fun _ => Some 16877; env_realpath := fun _ => Some (replicate 127 97);
     env_quit_efd := 3; env_bpf_open := true; env_getpid := 77; env_bpf_load := 0;
     env_rb := true; env_malloc_efds := true; env_thread := fun i => ThreadEnv true (10 + Z.of_nat i) true;
     env_bpf_attach := 0; env_polls := []; env_quit_write_fails := false; env_join := fun _ => false |}.

Lemma long_directory_unterminated_witness : ride_run env_long = Undef OutOfBounds.
Proof.
  destruct (parse_env (env_opts env_long) (env_arg env_long) (default_args env_long)) as [[code args]| | | |] eqn:H;
    [|exfalso; revert H; vm_compute; discriminate..].
  assert (Hf : code = 0 /\ c_string (cli_watch_path args) = Some [47; 116]).
  { revert H. vm_compute. intros [= <- <-]. auto. }
  destruct Hf as [-> Hp].
  apply (long_directory_unterminated env_long args [47; 116] 16877 (replicate 127 97) H Hp); try reflexivity.
  apply Forall_replicate. discriminate.
Defined.

(** [ride /t] on a machine with one processor. *)
Definition env_single : run_env :=
  {| env_nproc := 1; env_opts := []; env_arg := Some [47; 116];
     env_stat := fun _ => Some 16877; env_realpath := fun p => Some p;
     env_quit_efd := 3; env_bpf_open := true; env_getpid := 77; env_bpf_load := 0;
     env_rb := true; env_malloc_efds := true; env_thread := fun i => ThreadEnv true (10 + Z.of_nat i) true;
     env_bpf_attach := 0; env_polls := []; env_quit_write_fails := false; env_join := fun _ => false |}.

Lemma single_cpu_no_threads_witness : ride_run env_single = Undef ZeroLengthArray.
Proof.
  destruct (parse_env (env_opts env_single) (env_arg env_single) (default_args env_single)) as [[code args]| | | |] eqn:H;
    [|exfalso; revert H; vm_compute; discriminate..].
  destruct (ride_stat (env_stat env_single) (env_realpath env_single) args) as [[code' args']| | | |] eqn:H';
    [|exfalso; revert H H'; vm_compute; intros [= <- <-]; discriminate..].
  assert (Hf : code = 0 /\ code' = 0 /\ c_string (cli_watch_path args') = Some [47; 116; 47]).
  { revert H H'. vm_compute. intros [= <- <-] [= <- <-]. auto. }
  destruct Hf as (-> & -> & Hp).
  apply (single_cpu_no_threads env_single args args'); [reflexivity|constructor|exact H|exact H'| |discriminate|reflexivity..].
  rewrite Hp. by eexists.
Defined.

Lemma ride_run_threads_witness :
  exists r args, ride_run env_ok = Ret r /\ settings env_ok args /\ length (run_threads r) = 4%nat /\
    run_threads r = thread_args env_ok args <$> [0; 1; 2; 3]%nat.
Proof.
  destruct (ride_run env_ok) as [r| | | |] eqn:H; [|exfalso; revert H; vm_compute; discriminate..].
  assert (Hs : run_status r = BlockedInJoin /\ length (run_threads r) = 4%nat).
  { revert H. vm_compute. intros [= <-]. split; reflexivity. }
  destruct (ride_run_threads env_ok r H) as [_ Ht]. destruct Ht as (args & Hset & _ & Hts & Hlen); [right; apply Hs|].
  exists r, args. split; [reflexivity|]. split; [exact Hset|]. split; [apply Hs|].
  destruct Hs as [_ Hn]. rewrite Hlen in Hn by done. rewrite Hn in Hts. exact Hts.
Defined.
