(* ===== verification/KernelHook.v ===== *)
(** * The hook on kernel memory, and its event as bytes

    The hook of src/ride.bpf.c again, now as loads from kernel memory at the
    offsets of the kernel's structures: it refines the hook of [Bpf], which
    works on records. The accesses are relocated when the program is loaded: the
    layout is that of the declarations of the running kernel, which may differ
    from those of src/vmlinux.h. The second part is the event record (src/ride.h)
    in the ring buffer, which the hook writes and the main thread casts. *)

From stdpp Require Import base numbers list list_numbers strings gmap.
From Stdlib Require Import ZArith Lia.
From S2P Require Import Prelude CStr Queue Bpf Ride CTypes CMem Vmlinux.

Open Scope Z_scope.

Definition of_outcome {S A} (o : outcome A) : M S A := fun s =>
  match o with
  | Ret a => Ret (a, s)
  | Exit c => Exit c
  | AssertFailed => AssertFailed
  | Undef u => Undef u
  | OutOfFuel => OutOfFuel
  end.

Section hook.
Context (Γ : env).

(** [p->n] for [p] a pointer to a structure, as an unsigned integer. *)
Definition read_member (tag n : string) (a : Z) : M mem Z := fun m =>
  match load_member Γ m a tag n with
  | Some bs => Ret (le_value bs, m)
  | None => Undef BadPointer
  end.

(** [fs_flags] is an [int]. *)
Definition fs_requires_dev_raw (sb : Z) : M mem bool :=
  t ← read_member "super_block" "s_type" sb;
  if t =? 0 then mret false
  else
    fl ← read_member "file_system_type" "fs_flags" t;
    mret (negb (Z.land (s32 fl) FS_REQUIRES_DEV =? 0)).

(** [bpf_path_d_path] gets the address of the member [f_path]. *)
Definition ride_raw (ro : rodata) (pid_tgid : Z) (file : Z) (reserve : option event)
    (d_path : Z -> list Z -> Z * list Z) : M mem (Z * list rb_op) :=
  if Z.shiftr pid_tgid 32 =? u64 (userspace_pid ro) then mret (0, [])
  else
    inode ← read_member "file" "f_inode" file;
    mode ← read_member "inode" "i_mode" inode;
    if negb (S_ISREG mode) then mret (0, [])
    else
      sb ← read_member "inode" "i_sb" inode;
      dev ← fs_requires_dev_raw sb;
      if negb dev then mret (0, [])
      else
        match member_extent Γ "file" "f_path" with
        | None => undef BadPointer
        | Some (o, _) => of_outcome (ride_report ro reserve (d_path (file + Z.of_nat o)))
        end.

(** A pointer to an object of this type with these members. *)
Definition points_to (m : mem) (a : Z) (tag : string) (vals : list (string * list Z)) : Prop :=
  0 < a < 2 ^ 64 /\ object_at Γ m a tag vals.

(** The structures of an open file, at their addresses in kernel memory. *)
Definition kernel_file (m : mem) (fa : Z) (f : file) : Prop :=
  exists ia sa ta,
    points_to m fa "file" [("f_inode", le_bytes 8 ia)] /\
    points_to m ia "inode" [("i_mode", le_bytes 2 (i_mode (f_inode f))); ("i_sb", le_bytes 8 sa)] /\
    points_to m sa "super_block" [("s_type", le_bytes 8 ta)] /\
    0 <= i_mode (f_inode f) < 2 ^ 16 /\
    match s_type (i_sb (f_inode f)) with
    | None => ta = 0
    | Some t => points_to m ta "file_system_type" [("fs_flags", le_bytes 4 (fs_flags t))] /\
                - 2 ^ 31 <= fs_flags t < 2 ^ 31
    end.

(** ** Lemmas *)

Lemma read_member_at m a tag vals n k v :
  env_wf Γ -> points_to m a tag vals -> all_apart Γ tag vals.*1 = true ->
  (n, le_bytes k v) ∈ vals -> read_member tag n a m = Ret (v mod 256 ^ Z.of_nat k, m).
Proof.
  intros HΓ [_ Ho] Ha Hin. unfold read_member. erewrite load_member_object by done.
  by rewrite le_value_bytes.
Qed.

(** The first of the members. *)
Lemma read_member_hd m a tag n k v vals :
  env_wf Γ -> points_to m a tag ((n, le_bytes k v) :: vals) ->
  all_apart Γ tag (n :: vals.*1) = true -> 0 <= v < 256 ^ Z.of_nat k ->
  read_member tag n a m = Ret (v, m).
Proof.
  intros HΓ Ho Ha Hv. erewrite read_member_at; [|done|exact Ho|done|by left]. by rewrite Z.mod_small.
Qed.

Lemma fs_requires_dev_raw_ok m sa ta sb :
  env_wf Γ -> points_to m sa "super_block" [("s_type", le_bytes 8 ta)] ->
  match s_type sb with
  | None => ta = 0
  | Some t => points_to m ta "file_system_type" [("fs_flags", le_bytes 4 (fs_flags t))] /\
              - 2 ^ 31 <= fs_flags t < 2 ^ 31
  end ->
  fs_requires_dev_raw sa m = Ret (fs_requires_dev sb, m).
Proof.
  intros HΓ Hs Ht. unfold fs_requires_dev_raw, fs_requires_dev. destruct (s_type sb) as [t|].
  - destruct Ht as [Ht Hr]. pose proof Ht as [Hta _].
    rewrite (bind_Ret _ _ _ _ _ (read_member_hd m sa _ _ 8 ta [] HΓ Hs eq_refl ltac:(lia))).
    rewrite (proj2 (Z.eqb_neq ta 0)) by lia.
    rewrite (bind_Ret _ _ _ _ _ (read_member_at m ta _ _ "fs_flags" 4 _ HΓ Ht eq_refl ltac:(by left))).
    assert (E : s32 (fs_flags t mod 256 ^ Z.of_nat 4) = fs_flags t).
    { unfold s32. change (256 ^ Z.of_nat 4) with (2 ^ 32). rewrite Zplus_mod_idemp_l.
      rewrite Z.mod_small by lia. lia. }
    by rewrite E.
  - subst ta. by rewrite (bind_Ret _ _ _ _ _ (read_member_hd m sa _ _ 8 0 [] HΓ Hs eq_refl ltac:(lia))).
Qed.
End hook.

(** ** The event in the ring buffer *)

Definition struct_event : decl :=
  struct_ "event" [
    fld (Array (Base Char) 128) "path";
    fld (Base Long) "path_len"].

Definition ride_h_env : env := default env_empty (declare_all env_empty [struct_event]).

(** The record of the hook in the reserved bytes, and the cast of the main
    thread. *)
Definition event_bytes (ev : event) (reserved : list Z) : option (list Z) :=
  encode ride_h_env "event" [("path", path ev); ("path_len", le_bytes 8 (path_len ev))] reserved.

Definition event_of (data : list Z) : option event :=
  p ← get_member ride_h_env "event" "path" data;
  n ← get_member ride_h_env "event" "path_len" data;
  Some {| path := p; path_len := s64 (le_value n) |}.

(** The callback of the ring buffer on the bytes it is given; the size is not
    looked at. *)
Definition ride_ringbuf_handle_raw {F} `{!Eventfd F} (data : list Z) : M (feeder F) Z :=
  match event_of data with
  | None => undef OutOfBounds
  | Some ev => ride_ringbuf_handle ev
  end.

Lemma ride_h_event :
  exists i, e_tags ride_h_env !! key_su StructKind "event" = Some i /\ info_wf i /\ ti_size i = 136.
Proof.
  assert (HΓ : declare_all env_empty [struct_event] = Some ride_h_env) by (vm_compute; reflexivity).
  destruct (declare_all_sound _ _ _ StructKind "event" false
    [fld (Array (Base Char) 128) "path"; fld (Base Long) "path_len"] env_empty_wf HΓ) as (i & Hi & Hs); [by left|].
  exists i. split; [done|]. split; [apply Hs|].
  assert (H : ti_size <$> e_tags ride_h_env !! key_su StructKind "event" = Some 136) by (vm_compute; reflexivity).
  rewrite Hi in H. by injection H.
Qed.

(** The record is written and read back, whatever the reserved bytes were. *)
Lemma event_bytes_of ev reserved :
  length (path ev) = 128%nat -> - 2 ^ 63 <= path_len ev < 2 ^ 63 -> length reserved = 136%nat ->
  exists data, event_bytes ev reserved = Some data /\ length data = 136%nat /\ event_of data = Some ev.
Proof.
  intros Hp Hn Hr. destruct ride_h_event as (i & Hi & Hw & Hsz).
  set (vals := [("path", path ev); ("path_len", le_bytes 8 (path_len ev))]).
  assert (He : exists data, encode ride_h_env "event" vals reserved = Some data).
  { assert (E1 : member_extent ride_h_env "event" "path" = Some (0, 128)%nat) by (vm_compute; reflexivity).
    assert (E2 : member_extent ride_h_env "event" "path_len" = Some (128, 8)%nat) by (vm_compute; reflexivity).
    unfold vals. cbn [encode]. unfold set_member. rewrite E1, E2. cbn [mbind option_bind].
    rewrite Hp, length_le_bytes. by eexists. }
  destruct He as [data He]. exists data. split; [exact He|].
  assert (Hl : length reserved = Z.to_nat (ti_size i)) by (rewrite Hr, Hsz; reflexivity).
  split; [by rewrite (encode_length _ _ i Hi Hw _ _ _ Hl He)|].
  assert (Ha : all_apart ride_h_env "event" vals.*1 = true) by (vm_compute; reflexivity).
  unfold event_of. rewrite (get_encode _ _ i Hi Hw _ _ _ _ _ Hl He Ha ltac:(by left)). cbn [mbind option_bind].
  rewrite (get_encode _ _ i Hi Hw _ _ _ _ _ Hl He Ha ltac:(by right; left)). cbn [mbind option_bind].
  rewrite le_value_bytes. change (256 ^ Z.of_nat 8) with (2 ^ 64). fold (u64 (path_len ev)).
  rewrite s64_u64, s64_small by done. by destruct ev.
Qed.

(** The events the hook submits fit the record. *)
Lemma ride_submits ro pid f reserve d_path ev ops :
  (forall buf, length (snd (d_path buf)) = length buf) ->
  (forall ev, reserve = Some ev -> length (path ev) = Z.to_nat MAX_FILENAME_LEN) ->
  ride ro pid f reserve d_path = Ret (0, ops) -> RbSubmit ev ∈ ops ->
  length (path ev) = 128%nat /\ - 2 ^ 31 <= path_len ev < 2 ^ 31.
Proof.
  intros Hd Hr. unfold ride. destruct (_ =? _); [by intros [= <-] ?%elem_of_nil|].
  destruct (_ || _); [by intros [= <-] ?%elem_of_nil|]. unfold ride_report.
  destruct reserve as [ev0|]; [|by intros [= <-] ?%elem_of_nil]. specialize (Hd (path ev0)).
  destruct (d_path (path ev0)) as [r buf]. cbn [snd] in Hd. rewrite (Hr ev0 eq_refl) in Hd.
  rewrite arr_set_in by (rewrite Hd; vm_compute; split; congruence).
  destruct (in_watch_path _ _ _) as [[]| | | |]; try done; intros [= <-] [E|Hn]%elem_of_cons;
    try (by apply elem_of_nil in Hn); [|done]. injection E as ->. cbn.
  rewrite length_insert, Hd. split; [reflexivity|apply s32_range].
Qed.

(** ** Properties *)

(** C16. On kernel memory the hook does what it does on records: for every
    kernel whose declarations are laid out soundly, when [i_mode] and [i_sb] are
    different members, and for every open file in its memory, the loads at the
    relocated offsets make the same decisions as the hook of [Bpf], and the
    address of the member [f_path] goes to [bpf_path_d_path]. *)
Theorem ride_raw_refines ds Γ m fa f ro pid reserve d_path o l :
  declare_all env_empty ds = Some Γ -> kernel_file Γ m fa f ->
  apart Γ "inode" "i_mode" "i_sb" = true -> member_extent Γ "file" "f_path" = Some (o, l) ->
  ride_raw Γ ro pid fa reserve d_path m =
  of_outcome (ride ro pid f reserve (d_path (fa + Z.of_nat o))) m.
Proof.
  intros HΓ%(declare_all_wf _ _ _ env_empty_wf) (ia & sa & ta & Hf & Hi & Hs & Hm & Ht) Ha Hp.
  unfold ride_raw, ride. destruct (_ =? _); [done|].
  pose proof Hi as [Hia _]. pose proof Hs as [Hsa _].
  assert (Hai : all_apart Γ "inode" ["i_mode"; "i_sb"] = true) by (cbn; by rewrite Ha).
  rewrite (bind_Ret _ _ _ _ _ (read_member_hd Γ m fa _ _ 8 ia [] HΓ Hf eq_refl ltac:(lia))).
  rewrite (bind_Ret _ _ _ _ _ (read_member_hd Γ m ia _ _ 2 _ _ HΓ Hi Hai ltac:(lia))).
  destruct (S_ISREG _); [|done]. cbn [negb orb].
  rewrite (bind_Ret _ _ _ _ _ (read_member_at Γ m ia _ _ "i_sb" 8 sa HΓ Hi Hai ltac:(by right; left))).
  rewrite Z.mod_small by (cbn; lia).
  rewrite (bind_Ret _ _ _ _ _ (fs_requires_dev_raw_ok Γ m sa ta _ HΓ Hs Ht)).
  destruct (fs_requires_dev _); [|done]. cbn [negb]. by rewrite Hp.
Qed.

(** C17. From the hook to the queue: an event the hook submits, written into
    the 136 bytes reserved in the ring buffer, is read by the callback of the
    main thread as the same event, whatever the bytes held before, so the
    callback on the bytes is the callback on the event. *)
Theorem event_crosses_ringbuf {F} `{!Eventfd F} ro pid f reserve d_path ev ops reserved :
  (forall buf, length (snd (d_path buf)) = length buf) ->
  (forall ev, reserve = Some ev -> length (path ev) = Z.to_nat MAX_FILENAME_LEN) ->
  ride ro pid f reserve d_path = Ret (0, ops) -> RbSubmit ev ∈ ops ->
  length reserved = 136%nat ->
  exists data, event_bytes ev reserved = Some data /\ length data = 136%nat /\
    event_of data = Some ev /\
    forall s : feeder F, ride_ringbuf_handle_raw data s = ride_ringbuf_handle ev s.
Proof.
  intros Hd Hr Hride Hin Hres.
  destruct (ride_submits _ _ _ _ _ _ _ Hd Hr Hride Hin) as [Hp Hn].
  destruct (event_bytes_of ev reserved Hp ltac:(lia) Hres) as (data & H1 & H2 & H3).
  exists data. split; [done|]. split; [done|]. split; [done|]. intros s.
  unfold ride_ringbuf_handle_raw. by rewrite H3.
Qed.

(** ** Witnesses *)

(** A block of memory. *)
Definition block (a : Z) (buf : list Z) (m : mem) : mem := fun x =>
  if (a <=? x) && (x <? a + Z.of_nat (length buf)) then buf !! Z.to_nat (x - a) else m x.

Definition object (tag : string) (vals : list (string * list Z)) : list Z :=
  default [] (encode vmlinux_env tag vals
    (replicate (Z.to_nat (default 0 (sizeof vmlinux_env tag))) 255)).

(** A regular file of a file system on a device, at 4096. *)
Definition file_mem : mem :=
  block 4096 (object "file" [("f_inode", le_bytes 8 8192)])
 (block 8192 (object "inode" [("i_mode", le_bytes 2 33188); ("i_sb", le_bytes 8 12288)])
 (block 12288 (object "super_block" [("s_type", le_bytes 8 16384)])
 (block 16384 (object "file_system_type" [("fs_flags", le_bytes 4 1)]) (fun _ => None)))).

Ltac solve_points_to :=
  split; [lia|];
  match goal with |- object_at _ _ _ ?tag ?vals =>
    eexists _, (replicate (Z.to_nat (default 0 (sizeof vmlinux_env tag))) 255), (object tag vals)
  end; split; [vm_compute; reflexivity|];
  split; [vm_compute; reflexivity|split; vm_compute; reflexivity].

Lemma file_mem_ok : kernel_file vmlinux_env file_mem 4096 file_reg.
Proof.
  exists 8192, 12288, 16384. split_and!; try (cbn; lia); [..|split; [|cbn; lia]]; solve_points_to.
Qed.

Lemma ride_raw_refines_witness :
  ride_raw vmlinux_env ro_t (Z.shiftl 5 32) 4096 (Some event_zero) (fun _ => d_path_ta) file_mem =
  of_outcome (ride ro_t (Z.shiftl 5 32) file_reg (Some event_zero) d_path_ta) file_mem.
Proof.
  apply (ride_raw_refines vmlinux vmlinux_env file_mem 4096 file_reg ro_t (Z.shiftl 5 32) (Some event_zero)
    (fun _ => d_path_ta) 64 16 vmlinux_declared file_mem_ok); vm_compute; reflexivity.
Defined.

Lemma event_crosses_ringbuf_witness :
  exists ev data, event_bytes ev (replicate 136 7) = Some data /\ event_of data = Some ev /\
    forall s : feeder N, ride_ringbuf_handle_raw data s = ride_ringbuf_handle ev s.
Proof.
  set (d := fun buf : list Z => (5, firstn (length buf) ([47; 116; 47; 97; 0] ++ skipn 5 buf))).
  set (ev := {| path := [47; 116; 47; 97] ++ replicate 124 0; path_len := 4 |}).
  destruct (event_crosses_ringbuf (F := N) ro_t (Z.shiftl 5 32) file_reg (Some event_zero) d ev [RbSubmit ev]
    (replicate 136 7)) as (data & H1 & _ & H3 & H4).
  - intros buf. unfold d. cbn [snd]. rewrite length_take, length_app, length_drop. cbn [length]. lia.
  - intros e [= <-]. reflexivity.
  - vm_compute. reflexivity.
  - by left.
  - reflexivity.
  - exists ev, data. split; [exact H1|]. split; [exact H3|exact H4].
Defined.
