(* ===== verification/Hasher.v ===== *)
(** * The hasher (src/hasher.c, src/hasher.h)

    A thin layer over BLAKE3, whose code is not part of the repository: the
    incremental interface is a class, and what the program relies on (updates
    compose, the output has the requested length) are its laws. *)

From stdpp Require Import base numbers list.
From S2P Require Import Prelude.

Open Scope Z_scope.

Definition BLAKE3_OUT_LEN : Z := 32.
Definition HASH_LEN : Z := BLAKE3_OUT_LEN.

Class Blake3 (H : Type) := {
  blake3_hasher_init : H;
  blake3_hasher_update : H -> list Z -> H;
  blake3_hasher_finalize : H -> Z -> list Z;
}.

Class Blake3Laws (H : Type) `{!Blake3 H} := {
  blake3_update_nil h : blake3_hasher_update h [] = h;
  blake3_update_app h a b :
    blake3_hasher_update (blake3_hasher_update h a) b = blake3_hasher_update h (a ++ b);
  blake3_finalize_length h n : 0 <= n -> Z.of_nat (length (blake3_hasher_finalize h n)) = n;
  blake3_finalize_bytes h n : Forall (fun b => 0 <= b < 256) (blake3_hasher_finalize h n);
}.

Section hasher.
Context {H : Type} `{!Blake3 H}.

Record hasher : Type := Hasher { blake : H }.

Definition hasher_init : M hasher unit := modify (fun _ => Hasher blake3_hasher_init).

(** [buf] must have at least [sz] bytes. *)
Definition hasher_update (sz : Z) (buf : list Z) : M hasher unit := fun h =>
  if (0 <=? sz) && (sz <=? Z.of_nat (length buf))
  then Ret (tt, Hasher (blake3_hasher_update (blake h) (take (Z.to_nat sz) buf)))
  else Undef OutOfBounds.

(** The size argument is not used: [HASH_LEN] bytes are written. *)
Definition hasher_finalize (sz : Z) : M hasher (list Z) :=
  gets (fun h => blake3_hasher_finalize (blake h) HASH_LEN).

(** The digest of a whole byte sequence. *)
Definition digest (bytes : list Z) : list Z :=
  blake3_hasher_finalize (blake3_hasher_update blake3_hasher_init bytes) HASH_LEN.

(** Hash the bytes of successive reads, each given with its length. *)
Fixpoint hash_chunks (chunks : list (list Z)) : M hasher unit :=
  match chunks with
  | [] => mret tt
  | c :: chunks => hasher_update (Z.of_nat (length c)) c;; hash_chunks chunks
  end.

Context `{!Blake3Laws H}.

Lemma hasher_update_whole c h :
  hasher_update (Z.of_nat (length c)) c h = Ret (tt, Hasher (blake3_hasher_update (blake h) c)).
Proof.
  unfold hasher_update. destruct (Z.leb_spec 0 (Z.of_nat (length c))); [|lia].
  destruct (Z.leb_spec (Z.of_nat (length c)) (Z.of_nat (length c))); [|lia]. simpl.
  by rewrite Nat2Z.id, take_ge.
Qed.

Lemma hash_chunks_concat chunks h :
  hash_chunks chunks h = Ret (tt, Hasher (blake3_hasher_update (blake h) (concat chunks))).
Proof.
  revert h. induction chunks as [|c chunks IH]; intros [b]; simpl.
  - by rewrite blake3_update_nil.
  - unfold mbind, M_bind. rewrite hasher_update_whole, IH. simpl. by rewrite blake3_update_app.
Qed.

Lemma hash_length h : length (blake3_hasher_finalize h HASH_LEN) = 32%nat.
Proof. pose proof (blake3_finalize_length h HASH_LEN) as H0. unfold HASH_LEN, BLAKE3_OUT_LEN in *. lia. Qed.

Lemma digest_length bytes : length (digest bytes) = 32%nat.
Proof. apply hash_length. Qed.
End hasher.
Arguments hasher : clear implicits.

(** A concrete instance: the state is the bytes seen, the output their first
    bytes, padded. *)
#[export] Instance toy_blake3 : Blake3 (list Z) := {
  blake3_hasher_init := [];
  blake3_hasher_update h b := h ++ b;
  blake3_hasher_finalize h n := take (Z.to_nat n) (map (fun b => b mod 256) h ++ replicate (Z.to_nat n) 0);
}.

#[export] Instance toy_blake3_laws : Blake3Laws (list Z).
Proof.
  split; intros; simpl.
  - apply app_nil_r.
  - by rewrite app_assoc.
  - rewrite length_take, length_app, length_replicate. lia.
  - apply Forall_take, Forall_app. split.
    + apply Forall_map, Forall_true. intros x. apply Z.mod_pos_bound. lia.
    + apply Forall_replicate. lia.
Qed.
