(* ===== verification/Slab.v ===== *)
(** * The request slab of a processor (src/processor.c: struct
    processor_iou_req, the slab part of [processor_setup], [processor_get_req],
    [processor_free_req])

    A fixed array of request containers threaded into a singly linked free
    list. A pointer to a container is its index; NULL is [None]. *)

From stdpp Require Import base numbers sets list list_numbers.
From S2P Require Import Prelude Hasher Ev.

Open Scope Z_scope.

Section slab.
Context {H : Type}.

Record processor_iou_req : Type := ProcessorIouReq {
  pr_req : ev_io_req;
  pr_hasher : hasher H;
  pr_next : option nat;
  pr_buffer : nat;          (* index into processor->buffers *)
  pr_data : option nat;     (* the path string on the heap *)
  pr_data2 : Z;             (* the path length, stored in a void pointer *)
  in_flight : Z;
  pr_id : Z;
}.

Record slab : Type := Slab {
  reqs : list processor_iou_req;
  reqs_list : option nat;
  nr_free_reqs : Z;
}.

Definition set_next (p : processor_iou_req) (n : option nat) : processor_iou_req :=
  {| pr_req := pr_req p; pr_hasher := pr_hasher p; pr_next := n; pr_buffer := pr_buffer p;
     pr_data := pr_data p; pr_data2 := pr_data2 p; in_flight := in_flight p; pr_id := pr_id p |}.

(** The zeroed container [i] after the loop body of [processor_setup];
    [h0] is the hasher in zeroed memory. *)
Definition slab_entry (h0 : hasher H) (i : nat) : processor_iou_req :=
  {| pr_req := {| opcode := 0; off := WInt 0; addr := WInt 0; fd := 0; len := 0; flags := 0;
                  result := 0; result_flags := 0; data := None; data2 := Some (PIouReq i);
                  callback := None |};
     pr_hasher := h0; pr_next := Some (S i); pr_buffer := i; pr_data := None; pr_data2 := 0;
     in_flight := 0; pr_id := Z.of_nat i |}.

(** The allocation, the loop and the final [next = NULL]; with no tasks the
    last assignment is out of bounds. [alloc_ok] is whether both allocations
    succeeded. *)
Definition slab_setup (h0 : hasher H) (alloc_ok : bool) (nr_tasks : nat) : outcome slab :=
  if negb alloc_ok then Exit 1
  else
    let l := slab_entry h0 <$> seq 0 nr_tasks in
    match nr_tasks with
    | O => Undef OutOfBounds
    | S last =>
        Ret {| reqs := alter (fun p => set_next p None) last l;
               reqs_list := Some 0%nat; nr_free_reqs := Z.of_nat nr_tasks |}
    end.

(** The request after the resets of [processor_get_req]; [fd] and
    [result_flags] keep their values. *)
Definition reset_req (i : nat) (r : ev_io_req) : ev_io_req :=
  {| opcode := 0; off := WInt 0; addr := WInt 0; fd := fd r; len := 0; flags := 0;
     result := 0; result_flags := result_flags r; data := Some PProcessor;
     data2 := Some (PIouReq i); callback := None |}.

Definition take_entry (i : nat) (p : processor_iou_req) : processor_iou_req :=
  {| pr_req := reset_req i (pr_req p); pr_hasher := pr_hasher p; pr_next := pr_next p;
     pr_buffer := pr_buffer p; pr_data := pr_data p; pr_data2 := pr_data2 p;
     in_flight := 1; pr_id := pr_id p |}.

(** Returns the index of the container whose request is handed out. *)
Definition processor_get_req : M slab nat := fun s =>
  match reqs_list s with
  | None => Exit 1
  | Some i =>
      match reqs s !! i with
      | None => Undef OutOfBounds
      | Some p =>
          if negb (in_flight p =? 0) then AssertFailed
          else Ret (i, {| reqs := <[i := take_entry i p]> (reqs s);
                          reqs_list := pr_next p;
                          nr_free_reqs := nr_free_reqs s - 1 |})
      end
  end.

Definition release_entry (n : option nat) (p : processor_iou_req) : processor_iou_req :=
  {| pr_req := pr_req p; pr_hasher := pr_hasher p; pr_next := n; pr_buffer := pr_buffer p;
     pr_data := None; pr_data2 := pr_data2 p; in_flight := 0; pr_id := pr_id p |}.

(** The argument is the request object; it names its processor and container. *)
Definition processor_free_req (req : ev_io_req) : M slab unit := fun s =>
  match data req, data2 req with
  | Some PProcessor, Some (PIouReq i) =>
      match reqs s !! i with
      | None => Undef BadPointer
      | Some p =>
          Ret (tt, {| reqs := <[i := release_entry (reqs_list s) p]> (reqs s);
                      reqs_list := Some i; nr_free_reqs := nr_free_reqs s + 1 |})
      end
  | None, _ | _, None => Undef NullDeref
  | _, _ => Undef BadPointer
  end.

(** ** Invariant *)

(** [chain rs start l]: following [next] from [start] visits [l] and ends. *)
Fixpoint chain (rs : list processor_iou_req) (start : option nat) (l : list nat) : Prop :=
  match l with
  | [] => start = None
  | i :: l => start = Some i /\ exists p, rs !! i = Some p /\ chain rs (pr_next p) l
  end.

(** The state of a container, given whether it is free. *)
Definition entry_ok (i : nat) (free : bool) (p : processor_iou_req) : Prop :=
  pr_buffer p = i /\ pr_id p = Z.of_nat i /\
  (if free then in_flight p = 0
   else in_flight p = 1 /\ data (pr_req p) = Some PProcessor /\
        data2 (pr_req p) = Some (PIouReq i)).

(** [free] is the free list: acyclic, made of exactly the containers not in
    flight, and counted by [nr_free_reqs]. *)
Definition slab_wf (s : slab) (free : list nat) : Prop :=
  chain (reqs s) (reqs_list s) free /\ NoDup free /\
  nr_free_reqs s = Z.of_nat (length free) /\
  forall i p, reqs s !! i = Some p -> entry_ok i (bool_decide (i ∈ free)) p.
End slab.
Arguments processor_iou_req : clear implicits.
Arguments slab : clear implicits.

Section lemmas.
Context {H : Type}.
Implicit Types (s : slab H) (p : processor_iou_req H) (rs : list (processor_iou_req H)).

Lemma chain_insert rs i p start l :
  i ∉ l -> chain rs start l -> chain (<[i := p]> rs) start l.
Proof.
  revert start. induction l as [|j l IH]; intros start Hi; simpl; [done|].
  intros (-> & q & Hq & Hc). split; [done|]. exists q. split.
  - rewrite list_lookup_insert_ne by set_solver. done.
  - apply IH; [set_solver|done].
Qed.

Lemma chain_lookup rs start l j :
  chain rs start l -> j ∈ l -> is_Some (rs !! j).
Proof.
  revert start. induction l as [|i l IH]; intros start; simpl; [set_solver|].
  intros (-> & p & Hp & Hc) [->|Hj]%elem_of_cons; eauto.
Qed.

(** Replacing an entry by one with the same status keeps the invariant. *)
Lemma slab_wf_insert s free i p q :
  slab_wf s free -> reqs s !! i = Some p -> i ∉ free ->
  entry_ok i false q ->
  slab_wf {| reqs := <[i := q]> (reqs s); reqs_list := reqs_list s;
             nr_free_reqs := nr_free_reqs s |} free.
Proof.
  intros (Hc & Hnd & Hn & He) Hp Hi Hq. split_and!; simpl; auto using chain_insert.
  intros j r Hj. destruct (decide (j = i)) as [->|Hne].
  - rewrite list_lookup_insert_eq in Hj by (apply lookup_lt_Some in Hp; done).
    injection Hj as <-. by rewrite bool_decide_false.
  - rewrite list_lookup_insert_ne in Hj by done. by apply He.
Qed.

Lemma get_req_spec s i free :
  slab_wf s (i :: free) ->
  exists p s', reqs s !! i = Some p /\ processor_get_req s = Ret (i, s') /\
    slab_wf s' free /\ reqs s' = <[i := take_entry i p]> (reqs s) /\
    nr_free_reqs s' = nr_free_reqs s - 1.
Proof.
  intros (Hc & Hnd & Hn & He). simpl in Hc. destruct Hc as (Hl & p & Hp & Hc).
  apply NoDup_cons in Hnd as [Hi Hnd].
  pose proof (He i p Hp) as (Hb & Hid & Hf).
  rewrite bool_decide_true in Hf by set_solver.
  exists p. unfold processor_get_req. rewrite Hl, Hp, Hf. simpl.
  eexists. split_and!; [done..| |done|done].
  split_and!; simpl in *; auto using chain_insert; [lia|].
  intros j r Hj. destruct (decide (j = i)) as [->|Hne].
  - rewrite list_lookup_insert_eq in Hj by (apply lookup_lt_Some in Hp; done).
    injection Hj as <-. rewrite bool_decide_false by done. done.
  - rewrite list_lookup_insert_ne in Hj by done. pose proof (He j r Hj) as Hj'.
    by rewrite (bool_decide_ext (j ∈ free) (j ∈ i :: free)) by set_solver.
Qed.

(** The slab after [i], the head of the free list, was handed out. *)
Definition taken (i : nat) (p : processor_iou_req H) (s : slab H) : slab H :=
  {| reqs := <[i := take_entry i p]> (reqs s); reqs_list := pr_next p;
     nr_free_reqs := nr_free_reqs s - 1 |}.

Lemma get_req_taken s i free p :
  slab_wf s (i :: free) -> reqs s !! i = Some p ->
  processor_get_req s = Ret (i, taken i p s) /\ slab_wf (taken i p s) free /\ i ∉ free.
Proof.
  intros Hwf Hp. destruct (get_req_spec s i free Hwf) as (p' & s' & Hp' & Hg & Hwf' & _).
  assert (p' = p) as -> by congruence. pose proof Hwf as ((Hl & _) & Hnd & _).
  assert (Hs : s' = taken i p s).
  { revert Hg. unfold processor_get_req. rewrite Hl, Hp. destruct (negb _); [done|]. by intros [= <-]. }
  rewrite <- Hs. apply NoDup_cons in Hnd as [Hi _]. done.
Qed.

Lemma get_req_empty s : slab_wf s [] -> processor_get_req s = Exit 1.
Proof. intros (Hc & _). simpl in Hc. unfold processor_get_req. by rewrite Hc. Qed.

(** Freeing a request whose container [i] is in flight. *)
Lemma free_req_spec s free i p :
  slab_wf s free -> reqs s !! i = Some p -> i ∉ free ->
  exists s', processor_free_req (pr_req p) s = Ret (tt, s') /\
    slab_wf s' (i :: free) /\ reqs s' = <[i := release_entry (reqs_list s) p]> (reqs s) /\
    nr_free_reqs s' = nr_free_reqs s + 1.
Proof.
  intros (Hc & Hnd & Hn & He) Hp Hi.
  pose proof (He i p Hp) as (Hb & Hid & Hf). rewrite bool_decide_false in Hf by done.
  destruct Hf as (Hf & Hd & Hd2). unfold processor_free_req. rewrite Hd, Hd2, Hp.
  eexists. split_and!; [done| |done|done].
  assert (Hlt : (i < length (reqs s))%nat) by (by eapply lookup_lt_Some).
  split_and!; simpl.
  - split; [done|]. rewrite list_lookup_insert_eq by done. eexists. split; [done|].
    by apply chain_insert.
  - by constructor.
  - lia.
  - intros j r Hj. destruct (decide (j = i)) as [->|Hne].
    + rewrite list_lookup_insert_eq in Hj by done. injection Hj as <-.
      rewrite bool_decide_true by set_solver. done.
    + rewrite list_lookup_insert_ne in Hj by done. pose proof (He j r Hj) as Hj'.
      by rewrite (bool_decide_ext (j ∈ i :: free) (j ∈ free)) by set_solver.
Qed.

(** The slab [processor_setup] builds. *)
Lemma chain_seq (h0 : hasher H) n k i :
  (i + k = n)%nat -> (0 < n)%nat ->
  chain (alter (fun p => set_next p None) (n - 1)%nat (slab_entry h0 <$> seq 0 n))
    (if (k =? 0)%nat then None else Some i) (seq i k).
Proof.
  intros Hn Hpos. revert i Hn. induction k as [|k IH]; intros i Hn; [done|].
  cbn [seq chain Nat.eqb]. split; [done|].
  destruct (decide (i = (n - 1)%nat)) as [->|Hne].
  - rewrite list_lookup_alter_eq, list_lookup_fmap, lookup_seq_lt by lia.
    eexists. split; [done|]. simpl. assert (k = 0)%nat as -> by lia. done.
  - rewrite list_lookup_alter_ne, list_lookup_fmap, lookup_seq_lt by lia.
    eexists. split; [done|]. cbn [pr_next slab_entry].
    specialize (IH (S i) ltac:(lia)). destruct k; [lia|]. exact IH.
Qed.

Lemma slab_setup_wf (h0 : hasher H) n :
  (0 < n)%nat -> exists s, slab_setup h0 true n = Ret s /\ slab_wf s (seq 0 n) /\
    length (reqs s) = n.
Proof.
  intros Hn. unfold slab_setup. destruct n as [|m]; [lia|]. cbn [negb].
  eexists. split; [done|]. split.
  - split_and!.
    + pose proof (chain_seq h0 (S m) (S m) 0 eq_refl Hn) as Hc.
      replace (S m - 1)%nat with m in Hc by lia. exact Hc.
    + apply NoDup_seq.
    + by rewrite length_seq.
    + intros i p Hi. cbn [reqs] in Hi.
      assert (Hlt : (i < S m)%nat).
      { apply lookup_lt_Some in Hi. rewrite length_alter, length_fmap, length_seq in Hi. done. }
      rewrite bool_decide_true by (apply elem_of_seq; lia).
      destruct (decide (i = m)) as [->|Hne].
      * rewrite list_lookup_alter_eq, list_lookup_fmap, lookup_seq_lt in Hi by lia.
        injection Hi as <-. done.
      * rewrite list_lookup_alter_ne, list_lookup_fmap, lookup_seq_lt in Hi by lia.
        injection Hi as <-. done.
  - cbn [reqs]. by rewrite length_alter, length_fmap, length_seq.
Qed.

Lemma slab_setup_data (h0 : hasher H) n s :
  slab_setup h0 true n = Ret s -> Forall (fun w => pr_data w = None) (reqs s).
Proof.
  unfold slab_setup. destruct n as [|m]; [done|]. cbn [negb]. intros [= <-]. cbn [reqs].
  apply Forall_alter; [|done]. apply (Forall_fmap _ _ (seq 0 (S m))). by apply Forall_true.
Qed.
End lemmas.

(** ** Traces of allocations and releases *)

Inductive slab_op : Set := SGet | SFree (i : nat).

Fixpoint run_slab {H} (ops : list slab_op) : M (slab H) (list nat) :=
  match ops with
  | [] => mret []
  | SGet :: ops => i ← processor_get_req; l ← run_slab ops; mret (i :: l)
  | SFree i :: ops =>
      s ← gets (fun s => s);
      p ← of_option BadPointer (reqs s !! i);
      processor_free_req (pr_req p);;
      run_slab ops
  end.

(** The specification: a stack of free indices; [None] when a request is asked
    for and none is free. *)
Module FreeStack.
Fixpoint run (ops : list slab_op) (free : list nat) : option (list nat * list nat) :=
  match ops with
  | [] => Some ([], free)
  | SGet :: ops =>
      match free with
      | [] => None
      | i :: free => '(l, f) ← run ops free; Some (i :: l, f)
      end
  | SFree i :: ops => run ops (i :: free)
  end.

(** Only requests that are handed out are released. *)
Fixpoint legal (n : nat) (ops : list slab_op) (free : list nat) : bool :=
  match ops with
  | [] => true
  | SGet :: ops => match free with [] => true | _ :: free => legal n ops free end
  | SFree i :: ops => (i <? n)%nat && bool_decide (i ∉ free) && legal n ops (i :: free)
  end.
End FreeStack.

(** C12. The slab hands out each request at most once: after
    [processor_setup] with at least one task, under every sequence of
    [processor_get_req] and releases of handed-out requests, the result is that
    of a stack of free indices (so an index handed out is never one in flight),
    the assertion never fails, [nr_free_reqs] counts the free requests, and the
    program exits exactly when a request is asked for with none free. *)
Theorem slab_allocates_uniquely {H} (h0 : hasher H) n ops :
  (0 < n)%nat -> FreeStack.legal n ops (seq 0 n) = true ->
  exists s, slab_setup h0 true n = Ret s /\
  match FreeStack.run ops (seq 0 n) with
  | Some (ids, free) => exists s', run_slab ops s = Ret (ids, s') /\ slab_wf s' free
  | None => run_slab ops s = Exit 1
  end.
Proof.
  intros Hn. destruct (slab_setup_wf h0 n Hn) as (s & Hs & Hwf & Hlen). intros Hleg.
  exists s. split; [done|]. clear Hs Hn. revert s Hwf Hlen Hleg. generalize (seq 0 n) as free.
  induction ops as [|[|i] ops IH]; intros free s Hwf Hlen Hleg; simpl in Hleg |- *.
  - exists s. by split.
  - destruct free as [|i free]; [unfold mbind, M_bind; by rewrite get_req_empty|].
    destruct (get_req_spec s i free Hwf) as (p & s' & Hp & Hg & Hwf' & Hr & _).
    rewrite (bind_Ret _ _ _ _ _ Hg).
    assert (Hlen' : length (reqs s') = n) by (rewrite Hr, length_insert; done).
    specialize (IH free s' Hwf' Hlen' Hleg).
    destruct (FreeStack.run ops free) as [[ids free']|]; simpl.
    + destruct IH as (s2 & Hrun & Hwf2). exists s2. by rewrite (bind_Ret _ _ _ _ _ Hrun).
    + unfold mbind, M_bind. by rewrite IH.
  - apply andb_true_iff in Hleg as [Hleg1 Hleg]. apply andb_true_iff in Hleg1 as [Hi Hnf].
    apply Nat.ltb_lt in Hi. apply bool_decide_eq_true in Hnf.
    destruct (lookup_lt_is_Some_2 (reqs s) i) as [p Hp]; [lia|].
    destruct (free_req_spec s free i p Hwf Hp Hnf) as (s' & Hf & Hwf' & Hr & _).
    assert (Hlen' : length (reqs s') = n) by (rewrite Hr, length_insert; done).
    specialize (IH (i :: free) s' Hwf' Hlen' Hleg). mrun. rewrite Hp. rewrite Hf. exact IH.
Qed.

Lemma slab_allocates_uniquely_witness :
  exists s s', slab_setup (Hasher ([] : list Z)) true 2 = Ret s /\
    run_slab [SGet; SGet; SFree 0; SGet] s = Ret ([0; 1; 0]%nat, s') /\
    slab_wf s' ([] : list nat).
Proof.
  destruct (slab_allocates_uniquely (Hasher ([] : list Z)) 2 [SGet; SGet; SFree 0; SGet])
    as (s & H1 & s' & H2 & H3); [lia|reflexivity|].
  exists s, s'. split; [exact H1|]. split; [exact H2|exact H3].
Defined.
