(* ===== verification/Quic.v ===== *)
(** * The QUIC side of the verifier client (src/verifier_quic.h, the stream
    structures of src/verifier.h)

    ngtcp2, the TLS library, the clock and the socket are not part of the
    repository: ngtcp2 is a class of operations on a connection [C], the clock
    and [sendmsg] a class of operations on the world [W]. Logging and the
    content of TLS and transport settings are not modelled. *)

From stdpp Require Import base numbers list list_numbers.
From S2P Require Import Prelude.

Open Scope Z_scope.

Definition MAX_CONCURRENT_WRITES : Z := 4.
Definition STREAM_DATA_SIZE : Z := 256.
Definition MAX_TIMEOUT : Z := 2000.
Definition NGTCP2_SECONDS : Z := 1000000000.
Definition NGTCP2_WRITE_STREAM_FLAG_MORE : Z := 1.
Definition NGTCP2_WRITE_STREAM_FLAG_FIN : Z := 2.
Definition SEND_EINTR : Z := 4.

(** ** External code *)

(** The result of [ngtcp2_conn_writev_stream]: the value returned, [wdatalen]
    and the packet written. *)
Record writev_result : Set := WritevResult {
  wv_nwrite : Z;
  wv_datalen : Z;
  wv_packet : list Z;
}.

Class Ngtcp2 (C : Type) := {
  NGTCP2_ERR_WRITE_MORE : Z;
  NGTCP2_ERR_CRYPTO : Z;
  (* the error code [ngtcp2_ccerr_set_liberr] and [ngtcp2_ccerr_set_tls_alert] record *)
  ccerr_liberr_code : Z -> Z;
  ccerr_tls_alert_code : Z -> Z;
  (* flags, stream id, data, timestamp *)
  ngtcp2_conn_writev_stream : C -> Z -> Z -> list Z -> Z -> writev_result * C;
  (* result and stream id *)
  ngtcp2_conn_open_bidi_stream : C -> (Z * Z) * C;
  ngtcp2_conn_get_expiry2 : C -> Z;
  ngtcp2_conn_handle_expiry : C -> Z -> Z * C;
  (* packet, timestamp *)
  ngtcp2_conn_read_pkt : C -> list Z -> Z -> Z * C;
  ngtcp2_conn_get_tls_alert2 : C -> Z;
}.

Class Host (W : Type) := {
  (* seconds and nanoseconds *)
  clock_gettime : W -> option (Z * Z) * W;
  (* [inl] the bytes sent, [inr] errno *)
  sendmsg : Z -> list Z -> W -> (Z + Z) * W;
}.

(** ** State *)

(** [struct quic_stream] without the unused [writebuf]. *)
Record quic_stream : Set := QuicStream {
  stream_id : Z;
  sdata : list Z;
  datalen : Z;
  nwrite : Z;
}.

Definition stream_reset (s : quic_stream) : quic_stream :=
  {| stream_id := -1; sdata := sdata s; datalen := 0; nwrite := 0 |}.

Section quic.
Context {C W : Type} `{!Ngtcp2 C, !Host W}.

(** What the functions of verifier_quic.h use of [struct verifier]: the
    connection, the streams of the slots, the socket and the last error's code;
    and the world. [q_accepted] records the stream bytes ngtcp2
    accepted, in order, with their stream. *)
Record quic : Type := Quic {
  q_conn : option C;
  q_slots : list quic_stream;
  q_sock : Z;
  q_last_error : Z;
  q_accepted : list (Z * list Z);
  q_world : W;
}.

Definition set_conn (s : quic) (c : C) : quic :=
  {| q_conn := Some c; q_slots := q_slots s; q_sock := q_sock s; q_last_error := q_last_error s;
     q_accepted := q_accepted s; q_world := q_world s |}.
Definition set_slots (s : quic) (l : list quic_stream) : quic :=
  {| q_conn := q_conn s; q_slots := l; q_sock := q_sock s; q_last_error := q_last_error s;
     q_accepted := q_accepted s; q_world := q_world s |}.
Definition set_error (s : quic) (e : Z) : quic :=
  {| q_conn := q_conn s; q_slots := q_slots s; q_sock := q_sock s; q_last_error := e;
     q_accepted := q_accepted s; q_world := q_world s |}.
Definition set_qworld (s : quic) (w : W) : quic :=
  {| q_conn := q_conn s; q_slots := q_slots s; q_sock := q_sock s; q_last_error := q_last_error s;
     q_accepted := q_accepted s; q_world := w |}.
Definition log_accepted (s : quic) (id : Z) (b : list Z) : quic :=
  {| q_conn := q_conn s; q_slots := q_slots s; q_sock := q_sock s; q_last_error := q_last_error s;
     q_accepted := q_accepted s ++ [(id, b)]; q_world := q_world s |}.

(** The connection, dereferenced by ngtcp2. *)
Definition get_conn : M quic C := fun s =>
  match q_conn s with Some c => Ret (c, s) | None => Undef NullDeref end.

Definition timestamp : M quic Z := fun s =>
  match clock_gettime (q_world s) with
  | (None, _) => Exit 1
  | (Some (sec, nsec), w) => Ret (u64 (u64 sec * NGTCP2_SECONDS + u64 nsec), set_qworld s w)
  end.

(** The [do ... while] around [sendmsg]. *)
Fixpoint verifier_send_packet (fuel : nat) (pkt : list Z) : M quic Z := fun s =>
  match fuel with
  | O => OutOfFuel
  | S fuel =>
      match sendmsg (q_sock s) pkt (q_world s) with
      | (inr e, w) =>
          if e =? SEND_EINTR then verifier_send_packet fuel pkt (set_qworld s w)
          else Ret (-1, set_qworld s w)
      | (inl _, w) => Ret (0, set_qworld s w)
      end
  end.

(** The stream of slot 0, if there is something to send from it, and the
    bytes; a stream that is sent is reset. [datavcnt] is 1 at the only call. *)
Definition verifier_prep_vec : M quic (option (Z * list Z)) := fun s =>
  match q_slots s with
  | [] => Undef OutOfBounds
  | st :: rest =>
      if negb (stream_id st =? -1) && (nwrite st <? datalen st)
      then Ret (Some (stream_id st, take (Z.to_nat (datalen st - nwrite st))
                                      (drop (Z.to_nat (nwrite st)) (sdata st))), s)
      else if negb (stream_id st =? -1)
      then Ret (None, set_slots s (stream_reset st :: rest))
      else Ret (None, s)
  end.

(** [stream->nwrite += (size_t)wdatalen] on the stream of [verifier_prep_vec]. *)
Definition stream_advance (vec : option (Z * list Z)) (n : Z) : M quic unit := fun s =>
  match vec, q_slots s with
  | Some (id, bytes), st :: rest =>
      Ret (tt, log_accepted
        (set_slots s ({| stream_id := stream_id st; sdata := sdata st; datalen := datalen st;
                         nwrite := u64 (nwrite st + u64 n) |} :: rest))
        id (take (Z.to_nat n) bytes))
  | None, _ => Undef NullDeref
  | _, [] => Undef OutOfBounds
  end.

Definition vec_stream (vec : option (Z * list Z)) : Z :=
  match vec with Some (id, _) => id | None => -1 end.
Definition vec_data (vec : option (Z * list Z)) : list Z :=
  match vec with Some (_, b) => b | None => [] end.
(** [fin] is set exactly when there is a stream to write. *)
Definition vec_flags (vec : option (Z * list Z)) : Z :=
  match vec with
  | Some _ => Z.lor NGTCP2_WRITE_STREAM_FLAG_MORE NGTCP2_WRITE_STREAM_FLAG_FIN
  | None => NGTCP2_WRITE_STREAM_FLAG_MORE
  end.

(** [fuel] bounds the iterations of the [for (;;)] loop and the retries of
    each [sendmsg]. *)
Fixpoint flush_loop (fuel : nat) (ts : Z) : M quic Z :=
  match fuel with
  | O => fun _ => OutOfFuel
  | S fuel =>
      vec ← verifier_prep_vec;
      c ← get_conn;
      let '(r, c) := ngtcp2_conn_writev_stream c (vec_flags vec) (vec_stream vec) (vec_data vec) ts in
      modify (fun s => set_conn s c);;
      if wv_nwrite r <? 0 then
        if wv_nwrite r =? NGTCP2_ERR_WRITE_MORE then
          stream_advance vec (wv_datalen r);;
          flush_loop fuel ts
        else
          modify (fun s => set_error s (ccerr_liberr_code (wv_nwrite r)));;
          mret (-1)
      else if wv_nwrite r =? 0 then mret 0
      else
        (if 0 <? wv_datalen r then stream_advance vec (wv_datalen r) else mret tt);;
        e ← verifier_send_packet fuel (take (Z.to_nat (wv_nwrite r)) (wv_packet r));
        if negb (e =? 0) then mret 0 else flush_loop fuel ts
  end.

Definition verifier_flush_out (fuel : nat) : M quic Z :=
  ts ← timestamp;
  flush_loop fuel ts.

(** Returned as a [uint64_t]. *)
Definition verifier_quic_flush (fuel : nat) : M quic Z :=
  r ← verifier_flush_out fuel;
  if negb (r =? 0) then mret (u64 (-1))
  else
    c ← get_conn;
    let expiry := ngtcp2_conn_get_expiry2 c in
    now ← timestamp;
    mret (if expiry <? now then MAX_TIMEOUT else u64 (expiry - now)).

(** The [int] result is a negative ngtcp2 error or the slot, always 0. *)
Definition verifier_quic_get_slot : M quic Z :=
  c ← get_conn;
  let '((rv, id), c) := ngtcp2_conn_open_bidi_stream c in
  modify (fun s => set_conn s c);;
  if negb (rv =? 0) then mret rv
  else
    s ← gets (fun s => s);
    match q_slots s with
    | [] => undef OutOfBounds
    | st :: rest =>
        modify (fun s => set_slots s ({| stream_id := id; sdata := sdata st;
                                         datalen := datalen st; nwrite := nwrite st |} :: rest));;
        mret 0
    end.

(** [memcpy] at [data + datalen], without a bound check of its own: past the
    array, or on a slot that does not exist, the behaviour is undefined. *)
Definition verifier_quic_slot_writev (slot_id : Z) (bytes : list Z) (len : Z) : M quic unit := fun s =>
  match arr_get (q_slots s) slot_id with
  | None => Undef OutOfBounds
  | Some st =>
      if (Z.of_nat (length bytes) <? len) ||
         (Z.of_nat (length (sdata st)) <? datalen st + len)
      then Undef OutOfBounds
      else
        let d := take (Z.to_nat (datalen st)) (sdata st) ++ take (Z.to_nat len) bytes ++
                 drop (Z.to_nat (datalen st + len)) (sdata st) in
        Ret (tt, set_slots s (<[Z.to_nat slot_id :=
          {| stream_id := stream_id st; sdata := d; datalen := u64 (datalen st + len);
             nwrite := nwrite st |}]> (q_slots s)))
  end.

Definition verifier_quic_handle_expiry : M quic Z :=
  ts ← timestamp;
  c ← get_conn;
  let '(rv, c) := ngtcp2_conn_handle_expiry c ts in
  modify (fun s => set_conn s c);;
  mret (if negb (rv =? 0) then -1 else 0).

(** [readbuf] is the bytes received. *)
Definition verifier_quic_read (readbuf : list Z) : M quic Z :=
  ts ← timestamp;
  c ← get_conn;
  let '(rv, c) := ngtcp2_conn_read_pkt c readbuf ts in
  modify (fun s => set_conn s c);;
  if negb (rv =? 0) then
    modify (fun s =>
      if q_last_error s =? 0 then
        set_error s (if rv =? NGTCP2_ERR_CRYPTO
                     then ccerr_tls_alert_code (ngtcp2_conn_get_tls_alert2 c)
                     else ccerr_liberr_code rv)
      else s);;
    mret (-1)
  else mret 0.

(** [verifier_verify_hash] (src/verifier.c): the [int] of
    [verifier_quic_get_slot] is stored in a [size_t] and not checked, and the
    result of the flush is ignored. *)
Definition verifier_verify_hash (fuel : nat) (pathlen : Z) (pathname : list Z)
    (hashlen : Z) (hash : list Z) : M quic unit :=
  r ← verifier_quic_get_slot;
  let slot_id := u64 r in
  verifier_quic_slot_writev slot_id hash hashlen;;
  verifier_quic_slot_writev slot_id pathname pathlen;;
  verifier_quic_flush fuel;;
  mret tt.
End quic.
Arguments quic : clear implicits.

(** ** What the client relies on *)

(** Documented behaviour of [ngtcp2_conn_writev_stream]: [WRITE_MORE] is only
    returned when stream data was given, and never more bytes are taken than
    were given. [conn_budget] bounds the packets a connection can still write
    before it has to wait (congestion control, no data left). *)
Class Ngtcp2Laws (C : Type) `{!Ngtcp2 C} := {
  write_more_neg : NGTCP2_ERR_WRITE_MORE < 0;
  conn_budget : C -> nat;
  writev_more c fl id data ts r c' :
    ngtcp2_conn_writev_stream c fl id data ts = (r, c') ->
    wv_nwrite r = NGTCP2_ERR_WRITE_MORE ->
    id <> -1 /\ 0 <= wv_datalen r <= Z.of_nat (length data);
  writev_data c fl id data ts r c' :
    ngtcp2_conn_writev_stream c fl id data ts = (r, c') -> 0 <= wv_nwrite r ->
    wv_datalen r <= Z.of_nat (length data) /\ (id = -1 -> wv_datalen r <= 0);
  writev_progress c fl id data ts r c' :
    ngtcp2_conn_writev_stream c fl id data ts = (r, c') -> wv_nwrite r <> 0 ->
    (conn_budget c' < conn_budget c)%nat;
}.

(** Documented behaviour of [ngtcp2_conn_open_bidi_stream]: the result is 0 or a
    negative [int] error, stream ids are not negative, and a new stream has a
    larger id than those before it; [next_stream] bounds the ids given out.
    Nothing is said of when a stream is granted: before the handshake, or when
    the peer's limit is reached, it is not. *)
Class StreamLaws (C : Type) `{!Ngtcp2 C} := {
  next_stream : C -> Z;
  open_stream c rv id c' :
    ngtcp2_conn_open_bidi_stream c = ((rv, id), c') ->
    - 2 ^ 31 <= rv <= 0 /\ (rv = 0 -> 0 <= id /\ next_stream c <= id < next_stream c');
  writev_next c fl id data ts r c' :
    ngtcp2_conn_writev_stream c fl id data ts = (r, c') -> next_stream c <= next_stream c';
  read_next c pkt ts rv c' : ngtcp2_conn_read_pkt c pkt ts = (rv, c') -> next_stream c <= next_stream c';
  expiry_next c ts rv c' : ngtcp2_conn_handle_expiry c ts = (rv, c') -> next_stream c <= next_stream c';
}.

(** The clock works, and [sendmsg] is interrupted finitely often. *)
Class HostLaws (W : Type) `{!Host W} := {
  eintr_budget : W -> nat;
  clock_ok w : exists sec nsec w', clock_gettime w = (Some (sec, nsec), w') /\
    (eintr_budget w' <= eintr_budget w)%nat;
  sendmsg_eintr fd pkt w w' :
    sendmsg fd pkt w = (inr SEND_EINTR, w') -> (eintr_budget w' < eintr_budget w)%nat;
  sendmsg_other fd pkt w r w' :
    sendmsg fd pkt w = (r, w') -> (eintr_budget w' <= eintr_budget w)%nat;
}.

(** ** Invariant of a stream slot *)

Definition slot_wf (st : quic_stream) : Prop :=
  Z.of_nat (length (sdata st)) = STREAM_DATA_SIZE /\
  0 <= nwrite st <= datalen st /\ datalen st <= STREAM_DATA_SIZE.

(** A slot without a stream holds nothing. *)
Definition tidy (st : quic_stream) : Prop := stream_id st = -1 -> datalen st = 0.

(** The bytes of a slot's stream that are still to be sent. *)
Definition unsent (st : quic_stream) : list Z :=
  if stream_id st =? -1 then []
  else take (Z.to_nat (datalen st - nwrite st)) (drop (Z.to_nat (nwrite st)) (sdata st)).

Lemma unsent_length st :
  slot_wf st -> stream_id st <> -1 -> Z.of_nat (length (unsent st)) = datalen st - nwrite st.
Proof.
  intros (Hl & Hn & Hd) Hid. unfold unsent. rewrite (proj2 (Z.eqb_neq _ _) Hid).
  rewrite length_take, length_drop. lia.
Qed.

Lemma take_drop_split {A} (l : list A) (a b k : nat) :
  (k <= b)%nat -> take b (drop a l) = take k (take b (drop a l)) ++ take (b - k) (drop (a + k) l).
Proof.
  intros Hk. rewrite take_take, Nat.min_l by done. rewrite <- drop_drop.
  rewrite take_take_drop. f_equal. lia.
Qed.

(** The slot after [k] more bytes were taken. *)
Definition advance (st : quic_stream) (k : Z) : quic_stream :=
  {| stream_id := stream_id st; sdata := sdata st; datalen := datalen st;
     nwrite := u64 (nwrite st + u64 k) |}.

Lemma advance_nwrite st k :
  slot_wf st -> 0 <= k <= datalen st - nwrite st -> nwrite (advance st k) = nwrite st + k.
Proof.
  intros (_ & Hn & Hd) Hk. unfold STREAM_DATA_SIZE in Hd. simpl. rewrite (u64_small k) by lia. by rewrite u64_small by lia.
Qed.

Lemma advance_unsent st k :
  slot_wf st -> stream_id st <> -1 -> 0 <= k <= datalen st - nwrite st ->
  slot_wf (advance st k) /\
  unsent st = take (Z.to_nat k) (unsent st) ++ unsent (advance st k).
Proof.
  intros Hwf Hid Hk. pose proof (advance_nwrite st k Hwf Hk) as Hnw.
  destruct Hwf as (Hl & Hn & Hd). split.
  - unfold slot_wf. rewrite Hnw. simpl. lia.
  - unfold unsent. rewrite Hnw. simpl stream_id. rewrite (proj2 (Z.eqb_neq _ _) Hid).
    simpl datalen. simpl sdata.
    rewrite (take_drop_split (sdata st) (Z.to_nat (nwrite st)) _ (Z.to_nat k)) at 1 by lia.
    do 2 f_equal; [lia|f_equal; lia].
Qed.

Section flush.
Context {C W : Type} `{!Ngtcp2 C, !Host W, !Ngtcp2Laws C, !HostLaws W}.
Implicit Types s : quic C W.

(** Sending a packet changes the world only, if it ends. *)
Lemma send_packet_part fuel pkt s :
  verifier_send_packet fuel pkt s = OutOfFuel \/
  exists r w, verifier_send_packet fuel pkt s = Ret (r, set_qworld s w) /\
    (eintr_budget w <= eintr_budget (q_world s))%nat.
Proof.
  revert s. induction fuel as [|fuel IH]; intros s; [by left|]. cbn [verifier_send_packet].
  destruct (sendmsg (q_sock s) pkt (q_world s)) as [[n|e] w] eqn:Hs;
    pose proof (sendmsg_other _ _ _ _ _ Hs) as Hle; [eauto|].
  destruct (Z.eqb_spec e SEND_EINTR) as [->|]; [|eauto].
  destruct (IH (set_qworld s w)) as [->|(r & w' & -> & Hw)]; [by left|].
  right. exists r, w'. simpl in *. split; [done|lia].
Qed.

(** It ends after the interruptions. *)
Lemma send_packet_ends fuel pkt s :
  (eintr_budget (q_world s) < fuel)%nat -> verifier_send_packet fuel pkt s <> OutOfFuel.
Proof.
  revert s. induction fuel as [|fuel IH]; intros s Hf; [lia|]. cbn [verifier_send_packet].
  destruct (sendmsg (q_sock s) pkt (q_world s)) as [[n|e] w] eqn:Hs; [done|].
  destruct (Z.eqb_spec e SEND_EINTR) as [->|]; [|done].
  apply sendmsg_eintr in Hs. apply IH. simpl. lia.
Qed.

Lemma set_slots_id s : set_slots s (q_slots s) = s.
Proof. by destruct s. Qed.

Lemma prep_vec_ok st rest s :
  q_slots s = st :: rest -> slot_wf st ->
  exists vec st1,
    verifier_prep_vec s = Ret (vec, set_slots s (st1 :: rest)) /\ slot_wf st1 /\
    unsent st1 = unsent st /\
    match vec with
    | Some (id, b) => st1 = st /\ id = stream_id st /\ id <> -1 /\ b = unsent st
    | None => stream_id st1 = -1
    end /\ (tidy st -> tidy st1).
Proof.
  intros Hs Hwf. unfold verifier_prep_vec. rewrite Hs.
  destruct (Z.eqb_spec (stream_id st) (-1)) as [Hid|Hid]; cbn [negb andb].
  { exists None, st. rewrite <- Hs, set_slots_id. done. }
  destruct (Z.ltb_spec (nwrite st) (datalen st)).
  - exists (Some (stream_id st, unsent st)), st. rewrite <- Hs, set_slots_id.
    unfold unsent. rewrite (proj2 (Z.eqb_neq _ _) Hid). done.
  - exists None, (stream_reset st). split; [done|].
    destruct Hwf as (Hl & Hn & Hd). split; [|split; [|by split]].
    + unfold slot_wf. simpl. unfold STREAM_DATA_SIZE in *. lia.
    + unfold unsent. simpl. rewrite (proj2 (Z.eqb_neq _ _) Hid).
      replace (datalen st - nwrite st) with 0 by lia. done.
Qed.

(** What a flush does to slot 0: the bytes ngtcp2 accepted, all on the slot's
    stream, followed by what is left, are what there was to send. *)
Definition flushed (st : quic_stream) (rest : list quic_stream) s s' : Prop :=
  exists st' acc,
    is_Some (q_conn s') /\ q_slots s' = st' :: rest /\ slot_wf st' /\
    q_accepted s' = q_accepted s ++ acc /\
    Forall (fun x => fst x = stream_id st) acc /\
    (stream_id st = -1 -> acc = []) /\
    unsent st = concat (snd <$> acc) ++ unsent st' /\
    (stream_id st' = stream_id st \/ stream_id st' = -1) /\ (tidy st -> tidy st').

Lemma flushed_refl st rest s :
  is_Some (q_conn s) -> q_slots s = st :: rest -> slot_wf st -> flushed st rest s s.
Proof. intros. exists st, []. rewrite app_nil_r. split_and!; auto. Qed.

(** Taking [k] bytes first. *)
Lemma flushed_advance st rest s s1 s' k :
  slot_wf st -> stream_id st <> -1 -> 0 <= k <= Z.of_nat (length (unsent st)) ->
  q_accepted s1 = q_accepted s ++ [(stream_id st, take (Z.to_nat k) (unsent st))] ->
  flushed (advance st k) rest s1 s' -> flushed st rest s s'.
Proof.
  intros Hwf Hid Hk Ha (st' & acc & Hc & Hsl & Hwf' & Hacc & Hall & _ & Hu & Hid' & Ht).
  rewrite unsent_length in Hk by done. destruct (advance_unsent st k Hwf Hid Hk) as [_ Hun].
  exists st', ((stream_id st, take (Z.to_nat k) (unsent st)) :: acc).
  split_and!; try done; [by rewrite Hacc, Ha, <- app_assoc|by constructor|].
  rewrite fmap_cons. cbn [concat snd]. rewrite <- app_assoc, <- Hu. exact Hun.
Qed.

(** An end or a turn of the loop that takes nothing. *)
Lemma flushed_same st st1 rest s s1 s' :
  (stream_id st1 = stream_id st \/ stream_id st1 = -1) -> (tidy st -> tidy st1) -> unsent st1 = unsent st ->
  q_accepted s1 = q_accepted s ->
  flushed st1 rest s1 s' -> flushed st rest s s'.
Proof.
  intros Hid Htd Hu Ha (st' & acc & Hc & Hsl & Hwf' & Hacc & Hall & Hnil & Hun & Hid' & Ht).
  exists st', acc. rewrite <- Ha, <- Hu. split_and!; auto.
  - destruct Hid as [<-|Hid]; [done|]. rewrite (Hnil Hid). constructor.
  - intros He. destruct Hid as [Hid|Hid]; apply Hnil; congruence.
  - destruct Hid as [<-|Hid]; [done|]. right. destruct Hid'; congruence.
Qed.

(** A state [s'] of the loop, on connection [c], that has accounted for
    everything taken since [s]. *)
Definition ready (st : quic_stream) (rest : list quic_stream) s (c : C) s' : Prop :=
  exists st', q_conn s' = Some c /\ q_slots s' = st' :: rest /\ slot_wf st' /\
    forall s'', flushed st' rest s' s'' -> flushed st rest s s''.

Lemma ready_flushed st rest s c s' : ready st rest s c s' -> flushed st rest s s'.
Proof. intros (st' & Hc & Hs & Hwf & Hf). apply Hf, flushed_refl; eauto. Qed.

Lemma ready_world st rest s c s' w : ready st rest s c s' -> ready st rest s c (set_qworld s' w).
Proof.
  intros (st' & Hc & Hs & Hwf & Hf). exists st'. split_and!; [done..|].
  intros s'' (st2 & acc & H). apply Hf. exists st2, acc. exact H.
Qed.

Lemma ready_error st rest s c s' e : ready st rest s c s' -> ready st rest s c (set_error s' e).
Proof.
  intros (st' & Hc & Hs & Hwf & Hf). exists st'. split_and!; [done..|].
  intros s'' (st2 & acc & H). apply Hf. exists st2, acc. exact H.
Qed.

Lemma ready_prep st st1 rest s c :
  slot_wf st1 -> unsent st1 = unsent st ->
  (stream_id st1 = stream_id st \/ stream_id st1 = -1) -> (tidy st -> tidy st1) ->
  ready st rest s c (set_conn (set_slots s (st1 :: rest)) c).
Proof.
  intros Hwf Hu Hid Ht. exists st1. split_and!; [done..|].
  intros s'' Hf. eapply flushed_same; [exact Hid|exact Ht|exact Hu|reflexivity|exact Hf].
Qed.

Lemma ready_advance st rest s c k :
  slot_wf st -> stream_id st <> -1 -> 0 <= k <= Z.of_nat (length (unsent st)) ->
  exists s', stream_advance (Some (stream_id st, unsent st)) k
               (set_conn (set_slots s (st :: rest)) c) = Ret (tt, s') /\
             ready st rest s c s'.
Proof.
  intros Hwf Hid Hk. unfold stream_advance. simpl. eexists. split; [done|].
  exists (advance st k). split; [done|]. split; [done|]. split.
  - rewrite unsent_length in Hk by done. by apply advance_unsent.
  - intros s'' Hf. eapply flushed_advance; [done|done|exact Hk| |exact Hf]. reflexivity.
Qed.

(** What the loop does, if it ends. *)
Lemma flush_loop_part fuel ts st rest s c :
  q_conn s = Some c -> q_slots s = st :: rest -> slot_wf st ->
  flush_loop fuel ts s = OutOfFuel \/
  exists r s', flush_loop fuel ts s = Ret (r, s') /\ flushed st rest s s'.
Proof.
  revert s st c. induction fuel as [|fuel IH]; intros s st c Hc Hs Hwf; [by left|].
  cbn [flush_loop]. destruct (prep_vec_ok st rest s Hs Hwf) as (vec & st1 & Hp & Hwf1 & Hu1 & Hvec & Ht1).
  rewrite (bind_Ret _ _ _ _ _ Hp).
  assert (Hg : get_conn (set_slots s (st1 :: rest)) = Ret (c, set_slots s (st1 :: rest)))
    by (unfold get_conn; simpl; by rewrite Hc).
  rewrite (bind_Ret _ _ _ _ _ Hg). clear Hp Hg.
  destruct (ngtcp2_conn_writev_stream c _ _ _ ts) as [r c'] eqn:Hw.
  set (s2 := set_conn (set_slots s (st1 :: rest)) c').
  assert (Hready : ready st rest s c' s2).
  { apply ready_prep; auto. destruct vec as [[id b]|]; [destruct Hvec as [-> _]|]; auto. }
  assert (Hcont : forall s3, ready st rest s c' s3 -> flush_loop fuel ts s3 = OutOfFuel \/
            exists r' s', flush_loop fuel ts s3 = Ret (r', s') /\ flushed st rest s s').
  { intros s3 (st3 & H1 & H2 & H3 & H4).
    destruct (IH s3 st3 c' H1 H2 H3) as [?|(r' & s' & Hr & Hfl)]; [by left|]. right. eauto. }
  assert (Hadv : vec_stream vec <> -1 -> 0 <= wv_datalen r <= Z.of_nat (length (vec_data vec)) ->
            exists s3, stream_advance vec (wv_datalen r) s2 = Ret (tt, s3) /\ ready st rest s c' s3).
  { destruct vec as [[id b]|]; [|done]. destruct Hvec as (-> & -> & Hid & ->). intros _ Hk.
    by apply ready_advance. }
  rewrite (bind_Ret (modify _) _ _ tt s2) by done.
  destruct (Z.ltb_spec (wv_nwrite r) 0) as [Hneg|Hneg].
  - destruct (Z.eqb_spec (wv_nwrite r) NGTCP2_ERR_WRITE_MORE) as [Hm|Hm].
    + destruct (writev_more _ _ _ _ _ _ _ Hw Hm) as [Hid Hk].
      destruct (Hadv Hid Hk) as (s3 & H3 & Hr3). rewrite (bind_Ret _ _ _ _ _ H3). by apply Hcont.
    + right. eexists _, _. split; [done|]. by eapply ready_flushed, ready_error.
  - destruct (Z.eqb_spec (wv_nwrite r) 0); [right; eauto using ready_flushed|].
    destruct (writev_data _ _ _ _ _ _ _ Hw Hneg) as [Hk Hz].
    assert (H3 : exists s3, (if 0 <? wv_datalen r then stream_advance vec (wv_datalen r) else mret tt) s2
              = Ret (tt, s3) /\ ready st rest s c' s3).
    { destruct (Z.ltb_spec 0 (wv_datalen r)); [|by exists s2].
      apply Hadv; [intros He; specialize (Hz He); lia|lia]. }
    destruct H3 as (s3 & H3 & Hr3). rewrite (bind_Ret _ _ _ _ _ H3).
    destruct (send_packet_part fuel (take (Z.to_nat (wv_nwrite r)) (wv_packet r)) s3) as [He|(e & w & He & _)].
    { left. unfold mbind, M_bind. by rewrite He. }
    rewrite (bind_Ret _ _ _ _ _ He). destruct (negb (e =? 0)).
    + right. eexists _, _. split; [done|]. by eapply ready_flushed, ready_world.
    + by apply Hcont, ready_world.
Qed.

(** In any state the loop ends with fuel above the packets the connection can
    write plus the interruptions of [sendmsg]. *)
Lemma flush_loop_ends fuel ts s :
  (forall c, q_conn s = Some c -> conn_budget c + eintr_budget (q_world s) < fuel)%nat ->
  (0 < fuel)%nat -> flush_loop fuel ts s <> OutOfFuel.
Proof.
  revert s. induction fuel as [|fuel IH]; intros s Hb Hf; [lia|]. cbn [flush_loop].
  assert (Hp : (exists u, verifier_prep_vec s = Undef u) \/
    exists vec l, verifier_prep_vec s = Ret (vec, set_slots s l)).
  { unfold verifier_prep_vec. destruct (q_slots s) as [|st rest] eqn:Hs; [left; eauto|right].
    repeat case_match; try (by eexists _, _); eexists _, (st :: rest); by rewrite <- Hs, set_slots_id. }
  destruct Hp as [[u Hp]|(vec & l & Hp)]; [unfold mbind, M_bind; by rewrite Hp|].
  rewrite (bind_Ret _ _ _ _ _ Hp). unfold get_conn. unfold mbind at 1, M_bind at 1. cbn [q_conn set_slots].
  destruct (q_conn s) as [c|] eqn:Hc; [|done]. specialize (Hb c eq_refl).
  destruct (ngtcp2_conn_writev_stream c _ _ _ ts) as [r c'] eqn:Hw.
  set (s2 := set_conn (set_slots s l) c'). rewrite (bind_Ret (modify _) _ _ tt s2) by done.
  assert (Hgo : forall s3, q_conn s3 = Some c' -> (eintr_budget (q_world s3) <= eintr_budget (q_world s))%nat ->
    wv_nwrite r <> 0 -> flush_loop fuel ts s3 <> OutOfFuel).
  { intros s3 H3 Hw3 Hn. pose proof (writev_progress _ _ _ _ _ _ _ Hw Hn). apply IH; [|lia].
    intros c3 Hc3. rewrite H3 in Hc3. injection Hc3 as <-. lia. }
  assert (Hadv : forall n, (exists u, stream_advance vec n s2 = Undef u) \/
    exists s3, stream_advance vec n s2 = Ret (tt, s3) /\ q_conn s3 = Some c' /\ q_world s3 = q_world s).
  { intros n. unfold stream_advance. cbn. destruct vec as [[id b]|], l; eauto 10. }
  destruct (Z.ltb_spec (wv_nwrite r) 0) as [Hneg|Hneg].
  - destruct (_ =? _); [|done]. destruct (Hadv (wv_datalen r)) as [[u H3]|(s3 & H3 & Hc3 & Hw3)].
    + unfold mbind, M_bind. by rewrite H3.
    + rewrite (bind_Ret _ _ _ _ _ H3). apply Hgo; [done|by rewrite Hw3|lia].
  - destruct (Z.eqb_spec (wv_nwrite r) 0); [done|].
    assert (H3 : (exists u, (if 0 <? wv_datalen r then stream_advance vec (wv_datalen r) else mret tt) s2 = Undef u) \/
      exists s3, (if 0 <? wv_datalen r then stream_advance vec (wv_datalen r) else mret tt) s2 = Ret (tt, s3) /\
        q_conn s3 = Some c' /\ q_world s3 = q_world s) by (destruct (_ <? _); [apply Hadv|right; by exists s2]).
    destruct H3 as [[u H3]|(s3 & H3 & Hc3 & Hw3)]; [unfold mbind, M_bind; by rewrite H3|].
    rewrite (bind_Ret _ _ _ _ _ H3). set (pkt := take _ _). pose proof (writev_progress _ _ _ _ _ _ _ Hw ltac:(done)).
    pose proof (send_packet_ends fuel pkt s3 ltac:(rewrite Hw3; lia)) as He.
    destruct (send_packet_part fuel pkt s3) as [?|(e & w & Hsp & Hle)]; [done|]. rewrite (bind_Ret _ _ _ _ _ Hsp).
    destruct (negb _); [done|]. apply Hgo; [done|cbn; by rewrite <- Hw3|done].
Qed.

Lemma flush_loop_ok fuel ts st rest s c :
  q_conn s = Some c -> q_slots s = st :: rest -> slot_wf st ->
  (conn_budget c + eintr_budget (q_world s) < fuel)%nat ->
  exists r s', flush_loop fuel ts s = Ret (r, s') /\ flushed st rest s s'.
Proof.
  intros Hc Hs Hwf Hb. destruct (flush_loop_part fuel ts st rest s c Hc Hs Hwf) as [Hx|?]; [|done].
  destruct (flush_loop_ends fuel ts s); [|lia|done]. intros c0 Hc0. rewrite Hc in Hc0. by injection Hc0 as <-.
Qed.
End flush.

(** ** Writing into a slot *)

(** The bytes stored in a slot and not sent, whatever its stream. *)
Definition leftover (st : quic_stream) : list Z :=
  take (Z.to_nat (datalen st - nwrite st)) (drop (Z.to_nat (nwrite st)) (sdata st)).

Definition with_stream (st : quic_stream) (id : Z) : quic_stream :=
  {| stream_id := id; sdata := sdata st; datalen := datalen st; nwrite := nwrite st |}.

Definition slot_append (st : quic_stream) (b : list Z) : quic_stream :=
  {| stream_id := stream_id st;
     sdata := take (Z.to_nat (datalen st)) (sdata st) ++ b ++
              drop (Z.to_nat (datalen st + Z.of_nat (length b))) (sdata st);
     datalen := u64 (datalen st + Z.of_nat (length b));
     nwrite := nwrite st |}.

Lemma slot_append_wf st b :
  slot_wf st -> datalen st + Z.of_nat (length b) <= STREAM_DATA_SIZE ->
  slot_wf (slot_append st b) /\ datalen (slot_append st b) = datalen st + Z.of_nat (length b) /\
  leftover (slot_append st b) = leftover st ++ b.
Proof.
  intros (Hl & Hn & Hd) Hb. unfold STREAM_DATA_SIZE in *.
  assert (Hu : u64 (datalen st + Z.of_nat (length b)) = datalen st + Z.of_nat (length b))
    by (apply u64_small; lia).
  split; [|split; [done|]].
  - unfold slot_wf, STREAM_DATA_SIZE. cbn [slot_append sdata datalen nwrite]. rewrite Hu.
    rewrite !length_app, length_take, length_drop. lia.
  - unfold leftover. cbn [slot_append sdata datalen nwrite]. rewrite Hu.
    rewrite drop_app_le by (rewrite length_take; lia).
    replace (Z.to_nat (datalen st + Z.of_nat (length b) - nwrite st))
      with (Z.to_nat (datalen st - nwrite st) + length b)%nat by lia.
    assert (Hx : drop (Z.to_nat (nwrite st)) (take (Z.to_nat (datalen st)) (sdata st)) =
                 take (Z.to_nat (datalen st - nwrite st)) (drop (Z.to_nat (nwrite st)) (sdata st))).
    { rewrite take_drop_commute. do 2 f_equal. lia. }
    rewrite Hx, app_assoc. rewrite take_app_le.
    + rewrite take_ge; [done|]. rewrite length_app, length_take. lia.
    + rewrite length_app, length_take, length_drop. lia.
Qed.

Section verify.
Context {C W : Type} `{!Ngtcp2 C, !Host W, !Ngtcp2Laws C, !HostLaws W}.
Implicit Types s : quic C W.

Lemma slot_writev_ok s st rest bytes len :
  q_slots s = st :: rest -> slot_wf st ->
  0 <= len <= Z.of_nat (length bytes) -> datalen st + len <= STREAM_DATA_SIZE ->
  verifier_quic_slot_writev 0 bytes len s =
  Ret (tt, set_slots s (slot_append st (take (Z.to_nat len) bytes) :: rest)).
Proof.
  intros Hs (Hl & Hn & Hd) Hlen Hfit. unfold verifier_quic_slot_writev. rewrite Hs. simpl.
  destruct (Z.ltb_spec (Z.of_nat (length bytes)) len); [lia|].
  destruct (Z.ltb_spec (Z.of_nat (length (sdata st))) (datalen st + len)); [lia|]. simpl.
  unfold slot_append. rewrite length_take, Nat.min_l by lia. by rewrite Z2Nat.id by lia.
Qed.

Lemma slot_writev_out s st rest bytes len :
  q_slots s = st :: rest -> slot_wf st -> STREAM_DATA_SIZE < datalen st + len ->
  verifier_quic_slot_writev 0 bytes len s = Undef OutOfBounds.
Proof.
  intros Hs (Hl & Hn & Hd) Hfit. unfold verifier_quic_slot_writev. rewrite Hs. simpl.
  destruct (Z.ltb_spec (Z.of_nat (length (sdata st))) (datalen st + len)); [|lia].
  by rewrite orb_true_r.
Qed.

Lemma get_slot_ok s st rest c id c' :
  q_conn s = Some c -> q_slots s = st :: rest ->
  ngtcp2_conn_open_bidi_stream c = ((0, id), c') ->
  verifier_quic_get_slot s = Ret (0, set_slots (set_conn s c') (with_stream st id :: rest)).
Proof.
  intros Hc Hs Ho. unfold verifier_quic_get_slot, get_conn. mrun. rewrite Hc, Ho. simpl.
  by rewrite Hs.
Qed.

Lemma timestamp_ok s :
  exists t w, timestamp s = Ret (t, set_qworld s w) /\
    (eintr_budget w <= eintr_budget (q_world s))%nat.
Proof.
  unfold timestamp. destruct (clock_ok (q_world s)) as (sec & nsec & w & -> & Hw). eauto.
Qed.

(** A flush, if it ends. *)
Lemma quic_flush_part fuel s st rest c :
  q_conn s = Some c -> q_slots s = st :: rest -> slot_wf st ->
  verifier_quic_flush fuel s = OutOfFuel \/
  exists r s', verifier_quic_flush fuel s = Ret (r, s') /\ flushed st rest s s'.
Proof.
  intros Hc Hs Hwf. unfold verifier_quic_flush, verifier_flush_out.
  destruct (timestamp_ok s) as (t & w & Ht & _).
  assert (H1 : (ts ← timestamp; flush_loop fuel ts) s = flush_loop fuel t (set_qworld s w))
    by (by rewrite (bind_Ret _ _ _ _ _ Ht)).
  destruct (flush_loop_part fuel t st rest (set_qworld s w) c Hc Hs Hwf) as [Hr|(r & s1 & Hr & Hfl)];
    rewrite Hr in H1.
  { left. unfold mbind at 1, M_bind at 1. by rewrite H1. }
  right. rewrite (bind_Ret _ _ _ _ _ H1).
  assert (Hfl' : flushed st rest s s1) by (destruct Hfl as (st' & acc & H); by exists st', acc).
  destruct (negb (r =? 0)); [by eexists _, s1|].
  destruct (Hfl') as (st' & acc & [c1 Hc1] & Hrest).
  assert (Hg : get_conn s1 = Ret (c1, s1)) by (unfold get_conn; by rewrite Hc1).
  rewrite (bind_Ret _ _ _ _ _ Hg). destruct (timestamp_ok s1) as (t2 & w2 & Ht2 & _).
  rewrite (bind_Ret _ _ _ _ _ Ht2). eexists _, _. split; [done|].
  exists st', acc. simpl. rewrite Hc1. split; [eauto|exact Hrest].
Qed.

Lemma quic_flush_ends fuel s :
  (forall c, q_conn s = Some c -> conn_budget c + eintr_budget (q_world s) < fuel)%nat ->
  (0 < fuel)%nat -> verifier_quic_flush fuel s <> OutOfFuel.
Proof.
  intros Hb Hf. unfold verifier_quic_flush, verifier_flush_out.
  destruct (timestamp_ok s) as (t & w & Ht & Hw).
  assert (H1 : (ts ← timestamp; flush_loop fuel ts) s = flush_loop fuel t (set_qworld s w))
    by (by rewrite (bind_Ret _ _ _ _ _ Ht)).
  pose proof (flush_loop_ends fuel t (set_qworld s w)) as He. rewrite <- H1 in He.
  unfold mbind at 1, M_bind at 1. destruct ((ts ← timestamp; flush_loop fuel ts) s) as [[r s1]| | | |]; try done.
  - destruct (negb _); [done|]. unfold get_conn. unfold mbind at 1, M_bind at 1.
    destruct (q_conn s1); [|done]. destruct (timestamp_ok s1) as (t2 & w2 & Ht2 & _).
    by rewrite (bind_Ret _ _ _ _ _ Ht2).
  - destruct He; [|done..]. intros c Hc. specialize (Hb c Hc). simpl. lia.
Qed.

Lemma quic_flush_ok fuel s st rest c :
  q_conn s = Some c -> q_slots s = st :: rest -> slot_wf st ->
  (conn_budget c + eintr_budget (q_world s) < fuel)%nat ->
  exists r s', verifier_quic_flush fuel s = Ret (r, s') /\ flushed st rest s s'.
Proof.
  intros Hc Hs Hwf Hb. destruct (quic_flush_part fuel s st rest c Hc Hs Hwf) as [Hx|?]; [|done].
  destruct (quic_flush_ends fuel s); [|lia|done]. intros c0 Hc0. rewrite Hc in Hc0. by injection Hc0 as <-.
Qed.

(** No stream is opened by a flush. *)
Definition streams_kept `{!StreamLaws C} s s' : Prop :=
  forall c, q_conn s = Some c -> exists c', q_conn s' = Some c' /\ next_stream c <= next_stream c'.

Lemma flush_loop_streams `{!StreamLaws C} fuel ts s r s' : flush_loop fuel ts s = Ret (r, s') -> streams_kept s s'.
Proof.
  revert s. induction fuel as [|fuel IH]; intros s; [done|]. cbn [flush_loop]. intros Hr c Hc.
  apply bind_Ret_inv in Hr as (vec & s1 & Hp & Hr).
  assert (Hc1 : q_conn s1 = Some c) by (revert Hp; unfold verifier_prep_vec; repeat case_match; intros; by simplify_eq/=).
  unfold get_conn in Hr. unfold mbind at 1, M_bind at 1 in Hr. rewrite Hc1 in Hr.
  destruct (ngtcp2_conn_writev_stream c _ _ _ ts) as [wr c1] eqn:Hw. pose proof (writev_next _ _ _ _ _ _ _ Hw) as Hle.
  rewrite (bind_Ret (modify _) _ _ tt (set_conn s1 c1)) in Hr by done.
  assert (Hgo : forall s2, q_conn s2 = Some c1 -> flush_loop fuel ts s2 = Ret (r, s') ->
    exists c', q_conn s' = Some c' /\ next_stream c <= next_stream c').
  { intros s2 H2 Hl. destruct (IH s2 Hl c1 H2) as (c' & ? & ?). exists c'. split; [done|lia]. }
  assert (Hadv : forall n s2, stream_advance vec n (set_conn s1 c1) = Ret (tt, s2) -> q_conn s2 = Some c1)
    by (intros n s2; unfold stream_advance; repeat case_match; intros; by simplify_eq/=).
  destruct (_ <? 0).
  - destruct (_ =? _); [|injection Hr as <- <-; by exists c1].
    apply bind_Ret_inv in Hr as ([] & s2 & Ha & Hr). by eapply Hgo; [eapply Hadv|].
  - destruct (_ =? 0); [injection Hr as <- <-; by exists c1|].
    apply bind_Ret_inv in Hr as ([] & s2 & Ha & Hr).
    assert (H2 : q_conn s2 = Some c1) by (destruct (0 <? _); [by eapply Hadv|by injection Ha as <-]).
    apply bind_Ret_inv in Hr as (e & s3 & He & Hr).
    assert (H3 : q_conn s3 = Some c1).
    { set (pkt := take _ _) in He. by destruct (send_packet_part fuel pkt s2) as [Hx|(e' & w & Hx & _)]; rewrite Hx in He; simplify_eq. }
    destruct (negb _); [injection Hr as <- <-; by exists c1|]. by eapply Hgo.
Qed.

Lemma quic_flush_streams `{!StreamLaws C} fuel s r s' : verifier_quic_flush fuel s = Ret (r, s') -> streams_kept s s'.
Proof.
  unfold verifier_quic_flush, verifier_flush_out. intros Hr c Hc.
  apply bind_Ret_inv in Hr as (r1 & s1 & Hf & Hr). apply bind_Ret_inv in Hf as (ts & s0 & Ht & Hf).
  assert (H0 : q_conn s0 = Some c) by (revert Ht; unfold timestamp; repeat case_match; intros; by simplify_eq/=).
  destruct (flush_loop_streams _ _ _ _ _ Hf c H0) as (c1 & H1 & Hle). exists c1. split; [|done].
  destruct (negb _); [by injection Hr as <- <-|]. apply bind_Ret_inv in Hr as (c2 & s2 & Hg & Hr).
  assert (s2 = s1) as -> by (revert Hg; unfold get_conn; case_match; intros; by simplify_eq).
  apply bind_Ret_inv in Hr as (t & s2 & Hn & Hr). injection Hr as <- <-.
  revert Hn. unfold timestamp. repeat case_match; intros; by simplify_eq/=.
Qed.

(** Enough fuel for what the state holds. *)
Definition fuel_for s : nat := S (match q_conn s with Some c => conn_budget c | None => 0 end + eintr_budget (q_world s)).

Lemma quic_flush_fuel fuel s : (fuel_for s <= fuel)%nat -> verifier_quic_flush fuel s <> OutOfFuel.
Proof. unfold fuel_for. intros Hf. apply quic_flush_ends; [|lia]. intros c Hc. rewrite Hc in Hf. lia. Qed.

(** A report ends with enough fuel, whatever the state. *)
Lemma verify_hash_ends s pathlen pathname hashlen hash :
  exists n, forall fuel, (n <= fuel)%nat ->
    verifier_verify_hash fuel pathlen pathname hashlen hash s <> OutOfFuel.
Proof.
  set (m := (r ← verifier_quic_get_slot; verifier_quic_slot_writev (u64 r) hash hashlen;;
             verifier_quic_slot_writev (u64 r) pathname pathlen) : M (quic C W) unit).
  assert (Hm : forall fuel, verifier_verify_hash fuel pathlen pathname hashlen hash s = (m;; verifier_quic_flush fuel;; mret tt) s).
  { intros fuel. unfold verifier_verify_hash, m, mbind, M_bind. by repeat case_match. }
  assert (Hn : m s <> OutOfFuel).
  { unfold m, verifier_quic_get_slot, get_conn, verifier_quic_slot_writev, mbind, M_bind, modify, gets, undef, mret, M_ret.
    by repeat case_match; simplify_eq. }
  destruct (m s) as [[[] s1]| | | |] eqn:E; try done.
  2-4: exists 0%nat; intros fuel _; rewrite Hm; unfold mbind, M_bind; by rewrite E.
  exists (fuel_for s1). intros fuel Hf. rewrite Hm, (bind_Ret _ _ _ _ _ E).
  pose proof (quic_flush_fuel fuel s1 Hf) as Hx. unfold mbind, M_bind.
  by destruct (verifier_quic_flush fuel s1) as [[]| | | |].
Qed.
(** A report up to its flush: the record is behind what the slot held. *)
Lemma verify_hash_stores s st rest c id c' fuel pathlen pathname hash :
  q_conn s = Some c -> q_slots s = st :: rest -> slot_wf st ->
  ngtcp2_conn_open_bidi_stream c = ((0, id), c') ->
  Z.of_nat (length hash) = 32 -> 0 <= pathlen <= Z.of_nat (length pathname) ->
  datalen st + 32 + pathlen <= STREAM_DATA_SIZE ->
  exists st2, slot_wf st2 /\ stream_id st2 = id /\ nwrite st2 = nwrite st /\
    datalen st2 = datalen st + 32 + pathlen /\
    leftover st2 = leftover st ++ hash ++ take (Z.to_nat pathlen) pathname /\
    verifier_verify_hash fuel pathlen pathname 32 hash s =
    (verifier_quic_flush fuel;; mret tt) (set_slots (set_conn s c') (st2 :: rest)).
Proof.
  intros Hc Hs Hwf Ho Hh Hp Hfit. unfold verifier_verify_hash.
  rewrite (bind_Ret _ _ _ _ _ (get_slot_ok s st rest c id c' Hc Hs Ho)).
  change (u64 0) with 0. set (s1 := set_slots (set_conn s c') (with_stream st id :: rest)).
  pose proof (slot_append_wf (with_stream st id) hash Hwf) as (Hwf1 & Hd1 & Hl1); [simpl; lia|].
  assert (H1 : verifier_quic_slot_writev 0 hash 32 s1 =
               Ret (tt, set_slots s1 (slot_append (with_stream st id) hash :: rest))).
  { rewrite (slot_writev_ok s1 (with_stream st id) rest); [|done|done|lia|simpl; lia].
    by rewrite take_ge by lia. }
  rewrite (bind_Ret _ _ _ _ _ H1). set (st1 := slot_append (with_stream st id) hash) in *.
  assert (Hlen : Z.of_nat (length (take (Z.to_nat pathlen) pathname)) = pathlen)
    by (rewrite length_take; lia).
  pose proof (slot_append_wf st1 (take (Z.to_nat pathlen) pathname) Hwf1) as (Hwf2 & Hd2 & Hl2);
    [rewrite Hd1, Hlen; simpl; lia|].
  assert (H2 : verifier_quic_slot_writev 0 pathname pathlen (set_slots s1 (st1 :: rest)) =
    Ret (tt, set_slots s1 (slot_append st1 (take (Z.to_nat pathlen) pathname) :: rest))).
  { apply (slot_writev_ok (set_slots s1 (st1 :: rest)) st1 rest); [done|done|done|].
    rewrite Hd1. simpl. lia. }
  rewrite (bind_Ret _ _ _ _ _ H2). exists (slot_append st1 (take (Z.to_nat pathlen) pathname)).
  split_and!; [done|done|done| |by rewrite Hl2, Hl1, <- app_assoc|done].
  rewrite Hd2, Hd1, Hlen. simpl. lia.
Qed.

(** A record that does not fit, and a stream that is not granted. *)
Lemma verify_hash_overflow s st rest c id c' fuel pathlen pathname hash :
  q_conn s = Some c -> q_slots s = st :: rest -> slot_wf st ->
  ngtcp2_conn_open_bidi_stream c = ((0, id), c') ->
  Z.of_nat (length hash) = 32 -> 0 <= pathlen ->
  STREAM_DATA_SIZE < datalen st + 32 + pathlen ->
  verifier_verify_hash fuel pathlen pathname 32 hash s = Undef OutOfBounds.
Proof.
  intros Hc Hs Hwf Ho Hh Hp Hfit. unfold verifier_verify_hash.
  rewrite (bind_Ret _ _ _ _ _ (get_slot_ok s st rest c id c' Hc Hs Ho)).
  change (u64 0) with 0. set (s1 := set_slots (set_conn s c') (with_stream st id :: rest)).
  destruct (Z.lt_ge_cases STREAM_DATA_SIZE (datalen st + 32)) as [Hx|Hx].
  - assert (H1 : verifier_quic_slot_writev 0 hash 32 s1 = Undef OutOfBounds)
      by (apply (slot_writev_out s1 (with_stream st id) rest); [done|done|simpl; lia]).
    unfold mbind, M_bind. by rewrite H1.
  - pose proof (slot_append_wf (with_stream st id) hash Hwf) as (Hwf1 & Hd1 & _); [simpl; lia|].
    assert (H1 : verifier_quic_slot_writev 0 hash 32 s1 =
                 Ret (tt, set_slots s1 (slot_append (with_stream st id) hash :: rest))).
    { rewrite (slot_writev_ok s1 (with_stream st id) rest); [|done|done|lia|simpl; lia].
      by rewrite take_ge by lia. }
    rewrite (bind_Ret _ _ _ _ _ H1).
    assert (H2 : verifier_quic_slot_writev 0 pathname pathlen
      (set_slots s1 (slot_append (with_stream st id) hash :: rest)) = Undef OutOfBounds).
    { eapply slot_writev_out; [done|done|]. rewrite Hd1. simpl. lia. }
    unfold mbind, M_bind. by rewrite H2.
Qed.

Lemma verify_hash_blocked s c rv id c' fuel pathlen pathname hash :
  q_conn s = Some c -> Z.of_nat (length (q_slots s)) = MAX_CONCURRENT_WRITES ->
  ngtcp2_conn_open_bidi_stream c = ((rv, id), c') -> - 2 ^ 31 <= rv < 0 ->
  verifier_verify_hash fuel pathlen pathname 32 hash s = Undef OutOfBounds.
Proof.
  intros Hc Hl Ho Hrv. unfold verifier_verify_hash.
  assert (H1 : verifier_quic_get_slot s = Ret (rv, set_conn s c')).
  { unfold verifier_quic_get_slot, get_conn. mrun. rewrite Hc, Ho. simpl.
    by rewrite (proj2 (Z.eqb_neq rv 0)) by lia. }
  rewrite (bind_Ret _ _ _ _ _ H1). unfold mbind, M_bind, verifier_quic_slot_writev.
  rewrite arr_get_out; [done|]. simpl. rewrite u64_neg by lia.
  unfold MAX_CONCURRENT_WRITES in Hl. lia.
Qed.
End verify.

(** ** Properties *)

Section properties.
Context {C W : Type} `{!Ngtcp2 C, !Host W, !Ngtcp2Laws C, !HostLaws W}.
Implicit Types s : quic C W.

(** C13. What [verifier_verify_hash] sends: once a stream could be opened and
    the record fits in the slot behind the bytes still unsent there, the call
    returns (with fuel above the packets the connection can write and the
    interruptions of [sendmsg]), and the bytes ngtcp2 accepted, all on the new
    stream, followed by what is left to send, are those unsent bytes followed
    by the hash and the path. From an idle slot that is the hash followed by
    the path, each byte once and in order. *)
Theorem verify_hash_sends_record s st rest c id c' fuel pathlen pathname hash :
  q_conn s = Some c -> q_slots s = st :: rest -> slot_wf st ->
  ngtcp2_conn_open_bidi_stream c = ((0, id), c') -> id <> -1 ->
  Z.of_nat (length hash) = 32 -> 0 <= pathlen <= Z.of_nat (length pathname) ->
  datalen st + 32 + pathlen <= STREAM_DATA_SIZE ->
  (conn_budget c' + eintr_budget (q_world s) < fuel)%nat ->
  exists s' st' acc,
    verifier_verify_hash fuel pathlen pathname 32 hash s = Ret (tt, s') /\
    q_slots s' = st' :: rest /\ slot_wf st' /\
    q_accepted s' = q_accepted s ++ acc /\ Forall (fun x => fst x = id) acc /\
    concat (snd <$> acc) ++ unsent st' =
    leftover st ++ hash ++ take (Z.to_nat pathlen) pathname.
Proof.
  intros Hc Hs Hwf Ho Hid Hh Hp Hfit Hf.
  destruct (verify_hash_stores s st rest c id c' fuel pathlen pathname hash Hc Hs Hwf Ho Hh Hp Hfit)
    as (st2 & Hwf2 & Hid2 & _ & _ & Hl2 & ->).
  destruct (quic_flush_ok fuel (set_slots (set_conn s c') (st2 :: rest)) st2 rest c') as
    (r & s' & Hr & st' & acc & _ & Hs' & Hwf' & Ha & Hall & _ & Hu & _); [done..|].
  rewrite (bind_Ret _ _ _ _ _ Hr). exists s', st', acc.
  split_and!; [done|done|done|done|by rewrite <- Hid2|].
  assert (Hun : unsent st2 = leftover st2).
  { unfold unsent. by rewrite Hid2, (proj2 (Z.eqb_neq _ _) Hid). }
  by rewrite <- Hu, Hun, Hl2.
Qed.

(** C31. A record that does not fit behind bytes still unsent in the slot is
    copied past the end of the 256-byte array: the copy is not bounded. *)
Theorem verify_hash_overflows s st rest c id c' fuel pathlen pathname hash :
  q_conn s = Some c -> q_slots s = st :: rest -> slot_wf st ->
  ngtcp2_conn_open_bidi_stream c = ((0, id), c') ->
  Z.of_nat (length hash) = 32 -> 0 <= pathlen ->
  STREAM_DATA_SIZE < datalen st + 32 + pathlen ->
  verifier_verify_hash fuel pathlen pathname 32 hash s = Undef OutOfBounds.
Proof. apply verify_hash_overflow. Qed.

(** C32. When no stream can be opened, the negative error of
    [verifier_quic_get_slot] becomes a huge slot index and the hash is written
    outside the slots. *)
Theorem verify_hash_no_stream s c rv id c' fuel pathlen pathname hash :
  q_conn s = Some c -> Z.of_nat (length (q_slots s)) = MAX_CONCURRENT_WRITES ->
  ngtcp2_conn_open_bidi_stream c = ((rv, id), c') -> - 2 ^ 31 <= rv < 0 ->
  verifier_verify_hash fuel pathlen pathname 32 hash s = Undef OutOfBounds.
Proof. apply verify_hash_blocked. Qed.
End properties.

(** ** Witnesses: a connection that writes a packet per call while it has
    budget, taking at most 100 stream bytes each time *)

Record toy_conn : Set := ToyConn { tc_budget : nat; tc_stream : Z }.

#[export] Instance toy_ngtcp2 : Ngtcp2 toy_conn := {
  NGTCP2_ERR_WRITE_MORE := -240;
  NGTCP2_ERR_CRYPTO := -215;
  ccerr_liberr_code e := - e;
  ccerr_tls_alert_code a := 256 + a;
  ngtcp2_conn_writev_stream c _ id d _ :=
    match tc_budget c with
    | O => (WritevResult 0 (-1) [], c)
    | S b => (WritevResult 1200 (if id =? -1 then -1 else Z.of_nat (length (take 100 d)))
                (replicate 1200 0), ToyConn b (tc_stream c))
    end;
  ngtcp2_conn_open_bidi_stream c :=
    if tc_stream c <? 8 then ((0, tc_stream c), ToyConn (tc_budget c) (tc_stream c + 4))
    else ((-206, 0), c);
  ngtcp2_conn_get_expiry2 _ := 5000000000;
  ngtcp2_conn_handle_expiry c _ := (0, c);
  ngtcp2_conn_read_pkt c _ _ := (0, c);
  ngtcp2_conn_get_tls_alert2 _ := 0;
}.

#[export] Instance toy_ngtcp2_laws : Ngtcp2Laws toy_conn.
Proof.
  refine {| conn_budget := tc_budget |}.
  - by vm_compute.
  - intros c fl id d ts r c'. simpl. destruct (tc_budget c); intros [= <- <-]; simpl; lia.
  - intros c fl id d ts r c'. simpl. destruct (tc_budget c); intros [= <- <-]; simpl; [lia|].
    intros _. destruct (Z.eqb_spec id (-1)); [lia|]. rewrite length_take. lia.
  - intros c fl id d ts r c'. simpl. destruct (tc_budget c) eqn:E; intros [= <- <-]; simpl; lia.
Defined.

#[export] Instance toy_host : Host nat := {
  clock_gettime w := (Some (1, 0), w);
  sendmsg _ pkt w :=
    match w with O => (inl (Z.of_nat (length pkt)), O) | S w => (inr SEND_EINTR, w) end;
}.

#[export] Instance toy_host_laws : HostLaws nat.
Proof.
  refine {| eintr_budget := fun w => w |}.
  - intros w. eexists _, _, _. split; [reflexivity|lia].
  - intros fd pkt w w'. simpl. destruct w; intros [= <-]. lia.
  - intros fd pkt w r w'. simpl. destruct w; intros [= <- <-]; lia.
Defined.

Definition idle_slot : quic_stream :=
  {| stream_id := -1; sdata := replicate 256 0; datalen := 0; nwrite := 0 |}.
Definition busy_slot : quic_stream :=
  {| stream_id := 0; sdata := replicate 256 7; datalen := 150; nwrite := 0 |}.

Definition toy_quic (st : quic_stream) (next : Z) : quic toy_conn nat :=
  {| q_conn := Some (ToyConn 5 next); q_slots := [st; idle_slot; idle_slot; idle_slot];
     q_sock := 9; q_last_error := 0; q_accepted := []; q_world := 2%nat |}.

Definition toy_hash : list Z := seqZ 1 32.
Definition toy_path : list Z := [47; 116; 47; 97; 0].

Lemma slots_wf : slot_wf idle_slot /\ slot_wf busy_slot.
Proof. by repeat split; vm_compute. Qed.

Lemma verify_hash_sends_record_witness :
  exists s' st' acc,
    verifier_verify_hash 10 4 toy_path 32 toy_hash (toy_quic idle_slot 0) = Ret (tt, s') /\
    q_slots s' = st' :: [idle_slot; idle_slot; idle_slot] /\ slot_wf st' /\
    q_accepted s' = [] ++ acc /\ Forall (fun x => fst x = 0) acc /\
    concat (snd <$> acc) ++ unsent st' = toy_hash ++ [47; 116; 47; 97].
Proof.
  apply (verify_hash_sends_record (toy_quic idle_slot 0) idle_slot [idle_slot; idle_slot; idle_slot]
    (ToyConn 5 0) 0 (ToyConn 5 4) 10 4 toy_path toy_hash); try reflexivity;
    [apply slots_wf|lia|simpl; lia|vm_compute; congruence|simpl; lia].
Defined.

(** The slot still holds 150 unsent bytes and a 127-byte path is reported. *)
Lemma verify_hash_overflows_witness :
  verifier_verify_hash 10 127 (replicate 128 97) 32 toy_hash (toy_quic busy_slot 4) = Undef OutOfBounds.
Proof.
  apply (verify_hash_overflows (toy_quic busy_slot 4) busy_slot [idle_slot; idle_slot; idle_slot]
    (ToyConn 5 4) 4 (ToyConn 5 8) 10 127 (replicate 128 97) toy_hash); try reflexivity;
    [apply slots_wf|lia].
Defined.

Lemma verify_hash_no_stream_witness :
  verifier_verify_hash 10 4 toy_path 32 toy_hash (toy_quic idle_slot 8) = Undef OutOfBounds.
Proof.
  apply (verify_hash_no_stream (toy_quic idle_slot 8) (ToyConn 5 8) (-206) 0 (ToyConn 5 8));
    try reflexivity. lia.
Defined.
