(* ===== verification/State.v ===== *)
(** * The state of a processor thread (src/processor.h, src/verifier.h)

    [struct processor] with its verifier, and what it shares with the rest of
    the process: the heap strings, the event queue and this processor's
    eventfd, and the output. The world of system calls is the one in the
    verifier's QUIC state. One thread runs between two system calls at a time,
    so the shared parts are fields of this state; other threads act on the queue
    between its steps. *)

From stdpp Require Import base numbers list list_numbers gmap.
From S2P Require Import Prelude CStr Queue Ev Hasher Slab Quic.

Open Scope Z_scope.

Definition READ_BUF_SIZE : Z := 65536.
Definition OUTPUT_MAX_SIZE : Z := 512.
Definition IORING_OP_POLL_ADD : Z := 6.
Definition IORING_OP_TIMEOUT : Z := 11.
Definition IORING_OP_TIMEOUT_REMOVE : Z := 12.
Definition IORING_OP_CONNECT : Z := 16.
Definition IORING_OP_OPENAT : Z := 18.
Definition IORING_OP_READ : Z := 22.
Definition IORING_OP_SOCKET : Z := 45.
Definition IORING_TIMEOUT_UPDATE : Z := 2.
Definition IORING_POLL_ADD_MULTI : Z := 1.
Definition IORING_CQE_F_MORE : Z := 2.
Definition AT_FDCWD : Z := -100.
Definition O_RDONLY : Z := 0.
Definition EPOLLIN : Z := 1.
Definition EPOLLEXCLUSIVE : Z := 2 ^ 28.
Definition AF_INET : Z := 2.
Definition SOCK_DGRAM : Z := 2.
Definition IPPROTO_UDP : Z := 17.
Definition EBADF : Z := 9.
Definition EINVAL : Z := 22.
Definition SIZEOF_SOCKADDR_IN : Z := 16.
Definition READBUF_SIZE : Z := 65535.

(** What a thread puts out: the calls [write(1, bytes, length)], of which the
    kernel may write less or nothing, and the descriptors it closes. *)
Inductive effect : Set :=
  | EWrite (bytes : list Z)
  | EClose (fd : Z).

Section state.
Context {H C W F : Type}.

Record verifier : Type := Verifier {
  v_conn_req : ev_io_req;
  v_recv_req : ev_io_req;
  v_timer_req : ev_io_req;
  v_expiry : Z * Z;   (* seconds and nanoseconds *)
  v_readbuf : list Z;
  v_remote_addr_len : Z;
  v_local_addr_len : Z;
  v_conn_ref : bool;   (* get_conn and user_data set *)
  v_quic : quic C W;   (* the fields verifier_quic.h uses *)
}.

Definition upd_v_conn_req (x : ev_io_req) (v : verifier) : verifier :=
  {| v_conn_req := x; v_recv_req := v_recv_req v; v_timer_req := v_timer_req v; v_expiry :=
     v_expiry v; v_readbuf := v_readbuf v; v_remote_addr_len := v_remote_addr_len v;
     v_local_addr_len := v_local_addr_len v; v_conn_ref := v_conn_ref v; v_quic := v_quic v |}.
Definition upd_v_recv_req (x : ev_io_req) (v : verifier) : verifier :=
  {| v_conn_req := v_conn_req v; v_recv_req := x; v_timer_req := v_timer_req v; v_expiry :=
     v_expiry v; v_readbuf := v_readbuf v; v_remote_addr_len := v_remote_addr_len v;
     v_local_addr_len := v_local_addr_len v; v_conn_ref := v_conn_ref v; v_quic := v_quic v |}.
Definition upd_v_timer_req (x : ev_io_req) (v : verifier) : verifier :=
  {| v_conn_req := v_conn_req v; v_recv_req := v_recv_req v; v_timer_req := x; v_expiry :=
     v_expiry v; v_readbuf := v_readbuf v; v_remote_addr_len := v_remote_addr_len v;
     v_local_addr_len := v_local_addr_len v; v_conn_ref := v_conn_ref v; v_quic := v_quic v |}.
Definition upd_v_expiry (x : Z * Z) (v : verifier) : verifier :=
  {| v_conn_req := v_conn_req v; v_recv_req := v_recv_req v; v_timer_req := v_timer_req v;
     v_expiry := x; v_readbuf := v_readbuf v; v_remote_addr_len := v_remote_addr_len v;
     v_local_addr_len := v_local_addr_len v; v_conn_ref := v_conn_ref v; v_quic := v_quic v |}.
Definition upd_v_readbuf (x : list Z) (v : verifier) : verifier :=
  {| v_conn_req := v_conn_req v; v_recv_req := v_recv_req v; v_timer_req := v_timer_req v;
     v_expiry := v_expiry v; v_readbuf := x; v_remote_addr_len := v_remote_addr_len v;
     v_local_addr_len := v_local_addr_len v; v_conn_ref := v_conn_ref v; v_quic := v_quic v |}.
Definition upd_v_remote_addr_len (x : Z) (v : verifier) : verifier :=
  {| v_conn_req := v_conn_req v; v_recv_req := v_recv_req v; v_timer_req := v_timer_req v;
     v_expiry := v_expiry v; v_readbuf := v_readbuf v; v_remote_addr_len := x; v_local_addr_len
     := v_local_addr_len v; v_conn_ref := v_conn_ref v; v_quic := v_quic v |}.
Definition upd_v_local_addr_len (x : Z) (v : verifier) : verifier :=
  {| v_conn_req := v_conn_req v; v_recv_req := v_recv_req v; v_timer_req := v_timer_req v;
     v_expiry := v_expiry v; v_readbuf := v_readbuf v; v_remote_addr_len := v_remote_addr_len v;
     v_local_addr_len := x; v_conn_ref := v_conn_ref v; v_quic := v_quic v |}.
Definition upd_v_conn_ref (x : bool) (v : verifier) : verifier :=
  {| v_conn_req := v_conn_req v; v_recv_req := v_recv_req v; v_timer_req := v_timer_req v;
     v_expiry := v_expiry v; v_readbuf := v_readbuf v; v_remote_addr_len := v_remote_addr_len v;
     v_local_addr_len := v_local_addr_len v; v_conn_ref := x; v_quic := v_quic v |}.
Definition upd_v_quic (x : quic C W) (v : verifier) : verifier :=
  {| v_conn_req := v_conn_req v; v_recv_req := v_recv_req v; v_timer_req := v_timer_req v;
     v_expiry := v_expiry v; v_readbuf := v_readbuf v; v_remote_addr_len := v_remote_addr_len v;
     v_local_addr_len := v_local_addr_len v; v_conn_ref := v_conn_ref v; v_quic := x |}.

Record shared : Type := Shared {
  e_heap : gmap nat (list Z);   (* live heap strings, with their terminators *)
  e_brk : nat;   (* next fresh heap address *)
  e_queue : queue;   (* the global queue *)
  e_efd : F;   (* the eventfd of this processor *)
  e_remote_addr : option Z;   (* the static remote_addr of verifier.c: its ai_addrlen *)
  e_out : list effect;   (* output so far *)
}.

Definition upd_e_heap (x : gmap nat (list Z)) (e : shared) : shared :=
  {| e_heap := x; e_brk := e_brk e; e_queue := e_queue e; e_efd := e_efd e; e_remote_addr :=
     e_remote_addr e; e_out := e_out e |}.
Definition upd_e_brk (x : nat) (e : shared) : shared :=
  {| e_heap := e_heap e; e_brk := x; e_queue := e_queue e; e_efd := e_efd e; e_remote_addr :=
     e_remote_addr e; e_out := e_out e |}.
Definition upd_e_queue (x : queue) (e : shared) : shared :=
  {| e_heap := e_heap e; e_brk := e_brk e; e_queue := x; e_efd := e_efd e; e_remote_addr :=
     e_remote_addr e; e_out := e_out e |}.
Definition upd_e_efd (x : F) (e : shared) : shared :=
  {| e_heap := e_heap e; e_brk := e_brk e; e_queue := e_queue e; e_efd := x; e_remote_addr :=
     e_remote_addr e; e_out := e_out e |}.
Definition upd_e_remote_addr (x : option Z) (e : shared) : shared :=
  {| e_heap := e_heap e; e_brk := e_brk e; e_queue := e_queue e; e_efd := e_efd e; e_remote_addr
     := x; e_out := e_out e |}.
Definition upd_e_out (x : list effect) (e : shared) : shared :=
  {| e_heap := e_heap e; e_brk := e_brk e; e_queue := e_queue e; e_efd := e_efd e; e_remote_addr
     := e_remote_addr e; e_out := x |}.

Record processor : Type := Processor {
  p_id : Z;
  p_nr_tasks : Z;
  p_queue_efd : Z;
  p_slab : slab H;   (* reqs, reqs_list, nr_free_reqs *)
  p_buffers : list (list Z);
  p_queue_poll : ev_io_req;
  p_loop : ev_loop;
  p_verifier : verifier;
  p_shared : shared;
}.

Definition upd_p_id (x : Z) (p : processor) : processor :=
  {| p_id := x; p_nr_tasks := p_nr_tasks p; p_queue_efd := p_queue_efd p; p_slab := p_slab p;
     p_buffers := p_buffers p; p_queue_poll := p_queue_poll p; p_loop := p_loop p; p_verifier :=
     p_verifier p; p_shared := p_shared p |}.
Definition upd_p_nr_tasks (x : Z) (p : processor) : processor :=
  {| p_id := p_id p; p_nr_tasks := x; p_queue_efd := p_queue_efd p; p_slab := p_slab p;
     p_buffers := p_buffers p; p_queue_poll := p_queue_poll p; p_loop := p_loop p; p_verifier :=
     p_verifier p; p_shared := p_shared p |}.
Definition upd_p_queue_efd (x : Z) (p : processor) : processor :=
  {| p_id := p_id p; p_nr_tasks := p_nr_tasks p; p_queue_efd := x; p_slab := p_slab p; p_buffers
     := p_buffers p; p_queue_poll := p_queue_poll p; p_loop := p_loop p; p_verifier :=
     p_verifier p; p_shared := p_shared p |}.
Definition upd_p_slab (x : slab H) (p : processor) : processor :=
  {| p_id := p_id p; p_nr_tasks := p_nr_tasks p; p_queue_efd := p_queue_efd p; p_slab := x;
     p_buffers := p_buffers p; p_queue_poll := p_queue_poll p; p_loop := p_loop p; p_verifier :=
     p_verifier p; p_shared := p_shared p |}.
Definition upd_p_buffers (x : list (list Z)) (p : processor) : processor :=
  {| p_id := p_id p; p_nr_tasks := p_nr_tasks p; p_queue_efd := p_queue_efd p; p_slab := p_slab
     p; p_buffers := x; p_queue_poll := p_queue_poll p; p_loop := p_loop p; p_verifier :=
     p_verifier p; p_shared := p_shared p |}.
Definition upd_p_queue_poll (x : ev_io_req) (p : processor) : processor :=
  {| p_id := p_id p; p_nr_tasks := p_nr_tasks p; p_queue_efd := p_queue_efd p; p_slab := p_slab
     p; p_buffers := p_buffers p; p_queue_poll := x; p_loop := p_loop p; p_verifier :=
     p_verifier p; p_shared := p_shared p |}.
Definition upd_p_loop (x : ev_loop) (p : processor) : processor :=
  {| p_id := p_id p; p_nr_tasks := p_nr_tasks p; p_queue_efd := p_queue_efd p; p_slab := p_slab
     p; p_buffers := p_buffers p; p_queue_poll := p_queue_poll p; p_loop := x; p_verifier :=
     p_verifier p; p_shared := p_shared p |}.
Definition upd_p_verifier (x : verifier) (p : processor) : processor :=
  {| p_id := p_id p; p_nr_tasks := p_nr_tasks p; p_queue_efd := p_queue_efd p; p_slab := p_slab
     p; p_buffers := p_buffers p; p_queue_poll := p_queue_poll p; p_loop := p_loop p; p_verifier
     := x; p_shared := p_shared p |}.
Definition upd_p_shared (x : shared) (p : processor) : processor :=
  {| p_id := p_id p; p_nr_tasks := p_nr_tasks p; p_queue_efd := p_queue_efd p; p_slab := p_slab
     p; p_buffers := p_buffers p; p_queue_poll := p_queue_poll p; p_loop := p_loop p; p_verifier
     := p_verifier p; p_shared := x |}.

Definition p_quic (p : processor) : quic C W := v_quic (p_verifier p).
Definition upd_p_quic (q : quic C W) (p : processor) : processor :=
  upd_p_verifier (upd_v_quic q (p_verifier p)) p.
Definition emit (x : effect) : M processor unit :=
  modify (fun p => upd_p_shared (upd_e_out (e_out (p_shared p) ++ [x]) (p_shared p)) p).

(** ** Running a component's code inside the thread *)

Definition in_slab {A} (m : M (slab H) A) : M processor A := fun p =>
  match m (p_slab p) with
  | Ret (a, s) => Ret (a, upd_p_slab s p)
  | Exit c => Exit c
  | AssertFailed => AssertFailed
  | Undef u => Undef u
  | OutOfFuel => OutOfFuel
  end.

Definition in_quic {A} (m : M (quic C W) A) : M processor A := fun p =>
  match m (p_quic p) with
  | Ret (a, q) => Ret (a, upd_p_quic q p)
  | Exit c => Exit c
  | AssertFailed => AssertFailed
  | Undef u => Undef u
  | OutOfFuel => OutOfFuel
  end.

#[export] Instance processor_loop_host : LoopHost processor W.
Proof.
  refine {| host_loop := p_loop; host_world := fun p => q_world (p_quic p);
            host_set := fun l w p => upd_p_quic (set_qworld (p_quic p) w) (upd_p_loop l p) |}.
  - by intros l w [].
  - by intros l w [].
Defined.

(** ** Request objects *)

Definition set_pr_req (p : processor_iou_req H) (r : ev_io_req) : processor_iou_req H :=
  {| pr_req := r; pr_hasher := pr_hasher p; pr_next := pr_next p; pr_buffer := pr_buffer p;
     pr_data := pr_data p; pr_data2 := pr_data2 p; in_flight := in_flight p; pr_id := pr_id p |}.

Definition set_pr_hasher (p : processor_iou_req H) (h : hasher H) : processor_iou_req H :=
  {| pr_req := pr_req p; pr_hasher := h; pr_next := pr_next p; pr_buffer := pr_buffer p;
     pr_data := pr_data p; pr_data2 := pr_data2 p; in_flight := in_flight p; pr_id := pr_id p |}.

Definition set_pr_data (p : processor_iou_req H) (d : option nat) (d2 : Z) : processor_iou_req H :=
  {| pr_req := pr_req p; pr_hasher := pr_hasher p; pr_next := pr_next p; pr_buffer := pr_buffer p;
     pr_data := d; pr_data2 := d2; in_flight := in_flight p; pr_id := pr_id p |}.

(** The container of a pointer, and its update. *)
Definition iou_get (i : nat) : M processor (processor_iou_req H) := fun p =>
  match reqs (p_slab p) !! i with Some r => Ret (r, p) | None => Undef BadPointer end.

Definition slab_put (i : nat) (r : processor_iou_req H) (s : slab H) : slab H :=
  {| reqs := <[i := r]> (reqs s); reqs_list := reqs_list s; nr_free_reqs := nr_free_reqs s |}.

Definition put (i : nat) (r : processor_iou_req H) (p : processor) : processor :=
  upd_p_slab (slab_put i r (p_slab p)) p.

Definition iou_put (i : nat) (r : processor_iou_req H) : M processor unit := modify (put i r).

(** Code of hasher.c on the hasher of a container. *)
Definition in_hasher {A} (i : nat) (m : M (hasher H) A) : M processor A :=
  w ← iou_get i;
  match m (pr_hasher w) with
  | Ret (a, h) => iou_put i (set_pr_hasher w h);; mret a
  | Exit c => exit_ c
  | AssertFailed => fun _ => AssertFailed
  | Undef u => undef u
  | OutOfFuel => fun _ => OutOfFuel
  end.

(** The request object at an address. *)
Definition req_at (r : req_ptr) (p : processor) : option ev_io_req :=
  match r with
  | RQueuePoll => Some (p_queue_poll p)
  | RSlot i => pr_req <$> reqs (p_slab p) !! i
  | RConn => Some (v_conn_req (p_verifier p))
  | RRecv => Some (v_recv_req (p_verifier p))
  | RTimer => Some (v_timer_req (p_verifier p))
  end.

Definition req_get (r : req_ptr) : M processor ev_io_req := fun p =>
  match req_at r p with Some q => Ret (q, p) | None => Undef BadPointer end.

Definition req_set (r : req_ptr) (q : ev_io_req) (p : processor) : processor :=
  match r with
  | RQueuePoll => upd_p_queue_poll q p
  | RSlot i =>
      upd_p_slab {| reqs := alter (fun x => set_pr_req x q) i (reqs (p_slab p));
                    reqs_list := reqs_list (p_slab p);
                    nr_free_reqs := nr_free_reqs (p_slab p) |} p
  | RConn => upd_p_verifier (upd_v_conn_req q (p_verifier p)) p
  | RRecv => upd_p_verifier (upd_v_recv_req q (p_verifier p)) p
  | RTimer => upd_p_verifier (upd_v_timer_req q (p_verifier p)) p
  end.

Definition req_put (r : req_ptr) (q : ev_io_req) : M processor unit := modify (req_set r q).

(** [ev_iou_req(loop, req)] on the request at [r]. *)
Definition submit `{!IoUring W} (r : req_ptr) : M processor Z :=
  q ← req_get r;
  in_loop (ev_iou_req r q).

(** ** The heap strings *)

(** [free(s)] of a string pointer; [free(NULL)] does nothing. *)
Definition free_str (a : option nat) : M processor unit := fun p =>
  match a with
  | None => Ret (tt, p)
  | Some a =>
      match e_heap (p_shared p) !! a with
      | None => Undef BadFree
      | Some _ =>
          Ret (tt, upd_p_shared (upd_e_heap (delete a (e_heap (p_shared p))) (p_shared p)) p)
      end
  end.

(** [memset(&processor.verifier, 0, sizeof(struct verifier))]; the world is
    not part of the verifier, nor is the record of accepted bytes. *)
Definition quic_stream_zero : quic_stream :=
  {| stream_id := 0; sdata := replicate (Z.to_nat STREAM_DATA_SIZE) 0; datalen := 0; nwrite := 0 |}.

Definition verifier_zero (q : quic C W) : verifier :=
  {| v_conn_req := ev_io_req_zero; v_recv_req := ev_io_req_zero; v_timer_req := ev_io_req_zero;
     v_expiry := (0, 0); v_readbuf := replicate (Z.to_nat READBUF_SIZE) 0;
     v_remote_addr_len := 0; v_local_addr_len := 0; v_conn_ref := false;
     v_quic := {| q_conn := None;
                  q_slots := replicate (Z.to_nat MAX_CONCURRENT_WRITES) quic_stream_zero;
                  q_sock := 0; q_last_error := 0; q_accepted := q_accepted q;
                  q_world := q_world q |} |}.

(** The bytes a string pointer refers to. *)
Definition read_str (a : option nat) : M processor (list Z) := fun p =>
  match a with
  | None => Undef NullDeref
  | Some a =>
      match e_heap (p_shared p) !! a with Some s => Ret (s, p) | None => Undef BadPointer end
  end.
End state.
Arguments verifier : clear implicits.
Arguments shared : clear implicits.
Arguments processor : clear implicits.

(** ** Lemmas *)

Section lemmas.
Context {H C W F : Type} `{!IoUring W}.
Implicit Types (p : processor H C W F) (w : processor_iou_req H).

Lemma put_lookup i w p :
  (i < length (reqs (p_slab p)))%nat -> reqs (p_slab (put i w p)) !! i = Some w.
Proof. intros Hi. cbn. by apply list_lookup_insert_eq. Qed.

Lemma put_put i w1 w2 p : put i w2 (put i w1 p) = put i w2 p.
Proof. unfold put, slab_put, upd_p_slab. cbn. by rewrite list_insert_insert_eq. Qed.

Lemma put_id i w p : reqs (p_slab p) !! i = Some w -> put i w p = p.
Proof.
  intros Hw. destruct p as [? ? ? [? ? ?] ? ? ? ? ?]. unfold put, slab_put, upd_p_slab. cbn in *.
  by rewrite list_insert_id.
Qed.

Lemma length_put i w p : length (reqs (p_slab (put i w p))) = length (reqs (p_slab p)).
Proof. cbn. by rewrite length_insert. Qed.

Lemma req_set_slot i w q p :
  reqs (p_slab p) !! i = Some w -> req_set (RSlot i) q p = put i (set_pr_req w q) p.
Proof.
  intros Hw. unfold req_set, put, slab_put. do 2 f_equal.
  apply list_eq. intros j. destruct (decide (j = i)) as [->|Hne].
  - rewrite list_lookup_alter_eq, Hw. simpl. symmetry. apply list_lookup_insert_eq.
    by eapply lookup_lt_Some.
  - by rewrite list_lookup_alter_ne, list_lookup_insert_ne.
Qed.

Lemma iou_get_ok i w p : reqs (p_slab p) !! i = Some w -> iou_get i p = Ret (w, p).
Proof. intros Hw. unfold iou_get. by rewrite Hw. Qed.

Lemma req_get_slot i w p : reqs (p_slab p) !! i = Some w -> req_get (RSlot i) p = Ret (pr_req w, p).
Proof. intros Hw. unfold req_get, req_at. by rewrite Hw. Qed.

(** The thread after [ev_iou_req] on a request: with a full ring nothing
    changes. *)
Definition submitted (r : req_ptr) (q : ev_io_req) (p : processor H C W F) : processor H C W F :=
  if sq_len (p_loop p) <? sq_size (p_loop p)
  then upd_p_quic (set_qworld (p_quic p) (wakeup (p_loop p) (q_world (p_quic p))))
         (upd_p_loop (sq_push r q (p_loop p)) p)
  else p.

Lemma submit_eq r q p :
  req_at r p = Some q -> sq_wf (p_loop p) ->
  submit r p = Ret (if sq_len (p_loop p) <? sq_size (p_loop p) then 0 else EV_FULL,
                    submitted r q p).
Proof.
  intros Hq Hwf. unfold submit, req_get. unfold mbind at 1, M_bind at 1. rewrite Hq.
  unfold in_loop, submitted. cbn [host_loop host_world host_set processor_loop_host].
  destruct (Z.ltb_spec (sq_len (p_loop p)) (sq_size (p_loop p))) as [Hr|Hr].
  - by rewrite ev_iou_req_room.
  - rewrite ev_iou_req_full.
    + by destruct p as [? ? ? ? ? ? ? [? ? ? ? ? ? ? ? []] ?].
    + destruct Hwf as (_ & _ & _ & _ & Hs). lia.
Qed.

Lemma submitted_wf r q p : sq_wf (p_loop p) -> sq_wf (p_loop (submitted r q p)).
Proof.
  intros Hwf. unfold submitted. destruct (Z.ltb_spec (sq_len (p_loop p)) (sq_size (p_loop p))); [|done].
  cbn. by apply sq_push_wf.
Qed.

(** What a submission does not touch. *)
Lemma submitted_frame r q p :
  p_slab (submitted r q p) = p_slab p /\ p_shared (submitted r q p) = p_shared p /\
  p_buffers (submitted r q p) = p_buffers p /\ p_id (submitted r q p) = p_id p /\
  p_queue_poll (submitted r q p) = p_queue_poll p /\
  iou_cqe (p_loop (submitted r q p)) = iou_cqe (p_loop p) /\
  cqes (p_loop (submitted r q p)) = cqes (p_loop p) /\
  exists u, p_verifier (submitted r q p) = upd_v_quic (set_qworld (p_quic p) u) (p_verifier p).
Proof.
  unfold submitted. destruct (_ <? _); cbn; repeat split; eauto.
  exists (q_world (p_quic p)). by destruct p as [? ? ? ? ? ? ? [? ? ? ? ? ? ? ? []] ?].
Qed.

Lemma submitted_size r q p : sq_size (p_loop (submitted r q p)) = sq_size (p_loop p).
Proof. unfold submitted. by destruct (_ <? _). Qed.

Lemma submitted_pending r q p :
  sq_wf (p_loop p) -> sq_len (p_loop p) < sq_size (p_loop p) ->
  sq_pending (p_loop (submitted r q p)) = sq_pending (p_loop p) ++ [sqe_of_req r q].
Proof.
  intros Hwf Hr. unfold submitted. rewrite (proj2 (Z.ltb_lt _ _) Hr). cbn.
  by apply sq_push_pending.
Qed.
End lemmas.
