(* ===== verification/Verifier.v ===== *)
(** * The verifier client's event handlers (src/verifier.c)

    Connection set-up and the socket and timer callbacks, on the state of a
    processor thread. TLS, address resolution and socket calls are a class of
    operations on the world; a new connection is given the values that
    [verifier_quic_init] sets. *)

From stdpp Require Import base numbers list list_numbers gmap.
From S2P Require Import Prelude Queue Ev Hasher Slab Quic State.

Open Scope Z_scope.

(** The functions [verifier_quic_init] registers with ngtcp2: those of its
    crypto library, and two of its own. *)
Inductive ngtcp2_cb : Set :=
  | ngtcp2_crypto_client_initial_cb | ngtcp2_crypto_recv_crypto_data_cb | ngtcp2_crypto_encrypt_cb
  | ngtcp2_crypto_decrypt_cb | ngtcp2_crypto_hp_mask_cb | ngtcp2_crypto_recv_retry_cb
  | ngtcp2_crypto_update_key_cb | ngtcp2_crypto_delete_crypto_aead_ctx_cb
  | ngtcp2_crypto_delete_crypto_cipher_ctx_cb | ngtcp2_crypto_version_negotiation_cb
  | ngtcp2_crypto_get_path_challenge_data2_cb
  | cb_rand | cb_get_new_connection_id.

(** The members that are named; the others are NULL. *)
Record ngtcp2_callbacks : Set := Ngtcp2Callbacks {
  cb_client_initial : option ngtcp2_cb;
  cb_recv_crypto_data : option ngtcp2_cb;
  cb_encrypt : option ngtcp2_cb;
  cb_decrypt : option ngtcp2_cb;
  cb_hp_mask : option ngtcp2_cb;
  cb_recv_retry : option ngtcp2_cb;
  cb_extend_max_local_streams_bidi : option ngtcp2_cb;
  cb_rand_fn : option ngtcp2_cb;
  cb_update_key : option ngtcp2_cb;
  cb_delete_crypto_aead_ctx : option ngtcp2_cb;
  cb_delete_crypto_cipher_ctx : option ngtcp2_cb;
  cb_version_negotiation : option ngtcp2_cb;
  cb_get_new_connection_id2 : option ngtcp2_cb;
  cb_get_path_challenge_data2 : option ngtcp2_cb;
}.

(** The transport parameters that are set; the others are the defaults. *)
Record ngtcp2_transport_params : Set := Ngtcp2TransportParams {
  initial_max_streams_uni : Z;
  initial_max_stream_data_bidi_local : Z;
  initial_max_data : Z;
  max_idle_timeout : Z;   (* nanoseconds *)
}.

(** The arguments of [ngtcp2_conn_client_new]: lengths of the connection ids
    and of the addresses of the path, settings, parameters. *)
Record client_new_args : Set := ClientNewArgs {
  cn_dcidlen : Z;
  cn_scidlen : Z;
  cn_local_addrlen : Z;
  cn_remote_addrlen : Z;
  cn_callbacks : ngtcp2_callbacks;
  cn_initial_ts : Z;
  cn_log_printf : bool;   (* [log_printf] is the log function *)
  cn_params : ngtcp2_transport_params;
}.

Class Net (C W : Type) := {
  (* the length of the first address, or failure *)
  getaddrinfo : W -> option Z * W;
  getsockname : Z -> W -> Z * W;
  RAND_bytes : Z -> W -> Z * W;
  ngtcp2_conn_client_new : client_new_args -> W -> (Z * C) * W;
  SSL_CTX_new : W -> bool * W;
  ngtcp2_crypto_boringssl_configure_client_context : W -> Z * W;
  SSL_new : W -> bool * W;
  (* the protocol list, each with its length first *)
  SSL_set_alpn_protos : list Z -> W -> Z * W;
  NGTCP2_ERR_CALLBACK_FAILURE : Z;
}.

Definition NGTCP2_MIN_INITIAL_DCIDLEN : Z := 8.
Definition NGTCP2_STATELESS_RESET_TOKENLEN : Z := 16.

(** ["\x07ride0.1"]; the length 8 leaves the terminator out. *)
Definition RIDE_ALPN : list Z := [7; 114; 105; 100; 101; 48; 46; 49].

Definition quic_callbacks : ngtcp2_callbacks :=
  {| cb_client_initial := Some ngtcp2_crypto_client_initial_cb;
     cb_recv_crypto_data := Some ngtcp2_crypto_recv_crypto_data_cb;
     cb_encrypt := Some ngtcp2_crypto_encrypt_cb;
     cb_decrypt := Some ngtcp2_crypto_decrypt_cb;
     cb_hp_mask := Some ngtcp2_crypto_hp_mask_cb;
     cb_recv_retry := Some ngtcp2_crypto_recv_retry_cb;
     cb_extend_max_local_streams_bidi := None;
     cb_rand_fn := Some cb_rand;
     cb_update_key := Some ngtcp2_crypto_update_key_cb;
     cb_delete_crypto_aead_ctx := Some ngtcp2_crypto_delete_crypto_aead_ctx_cb;
     cb_delete_crypto_cipher_ctx := Some ngtcp2_crypto_delete_crypto_cipher_ctx_cb;
     cb_version_negotiation := Some ngtcp2_crypto_version_negotiation_cb;
     cb_get_new_connection_id2 := Some cb_get_new_connection_id;
     cb_get_path_challenge_data2 := Some ngtcp2_crypto_get_path_challenge_data2_cb |}.

Definition quic_params : ngtcp2_transport_params :=
  {| initial_max_streams_uni := 3;
     initial_max_stream_data_bidi_local := 128 * 1024;
     initial_max_data := 1024 * 1024;
     max_idle_timeout := 30 * NGTCP2_SECONDS |}.

Section verifier.
Context {H C W F : Type} `{!IoUring W, !Ngtcp2 C, !Host W, !Net C W}.
(** Bound for the loops of the QUIC flush. *)
Context (fuel : nat).

Definition world_op {A} (f : W -> A * W) : M (processor H C W F) A := fun p =>
  let '(a, w) := f (q_world (p_quic p)) in
  Ret (a, upd_p_quic (set_qworld (p_quic p) w) p).

(** The mutex makes it one step. *)
Definition init_addr : M (processor H C W F) unit :=
  ra ← gets (fun p => e_remote_addr (p_shared p));
  match ra with
  | Some _ => mret tt
  | None =>
      r ← world_op getaddrinfo;
      match r with
      | None => exit_ 1
      | Some l => modify (fun p => upd_p_shared (upd_e_remote_addr (Some l) (p_shared p)) p)
      end
  end.

Definition on_socket_timeout (r : req_ptr) : M (processor H C W F) unit :=
  q ← req_get r;
  match data q with
  | Some PVerifier => in_quic verifier_quic_handle_expiry;; mret tt
  | None => undef NullDeref
  | Some _ => undef BadPointer
  end.

Definition on_socket_timeout_update (r : req_ptr) : M (processor H C W F) unit :=
  q ← req_get r;
  in_slab (processor_free_req q).

(** The request that moves the running timer. *)
Definition timer_update_req (q : ev_io_req) : ev_io_req :=
  {| opcode := IORING_OP_TIMEOUT_REMOVE; off := WPtr PExpiry; addr := WPtr PVerifier;
     fd := 0; len := 1; flags := IORING_TIMEOUT_UPDATE; result := result q;
     result_flags := result_flags q; data := data q; data2 := data2 q;
     callback := Some on_socket_timeout_update_cb |}.

(** The request that starts the timer. *)
Definition timer_start_req (q : ev_io_req) : ev_io_req :=
  {| opcode := IORING_OP_TIMEOUT; off := WInt 0; addr := WPtr PExpiry;
     fd := 0; len := 1; flags := 0; result := result q;
     result_flags := result_flags q; data := Some PVerifier; data2 := data2 q;
     callback := Some on_socket_timeout_cb |}.

Definition verifier_flush_egress : M (processor H C W F) unit :=
  t ← in_quic (verifier_quic_flush fuel);
  let timeout_nsec := s64 t in
  if timeout_nsec <? 0 then exit_ EXIT_FAILURE
  else
    let timeout_sec := Z.quot timeout_nsec NGTCP2_SECONDS in
    let timeout_nsec := timeout_nsec - timeout_sec * NGTCP2_SECONDS in
    modify (fun p => upd_p_verifier (upd_v_expiry (timeout_sec, timeout_nsec) (p_verifier p)) p);;
    q ← req_get RTimer;
    if opcode q =? IORING_OP_TIMEOUT then
      i ← in_slab processor_get_req;
      q ← req_get (RSlot i);
      req_put (RSlot i) (timer_update_req q);;
      submit (RSlot i);;
      mret tt
    else
      req_put RTimer (timer_start_req q);;
      submit RTimer;;
      mret tt.

Definition on_socket_read (r : req_ptr) : M (processor H C W F) unit :=
  q ← req_get r;
  match data q with
  | Some PVerifier =>
      if result q <? 0 then exit_ 1
      else
        buf ← gets (fun p => v_readbuf (p_verifier p));
        if Z.of_nat (length buf) <? result q then undef OutOfBounds
        else
          in_quic (verifier_quic_read (take (Z.to_nat (result q)) buf));;
          submit RRecv;;
          verifier_flush_egress
  | None => undef NullDeref
  | Some _ => undef BadPointer
  end.

(** The callback through which TLS finds the connection. *)
Definition verifier_get_conn (v : verifier C W) : option C := q_conn (v_quic v).

(** ngtcp2's callbacks for random data; the data itself is not modelled. *)
Definition rand_cb (destlen : Z) : M (processor H C W F) unit :=
  rv ← world_op (RAND_bytes destlen);
  assert_ (rv =? 1).

(** The result, and the length stored in the new connection id. *)
Definition get_new_connection_id_cb (cidlen : Z) : M (processor H C W F) (Z * option Z) :=
  rv ← world_op (RAND_bytes cidlen);
  if negb (rv =? 1) then mret (NGTCP2_ERR_CALLBACK_FAILURE, None)
  else
    rv ← world_op (RAND_bytes NGTCP2_STATELESS_RESET_TOKENLEN);
    if negb (rv =? 1) then mret (NGTCP2_ERR_CALLBACK_FAILURE, Some cidlen)
    else mret (0, Some cidlen).

(** What the new connection is given, at time [ts]. *)
Definition quic_args (v : verifier C W) (ts : Z) : client_new_args :=
  {| cn_dcidlen := NGTCP2_MIN_INITIAL_DCIDLEN; cn_scidlen := 8;
     cn_local_addrlen := v_local_addr_len v; cn_remote_addrlen := v_remote_addr_len v;
     cn_callbacks := quic_callbacks; cn_initial_ts := ts; cn_log_printf := true;
     cn_params := quic_params |}.

Definition verifier_quic_init : M (processor H C W F) Z :=
  r ← world_op (RAND_bytes NGTCP2_MIN_INITIAL_DCIDLEN);
  if negb (r =? 1) then mret (-1)
  else
    r ← world_op (RAND_bytes 8);
    if negb (r =? 1) then mret (-1)
    else
      ts ← in_quic timestamp;
      v ← gets (fun p => p_verifier p);
      '(rv, c) ← world_op (ngtcp2_conn_client_new (quic_args v ts));
      if negb (rv =? 0) then mret (-1)
      else
        modify (fun p => upd_p_quic (set_conn (p_quic p) c) p);;
        mret 0.

Definition recv_req_of (q : ev_io_req) (sock : Z) : ev_io_req :=
  {| opcode := IORING_OP_READ; off := WInt 0; addr := WPtr PReadbuf; fd := sock;
     len := READBUF_SIZE; flags := 0; result := result q; result_flags := result_flags q;
     data := Some PVerifier; data2 := data2 q; callback := Some on_socket_read_cb |}.

Definition on_socket_connect (r : req_ptr) : M (processor H C W F) unit :=
  q ← req_get r;
  if result q <? 0 then exit_ 1
  else
    match data q with
    | Some PVerifier =>
        e ← verifier_quic_init;
        if negb (e =? 0) then exit_ 1
        else
          modify (fun p => upd_p_verifier (upd_v_conn_ref true (p_verifier p)) p);;
          q ← req_get RRecv;
          sock ← gets (fun p => q_sock (p_quic p));
          req_put RRecv (recv_req_of q sock);;
          submit RRecv;;
          verifier_flush_egress
    | None => undef NullDeref
    | Some _ => undef BadPointer
    end.

Definition connect_req_of (q : ev_io_req) (sock addrlen : Z) : ev_io_req :=
  {| opcode := IORING_OP_CONNECT; off := WInt addrlen; addr := WPtr PRemoteAddr; fd := sock;
     len := 0; flags := 0; result := result q; result_flags := result_flags q;
     data := Some PVerifier; data2 := data2 q; callback := Some on_socket_connect_cb |}.

Definition set_sock (n : Z) (p : processor H C W F) : processor H C W F :=
  let q := p_quic p in
  upd_p_quic {| q_conn := q_conn q; q_slots := q_slots q; q_sock := n;
                q_last_error := q_last_error q; q_accepted := q_accepted q;
                q_world := q_world q |} p.

Definition on_socket_create (r : req_ptr) : M (processor H C W F) unit :=
  q ← req_get r;
  match data q with
  | Some PVerifier =>
      if result q <? 0 then exit_ 1
      else
        modify (set_sock (result q));;
        modify (fun p => upd_p_verifier (upd_v_local_addr_len SIZEOF_SOCKADDR_IN (p_verifier p)) p);;
        e ← world_op (getsockname (result q));
        if negb (e =? 0) then exit_ 1
        else
          ra ← gets (fun p => e_remote_addr (p_shared p));
          match ra with
          | None => undef NullDeref
          | Some l =>
              modify (fun p => upd_p_verifier (upd_v_remote_addr_len l (p_verifier p)) p);;
              if SIZEOF_SOCKADDR_IN <? l then undef OutOfBounds
              else
                q ← req_get RConn;
                sock ← gets (fun p => q_sock (p_quic p));
                req_put RConn (connect_req_of q sock l);;
                submit RConn;;
                mret tt
          end
  | None => undef NullDeref
  | Some _ => undef BadPointer
  end.

Definition socket_req_of (q : ev_io_req) : ev_io_req :=
  {| opcode := IORING_OP_SOCKET; off := WInt SOCK_DGRAM; addr := addr q; fd := AF_INET;
     len := IPPROTO_UDP; flags := 0; result := result q; result_flags := result_flags q;
     data := Some PVerifier; data2 := data2 q; callback := Some on_socket_create_cb |}.

Definition verifier_connect : M (processor H C W F) unit :=
  q ← req_get RConn;
  req_put RConn (socket_req_of q);;
  submit RConn;;
  mret tt.

Definition verifier_ssl_init : M (processor H C W F) Z :=
  ok ← world_op SSL_CTX_new;
  if negb ok then exit_ 1
  else
    e ← world_op ngtcp2_crypto_boringssl_configure_client_context;
    if negb (e =? 0) then exit_ 1
    else
      ok ← world_op SSL_new;
      if negb ok then exit_ 1
      else
        world_op (SSL_set_alpn_protos RIDE_ALPN);;
        mret 0.

(** The slot loop of [verifier_init]. *)
Definition slots_init (l : list quic_stream) : list quic_stream :=
  (fun st => {| stream_id := -1; sdata := sdata st; datalen := datalen st; nwrite := nwrite st |}) <$> l.

Definition set_opcode (q : ev_io_req) (o : Z) : ev_io_req :=
  {| opcode := o; off := off q; addr := addr q; fd := fd q; len := len q; flags := flags q;
     result := result q; result_flags := result_flags q; data := data q; data2 := data2 q;
     callback := callback q |}.

Definition verifier_init : M (processor H C W F) Z :=
  q ← req_get RTimer;
  req_put RTimer (set_opcode q 0);;
  modify (fun p => upd_p_quic (set_slots (p_quic p) (slots_init (q_slots (p_quic p)))) p);;
  init_addr;;
  verifier_ssl_init;;
  req_put RConn ev_io_req_zero;;
  verifier_connect;;
  mret 0.
End verifier.

(** ** Properties *)

Section properties.
Context {H C W F : Type} `{!IoUring W, !Ngtcp2 C, !Host W, !Net C W}.
Implicit Types (p : processor H C W F) (q : quic C W).

(** A timeout of [t] nanoseconds as seconds and nanoseconds. *)
Definition timespec_of (t : Z) : Z * Z := (Z.quot t NGTCP2_SECONDS, t - Z.quot t NGTCP2_SECONDS * NGTCP2_SECONDS).

Lemma timespec_of_spec t :
  0 <= t -> fst (timespec_of t) * NGTCP2_SECONDS + snd (timespec_of t) = t /\
    0 <= fst (timespec_of t) /\ 0 <= snd (timespec_of t) < NGTCP2_SECONDS.
Proof.
  intros Ht. unfold timespec_of, NGTCP2_SECONDS. cbn [fst snd].
  rewrite Z.quot_div_nonneg by lia. pose proof (Z.div_mod t 1000000000).
  pose proof (Z.mod_pos_bound t 1000000000). pose proof (Z.div_pos t 1000000000). lia.
Qed.

(** The thread after a flush that left the QUIC state [q] and the timeout [t]. *)
Definition with_expiry (q : quic C W) (t : Z) (p : processor H C W F) : processor H C W F :=
  let p := upd_p_quic q p in
  upd_p_verifier (upd_v_expiry (timespec_of t) (p_verifier p)) p.

Lemma flush_egress_neg fuel p q t :
  verifier_quic_flush fuel (p_quic p) = Ret (t, q) -> s64 t < 0 ->
  verifier_flush_egress fuel p = Exit EXIT_FAILURE.
Proof.
  intros Hf Ht. unfold verifier_flush_egress.
  assert (H1 : in_quic (verifier_quic_flush fuel) p = Ret (t, upd_p_quic q p)) by (unfold in_quic; by rewrite Hf).
  rewrite (bind_Ret _ _ _ _ _ H1). by rewrite (proj2 (Z.ltb_lt _ _) Ht).
Qed.

(** The first flush starts the timer; the timer request keeps its opcode, so
    every later one takes the other branch. *)
Lemma flush_egress_start fuel p q t :
  verifier_quic_flush fuel (p_quic p) = Ret (t, q) -> 0 <= s64 t -> sq_wf (p_loop p) ->
  opcode (v_timer_req (p_verifier p)) <> IORING_OP_TIMEOUT ->
  let r := timer_start_req (v_timer_req (p_verifier p)) in
  verifier_flush_egress fuel p =
  Ret (tt, submitted RTimer r (req_set RTimer r (with_expiry q (s64 t) p))).
Proof.
  intros Hf Ht Hwf Ho r. unfold verifier_flush_egress.
  assert (H1 : in_quic (verifier_quic_flush fuel) p = Ret (t, upd_p_quic q p)) by (unfold in_quic; by rewrite Hf).
  rewrite (bind_Ret _ _ _ _ _ H1), (proj2 (Z.ltb_ge _ _) Ht).
  cbv zeta. rewrite (bind_Ret _ _ _ tt (with_expiry q (s64 t) p) eq_refl).
  rewrite (bind_Ret (req_get RTimer) _ (with_expiry q (s64 t) p) (v_timer_req (p_verifier p))
             (with_expiry q (s64 t) p) eq_refl).
  rewrite (proj2 (Z.eqb_neq _ _) Ho).
  unfold mbind at 1, M_bind at 1, req_put, modify at 1. fold r.
  set (p1 := req_set RTimer r _).
  by rewrite (bind_Ret _ _ _ _ _ (submit_eq RTimer r p1 eq_refl Hwf)).
Qed.

(** The container used to move the timer. *)
Definition timer_entry (i : nat) (w : processor_iou_req H) : processor_iou_req H :=
  set_pr_req (take_entry i w) (timer_update_req (pr_req (take_entry i w))).

Lemma flush_egress_move fuel p q t i free w :
  verifier_quic_flush fuel (p_quic p) = Ret (t, q) -> 0 <= s64 t -> sq_wf (p_loop p) ->
  opcode (v_timer_req (p_verifier p)) = IORING_OP_TIMEOUT ->
  slab_wf (p_slab p) (i :: free) -> reqs (p_slab p) !! i = Some w ->
  verifier_flush_egress fuel p =
  Ret (tt, submitted (RSlot i) (pr_req (timer_entry i w))
             (put i (timer_entry i w) (upd_p_slab (taken i w (p_slab p)) (with_expiry q (s64 t) p)))).
Proof.
  intros Hf Ht Hwf Ho Hs Hw. unfold verifier_flush_egress.
  assert (H1 : in_quic (verifier_quic_flush fuel) p = Ret (t, upd_p_quic q p)) by (unfold in_quic; by rewrite Hf).
  rewrite (bind_Ret _ _ _ _ _ H1), (proj2 (Z.ltb_ge _ _) Ht).
  cbv zeta. rewrite (bind_Ret _ _ _ tt (with_expiry q (s64 t) p) eq_refl).
  rewrite (bind_Ret (req_get RTimer) _ (with_expiry q (s64 t) p) (v_timer_req (p_verifier p))
             (with_expiry q (s64 t) p) eq_refl).
  rewrite Ho. cbn [Z.eqb IORING_OP_TIMEOUT Pos.eqb].
  set (p1 := with_expiry q (s64 t) p).
  destruct (get_req_taken _ _ _ _ Hs Hw) as (Hg & _).
  assert (H2 : in_slab processor_get_req p1 = Ret (i, upd_p_slab (taken i w (p_slab p)) p1)).
  { unfold in_slab. change (p_slab p1) with (p_slab p). by rewrite Hg. }
  rewrite (bind_Ret _ _ _ _ _ H2). set (p2 := upd_p_slab _ p1).
  assert (Hi := lookup_lt_Some _ _ _ Hw).
  assert (Hw2 : reqs (p_slab p2) !! i = Some (take_entry i w)) by (cbn; by apply list_lookup_insert_eq).
  rewrite (bind_Ret _ _ _ _ _ (req_get_slot _ _ _ Hw2)).
  unfold mbind at 1, M_bind at 1, req_put, modify at 1. rewrite (req_set_slot _ _ _ _ Hw2).
  fold (timer_entry i w).
  assert (H3 : req_at (RSlot i) (put i (timer_entry i w) p2) = Some (pr_req (timer_entry i w))).
  { unfold req_at. by rewrite put_lookup by (by eapply lookup_lt_Some). }
  by rewrite (bind_Ret _ _ _ _ _ (submit_eq _ _ _ H3 Hwf)).
Qed.

(** C40. Arming the QUIC timer for the first time: [verifier_flush_egress]
    splits the timeout of the flush into seconds and nanoseconds without loss
    and submits the timer request with it, naming itself; a timeout that is
    negative as a signed number ends the program. *)
Theorem flush_egress_arms_timer fuel p q t :
  verifier_quic_flush fuel (p_quic p) = Ret (t, q) -> sq_wf (p_loop p) ->
  sq_len (p_loop p) < sq_size (p_loop p) -> opcode (v_timer_req (p_verifier p)) <> IORING_OP_TIMEOUT ->
  if decide (s64 t < 0) then verifier_flush_egress fuel p = Exit EXIT_FAILURE
  else exists p' e sec nsec,
    verifier_flush_egress fuel p = Ret (tt, p') /\
    v_expiry (p_verifier p') = (sec, nsec) /\ sec * NGTCP2_SECONDS + nsec = s64 t /\
    0 <= sec /\ 0 <= nsec < NGTCP2_SECONDS /\
    sq_pending (p_loop p') = sq_pending (p_loop p) ++ [e] /\
    sqe_opcode e = IORING_OP_TIMEOUT /\ sqe_addr e = WPtr PExpiry /\
    sqe_user_data e = WPtr (PReq RTimer) /\
    opcode (v_timer_req (p_verifier p')) = IORING_OP_TIMEOUT.
Proof.
  intros Hf Hwf Hr Ho. destruct (decide (s64 t < 0)) as [Ht|Ht]; [by eapply flush_egress_neg|].
  pose proof (flush_egress_start fuel p q t Hf ltac:(lia) Hwf Ho) as He. cbv zeta in He.
  set (r := timer_start_req _) in He. set (p1 := req_set RTimer r _) in He.
  destruct (timespec_of_spec (s64 t)) as (E1 & E2 & E3); [lia|].
  exists (submitted RTimer r p1), (sqe_of_req RTimer r), (fst (timespec_of (s64 t))), (snd (timespec_of (s64 t))).
  pose proof (submitted_frame RTimer r p1) as (_ & _ & _ & _ & _ & _ & _ & u & Hv).
  split; [done|]. rewrite Hv. split; [done|]. split; [done|]. split; [done|]. split; [done|].
  split; [by apply (submitted_pending RTimer r p1)|]. done.
Qed.

(** C33. The timer is never moved: once it was armed, [verifier_flush_egress]
    takes a container and submits a timeout update whose target is the address
    of the verifier, and no request the program submits has that address as
    its [user_data], so the kernel finds no timer to update. *)
Theorem flush_egress_update_misses fuel p q t i free w :
  verifier_quic_flush fuel (p_quic p) = Ret (t, q) -> 0 <= s64 t -> sq_wf (p_loop p) ->
  sq_len (p_loop p) < sq_size (p_loop p) -> opcode (v_timer_req (p_verifier p)) = IORING_OP_TIMEOUT ->
  slab_wf (p_slab p) (i :: free) -> reqs (p_slab p) !! i = Some w ->
  exists p' e,
    verifier_flush_egress fuel p = Ret (tt, p') /\
    sq_pending (p_loop p') = sq_pending (p_loop p) ++ [e] /\
    sqe_opcode e = IORING_OP_TIMEOUT_REMOVE /\ sqe_poll32_events e = IORING_TIMEOUT_UPDATE /\
    forall r req, sqe_user_data (sqe_of_req r req) <> sqe_addr e.
Proof.
  intros Hf Ht Hwf Hr Ho Hs Hw.
  eexists _, (sqe_of_req (RSlot i) (pr_req (timer_entry i w))).
  split; [by eapply flush_egress_move|].
  split; [by rewrite submitted_pending by done|]. done.
Qed.

(** C34. ngtcp2 reports the absence of a timer as an expiry of [UINT64_MAX];
    the difference to the clock is then negative as a signed number, and the
    program exits although nothing failed. *)
Theorem no_expiry_exits fuel p q c sec nsec w :
  verifier_flush_out fuel (p_quic p) = Ret (0, q) -> q_conn q = Some c ->
  ngtcp2_conn_get_expiry2 c = 2 ^ 64 - 1 ->
  clock_gettime (q_world q) = (Some (sec, nsec), w) ->
  0 <= sec < 2 ^ 32 -> 0 <= nsec < NGTCP2_SECONDS ->
  verifier_flush_egress fuel p = Exit EXIT_FAILURE.
Proof.
  intros Hf Hc He Hw Hs Hn. unfold NGTCP2_SECONDS in Hn.
  assert (Hts : timestamp q = Ret (sec * NGTCP2_SECONDS + nsec, set_qworld q w)).
  { unfold timestamp, NGTCP2_SECONDS. rewrite Hw.
    rewrite (u64_small sec), (u64_small nsec), u64_small by lia. done. }
  apply (flush_egress_neg fuel p (set_qworld q w) (u64 (2 ^ 64 - 1 - (sec * NGTCP2_SECONDS + nsec)))).
  - unfold verifier_quic_flush. rewrite (bind_Ret _ _ _ _ _ Hf). cbn [negb Z.eqb].
    assert (Hg : get_conn q = Ret (c, q)) by (unfold get_conn; by rewrite Hc).
    rewrite (bind_Ret _ _ _ _ _ Hg), (bind_Ret _ _ _ _ _ Hts), He.
    destruct (Z.ltb_spec (2 ^ 64 - 1) (sec * NGTCP2_SECONDS + nsec)); [|done].
    unfold NGTCP2_SECONDS in *. lia.
  - rewrite s64_u64. unfold s64, NGTCP2_SECONDS.
    replace (2 ^ 64 - 1 - (sec * 1000000000 + nsec) + 2 ^ 63)
      with (2 ^ 63 - 1 - (sec * 1000000000 + nsec) + 1 * 2 ^ 64) by lia.
    rewrite Z.mod_add by lia. rewrite Z.mod_small; lia.
Qed.
End properties.
