(* ===== verification/Transport.v ===== *)
(** * The transport as the thread sees it

    What a thread relies on in its QUIC client, as an interface, and two ways in
    which the client of [Quic] implements it: byte by byte, whatever ngtcp2 and
    the socket do; and stream by stream, when each record has been accepted
    before the next is reported. *)

From stdpp Require Import base numbers list list_numbers.
From S2P Require Import Prelude Hasher Quic State Verifier.

Open Scope Z_scope.

(** Nothing is stored in the slot, and it has no stream. *)
Definition empty_slot (st : quic_stream) : Prop :=
  slot_wf st /\ datalen st = 0 /\ nwrite st = 0 /\ stream_id st = -1.

(** Nothing is stored in the slot that is used. *)
Definition idle_slots {C W : Type} (q : quic C W) : Prop :=
  Z.of_nat (length (q_slots q)) = MAX_CONCURRENT_WRITES /\
  exists st rest, q_slots q = st :: rest /\ empty_slot st.

(** A report can be made: there is a connection, it grants a stream, and the slot
    has room for the largest record behind what it still holds. Without it the
    code has no defined behaviour. *)
Definition can_report {C W : Type} `{!Ngtcp2 C} (q : quic C W) : Prop :=
  exists c id c' st rest, q_conn q = Some c /\ ngtcp2_conn_open_bidi_stream c = ((0, id), c') /\
    q_slots q = st :: rest /\ datalen st + HASH_LEN + 127 <= STREAM_DATA_SIZE.

(** Nothing is reported for a path with a negative length: it is read as one
    that is longer than the path. *)
Lemma slot_writev_long {C W : Type} i n s (q : quic C W) :
  Z.of_nat (length s) < n -> verifier_quic_slot_writev i s n q = Undef OutOfBounds.
Proof. intros Hn. unfold verifier_quic_slot_writev. by rewrite (proj2 (Z.ltb_lt _ _) Hn); case_match. Qed.

Lemma verify_hash_long {C W : Type} `{!Ngtcp2 C, !Host W} vfuel n s m hash (q : quic C W) :
  Z.of_nat (length s) < n -> exists u, verifier_verify_hash vfuel n s m hash q = Undef u.
Proof.
  intros Hn. unfold verifier_verify_hash.
  assert (Hg : (exists u, verifier_quic_get_slot q = Undef u) \/ exists r q1, verifier_quic_get_slot q = Ret (r, q1)).
  { unfold verifier_quic_get_slot, get_conn. mrun. repeat case_match; simplify_eq; try done; eauto. }
  destruct Hg as [[u Hg]|(r & q1 & Hg)]; [exists u; unfold mbind, M_bind; by rewrite Hg|].
  rewrite (bind_Ret _ _ _ _ _ Hg). cbv zeta. unfold mbind at 1, M_bind at 1.
  destruct (verifier_quic_slot_writev (u64 r) hash m q1) as [[[] q2]|x| |u|] eqn:Hw; [| | |by exists u|].
  - exists OutOfBounds. unfold mbind, M_bind. by rewrite slot_writev_long.
  - revert Hw. unfold verifier_quic_slot_writev. by repeat case_match.
  - revert Hw. unfold verifier_quic_slot_writev. by repeat case_match.
  - revert Hw. unfold verifier_quic_slot_writev. by repeat case_match.
Qed.

(** What was handed over has been accepted. *)
Definition all_accepted {C W : Type} (q : quic C W) : Prop :=
  exists st rest, q_slots q = st :: rest /\ nwrite st = datalen st.

(** [TI q l] holds of a client [q] with a connection that was given the records
    [l], in order. A new connection has been given none, and flushes,
    received packets and an expired timer keep [TI]; a report, which starts in a
    state with [Ready], adds its record, the hash and the path. Only a report in
    a state without [can_report] has no defined behaviour. Fuel may run out. *)
Class Transport {C W : Type} `{!Ngtcp2 C, !Host W, !Net C W}
    (TI : quic C W -> list (list Z) -> Prop) (Ready : quic C W -> Prop) := {
  ti_new q a w c w' : idle_slots q -> q_accepted q = [] ->
    ngtcp2_conn_client_new a w = ((0, c), w') -> TI (set_conn q c) [];
  ti_world q l u : TI q l -> TI (set_qworld q u) l;
  ti_conn q l : TI q l -> is_Some (q_conn q);
  ti_report q l s hash vfuel : TI q l -> Ready q -> (length s < 128)%nat -> length hash = 32%nat ->
    match verifier_verify_hash vfuel (Z.of_nat (length s)) (s ++ [0]) HASH_LEN hash q with
    | Ret (_, q') => TI q' (l ++ [hash ++ s])
    | Undef _ => ~ can_report q
    | OutOfFuel => True
    | Exit _ | AssertFailed => False
    end;
  ti_flush q l vfuel : TI q l ->
    verifier_quic_flush vfuel q = OutOfFuel \/
    exists t q', verifier_quic_flush vfuel q = Ret (t, q') /\ TI q' l;
  ti_read q l buf : TI q l -> exists r q', verifier_quic_read buf q = Ret (r, q') /\ TI q' l;
  ti_expiry q l : TI q l -> exists r q', verifier_quic_handle_expiry q = Ret (r, q') /\ TI q' l;
}.

(** ** A client with a connection *)

Section client.
Context {C W : Type} `{!Ngtcp2 C, !Host W, !Net C W, !Ngtcp2Laws C, !StreamLaws C, !HostLaws W}.
Implicit Types (q : quic C W) (st : quic_stream).

(** Connected, with [st] in the slot that is used. *)
Definition connected_slot q st : Prop :=
  exists c rest, q_conn q = Some c /\ q_slots q = st :: rest /\ slot_wf st /\ tidy st /\
    Z.of_nat (length (st :: rest)) = MAX_CONCURRENT_WRITES.

Lemma tidy_unsent st : slot_wf st -> tidy st -> unsent st = leftover st.
Proof.
  intros (_ & Hn & _) Ht. unfold unsent, leftover. destruct (Z.eqb_spec (stream_id st) (-1)) as [Hid|]; [|done].
  specialize (Ht Hid). replace (datalen st - nwrite st) with 0 by lia. done.
Qed.

Lemma idle_connected q c : idle_slots q -> exists st, connected_slot (set_conn q c) st /\ empty_slot st.
Proof.
  intros (Hl & st & rest & Hs & He). exists st. split; [|done]. destruct He as (Hwf & Hd & _).
  exists c, rest. rewrite Hs in Hl. split_and!; try done. by intros _.
Qed.

(** A flush takes bytes from the slot, on its stream, and leaves the rest. *)
Lemma connected_flush q st vfuel :
  connected_slot q st ->
  verifier_quic_flush vfuel q = OutOfFuel \/
  exists t q' st' acc, verifier_quic_flush vfuel q = Ret (t, q') /\ connected_slot q' st' /\
    q_accepted q' = q_accepted q ++ acc /\ Forall (fun x => fst x = stream_id st) acc /\
    leftover st = concat (snd <$> acc) ++ leftover st' /\
    (stream_id st' = stream_id st \/ stream_id st' = -1) /\ (stream_id st = -1 -> acc = []).
Proof.
  intros (c & rest & Hc & Hs & Hwf & Ht & Hlen).
  destruct (quic_flush_part vfuel q st rest c Hc Hs Hwf) as
    [?|(t & q' & Hf & st' & acc & [c' Hc'] & Hs' & Hwf' & Ha & Hall & Hnil & Hu & Hid & Ht')]; [by left|right].
  specialize (Ht' Ht). exists t, q', st', acc. rewrite !tidy_unsent in Hu by done.
  split_and!; try done. by exists c', rest.
Qed.

(** A packet or the timer changes the connection, the world and the last error. *)
Lemma connected_congr q q' st :
  streams_kept q q' -> q_slots q' = q_slots q -> connected_slot q st -> connected_slot q' st.
Proof.
  intros Hk Es (c & rest & Hc & Hs & Hw). destruct (Hk c Hc) as (c' & Hc' & _). exists c', rest. by rewrite Es.
Qed.

Lemma connected_read q st buf :
  connected_slot q st -> exists r q', verifier_quic_read buf q = Ret (r, q') /\ streams_kept q q' /\
    q_slots q' = q_slots q /\ q_accepted q' = q_accepted q.
Proof.
  intros (c & rest & Hc & Hs & _). unfold verifier_quic_read.
  destruct (timestamp_ok q) as (ts & w & Ht & _). rewrite (bind_Ret _ _ _ _ _ Ht).
  unfold get_conn. unfold mbind at 1, M_bind at 1. cbn [q_conn set_qworld]. rewrite Hc.
  destruct (ngtcp2_conn_read_pkt c buf ts) as [rv c'] eqn:Hp. pose proof (read_next _ _ _ _ _ Hp) as Hn.
  rewrite (bind_Ret _ _ _ tt (set_conn (set_qworld q w) c') eq_refl).
  assert (Hk : forall q', q_conn q' = Some c' -> streams_kept q q').
  { intros q' Hq' c0 Hc0. rewrite Hc in Hc0. injection Hc0 as <-. by exists c'. }
  destruct (negb (rv =? 0)); (eexists _, _; split; [done|]); [|split; [by apply Hk|done]].
  cbv beta. split; [apply Hk; by destruct (_ =? 0)|by destruct (_ =? 0)].
Qed.

Lemma connected_expiry q st :
  connected_slot q st -> exists r q', verifier_quic_handle_expiry q = Ret (r, q') /\ streams_kept q q' /\
    q_slots q' = q_slots q /\ q_accepted q' = q_accepted q.
Proof.
  intros (c & rest & Hc & Hs & _). unfold verifier_quic_handle_expiry.
  destruct (timestamp_ok q) as (ts & w & Ht & _). rewrite (bind_Ret _ _ _ _ _ Ht).
  unfold get_conn. unfold mbind at 1, M_bind at 1. cbn [q_conn set_qworld]. rewrite Hc.
  destruct (ngtcp2_conn_handle_expiry c ts) as [rv c'] eqn:Hp. pose proof (expiry_next _ _ _ _ Hp) as Hn.
  rewrite (bind_Ret _ _ _ tt (set_conn (set_qworld q w) c') eq_refl). eexists _, _. split; [done|].
  split; [|done]. intros c0 Hc0. rewrite Hc in Hc0. injection Hc0 as <-. by exists c'.
Qed.

(** A report stores its record behind what is left and flushes on a new stream,
    unless no stream is granted or there is no room. *)
Lemma connected_report q st s hash vfuel :
  connected_slot q st -> (length s < 128)%nat -> length hash = 32%nat ->
  (exists u, verifier_verify_hash vfuel (Z.of_nat (length s)) (s ++ [0]) HASH_LEN hash q = Undef u) /\ ~ can_report q \/
  exists q1 st1, connected_slot q1 st1 /\ q_accepted q1 = q_accepted q /\ stream_id st1 <> -1 /\
    (forall c, q_conn q = Some c -> next_stream c <= stream_id st1) /\
    (forall c, q_conn q1 = Some c -> stream_id st1 < next_stream c) /\
    leftover st1 = leftover st ++ hash ++ s /\
    verifier_verify_hash vfuel (Z.of_nat (length s)) (s ++ [0]) HASH_LEN hash q = (verifier_quic_flush vfuel;; mret tt) q1.
Proof.
  intros (c & rest & Hc & Hs & Hwf & Ht & Hlen) Hl Hh. change HASH_LEN with 32.
  destruct (ngtcp2_conn_open_bidi_stream c) as [[rv id] c'] eqn:Ho.
  destruct (open_stream _ _ _ _ Ho) as [Hrv Hid].
  destruct (decide (rv = 0)) as [->|Hne].
  2: { left. split.
    - exists OutOfBounds. apply (verify_hash_blocked q c rv id c'); [done|by rewrite Hs|done|lia].
    - intros (c1 & id1 & c1' & st1 & rest1 & Hc1 & Ho1 & _). rewrite Hc in Hc1. injection Hc1 as <-. congruence. }
  destruct (Z.le_gt_cases (datalen st + 32 + Z.of_nat (length s)) STREAM_DATA_SIZE) as [Hfit|Hfit].
  2: { left. split.
    - exists OutOfBounds. apply (verify_hash_overflow q st rest c id c'); try done; lia.
    - intros (c1 & id1 & c1' & st1 & rest1 & _ & _ & Hs1 & Hr). rewrite Hs in Hs1. injection Hs1 as <- <-.
      change HASH_LEN with 32 in Hr. lia. }
  right. destruct (verify_hash_stores q st rest c id c' vfuel (Z.of_nat (length s)) (s ++ [0]) hash Hc Hs Hwf Ho)
    as (st2 & Hwf2 & Hid2 & Hn2 & Hd2 & Hl2 & E); [lia|rewrite length_app; lia|lia|].
  specialize (Hid eq_refl). exists (set_slots (set_conn q c') (st2 :: rest)), st2.
  split_and!; [|done| | | | |exact E].
  - exists c', rest. split_and!; try done. intros ?. lia.
  - rewrite Hid2. lia.
  - intros c0 Hc0. rewrite Hc in Hc0. injection Hc0 as <-. lia.
  - intros c0 [= <-]. lia.
  - rewrite Hl2, Nat2Z.id. by rewrite take_app_length.
Qed.
End client.

(** ** Byte by byte *)

Section bytes.
Context {C W : Type} `{!Ngtcp2 C, !Host W, !Net C W, !Ngtcp2Laws C, !StreamLaws C, !HostLaws W}.
Implicit Types (q : quic C W) (st : quic_stream) (l : list (list Z)).

(** The bytes the connection has accepted, followed by those that wait in the
    slot, are the records, one after the other. *)
Definition sends_bytes q l : Prop :=
  exists st, connected_slot q st /\ concat (snd <$> q_accepted q) ++ leftover st = concat l.

Definition any_time q : Prop := True.

Lemma sends_bytes_congr q q' l :
  streams_kept q q' -> q_slots q' = q_slots q -> q_accepted q' = q_accepted q -> sends_bytes q l -> sends_bytes q' l.
Proof. intros Hc Es Ea (st & Hst & Hb). exists st. rewrite Ea. split; [by eapply connected_congr|done]. Qed.

Lemma bytes_flush q l vfuel :
  sends_bytes q l -> verifier_quic_flush vfuel q = OutOfFuel \/
  exists t q', verifier_quic_flush vfuel q = Ret (t, q') /\ sends_bytes q' l.
Proof.
  intros (st & Hst & Hb).
  destruct (connected_flush q st vfuel Hst) as [?|(t & q' & st' & acc & Hf & Hst' & Ha & _ & Hl & _)]; [by left|right].
  exists t, q'. split; [done|]. exists st'. split; [done|].
  rewrite <- Hb, Ha, fmap_app, concat_app, Hl. by rewrite <- app_assoc.
Qed.

#[export] Instance bytes_transport : Transport sends_bytes any_time.
Proof.
  split.
  - intros q a w c w' Hi Ha _. destruct (idle_connected q c Hi) as (st & Hst & _ & Hd & Hn & _). exists st.
    split; [done|]. cbn. rewrite Ha. unfold leftover. by rewrite Hd, Hn.
  - intros q l u Hq. eapply sends_bytes_congr; [..|exact Hq]; try done.
    intros c Hc. by exists c.
  - intros q l (st & (c & rest & Hc & _) & _). by exists c.
  - intros q l s hash vfuel (st & Hst & Hb) _ Hl Hh.
    destruct (connected_report q st s hash vfuel Hst Hl Hh) as [[[u ->] Hn]|(q1 & st1 & Hst1 & Ha & Hid & _ & _ & Hl1 & ->)]; [done|].
    assert (H1 : sends_bytes q1 (l ++ [hash ++ s])).
    { exists st1. split; [done|]. rewrite Ha, Hl1, concat_app. cbn. by rewrite app_nil_r, <- Hb, <- app_assoc. }
    unfold mbind, M_bind. by destruct (bytes_flush q1 _ vfuel H1) as [->|(t & q' & -> & ?)].
  - intros q l vfuel. apply bytes_flush.
  - intros q l buf Hq. pose proof Hq as (st & Hst & _).
    destruct (connected_read q st buf Hst) as (r & q' & Hr & Hc & Es & Ea).
    exists r, q'. split; [done|]. by eapply sends_bytes_congr.
  - intros q l Hq. pose proof Hq as (st & Hst & _).
    destruct (connected_expiry q st Hst) as (r & q' & Hr & Hc & Es & Ea).
    exists r, q'. split; [done|]. by eapply sends_bytes_congr.
Qed.
End bytes.

(** ** Stream by stream *)

(** Pieces of streams, in order: those of each record are on one stream, of
    its own. *)
Inductive on_streams : list (Z * list Z) -> list (list Z) -> Prop :=
  | on_none : on_streams [] []
  | on_next acc l id pieces :
      on_streams acc l -> Forall (fun x => fst x < id) acc ->
      on_streams (acc ++ ((fun b => (id, b)) <$> pieces)) (l ++ [concat pieces]).

Lemma pieces_below id n (bs : list (list Z)) : id < n -> Forall (fun x => fst x < n) ((fun b => (id, b)) <$> bs).
Proof. intros Hi. apply Forall_fmap, Forall_true. by intros b. Qed.

(** The last piece can be cut further. *)
Lemma on_streams_cut a id b bs l :
  on_streams (a ++ [(id, b)]) l -> concat bs = b -> on_streams (a ++ ((fun b => (id, b)) <$> bs)) l.
Proof.
  intros Ho Hb. remember (a ++ [(id, b)]) as x eqn:Hx. revert a Hx.
  induction Ho as [|acc l id' pieces Ho IH Hid]; intros a Hx; [by destruct a|].
  destruct pieces as [|c pieces _] using rev_ind.
  - rewrite app_nil_r in Hx. subst acc. rewrite <- (app_nil_r (a ++ _)). apply (on_next _ _ id' []); [by apply IH|].
    apply Forall_app in Hid as [Ha [Hi _]%Forall_cons]. apply Forall_app. split; [done|]. apply pieces_below, Hi.
  - rewrite fmap_app, app_assoc in Hx. cbn in Hx. apply app_inj_tail in Hx as [<- [= -> ->]].
    rewrite <- app_assoc, <- fmap_app. replace (concat (pieces ++ [b])) with (concat (pieces ++ bs)).
    + by apply on_next.
    + rewrite !concat_app, Hb. cbn. by rewrite app_nil_r.
Qed.

(** The data of the streams, in the order of their first pieces. *)
Fixpoint by_stream (acc : list (Z * list Z)) : list (Z * list Z) :=
  match acc with
  | [] => []
  | (id, b) :: acc =>
      match by_stream acc with
      | (id', b') :: r => if id =? id' then (id, b ++ b') :: r else (id, b) :: (id', b') :: r
      | [] => [(id, b)]
      end
  end.

Lemma by_stream_head id b acc : exists d r, by_stream ((id, b) :: acc) = (id, d) :: r.
Proof. cbn. destruct (by_stream acc) as [|[id' b'] r]; [eauto|]. destruct (_ =? _); eauto. Qed.

Lemma by_stream_same id b pieces : by_stream ((fun b => (id, b)) <$> (b :: pieces)) = [(id, concat (b :: pieces))].
Proof.
  revert b. induction pieces as [|b' pieces IH]; intros b; [cbn; by rewrite app_nil_r|].
  rewrite fmap_cons. cbn [by_stream]. rewrite (IH b'). by rewrite Z.eqb_refl.
Qed.

Lemma by_stream_app acc id b pieces :
  Forall (fun x => fst x < id) acc ->
  by_stream (acc ++ ((fun b => (id, b)) <$> (b :: pieces))) = by_stream acc ++ [(id, concat (b :: pieces))].
Proof.
  intros Ha. induction Ha as [|[i x] acc Hi Ha IH]; [apply by_stream_same|]. cbn in Hi.
  rewrite <- app_comm_cons. cbn [by_stream]. rewrite IH. destruct (by_stream acc) as [|[i' x'] r]; cbn.
  - by rewrite (proj2 (Z.eqb_neq i id)) by lia.
  - by destruct (_ =? _).
Qed.

(** Each record is the data of one stream. *)
Lemma on_streams_data acc l : on_streams acc l -> Forall (fun d => d <> []) l -> snd <$> by_stream acc = l.
Proof.
  induction 1 as [|acc l id pieces Ho IH Hid]; [done|]. intros [Hl [Hp _]%Forall_cons]%Forall_app.
  destruct pieces as [|b pieces]; [done|]. by rewrite by_stream_app, fmap_app, IH.
Qed.

Section streams.
Context {C W : Type} `{!Ngtcp2 C, !Host W, !Net C W, !Ngtcp2Laws C, !StreamLaws C, !HostLaws W}.
Implicit Types (q : quic C W) (st : quic_stream) (l : list (list Z)).

(** What waits in a slot. *)
Definition waiting st : list (Z * list Z) :=
  if stream_id st =? -1 then [] else [(stream_id st, leftover st)].

(** What the connection has accepted, followed by what waits in the slot, are
    the records, each on one stream. *)
Definition sends_streams q l : Prop :=
  exists st, connected_slot q st /\ on_streams (q_accepted q ++ waiting st) l /\
    forall c, q_conn q = Some c -> Forall (fun x => fst x < next_stream c) (q_accepted q ++ waiting st).

Lemma below_kept q q' (acc : list (Z * list Z)) :
  is_Some (q_conn q) -> streams_kept q q' -> (forall c, q_conn q = Some c -> Forall (fun x => fst x < next_stream c) acc) ->
  forall c, q_conn q' = Some c -> Forall (fun x => fst x < next_stream c) acc.
Proof.
  intros [c0 Hc0] Hk Ha c Hc. destruct (Hk c0 Hc0) as (c1 & Hc1 & Hle). rewrite Hc in Hc1. injection Hc1 as <-.
  eapply Forall_impl; [exact (Ha c0 Hc0)|]. intros x Hx. cbv beta in *. lia.
Qed.

Lemma sends_streams_congr q q' l :
  streams_kept q q' -> q_slots q' = q_slots q -> q_accepted q' = q_accepted q ->
  sends_streams q l -> sends_streams q' l.
Proof.
  intros Hk Es Ea (st & Hst & Hb & Hn). exists st. rewrite Ea. split; [by eapply connected_congr|]. split; [done|].
  apply (below_kept q); [|done|done]. destruct Hst as (c & rest & Hc & _). by exists c.
Qed.

Lemma leftover_none st : nwrite st = datalen st -> leftover st = [].
Proof. intros E. unfold leftover. by rewrite E, Z.sub_diag. Qed.

Lemma streams_flush q l vfuel :
  sends_streams q l -> verifier_quic_flush vfuel q = OutOfFuel \/
  exists t q', verifier_quic_flush vfuel q = Ret (t, q') /\ sends_streams q' l.
Proof.
  intros (st & Hst & Hb & Hn).
  destruct (connected_flush q st vfuel Hst) as [?|(t & q' & st' & acc & Hf & Hst' & Ha & Hall & Hl & Hid & Hnil)];
    [by left|right]. exists t, q'. split; [done|]. exists st'. split; [done|]. rewrite Ha.
  assert (Hbelow : forall acc' : list (Z * list Z), (forall c, q_conn q = Some c -> Forall (fun x => fst x < next_stream c) acc') ->
    forall c, q_conn q' = Some c -> Forall (fun x => fst x < next_stream c) acc').
  { intros acc'. apply below_kept; [|by eapply quic_flush_streams]. destruct Hst as (c & rest & Hc & _). by exists c. }
  unfold waiting in *. destruct (Z.eqb_spec (stream_id st) (-1)) as [He|He].
  { rewrite (Hnil He), app_nil_r. assert (stream_id st' = -1) as -> by (destruct Hid; congruence).
    cbn. split; [done|by apply Hbelow]. }
  assert (Hcut : exists bs, acc ++ (if stream_id st' =? -1 then [] else [(stream_id st', leftover st')]) =
    ((fun b => (stream_id st, b)) <$> bs) /\ concat bs = leftover st).
  { assert (Hp : acc = (fun b => (stream_id st, b)) <$> (snd <$> acc)).
    { clear -Hall. induction Hall as [|[i b] acc Hi _ IH]; [done|]. cbn in *. by rewrite Hi, <- IH. }
    destruct (Z.eqb_spec (stream_id st') (-1)) as [He'|He'].
    - exists (snd <$> acc). rewrite app_nil_r. split; [done|].
      destruct Hst' as (c & rest & _ & _ & (_ & Hw & _) & Ht & _). specialize (Ht He').
      by rewrite Hl, (leftover_none st'), app_nil_r by lia.
    - destruct Hid as [Hid|?]; [|done]. exists ((snd <$> acc) ++ [leftover st']).
      rewrite fmap_app, <- Hp, Hid. split; [done|]. rewrite concat_app, Hl. cbn. by rewrite app_nil_r. }
  destruct Hcut as (bs & Hbs & Hc). rewrite <- app_assoc, Hbs.
  split; [by apply (on_streams_cut _ _ (leftover st))|]. apply Hbelow. intros c Hqc.
  specialize (Hn c Hqc). apply Forall_app in Hn as [Hn1 [Hn2 _]%Forall_cons]. apply Forall_app.
  split; [done|]. apply pieces_below, Hn2.
Qed.

(** What has been accepted needs no slot. *)
Lemma streams_accepted q l : sends_streams q l -> all_accepted q -> on_streams (q_accepted q) l.
Proof.
  intros (st & (c & rest & _ & Hs & _) & Hb & _) (st0 & rest0 & Hs0 & Hn). rewrite Hs in Hs0. injection Hs0 as <- <-.
  unfold waiting in Hb. rewrite leftover_none in Hb by done. destruct (_ =? _); [by rewrite app_nil_r in Hb|].
  rewrite <- (app_nil_r (q_accepted q)). by apply (on_streams_cut _ (stream_id st) [] []).
Qed.

#[export] Instance streams_transport : Transport sends_streams all_accepted.
Proof.
  split.
  - intros q a w c w' Hi Ha _. destruct (idle_connected q c Hi) as (st & Hst & _ & _ & _ & Hid). exists st.
    split; [done|]. cbn. rewrite Ha. unfold waiting. rewrite Hid. split; constructor.
  - intros q l u Hq. eapply sends_streams_congr; [..|exact Hq]; try done.
    intros c Hc. by exists c.
  - intros q l (st & (c & rest & Hc & _) & _). by exists c.
  - intros q l s hash vfuel Hq Hr Hl Hh. pose proof (streams_accepted _ _ Hq Hr) as Hacc.
    destruct Hq as (st & Hst & _ & Hn0). destruct Hr as (st0 & rest0 & Hs0 & Hn).
    assert (st0 = st) as -> by (destruct Hst as (c & rest & _ & Hs & _); congruence).
    destruct (connected_report q st s hash vfuel Hst Hl Hh) as [[[u ->] Hc]|(q1 & st1 & Hst1 & Ha & Hid & Hge & Hlt & Hl1 & ->)]; [done|].
    assert (H1 : sends_streams q1 (l ++ [hash ++ s])).
    { exists st1. split; [done|]. rewrite Ha. unfold waiting.
      rewrite (proj2 (Z.eqb_neq _ _) Hid), Hl1, (leftover_none st) by done. cbn [app].
      assert (Hold : Forall (fun x => fst x < stream_id st1) (q_accepted q)).
      { destruct Hst as (c & rest & Hc & _). specialize (Hn0 c Hc). apply Forall_app in Hn0 as [Hn0 _].
        eapply Forall_impl; [exact Hn0|]. intros x Hx. cbv beta in *. specialize (Hge c Hc). lia. }
      pose proof (on_next _ _ (stream_id st1) [hash ++ s] Hacc Hold) as Ho. cbn in Ho. rewrite app_nil_r in Ho.
      split; [done|]. intros c Hc. specialize (Hlt c Hc). apply Forall_app. split; [|by apply Forall_singleton].
      eapply Forall_impl; [exact Hold|]. intros x Hx. cbv beta in *. lia. }
    unfold mbind, M_bind. by destruct (streams_flush q1 _ vfuel H1) as [->|(t & q' & -> & ?)].
  - intros q l vfuel. apply streams_flush.
  - intros q l buf Hq. pose proof Hq as (st & Hst & _).
    destruct (connected_read q st buf Hst) as (r & q' & Hr & Hc & Es & Ea).
    exists r, q'. split; [done|]. by eapply sends_streams_congr.
  - intros q l Hq. pose proof Hq as (st & Hst & _).
    destruct (connected_expiry q st Hst) as (r & q' & Hr & Hc & Es & Ea).
    exists r, q'. split; [done|]. by eapply sends_streams_congr.
Qed.
End streams.
