(* ===== verification/Processor.v ===== *)
(** * The processor thread (src/processor.c)

    The file-event callbacks, from a queued event to the printed and reported
    hash, the set-up of a thread and its event loop. *)

From stdpp Require Import base numbers list list_numbers strings gmap.
From S2P Require Import Prelude CStr Printf Queue Ev Hasher Slab Quic State Verifier Ride.

Open Scope Z_scope.

(** Does the allocation of [strdup] succeed? *)
Class Malloc (W : Type) := {
  malloc_ok : W -> bool * W;
}.

(** ** Printing *)

Definition hexdigits : list Z := [48; 49; 50; 51; 52; 53; 54; 55; 56; 57; 97; 98; 99; 100; 101; 102].

(** The two digits of one byte. *)
Definition hex_byte (b : Z) : option (list Z) :=
  match arr_get hexdigits (Z.shiftr b 4), arr_get hexdigits (Z.land b 15) with
  | Some a, Some c => Some [a; c]
  | _, _ => None
  end.

Fixpoint hex_bytes (l : list Z) : option (list Z) :=
  match l with
  | [] => Some []
  | b :: l => a ← hex_byte b; r ← hex_bytes l; Some (a ++ r)
  end.

(** The text of the first format up to [%d], between the two numbers, up to
    [%s] and after it, and the closing text. *)
Definition txt_processor : list Z := [123; 32; 34; 112; 114; 111; 99; 101; 115; 115; 111; 114; 34; 58; 32].
Definition txt_req_id : list Z := [44; 32; 34; 114; 101; 113; 95; 105; 100; 34; 58; 32].
Definition txt_file : list Z := [44; 32; 34; 102; 105; 108; 101; 34; 58; 32; 34].
Definition txt_hash : list Z := [34; 44; 32; 34; 104; 97; 115; 104; 34; 58; 32; 34].
Definition txt_end : list Z := [34; 32; 125; 10].

(** The format of the line up to the hash, and what it prints for these ids and
    this file. *)
Definition hash_format : list Z :=
  txt_processor ++ bytes_of "%d" ++ txt_req_id ++ bytes_of "%d" ++ txt_file ++ bytes_of "%s" ++ txt_hash.

Definition line_prefix (id req_id : Z) (file : list Z) : list Z :=
  txt_processor ++ print_int id ++ txt_req_id ++ print_int (s32 req_id) ++ txt_file ++ file ++ txt_hash.

Section processor.
Context {H C W F : Type} `{!Blake3 H, !IoUring W, !Ngtcp2 C, !Host W, !Net C W, !Malloc W, !Eventfd F}.
Context (fuel : nat).
Local Abbreviation P := (processor H C W F).

(** [snprintf] returns the untruncated length, so the digits that follow are
    written at that index of the 512-byte array; with the terminator of the
    last [snprintf] everything must fit. The result of [write] decides only
    whether an error is logged: a short write is not repeated. *)
Definition processor_print_hash (w : processor_iou_req H) (hash : list Z) : M P unit :=
  id ← gets (fun p : P => p_id p);
  str ← read_str (pr_data w);
  file ← of_option OutOfBounds (c_string str);
  hex ← of_option OutOfBounds (hex_bytes hash);
  let prefix := line_prefix id (pr_id w) file in
  if OUTPUT_MAX_SIZE <? Z.of_nat (length prefix + length hex + length txt_end + 1)
  then undef OutOfBounds
  else emit (EWrite (prefix ++ hex ++ txt_end)).

(** The container of a request: [req->data] must be the processor and
    [req->data2] a container. *)
Definition container (q : ev_io_req) : M P nat :=
  match data q, data2 q with
  | Some PProcessor, Some (PIouReq i) => mret i
  | None, _ | _, None => undef NullDeref
  | _, _ => undef BadPointer
  end.

(** The buffers are freed; the output has no buffer of its own to flush. No code
    calls it, and a second call, which would free them twice, is not told from
    the first. *)
Definition processor_free : M P unit := modify (fun p : P => upd_p_buffers [] p).

Definition processor_submit_poll_reqs : M P unit := submit RQueuePoll;; mret tt.

(** [hasher_update(&wreq->hasher, n, (void * )addr)]. *)
Definition update_hash (i : nat) (n : Z) (a : word64) : M P unit :=
  match a with
  | WPtr (PBuffer k) =>
      bufs ← gets (fun p : P => p_buffers p);
      buf ← of_option BadPointer (bufs !! k);
      in_hasher i (hasher_update n buf)
  | _ => undef BadPointer
  end.

(** The code from the label [free] of [on_file_read]. *)
Definition release_file (r : req_ptr) (i : nat) : M P unit :=
  w ← iou_get i;
  free_str (pr_data w);;
  iou_put i (set_pr_data w None 0);;
  q ← req_get r;
  in_slab (processor_free_req q);;
  emit (EClose (fd q)).

Definition set_off (q : ev_io_req) (o : word64) : ev_io_req :=
  {| opcode := opcode q; off := o; addr := addr q; fd := fd q; len := len q; flags := flags q;
     result := result q; result_flags := result_flags q; data := data q; data2 := data2 q;
     callback := callback q |}.

Definition on_file_read (r : req_ptr) : M P unit :=
  q ← req_get r;
  i ← container q;
  if result q <? 0 then release_file r i
  else
    update_hash i (result q) (addr q);;
    if result q =? 0 then
      hash ← in_hasher i (hasher_finalize HASH_LEN);
      w ← iou_get i;
      processor_print_hash w hash;;
      str ← read_str (pr_data w);
      in_quic (verifier_verify_hash fuel (u64 (pr_data2 w)) str HASH_LEN hash);;
      release_file r i
    else
      match off q with
      | WInt o =>
          q ← req_get r;
          req_put r (set_off q (WInt (u64 (o + result q))));;
          submit r;;
          mret tt
      | WPtr _ => undef BadPointer
      end.

Definition read_req_of (q : ev_io_req) (buf : nat) : ev_io_req :=
  {| opcode := IORING_OP_READ; off := WInt 0; addr := WPtr (PBuffer buf); fd := result q;
     len := READ_BUF_SIZE; flags := flags q; result := result q; result_flags := result_flags q;
     data := data q; data2 := data2 q; callback := Some on_file_read_cb |}.

Definition on_file_open (r : req_ptr) : M P unit :=
  q ← req_get r;
  i ← container q;
  if result q <? 0 then
    w ← iou_get i;
    free_str (pr_data w);;
    iou_put i (set_pr_data w None 0);;
    q ← req_get r;
    in_slab (processor_free_req q)
  else
    w ← iou_get i;
    req_put r (read_req_of q (pr_buffer w));;
    in_hasher i hasher_init;;
    submit r;;
    mret tt.

(** [strdup] of a [char] array: the copy ends at its first NUL. *)
Definition strdup (buf : list Z) : M P (option nat) := fun p =>
  match c_string buf with
  | None => Undef OutOfBounds
  | Some s =>
      let '(ok, w) := malloc_ok (q_world (p_quic p)) in
      let p := upd_p_quic (set_qworld (p_quic p) w) p in
      let e := p_shared p in
      if ok then
        Ret (Some (e_brk e),
             upd_p_shared (upd_e_brk (S (e_brk e)) (upd_e_heap (<[e_brk e := s ++ [0]]> (e_heap e)) e)) p)
      else Ret (None, p)
  end.

Definition consume (ev : event) : M P (Z * event) := fun p =>
  let e := p_shared p in
  match queue_consume_try ev (e_queue e, e_efd e) with
  | Ret (r, (q, f)) => Ret (r, upd_p_shared (upd_e_queue q (upd_e_efd f e)) p)
  | Exit c => Exit c
  | AssertFailed => AssertFailed
  | Undef u => Undef u
  | OutOfFuel => OutOfFuel
  end.

Definition open_req_of (q : ev_io_req) (a : nat) : ev_io_req :=
  {| opcode := IORING_OP_OPENAT; off := off q; addr := WPtr (PStr a); fd := AT_FDCWD; len := 0;
     flags := O_RDONLY; result := result q; result_flags := result_flags q; data := data q;
     data2 := data2 q; callback := Some on_file_open_cb |}.

(** From "open file" to the submission. *)
Definition open_event (ev : event) : M P unit :=
  i ← in_slab processor_get_req;
  a ← strdup (path ev);
  match a with
  | None => exit_ 1
  | Some a =>
      w ← iou_get i;
      iou_put i (set_pr_data (set_pr_req w (open_req_of (pr_req w) a)) (Some a) (path_len ev));;
      submit (RSlot i);;
      mret tt
  end.

Definition on_queue_event (r : req_ptr) : M P unit :=
  q ← req_get r;
  match data q with
  | Some PProcessor =>
      if result q <? 0 then
        if (result q =? - EBADF) || (result q =? - EINVAL) then exit_ 1
        else processor_submit_poll_reqs
      else
        '(ret, ev) ← consume event_zero;
        (if negb (ret =? 0) && negb (ret =? EAGAIN) then mret tt else open_event ev);;
        if Z.land (result_flags q) IORING_CQE_F_MORE =? 0
        then processor_submit_poll_reqs else mret tt
  | None => undef NullDeref
  | Some _ => undef BadPointer
  end.

Definition processor_prepare_poll_reqs : M P unit :=
  modify (fun p : P => upd_p_queue_poll
    {| opcode := IORING_OP_POLL_ADD; off := WInt 0; addr := WInt 0; fd := p_queue_efd p;
       len := IORING_POLL_ADD_MULTI; flags := Z.lor EPOLLIN EPOLLEXCLUSIVE; result := 0;
       result_flags := 0; data := Some PProcessor; data2 := None;
       callback := Some on_queue_event_cb |} p).

(** ** The event loop *)

Definition store_result (r : req_ptr) (res fl : Z) (p : P) : P :=
  match req_at r p with
  | None => p
  | Some q => req_set r {| opcode := opcode q; off := off q; addr := addr q; fd := fd q;
                           len := len q; flags := flags q; result := res; result_flags := fl;
                           data := data q; data2 := data2 q; callback := callback q |} p
  end.

(** The call [req->callback(req)]. *)
Definition run_callback (r : req_ptr) : M P unit :=
  q ← req_get r;
  match callback q with
  | None => undef NullDeref
  | Some on_queue_event_cb => on_queue_event r
  | Some on_file_open_cb => on_file_open r
  | Some on_file_read_cb => on_file_read r
  | Some on_socket_create_cb => on_socket_create r
  | Some on_socket_connect_cb => on_socket_connect fuel r
  | Some on_socket_read_cb => on_socket_read fuel r
  | Some on_socket_timeout_cb => on_socket_timeout r
  | Some on_socket_timeout_update_cb => on_socket_timeout_update r
  end.

(** ** Set-up *)

(** [processor_setup] on the zeroed processor: [buffers] is the memory of the
    aligned allocation ([None] when it fails), [alloc_reqs] whether the slab's
    allocation succeeds, [h0] the hasher in zeroed memory. The ring set-up
    comes before the poll request is prepared and submitted. *)
Definition processor_setup (args : processor_args) (buffers : option (list (list Z)))
    (alloc_reqs : bool) (h0 : hasher H) : M P unit := fun p =>
  let ok := match buffers with Some _ => alloc_reqs | None => false end in
  match slab_setup h0 ok (Z.to_nat (pa_io_concurrency args)) with
  | Ret s =>
      let p := upd_p_id (s32 (pa_id args)) (upd_p_nr_tasks (pa_io_concurrency args)
                 (upd_p_queue_efd (pa_queue_eventfd args)
                   (upd_p_buffers (default [] buffers) (upd_p_slab s p)))) in
      match ev_loop_init (None, q_world (p_quic p)) with
      | Ret (_, (Some l, w)) =>
          (processor_prepare_poll_reqs;; processor_submit_poll_reqs)
            (upd_p_quic (set_qworld (p_quic p) w) (upd_p_loop l p))
      | Ret (_, (None, _)) => Undef NullDeref
      | Exit c => Exit c
      | AssertFailed => AssertFailed
      | Undef u => Undef u
      | OutOfFuel => OutOfFuel
      end
  | Exit c => Exit c
  | AssertFailed => AssertFailed
  | Undef u => Undef u
  | OutOfFuel => OutOfFuel
  end.

(** [processor_run] up to the event loop. *)
Definition processor_start (args : processor_args) (buffers : option (list (list Z)))
    (alloc_reqs : bool) (h0 : hasher H) : M P Z :=
  processor_setup args buffers alloc_reqs h0;;
  modify (fun p : P => upd_p_verifier (verifier_zero (p_quic p)) p);;
  verifier_init.

(** [turns] bounds the turns of the event loop that are observed. *)
Definition processor_run (turns : nat) (args : processor_args) (buffers : option (list (list Z)))
    (alloc_reqs : bool) (h0 : hasher H) : M P Z :=
  processor_start args buffers alloc_reqs h0;;
  ev_loop_run store_result run_callback turns.
End processor.

(** ** Printed text *)

(** Reading back hexadecimal text. *)
Definition hex_val (c : Z) : Z := if c <? 58 then c - 48 else c - 87.
Fixpoint read_hex (s : list Z) : list Z :=
  match s with
  | a :: b :: s => (hex_val a * 16 + hex_val b) :: read_hex s
  | _ => []
  end.

Definition byte_list (l : list Z) : Prop := Forall (fun b => 0 <= b < 256) l.

Lemma hex_byte_spec b :
  0 <= b < 256 -> exists x y, hex_byte b = Some [x; y] /\ hex_val x * 16 + hex_val y = b.
Proof.
  intros Hb. assert (Hin : b ∈ seqZ 0 256) by (apply elem_of_seqZ; lia).
  assert (Hall : Forall (fun b => match hex_byte b with
    | Some [x; y] => hex_val x * 16 + hex_val y = b | _ => False end) (seqZ 0 256)).
  { vm_compute. repeat constructor. }
  rewrite Forall_forall in Hall. specialize (Hall b Hin).
  destruct (hex_byte b) as [[|x [|y []]]|]; try done. eauto.
Qed.

Lemma hex_bytes_spec l :
  byte_list l -> exists h, hex_bytes l = Some h /\ read_hex h = l /\ length h = (2 * length l)%nat.
Proof.
  induction 1 as [|b l Hb _ (h & Hh & Hr & Hl)]; [by exists []|].
  destruct (hex_byte_spec b Hb) as (x & y & Hx & Hv). exists (x :: y :: h).
  simpl. rewrite Hx, Hh. simpl. rewrite Hv, Hr. split_and!; [done..|lia].
Qed.

(** ** The handlers as equations on the state *)

Section handlers.
Context {H C W F : Type} `{!Blake3 H, !Blake3Laws H, !IoUring W, !Ngtcp2 C, !Host W, !Net C W, !Malloc W, !Eventfd F}.
Implicit Types (p : processor H C W F) (w : processor_iou_req H).

Lemma in_hasher_ok {A} i w (m : M (hasher H) A) a h p :
  reqs (p_slab p) !! i = Some w -> m (pr_hasher w) = Ret (a, h) ->
  in_hasher i m p = Ret (a, put i (set_pr_hasher w h) p).
Proof.
  intros Hw Hm. unfold in_hasher. rewrite (bind_Ret _ _ _ _ _ (iou_get_ok _ _ _ Hw)).
  by rewrite Hm.
Qed.

(** The request of container [i] names the processor and the container. *)
Definition names_container (i : nat) (q : ev_io_req) : Prop :=
  data q = Some PProcessor /\ data2 q = Some (PIouReq i).

Lemma container_ok i q p : names_container i q -> container q p = Ret (i, p).
Proof. intros [Hd Hd2]. unfold container. by rewrite Hd, Hd2. Qed.

(** The thread after a text was written, a descriptor closed, a string freed. *)
Definition emitted (x : effect) (p : processor H C W F) : processor H C W F :=
  upd_p_shared (upd_e_out (e_out (p_shared p) ++ [x]) (p_shared p)) p.
Definition freed (a : nat) (p : processor H C W F) : processor H C W F :=
  upd_p_shared (upd_e_heap (delete a (e_heap (p_shared p))) (p_shared p)) p.

(** The line printed for a hash. *)
Definition hash_line (id req_id : Z) (file hash : list Z) : list Z :=
  line_prefix id req_id file ++ default [] (hex_bytes hash) ++ txt_end.

Lemma read_str_ok a s p : e_heap (p_shared p) !! a = Some s -> read_str (Some a) p = Ret (s, p).
Proof. intros Ha. unfold read_str. by rewrite Ha. Qed.

Lemma line_prefix_format id req_id file :
  - 2 ^ 31 <= id < 2 ^ 31 ->
  format hash_format [AInt id; AInt req_id; AStr file] = Some (line_prefix id req_id file).
Proof.
  intros Hid. unfold format.
  set (its := (Lit <$> txt_processor) ++ Conv CvInt :: (Lit <$> txt_req_id) ++ Conv CvInt ::
    (Lit <$> txt_file) ++ Conv CvStr :: (Lit <$> txt_hash)).
  assert (Hp : parse_format (length hash_format) hash_format = Some its) by (vm_compute; reflexivity).
  rewrite Hp. cbn [mbind option_bind]. unfold its, line_prefix.
  rewrite render_lits. cbn [render]. rewrite render_lits. cbn [render]. rewrite render_lits. cbn [render].
  rewrite render_literal. cbn [fmap option_fmap option_map]. by rewrite (s32_small id).
Qed.

Lemma line_prefix_length id req_id file :
  - 2 ^ 31 <= id < 2 ^ 31 ->
  (length (line_prefix id req_id file) <= 72 + length file)%nat.
Proof.
  intros Hid. unfold line_prefix. rewrite !length_app. cbn [length txt_processor txt_req_id txt_file txt_hash].
  pose proof (proj2 (print_int_spec id Hid)). pose proof (proj2 (print_int_spec (s32 req_id) (s32_range _))).
  lia.
Qed.

(** A path from an event (at most 127 characters) always fits the output
    buffer. *)
Lemma processor_print_hash_ok w a s hash p :
  pr_data w = Some a -> e_heap (p_shared p) !! a = Some (s ++ [0]) -> no_nul s ->
  (length s < 128)%nat -> byte_list hash -> length hash = 32%nat ->
  - 2 ^ 31 <= p_id p < 2 ^ 31 ->
  processor_print_hash w hash p =
  Ret (tt, emitted (EWrite (hash_line (p_id p) (pr_id w) s hash)) p).
Proof.
  intros Hd Ha Hn Hs Hb Hh Hid. unfold processor_print_hash. rewrite Hd.
  unfold mbind at 1, M_bind at 1, gets.
  rewrite (bind_Ret _ _ _ _ _ (read_str_ok a _ _ Ha)).
  rewrite (c_string_app s []) by done.
  destruct (hex_bytes_spec hash Hb) as (h & Hx & _ & Hl). unfold hash_line. rewrite Hx.
  mrun. pose proof (line_prefix_length (p_id p) (pr_id w) s Hid) as Hp.
  cbn [default]. unfold OUTPUT_MAX_SIZE, txt_end. cbn [length].
  destruct (Z.ltb_spec 512 (Z.of_nat (length (line_prefix (p_id p) (pr_id w) s) + length h + 4 + 1))); [lia|].
  done.
Qed.

Lemma free_str_ok a s p :
  e_heap (p_shared p) !! a = Some s -> free_str (Some a) p = Ret (tt, freed a p).
Proof. intros Ha. unfold free_str. by rewrite Ha. Qed.

(** The thread after the release of container [i]. *)
Definition released (i : nat) (w : processor_iou_req H) (p : processor H C W F) : processor H C W F :=
  upd_p_slab {| reqs := <[i := release_entry (reqs_list (p_slab p)) (set_pr_data w None 0)]> (reqs (p_slab p));
                reqs_list := Some i; nr_free_reqs := nr_free_reqs (p_slab p) + 1 |} p.

Lemma release_slot i w p :
  reqs (p_slab p) !! i = Some w -> names_container i (pr_req w) ->
  in_slab (processor_free_req (pr_req w)) (put i (set_pr_data w None 0) p) = Ret (tt, released i w p).
Proof.
  intros Hw [Hd Hd2]. unfold in_slab, processor_free_req. rewrite Hd, Hd2.
  rewrite put_lookup by (by eapply lookup_lt_Some). cbn. unfold released.
  by rewrite list_insert_insert_eq.
Qed.

Lemma release_file_eq i w a s p :
  reqs (p_slab p) !! i = Some w -> names_container i (pr_req w) ->
  pr_data w = Some a -> e_heap (p_shared p) !! a = Some s ->
  release_file (RSlot i) i p =
  Ret (tt, emitted (EClose (fd (pr_req w))) (released i w (freed a p))).
Proof.
  intros Hw Hn Hd Ha. unfold release_file.
  rewrite (bind_Ret _ _ _ _ _ (iou_get_ok _ _ _ Hw)), Hd.
  rewrite (bind_Ret _ _ _ _ _ (free_str_ok _ _ _ Ha)).
  assert (Hw' : reqs (p_slab (freed a p)) !! i = Some w) by done.
  unfold iou_put. unfold mbind at 1, M_bind at 1, modify at 1.
  rewrite (bind_Ret _ _ _ _ _ (req_get_slot i (set_pr_data w None 0) _ (put_lookup _ _ _ (lookup_lt_Some _ _ _ Hw')))).
  change (pr_req (set_pr_data w None 0)) with (pr_req w).
  by rewrite (bind_Ret _ _ _ _ _ (release_slot i w _ Hw' Hn)).
Qed.
(** A failed open: the path and the container are released, nothing is
    written and no descriptor is closed. *)
Lemma on_file_open_fail i w a s p :
  reqs (p_slab p) !! i = Some w -> names_container i (pr_req w) -> result (pr_req w) < 0 ->
  pr_data w = Some a -> e_heap (p_shared p) !! a = Some s ->
  on_file_open (RSlot i) p = Ret (tt, released i w (freed a p)).
Proof.
  intros Hw Hn Hr Hd Ha. unfold on_file_open.
  rewrite (bind_Ret _ _ _ _ _ (req_get_slot _ _ _ Hw)).
  rewrite (bind_Ret _ _ _ _ _ (container_ok _ _ _ Hn)), (proj2 (Z.ltb_lt _ _) Hr).
  rewrite (bind_Ret _ _ _ _ _ (iou_get_ok _ _ _ Hw)), Hd.
  rewrite (bind_Ret _ _ _ _ _ (free_str_ok _ _ _ Ha)).
  assert (Hw' : reqs (p_slab (freed a p)) !! i = Some w) by done.
  unfold iou_put. unfold mbind at 1, M_bind at 1, modify at 1.
  rewrite (bind_Ret _ _ _ _ _ (req_get_slot i (set_pr_data w None 0) _ (put_lookup _ _ _ (lookup_lt_Some _ _ _ Hw')))).
  change (pr_req (set_pr_data w None 0)) with (pr_req w).
  by rewrite (release_slot i w _ Hw' Hn).
Qed.

(** The container after a successful open. *)
Definition opened (w : processor_iou_req H) : processor_iou_req H :=
  set_pr_hasher (set_pr_req w (read_req_of (pr_req w) (pr_buffer w))) (Hasher blake3_hasher_init).

Lemma on_file_open_ok i w p :
  reqs (p_slab p) !! i = Some w -> names_container i (pr_req w) -> 0 <= result (pr_req w) ->
  sq_wf (p_loop p) ->
  on_file_open (RSlot i) p =
  Ret (tt, submitted (RSlot i) (pr_req (opened w)) (put i (opened w) p)).
Proof.
  intros Hw Hn Hr Hwf. pose proof (lookup_lt_Some _ _ _ Hw) as Hi. unfold on_file_open.
  rewrite (bind_Ret _ _ _ _ _ (req_get_slot _ _ _ Hw)).
  rewrite (bind_Ret _ _ _ _ _ (container_ok _ _ _ Hn)), (proj2 (Z.ltb_ge _ _) Hr).
  rewrite (bind_Ret _ _ _ _ _ (iou_get_ok _ _ _ Hw)).
  unfold req_put. unfold mbind at 1, M_bind at 1, modify at 1. rewrite (req_set_slot _ _ _ _ Hw).
  set (w1 := set_pr_req w _).
  assert (H1 : in_hasher i hasher_init (put i w1 p) = Ret (tt, put i (opened w) p)).
  { erewrite in_hasher_ok; [by rewrite put_put|by apply put_lookup|done]. }
  rewrite (bind_Ret _ _ _ _ _ H1).
  assert (H2 : req_at (RSlot i) (put i (opened w) p) = Some (pr_req (opened w)))
    by (unfold req_at; by rewrite put_lookup).
  by rewrite (bind_Ret _ _ _ _ _ (submit_eq _ _ _ H2 Hwf)).
Qed.

(** The container after [n] bytes were read from [buf]. *)
Definition advanced (w : processor_iou_req H) (o n : Z) (buf : list Z) : processor_iou_req H :=
  set_pr_req (set_pr_hasher w (Hasher (blake3_hasher_update (blake (pr_hasher w)) (take (Z.to_nat n) buf))))
    (set_off (pr_req w) (WInt (u64 (o + n)))).

Lemma update_hash_eq i w k buf n p :
  reqs (p_slab p) !! i = Some w -> p_buffers p !! k = Some buf -> 0 <= n <= Z.of_nat (length buf) ->
  update_hash i n (WPtr (PBuffer k)) p =
  Ret (tt, put i (set_pr_hasher w (Hasher (blake3_hasher_update (blake (pr_hasher w)) (take (Z.to_nat n) buf)))) p).
Proof.
  intros Hw Hb Hn. unfold update_hash, gets. unfold mbind at 1, M_bind at 1. rewrite Hb.
  unfold of_option. rewrite bind_ret_l.
  erewrite in_hasher_ok; [done|done|]. unfold hasher_update.
  by rewrite (proj2 (Z.leb_le 0 n)), (proj2 (Z.leb_le n _)) by lia.
Qed.

Lemma on_file_read_more i w k buf o p :
  reqs (p_slab p) !! i = Some w -> names_container i (pr_req w) ->
  addr (pr_req w) = WPtr (PBuffer k) -> off (pr_req w) = WInt o ->
  p_buffers p !! k = Some buf -> 0 < result (pr_req w) <= Z.of_nat (length buf) ->
  sq_wf (p_loop p) -> forall fuel,
  let w' := advanced w o (result (pr_req w)) buf in
  on_file_read fuel (RSlot i) p = Ret (tt, submitted (RSlot i) (pr_req w') (put i w' p)).
Proof.
  intros Hw Hn Had Ho Hb Hr Hwf fuel w'. pose proof (lookup_lt_Some _ _ _ Hw) as Hi.
  unfold on_file_read.
  rewrite (bind_Ret _ _ _ _ _ (req_get_slot _ _ _ Hw)).
  rewrite (bind_Ret _ _ _ _ _ (container_ok _ _ _ Hn)), (proj2 (Z.ltb_ge _ _)) by lia.
  rewrite Had, (bind_Ret _ _ _ _ _ (update_hash_eq _ _ _ _ (result (pr_req w)) _ Hw Hb ltac:(lia))).
  rewrite (proj2 (Z.eqb_neq _ _)) by lia. rewrite Ho.
  set (w1 := set_pr_hasher w _).
  assert (Hw1 : reqs (p_slab (put i w1 p)) !! i = Some w1) by (by apply put_lookup).
  rewrite (bind_Ret _ _ _ _ _ (req_get_slot _ _ _ Hw1)).
  unfold req_put. unfold mbind at 1, M_bind at 1, modify at 1.
  rewrite (req_set_slot _ _ _ _ Hw1), put_put.
  change (set_pr_req w1 _) with w'.
  assert (H2 : req_at (RSlot i) (put i w' p) = Some (pr_req w'))
    by (unfold req_at; by rewrite put_lookup).
  by rewrite (bind_Ret _ _ _ _ _ (submit_eq _ _ _ H2 Hwf)).
Qed.

(** A failed read: everything is released, nothing is written. *)
(** Why no code may call [processor_free] while the loop runs: the next bytes
    that arrive for a file are hashed from a freed buffer. *)
Lemma read_after_processor_free i w k p :
  reqs (p_slab p) !! i = Some w -> names_container i (pr_req w) ->
  addr (pr_req w) = WPtr (PBuffer k) -> 0 <= result (pr_req w) -> forall fuel,
  (processor_free;; on_file_read fuel (RSlot i)) p = Undef BadPointer.
Proof.
  intros Hw Hn Had Hr fuel. unfold processor_free.
  set (p1 := upd_p_buffers [] p). change (on_file_read fuel (RSlot i) p1 = Undef BadPointer).
  assert (Hw1 : reqs (p_slab p1) !! i = Some w) by done. unfold on_file_read.
  rewrite (bind_Ret _ _ _ _ _ (req_get_slot _ _ _ Hw1)).
  rewrite (bind_Ret _ _ _ _ _ (container_ok _ _ _ Hn)), (proj2 (Z.ltb_ge _ _)), Had by lia. done.
Qed.

Lemma on_file_read_fail i w a s p fuel :
  reqs (p_slab p) !! i = Some w -> names_container i (pr_req w) -> result (pr_req w) < 0 ->
  pr_data w = Some a -> e_heap (p_shared p) !! a = Some s ->
  on_file_read fuel (RSlot i) p =
  Ret (tt, emitted (EClose (fd (pr_req w))) (released i w (freed a p))).
Proof.
  intros Hw Hn Hr Hd Ha. unfold on_file_read.
  rewrite (bind_Ret _ _ _ _ _ (req_get_slot _ _ _ Hw)).
  rewrite (bind_Ret _ _ _ _ _ (container_ok _ _ _ Hn)), (proj2 (Z.ltb_lt _ _) Hr).
  by eapply release_file_eq.
Qed.

(** The thread after the hash of a whole file was printed and handed to the
    verifier, whose state is then [q]. *)
Definition reported (i : nat) (w : processor_iou_req H) (a : nat) (s hash : list Z)
    (q : quic C W) (p : processor H C W F) : processor H C W F :=
  emitted (EClose (fd (pr_req w))) (released i w (freed a
    (upd_p_quic q (emitted (EWrite (hash_line (p_id p) (pr_id w) s hash)) p)))).

(** End of file: the outcome is that of the verifier call. *)
Lemma on_file_read_eof i w k buf a s p fuel :
  reqs (p_slab p) !! i = Some w -> names_container i (pr_req w) ->
  addr (pr_req w) = WPtr (PBuffer k) -> p_buffers p !! k = Some buf -> result (pr_req w) = 0 ->
  pr_data w = Some a -> e_heap (p_shared p) !! a = Some (s ++ [0]) -> no_nul s ->
  (length s < 128)%nat -> - 2 ^ 31 <= p_id p < 2 ^ 31 ->
  let hash := blake3_hasher_finalize (blake (pr_hasher w)) HASH_LEN in
  on_file_read fuel (RSlot i) p =
  match verifier_verify_hash fuel (u64 (pr_data2 w)) (s ++ [0]) HASH_LEN hash (p_quic p) with
  | Ret (_, q) => Ret (tt, reported i w a s hash q p)
  | Exit c => Exit c
  | AssertFailed => AssertFailed
  | Undef u => Undef u
  | OutOfFuel => OutOfFuel
  end.
Proof.
  intros Hw Hn Had Hb Hr Hd Ha Hs Hl Hid hash. unfold on_file_read.
  rewrite (bind_Ret _ _ _ _ _ (req_get_slot _ _ _ Hw)).
  rewrite (bind_Ret _ _ _ _ _ (container_ok _ _ _ Hn)), Hr. cbn [Z.ltb Z.compare].
  rewrite Had, (bind_Ret _ _ _ _ _ (update_hash_eq _ _ _ _ 0 _ Hw Hb ltac:(lia))).
  cbn [Z.to_nat take Z.eqb]. rewrite blake3_update_nil.
  assert (Hid' : set_pr_hasher w (Hasher (blake (pr_hasher w))) = w) by (by destruct w as [? [] ? ? ? ? ? ?]).
  rewrite Hid', (put_id _ _ _ Hw).
  assert (H1 : in_hasher i (hasher_finalize HASH_LEN) p = Ret (hash, p)).
  { erewrite in_hasher_ok; [|done|done]. rewrite put_id; [done|]. rewrite Hw. by destruct w. }
  rewrite (bind_Ret _ _ _ _ _ H1), (bind_Ret _ _ _ _ _ (iou_get_ok _ _ _ Hw)).
  assert (Hlen : length hash = 32%nat) by apply hash_length.
  rewrite (bind_Ret _ _ _ _ _ (processor_print_hash_ok w a s hash p Hd Ha Hs Hl
             (blake3_finalize_bytes _ _) Hlen Hid)).
  set (p1 := emitted _ p).
  assert (Ha1 : e_heap (p_shared p1) !! a = Some (s ++ [0])) by done.
  rewrite Hd, (bind_Ret _ _ _ _ _ (read_str_ok _ _ _ Ha1)).
  unfold mbind at 1, M_bind at 1, in_quic. change (p_quic p1) with (p_quic p).
  destruct (verifier_verify_hash _ _ _ _ _ _) as [[u q]| | | |]; [|done..].
  by apply (release_file_eq i w a (s ++ [0])).
Qed.
(** The container of an event being opened: its path is the heap string [a]. *)
Definition opening (i : nat) (w : processor_iou_req H) (a : nat) (n : Z) : processor_iou_req H :=
  set_pr_data (set_pr_req (take_entry i w) (open_req_of (pr_req (take_entry i w)) a)) (Some a) n.

(** The thread after the path [s] was copied to the heap and the container
    taken off the free list; [u] is the world after the allocation. *)
Definition opening_state (i : nat) (w : processor_iou_req H) (n : Z) (s : list Z) (u : W)
    (p : processor H C W F) : processor H C W F :=
  let e := p_shared p in
  upd_p_slab {| reqs := <[i := opening i w (e_brk e) n]> (reqs (p_slab p)); reqs_list := pr_next w;
                nr_free_reqs := nr_free_reqs (p_slab p) - 1 |}
    (upd_p_shared (upd_e_brk (S (e_brk e)) (upd_e_heap (<[e_brk e := s ++ [0]]> (e_heap e)) e))
      (upd_p_quic (set_qworld (p_quic p) u) p)).

Lemma open_event_eq i w free ev s u p :
  slab_wf (p_slab p) (i :: free) -> reqs (p_slab p) !! i = Some w ->
  c_string (path ev) = Some s -> malloc_ok (q_world (p_quic p)) = (true, u) -> sq_wf (p_loop p) ->
  open_event ev p =
  Ret (tt, submitted (RSlot i) (pr_req (opening i w (e_brk (p_shared p)) (path_len ev)))
             (opening_state i w (path_len ev) s u p)).
Proof.
  intros Hwf Hw Hs Hm Hsq. pose proof (lookup_lt_Some _ _ _ Hw) as Hi.
  destruct (get_req_taken _ _ _ _ Hwf Hw) as (Hg & _). unfold open_event.
  set (sl := taken i w (p_slab p)) in *.
  assert (H1 : in_slab processor_get_req p = Ret (i, upd_p_slab sl p)) by (unfold in_slab; by rewrite Hg).
  rewrite (bind_Ret _ _ _ _ _ H1). set (p1 := upd_p_slab sl p).
  set (p2 := upd_p_shared (upd_e_brk (S (e_brk (p_shared p)))
      (upd_e_heap (<[e_brk (p_shared p) := s ++ [0]]> (e_heap (p_shared p))) (p_shared p)))
      (upd_p_quic (set_qworld (p_quic p) u) p1)).
  assert (H2 : strdup (path ev) p1 = Ret (Some (e_brk (p_shared p)), p2)).
  { unfold strdup. rewrite Hs. change (p_quic p1) with (p_quic p). by rewrite Hm. }
  rewrite (bind_Ret _ _ _ _ _ H2).
  assert (Hw2 : reqs (p_slab p2) !! i = Some (take_entry i w)).
  { cbn. by apply list_lookup_insert_eq. }
  rewrite (bind_Ret _ _ _ _ _ (iou_get_ok _ _ _ Hw2)).
  unfold iou_put. unfold mbind at 1, M_bind at 1, modify at 1.
  fold (opening i w (e_brk (p_shared p)) (path_len ev)).
  assert (Hp3 : put i (opening i w (e_brk (p_shared p)) (path_len ev)) p2 = opening_state i w (path_len ev) s u p).
  { unfold put, slab_put, opening_state, p2, p1, upd_p_slab, upd_p_shared, upd_p_quic, upd_p_verifier. cbn.
    by rewrite list_insert_insert_eq. }
  rewrite Hp3.
  assert (H4 : req_at (RSlot i) (opening_state i w (path_len ev) s u p) =
               Some (pr_req (opening i w (e_brk (p_shared p)) (path_len ev)))).
  { cbn. by rewrite list_lookup_insert_eq. }
  by rewrite (bind_Ret _ _ _ _ _ (submit_eq _ _ _ H4 Hsq)).
Qed.

(** Re-arming the poll unless the kernel keeps it armed. *)
Definition rearmed (q : ev_io_req) (p : processor H C W F) : processor H C W F :=
  if Z.land (result_flags q) IORING_CQE_F_MORE =? 0
  then submitted RQueuePoll (p_queue_poll p) p else p.

Lemma submit_poll_eq p :
  sq_wf (p_loop p) -> processor_submit_poll_reqs p = Ret (tt, submitted RQueuePoll (p_queue_poll p) p).
Proof.
  intros Hwf. unfold processor_submit_poll_reqs.
  by rewrite (bind_Ret _ _ _ _ _ (submit_eq RQueuePoll (p_queue_poll p) p eq_refl Hwf)).
Qed.

(** Any other result of the queue: nothing is opened. *)
Lemma on_queue_event_skip p q' efd' ret ev :
  data (p_queue_poll p) = Some PProcessor -> 0 <= result (p_queue_poll p) ->
  queue_consume_try event_zero (e_queue (p_shared p), e_efd (p_shared p)) = Ret ((ret, ev), (q', efd')) ->
  ret <> 0 -> ret <> EAGAIN -> sq_wf (p_loop p) ->
  on_queue_event RQueuePoll p =
  Ret (tt, rearmed (p_queue_poll p) (upd_p_shared (upd_e_queue q' (upd_e_efd efd' (p_shared p))) p)).
Proof.
  intros Hd Hr Hc H0 H1 Hwf. unfold on_queue_event, req_get, req_at.
  unfold mbind at 1, M_bind at 1. rewrite Hd, (proj2 (Z.ltb_ge _ _) Hr).
  assert (E : consume event_zero p =
              Ret ((ret, ev), upd_p_shared (upd_e_queue q' (upd_e_efd efd' (p_shared p))) p))
    by (unfold consume; by rewrite Hc).
  rewrite (bind_Ret _ _ _ _ _ E), (proj2 (Z.eqb_neq _ _) H0), (proj2 (Z.eqb_neq _ _) H1).
  cbn [negb andb]. set (p1 := upd_p_shared _ p). rewrite (bind_Ret (mret tt) _ p1 tt p1 eq_refl).
  unfold rearmed. destruct (_ =? 0); [by apply submit_poll_eq|done].
Qed.

Lemma on_queue_event_take p q' efd' ret ev p1 :
  data (p_queue_poll p) = Some PProcessor -> 0 <= result (p_queue_poll p) ->
  queue_consume_try event_zero (e_queue (p_shared p), e_efd (p_shared p)) = Ret ((ret, ev), (q', efd')) ->
  ret = 0 \/ ret = EAGAIN ->
  open_event ev (upd_p_shared (upd_e_queue q' (upd_e_efd efd' (p_shared p))) p) = Ret (tt, p1) ->
  sq_wf (p_loop p1) ->
  on_queue_event RQueuePoll p = Ret (tt, rearmed (p_queue_poll p) p1).
Proof.
  intros Hd Hr Hc Hret Ho Hwf. unfold on_queue_event, req_get, req_at.
  unfold mbind at 1, M_bind at 1. rewrite Hd, (proj2 (Z.ltb_ge _ _) Hr).
  assert (H1 : consume event_zero p =
               Ret ((ret, ev), upd_p_shared (upd_e_queue q' (upd_e_efd efd' (p_shared p))) p))
    by (unfold consume; by rewrite Hc).
  rewrite (bind_Ret _ _ _ _ _ H1).
  assert (Hb : negb (ret =? 0) && negb (ret =? EAGAIN) = false)
    by (destruct Hret as [-> | ->]; reflexivity).
  rewrite Hb, (bind_Ret _ _ _ _ _ Ho). unfold rearmed.
  destruct (Z.land _ _ =? 0); [by apply submit_poll_eq|done].
Qed.
End handlers.

(** ** Properties *)

Section properties.
Context {H C W F : Type} `{!Blake3 H, !IoUring W, !Ngtcp2 C, !Host W, !Net C W, !Malloc W, !Eventfd F}.
Implicit Types (p : processor H C W F) (w : processor_iou_req H).

(** C23. [processor_print_hash] on every path string: the line is passed to
    [write] exactly when it fits the 512-byte array with its terminator, otherwise the
    array is overrun; it fits for every path of at most 127 characters, the
    longest an event can hold. The line starts with what the format of the
    source prints, the hexadecimal text reads back as the hash, and the printed
    ids as the ids. *)
Theorem print_hash_exact w a s hash p :
  pr_data w = Some a -> e_heap (p_shared p) !! a = Some (s ++ [0]) -> no_nul s ->
  byte_list hash -> length hash = 32%nat -> - 2 ^ 31 <= p_id p < 2 ^ 31 ->
  let prefix := line_prefix (p_id p) (pr_id w) s in
  exists h, hex_bytes hash = Some h /\ read_hex h = hash /\
    format hash_format [AInt (p_id p); AInt (pr_id w); AStr s] = Some prefix /\
    read_int (print_int (p_id p)) = p_id p /\
    read_int (print_int (s32 (pr_id w))) = s32 (pr_id w) /\
    processor_print_hash w hash p =
      (if (length prefix + 69 <=? 512)%nat
       then Ret (tt, emitted (EWrite (prefix ++ h ++ txt_end)) p) else Undef OutOfBounds) /\
    ((length s <= 127)%nat -> (length prefix + 69 <= 512)%nat).
Proof.
  intros Hd Ha Hn Hb Hh Hid prefix.
  destruct (hex_bytes_spec hash Hb) as (h & Hx & Hr & Hl). exists h.
  pose proof (line_prefix_length (p_id p) (pr_id w) s Hid) as Hp. fold prefix in Hp.
  split; [done|]. split; [done|]. split; [by apply line_prefix_format|]. split; [by apply print_int_spec|].
  split; [apply print_int_spec, s32_range|]. split; [|lia].
  unfold processor_print_hash. rewrite Hd. unfold mbind at 1, M_bind at 1, gets.
  rewrite (bind_Ret _ _ _ _ _ (read_str_ok a _ _ Ha)). rewrite (c_string_app s []) by done.
  rewrite Hx. mrun. fold prefix. unfold OUTPUT_MAX_SIZE, txt_end. cbn [length].
  destruct (Z.ltb_spec 512 (Z.of_nat (length prefix + length h + 4 + 1))),
    (Nat.leb_spec (length prefix + 69) 512); try lia; done.
Qed.

(** A poll that completed with an error. *)
Lemma on_queue_event_neg p :
  data (p_queue_poll p) = Some PProcessor -> result (p_queue_poll p) < 0 -> sq_wf (p_loop p) ->
  on_queue_event RQueuePoll p =
  if decide (result (p_queue_poll p) = - EBADF \/ result (p_queue_poll p) = - EINVAL)
  then Exit 1 else Ret (tt, submitted RQueuePoll (p_queue_poll p) p).
Proof.
  intros Hd Hr Hwf. unfold on_queue_event, req_get, req_at. unfold mbind at 1, M_bind at 1.
  rewrite Hd, (proj2 (Z.ltb_lt _ _) Hr).
  destruct (decide _) as [[Hx|Hx]|Hx].
  - by rewrite Hx.
  - by rewrite Hx.
  - rewrite (proj2 (Z.eqb_neq _ (- EBADF))), (proj2 (Z.eqb_neq _ (- EINVAL))) by tauto.
    by apply submit_poll_eq.
Qed.

(** A poll that completes with an error consumes nothing: on [EBADF] and
    [EINVAL] the program exits, on every other error the poll is submitted
    again and nothing else happens. *)
Theorem on_queue_event_error p :
  data (p_queue_poll p) = Some PProcessor -> result (p_queue_poll p) < 0 -> sq_wf (p_loop p) ->
  on_queue_event RQueuePoll p =
  if decide (result (p_queue_poll p) = - EBADF \/ result (p_queue_poll p) = - EINVAL)
  then Exit 1 else Ret (tt, submitted RQueuePoll (p_queue_poll p) p).
Proof. apply on_queue_event_neg. Qed.
End properties.
