(* ===== verification/Examples.v ===== *)
(** * A concrete thread

    Instances of the interfaces to external code and a thread state on which
    the theorems' hypotheses are checked: one container, rings of two entries
    whose submission indices are about to wrap around, the toy hash of Hasher.v
    and the toy connection of Quic.v. *)

From stdpp Require Import base numbers list list_numbers gmap.
From S2P Require Import Prelude CStr Queue Ev Hasher Slab Quic State Verifier Ride Processor.

Open Scope Z_scope.

#[export] Instance toy_uring : IoUring nat := {
  io_uring_setup _ _ w := (3, w);
  mmap_sq _ w := (Some (IouRing 0 0 1 0), w);
  mmap_cq _ w := (Some (IouRing 0 0 1 0, [Cqe (WInt 0) 0 0; Cqe (WInt 0) 0 0]), w);
  mmap_sqes _ w := (Some [sqe_zero; sqe_zero], w);
  io_uring_enter _ _ _ _ w := (0, w);
}.

#[export] Instance toy_net : Net toy_conn nat := {
  getaddrinfo w := (Some 16, w);
  getsockname _ w := (0, w);
  RAND_bytes _ w := (1, w);
  ngtcp2_conn_client_new _ w := ((0, ToyConn 5 0), w);
  SSL_CTX_new w := (true, w);
  ngtcp2_crypto_boringssl_configure_client_context w := (0, w);
  SSL_new w := (true, w);
  SSL_set_alpn_protos _ w := (0, w);
  NGTCP2_ERR_CALLBACK_FAILURE := -502;
}.

#[export] Instance toy_malloc : Malloc nat := { malloc_ok w := (true, w) }.

Definition toy_slab : slab (list Z) :=
  match slab_setup (Hasher []) true 1 with Ret s => s | _ => Slab [] None 0 end.

Definition toy_event : event := {| path := strncpy [47; 116; 47; 97] 128; path_len := 4 |}.

Definition toy_poll : ev_io_req :=
  {| opcode := IORING_OP_POLL_ADD; off := WInt 0; addr := WInt 0; fd := 5; len := 1; flags := 1;
     result := 0; result_flags := 0; data := Some PProcessor; data2 := None;
     callback := Some on_queue_event_cb |}.

(** The thread with [tokens] in its eventfd, and one event queued. *)
Definition toy_thread (tokens : N) : processor (list Z) toy_conn nat N :=
  {| p_id := 3; p_nr_tasks := 1; p_queue_efd := 5; p_slab := toy_slab;
     p_buffers := [replicate (Z.to_nat READ_BUF_SIZE) 0]; p_queue_poll := toy_poll;
     p_loop := EvLoop (IouRing (2 ^ 32 - 1) (2 ^ 32 - 1) 1 0) (IouRing 0 0 1 0)
                 [sqe_zero; sqe_zero] [Cqe (WInt 0) 0 0; Cqe (WInt 0) 0 0] 3;
     p_verifier := upd_v_quic (toy_quic idle_slot 0) (verifier_zero (toy_quic idle_slot 0));
     p_shared := {| e_heap := ∅; e_brk := 0;
                    e_queue := {| events := <[0%nat := toy_event]> (events queue_static); head := 1; tail := 0 |};
                    e_efd := tokens; e_remote_addr := None; e_out := [] |} |}.

Lemma toy_sq_wf n : sq_wf (p_loop (toy_thread n)).
Proof. split; [exact is_mask_1|]. repeat split; vm_compute; congruence. Qed.

(** ** Witnesses for Processor.v *)

Definition toy_named : processor (list Z) toy_conn nat N :=
  let p := toy_thread 0 in
  upd_p_shared (upd_e_heap {[ 0%nat := [47; 97] ++ [0] ]} (p_shared p)) p.
Definition toy_entry : processor_iou_req (list Z) :=
  set_pr_data (slab_entry (Hasher []) 0) (Some 0%nat) 2.

Lemma print_hash_exact_witness :
  exists h, read_hex h = toy_hash /\
    processor_print_hash toy_entry toy_hash toy_named =
    Ret (tt, emitted (EWrite (line_prefix 3 0 [47; 97] ++ h ++ txt_end)) toy_named).
Proof.
  destruct (print_hash_exact toy_entry 0 [47; 97] toy_hash toy_named) as (h & _ & Hr & _ & _ & _ & Hp & _);
    [reflexivity|reflexivity|repeat constructor; lia|vm_compute; repeat constructor; congruence
    |reflexivity|simpl; lia|].
  exists h. split; [exact Hr|exact Hp].
Defined.

Lemma on_queue_event_error_witness :
  let p := upd_p_queue_poll (EvIoReq 6 (WInt 0) (WInt 0) 5 1 1 (-9) 0 (Some PProcessor) None
             (Some on_queue_event_cb)) (toy_thread 0) in
  on_queue_event RQueuePoll p = Exit 1.
Proof.
  intros p. apply (on_queue_event_error p); [reflexivity|reflexivity|exact (toy_sq_wf 0)].
Defined.

(** ** Witnesses for Verifier.v *)

(** The QUIC state of the thread after a flush. *)
Definition toy_flushed : quic toy_conn nat :=
  match verifier_quic_flush 20 (p_quic (toy_thread 0)) with Ret (_, q) => q | _ => toy_quic idle_slot 0 end.

Lemma toy_flush : verifier_quic_flush 20 (p_quic (toy_thread 0)) = Ret (4000000000, toy_flushed).
Proof. vm_compute. reflexivity. Qed.

Lemma flush_egress_arms_timer_witness :
  exists p' e, verifier_flush_egress 20 (toy_thread 0) = Ret (tt, p') /\
    v_expiry (p_verifier p') = (4, 0) /\ sq_pending (p_loop p') = [e] /\
    sqe_opcode e = IORING_OP_TIMEOUT.
Proof.
  destruct (flush_egress_arms_timer 20 (toy_thread 0) toy_flushed 4000000000 toy_flush (toy_sq_wf 0))
    as (p' & e & sec & nsec & H1 & H2 & H3 & H4 & H5 & H6 & H7 & _); [reflexivity|discriminate|].
  exists p', e. split; [exact H1|]. split; [|split; [exact H6|exact H7]]. rewrite H2.
  unfold NGTCP2_SECONDS in *. change (s64 4000000000) with 4000000000 in H3. f_equal; lia.
Defined.

(** The thread with its timer armed. *)
Definition toy_armed : processor (list Z) toy_conn nat N :=
  let p := toy_thread 0 in
  upd_p_verifier (upd_v_timer_req (timer_start_req ev_io_req_zero) (p_verifier p)) p.

Lemma toy_slab_wf : slab_wf toy_slab [0%nat].
Proof.
  destruct (slab_setup_wf (Hasher ([] : list Z)) 1) as (s & Hs & Hwf & Hl); [lia|].
  assert (s = toy_slab) as <- by (unfold toy_slab; rewrite Hs; done). exact Hwf.
Qed.

Lemma flush_egress_update_misses_witness :
  exists p' e, verifier_flush_egress 20 toy_armed = Ret (tt, p') /\
    sq_pending (p_loop p') = [e] /\
    forall r req, sqe_user_data (sqe_of_req r req) <> sqe_addr e.
Proof.
  destruct (reqs (p_slab toy_armed) !! 0%nat) as [w|] eqn:Hw; [|discriminate].
  destruct (flush_egress_update_misses 20 toy_armed toy_flushed 4000000000 0 [] w)
    as (p' & e & H1 & H2 & _ & _ & H3);
    [exact toy_flush|vm_compute; discriminate|exact (toy_sq_wf 0)|reflexivity|reflexivity
    |exact toy_slab_wf|exact Hw|].
  exists p', e. split; [exact H1|]. split; [exact H2|exact H3].
Defined.

(** The connection when no timer is pending. *)
Definition idle_ngtcp2 : Ngtcp2 toy_conn := {|
  NGTCP2_ERR_WRITE_MORE := -240;
  NGTCP2_ERR_CRYPTO := -215;
  ccerr_liberr_code := Z.opp;
  ccerr_tls_alert_code := Z.add 256;
  ngtcp2_conn_writev_stream := fun c _ _ _ _ => (WritevResult 0 (-1) [], c);
  ngtcp2_conn_open_bidi_stream := fun c => ((0, tc_stream c), c);
  ngtcp2_conn_get_expiry2 := fun _ => 2 ^ 64 - 1;
  ngtcp2_conn_handle_expiry := fun c _ => (0, c);
  ngtcp2_conn_read_pkt := fun c _ _ => (0, c);
  ngtcp2_conn_get_tls_alert2 := fun _ => 0;
|}.

Lemma no_expiry_exits_witness :
  verifier_flush_egress (Ngtcp3 := idle_ngtcp2) 20 (toy_thread 0) = Exit 1.
Proof.
  apply (no_expiry_exits (Ngtcp3 := idle_ngtcp2) 20 (toy_thread 0) (toy_quic idle_slot 0)
           (ToyConn 5 0) 1 0 2%nat); try reflexivity; unfold NGTCP2_SECONDS; lia.
Defined.
