(* ===== verification/Thread.v ===== *)
(** * The event loop of a processor thread (src/ev.c on the handlers of
    src/processor.c and src/verifier.c)

    What every callback leaves alone, and with it one whole turn of the loop of
    a thread. *)

From stdpp Require Import base numbers list list_numbers gmap.
From S2P Require Import Prelude CStr Queue Ev Hasher Slab Quic State Verifier Ride Processor Examples.

Open Scope Z_scope.

Section frame.
Context {H C W F : Type} `{!Blake3 H, !IoUring W, !Ngtcp2 C, !Host W, !Net C W, !Malloc W, !Eventfd F}.
Local Abbreviation P := (processor H C W F).
(** What may be written. *)
Context (E : effect -> Prop).

(** An event is taken from the queue, or is not there. *)
Definition consumes (s s' : queue * F) : Prop := exists ev r, queue_consume_try ev s = Ret (r, s').

(** From [p] to [p']: the completion ring is untouched, submissions are only
    appended to a well-formed submission ring, only what may be written is
    appended to the output, the queue is only consumed from, and no container,
    buffer or stream slot appears or goes away. *)
Record thread_frame (p p' : P) : Prop := {
  tf_cqes : cqes (p_loop p') = cqes (p_loop p);
  tf_cq : iou_cqe (p_loop p') = iou_cqe (p_loop p);
  tf_sq : sq_wf (p_loop p) -> sq_wf (p_loop p') /\
    exists new, sq_pending (p_loop p') = sq_pending (p_loop p) ++ new;
  tf_reqs : length (reqs (p_slab p')) = length (reqs (p_slab p));
  tf_bufs : p_buffers p' = p_buffers p;
  tf_id : p_id p' = p_id p;
  tf_out : exists o, e_out (p_shared p') = e_out (p_shared p) ++ o /\ Forall E o;
  tf_queue : rtc consumes (e_queue (p_shared p), e_efd (p_shared p)) (e_queue (p_shared p'), e_efd (p_shared p'));
}.

#[export] Instance thread_frame_preorder : PreOrder thread_frame.
Proof.
  split.
  - intros p. split; try done.
    + intros Hwf. split; [done|]. exists []. by rewrite app_nil_r.
    + exists []. by rewrite app_nil_r.
  - intros p1 p2 p3 [A1 A2 A3 A4 A5 A6 (o & A7 & A8) A9] [B1 B2 B3 B4 B5 B6 (o' & B7 & B8) B9]. split; try congruence.
    + intros Hwf. destruct (A3 Hwf) as [Hwf2 [n1 Hn1]]. destruct (B3 Hwf2) as [Hwf3 [n2 Hn2]].
      split; [done|]. exists (n1 ++ n2). by rewrite Hn2, Hn1, app_assoc.
    + exists (o ++ o'). rewrite B7, A7, app_assoc. split; [done|]. by apply Forall_app.
    + by etransitivity.
Qed.

(** Updates that leave the ring and the output alone. *)
Lemma frame_same (p p' : P) :
  p_loop p' = p_loop p -> length (reqs (p_slab p')) = length (reqs (p_slab p)) ->
  p_buffers p' = p_buffers p -> p_id p' = p_id p -> e_out (p_shared p') = e_out (p_shared p) ->
  e_queue (p_shared p') = e_queue (p_shared p) -> e_efd (p_shared p') = e_efd (p_shared p) ->
  thread_frame p p'.
Proof.
  intros El Er Eb Ei Eo Eq Ef. split; rewrite ?El, ?Eq, ?Ef; try done.
  - intros Hwf. split; [done|]. exists []. by rewrite app_nil_r.
  - exists []. rewrite Eo, app_nil_r. done.
Qed.

Local Abbreviation ok m := (respects thread_frame m).

Lemma ok_in_slab {A} (m : M (slab H) A) :
  respects (fun s s' => length (reqs s') = length (reqs s)) m -> ok (in_slab m : M P A).
Proof.
  intros Hm p a p'. unfold in_slab. destruct (m (p_slab p)) as [[x s]| | | |] eqn:Hs; try done.
  intros [= <- <-]. apply frame_same; try done. by apply (Hm _ _ _ Hs).
Qed.

Lemma ok_in_quic {A} (m : M (quic C W) A) : ok (in_quic m : M P A).
Proof.
  intros p a p'. unfold in_quic. destruct (m (p_quic p)) as [[x q]| | | |]; try done.
  intros [= <- <-]. by apply frame_same.
Qed.

Lemma ok_get_req : ok (in_slab processor_get_req : M P nat).
Proof.
  apply ok_in_slab. intros s a s'. unfold processor_get_req. repeat case_match; try done.
  intros [= <- <-]. apply length_insert.
Qed.

Lemma ok_free_req q : ok (in_slab (processor_free_req q) : M P unit).
Proof.
  apply ok_in_slab. intros s a s'. unfold processor_free_req. repeat case_match; try done.
  intros [= <- <-]. apply length_insert.
Qed.

Lemma ok_req_get r : ok (req_get r : M P _).
Proof. intros p a p'. unfold req_get. case_match; [|done]. intros [= <- <-]. reflexivity. Qed.

Lemma ok_iou_get i : ok (iou_get i : M P _).
Proof. intros p a p'. unfold iou_get. case_match; [|done]. intros [= <- <-]. reflexivity. Qed.

Lemma ok_req_put r q : ok (req_put r q : M P _).
Proof.
  apply respects_modify. intros p. apply frame_same; destruct r; try done.
  cbn. by rewrite length_alter.
Qed.

Lemma ok_iou_put i w : ok (iou_put i w : M P _).
Proof. apply respects_modify. intros p. apply frame_same; try done. apply length_put. Qed.

(** Submissions do not touch the completion ring, on any ring. *)
Lemma ev_iou_req_cq rp q l (w : W) r l' w' :
  ev_iou_req rp q (l, w) = Ret (r, (l', w')) -> cqes l' = cqes l /\ iou_cqe l' = iou_cqe l.
Proof.
  unfold ev_iou_req. case_match; [by intros [= <- <- <-]|].
  destruct (arr_set _ _ _) as [s|]; [|done]. rewrite ev__iou_submit_ok. by intros [= <- <- <-].
Qed.

Lemma ok_submit r : ok (submit r : M P _).
Proof.
  intros p a p' Hs. pose proof Hs as Hs0. revert Hs0. unfold submit, req_get. mrun.
  destruct (req_at r p) as [q|] eqn:Hq; [|done]. unfold in_loop.
  destruct (ev_iou_req _ _ _) as [[x [l w]]| | | |] eqn:He; try done.
  intros [= <- <-]. destruct (ev_iou_req_cq _ _ _ _ _ _ _ He) as [E1 E2].
  split; [done|done| |done|done|done|exists []; by rewrite app_nil_r|done].
  intros Hwf. rewrite (submit_eq r q p Hq Hwf) in Hs. injection Hs as _ <-.
  split; [by apply submitted_wf|].
  destruct (Z.lt_ge_cases (sq_len (p_loop p)) (sq_size (p_loop p))) as [Hr|Hr].
  - exists [sqe_of_req r q]. by apply submitted_pending.
  - exists []. rewrite app_nil_r. unfold submitted. by rewrite (proj2 (Z.ltb_ge _ _)) by lia.
Qed.

Lemma ok_emit x : E x -> ok (emit x : M P _).
Proof.
  intros Hx. apply respects_modify. intros p. split; try done; [|by exists [x]; auto].
  intros Hwf. split; [done|]. exists []. by rewrite app_nil_r.
Qed.

Lemma ok_free_str a : ok (free_str a : M P _).
Proof.
  intros p b p'. unfold free_str. repeat case_match; try done; intros [= <- <-]; by apply frame_same.
Qed.

Lemma ok_read_str a : ok (read_str a : M P _).
Proof.
  intros p b p'. unfold read_str. repeat case_match; try done; intros [= <- <-]. reflexivity.
Qed.

Lemma ok_in_hasher {A} i (m : M (hasher H) A) : ok (in_hasher i m : M P A).
Proof.
  unfold in_hasher. apply respects_bind; [typeclasses eauto|apply ok_iou_get|]. intros w.
  destruct (m (pr_hasher w)) as [[a h]| | | |]; try by intros ? ? ? ?.
  apply respects_bind; [typeclasses eauto|apply ok_iou_put|]. intros _. apply respects_ret.
  typeclasses eauto.
Qed.

Lemma ok_world_op {A} (f : W -> A * W) : ok (world_op f : M P A).
Proof.
  intros p a p'. unfold world_op. destruct (f _) as [x w]. intros [= <- <-]. by apply frame_same.
Qed.

Lemma ok_strdup b : ok (strdup b : M P _).
Proof.
  intros p a p'. unfold strdup. destruct (c_string b); [|done].
  destruct (malloc_ok _) as [[] w]; intros [= <- <-]; by apply frame_same.
Qed.

Lemma ok_consume ev : ok (consume ev : M P _).
Proof.
  intros p a p'. unfold consume. destruct (queue_consume_try _ _) as [[r [q f]]| | | |] eqn:Hc; try done.
  intros [= <- <-]. split; try done.
  - intros Hwf. split; [done|]. exists []. by rewrite app_nil_r.
  - exists []. by rewrite app_nil_r.
  - apply rtc_once. by exists ev, r.
Qed.

Lemma ok_modify_same (f : P -> P) :
  (forall p, p_loop (f p) = p_loop p /\ p_slab (f p) = p_slab p /\ p_buffers (f p) = p_buffers p /\
     p_id (f p) = p_id p /\ e_out (p_shared (f p)) = e_out (p_shared p) /\
     e_queue (p_shared (f p)) = e_queue (p_shared p) /\ e_efd (p_shared (f p)) = e_efd (p_shared p)) ->
  ok (modify f).
Proof.
  intros Hf. apply respects_modify. intros p. destruct (Hf p) as (? & Es & ? & ? & ? & ? & ?).
  apply frame_same; try done. by rewrite Es.
Qed.
End frame.

#[export] Hint Resolve ok_in_quic ok_get_req ok_free_req ok_req_get ok_iou_get ok_req_put ok_iou_put
  ok_submit ok_emit ok_free_str ok_read_str ok_in_hasher ok_world_op ok_strdup ok_consume : respects.
#[export] Hint Extern 2 (respects _ (modify _)) => apply ok_modify_same; by intros [] : respects.

Section callbacks.
Context {H C W F : Type} `{!Blake3 H, !IoUring W, !Ngtcp2 C, !Host W, !Net C W, !Malloc W, !Eventfd F}.
Local Abbreviation P := (processor H C W F).
Context (E : effect -> Prop).
Local Abbreviation ok m := (respects (thread_frame E) m).
(** When anything may be written. *)
Local Abbreviation free_output := (forall x, E x).

Lemma ok_container q : ok (container q : M P _).
Proof. unfold container. respects_tac. Qed.
#[local] Hint Resolve ok_container : respects.

Lemma ok_release_file r i : free_output -> ok (release_file r i : M P _).
Proof. intros HE. unfold release_file. respects_tac. Qed.

Lemma ok_print w h : free_output -> ok (processor_print_hash w h : M P _).
Proof. intros HE. unfold processor_print_hash. respects_tac. Qed.

Lemma ok_update_hash i n a : ok (update_hash i n a : M P _).
Proof. unfold update_hash. respects_tac. Qed.
#[local] Hint Resolve ok_release_file ok_print ok_update_hash : respects.

Lemma ok_poll_reqs : ok (processor_submit_poll_reqs : M P _).
Proof. unfold processor_submit_poll_reqs. respects_tac. Qed.
#[local] Hint Resolve ok_poll_reqs : respects.

Lemma ok_open_event ev : ok (open_event ev : M P _).
Proof. unfold open_event. respects_tac. Qed.
#[local] Hint Resolve ok_open_event : respects.

Lemma ok_on_queue_event r : ok (on_queue_event r : M P _).
Proof. unfold on_queue_event. respects_tac. Qed.

Lemma ok_on_file_open r : ok (on_file_open r : M P _).
Proof. unfold on_file_open. respects_tac. Qed.

Lemma ok_on_file_read fuel r : free_output -> ok (on_file_read fuel r : M P _).
Proof. intros HE. unfold on_file_read. respects_tac. Qed.

Lemma ok_flush_egress fuel : ok (verifier_flush_egress fuel : M P _).
Proof. unfold verifier_flush_egress. respects_tac. Qed.
#[local] Hint Resolve ok_flush_egress : respects.

Lemma ok_on_socket_read fuel r : ok (on_socket_read fuel r : M P _).
Proof. unfold on_socket_read. respects_tac. Qed.

Lemma ok_quic_init : ok (verifier_quic_init : M P _).
Proof. unfold verifier_quic_init. respects_tac. Qed.
#[local] Hint Resolve ok_quic_init : respects.

Lemma ok_on_socket_connect fuel r : ok (on_socket_connect fuel r : M P _).
Proof. unfold on_socket_connect. respects_tac. Qed.

Lemma ok_on_socket_create r : ok (on_socket_create r : M P _).
Proof. unfold on_socket_create. respects_tac. Qed.

Lemma ok_on_socket_timeout r : ok (on_socket_timeout r : M P _).
Proof. unfold on_socket_timeout. respects_tac. Qed.

Lemma ok_on_socket_timeout_update r : ok (on_socket_timeout_update r : M P _).
Proof. unfold on_socket_timeout_update. respects_tac. Qed.
#[local] Hint Resolve ok_on_queue_event ok_on_file_open ok_on_file_read ok_on_socket_read
  ok_on_socket_connect ok_on_socket_create ok_on_socket_timeout ok_on_socket_timeout_update : respects.

Lemma ok_run_callback fuel r : free_output -> ok (run_callback fuel r : M P _).
Proof. intros HE. unfold run_callback. respects_tac. Qed.

Lemma frame_store_result r res fl (p : P) : thread_frame E p (store_result r res fl p).
Proof.
  unfold store_result. destruct (req_at r p) as [q|]; [|reflexivity].
  destruct r; apply frame_same; try done. cbn. by rewrite length_alter.
Qed.

(** Handling a completion respects the frame. *)
Lemma ok_complete fuel c : free_output -> ok (ev_complete store_result (run_callback fuel) c : M P unit).
Proof.
  intros HE. unfold ev_complete. repeat case_match; try by intros ? ? ? ?.
  apply respects_bind; [typeclasses eauto| |intros _; by apply ok_run_callback].
  apply respects_modify. apply frame_store_result.
Qed.

Lemma ok_complete_all fuel cs : free_output -> ok (complete_all store_result (run_callback fuel) cs : M P unit).
Proof.
  intros HE. induction cs as [|c cs IH]; simpl; [apply respects_ret; typeclasses eauto|].
  apply respects_bind; [typeclasses eauto|by apply ok_complete|by intros _].
Qed.
End callbacks.

Section turn.
Context {H C W F : Type} `{!Blake3 H, !IoUring W, !Ngtcp2 C, !Host W, !Net C W, !Malloc W, !Eventfd F}.
Implicit Types p : processor H C W F.

Definition any_effect (x : effect) : Prop := True.

Lemma complete_keeps_cq fuel c :
  keeps_cq (ev_complete store_result (run_callback fuel) c : M (processor H C W F) unit).
Proof. intros p u p' Hc. by destruct (ok_complete any_effect fuel c (fun _ => I) _ _ _ Hc). Qed.

(** C11. One turn of a processor thread's event loop, with any completions
    pending: it has the outcome of handling exactly these in order. When it
    returns, no completion is left, the rings are well formed, everything that
    was pending in the submission ring is still there in order (the callbacks
    only append to it), the output was only appended to, and no container or
    buffer was lost. *)
Theorem thread_turn fuel p :
  cq_wf (p_loop p) -> sq_wf (p_loop p) ->
  exists w,
    match complete_all store_result (run_callback fuel) (cq_pending (p_loop p))
            (upd_p_quic (set_qworld (p_quic p) w) p) with
    | Ret _ =>
        exists p', ev_loop_turn store_result (run_callback fuel) p = Ret (tt, p') /\
          cq_pending (p_loop p') = [] /\ cq_wf (p_loop p') /\ sq_wf (p_loop p') /\
          (exists new, sq_pending (p_loop p') = sq_pending (p_loop p) ++ new) /\
          (exists o, e_out (p_shared p') = e_out (p_shared p) ++ o) /\
          length (reqs (p_slab p')) = length (reqs (p_slab p)) /\ p_buffers p' = p_buffers p
    | Exit c => ev_loop_turn store_result (run_callback fuel) p = Exit c
    | AssertFailed => ev_loop_turn store_result (run_callback fuel) p = AssertFailed
    | Undef u => ev_loop_turn store_result (run_callback fuel) p = Undef u
    | OutOfFuel => ev_loop_turn store_result (run_callback fuel) p = OutOfFuel
    end.
Proof.
  intros Hcq Hsq.
  pose proof (ev_loop_turn_all (LoopHost0 := processor_loop_host) store_result (run_callback fuel) p Hcq
                (complete_keeps_cq fuel)) as [w Hw].
  exists w. cbv zeta in Hw. set (p0 := upd_p_quic _ p).
  assert (E : host_set (host_loop p) w p = p0) by (by destruct p). rewrite E in Hw. clear E.
  change (host_loop p) with (p_loop p) in Hw.
  destruct (complete_all _ _ _ p0) as [[u p1]| | | |] eqn:Hc; [|done..].
  destruct Hw as (p2 & Ht & Ep2 & Hp2). exists p2.
  destruct (ok_complete_all any_effect fuel _ (fun _ => I) _ _ _ Hc) as [E1 E2 E3 E4 E5 E6 (o & E7 & _) _].
  change (p_loop p0) with (p_loop p) in *. destruct (E3 Hsq) as [Hsq1 Hn].
  assert (El : p_loop p2 = set_cq_head (p_loop p1) (ring_tail (iou_cqe (p_loop p)))) by (by rewrite Ep2).
  destruct Hcq as (Hm & Hl & Hta & Hh).
  split_and!; try done; rewrite ?El; rewrite ?Ep2; try done; [|by exists o].
  unfold cq_wf, cq_size in *. cbn. by rewrite E1, E2.
Qed.
End turn.

(** The thread with two completions pending: the poll fails twice with an
    error other than [EBADF] and [EINVAL] and is re-armed. *)
Definition toy_busy : processor (list Z) toy_conn nat N :=
  let p := toy_thread 0 in
  upd_p_loop (EvLoop (iou_sqe (p_loop p)) (IouRing 0 2 1 0) (sqes (p_loop p))
    [Cqe (WPtr (PReq RQueuePoll)) (-5) 0; Cqe (WPtr (PReq RQueuePoll)) (-5) 0] 3) p.

Lemma thread_turn_witness :
  exists p', ev_loop_turn store_result (run_callback 20) toy_busy = Ret (tt, p') /\
    cq_pending (p_loop p') = [] /\ sq_wf (p_loop p').
Proof.
  destruct (thread_turn 20 toy_busy) as [w Hw].
  - split; [exact is_mask_1|]. repeat split; vm_compute; congruence.
  - split; [exact is_mask_1|]. repeat split; vm_compute; congruence.
  - assert (Hr : match ev_loop_turn store_result (run_callback 20) toy_busy with
                 | Ret _ => true | _ => false end = true) by (vm_compute; reflexivity).
    destruct (complete_all _ _ _ _) as [x| | | |]; [|rewrite Hw in Hr; discriminate..].
    destruct Hw as (p' & H1 & H2 & _ & H3 & _). exists p'.
    split; [exact H1|]. split; [exact H2|exact H3].
Defined.
