(* ===== verification/Pipeline.v ===== *)
(** * A file event from the queue to the printed and reported hash

    The kernel's part of serving a thread's requests, and the handlers of
    src/processor.c run against it: the thread takes an event from the queue,
    opens the file, reads it in pieces whose sizes the kernel chooses, prints
    the hash and hands it to the verifier. *)

From stdpp Require Import base numbers list list_numbers gmap.
From S2P Require Import Prelude CStr Queue Ev Hasher Slab Quic State Verifier Ride Processor Examples.

Open Scope Z_scope.

(** ** The kernel *)

Section kernel.
Context {H C W F : Type} `{!Blake3 H, !IoUring W, !Ngtcp2 C, !Host W, !Net C W, !Malloc W, !Eventfd F}.
(** The content of the files, by path, and the bound for the QUIC flush. *)
Context (fs : list Z -> option (list Z)) (vfuel : nat).
Local Abbreviation P := (processor H C W F).

(** The kernel consumes all pending submissions. *)
Definition drained (l : ev_loop) : ev_loop :=
  {| iou_sqe := {| ring_head := ring_tail (iou_sqe l); ring_tail := ring_tail (iou_sqe l);
                   ring_mask := ring_mask (iou_sqe l); ring_flags := ring_flags (iou_sqe l) |};
     iou_cqe := iou_cqe l; sqes := sqes l; cqes := cqes l; ringfd := ringfd l |}.

(** The last submission of request [i] in the ring. *)
Definition kernel_sqe (i : nat) (p : P) : option io_uring_sqe :=
  last (filter (fun e => sqe_user_data e = WPtr (PReq (RSlot i))) (sq_pending (p_loop p))).

Definition kernel_take_sqe (i : nat) : M P io_uring_sqe := fun p =>
  match kernel_sqe i p with
  | Some e => Ret (e, upd_p_loop (drained (p_loop p)) p)
  | None => Undef BadPointer
  end.

Definition ENOENT : Z := 2.

(** Serve an [openat]: the completion, and the content of the file. *)
Definition kernel_open (fdn : Z) (i : nat) : M P (io_uring_cqe * option (list Z)) :=
  e ← kernel_take_sqe i;
  match sqe_addr e with
  | WPtr (PStr a) =>
      if negb (sqe_opcode e =? IORING_OP_OPENAT) then undef BadPointer
      else
        str ← read_str (Some a);
        s ← of_option OutOfBounds (c_string str);
        mret (Cqe (sqe_user_data e) (match fs s with Some _ => fdn | None => - ENOENT end) 0, fs s)
  | _ => undef BadPointer
  end.

(** Serve a [read] with at most [n] bytes of the requested range. *)
Definition kernel_read (content : list Z) (n : nat) (i : nat) : M P io_uring_cqe :=
  e ← kernel_take_sqe i;
  match sqe_addr e, sqe_off e with
  | WPtr (PBuffer k), WInt o =>
      if negb (sqe_opcode e =? IORING_OP_READ) then undef BadPointer
      else
        bufs ← gets (fun p : P => p_buffers p);
        buf ← of_option BadPointer (bufs !! k);
        let c := take (n `min` Z.to_nat (sqe_len e)) (drop (Z.to_nat o) content) in
        if (length buf <? length c)%nat then undef OutOfBounds
        else
          modify (fun p : P => upd_p_buffers (<[k := c ++ drop (length c) buf]> bufs) p);;
          mret (Cqe (sqe_user_data e) (Z.of_nat (length c)) 0)
  | _, _ => undef BadPointer
  end.

(** The thread's handling of a completion. *)
Definition complete : io_uring_cqe -> M P unit := ev_complete store_result (run_callback vfuel).

(** Read to the end of the file; [sched k] bounds the size of the [k]-th read. *)
Fixpoint read_all (fuel : nat) (content : list Z) (sched : nat -> nat) (k i : nat) : M P unit :=
  match fuel with
  | O => fun _ => OutOfFuel
  | S fuel =>
      c ← kernel_read content (sched k) i;
      complete c;;
      if cqe_res c =? 0 then mret tt else read_all fuel content sched (S k) i
  end.

(** One event: the poll completes with [res] and [fl], the file gets
    descriptor [fdn], container [i] is the one that serves it. *)
Definition process_event (res fl fdn : Z) (fuel : nat) (sched : nat -> nat) (i : nat) : M P unit :=
  complete (Cqe (WPtr (PReq RQueuePoll)) res fl);;
  '(c, content) ← kernel_open fdn i;
  complete c;;
  match content with
  | None => mret tt
  | Some content => read_all fuel content sched 0 i
  end.
End kernel.

(** ** Lemmas *)

Section lemmas.
Context {H C W F : Type} `{!Blake3 H, !Blake3Laws H, !IoUring W, !Ngtcp2 C, !Host W, !Net C W, !Malloc W, !Eventfd F}.
Implicit Types (p : processor H C W F) (w : processor_iou_req H).

Lemma drained_wf l : sq_wf l -> sq_wf (drained l).
Proof.
  intros Hwf. pose proof (sq_size_pos l Hwf). destruct Hwf as (Hm & Hl & Ht & Hh & Hs).
  split_and!; auto; cbn; try lia. unfold sq_len. cbn. rewrite Z.sub_diag. change (u32 0) with 0.
  change (sq_size (drained l)) with (sq_size l). lia.
Qed.

Lemma drained_room l : sq_wf l -> sq_len (drained l) < sq_size (drained l).
Proof.
  intros Hwf. pose proof (sq_size_pos l Hwf). unfold sq_len. cbn. rewrite Z.sub_diag.
  change (u32 0) with 0. change (sq_size (drained l)) with (sq_size l). lia.
Qed.

Lemma kernel_sqe_submitted i q p :
  sq_wf (p_loop p) -> sq_len (p_loop p) < sq_size (p_loop p) ->
  kernel_sqe i (submitted (RSlot i) q p) = Some (sqe_of_req (RSlot i) q).
Proof.
  intros Hwf Hr. unfold kernel_sqe. rewrite submitted_pending by done.
  rewrite filter_app, filter_cons_True, filter_nil by done. by rewrite last_snoc.
Qed.

Lemma kernel_sqe_poll i q p :
  sq_wf (p_loop p) -> kernel_sqe i (submitted RQueuePoll q p) = kernel_sqe i p.
Proof.
  intros Hwf. unfold kernel_sqe. destruct (Z.lt_ge_cases (sq_len (p_loop p)) (sq_size (p_loop p))) as [Hr|Hr].
  - rewrite submitted_pending by done. rewrite filter_app, filter_cons_False, filter_nil by done.
    by rewrite app_nil_r.
  - unfold submitted. by rewrite (proj2 (Z.ltb_ge _ _)) by lia.
Qed.

(** A request with the result of a completion. *)
Definition with_result (q : ev_io_req) (res fl : Z) : ev_io_req :=
  {| opcode := opcode q; off := off q; addr := addr q; fd := fd q; len := len q; flags := flags q;
     result := res; result_flags := fl; data := data q; data2 := data2 q; callback := callback q |}.

Lemma store_result_slot i w res fl p :
  reqs (p_slab p) !! i = Some w ->
  store_result (RSlot i) res fl p = put i (set_pr_req w (with_result (pr_req w) res fl)) p.
Proof.
  intros Hw. unfold store_result, req_at. rewrite Hw. cbn [fmap option_fmap option_map].
  by rewrite (req_set_slot _ w).
Qed.

(** Handling the completion of container [i] runs the callback of its request. *)
Lemma complete_slot vfuel i w res fl p :
  reqs (p_slab p) !! i = Some w ->
  let w' := set_pr_req w (with_result (pr_req w) res fl) in
  complete vfuel (Cqe (WPtr (PReq (RSlot i))) res fl) p =
  match callback (pr_req w) with
  | Some on_file_open_cb => on_file_open (RSlot i) (put i w' p)
  | Some on_file_read_cb => on_file_read vfuel (RSlot i) (put i w' p)
  | _ => complete vfuel (Cqe (WPtr (PReq (RSlot i))) res fl) p
  end.
Proof.
  intros Hw w'. unfold complete, ev_complete. cbn [cqe_user_data cqe_res cqe_flags].
  unfold mbind, M_bind, modify. rewrite (store_result_slot _ _ _ _ _ Hw). fold w'.
  unfold run_callback. rewrite (bind_Ret _ _ _ _ _ (req_get_slot i w' _ (put_lookup _ _ _ (lookup_lt_Some _ _ _ Hw)))).
  change (callback (pr_req w')) with (callback (pr_req w)).
  by destruct (callback (pr_req w)) as [[]|].
Qed.
End lemmas.

(** ** The invariant of a file being read

    Container [i] is in flight for the path [s] (heap string [a], length field
    [n]) with descriptor [fdn]; [bytes] of the file are hashed, and the last
    submission in the ring is the read of the rest. Everything shared is as in
    [e], the verifier as in [q] but for the world. *)

Section reading.
Context {H C W F : Type} `{!Blake3 H, !Blake3Laws H, !IoUring W, !Ngtcp2 C, !Host W, !Net C W, !Malloc W, !Eventfd F}.
Implicit Types (p : processor H C W F) (w : processor_iou_req H) (q : quic C W).

(** Facts on the thread that hold throughout. *)
Record thread_ok (free : list nat) (p : processor H C W F) : Prop := {
  to_slab : slab_wf (p_slab p) free;
  to_sq : sq_wf (p_loop p);
  to_bufs : forall j, (j < length (reqs (p_slab p)))%nat ->
    exists buf, p_buffers p !! j = Some buf /\ Z.of_nat (length buf) = READ_BUF_SIZE;
  to_id : - 2 ^ 31 <= p_id p < 2 ^ 31;
}.

Record reading (free : list nat) (e : shared F) (q : quic C W) (id : Z) (i a : nat) (n fdn : Z)
    (bytes : list Z) (p : processor H C W F) : Prop := {
  rd_thread : thread_ok free p;
  rd_free : i ∉ free;
  rd_shared : p_shared p = e;
  rd_id : p_id p = id;
  rd_quic : exists u, p_quic p = set_qworld q u;
  rd_entry : exists w, reqs (p_slab p) !! i = Some w /\
    pr_data w = Some a /\ pr_data2 w = n /\ opcode (pr_req w) = IORING_OP_READ /\
    callback (pr_req w) = Some on_file_read_cb /\ fd (pr_req w) = fdn /\
    len (pr_req w) = READ_BUF_SIZE /\ addr (pr_req w) = WPtr (PBuffer i) /\
    off (pr_req w) = WInt (Z.of_nat (length bytes)) /\
    pr_hasher w = Hasher (blake3_hasher_update blake3_hasher_init bytes) /\
    kernel_sqe i p = Some (sqe_of_req (RSlot i) (pr_req w));
}.

Lemma in_flight_entry free i w p :
  slab_wf (p_slab p) free -> i ∉ free -> reqs (p_slab p) !! i = Some w ->
  names_container i (pr_req w) /\ pr_buffer w = i /\ pr_id w = Z.of_nat i /\ in_flight w = 1.
Proof.
  intros (_ & _ & _ & He) Hi Hw. destruct (He i w Hw) as (Hb & Hid & Hf).
  rewrite bool_decide_false in Hf by done. by destruct Hf as (Hf & Hd & Hd2).
Qed.

(** Replacing the request, hasher or data of a container in flight. *)
Lemma put_thread_ok free i w w' p :
  thread_ok free p -> i ∉ free -> reqs (p_slab p) !! i = Some w ->
  pr_buffer w' = pr_buffer w -> pr_id w' = pr_id w -> in_flight w' = in_flight w ->
  names_container i (pr_req w') -> thread_ok free (put i w' p).
Proof.
  intros [Hs Hsq Hb Hid] Hi Hw Eb Eid Ef Hn.
  destruct (in_flight_entry free i w p Hs Hi Hw) as (_ & Hwb & Hwi & Hwf).
  split; [|done| |done].
  - eapply slab_wf_insert; [done..|]. destruct Hn. split_and!; congruence.
  - intros j. rewrite length_put. apply Hb.
Qed.

Lemma submitted_thread_ok free r (q : ev_io_req) p : thread_ok free p -> thread_ok free (submitted r q p).
Proof.
  intros [Hs Hsq Hb Hid]. pose proof (submitted_frame r q p) as (E1 & E2 & E3 & E4 & _).
  split; rewrite ?E1, ?E3, ?E4; auto using submitted_wf.
Qed.

Lemma drained_thread_ok free p :
  thread_ok free p -> thread_ok free (upd_p_loop (drained (p_loop p)) p).
Proof. intros [Hs Hsq Hb Hid]. split; auto. by apply drained_wf. Qed.

(** The kernel serves the read of the rest of the file. *)
Lemma kernel_read_ok free e q id i a n fdn bytes rest k p :
  reading free e q id i a n fdn bytes p ->
  let c := take (k `min` Z.to_nat READ_BUF_SIZE) rest in
  exists buf p1,
    kernel_read (bytes ++ rest) k i p =
      Ret (Cqe (WPtr (PReq (RSlot i))) (Z.of_nat (length c)) 0, p1) /\
    p1 = upd_p_buffers (<[i := c ++ buf]> (p_buffers p)) (upd_p_loop (drained (p_loop p)) p) /\
    p_buffers p1 !! i = Some (c ++ buf) /\ thread_ok free p1.
Proof.
  intros [Ht Hi He Hid Hq (w & Hw & Hd & Hd2 & Hop & Hcb & Hfd & Hl & Ha & Ho & Hh & Hk)] c.
  destruct (to_bufs _ _ Ht i (lookup_lt_Some _ _ _ Hw)) as (buf & Hb & Hbl).
  exists (drop (length c) buf). eexists. split; [|split; [done|]].
  - unfold kernel_read, kernel_take_sqe. unfold mbind at 1, M_bind at 1. rewrite Hk.
    cbn [sqe_of_req sqe_addr sqe_off sqe_opcode sqe_len sqe_user_data]. rewrite Ha, Ho, Hop, Hl.
    unfold gets. unfold mbind at 1, M_bind at 1. cbn [negb Z.eqb IORING_OP_READ Pos.eqb].
    change (p_buffers (upd_p_loop _ p)) with (p_buffers p). rewrite Hb.
    unfold of_option. rewrite bind_ret_l. rewrite Nat2Z.id, drop_app_length. fold c.
    destruct (Nat.ltb_spec (length buf) (length c)) as [Hlt|]; [|done].
    unfold c in Hlt. rewrite length_take in Hlt. lia.
  - assert (Hlc : (length c <= length buf)%nat) by (unfold c; rewrite length_take; lia).
    assert (Hib : (i < length (p_buffers p))%nat) by (by eapply lookup_lt_Some).
    split; [cbn; by apply list_lookup_insert_eq|].
    destruct Ht as [Hs Hsq Hbs Hidr]. split; [done|by apply drained_wf| |done].
    intros j Hj. cbn. destruct (decide (j = i)) as [->|Hne].
    + rewrite list_lookup_insert_eq by done. eexists. split; [done|].
      rewrite length_app, length_drop. lia.
    + rewrite list_lookup_insert_ne by done. by apply Hbs.
Qed.
(** A completion of [c] bytes: they are hashed and the next read submitted. *)
Lemma complete_read_more vfuel free e q id i a n fdn bytes c buf p p1 :
  reading free e q id i a n fdn bytes p -> c <> [] ->
  Z.of_nat (length (bytes ++ c)) < 2 ^ 64 ->
  p1 = upd_p_buffers (<[i := c ++ buf]> (p_buffers p)) (upd_p_loop (drained (p_loop p)) p) ->
  p_buffers p1 !! i = Some (c ++ buf) -> thread_ok free p1 ->
  exists p2, complete vfuel (Cqe (WPtr (PReq (RSlot i))) (Z.of_nat (length c)) 0) p1 = Ret (tt, p2) /\
    reading free e q id i a n fdn (bytes ++ c) p2.
Proof.
  intros [Ht Hi He Hid Hq (w & Hw & Hd & Hd2 & Hop & Hcb & Hfd & Hl & Ha & Ho & Hh & Hk)] Hc Hlt Ep1 Hb Ht1.
  assert (Hw1 : reqs (p_slab p1) !! i = Some w) by (by rewrite Ep1).
  assert (Hsq1 : sq_wf (drained (p_loop p)) /\ p_loop p1 = drained (p_loop p))
    by (rewrite Ep1; split; [apply drained_wf, Ht|done]).
  destruct (in_flight_entry free i w p1 (to_slab _ _ Ht1) Hi Hw1) as (Hn & _ & _ & _).
  rewrite (complete_slot vfuel i w _ 0 p1 Hw1), Hcb.
  set (w1 := set_pr_req w _). assert (Hi1 := lookup_lt_Some _ _ _ Hw1).
  assert (Hpos : (0 < length c)%nat) by (destruct c; [done|simpl; lia]).
  erewrite on_file_read_more; [|by apply put_lookup|done|done|done|done| |apply Hsq1 || (cbn; apply (to_sq _ _ Ht1))].
  2: { cbn. rewrite length_app. lia. }
  rewrite put_put. eexists. split; [done|].
  change (result (pr_req w1)) with (Z.of_nat (length c)).
  assert (Hadv : advanced w1 (Z.of_nat (length bytes)) (Z.of_nat (length c)) (c ++ buf) =
    set_pr_req (set_pr_hasher w (Hasher (blake3_hasher_update blake3_hasher_init (bytes ++ c))))
      (set_off (pr_req w1) (WInt (Z.of_nat (length (bytes ++ c)))))).
  { unfold advanced. rewrite Nat2Z.id, take_app_length.
    change (pr_hasher w1) with (pr_hasher w). rewrite Hh. cbn [blake]. rewrite blake3_update_app.
    rewrite length_app in *. rewrite u64_small by lia. by rewrite Nat2Z.inj_add. }
  rewrite Hadv. set (w2 := set_pr_req (set_pr_hasher w _) _).
  pose proof (put_thread_ok free i w w2 p1 Ht1 Hi Hw1 eq_refl eq_refl eq_refl Hn) as Ht2.
  pose proof (submitted_frame (RSlot i) (pr_req w2) (put i w2 p1)) as (E1 & E2 & _ & E4 & _ & _ & _ & u & Ev).
  split; [by apply submitted_thread_ok|done| | | |].
  - rewrite E2. by rewrite <- He, Ep1.
  - rewrite E4. by rewrite <- Hid, Ep1.
  - destruct Hq as [u0 Hq]. exists u.
    assert (Hqp : p_quic (put i w2 p1) = p_quic p) by (by rewrite Ep1).
    unfold p_quic at 1. rewrite Ev, Hqp, Hq. done.
  - exists w2. rewrite E1. split; [by apply put_lookup|]. split_and!; try done.
    apply kernel_sqe_submitted; [apply Ht2|]. cbn. rewrite (proj2 Hsq1). apply drained_room, Ht.
Qed.

(** End of file. *)
Lemma complete_read_eof vfuel free e q id i a n fdn bytes buf s p p1 :
  reading free e q id i a n fdn bytes p ->
  p1 = upd_p_buffers (<[i := [] ++ buf]> (p_buffers p)) (upd_p_loop (drained (p_loop p)) p) ->
  p_buffers p1 !! i = Some ([] ++ buf) -> thread_ok free p1 ->
  e_heap e !! a = Some (s ++ [0]) -> no_nul s -> (length s < 128)%nat ->
  exists u,
  match verifier_verify_hash vfuel (u64 n) (s ++ [0]) HASH_LEN (digest bytes) (set_qworld q u) with
  | Ret (_, q1) =>
      exists w p2, complete vfuel (Cqe (WPtr (PReq (RSlot i))) 0 0) p1 = Ret (tt, p2) /\
        p2 = reported i w a s (digest bytes) q1 (put i w p1) /\
        fd (pr_req w) = fdn /\ pr_id w = Z.of_nat i /\ thread_ok free (put i w p1) /\
        reqs (p_slab (put i w p1)) !! i = Some w
  | Exit c => complete vfuel (Cqe (WPtr (PReq (RSlot i))) 0 0) p1 = Exit c
  | AssertFailed => complete vfuel (Cqe (WPtr (PReq (RSlot i))) 0 0) p1 = AssertFailed
  | Undef b => complete vfuel (Cqe (WPtr (PReq (RSlot i))) 0 0) p1 = Undef b
  | OutOfFuel => complete vfuel (Cqe (WPtr (PReq (RSlot i))) 0 0) p1 = OutOfFuel
  end.
Proof.
  intros [Ht Hi He Hid [u Hq] (w & Hw & Hd & Hd2 & Hop & Hcb & Hfd & Hl & Ha & Ho & Hh & Hk)] Ep1 Hb Ht1 Hs Hns Hls.
  assert (Hw1 : reqs (p_slab p1) !! i = Some w) by (by rewrite Ep1).
  destruct (in_flight_entry free i w p1 (to_slab _ _ Ht1) Hi Hw1) as (Hn & _ & Hwi & _).
  exists u. rewrite (complete_slot vfuel i w 0 0 p1 Hw1), Hcb.
  set (w1 := set_pr_req w _). assert (Hi1 := lookup_lt_Some _ _ _ Hw1).
  assert (Hsh : p_shared p1 = e) by (by rewrite Ep1).
  erewrite (on_file_read_eof i w1 i ([] ++ buf) a s); [|by apply put_lookup|done|done|done|done|done| |done|done|apply Ht1].
  2: { change (p_shared (put i w1 p1)) with (p_shared p1). by rewrite Hsh. }
  change (pr_hasher w1) with (pr_hasher w). rewrite Hh. cbn [blake]. fold (digest bytes).
  change (pr_data2 w1) with (pr_data2 w). rewrite Hd2.
  assert (Hqp : p_quic (put i w1 p1) = set_qworld q u) by (by rewrite Ep1).
  rewrite Hqp. destruct (verifier_verify_hash _ _ _ _ _ _) as [[v q1]| | | |]; [|done..].
  exists w1. eexists. split; [done|]. split; [done|]. split; [done|]. split; [done|].
  split; [|by apply put_lookup]. by apply (put_thread_ok free i w w1 p1 Ht1 Hi Hw1).
Qed.
Lemma released_thread_ok free i w p :
  thread_ok free p -> i ∉ free -> reqs (p_slab p) !! i = Some w -> thread_ok (i :: free) (released i w p).
Proof.
  intros Ht Hi Hw.
  destruct (in_flight_entry free i w p (to_slab _ _ Ht) Hi Hw) as (Hn & Hb & Hid & Hf).
  pose proof (put_thread_ok free i w (set_pr_data w None 0) p Ht Hi Hw eq_refl eq_refl eq_refl Hn) as Ht1.
  destruct (free_req_spec _ free i (set_pr_data w None 0) (to_slab _ _ Ht1)) as (s' & Hs & Hwf & _);
    [apply put_lookup; by eapply lookup_lt_Some|done|].
  pose proof (release_slot i w p Hw Hn) as Hr. unfold in_slab in Hr.
  change (pr_req (set_pr_data w None 0)) with (pr_req w) in Hs. rewrite Hs in Hr.
  assert (Er : released i w p = upd_p_slab s' (put i (set_pr_data w None 0) p)) by congruence.
  destruct Ht1 as [_ Hsq Hbs Hidr]. split; rewrite Er; [done..| |done].
  intros j Hj. apply Hbs. revert Hj. rewrite <- Er.
  cbn. by rewrite !length_insert.
Qed.

(** The thread when the file is done: the hash is printed and the descriptor
    closed, the path is freed and the container is free again. *)
Record file_done (free : list nat) (e : shared F) (q : quic C W) (id : Z) (i a : nat) (fdn : Z)
    (s hash : list Z) (p : processor H C W F) : Prop := {
  fd_thread : thread_ok (i :: free) p;
  fd_quic : p_quic p = q;
  fd_shared : p_shared p =
    upd_e_out (e_out e ++ [EWrite (hash_line id (Z.of_nat i) s hash); EClose fdn])
      (upd_e_heap (delete a (e_heap e)) e);
}.

Lemma reported_done free e q id i a fdn s hash w p :
  thread_ok free p -> i ∉ free -> reqs (p_slab p) !! i = Some w -> p_shared p = e -> p_id p = id ->
  fd (pr_req w) = fdn -> pr_id w = Z.of_nat i ->
  file_done free e q id i a fdn s hash (reported i w a s hash q p).
Proof.
  intros Ht Hi Hw He Hid Hfd Hwi. unfold reported.
  set (p1 := freed a _).
  assert (Ht1 : thread_ok free p1) by (by destruct Ht; split).
  pose proof (released_thread_ok free i w p1 Ht1 Hi Hw) as Ht2.
  split; [by destruct Ht2; split|done|].
  unfold emitted, released, p1, freed, upd_p_shared, upd_p_slab, upd_e_out, upd_e_heap. cbn.
  rewrite He, Hid, Hfd, Hwi. by rewrite <- app_assoc.
Qed.

(** Reading the rest of the file: [fuel] beyond the number of bytes left is
    enough, whatever sizes the kernel gives. *)
Lemma read_all_ok vfuel fuel free e q id i a n fdn bytes rest sched k s p :
  reading free e q id i a n fdn bytes p ->
  e_heap e !! a = Some (s ++ [0]) -> no_nul s -> (length s < 128)%nat ->
  (forall k, 0 < sched k)%nat -> (length rest < fuel)%nat ->
  Z.of_nat (length (bytes ++ rest)) < 2 ^ 64 ->
  exists u,
  let m := read_all vfuel fuel (bytes ++ rest) sched k i p in
  match verifier_verify_hash vfuel (u64 n) (s ++ [0]) HASH_LEN (digest (bytes ++ rest)) (set_qworld q u) with
  | Ret (_, q1) =>
      exists p2, m = Ret (tt, p2) /\ file_done free e q1 id i a fdn s (digest (bytes ++ rest)) p2
  | Exit c => m = Exit c
  | AssertFailed => m = AssertFailed
  | Undef b => m = Undef b
  | OutOfFuel => m = OutOfFuel
  end.
Proof.
  intros Hrd Hs Hns Hls Hsch. revert bytes rest k p Hrd.
  induction fuel as [|fuel IH]; intros bytes rest k p Hrd Hf Hlt; [lia|]. cbn [read_all].
  destruct (kernel_read_ok _ _ _ _ _ _ _ _ _ rest (sched k) p Hrd) as (buf & p1 & Hr & Ep1 & Hb & Ht1).
  rewrite (bind_Ret _ _ _ _ _ Hr). cbn [cqe_res].
  set (c := take (sched k `min` Z.to_nat READ_BUF_SIZE) rest) in *.
  destruct (decide (rest = [])) as [Er|Er].
  - subst rest. assert (Hc : c = []) by (unfold c; by rewrite take_nil). rewrite Hc in *. rewrite app_nil_r.
    destruct (complete_read_eof vfuel _ _ _ _ _ _ _ _ _ _ s _ _ Hrd Ep1 Hb Ht1 Hs Hns Hls) as [u Hu].
    exists u. cbv zeta. change (Z.of_nat (length [])) with 0.
    destruct (verifier_verify_hash _ _ _ _ _ _) as [[v q1]| | | |]; [|unfold mbind, M_bind; by rewrite Hu..].
    destruct Hu as (w & p2 & Hco & Ep2 & Hfd & Hwi & Ht2 & Hw2).
    rewrite (bind_Ret _ _ _ _ _ Hco). exists p2. split; [done|]. rewrite Ep2.
    apply reported_done; [done|apply Hrd|done| | |done|done].
    + rewrite Ep1. apply Hrd.
    + rewrite Ep1. apply Hrd.
  - assert (Hc : c <> []).
    { unfold c. destruct rest; [done|]. specialize (Hsch k). destruct (sched k) as [|m]; [lia|].
      assert (0 < Z.to_nat READ_BUF_SIZE)%nat as Hp by (unfold READ_BUF_SIZE; lia).
      destruct (Z.to_nat READ_BUF_SIZE); [lia|]. done. }
    assert (Hsplit : rest = c ++ drop (length c) rest) by (symmetry; apply take_drop_length).
    assert (Hlc : (0 < length c)%nat) by (destruct c; [done|simpl; lia]).
    assert (Hlen : length rest = (length c + length (drop (length c) rest))%nat)
      by (rewrite Hsplit at 1; by rewrite length_app).
    rewrite length_app in Hlt.
    destruct (complete_read_more vfuel _ _ _ _ _ _ _ _ _ c buf _ p1 Hrd Hc)
      as (p2 & Hco & Hrd2); [rewrite length_app; lia|done..|].
    rewrite (bind_Ret _ _ _ _ _ Hco).
    rewrite (proj2 (Z.eqb_neq (Z.of_nat (length c)) 0)) by lia.
    specialize (IH (bytes ++ c) (drop (length c) rest) (S k) p2 Hrd2).
    rewrite <- app_assoc, <- Hsplit in IH. apply IH; [lia|rewrite length_app; lia].
Qed.
(** ** From the event to the open file *)

(** Container [i] is in flight for the path in the heap string [a], and the
    last submission for it in the ring is the open. *)
Record opening_file (free : list nat) (e : shared F) (q : quic C W) (id : Z) (i a : nat) (n : Z)
    (p : processor H C W F) : Prop := {
  op_thread : thread_ok free p;
  op_free : i ∉ free;
  op_shared : p_shared p = e;
  op_id : p_id p = id;
  op_quic : exists u, p_quic p = set_qworld q u;
  op_entry : exists w, reqs (p_slab p) !! i = Some w /\
    pr_data w = Some a /\ pr_data2 w = n /\ opcode (pr_req w) = IORING_OP_OPENAT /\
    callback (pr_req w) = Some on_file_open_cb /\ addr (pr_req w) = WPtr (PStr a) /\
    kernel_sqe i p = Some (sqe_of_req (RSlot i) (pr_req w));
}.

Lemma kernel_open_ok fs fdn free e q id i a n s p :
  opening_file free e q id i a n p -> e_heap e !! a = Some (s ++ [0]) -> no_nul s ->
  kernel_open fs fdn i p =
  Ret ((Cqe (WPtr (PReq (RSlot i))) (match fs s with Some _ => fdn | None => - ENOENT end) 0, fs s),
       upd_p_loop (drained (p_loop p)) p).
Proof.
  intros [Ht Hi He Hid Hq (w & Hw & Hd & Hd2 & Hop & Hcb & Ha & Hk)] Hs Hn.
  unfold kernel_open, kernel_take_sqe. unfold mbind at 1, M_bind at 1. rewrite Hk.
  cbn [sqe_of_req sqe_addr sqe_opcode sqe_user_data]. rewrite Ha, Hop.
  change (negb (IORING_OP_OPENAT =? IORING_OP_OPENAT)) with false. cbv iota.
  assert (Hs' : e_heap (p_shared (upd_p_loop (drained (p_loop p)) p)) !! a = Some (s ++ [0]))
    by (change (e_heap (p_shared p) !! a = Some (s ++ [0])); by rewrite He).
  rewrite (bind_Ret _ _ _ _ _ (read_str_ok _ _ _ Hs')).
  by rewrite (c_string_app s []).
Qed.

Lemma complete_open_ok vfuel fdn free e q id i a n p :
  opening_file free e q id i a n p -> 0 <= fdn ->
  exists p2, complete vfuel (Cqe (WPtr (PReq (RSlot i))) fdn 0) (upd_p_loop (drained (p_loop p)) p) = Ret (tt, p2) /\
    reading free e q id i a n fdn [] p2.
Proof.
  intros [Ht Hi He Hid Hq (w & Hw & Hd & Hd2 & Hop & Hcb & Ha & Hk)] Hf.
  pose proof (drained_thread_ok free p Ht) as Ht1. set (p1 := upd_p_loop _ p) in *.
  assert (Hw1 : reqs (p_slab p1) !! i = Some w) by done.
  destruct (in_flight_entry free i w p1 (to_slab _ _ Ht1) Hi Hw1) as (Hn & Hbi & _ & _).
  rewrite (complete_slot vfuel i w _ 0 p1 Hw1), Hcb.
  set (w1 := set_pr_req w _). assert (Hi1 := lookup_lt_Some _ _ _ Hw1).
  rewrite (on_file_open_ok i w1); [|by apply put_lookup|done|done|apply Ht1].
  rewrite put_put. eexists. split; [done|].
  pose proof (put_thread_ok free i w (opened w1) p1 Ht1 Hi Hw1 eq_refl eq_refl eq_refl Hn) as Ht2.
  pose proof (submitted_frame (RSlot i) (pr_req (opened w1)) (put i (opened w1) p1))
    as (E1 & E2 & _ & E4 & _ & _ & _ & u & Ev).
  split; [by apply submitted_thread_ok|done|by rewrite E2|by rewrite E4| |].
  - destruct Hq as [u0 Hq]. exists u. unfold p_quic at 1. rewrite Ev.
    change (p_quic (put i (opened w1) p1)) with (p_quic p). by rewrite Hq.
  - exists (opened w1). rewrite E1. split; [by apply put_lookup|]. split_and!; try done.
    + cbn. by rewrite Hbi.
    + cbn. by rewrite blake3_update_nil.
    + apply kernel_sqe_submitted; [apply Ht2|]. apply drained_room, Ht.
Qed.

(** The open failed: the path is freed and the container is free again. *)
Lemma complete_open_fail vfuel res free e q id i a n s p :
  opening_file free e q id i a n p -> res < 0 -> e_heap e !! a = Some s ->
  exists p2, complete vfuel (Cqe (WPtr (PReq (RSlot i))) res 0) (upd_p_loop (drained (p_loop p)) p) = Ret (tt, p2) /\
    thread_ok (i :: free) p2 /\ p_shared p2 = upd_e_heap (delete a (e_heap e)) e /\
    exists u, p_quic p2 = set_qworld q u.
Proof.
  intros [Ht Hi He Hid Hq (w & Hw & Hd & Hd2 & Hop & Hcb & Ha & Hk)] Hf Hs.
  pose proof (drained_thread_ok free p Ht) as Ht1. set (p1 := upd_p_loop _ p) in *.
  assert (Hw1 : reqs (p_slab p1) !! i = Some w) by done.
  destruct (in_flight_entry free i w p1 (to_slab _ _ Ht1) Hi Hw1) as (Hn & Hbi & _ & _).
  rewrite (complete_slot vfuel i w _ 0 p1 Hw1), Hcb.
  set (w1 := set_pr_req w _). assert (Hi1 := lookup_lt_Some _ _ _ Hw1).
  assert (Hw2 : reqs (p_slab (put i w1 p1)) !! i = Some w1) by (by apply put_lookup).
  rewrite (on_file_open_fail i w1 a s); [|done|done|done|done|].
  2: { change (e_heap (p_shared p) !! a = Some s). by rewrite He. }
  eexists. split; [done|].
  pose proof (put_thread_ok free i w w1 p1 Ht1 Hi Hw1 eq_refl eq_refl eq_refl Hn) as Ht2.
  split; [|split].
  - apply released_thread_ok; [by destruct Ht2; split|done|done].
  - cbn. by rewrite He.
  - done.
Qed.
(** What is shared, after the queue is [q'], the eventfd [f'] and the path [s]
    is copied to the heap. *)
Definition shared_opening (q' : queue) (f' : F) (s : list Z) (e : shared F) : shared F :=
  let e := upd_e_queue q' (upd_e_efd f' e) in
  upd_e_brk (S (e_brk e)) (upd_e_heap (<[e_brk e := s ++ [0]]> (e_heap e)) e).

Lemma opening_state_ok free i w n s u p :
  thread_ok (i :: free) p -> reqs (p_slab p) !! i = Some w ->
  thread_ok free (opening_state i w n s u p) /\ i ∉ free.
Proof.
  intros [Hs Hsq Hb Hid] Hw. pose proof (lookup_lt_Some _ _ _ Hw) as Hi.
  destruct (get_req_taken _ _ _ _ Hs Hw) as (Hg & Hwf & Hni). split; [|done].
  assert (Ht : thread_ok free (upd_p_slab (taken i w (p_slab p)) p)).
  { split; [done|done| |done]. intros j. cbn. rewrite length_insert. apply Hb. }
  apply (put_thread_ok free i (take_entry i w) (opening i w (e_brk (p_shared p)) n)) in Ht;
    [|done|cbn; by apply list_lookup_insert_eq|done..].
  assert (E : p_slab (put i (opening i w (e_brk (p_shared p)) n) (upd_p_slab (taken i w (p_slab p)) p)) =
              p_slab (opening_state i w n s u p))
    by (cbn; unfold slab_put; cbn; by rewrite list_insert_insert_eq).
  destruct Ht as [H1 H2 H3 H4]. rewrite E in H1, H3. by split.
Qed.

(** Re-arming the poll does not disturb it. *)
Lemma opening_file_poll free e q id i a n r p :
  opening_file free e q id i a n p ->
  opening_file free e q id i a n (submitted RQueuePoll r p).
Proof.
  intros [Ho1 Ho2 Ho3 Ho4 [u3 Ho5] (w3 & Ho6)].
  pose proof (submitted_frame RQueuePoll r p) as (G1 & G2 & _ & G4 & _ & _ & _ & u2 & Gv).
  split; [by apply submitted_thread_ok|done|by rewrite G2|by rewrite G4| |].
  - exists u2. unfold p_quic at 1. rewrite Gv, Ho5. done.
  - exists w3. rewrite G1, kernel_sqe_poll by apply Ho1. done.
Qed.

(** The poll completes and an event is taken (or, on [EAGAIN], the zeroed
    event is used): its file is being opened. *)
Lemma complete_poll_opening vfuel res fl free i ret ev s u (q' : queue) f' p :
  thread_ok (i :: free) p -> data (p_queue_poll p) = Some PProcessor ->
  callback (p_queue_poll p) = Some on_queue_event_cb -> 0 <= res ->
  sq_len (p_loop p) < sq_size (p_loop p) ->
  queue_consume_try event_zero (e_queue (p_shared p), e_efd (p_shared p)) = Ret ((ret, ev), (q', f')) ->
  ret = 0 \/ ret = EAGAIN -> c_string (path ev) = Some s ->
  malloc_ok (q_world (p_quic p)) = (true, u) -> is_Some (reqs (p_slab p) !! i) ->
  exists p1, complete vfuel (Cqe (WPtr (PReq RQueuePoll)) res fl) p = Ret (tt, p1) /\
    opening_file free (shared_opening q' f' s (p_shared p)) (p_quic p) (p_id p) i
      (e_brk (p_shared p)) (path_len ev) p1.
Proof.
  intros Ht Hd Hcb Hres Hroom Hc Hret Hs Hm [w Hw].
  unfold complete, ev_complete. cbn [cqe_user_data cqe_res cqe_flags].
  unfold mbind, M_bind, modify. cbn [store_result req_at req_set].
  set (q0 := EvIoReq _ _ _ _ _ _ _ _ _ _ _). set (p0 := upd_p_queue_poll q0 p).
  assert (Hrun : run_callback vfuel RQueuePoll p0 = on_queue_event RQueuePoll p0).
  { unfold run_callback, req_get, req_at. unfold mbind at 1, M_bind at 1.
    change (callback (p_queue_poll p0)) with (callback (p_queue_poll p)). by rewrite Hcb. }
  rewrite Hrun. set (p1 := upd_p_shared (upd_e_queue q' (upd_e_efd f' (p_shared p0))) p0).
  assert (Ht1 : thread_ok (i :: free) p1) by (by destruct Ht; split).
  assert (Hw1 : reqs (p_slab p1) !! i = Some w) by done.
  pose proof (open_event_eq i w free ev s u p1 (to_slab _ _ Ht1) Hw1 Hs Hm (to_sq _ _ Ht1)) as Ho.
  destruct (opening_state_ok free i w (path_len ev) s u p1 Ht1 Hw1) as [Ht2 Hni].
  set (w2 := opening i w (e_brk (p_shared p1)) (path_len ev)) in *.
  set (p2 := opening_state i w (path_len ev) s u p1) in *.
  rewrite (on_queue_event_take p0 q' f' ret ev _ Hd Hres Hc Hret Ho (submitted_wf _ _ _ (to_sq _ _ Ht2))).
  eexists. split; [done|]. clear Ho Hrun.
  assert (Hk : kernel_sqe i (submitted (RSlot i) (pr_req w2) p2) = Some (sqe_of_req (RSlot i) (pr_req w2)))
    by (apply kernel_sqe_submitted; [apply Ht2|done]).
  pose proof (submitted_frame (RSlot i) (pr_req w2) p2) as (E1 & E2 & _ & E4 & _ & _ & _ & u1 & Ev).
  assert (Hop : opening_file free (shared_opening q' f' s (p_shared p)) (p_quic p) (p_id p) i
      (e_brk (p_shared p)) (path_len ev) (submitted (RSlot i) (pr_req w2) p2)).
  { split; [by apply submitted_thread_ok|done|by rewrite E2|by rewrite E4| |].
    - exists u1. unfold p_quic at 1. rewrite Ev. done.
    - exists w2. rewrite E1. split_and!; try done. cbn. apply list_lookup_insert_eq.
      by eapply lookup_lt_Some. }
  unfold rearmed. destruct (Z.land _ _ =? 0); [|done]. by apply opening_file_poll.
Qed.
End reading.

(** ** Properties *)

Section properties.
Context {H C W F : Type} `{!Blake3 H, !Blake3Laws H, !IoUring W, !Ngtcp2 C, !Host W, !Net C W, !Malloc W}.
Context `{!Eventfd F, !EventfdSem F}.
Implicit Types (p : processor H C W F).

(** The thread waits for events with container [i] free, a token and an event
    queued, and room in the submission ring. *)
Record event_ready (free : list nat) (i : nat) (ev : event) (rest : list event)
    (p : processor H C W F) : Prop := {
  er_thread : thread_ok (i :: free) p;
  er_slot : (i < length (reqs (p_slab p)))%nat;
  er_room : sq_len (p_loop p) < sq_size (p_loop p);
  er_poll : data (p_queue_poll p) = Some PProcessor /\
            callback (p_queue_poll p) = Some on_queue_event_cb;
  er_queue : queue_wf (e_queue (p_shared p));
  er_events : contents (e_queue (p_shared p)) = ev :: rest;
  er_token : 0 < efd_count (e_efd (p_shared p));
  er_heap : e_heap (p_shared p) !! e_brk (p_shared p) = None;
  er_malloc : fst (malloc_ok (q_world (p_quic p))) = true;
  er_path : length (path ev) = Z.to_nat MAX_FILENAME_LEN;
}.

Lemma event_opening vfuel res fl free i ev rest s p :
  event_ready free i ev rest p -> 0 <= res -> c_string (path ev) = Some s ->
  exists q' f' p1,
    complete vfuel (Cqe (WPtr (PReq RQueuePoll)) res fl) p = Ret (tt, p1) /\
    contents q' = rest /\ efd_count f' = efd_count (e_efd (p_shared p)) - 1 /\
    opening_file free (shared_opening q' f' s (p_shared p)) (p_quic p) (p_id p) i
      (e_brk (p_shared p)) (path_len ev) p1.
Proof.
  intros [Ht Hi Hr [Hd Hcb] Hq He Hk Hh Hm Hp] Hres Hs.
  destruct (queue_consume_refines event_zero _ (e_efd (p_shared p)) Hq) as (q' & f' & Hc & _ & Hct & Hn).
  rewrite He in Hc, Hct, Hn. unfold Fifo.consume in Hc, Hct, Hn.
  rewrite (proj2 (Z.eqb_neq _ _)) in Hc, Hct, Hn by lia. cbn in Hc, Hct, Hn.
  destruct (malloc_ok (q_world (p_quic p))) as [ok u] eqn:Hma. simpl in Hm. subst ok.
  destruct (complete_poll_opening vfuel res fl free i 0 ev s u q' f' p) as (p1 & Hco & Hop);
    try done; [by left|by apply lookup_lt_is_Some|].
  exists q', f', p1. done.
Qed.

Lemma event_path_short ev s :
  length (path ev) = Z.to_nat MAX_FILENAME_LEN -> c_string (path ev) = Some s ->
  no_nul s /\ (length s < 128)%nat.
Proof.
  intros Hl Hs. split; [by eapply c_string_no_nul|].
  destruct (c_string_shape _ _ Hs) as [rest Hr]. rewrite Hr, length_app in Hl. simpl in Hl.
  unfold MAX_FILENAME_LEN in Hl. lia.
Qed.

(** The whole run of one event, in terms of the verifier call at its end. *)
Lemma process_event_ok fs vfuel res fl fdn fuel sched free i ev rest s content p :
  event_ready free i ev rest p -> 0 <= res -> 0 <= fdn ->
  c_string (path ev) = Some s -> fs s = Some content ->
  (forall k, 0 < sched k)%nat -> (length content < fuel)%nat -> Z.of_nat (length content) < 2 ^ 64 ->
  exists u,
  let m := process_event fs vfuel res fl fdn fuel sched i p in
  match verifier_verify_hash vfuel (u64 (path_len ev)) (s ++ [0]) HASH_LEN (digest content)
          (set_qworld (p_quic p) u) with
  | Ret (_, q1) =>
      exists p2, m = Ret (tt, p2) /\ thread_ok (i :: free) p2 /\ p_quic p2 = q1 /\
        e_out (p_shared p2) = e_out (p_shared p) ++
          [EWrite (hash_line (p_id p) (Z.of_nat i) s (digest content)); EClose fdn] /\
        e_heap (p_shared p2) = e_heap (p_shared p) /\
        contents (e_queue (p_shared p2)) = rest /\
        efd_count (e_efd (p_shared p2)) = efd_count (e_efd (p_shared p)) - 1
  | Exit c => m = Exit c
  | AssertFailed => m = AssertFailed
  | Undef b => m = Undef b
  | OutOfFuel => m = OutOfFuel
  end.
Proof.
  intros Hr Hres Hfd Hs Hfs Hsch Hf Hlt.
  destruct (event_path_short ev s (er_path _ _ _ _ _ Hr) Hs) as [Hns Hls].
  destruct (event_opening vfuel res fl _ _ _ _ _ _ Hr Hres Hs) as (q' & f' & p1 & Hco & Hct & Hn & Hop).
  set (e := shared_opening q' f' s (p_shared p)) in *.
  assert (Ha : e_heap e !! e_brk (p_shared p) = Some (s ++ [0])) by (cbn; by simplify_map_eq).
  destruct (complete_open_ok vfuel fdn _ _ _ _ _ _ _ _ Hop Hfd) as (p2 & Hco2 & Hrd).
  destruct (read_all_ok vfuel fuel _ _ _ _ _ _ _ _ [] content sched 0 s p2 Hrd Ha Hns Hls Hsch Hf Hlt) as [u Hu].
  exists u. cbv zeta. unfold process_event. rewrite (bind_Ret _ _ _ _ _ Hco).
  rewrite (bind_Ret _ _ _ _ _ (kernel_open_ok fs fdn _ _ _ _ _ _ _ s p1 Hop Ha Hns)). rewrite Hfs.
  cbv beta iota zeta. rewrite (bind_Ret _ _ _ _ _ Hco2). simpl app in Hu.
  destruct (verifier_verify_hash _ _ _ _ _ _) as [[v q1]| | | |]; [|done..].
  destruct Hu as (p3 & Hm & [Ht3 Hq3 He3]). exists p3. rewrite He3.
  split; [done|]. split; [done|]. split; [done|]. split; [done|]. split; [|done].
  cbn. rewrite delete_insert_id; [done|]. apply Hr.
Qed.

(** C18. From the queue to the report: a thread that is woken with an event
    queued takes it, opens the file it names, reads it to the end in pieces of
    any sizes the kernel chooses, and prints one line with the processor, the
    container, the path and the BLAKE3 digest of exactly the file's content;
    the digest and the path are handed to the verifier, and when that call
    returns, the descriptor is closed, the heap is as before, the container is
    free again and the queue has lost exactly this event. The reads terminate:
    one more than the number of bytes is enough fuel. A verifier call that
    exits or is undefined makes the thread do the same. *)
Theorem file_hashed_end_to_end fs vfuel res fl fdn fuel sched free i ev rest s content p :
  event_ready free i ev rest p -> 0 <= res -> 0 <= fdn ->
  c_string (path ev) = Some s -> fs s = Some content ->
  (forall k, 0 < sched k)%nat -> (length content < fuel)%nat -> Z.of_nat (length content) < 2 ^ 64 ->
  exists u,
  let m := process_event fs vfuel res fl fdn fuel sched i p in
  match verifier_verify_hash vfuel (u64 (path_len ev)) (s ++ [0]) HASH_LEN (digest content)
          (set_qworld (p_quic p) u) with
  | Ret (_, q1) =>
      exists p2, m = Ret (tt, p2) /\ thread_ok (i :: free) p2 /\ p_quic p2 = q1 /\
        e_out (p_shared p2) = e_out (p_shared p) ++
          [EWrite (hash_line (p_id p) (Z.of_nat i) s (digest content)); EClose fdn] /\
        e_heap (p_shared p2) = e_heap (p_shared p) /\
        contents (e_queue (p_shared p2)) = rest /\
        efd_count (e_efd (p_shared p2)) = efd_count (e_efd (p_shared p)) - 1
  | Exit c => m = Exit c
  | AssertFailed => m = AssertFailed
  | Undef b => m = Undef b
  | OutOfFuel => m = OutOfFuel
  end.
Proof. apply process_event_ok. Qed.

(** C39. An event whose file cannot be opened: nothing is printed and no
    descriptor is closed, the heap is as before and the container is free
    again. *)
Theorem missing_file_released fs vfuel res fl fdn fuel sched free i ev rest s p :
  event_ready free i ev rest p -> 0 <= res -> c_string (path ev) = Some s -> fs s = None ->
  exists p2, process_event fs vfuel res fl fdn fuel sched i p = Ret (tt, p2) /\
    thread_ok (i :: free) p2 /\
    e_out (p_shared p2) = e_out (p_shared p) /\ e_heap (p_shared p2) = e_heap (p_shared p) /\
    contents (e_queue (p_shared p2)) = rest.
Proof.
  intros Hr Hres Hs Hfs.
  destruct (event_path_short ev s (er_path _ _ _ _ _ Hr) Hs) as [Hns Hls].
  destruct (event_opening vfuel res fl _ _ _ _ _ _ Hr Hres Hs) as (q' & f' & p1 & Hco & Hct & Hn & Hop).
  set (e := shared_opening q' f' s (p_shared p)) in *.
  assert (Ha : e_heap e !! e_brk (p_shared p) = Some (s ++ [0])) by (cbn; by simplify_map_eq).
  destruct (complete_open_fail vfuel (- ENOENT) _ _ _ _ _ _ _ (s ++ [0]) p1 Hop)
    as (p2 & Hco2 & Ht2 & He2 & _); [done|done|].
  exists p2. unfold process_event. rewrite (bind_Ret _ _ _ _ _ Hco).
  rewrite (bind_Ret _ _ _ _ _ (kernel_open_ok fs fdn _ _ _ _ _ _ _ s p1 Hop Ha Hns)). rewrite Hfs.
  cbv beta iota zeta. rewrite (bind_Ret _ _ _ _ _ Hco2), He2.
  split; [done|]. split; [done|]. split; [done|]. split; [|done].
  cbn. rewrite delete_insert_id; [done|]. apply Hr.
Qed.

(** The thread [processor_setup] builds, up to the submission of the poll. *)
Lemma processor_setup_eq (args : processor_args) bufs (h0 : hasher H) l u p :
  let n := Z.to_nat (pa_io_concurrency args) in
  (0 < n)%nat -> length bufs = n -> Forall (fun b => Z.of_nat (length b) = READ_BUF_SIZE) bufs ->
  ev_loop_init (None, q_world (p_quic p)) = Ret (0, (Some l, u)) -> sq_wf l ->
  exists p2, processor_setup args (Some bufs) true h0 p = Ret (tt, submitted RQueuePoll (p_queue_poll p2) p2) /\
    slab_setup h0 true n = Ret (p_slab p2) /\ thread_ok (seq 0 n) p2 /\ p_loop p2 = l /\
    data (p_queue_poll p2) = Some PProcessor /\ callback (p_queue_poll p2) = Some on_queue_event_cb /\
    sqe_of_req RQueuePoll (p_queue_poll p2) =
      Sqe IORING_OP_POLL_ADD 0 (pa_queue_eventfd args) (WInt 0) (WInt 0) IORING_POLL_ADD_MULTI
         (Z.lor EPOLLIN EPOLLEXCLUSIVE) (WPtr (PReq RQueuePoll)) /\
    p_shared p2 = p_shared p /\ q_accepted (p_quic p2) = q_accepted (p_quic p).
Proof.
  intros n Hn Hbl Hb Hl Hwf. unfold processor_setup. fold n.
  destruct (slab_setup_wf h0 n Hn) as (s & Hs & Hsw & Hlen). rewrite Hs. cbn beta iota zeta.
  change (p_quic (upd_p_id _ _)) with (p_quic p). rewrite Hl. cbn [default].
  set (p1 := upd_p_quic _ _).
  unfold processor_prepare_poll_reqs. unfold mbind at 1, M_bind at 1, modify at 1.
  set (p2 := upd_p_queue_poll _ p1). rewrite submit_poll_eq by done.
  exists p2. split; [done|]. split; [done|]. split; [|done].
  split; [done|done| |apply s32_range]. change (p_slab p2) with s. rewrite Hlen, <- Hbl.
  intros j [buf Hj]%lookup_lt_is_Some_2. exists buf. split; [done|].
  rewrite Forall_lookup in Hb. by eapply Hb.
Qed.

(** [processor_setup] with at least one task, successful allocations and
    a ring from the kernel: all containers are free, each with a buffer of its
    own, and the poll of the processor's own eventfd is submitted behind what
    the ring held; its completion runs [on_queue_event] for this processor. *)
Theorem processor_setup_ready (args : processor_args) bufs (h0 : hasher H) l u p :
  let n := Z.to_nat (pa_io_concurrency args) in
  (0 < n)%nat -> length bufs = n -> Forall (fun b => Z.of_nat (length b) = READ_BUF_SIZE) bufs ->
  ev_loop_init (None, q_world (p_quic p)) = Ret (0, (Some l, u)) ->
  sq_wf l -> sq_len l < sq_size l ->
  exists p', processor_setup args (Some bufs) true h0 p = Ret (tt, p') /\
    thread_ok (seq 0 n) p' /\ length (reqs (p_slab p')) = n /\
    data (p_queue_poll p') = Some PProcessor /\
    callback (p_queue_poll p') = Some on_queue_event_cb /\
    sq_pending (p_loop p') = sq_pending l ++
      [Sqe IORING_OP_POLL_ADD 0 (pa_queue_eventfd args) (WInt 0) (WInt 0) IORING_POLL_ADD_MULTI
         (Z.lor EPOLLIN EPOLLEXCLUSIVE) (WPtr (PReq RQueuePoll))] /\
    p_shared p' = p_shared p.
Proof.
  intros n Hn Hbl Hb Hl Hwf Hr.
  destruct (processor_setup_eq args bufs h0 l u p Hn Hbl Hb Hl Hwf)
    as (p2 & Hp & Hs & Ht & El & Hd & Hcb & He & Esh & _).
  destruct (slab_setup_wf h0 n Hn) as (s & Hs' & _ & Hlen). fold n in Hs. rewrite Hs in Hs'. injection Hs' as <-.
  eexists. split; [done|].
  pose proof (submitted_frame RQueuePoll (p_queue_poll p2) p2) as (E1 & E2 & E3 & E4 & E5 & _).
  rewrite E1, E2, E5. split; [by apply submitted_thread_ok|]. split; [done|].
  split; [done|]. split; [done|]. split; [|done].
  rewrite <- He, <- El. apply submitted_pending; by rewrite El.
Qed.
End properties.

(** ** What goes wrong *)

Lemma verify_hash_unconnected {C W} `{!Ngtcp2 C, !Host W} fuel n s m hash (q : quic C W) :
  q_conn q = None -> verifier_verify_hash fuel n s m hash q = Undef NullDeref.
Proof.
  intros Hc. unfold verifier_verify_hash, verifier_quic_get_slot, get_conn. mrun. by rewrite Hc.
Qed.

Section defects.
Context {H C W F : Type} `{!Blake3 H, !Blake3Laws H, !IoUring W, !Ngtcp2 C, !Host W, !Net C W, !Malloc W}.
Context `{!Eventfd F, !EventfdSem F}.
Implicit Types (p : processor H C W F).

(** C28. A wake-up without a token in the eventfd ([EAGAIN]) is not ignored:
    the thread takes a container, copies the empty path of the zeroed event
    and submits an open of it; the queue is unchanged. *)
Theorem spurious_wakeup_opens_empty_path vfuel res fl free i p :
  thread_ok (i :: free) p -> (i < length (reqs (p_slab p)))%nat ->
  data (p_queue_poll p) = Some PProcessor -> callback (p_queue_poll p) = Some on_queue_event_cb ->
  0 <= res -> sq_len (p_loop p) < sq_size (p_loop p) ->
  efd_count (e_efd (p_shared p)) = 0 -> fst (malloc_ok (q_world (p_quic p))) = true ->
  exists p1, complete vfuel (Cqe (WPtr (PReq RQueuePoll)) res fl) p = Ret (tt, p1) /\
    opening_file free (shared_opening (e_queue (p_shared p)) (e_efd (p_shared p)) [] (p_shared p))
      (p_quic p) (p_id p) i (e_brk (p_shared p)) 0 p1.
Proof.
  intros Ht Hi Hd Hcb Hres Hr Hk Hm.
  destruct (malloc_ok (q_world (p_quic p))) as [ok u] eqn:Hma. simpl in Hm. subst ok.
  apply (complete_poll_opening vfuel res fl free i EAGAIN event_zero [] u); try done.
  - unfold queue_consume_try. by rewrite efd_read_zero.
  - by right.
  - by apply lookup_lt_is_Some.
Qed.

(** C30. A file hashed before the verifier's connection is up is fatal: at the
    end of the file the verifier call dereferences the null connection. *)
Theorem file_before_connection_faults fs vfuel res fl fdn fuel sched free i ev rest s content p :
  event_ready free i ev rest p -> 0 <= res -> 0 <= fdn ->
  c_string (path ev) = Some s -> fs s = Some content ->
  (forall k, 0 < sched k)%nat -> (length content < fuel)%nat -> Z.of_nat (length content) < 2 ^ 64 ->
  q_conn (p_quic p) = None ->
  process_event fs vfuel res fl fdn fuel sched i p = Undef NullDeref.
Proof.
  intros Hr Hres Hfd Hs Hfs Hsch Hf Hlt Hc.
  destruct (process_event_ok fs vfuel res fl fdn fuel sched free i ev rest s content p
              Hr Hres Hfd Hs Hfs Hsch Hf Hlt) as [u Hu].
  cbv zeta in Hu. rewrite verify_hash_unconnected in Hu by done. exact Hu.
Qed.

(** C29. With a full submission ring the next read of a file is dropped: the
    callback returns normally, nothing was submitted, and the container stays
    in flight with no request of it left to complete. *)
Theorem full_ring_loses_read vfuel free i w o n p :
  thread_ok free p -> i ∉ free -> reqs (p_slab p) !! i = Some w ->
  callback (pr_req w) = Some on_file_read_cb -> addr (pr_req w) = WPtr (PBuffer i) ->
  off (pr_req w) = WInt o -> 0 < n <= READ_BUF_SIZE -> sq_len (p_loop p) = sq_size (p_loop p) ->
  exists p1, complete vfuel (Cqe (WPtr (PReq (RSlot i))) n 0) p = Ret (tt, p1) /\
    p_loop p1 = p_loop p /\ thread_ok free p1 /\ p_shared p1 = p_shared p.
Proof.
  intros Ht Hi Hw Hcb Ha Ho Hn Hf.
  destruct (in_flight_entry free i w p (to_slab _ _ Ht) Hi Hw) as (Hnc & _ & _ & _).
  pose proof (lookup_lt_Some _ _ _ Hw) as Hlt.
  destruct (to_bufs _ _ Ht i Hlt) as (buf & Hb & Hbl).
  rewrite (complete_slot vfuel i w n 0 p Hw), Hcb. set (w1 := set_pr_req w _).
  erewrite (on_file_read_more i w1 i buf o); [|by apply put_lookup|done..| |apply Ht].
  2: { change (result (pr_req w1)) with n. lia. }
  rewrite put_put. set (w2 := advanced w1 _ _ _). eexists. split; [done|].
  assert (E : submitted (RSlot i) (pr_req w2) (put i w2 p) = put i w2 p).
  { unfold submitted. by rewrite (proj2 (Z.ltb_ge _ _)) by (cbn; lia). }
  rewrite E. split; [done|]. split; [|done]. by apply (put_thread_ok free i w w2 p Ht Hi Hw).
Qed.
End defects.

(** ** Witnesses: a three-byte file read in pieces of at most two *)

Definition toy_fs (s : list Z) : option (list Z) :=
  if bool_decide (s = [47; 116; 47; 97]) then Some [104; 105; 10] else None.

Lemma toy_thread_ok n : thread_ok [0%nat] (toy_thread n).
Proof.
  destruct (slab_setup_wf (Hasher ([] : list Z)) 1) as (s & Hs & Hwf & Hl); [lia|].
  assert (s = toy_slab) as -> by (unfold toy_slab; rewrite Hs; done).
  split.
  - exact Hwf.
  - split; [exact is_mask_1|]. repeat split; vm_compute; congruence.
  - intros j Hj. change (j < length (reqs toy_slab))%nat in Hj. rewrite Hl in Hj.
    assert (j = 0)%nat as -> by lia. eexists. split; [reflexivity|]. rewrite length_replicate. done.
  - simpl. lia.
Qed.

Lemma toy_ready n : event_ready [] 0 toy_event [] (toy_thread (N.succ n)).
Proof.
  split.
  - apply toy_thread_ok.
  - vm_compute. lia.
  - by vm_compute.
  - by split.
  - split; [by vm_compute|split; by vm_compute].
  - by vm_compute.
  - change (0 < Z.of_N (N.succ n)). lia.
  - done.
  - done.
  - by vm_compute.
Qed.

Lemma file_hashed_end_to_end_witness :
  exists p2,
    process_event toy_fs 20 1 2 7 4 (fun _ => 2%nat) 0 (toy_thread 1) = Ret (tt, p2) /\
    e_out (p_shared p2) =
      [EWrite (hash_line 3 0 [47; 116; 47; 97] (digest [104; 105; 10])); EClose 7] /\
    e_heap (p_shared p2) = ∅ /\ contents (e_queue (p_shared p2)) = [].
Proof.
  destruct (file_hashed_end_to_end toy_fs 20 1 2 7 4 (fun _ => 2%nat) [] 0 toy_event [] [47; 116; 47; 97]
    [104; 105; 10] (toy_thread 1) (toy_ready 0)) as [u Hu]; try reflexivity; try lia; [simpl; lia..|].
  cbv zeta in Hu.
  assert (Hr : match process_event toy_fs 20 1 2 7 4 (fun _ => 2%nat) 0 (toy_thread 1) with
               | Ret _ => true | _ => false end = true) by (vm_compute; reflexivity).
  destruct (verifier_verify_hash _ _ _ _ _ _) as [[v q1]| | | |]; [|rewrite Hu in Hr; discriminate..].
  destruct Hu as (p2 & Hm & _ & _ & Ho & Hh & Hc & _). exists p2.
  split; [exact Hm|]. split; [exact Ho|]. split; [exact Hh|exact Hc].
Defined.

Lemma missing_file_released_witness :
  exists p2,
    process_event (fun _ => None) 20 1 2 7 4 (fun _ => 2%nat) 0 (toy_thread 1) = Ret (tt, p2) /\
    e_out (p_shared p2) = [] /\ e_heap (p_shared p2) = ∅.
Proof.
  destruct (missing_file_released (fun _ => None) 20 1 2 7 4 (fun _ => 2%nat) [] 0 toy_event []
    [47; 116; 47; 97] (toy_thread 1) (toy_ready 0)) as (p2 & Hm & _ & Ho & Hh & _);
    [lia|reflexivity|reflexivity|].
  exists p2. split; [exact Hm|]. split; [exact Ho|exact Hh].
Defined.

Lemma spurious_wakeup_opens_empty_path_witness :
  exists p1, complete 20 (Cqe (WPtr (PReq RQueuePoll)) 1 2) (toy_thread 0) = Ret (tt, p1) /\
    kernel_sqe 0 p1 = Some (Sqe IORING_OP_OPENAT 0 AT_FDCWD (WInt 0) (WPtr (PStr 0)) 0 0
                              (WPtr (PReq (RSlot 0)))) /\
    e_heap (p_shared p1) !! 0%nat = Some [0].
Proof.
  destruct (spurious_wakeup_opens_empty_path 20 1 2 [] 0 (toy_thread 0) (toy_thread_ok 0))
    as (p1 & Hc & [_ _ Hs _ _ _]); try reflexivity; try lia; [vm_compute; lia|].
  exists p1. split; [exact Hc|]. split; [|rewrite Hs; reflexivity].
  assert (E : match complete 20 (Cqe (WPtr (PReq RQueuePoll)) 1 2) (toy_thread 0) with
              | Ret (_, p) => kernel_sqe 0 p | _ => None end =
              Some (Sqe IORING_OP_OPENAT 0 AT_FDCWD (WInt 0) (WPtr (PStr 0)) 0 0 (WPtr (PReq (RSlot 0)))))
    by (vm_compute; reflexivity).
  rewrite Hc in E. exact E.
Defined.

(** The thread with its container reading, and both submission entries
    pending. *)
Definition toy_full : processor (list Z) toy_conn nat N :=
  let p := toy_thread 0 in
  let w := take_entry 0 (default (slab_entry (Hasher []) 0) (reqs toy_slab !! 0%nat)) in
  let q := read_req_of (pr_req w) 0 in
  upd_p_loop (EvLoop (IouRing 0 2 1 0) (iou_cqe (p_loop p)) (sqes (p_loop p)) (cqes (p_loop p)) 3)
    (upd_p_slab {| reqs := [set_pr_req w q]; reqs_list := None; nr_free_reqs := 0 |} p).

Lemma toy_full_ok : thread_ok [] toy_full.
Proof.
  split.
  - split; [done|]. split; [constructor|]. split; [done|]. intros [|i] q; [|done].
    intros [= <-]. rewrite bool_decide_false by (apply not_elem_of_nil). done.
  - split; [exact is_mask_1|]. repeat split; vm_compute; congruence.
  - intros [|j]; [|simpl; lia]. intros _. eexists. split; [reflexivity|].
    rewrite length_replicate. done.
  - simpl. lia.
Qed.

Lemma full_ring_loses_read_witness :
  exists p1, complete 20 (Cqe (WPtr (PReq (RSlot 0))) 9 0) toy_full = Ret (tt, p1) /\
    p_loop p1 = p_loop toy_full /\ p_shared p1 = p_shared toy_full.
Proof.
  destruct (reqs (p_slab toy_full) !! 0%nat) as [w|] eqn:Hw; [|discriminate].
  injection Hw as Ew.
  destruct (full_ring_loses_read 20 [] 0 w 0 9 toy_full toy_full_ok) as (p1 & H1 & H2 & _ & H3);
    try (rewrite <- Ew; reflexivity); try reflexivity; [apply not_elem_of_nil|unfold READ_BUF_SIZE; lia|].
  exists p1. split; [exact H1|]. split; [exact H2|exact H3].
Defined.

Definition toy_args : processor_args :=
  {| pa_id := 1; pa_io_concurrency := 1; pa_queue_eventfd := 5; pa_quit_eventfd := 6; pa_verify := true |}.

Lemma processor_setup_ready_witness :
  exists p', processor_setup toy_args (Some [replicate (Z.to_nat READ_BUF_SIZE) 0]) true (Hasher [])
               (toy_thread 0) = Ret (tt, p') /\ thread_ok [0%nat] p'.
Proof.
  destruct (processor_setup_ready toy_args [replicate (Z.to_nat READ_BUF_SIZE) 0] (Hasher [])
    (EvLoop (IouRing 0 0 1 0) (IouRing 0 0 1 0) [sqe_zero; sqe_zero] [Cqe (WInt 0) 0 0; Cqe (WInt 0) 0 0] 3)
    2%nat (toy_thread 0)) as (p' & H1 & H2 & _).
  - simpl. lia.
  - reflexivity.
  - repeat constructor.
  - reflexivity.
  - split; [exact is_mask_1|]. repeat split; vm_compute; congruence.
  - reflexivity.
  - exists p'. split; [exact H1|exact H2].
Defined.

(** The thread before its connection is made. *)
Definition toy_unconnected : processor (list Z) toy_conn nat N :=
  let p := toy_thread 1 in
  upd_p_quic (v_quic (verifier_zero (p_quic p))) p.

Lemma toy_unconnected_ready : event_ready [] 0 toy_event [] toy_unconnected.
Proof.
  destruct (toy_ready 0) as [[H1 H2 H3 H4] B C D E F G H I J].
  split; [by split|exact B|exact C|exact D|exact E|exact F|exact G|exact H|exact I|exact J].
Qed.

Lemma file_before_connection_faults_witness :
  process_event toy_fs 20 1 2 7 4 (fun _ => 2%nat) 0 toy_unconnected = Undef NullDeref.
Proof.
  apply (file_before_connection_faults toy_fs 20 1 2 7 4 (fun _ => 2%nat) [] 0 toy_event [] [47; 116; 47; 97]
    [104; 105; 10] toy_unconnected toy_unconnected_ready); try reflexivity; try lia; simpl; lia.
Defined.
