(* ===== verification/Connect.v ===== *)
(** * The connection of a thread to the verifier

    The set-up of src/verifier.c as a sequence of completions: [verifier_init]
    asks for a socket, its completion connects it, and the completion of that
    creates the QUIC connection, starts receiving and flushes. *)

From stdpp Require Import base numbers list list_numbers gmap.
From S2P Require Import Prelude CStr Queue Ev Hasher Slab Quic State Verifier Ride Processor.
From S2P Require Import Examples Thread Pipeline.

Open Scope Z_scope.

(** The network calls succeed. *)
Class NetUp (C W : Type) `{!Host W, !Net C W} := {
  up_addr w : fst (getaddrinfo w) = Some SIZEOF_SOCKADDR_IN;
  up_sockname fd w : fst (getsockname fd w) = 0;
  up_rand n w : fst (RAND_bytes n w) = 1;
  up_clock w : is_Some (fst (clock_gettime w));
  up_client a w : fst (fst (ngtcp2_conn_client_new a w)) = 0;
  up_ctx w : fst (SSL_CTX_new w) = true;
  up_conf w : fst (ngtcp2_crypto_boringssl_configure_client_context w) = 0;
  up_ssl w : fst (SSL_new w) = true;
}.

Section connect.
Context {H C W F : Type} `{!Blake3 H, !IoUring W, !Ngtcp2 C, !Host W, !Net C W, !Malloc W, !Eventfd F}.
Context `{!NetUp C W}.
Context (vfuel : nat).
Implicit Types (p : processor H C W F).

(** Only the world changed. *)
Definition world_only p p' : Prop := exists u, p' = upd_p_quic (set_qworld (p_quic p) u) p.

Lemma world_only_trans p1 p2 p3 : world_only p1 p2 -> world_only p2 p3 -> world_only p1 p3.
Proof. intros [u ->] [u' ->]. by exists u'. Qed.

Lemma world_op_ok {A} (f : W -> A * W) p :
  exists p', world_op f p = Ret (fst (f (q_world (p_quic p))), p') /\ world_only p p'.
Proof.
  unfold world_op. destruct (f _) as [a w]. eexists. split; [done|]. by exists w.
Qed.

Lemma world_op_val {A} (f : W -> A * W) p a :
  fst (f (q_world (p_quic p))) = a -> exists p', world_op f p = Ret (a, p') /\ world_only p p'.
Proof. intros <-. apply world_op_ok. Qed.

Lemma ssl_init_ok p : exists p', verifier_ssl_init p = Ret (0, p') /\ world_only p p'.
Proof.
  unfold verifier_ssl_init.
  destruct (world_op_val SSL_CTX_new p true) as (p1 & H1 & W1); [apply up_ctx|].
  rewrite (bind_Ret _ _ _ _ _ H1). cbn [negb].
  destruct (world_op_val ngtcp2_crypto_boringssl_configure_client_context p1 0) as (p2 & H2 & W2); [apply up_conf|].
  rewrite (bind_Ret _ _ _ _ _ H2). cbn [negb Z.eqb].
  destruct (world_op_val SSL_new p2 true) as (p3 & H3 & W3); [apply up_ssl|].
  rewrite (bind_Ret _ _ _ _ _ H3). cbn [negb].
  destruct (world_op_ok (SSL_set_alpn_protos RIDE_ALPN) p3) as (p4 & H4 & W4).
  rewrite (bind_Ret _ _ _ _ _ H4). exists p4. split; [done|]. eauto using world_only_trans.
Qed.

Lemma init_addr_ok p :
  e_remote_addr (p_shared p) = None \/ e_remote_addr (p_shared p) = Some SIZEOF_SOCKADDR_IN ->
  exists u, init_addr p = Ret (tt, upd_p_shared (upd_e_remote_addr (Some SIZEOF_SOCKADDR_IN) (p_shared p))
                                    (upd_p_quic (set_qworld (p_quic p) u) p)).
Proof.
  intros Hr. unfold init_addr. rewrite bind_gets.
  destruct Hr as [-> | Hr].
  - destruct (world_op_val getaddrinfo p (Some SIZEOF_SOCKADDR_IN)) as (p1 & H1 & [u ->]); [apply up_addr|].
    rewrite (bind_Ret _ _ _ _ _ H1). by exists u.
  - rewrite Hr. exists (q_world (p_quic p)).
    destruct p as [? ? ? ? ? ? ? [? ? ? ? ? ? ? ? []] []]. cbn in *. by rewrite Hr.
Qed.

Lemma verifier_connect_eq p q :
  v_conn_req (p_verifier p) = q -> sq_wf (p_loop p) ->
  verifier_connect p = Ret (tt, submitted RConn (socket_req_of q) (req_set RConn (socket_req_of q) p)).
Proof.
  intros <- Hwf. unfold verifier_connect.
  rewrite (bind_Ret (req_get RConn) _ p (v_conn_req (p_verifier p)) p eq_refl). unfold req_put. rewrite bind_modify.
  set (p1 := req_set RConn _ p).
  by rewrite (bind_Ret _ _ _ _ _ (submit_eq RConn (v_conn_req (p_verifier p1)) p1 eq_refl Hwf)).
Qed.

(** The thread after [verifier_init], before the submission. *)
Definition initialised (u : W) p : processor H C W F :=
  let v := upd_v_conn_req (socket_req_of ev_io_req_zero)
             (upd_v_timer_req (set_opcode (v_timer_req (p_verifier p)) 0) (p_verifier p)) in
  upd_p_shared (upd_e_remote_addr (Some SIZEOF_SOCKADDR_IN) (p_shared p))
    (upd_p_verifier (upd_v_quic (set_qworld (set_slots (p_quic p) (slots_init (q_slots (p_quic p)))) u) v) p).

Lemma verifier_init_ok p :
  e_remote_addr (p_shared p) = None \/ e_remote_addr (p_shared p) = Some SIZEOF_SOCKADDR_IN ->
  sq_wf (p_loop p) ->
  exists u, verifier_init p = Ret (0, submitted RConn (socket_req_of ev_io_req_zero) (initialised u p)).
Proof.
  intros Hr Hwf. unfold verifier_init.
  rewrite (bind_Ret (req_get RTimer) _ p (v_timer_req (p_verifier p)) p eq_refl).
  set (p1 := req_set RTimer (set_opcode (v_timer_req (p_verifier p)) 0) p).
  rewrite (bind_Ret (req_put RTimer _) _ p tt p1 eq_refl).
  set (p2 := upd_p_quic (set_slots (p_quic p1) (slots_init (q_slots (p_quic p1)))) p1).
  rewrite bind_modify. fold p2.
  destruct (init_addr_ok p2 Hr) as [u1 H1]. rewrite (bind_Ret _ _ _ _ _ H1). set (p3 := upd_p_shared _ _).
  destruct (ssl_init_ok p3) as (p4 & H2 & [u2 E2]). rewrite (bind_Ret _ _ _ _ _ H2).
  set (p5 := req_set RConn ev_io_req_zero p4).
  rewrite (bind_Ret (req_put RConn _) _ p4 tt p5 eq_refl).
  exists u2. assert (Hwf5 : sq_wf (p_loop p5)) by (unfold p5; by rewrite E2).
  rewrite (bind_Ret _ _ _ _ _ (verifier_connect_eq p5 ev_io_req_zero eq_refl Hwf5)).
  unfold p5. by rewrite E2.
Qed.
(** A completion of the connection request. *)
Definition conn_result (res fl : Z) p : processor H C W F := store_result RConn res fl p.

Lemma complete_conn res fl p cb :
  callback (v_conn_req (p_verifier p)) = Some cb ->
  complete vfuel (Cqe (WPtr (PReq RConn)) res fl) p =
  match cb with
  | on_socket_create_cb => on_socket_create RConn (conn_result res fl p)
  | on_socket_connect_cb => on_socket_connect vfuel RConn (conn_result res fl p)
  | _ => complete vfuel (Cqe (WPtr (PReq RConn)) res fl) p
  end.
Proof.
  intros Hcb. unfold complete, ev_complete. cbn [cqe_user_data cqe_res cqe_flags].
  rewrite bind_modify. fold (conn_result res fl p). unfold run_callback.
  set (q := with_result (v_conn_req (p_verifier p)) res fl).
  rewrite (bind_Ret (req_get RConn) _ (conn_result res fl p) q (conn_result res fl p) eq_refl).
  change (callback q) with (callback (v_conn_req (p_verifier p))). rewrite Hcb. by destruct cb.
Qed.

(** The thread after the socket was created, before the submission. *)
Definition created (u : W) (sock : Z) p : processor H C W F :=
  let p1 := set_sock sock p in
  let p2 := upd_p_verifier (upd_v_local_addr_len SIZEOF_SOCKADDR_IN (p_verifier p1)) p1 in
  let p3 := upd_p_quic (set_qworld (p_quic p2) u) p2 in
  let p4 := upd_p_verifier (upd_v_remote_addr_len SIZEOF_SOCKADDR_IN (p_verifier p3)) p3 in
  req_set RConn (connect_req_of (v_conn_req (p_verifier p)) sock SIZEOF_SOCKADDR_IN) p4.

(** The handler exits when there is no socket or no local address, and else
    submits the connect. *)
Lemma on_socket_create_eq p :
  data (v_conn_req (p_verifier p)) = Some PVerifier ->
  e_remote_addr (p_shared p) = Some SIZEOF_SOCKADDR_IN -> sq_wf (p_loop p) ->
  let sock := result (v_conn_req (p_verifier p)) in
  let '(e, u) := getsockname sock (q_world (p_quic p)) in
  on_socket_create RConn p =
    if (sock <? 0) || negb (e =? 0) then Exit 1
    else Ret (tt, submitted RConn (connect_req_of (v_conn_req (p_verifier p)) sock SIZEOF_SOCKADDR_IN)
                    (created u sock p)).
Proof.
  intros Hd Ha Hwf sock. destruct (getsockname sock _) as [e u] eqn:Hg. unfold on_socket_create.
  rewrite (bind_Ret (req_get RConn) _ p (v_conn_req (p_verifier p)) p eq_refl), Hd. fold sock.
  destruct (sock <? 0); [done|]. rewrite !bind_modify. set (p2 := upd_p_verifier _ (set_sock sock p)).
  set (p3 := upd_p_quic (set_qworld (p_quic p2) u) p2).
  assert (H3 : world_op (getsockname sock) p2 = Ret (e, p3)).
  { unfold world_op. change (q_world (p_quic p2)) with (q_world (p_quic p)). by rewrite Hg. }
  rewrite (bind_Ret _ _ _ _ _ H3). cbn [orb]. destruct (negb (e =? 0)); [done|]. rewrite bind_gets.
  change (e_remote_addr (p_shared p3)) with (e_remote_addr (p_shared p)). rewrite Ha, bind_modify.
  cbn [Z.ltb Z.compare SIZEOF_SOCKADDR_IN Pos.compare Pos.compare_cont]. set (p4 := upd_p_verifier _ p3).
  rewrite (bind_Ret (req_get RConn) _ p4 (v_conn_req (p_verifier p)) p4 eq_refl), bind_gets.
  unfold req_put. rewrite bind_modify. change (q_sock (p_quic p4)) with sock.
  change (req_set RConn _ p4) with (created u sock p).
  by rewrite (bind_Ret _ _ _ _ _ (submit_eq RConn _ (created u sock p) eq_refl Hwf)).
Qed.

Lemma quic_init_ok p :
  exists c u, verifier_quic_init p = Ret (0, upd_p_quic (set_conn (set_qworld (p_quic p) u) c) p).
Proof.
  unfold verifier_quic_init.
  destruct (world_op_val (RAND_bytes NGTCP2_MIN_INITIAL_DCIDLEN) p 1) as (p1 & H1 & W1); [apply up_rand|].
  rewrite (bind_Ret _ _ _ _ _ H1). cbn [negb Z.eqb Pos.eqb].
  destruct (world_op_val (RAND_bytes 8) p1 1) as (p2 & H2 & W2); [apply up_rand|].
  rewrite (bind_Ret _ _ _ _ _ H2). cbn [negb Z.eqb Pos.eqb].
  assert (H3 : exists t p3, in_quic timestamp p2 = Ret (t, p3) /\ world_only p2 p3).
  { unfold in_quic, timestamp. pose proof (up_clock (q_world (p_quic p2))) as [[sec nsec] Hc].
    destruct (clock_gettime _) as [o w]. cbn in Hc. subst o. eexists _, _. split; [done|]. by exists w. }
  destruct H3 as (t & p3 & H3 & W3). rewrite (bind_Ret _ _ _ _ _ H3).
  rewrite bind_gets. set (a := quic_args _ _).
  destruct (world_op_ok (ngtcp2_conn_client_new a) p3) as (p4 & H4 & W4).
  pose proof (up_client a (q_world (p_quic p3))) as Hz. destruct (fst (ngtcp2_conn_client_new _ _)) as [rv c].
  cbn in Hz. subst rv. rewrite (bind_Ret _ _ _ _ _ H4). cbn [negb Z.eqb]. rewrite bind_modify.
  destruct (world_only_trans _ _ _ (world_only_trans _ _ _ (world_only_trans _ _ _ W1 W2) W3) W4) as [u ->].
  by exists c, u.
Qed.

(** The thread once connected, with the read submitted, before the flush. *)
Definition connected (u : W) (c : C) p : processor H C W F :=
  let p1 := upd_p_quic (set_conn (set_qworld (p_quic p) u) c) p in
  let p2 := upd_p_verifier (upd_v_conn_ref true (p_verifier p1)) p1 in
  req_set RRecv (recv_req_of (v_recv_req (p_verifier p)) (q_sock (p_quic p))) p2.

Lemma on_socket_connect_ok p :
  data (v_conn_req (p_verifier p)) = Some PVerifier -> 0 <= result (v_conn_req (p_verifier p)) ->
  sq_wf (p_loop p) ->
  exists u c, on_socket_connect vfuel RConn p =
    verifier_flush_egress vfuel
      (submitted RRecv (recv_req_of (v_recv_req (p_verifier p)) (q_sock (p_quic p))) (connected u c p)).
Proof.
  intros Hd Hr Hwf. unfold on_socket_connect.
  rewrite (bind_Ret (req_get RConn) _ p (v_conn_req (p_verifier p)) p eq_refl).
  rewrite (proj2 (Z.ltb_ge _ _) Hr), Hd. destruct (quic_init_ok p) as (c & u & Hq).
  rewrite (bind_Ret _ _ _ _ _ Hq). cbn [negb Z.eqb]. rewrite bind_modify.
  set (p2 := upd_p_verifier _ _). exists u, c.
  rewrite (bind_Ret (req_get RRecv) _ p2 (v_recv_req (p_verifier p)) p2 eq_refl), bind_gets.
  change (q_sock (p_quic p2)) with (q_sock (p_quic p)).
  unfold req_put. rewrite bind_modify.
  change (req_set RRecv _ p2) with (connected u c p).
  by rewrite (bind_Ret _ _ _ _ _ (submit_eq RRecv _ (connected u c p) eq_refl Hwf)).
Qed.

(** A submission with room for [n] more. *)
Lemma submitted_room r q p n :
  sq_wf (p_loop p) -> sq_len (p_loop p) + 1 + n <= sq_size (p_loop p) -> 0 <= n ->
  let p' := submitted r q p in
  sq_wf (p_loop p') /\ sq_len (p_loop p') + n <= sq_size (p_loop p') /\
  sq_pending (p_loop p') = sq_pending (p_loop p) ++ [sqe_of_req r q].
Proof.
  intros Hwf Hr Hn p'. pose proof (submitted_pending r q p Hwf ltac:(lia)) as Hp. fold p' in Hp.
  split; [by apply submitted_wf|]. split; [|done].
  assert (Hs : sq_size (p_loop p') = sq_size (p_loop p)) by (unfold p', submitted; by destruct (_ <? _)).
  rewrite Hs, <- length_sq_pending, Hp, length_app. pose proof (length_sq_pending (p_loop p)). simpl. lia.
Qed.

(** The three steps, with what the next one needs. *)
Lemma init_step n p :
  e_remote_addr (p_shared p) = None \/ e_remote_addr (p_shared p) = Some SIZEOF_SOCKADDR_IN ->
  sq_wf (p_loop p) -> sq_len (p_loop p) + 1 + n <= sq_size (p_loop p) -> 0 <= n ->
  exists p', verifier_init p = Ret (0, p') /\
    sq_wf (p_loop p') /\ sq_len (p_loop p') + n <= sq_size (p_loop p') /\
    sq_pending (p_loop p') = sq_pending (p_loop p) ++
      [Sqe IORING_OP_SOCKET 0 AF_INET (WInt SOCK_DGRAM) (WInt 0) IPPROTO_UDP 0 (WPtr (PReq RConn))] /\
    e_remote_addr (p_shared p') = Some SIZEOF_SOCKADDR_IN /\
    data (v_conn_req (p_verifier p')) = Some PVerifier /\
    callback (v_conn_req (p_verifier p')) = Some on_socket_create_cb /\
    Forall (fun st => stream_id st = -1) (q_slots (p_quic p')) /\
    opcode (v_timer_req (p_verifier p')) = 0.
Proof.
  intros Hr Hwf Hroom Hn. destruct (verifier_init_ok p Hr Hwf) as [u H1]. eexists. split; [exact H1|].
  destruct (submitted_room RConn (socket_req_of ev_io_req_zero) (initialised u p) n Hwf Hroom Hn)
    as (H2 & H3 & H4).
  pose proof (submitted_frame RConn (socket_req_of ev_io_req_zero) (initialised u p))
    as (_ & Es & _ & _ & _ & _ & _ & v & Ev).
  split; [exact H2|]. split; [exact H3|]. split; [exact H4|]. rewrite Es. unfold p_quic. rewrite Ev.
  split; [done|]. split; [done|]. split; [done|]. split; [|done]. cbn.
  apply Forall_fmap, Forall_true. done.
Qed.

Lemma create_step n sock fl p :
  callback (v_conn_req (p_verifier p)) = Some on_socket_create_cb ->
  data (v_conn_req (p_verifier p)) = Some PVerifier ->
  e_remote_addr (p_shared p) = Some SIZEOF_SOCKADDR_IN -> 0 <= sock ->
  sq_wf (p_loop p) -> sq_len (p_loop p) + 1 + n <= sq_size (p_loop p) -> 0 <= n ->
  exists p', complete vfuel (Cqe (WPtr (PReq RConn)) sock fl) p = Ret (tt, p') /\
    sq_wf (p_loop p') /\ sq_len (p_loop p') + n <= sq_size (p_loop p') /\
    sq_pending (p_loop p') = sq_pending (p_loop p) ++
      [Sqe IORING_OP_CONNECT 0 sock (WInt SIZEOF_SOCKADDR_IN) (WPtr PRemoteAddr) 0 0 (WPtr (PReq RConn))] /\
    data (v_conn_req (p_verifier p')) = Some PVerifier /\
    callback (v_conn_req (p_verifier p')) = Some on_socket_connect_cb /\ q_sock (p_quic p') = sock.
Proof.
  intros Hcb Hd Ha Hsock Hwf Hroom Hn. rewrite (complete_conn _ _ _ _ Hcb).
  set (c := conn_result sock fl p).
  pose proof (on_socket_create_eq c Hd Ha Hwf) as H1. cbv zeta in H1.
  change (result (v_conn_req (p_verifier c))) with sock in H1.
  pose proof (up_sockname sock (q_world (p_quic c))) as Hg. destruct (getsockname sock _) as [e u].
  cbn in Hg. subst e. rewrite (proj2 (Z.ltb_ge _ _) Hsock) in H1. eexists. split; [exact H1|].
  set (r := connect_req_of _ _ _).
  destruct (submitted_room RConn r (created u sock c) n Hwf Hroom Hn) as (H2 & H3 & H4).
  pose proof (submitted_frame RConn r (created u sock c)) as (_ & _ & _ & _ & _ & _ & _ & v & Ev).
  split; [exact H2|]. split; [exact H3|]. split; [exact H4|]. unfold p_quic. by rewrite Ev.
Qed.

Lemma connect_step fl p :
  callback (v_conn_req (p_verifier p)) = Some on_socket_connect_cb ->
  data (v_conn_req (p_verifier p)) = Some PVerifier ->
  sq_wf (p_loop p) -> sq_len (p_loop p) + 1 <= sq_size (p_loop p) ->
  exists p', complete vfuel (Cqe (WPtr (PReq RConn)) 0 fl) p = verifier_flush_egress vfuel p' /\
    sq_pending (p_loop p') = sq_pending (p_loop p) ++
      [Sqe IORING_OP_READ 0 (q_sock (p_quic p)) (WInt 0) (WPtr PReadbuf) READBUF_SIZE 0 (WPtr (PReq RRecv))] /\
    is_Some (q_conn (p_quic p')) /\ q_sock (p_quic p') = q_sock (p_quic p) /\
    callback (v_recv_req (p_verifier p')) = Some on_socket_read_cb.
Proof.
  intros Hcb Hd Hwf Hroom. rewrite (complete_conn _ _ _ _ Hcb). set (c := conn_result 0 fl p).
  destruct (on_socket_connect_ok c) as (u & cn & H1); [exact Hd|done|exact Hwf|].
  eexists. split; [exact H1|]. set (r := recv_req_of _ _).
  destruct (submitted_room RRecv r (connected u cn c) 0 Hwf ltac:(cbn; lia) ltac:(lia)) as (_ & _ & H4).
  pose proof (submitted_frame RRecv r (connected u cn c)) as (_ & _ & _ & _ & _ & _ & _ & v & Ev).
  split; [exact H4|]. unfold p_quic. rewrite Ev. split; [by eexists|done].
Qed.

(** C24. The connection sequence, when the network calls succeed: from any
    thread with room for three submissions, [verifier_init] asks for a UDP
    socket with all stream slots idle and the timer not armed; the completion
    with a descriptor connects that descriptor; and the completion of the
    connect creates the QUIC connection, submits the read of the same
    descriptor into the receive buffer and flushes. The three requests are
    submitted in this order behind what the ring held. *)
Theorem thread_connects sock fl1 fl2 p :
  e_remote_addr (p_shared p) = None \/ e_remote_addr (p_shared p) = Some SIZEOF_SOCKADDR_IN ->
  sq_wf (p_loop p) -> sq_len (p_loop p) + 3 <= sq_size (p_loop p) -> 0 <= sock ->
  exists p1 p2 p3,
    verifier_init p = Ret (0, p1) /\
    Forall (fun st => stream_id st = -1) (q_slots (p_quic p1)) /\
    opcode (v_timer_req (p_verifier p1)) = 0 /\
    complete vfuel (Cqe (WPtr (PReq RConn)) sock fl1) p1 = Ret (tt, p2) /\
    complete vfuel (Cqe (WPtr (PReq RConn)) 0 fl2) p2 = verifier_flush_egress vfuel p3 /\
    is_Some (q_conn (p_quic p3)) /\ q_sock (p_quic p3) = sock /\
    callback (v_recv_req (p_verifier p3)) = Some on_socket_read_cb /\
    sq_pending (p_loop p3) = sq_pending (p_loop p) ++
      [Sqe IORING_OP_SOCKET 0 AF_INET (WInt SOCK_DGRAM) (WInt 0) IPPROTO_UDP 0 (WPtr (PReq RConn));
       Sqe IORING_OP_CONNECT 0 sock (WInt SIZEOF_SOCKADDR_IN) (WPtr PRemoteAddr) 0 0 (WPtr (PReq RConn));
       Sqe IORING_OP_READ 0 sock (WInt 0) (WPtr PReadbuf) READBUF_SIZE 0 (WPtr (PReq RRecv))].
Proof.
  intros Hr Hwf Hroom Hsock.
  destruct (init_step 2 p Hr Hwf) as (p1 & H1 & W1 & R1 & P1 & A1 & D1 & C1 & S1 & T1); [lia..|].
  destruct (create_step 1 sock fl1 p1 C1 D1 A1 Hsock W1) as (p2 & H2 & W2 & R2 & P2 & D2 & C2 & S2); [lia..|].
  destruct (connect_step fl2 p2 C2 D2 W2 R2) as (p3 & H3 & P3 & Q3 & S3 & C3).
  exists p1, p2, p3. rewrite P3, P2, P1, S2, <- !app_assoc. split_and!; try done. congruence.
Qed.
End connect.

(** ** Witness *)

#[local] Instance toy_net_up : NetUp toy_conn nat.
Proof. split; done. Qed.

(** The thread with an empty submission ring of four entries. *)
Definition toy_fresh : processor (list Z) toy_conn nat N :=
  let p := toy_thread 0 in
  upd_p_loop (EvLoop (IouRing (2 ^ 32 - 2) (2 ^ 32 - 2) 3 0) (iou_cqe (p_loop p))
    [sqe_zero; sqe_zero; sqe_zero; sqe_zero] (cqes (p_loop p)) 3) p.

Lemma thread_connects_witness :
  exists p1 p2 p3,
    verifier_init toy_fresh = Ret (0, p1) /\
    complete 20 (Cqe (WPtr (PReq RConn)) 9 0) p1 = Ret (tt, p2) /\
    complete 20 (Cqe (WPtr (PReq RConn)) 0 0) p2 = verifier_flush_egress 20 p3 /\
    q_sock (p_quic p3) = 9.
Proof.
  destruct (thread_connects 20 9 0 0 toy_fresh) as (p1 & p2 & p3 & H1 & _ & _ & H2 & H3 & _ & H4 & _).
  - left. reflexivity.
  - split; [exists 2; split; [lia|reflexivity]|]. repeat split; vm_compute; congruence.
  - vm_compute. congruence.
  - lia.
  - exists p1, p2, p3. split; [exact H1|]. split; [exact H2|]. split; [exact H3|exact H4].
Defined.
