(* ===== verification/Fuel.v ===== *)
(** * Every completion is handled to its end

    The loops of the QUIC flush are the only ones a callback runs. With the
    documented behaviour of ngtcp2 and of the socket each of them ends, so from
    every state there is an amount of fuel that suffices for a callback. *)

From stdpp Require Import base numbers list list_numbers strings gmap.
From S2P Require Import Prelude CStr Queue Ev Hasher Slab Quic State Verifier Processor.
From S2P Require Import Thread Pipeline.

Open Scope Z_scope.

(** ** Steps without loops *)

Lemma get_req_total {H} : total (processor_get_req (H := H)).
Proof. intros s. unfold processor_get_req. by repeat case_match. Qed.

Lemma free_req_total {H} q : total (processor_free_req (H := H) q).
Proof. intros s. unfold processor_free_req. by repeat case_match. Qed.

Lemma hasher_update_total {H} `{!Blake3 H} n buf : total (hasher_update (H := H) n buf).
Proof. intros s. unfold hasher_update. by case_match. Qed.

Lemma hasher_finalize_total {H} `{!Blake3 H} n : total (hasher_finalize (H := H) n).
Proof. by intros s. Qed.

#[export] Hint Resolve hasher_finalize_total get_req_total free_req_total hasher_update_total : total.

Section steps.
Context {H C W F : Type} `{!Blake3 H, !IoUring W, !Ngtcp2 C, !Host W, !Net C W, !Malloc W, !Eventfd F}.
Local Abbreviation P := (processor H C W F).

Lemma in_slab_total {A} (m : M (slab H) A) : total m -> total (in_slab m : M P A).
Proof. intros Hm p. unfold in_slab. specialize (Hm (p_slab p)). by destruct (m (p_slab p)) as [[]| | | |]. Qed.

Lemma in_quic_total {A} (m : M (quic C W) A) : total m -> total (in_quic m : M P A).
Proof. intros Hm p. unfold in_quic. specialize (Hm (p_quic p)). by destruct (m (p_quic p)) as [[]| | | |]. Qed.

Lemma in_quic_ends {A} (m : nat -> M (quic C W) A) : ends m -> ends (fun fuel => in_quic (m fuel) : M P A).
Proof.
  intros Hm p. destruct (Hm (p_quic p)) as [n Hn]. exists n. intros fuel Hl. specialize (Hn fuel Hl).
  unfold in_quic. by destruct (m fuel (p_quic p)) as [[]| | | |].
Qed.

Lemma in_hasher_total {A} i (m : M (hasher H) A) : total m -> total (in_hasher i m : M P A).
Proof.
  intros Hm p. unfold in_hasher, iou_get, iou_put, mbind, M_bind. destruct (_ !! i) as [w|]; [|done].
  specialize (Hm (pr_hasher w)). by destruct (m (pr_hasher w)) as [[]| | | |].
Qed.

Lemma req_get_total r : total (req_get r : M P ev_io_req).
Proof. intros p. unfold req_get. by case_match. Qed.

Lemma iou_get_total i : total (iou_get i : M P (processor_iou_req H)).
Proof. intros p. unfold iou_get. by case_match. Qed.

Lemma free_str_total a : total (free_str a : M P unit).
Proof. intros p. unfold free_str. by repeat case_match. Qed.

Lemma read_str_total a : total (read_str a : M P (list Z)).
Proof. intros p. unfold read_str. by repeat case_match. Qed.

Lemma submit_total r : total (submit r : M P Z).
Proof.
  apply total_bind; [apply req_get_total|]. intros q p. unfold in_loop, ev_iou_req, ev__iou_submit.
  by repeat case_match; simplify_eq.
Qed.

Lemma container_total q : total (container q : M P nat).
Proof. unfold container. total_tac. Qed.

Lemma world_op_total {A} (f : W -> A * W) : total (world_op f : M P A).
Proof. intros p. unfold world_op. by case_match. Qed.

Lemma strdup_total buf : total (strdup buf : M P (option nat)).
Proof. intros p. unfold strdup. by repeat case_match. Qed.

Lemma consume_total ev : total (consume ev : M P (Z * event)).
Proof.
  intros p. unfold consume, queue_consume_try. repeat case_match; by simplify_eq.
Qed.
End steps.

#[export] Hint Resolve in_slab_total in_quic_total in_hasher_total req_get_total iou_get_total free_str_total
  read_str_total submit_total container_total world_op_total strdup_total consume_total : total.

(** ** The callbacks *)

Section callbacks.
Context {H C W F : Type} `{!Blake3 H, !IoUring W, !Ngtcp2 C, !Host W, !Net C W, !Malloc W, !Eventfd F}.
Local Abbreviation P := (processor H C W F).

Lemma of_option_total {S A} u (o : option A) : total (of_option u o : M S A).
Proof. by destruct o. Qed.

Lemma timestamp_total : total (timestamp : M (quic C W) Z).
Proof. intros q. unfold timestamp. by repeat case_match. Qed.

Lemma get_conn_total : total (get_conn : M (quic C W) C).
Proof. intros q. unfold get_conn. by case_match. Qed.

Lemma read_total buf : total (verifier_quic_read buf : M (quic C W) Z).
Proof.
  unfold verifier_quic_read. apply total_bind; [apply timestamp_total|intros ts].
  apply total_bind; [apply get_conn_total|intros c]. total_tac.
Qed.

Lemma handle_expiry_total : total (verifier_quic_handle_expiry : M (quic C W) Z).
Proof.
  unfold verifier_quic_handle_expiry. apply total_bind; [apply timestamp_total|intros ts].
  apply total_bind; [apply get_conn_total|intros c]. total_tac.
Qed.

Lemma quic_init_total : total (verifier_quic_init : M P Z).
Proof.
  unfold verifier_quic_init. total_tac. all: apply in_quic_total, timestamp_total.
Qed.

Lemma open_event_total ev : total (open_event ev : M P unit).
Proof. unfold open_event, iou_put. total_tac. Qed.

Lemma on_queue_event_total r : total (on_queue_event r : M P unit).
Proof. unfold on_queue_event, processor_submit_poll_reqs. total_tac. all: apply open_event_total. Qed.

Lemma on_file_open_total r : total (on_file_open r : M P unit).
Proof. unfold on_file_open, iou_put, req_put, hasher_init. total_tac. all: apply in_hasher_total; total_tac. Qed.

Lemma on_socket_create_total r : total (on_socket_create r : M P unit).
Proof. unfold on_socket_create, req_put. total_tac. Qed.

Lemma on_socket_timeout_total r : total (on_socket_timeout r : M P unit).
Proof. unfold on_socket_timeout. total_tac. all: apply in_quic_total, handle_expiry_total. Qed.

Lemma on_socket_timeout_update_total r : total (on_socket_timeout_update r : M P unit).
Proof. unfold on_socket_timeout_update. total_tac. Qed.

Lemma release_file_total r i : total (release_file r i : M P unit).
Proof. unfold release_file, iou_put, emit. total_tac. Qed.

Lemma update_hash_total i n a : total (update_hash i n a : M P unit).
Proof. unfold update_hash. total_tac. all: apply of_option_total. Qed.

Lemma print_hash_total w hash : total (processor_print_hash w hash : M P unit).
Proof. unfold processor_print_hash, emit. total_tac. all: apply of_option_total. Qed.
End callbacks.

#[export] Hint Resolve quic_init_total open_event_total on_queue_event_total on_file_open_total
  on_socket_create_total on_socket_timeout_total on_socket_timeout_update_total release_file_total update_hash_total print_hash_total
  read_total handle_expiry_total : total.

Section fuel.
Context {H C W F : Type} `{!Blake3 H, !IoUring W, !Ngtcp2 C, !Host W, !Net C W, !Malloc W, !Eventfd F}.
Context `{!Ngtcp2Laws C, !HostLaws W}.
Local Abbreviation P := (processor H C W F).

Lemma flush_egress_ends : ends (fun fuel => verifier_flush_egress fuel : M P unit).
Proof.
  unfold verifier_flush_egress, req_put. apply ends_before.
  - apply in_quic_ends. intros q. exists (fuel_for q). intros fuel Hf. by apply quic_flush_fuel.
  - intros t. cbv zeta. total_tac.
Qed.

Lemma on_socket_read_ends r : ends (fun fuel => on_socket_read fuel r : M P unit).
Proof. unfold on_socket_read. ends_tac. all: apply flush_egress_ends. Qed.

Lemma on_socket_connect_ends r : ends (fun fuel => on_socket_connect fuel r : M P unit).
Proof. unfold on_socket_connect, req_put. ends_tac. all: apply flush_egress_ends. Qed.

Lemma on_file_read_ends r : ends (fun fuel => on_file_read fuel r : M P unit).
Proof.
  unfold on_file_read, req_put. ends_tac. apply ends_before; [|total_tac].
  apply in_quic_ends. intros q. apply verify_hash_ends.
Qed.

(** From every state, the callback of a completion ends. *)
Lemma complete_ends cqe : ends (fun fuel => complete fuel cqe : M P unit).
Proof.
  unfold complete, ev_complete, run_callback. destruct (cqe_user_data cqe) as [|[]]; ends_tac.
  - apply on_file_read_ends.
  - apply on_socket_connect_ends.
  - apply on_socket_read_ends.
Qed.
End fuel.
