(* ===== verification/ThreadInv.v ===== *)
(** * The invariant of a thread with many requests in flight

    What holds of a thread and of the submissions the kernel has of it, from
    its start on, and the steps that keep it. The QUIC client enters through
    the interface of [Transport]. *)

From stdpp Require Import base numbers list list_numbers gmap.
From S2P Require Import Prelude CStr Queue Ev Hasher Slab Quic Transport State Verifier Ride Processor.
From S2P Require Import Examples Thread Pipeline.

Open Scope Z_scope.

(** The length that comes with a path: its own, or a negative one when the hook
    could not look the path up. *)
Definition length_for (s : list Z) (n : Z) : Prop := n = Z.of_nat (length s) \/ - 2 ^ 31 <= n < 0.

(** What an event from the hook looks like: a terminated path [s] of the kind
    [G], and a length. *)
Definition event_ok (G : list Z -> Prop) (ev : event) : Prop :=
  exists s, c_string (path ev) = Some s /\ G s /\ (length s < 128)%nat /\ length_for s (path_len ev).

Definition any_path (s : list Z) : Prop := True.

Lemma event_ok_impl (G G' : list Z -> Prop) ev : (forall s, G s -> G' s) -> event_ok G ev -> event_ok G' ev.
Proof. intros HG (s & H1 & H2 & H3). exists s. auto. Qed.

(** What is claimed of the paths that are handled, and of the files being read:
    [cl_path s] of every path [s] in the queue or in a container, where the
    empty path can always turn up; [cl_bytes i s f b] of container [i], its path
    [s], its descriptor [f] and the bytes [b] hashed so far; [cl_holds i f] says
    that container [i] is reading descriptor [f]; [cl_report s h] of the path
    and the hash of every report. *)
Record claims : Type := Claims {
  cl_path : list Z -> Prop;
  cl_report : list Z -> list Z -> Prop;
  cl_bytes : nat -> list Z -> Z -> list Z -> Prop;
  cl_holds : nat -> Z -> Prop;
  cl_path_nil : cl_path [];
}.

(** Nothing is claimed. *)
Definition no_claims : claims := Claims any_path (fun _ _ => True) (fun _ _ _ _ => True) (fun _ _ => False) I.

Definition claimless (D : claims) : Prop :=
  (forall i s f b, cl_bytes D i s f b) /\ (forall i f, ~ cl_holds D i f) /\ (forall s, cl_path D s) /\
  (forall s h, cl_report D s h).

Lemma no_claims_claimless : claimless no_claims.
Proof. split; [done|]. split; [by intros i f []|done]. Qed.

(** ** What is printed, and what is sent *)

(** A report: the thread, its container, the path and the hash; the line that
    is printed for it, and the record that is sent to the verifier. *)
Record report : Type := Report { rp_thread : Z; rp_container : Z; rp_path : list Z; rp_hash : list Z }.
Definition line_of (r : report) : list Z := hash_line (rp_thread r) (rp_container r) (rp_path r) (rp_hash r).
Definition record_of (r : report) : list Z := rp_hash r ++ rp_path r.

(** The lines of an output. *)
Definition lines (out : list effect) : list (list Z) :=
  omap (fun x => match x with EWrite line => Some line | EClose _ => None end) out.

(** Lines and records are those of the same reports of thread [id], in order, of
    which [R] holds. *)
Definition mirrors (R : list Z -> list Z -> Prop) (id : Z) (recs : list (list Z)) (out : list effect) : Prop :=
  exists l, lines out = line_of <$> l /\ recs = record_of <$> l /\
    Forall (fun r => rp_thread r = id /\ R (rp_path r) (rp_hash r)) l.

Lemma mirrors_nil R id : mirrors R id [] [].
Proof. by exists []. Qed.

Lemma mirrors_close R id recs out f : mirrors R id recs out -> mirrors R id recs (out ++ [EClose f]).
Proof.
  intros (l & H1 & H2 & H3). exists l. split; [|done]. unfold lines in *. by rewrite omap_app, H1, app_nil_r.
Qed.

Lemma mirrors_report R id recs out r :
  mirrors R id recs out -> rp_thread r = id -> R (rp_path r) (rp_hash r) ->
  mirrors R id (recs ++ [record_of r]) (out ++ [EWrite (line_of r)]).
Proof.
  intros (l & H1 & H2 & H3) Hid HR. exists (l ++ [r]). unfold lines in *. rewrite omap_app, H1, H2, !fmap_app.
  split; [done|]. split; [done|]. apply Forall_app. by split; [|apply Forall_singleton].
Qed.

Section invariant.
Context {H C W F : Type} `{!Blake3 H, !Blake3Laws H, !IoUring W, !Ngtcp2 C, !Host W, !Net C W, !Malloc W}.
Context `{!Eventfd F, !EventfdSem F}.
Context {TI : quic C W -> list (list Z) -> Prop} {Ready : quic C W -> Prop} `{!Transport TI Ready}.
Context {D : claims}.
Local Abbreviation P := (processor H C W F).
Implicit Types (p : processor H C W F) (w : processor_iou_req H) (K : list io_uring_sqe).

(** ** The invariant *)

(** The container of a submission, if it is one of the slab. *)
Definition slot_of (e : io_uring_sqe) : option nat :=
  match sqe_user_data e with WPtr (PReq (RSlot i)) => Some i | _ => None end.

(** What a container in flight is used for: a file being opened or read, whose
    path it owns, or an update of the timer. *)
Definition file_slot (e : shared F) (i : nat) (w : processor_iou_req H) (a : nat) (s : list Z) : Prop :=
  pr_data w = Some a /\ e_heap e !! a = Some (s ++ [0]) /\ (no_nul s /\ cl_path D s) /\ (length s < 128)%nat /\
  length_for s (pr_data2 w) /\
  (callback (pr_req w) = Some on_file_open_cb /\ opcode (pr_req w) = IORING_OP_OPENAT /\
   addr (pr_req w) = WPtr (PStr a) \/
   callback (pr_req w) = Some on_file_read_cb /\ opcode (pr_req w) = IORING_OP_READ /\
   len (pr_req w) = READ_BUF_SIZE /\ addr (pr_req w) = WPtr (PBuffer i) /\
   exists b, cl_bytes D i s (fd (pr_req w)) b /\ off (pr_req w) = WInt (u64 (Z.of_nat (length b))) /\
     pr_hasher w = Hasher (blake3_hasher_update blake3_hasher_init b)).

(** The container reads from descriptor [f]. *)
Definition reads_from (f : Z) (w : processor_iou_req H) : Prop :=
  opcode (pr_req w) = IORING_OP_READ /\ fd (pr_req w) = f.

Definition timer_slot (w : processor_iou_req H) : Prop :=
  pr_data w = None /\ callback (pr_req w) = Some on_socket_timeout_update_cb /\
  opcode (pr_req w) = IORING_OP_TIMEOUT_REMOVE.

(** How far the connection is: the socket is created, it is connected, the QUIC
    connection exists. *)
Inductive phase : Set := Creating | Connecting | Up.

(** The requests that can be with the kernel. *)
Definition allowed (ph : phase) (r : req_ptr) : Prop :=
  match ph, r with
  | Up, RConn | (Creating | Connecting), (RRecv | RTimer) => False
  | _, _ => True
  end.

(** Is it the connection request? *)
Definition conn_of (e : io_uring_sqe) : option unit :=
  match sqe_user_data e with WPtr (PReq RConn) => Some tt | _ => None end.

(** Before the connection: the completion of the connection request runs [cb]. *)
Definition unconnected (cb : callback_t) (p : P) : Prop :=
  q_conn (p_quic p) = None /\ idle_slots (p_quic p) /\
  e_remote_addr (p_shared p) = Some SIZEOF_SOCKADDR_IN /\
  data (v_conn_req (p_verifier p)) = Some PVerifier /\
  callback (v_conn_req (p_verifier p)) = Some cb /\
  opcode (v_timer_req (p_verifier p)) <> IORING_OP_TIMEOUT /\
  Z.of_nat (length (v_readbuf (p_verifier p))) = READBUF_SIZE.

(** Connected, with the read and the timer set up. *)
Definition connected_ok (p : P) : Prop :=
  (data (v_recv_req (p_verifier p)) = Some PVerifier /\
   callback (v_recv_req (p_verifier p)) = Some on_socket_read_cb /\
   opcode (v_recv_req (p_verifier p)) = IORING_OP_READ /\
   len (v_recv_req (p_verifier p)) = READBUF_SIZE /\
   Z.of_nat (length (v_readbuf (p_verifier p))) = READBUF_SIZE) /\
  data (v_timer_req (p_verifier p)) = Some PVerifier /\
  callback (v_timer_req (p_verifier p)) = Some on_socket_timeout_cb /\
  opcode (v_timer_req (p_verifier p)) = IORING_OP_TIMEOUT.

Definition conn_ok (ph : phase) (p : P) : Prop :=
  match ph with
  | Creating => unconnected on_socket_create_cb p
  | Connecting => unconnected on_socket_connect_cb p
  | Up => connected_ok p
  end.

(** The connection was given these records. *)
Definition carries (ph : phase) (q : quic C W) (recs : list (list Z)) : Prop :=
  match ph with Up => TI q recs | Creating | Connecting => recs = [] /\ q_accepted q = [] end.

(** What is printed is what the connection was given. *)
Definition sends (ph : phase) (p : P) : Prop :=
  exists recs, carries ph (p_quic p) recs /\ mirrors (cl_report D) (p_id p) recs (e_out (p_shared p)).

(** [K] is what the kernel has taken and not completed. *)
Record sys_ok (ph : phase) (free : list nat) (p : P) (K : list io_uring_sqe) : Prop := {
  so_thread : thread_ok free p;
  so_conn : conn_ok ph p;
  so_queue : queue_wf (e_queue (p_shared p)) /\ Forall (event_ok (cl_path D)) (contents (e_queue (p_shared p)));
  so_poll : data (p_queue_poll p) = Some PProcessor /\
            callback (p_queue_poll p) = Some on_queue_event_cb;
  (* every submission not completed is of a request in use, as it is now *)
  so_out : forall e, e ∈ (sq_pending (p_loop p) ++ K) -> exists r q,
    req_at r p = Some q /\ e = sqe_of_req r q /\ allowed ph r /\ (forall i, r = RSlot i -> i ∉ free);
  (* the connection request is submitted at most once *)
  so_single : (length (omap conn_of (sq_pending (p_loop p) ++ K)) <= 1)%nat;
  (* no container is submitted twice *)
  so_once : NoDup (omap slot_of (sq_pending (p_loop p) ++ K));
  so_used : forall i w, reqs (p_slab p) !! i = Some w -> i ∉ free ->
    (exists a s, file_slot (p_shared p) i w a s) \/ timer_slot w;
  so_free : forall i w, reqs (p_slab p) !! i = Some w -> i ∈ free -> pr_data w = None;
  (* descriptors are held by containers in use *)
  so_held : forall i f, cl_holds D i f -> (i ∉ free) /\
    exists w, reqs (p_slab p) !! i = Some w /\ reads_from f w;
  so_sent : sends ph p;
  (* every heap string belongs to exactly one container *)
  so_brk : forall a, is_Some (e_heap (p_shared p) !! a) -> (a < e_brk (p_shared p))%nat;
  so_owner : forall a, is_Some (e_heap (p_shared p) !! a) ->
    exists i w, reqs (p_slab p) !! i = Some w /\ pr_data w = Some a;
  so_unique : forall i j wi wj a, reqs (p_slab p) !! i = Some wi -> reqs (p_slab p) !! j = Some wj ->
    pr_data wi = Some a -> pr_data wj = Some a -> i = j;
}.

(** Container [i] is in flight, nothing of it is with the kernel, and it is not
    claimed to hold a descriptor. *)
Definition detached (ph : phase) (free : list nat) (i : nat) (w : processor_iou_req H) (p : P) K : Prop :=
  sys_ok ph free p K /\ reqs (p_slab p) !! i = Some w /\ (i ∉ free) /\
  (i ∉ (omap slot_of (sq_pending (p_loop p) ++ K))) /\ (forall f, ~ cl_holds D i f).

(** ** Steps that keep it *)

Lemma sys_drop ph free p K1 e K2 :
  sys_ok ph free p (K1 ++ e :: K2) ->
  sys_ok ph free p (K1 ++ K2) /\
  (forall i, slot_of e = Some i -> i ∉ (omap slot_of (sq_pending (p_loop p) ++ K1 ++ K2))) /\
  (conn_of e = Some tt -> omap conn_of (sq_pending (p_loop p) ++ K1 ++ K2) = []).
Proof.
  intros Hs. pose proof (so_once _ _ _ _ Hs) as Hnd. pose proof (so_single _ _ _ _ Hs) as Hc.
  assert (Hp : sq_pending (p_loop p) ++ K1 ++ e :: K2 ≡ₚ e :: sq_pending (p_loop p) ++ K1 ++ K2).
  { rewrite !app_assoc. symmetry. apply Permutation_middle. }
  rewrite Hp in Hnd, Hc. split; [|split].
  - destruct Hs; split; try done.
    + intros e' He'. apply so_out0. rewrite Hp. by right.
    + cbn in Hc. destruct (conn_of e); cbn in Hc; lia.
    + cbn in Hnd. destruct (slot_of e); [|done]. by apply NoDup_cons in Hnd as [_ ?].
  - intros i Hi. cbn in Hnd. rewrite Hi in Hnd. by apply NoDup_cons in Hnd as [? _].
  - intros He. cbn in Hc. rewrite He in Hc. cbn in Hc. apply nil_length_inv. lia.
Qed.

(** The kernel takes the oldest submission. *)
Lemma sys_take ph free p K e rest :
  sys_ok ph free p K -> sq_pending (p_loop p) = e :: rest ->
  sys_ok ph free (upd_p_loop (kernel_take (p_loop p)) p) (K ++ [e]).
Proof.
  intros Hs He. pose proof (so_thread _ _ _ _ Hs) as [Hsl Hsq Hb Hid].
  assert (Hlen : 0 < sq_len (p_loop p)).
  { rewrite <- length_sq_pending, He. simpl. lia. }
  destruct (kernel_take_pending _ Hsq Hlen) as (e' & He'). rewrite He in He'. injection He' as <- ->.
  set (p' := upd_p_loop _ p).
  assert (Hp : sq_pending (p_loop p') ++ K ++ [e] ≡ₚ sq_pending (p_loop p) ++ K).
  { rewrite He. cbn. rewrite app_assoc. symmetry. apply Permutation_cons_append. }
  destruct Hs; split; try done.
  - split; try done. by apply kernel_take_wf.
  - intros e' He'. rewrite Hp in He'. by apply so_out0.
  - by rewrite Hp.
  - by rewrite Hp.
Qed.

(** The connection state depends on little. *)
Definition alike (q q' : ev_io_req) : Prop :=
  data q' = data q /\ callback q' = callback q /\ opcode q' = opcode q /\ len q' = len q.

Lemma conn_ok_congr ph p p' u :
  p_quic p' = set_qworld (p_quic p) u -> e_remote_addr (p_shared p') = e_remote_addr (p_shared p) ->
  alike (v_conn_req (p_verifier p)) (v_conn_req (p_verifier p')) ->
  alike (v_recv_req (p_verifier p)) (v_recv_req (p_verifier p')) ->
  alike (v_timer_req (p_verifier p)) (v_timer_req (p_verifier p')) ->
  length (v_readbuf (p_verifier p')) = length (v_readbuf (p_verifier p)) ->
  conn_ok ph p -> conn_ok ph p'.
Proof.
  intros Eq Er (C1 & C2 & _ & _) (R1 & R2 & R3 & R4) (T1 & T2 & T3 & _) Eb.
  destruct ph; cbn; unfold unconnected, connected_ok;
    by rewrite ?Eq, ?Er, ?C1, ?C2, ?R1, ?R2, ?R3, ?R4, ?T1, ?T2, ?T3, ?Eb.
Qed.

Lemma sends_congr ph p p' u :
  p_quic p' = set_qworld (p_quic p) u -> p_id p' = p_id p -> e_out (p_shared p') = e_out (p_shared p) ->
  sends ph p -> sends ph p'.
Proof.
  intros Eq Ei Eo (recs & Hc & Hm). exists recs. rewrite Ei, Eo, Eq. split; [|done].
  destruct ph; [done..|]. by apply ti_world.
Qed.

Lemma quic_same p : p_quic p = set_qworld (p_quic p) (q_world (p_quic p)).
Proof. by destruct (p_quic p). Qed.
(** Changes of what the invariant does not depend on. *)
Lemma sys_congr ph free p p' K :
  sys_ok ph free p K ->
  p_loop p' = p_loop p -> p_slab p' = p_slab p -> p_queue_poll p' = p_queue_poll p ->
  v_conn_req (p_verifier p') = v_conn_req (p_verifier p) ->
  v_recv_req (p_verifier p') = v_recv_req (p_verifier p) ->
  v_timer_req (p_verifier p') = v_timer_req (p_verifier p) ->
  e_heap (p_shared p') = e_heap (p_shared p) -> e_brk (p_shared p') = e_brk (p_shared p) ->
  thread_ok free p' -> conn_ok ph p' ->
  queue_wf (e_queue (p_shared p')) /\ Forall (event_ok (cl_path D)) (contents (e_queue (p_shared p'))) ->
  sends ph p' -> sys_ok ph free p' K.
Proof.
  intros [] El Es Ep Ec Er Et Eh Ebr Ht Hti Hq Hsent.
  assert (Hat : forall r, req_at r p' = req_at r p) by (intros []; cbn; congruence).
  split; rewrite ?El, ?Es, ?Ep, ?Eh, ?Ebr; try done.
  - intros e He. setoid_rewrite Hat. by apply so_out0.
  - intros i w Hw Hi. destruct (so_used0 i w Hw Hi) as [(a & s & Hf)|Htm]; [left|by right].
    exists a, s. unfold file_slot in *. by rewrite Eh.
Qed.

Lemma sys_quic ph free p K (q : quic C W) :
  sys_ok ph free p K -> conn_ok ph (upd_p_quic q p) -> sends ph (upd_p_quic q p) ->
  sys_ok ph free (upd_p_quic q p) K.
Proof. intros Hs Hq Ha. eapply sys_congr; try done; [|apply Hs]. by destruct (so_thread _ _ _ _ Hs); split. Qed.

Lemma sys_world ph free p K u : sys_ok ph free p K -> sys_ok ph free (upd_p_quic (set_qworld (p_quic p) u) p) K.
Proof.
  intros Hs. apply sys_quic; [done|by eapply (conn_ok_congr ph p), Hs|by eapply (sends_congr ph p), Hs].
Qed.

(** The records of a connected thread. *)
Lemma sys_carries free p K :
  sys_ok Up free p K -> exists recs, TI (p_quic p) recs /\ mirrors (cl_report D) (p_id p) recs (e_out (p_shared p)).
Proof. intros Hs. apply Hs. Qed.

Lemma sys_transport free p K (q : quic C W) :
  sys_ok Up free p K -> (forall recs, TI (p_quic p) recs -> TI q recs) -> sys_ok Up free (upd_p_quic q p) K.
Proof.
  intros Hs Hq. destruct (sys_carries _ _ _ Hs) as (recs & Ht & Hm).
  apply sys_quic; [done|apply Hs|]. exists recs. split; [by apply Hq|done].
Qed.

Lemma sys_close ph free p K f : sys_ok ph free p K -> sys_ok ph free (emitted (EClose f) p) K.
Proof.
  intros Hs. eapply sys_congr; try done; [| |apply Hs|].
  - by destruct (so_thread _ _ _ _ Hs); split.
  - eapply (conn_ok_congr ph p); try done; [apply (quic_same p)|apply Hs].
  - destruct (so_sent _ _ _ _ Hs) as (recs & Hc & Hm). exists recs. split; [done|]. by apply mirrors_close.
Qed.

(** A line is printed and its record given to the connection. *)
Lemma sys_report free p K (q : quic C W) r recs :
  sys_ok Up free p K -> mirrors (cl_report D) (p_id p) recs (e_out (p_shared p)) -> TI q (recs ++ [record_of r]) ->
  rp_thread r = p_id p -> cl_report D (rp_path r) (rp_hash r) ->
  sys_ok Up free (upd_p_quic q (emitted (EWrite (line_of r)) p)) K.
Proof.
  intros Hs Hm Hq Hid HR. eapply sys_congr; try done; [|apply Hs|apply Hs|].
  - by destruct (so_thread _ _ _ _ Hs); split.
  - exists (recs ++ [record_of r]). split; [done|]. by apply mirrors_report.
Qed.

Lemma sys_queue ph free p K (q : queue) (f : F) :
  sys_ok ph free p K -> queue_wf q -> Forall (event_ok (cl_path D)) (contents q) ->
  sys_ok ph free (upd_p_shared (upd_e_queue q (upd_e_efd f (p_shared p))) p) K.
Proof.
  intros Hs Hq Hf. eapply sys_congr; try done.
  - by destruct (so_thread _ _ _ _ Hs); split.
  - eapply (conn_ok_congr ph p); try done; [apply (quic_same p)|apply Hs].
  - apply Hs.
Qed.

(** The thread with other contents of the memory the kernel writes. *)
Definition set_memory (bufs : list (list Z)) (rb : list Z) (p : P) : P :=
  upd_p_verifier (upd_v_readbuf rb (p_verifier p)) (upd_p_buffers bufs p).

Definition same_memory (bufs : list (list Z)) (rb : list Z) (p : P) : Prop :=
  Forall2 (fun b b' => length b = length b') (p_buffers p) bufs /\
  length rb = length (v_readbuf (p_verifier p)).

Lemma sys_memory ph free p K bufs rb :
  sys_ok ph free p K -> same_memory bufs rb p -> sys_ok ph free (set_memory bufs rb p) K.
Proof.
  intros Hs [Hb Hr]. eapply sys_congr; try done; [| |apply Hs|apply Hs].
  2: { eapply (conn_ok_congr ph p); try done; [apply (quic_same p)|apply Hs]. }
  destruct (so_thread _ _ _ _ Hs) as [H1 H2 H3 H4]. split; try done.
  intros j Hj. destruct (H3 j Hj) as (buf & Hbuf & Hl).
  destruct (Forall2_lookup_l _ _ _ _ _ Hb Hbuf) as (buf' & Hbuf' & Hl'). exists buf'.
  split; [done|]. by rewrite <- Hl'.
Qed.

(** Replacing a container in flight; what of it is with the kernel must not
    change. *)
Lemma sys_put ph free i w w' p K :
  sys_ok ph free p K -> reqs (p_slab p) !! i = Some w -> i ∉ free ->
  pr_buffer w' = pr_buffer w -> pr_id w' = pr_id w -> in_flight w' = in_flight w ->
  names_container i (pr_req w') -> pr_data w' = pr_data w ->
  (exists a s, file_slot (p_shared p) i w' a s) \/ timer_slot w' ->
  sqe_of_req (RSlot i) (pr_req w') = sqe_of_req (RSlot i) (pr_req w) \/
    i ∉ (omap slot_of (sq_pending (p_loop p) ++ K)) ->
  (forall f, cl_holds D i f -> reads_from f w -> reads_from f w') ->
  sys_ok ph free (put i w' p) K.
Proof.
  intros Hs Hw Hi E1 E2 E3 Hn Hd Hu Hsq Hrd. pose proof (lookup_lt_Some _ _ _ Hw) as Hlt.
  pose proof (put_thread_ok free i w w' p (so_thread _ _ _ _ Hs) Hi Hw E1 E2 E3 Hn) as Ht.
  assert (Hl : forall j wj, reqs (p_slab (put i w' p)) !! j = Some wj ->
    exists wj0, reqs (p_slab p) !! j = Some wj0 /\ pr_data wj = pr_data wj0 /\
      (j = i /\ wj = w' \/ j <> i /\ wj = wj0)).
  { intros j wj. cbn. destruct (decide (j = i)) as [->|Hne].
    - rewrite list_lookup_insert_eq by done. intros [= <-]. exists w. eauto.
    - rewrite list_lookup_insert_ne by done. intros Hj. exists wj. eauto. }
  destruct Hs; split; try done.
  - intros e He. destruct (so_out0 e He) as (r & q & Hr & Hq & Hc & Hf). exists r.
    destruct (decide (r = RSlot i)) as [->|Hne].
    + exists (pr_req w'). unfold req_at. rewrite put_lookup by done. split; [done|].
      cbn in Hr. rewrite Hw in Hr. injection Hr as <-. split; [|done].
      destruct Hsq as [-> | Hni]; [done|]. destruct Hni.
      apply list_elem_of_omap. exists e. split; [done|]. by rewrite Hq.
    + exists q. split; [|done]. destruct r; try done. cbn in Hr |- *.
      rewrite list_lookup_insert_ne by congruence. done.
  - intros j wj (wj0 & Hj & _ & [[-> ->]|[_ ->]])%Hl Hf; [done|by eapply so_used0].
  - intros j wj (wj0 & Hj & E & _)%Hl Hf. rewrite E. by eapply so_free0.
  - intros j f Hh. destruct (so_held0 j f Hh) as (Hf & wj & Hj & Hx). split; [done|].
    destruct (decide (j = i)) as [->|Hne].
    + exists w'. rewrite put_lookup by done. split; [done|]. apply Hrd; congruence.
    + exists wj. cbn. by rewrite list_lookup_insert_ne.
  - intros a (j & wj & Hj & E)%so_owner0. destruct (decide (j = i)) as [->|Hne].
    + exists i, w'. rewrite put_lookup by done. split; [done|]. congruence.
    + exists j, wj. cbn. by rewrite list_lookup_insert_ne.
  - intros j k wj wk a (wj0 & Hj & Ej & _)%Hl (wk0 & Hk & Ek & _)%Hl Hda Hdb.
    by apply (so_unique0 j k wj0 wk0 a); congruence.
Qed.

Lemma sys_frame_req ph free p p' K :
  sys_ok ph free p K -> p_loop p' = p_loop p -> p_slab p' = p_slab p -> p_shared p' = p_shared p ->
  p_quic p' = p_quic p -> p_id p' = p_id p -> thread_ok free p' ->
  v_readbuf (p_verifier p') = v_readbuf (p_verifier p) ->
  (forall r q, req_at r p = Some q -> exists q', req_at r p' = Some q' /\
     sqe_of_req r q' = sqe_of_req r q /\ alike q q') ->
  sys_ok ph free p' K.
Proof.
  intros [] El Es Eh Eq Ei Ht Hb Hr.
  destruct (Hr RQueuePoll _ eq_refl) as (qp & [= <-] & _ & P1 & P2 & _).
  destruct (Hr RConn _ eq_refl) as (qc & [= <-] & _ & Hc).
  destruct (Hr RRecv _ eq_refl) as (qr & [= <-] & _ & Hrr).
  destruct (Hr RTimer _ eq_refl) as (qt & [= <-] & _ & Htt).
  split; rewrite ?El, ?Es, ?Eh, ?P1, ?P2; try done.
  - eapply (conn_ok_congr ph p p' (q_world (p_quic p))); try done; [|by rewrite Eh|by rewrite Hb].
    rewrite Eq. apply quic_same.
  - intros e He. destruct (so_out0 e He) as (r & q & H1 & H2 & H3).
    destruct (Hr r q H1) as (q' & H1' & H2' & _). exists r, q'. split; [done|]. split; [congruence|done].
  - eapply (sends_congr ph p); [rewrite Eq; apply quic_same|done|by rewrite Eh|done].
Qed.

(** A completion's result is stored in a request that is not free. *)
Lemma sys_store ph free p K r res fl :
  sys_ok ph free p K -> (forall i, r = RSlot i -> i ∉ free) -> sys_ok ph free (store_result r res fl p) K.
Proof.
  intros Hs Hf. unfold store_result. destruct (req_at r p) as [q|] eqn:Hq; [|done].
  set (q' := EvIoReq _ _ _ _ _ _ _ _ _ _ _).
  destruct r as [|i| | |].
  2: { cbn in Hq. destruct (reqs (p_slab p) !! i) as [w|] eqn:Hw; [|done]. injection Hq as <-.
    rewrite (req_set_slot i w) by done. specialize (Hf i eq_refl).
    destruct (in_flight_entry free i w p (to_slab _ _ (so_thread _ _ _ _ Hs)) Hf Hw) as (Hn & _).
    apply (sys_put ph free i w); try done; [|by left].
    destruct (so_used _ _ _ _ Hs i w Hw Hf) as [(a & s & Hu)|Hu]; [left; by exists a, s|by right]. }
  all: injection Hq as <-; apply (sys_frame_req ph free p); try done; try apply Hs;
    try (by destruct (so_thread _ _ _ _ Hs); split); intros [] q0 Hq0;
    first [by exists q0 | injection Hq0 as <-; by exists q'].
Qed.
(** A request is submitted: one of the thread, or a container of which nothing
    is with the kernel. *)
Lemma sys_submit ph free p K r q :
  sys_ok ph free p K -> req_at r p = Some q -> allowed ph r ->
  (forall i, r = RSlot i -> (i ∉ free) /\ i ∉ (omap slot_of (sq_pending (p_loop p) ++ K))) ->
  (r = RConn -> omap conn_of (sq_pending (p_loop p) ++ K) = []) ->
  sys_ok ph free (submitted r q p) K.
Proof.
  intros Hs Hq Hc Hi Hone. pose proof (so_thread _ _ _ _ Hs) as Ht.
  destruct (Z.lt_ge_cases (sq_len (p_loop p)) (sq_size (p_loop p))) as [Hr|Hr].
  2: { unfold submitted. by rewrite (proj2 (Z.ltb_ge _ _)). }
  pose proof (submitted_frame r q p) as (E1 & E2 & E3 & E4 & E5 & _ & _ & u & Ev).
  pose proof (submitted_pending r q p (to_sq _ _ Ht) Hr) as Hp.
  assert (Hat : forall r0, req_at r0 (submitted r q p) = req_at r0 p).
  { intros []; cbn; rewrite ?E1, ?E5, ?Ev; done. }
  assert (Hperm : sq_pending (p_loop (submitted r q p)) ++ K ≡ₚ sqe_of_req r q :: sq_pending (p_loop p) ++ K).
  { rewrite Hp, <- app_assoc. symmetry. apply Permutation_middle. }
  pose proof (submitted_thread_ok free r q p Ht) as Ht'.
  destruct Hs; split; rewrite ?E1, ?E2, ?E5, ?Ev; try done.
  - eapply (conn_ok_congr ph p _ u); [unfold p_quic; by rewrite Ev|by rewrite E2|rewrite Ev; done..|done].
  - intros e He. rewrite Hperm in He. setoid_rewrite Hat.
    apply elem_of_cons in He as [->|He]; [|by apply so_out0].
    exists r, q. split_and!; try done. intros i Hri. by apply Hi.
  - rewrite Hperm. cbn. destruct r; try done. cbn. by rewrite Hone.
  - rewrite Hperm. cbn. destruct r; try done. cbn. apply NoDup_cons. split; [|done].
    by apply (Hi i).
  - eapply (sends_congr ph p _ u); [unfold p_quic; by rewrite Ev|done|by rewrite E2|done].
Qed.

(** The thread after container [i] with content [w] went back to the free
    list, and the string it owned to the heap. *)
Definition recycled (i : nat) (w : processor_iou_req H) (h : gmap nat (list Z)) (p : P) : P :=
  upd_p_slab {| reqs := <[i := release_entry (reqs_list (p_slab p)) w]> (reqs (p_slab p));
                reqs_list := Some i; nr_free_reqs := nr_free_reqs (p_slab p) + 1 |}
    (upd_p_shared (upd_e_heap h (p_shared p)) p).

Definition disown (w : processor_iou_req H) (h : gmap nat (list Z)) : gmap nat (list Z) :=
  match pr_data w with Some a => delete a h | None => h end.

Lemma lookup_disown w h a s :
  disown w h !! a = Some s <-> h !! a = Some s /\ pr_data w <> Some a.
Proof.
  unfold disown. destruct (pr_data w) as [b|].
  - rewrite lookup_delete_Some. split; intros [? ?]; split; congruence.
  - split; [done|by intros [? _]].
Qed.

Lemma recycled_lookup i w0 h p j wj :
  reqs (p_slab (recycled i w0 h p)) !! j = Some wj ->
  j = i /\ pr_data wj = None \/ j <> i /\ reqs (p_slab p) !! j = Some wj.
Proof.
  cbn. intros [(<- & <- & _)|[Hne Hj]]%list_lookup_insert_Some; [by left|by right].
Qed.

(** Submissions are of other requests than container [i], which is written. *)
Lemma out_other ph (free free' : list nat) i w p p' K :
  sys_ok ph free p K -> i ∉ (omap slot_of (sq_pending (p_loop p) ++ K)) ->
  p_loop p' = p_loop p -> p_queue_poll p' = p_queue_poll p -> p_verifier p' = p_verifier p ->
  reqs (p_slab p') = <[i := w]> (reqs (p_slab p)) -> (forall j, j <> i -> j ∉ free -> j ∉ free') ->
  forall e, e ∈ (sq_pending (p_loop p') ++ K) -> exists r q,
    req_at r p' = Some q /\ e = sqe_of_req r q /\ allowed ph r /\ (forall j, r = RSlot j -> j ∉ free').
Proof.
  intros Hs Ho El Eq Ev Er Hsub e He. rewrite El in He.
  destruct (so_out _ _ _ _ Hs e He) as (r & q & Hr & Hq & Hc & Hf). exists r, q.
  assert (Hne : r <> RSlot i).
  { intros ->. apply Ho, list_elem_of_omap. exists e. split; [done|]. by rewrite Hq. }
  split; [|split; [done|split; [done|]]].
  - destruct r as [|j| | |]; cbn in Hr |- *; rewrite ?Eq, ?Ev; try done.
    rewrite Er, list_lookup_insert_ne by congruence. done.
  - intros j ->. apply Hsub; [congruence|by apply Hf].
Qed.

Lemma recycled_thread_ok free i w w0 h p :
  thread_ok free p -> reqs (p_slab p) !! i = Some w -> i ∉ free ->
  pr_buffer w0 = pr_buffer w -> pr_id w0 = pr_id w -> in_flight w0 = in_flight w -> pr_req w0 = pr_req w ->
  thread_ok (i :: free) (recycled i w0 h p).
Proof.
  intros Ht Hw Hi E1 E2 E3 E4. pose proof (lookup_lt_Some _ _ _ Hw) as Hlt.
  destruct (in_flight_entry free i w p (to_slab _ _ Ht) Hi Hw) as ([Hn1 Hn2] & _).
  pose proof (put_thread_ok free i w w0 p Ht Hi Hw E1 E2 E3 ltac:(by rewrite E4)) as Ht0.
  destruct (free_req_spec _ free i w0 (to_slab _ _ Ht0)) as (s' & Hf & Hwf & _);
    [by apply put_lookup|done|].
  unfold processor_free_req in Hf. rewrite E4 in Hf.
  rewrite Hn1, Hn2, put_lookup in Hf by done. injection Hf as Hf. cbn in Hf.
  rewrite list_insert_insert_eq in Hf.
  split; [|apply Ht| |apply Ht]; cbn; [by rewrite Hf|].
  rewrite length_insert. apply Ht.
Qed.

Lemma sys_recycle ph free i w w0 p K :
  detached ph free i w p K -> pr_buffer w0 = pr_buffer w -> pr_id w0 = pr_id w ->
  in_flight w0 = in_flight w -> pr_req w0 = pr_req w ->
  sys_ok ph (i :: free) (recycled i w0 (disown w (e_heap (p_shared p))) p) K.
Proof.
  intros (Hs & Hw & Hi & Ho & Hnh) E1 E2 E3 E4. split; try apply Hs.
  - eapply recycled_thread_ok; try done. apply Hs.
  - eapply out_other; try done. intros j Hne Hj. by rewrite not_elem_of_cons.
  - intros j wj [[-> _]|[Hne Hj]]%recycled_lookup Hf; [by destruct Hf; left|].
    assert (Hfj : j ∉ free) by (intros ?; apply Hf; by right).
    destruct (so_used _ _ _ _ Hs j wj Hj Hfj) as [(a & s & Ha & Hh & Hx)|Hx]; [left|by right].
    exists a, s. split; [done|]. split; [|done]. cbn. apply lookup_disown. split; [done|].
    intros Hwa. apply Hne. eapply (so_unique _ _ _ _ Hs); done.
  - intros j wj [[-> ?]|[Hne Hj]]%recycled_lookup Hf; [done|]. apply elem_of_cons in Hf as [?|Hf]; [done|].
    by eapply (so_free _ _ _ _ Hs).
  - intros j f Hh. destruct (so_held _ _ _ _ Hs j f Hh) as (Hf & wj & Hj & Hx).
    assert (j <> i) by (intros ->; by destruct (Hnh f)).
    split; [by rewrite not_elem_of_cons|]. exists wj. cbn. by rewrite list_lookup_insert_ne.
  - intros a [s [Hs' _]%lookup_disown]. apply (so_brk _ _ _ _ Hs). by exists s.
  - intros a [s [Ha Hna]%lookup_disown].
    destruct (so_owner _ _ _ _ Hs a) as (j & wj & Hj & Hd); [by exists s|].
    exists j, wj. cbn. rewrite list_lookup_insert_ne; [done|]. intros ->. congruence.
  - intros j k wj wk a [[_ Hd]|[_ Hj]]%recycled_lookup [[_ Hd']|[_ Hk]]%recycled_lookup H1 H2; try congruence.
    by eapply (so_unique _ _ _ _ Hs).
Qed.
(** The thread after container [i], with content [w], was taken off the free
    list and became [w'], the shared state [e']. *)
Definition acquired (i : nat) (w w' : processor_iou_req H) (e' : shared F) (p : P) : P :=
  put i w' (upd_p_slab (taken i w (p_slab p)) (upd_p_shared e' p)).

Lemma acquired_thread_ok free i w w' e' p :
  thread_ok (i :: free) p -> reqs (p_slab p) !! i = Some w ->
  pr_buffer w' = pr_buffer w -> pr_id w' = pr_id w -> in_flight w' = 1 ->
  names_container i (pr_req w') ->
  thread_ok free (acquired i w w' e' p) /\ i ∉ free.
Proof.
  intros [Hs Hsq Hb Hid] Hw E1 E2 E3 Hn. pose proof (lookup_lt_Some _ _ _ Hw) as Hi.
  destruct (get_req_taken _ _ _ _ Hs Hw) as (Hg & Hwf & Hni). split; [|done].
  assert (Ht : thread_ok free (upd_p_slab (taken i w (p_slab p)) (upd_p_shared e' p))).
  { split; [done|done| |done]. intros j. cbn. rewrite length_insert. apply Hb. }
  apply (put_thread_ok free i (take_entry i w)); try done.
  cbn. by apply list_lookup_insert_eq.
Qed.

(** A string is put on the heap at the next address. *)
Definition with_string (s : list Z) (e : shared F) : shared F :=
  upd_e_brk (S (e_brk e)) (upd_e_heap (<[e_brk e := s]> (e_heap e)) e).

(** The container has no string, or a new one. *)
Definition given (w' : processor_iou_req H) (e e' : shared F) : Prop :=
  pr_data w' = None /\ e' = e \/ exists s, pr_data w' = Some (e_brk e) /\ e' = with_string s e.

Lemma acquired_lookup i w w' e' p j wj :
  reqs (p_slab (acquired i w w' e' p)) !! j = Some wj ->
  (j = i /\ wj = w') \/ (j <> i /\ reqs (p_slab p) !! j = Some wj).
Proof.
  cbn. rewrite list_insert_insert_eq.
  intros [(<- & <- & _)|[Hne Hj]]%list_lookup_insert_Some; [by left|by right].
Qed.

Lemma acquired_at i w w' e' p :
  (i < length (reqs (p_slab p)))%nat -> reqs (p_slab (acquired i w w' e' p)) !! i = Some w'.
Proof. intros Hlt. cbn. apply list_lookup_insert_eq. by rewrite length_insert. Qed.

Lemma free_not_out ph free i p K :
  sys_ok ph free p K -> i ∈ free -> i ∉ (omap slot_of (sq_pending (p_loop p) ++ K)).
Proof.
  intros Hs Hi (e & Hin & Hsl)%list_elem_of_omap.
  destruct (so_out _ _ _ _ Hs e Hin) as (r & q & _ & -> & _ & Hf). destruct r; try done.
  injection Hsl as ->. by apply (Hf i).
Qed.

(** Strings that containers own are below the next one. *)
Lemma data_below ph free p K j wj a :
  sys_ok ph free p K -> reqs (p_slab p) !! j = Some wj -> pr_data wj = Some a ->
  (a < e_brk (p_shared p))%nat.
Proof.
  intros Hs Hj Hd. destruct (decide (j ∈ free)) as [Hf|Hf].
  - by rewrite (so_free _ _ _ _ Hs j wj Hj Hf) in Hd.
  - destruct (so_used _ _ _ _ Hs j wj Hj Hf) as [(a' & s & Ha & Hh & _)|[Hx _]]; [|congruence].
    apply (so_brk _ _ _ _ Hs). exists (s ++ [0]). congruence.
Qed.

Lemma given_heap ph free p K w' e' a s :
  sys_ok ph free p K -> given w' (p_shared p) e' ->
  e_heap (p_shared p) !! a = Some s -> e_heap e' !! a = Some s.
Proof.
  intros Hs [[_ ->]|(s' & _ & ->)] Ha; [done|]. cbn. rewrite lookup_insert_ne; [done|]. intros <-.
  pose proof (so_brk _ _ _ _ Hs (e_brk (p_shared p)) ltac:(by exists s)). lia.
Qed.

Lemma given_cases w' e e' a :
  given w' e e' -> is_Some (e_heap e' !! a) -> is_Some (e_heap e !! a) \/ pr_data w' = Some a.
Proof.
  intros [[_ ->]|(s & Hd & ->)] Ha; [by left|]. cbn in Ha.
  destruct Ha as [x [[<- _]|[_ Ha]]%lookup_insert_Some]; [by right|left; by exists x].
Qed.

Lemma given_brk w' e e' :
  given w' e e' -> (forall a, is_Some (e_heap e !! a) -> (a < e_brk e)%nat) ->
  forall a, is_Some (e_heap e' !! a) -> (a < e_brk e')%nat.
Proof.
  intros [[_ ->]|(s & _ & ->)] He a; [apply He|]. cbn.
  intros [x [[<- _]|[_ Ha]]%lookup_insert_Some]; [lia|]. pose proof (He a ltac:(by exists x)). lia.
Qed.

Lemma given_fresh ph free p K w' e' j wj a :
  sys_ok ph free p K -> given w' (p_shared p) e' ->
  reqs (p_slab p) !! j = Some wj -> pr_data wj = Some a -> pr_data w' <> Some a.
Proof.
  intros Hs [[Hx _]|(s & Hx & _)] Hj Hd Hd'; [congruence|].
  pose proof (data_below _ _ _ _ j wj a Hs Hj Hd). assert (a = e_brk (p_shared p)) by congruence. lia.
Qed.

Lemma sys_acquire ph free i w w' e' p K :
  sys_ok ph (i :: free) p K -> reqs (p_slab p) !! i = Some w ->
  pr_buffer w' = pr_buffer w -> pr_id w' = pr_id w -> in_flight w' = 1 ->
  names_container i (pr_req w') -> given w' (p_shared p) e' ->
  (exists a s, file_slot e' i w' a s) \/ timer_slot w' ->
  detached ph free i w' (acquired i w w' e' p) K.
Proof.
  intros Hs Hw E1 E2 E3 Hn He Hu. pose proof (lookup_lt_Some _ _ _ Hw) as Hlt.
  destruct (acquired_thread_ok free i w w' e' p (so_thread _ _ _ _ Hs) Hw E1 E2 E3 Hn) as [Ht Hni].
  pose proof (free_not_out _ _ i _ _ Hs ltac:(by left)) as Ho.
  pose proof (acquired_at i w w' e' p Hlt) as Hi'.
  assert (Hnh : forall f, ~ cl_holds D i f).
  { intros f Hh. destruct (so_held _ _ _ _ Hs i f Hh) as [Hx _]. apply Hx. by left. }
  split; [|done].
  assert (Hq : e_queue e' = e_queue (p_shared p) /\ e_remote_addr e' = e_remote_addr (p_shared p) /\
    e_out e' = e_out (p_shared p)) by (destruct He as [[_ ->]|(s' & _ & ->)]; done).
  destruct Hq as (Hq & Hra & Hout). split; try apply Hs; try done.
  - eapply (conn_ok_congr ph p); try done; [apply (quic_same p)|apply Hs].
  - cbn. rewrite Hq. apply Hs.
  - eapply (out_other _ _ _ i w'); try done; [cbn; by rewrite list_insert_insert_eq|].
    intros j Hne Hj. by apply not_elem_of_cons in Hj as [_ ?].
  - intros j wj [[-> ->]|[Hne Hj]]%acquired_lookup Hf; [done|].
    destruct (so_used _ _ _ _ Hs j wj Hj) as [(a & s & Ha & Hh & Hx)|Hx];
      [by rewrite not_elem_of_cons| |by right].
    left. exists a, s. split; [done|]. split; [by eapply given_heap|done].
  - intros j wj [[-> ->]|[Hne Hj]]%acquired_lookup Hf; [done|]. eapply (so_free _ _ _ _ Hs); [done|by right].
  - intros j f Hh. destruct (so_held _ _ _ _ Hs j f Hh) as (Hf & wj & Hj & Hx).
    apply not_elem_of_cons in Hf as [Hne Hf]. split; [done|]. exists wj. cbn.
    by rewrite !list_lookup_insert_ne.
  - eapply (sends_congr ph p); [apply (quic_same p)|done|done|apply Hs].
  - apply (given_brk w' (p_shared p)); [done|apply Hs].
  - intros a Ha. destruct (given_cases w' (p_shared p) e' a He Ha) as [Ho'|Hd]; [|by exists i, w'].
    destruct (so_owner _ _ _ _ Hs a Ho') as (j & wj & Hj & Hd).
    exists j, wj. split; [|done]. cbn. rewrite !list_lookup_insert_ne; [done|intros ->..];
      rewrite (so_free _ _ _ _ Hs j wj Hj) in Hd; try done; by left.
  - intros j k wj wk a [[-> ->]|[_ Hj]]%acquired_lookup [[-> ->]|[_ Hk]]%acquired_lookup H1 H2; try done.
    + by destruct (given_fresh _ _ _ _ _ _ k wk a Hs He).
    + by destruct (given_fresh _ _ _ _ _ _ j wj a Hs He).
    + by eapply (so_unique _ _ _ _ Hs).
Qed.
End invariant.

(** The claims on files being read can be replaced by others that follow. *)
Lemma sys_weaken {H C W F : Type} `{!Blake3 H, !IoUring W, !Ngtcp2 C, !Host W, !Net C W, !Malloc W, !Eventfd F}
    {TI : quic C W -> list (list Z) -> Prop} (D D' : claims) ph free (p : processor H C W F) K :
  sys_ok (TI := TI) (D := D) ph free p K ->
  (forall i s f b, i ∉ free -> cl_bytes D i s f b -> cl_bytes D' i s f b) ->
  (forall s, cl_path D s -> cl_path D' s) -> (forall s h, cl_report D s h -> cl_report D' s h) ->
  (forall i f, cl_holds D' i f -> cl_holds D i f \/
     (i ∉ free) /\ exists w, reqs (p_slab p) !! i = Some w /\ reads_from f w) ->
  sys_ok (TI := TI) (D := D') ph free p K.
Proof.
  intros Hs HD HG Hrep HR. split; try apply Hs.
  - destruct (so_queue _ _ _ _ Hs) as [Hq He]. split; [done|]. eapply Forall_impl; [exact He|].
    intros ev. by apply event_ok_impl.
  - intros i w Hw Hi.
    destruct (so_used _ _ _ _ Hs i w Hw Hi) as [(a & s & Hu)|Hu]; [left; exists a, s|by right].
    destruct Hu as (H1 & H2 & [H3 H3'] & H4 & H5 & Hu). apply HG in H3'. split_and!; try done.
    destruct Hu as [Ho|(H6 & H7 & H8 & H9 & b & H10 & H11)]; [by left|right].
    split_and!; try done. exists b. split; [by apply HD|done].
  - intros i f [Hh|Hh]%HR; [by apply (so_held _ _ _ _ Hs)|done].
  - destruct (so_sent _ _ _ _ Hs) as (recs & Hc & l & H1 & H2 & H3). exists recs. split; [done|]. exists l. split_and!; try done.
    eapply Forall_impl; [exact H3|]. intros r [Hid Hr]. split; [done|by apply Hrep].
Qed.
