(* ===== verification/System.v ===== *)
(** * A thread with many requests in flight

    The thread runs against the kernel: submissions are taken and completed in
    any order and with any results, while the memory the kernel writes, the
    queue and the outside world change underneath. The QUIC client enters
    through the interface of [Transport]. *)

From stdpp Require Import base numbers list list_numbers gmap.
From S2P Require Import Prelude CStr Queue Ev Hasher Slab Quic Transport State Verifier Ride Processor.
From S2P Require Import Examples Thread Pipeline Connect Fuel ThreadInv.

Open Scope Z_scope.

Section system.
Context {H C W F : Type} `{!Blake3 H, !Blake3Laws H, !IoUring W, !Ngtcp2 C, !Host W, !Net C W, !Malloc W}.
Context `{!Eventfd F, !EventfdSem F}.
Context (vfuel : nat).
Context (TI : quic C W -> list (list Z) -> Prop) (Ready : quic C W -> Prop) `{!Transport TI Ready}.
Context (D : claims).
Local Abbreviation P := (processor H C W F).
Local Abbreviation sys_ok := (sys_ok (TI := TI) (D := D)).
Local Abbreviation detached := (detached (TI := TI) (D := D)).
Local Abbreviation file_slot := (file_slot (D := D)).
Implicit Types (p : processor H C W F) (w : processor_iou_req H) (K : list io_uring_sqe).

(** ** Completions *)

(** The thread goes on in a good state, or the process exits, or the fuel runs
    out; the behaviour is only undefined when [B]. *)
Definition fine_or (B : Prop) (ph : phase) (K : list io_uring_sqe) (o : outcome (unit * P)) : Prop :=
  match o with
  | Ret (_, p') => exists free', sys_ok ph free' p' K
  | Exit _ | OutOfFuel => True
  | Undef _ => B
  | AssertFailed => False
  end.
Local Abbreviation fine := (fine_or False).

Lemma fine_mono (B B' : Prop) ph K o : (B -> B') -> fine_or B ph K o -> fine_or B' ph K o.
Proof. intros HB. by destruct o as [[]| | | |]. Qed.

Lemma detached_put ph free i w w' p K :
  detached ph free i w p K -> pr_buffer w' = pr_buffer w -> pr_id w' = pr_id w ->
  in_flight w' = in_flight w -> names_container i (pr_req w') -> pr_data w' = pr_data w ->
  (exists a s, file_slot (p_shared p) i w' a s) \/ timer_slot w' ->
  detached ph free i w' (put i w' p) K.
Proof.
  intros (Hs & Hw & Hi & Ho & Hnh) E1 E2 E3 Hn Hd Hu.
  split; [|split; [apply put_lookup; by eapply lookup_lt_Some|done]].
  apply (sys_put ph free i w); try done; [by right|]. intros f Hf. by destruct (Hnh f).
Qed.

Lemma detached_submit ph free i w p K :
  detached ph free i w p K -> sys_ok ph free (submitted (RSlot i) (pr_req w) p) K.
Proof.
  intros (Hs & Hw & Hi & Ho & _). apply sys_submit; [done|cbn; by rewrite Hw|by destruct ph| |done].
  intros j [= <-]. done.
Qed.

(** What the kernel serves container [i] with agrees with what is claimed of
    the files being read: an opened file, more bytes, or the end. *)
Definition serves (p : P) (i : nat) (w : processor_iou_req H) (res : Z) : Prop :=
  (opcode (pr_req w) = IORING_OP_OPENAT -> 0 <= res -> forall a s,
     addr (pr_req w) = WPtr (PStr a) -> e_heap (p_shared p) !! a = Some (s ++ [0]) -> no_nul s -> cl_bytes D i s res []) /\
  (opcode (pr_req w) = IORING_OP_READ -> 0 < res -> forall s b buf,
     addr (pr_req w) = WPtr (PBuffer i) -> p_buffers p !! i = Some buf -> off (pr_req w) = WInt (u64 (Z.of_nat (length b))) ->
     cl_bytes D i s (fd (pr_req w)) b -> cl_bytes D i s (fd (pr_req w)) (b ++ take (Z.to_nat res) buf)) /\
  (opcode (pr_req w) = IORING_OP_READ -> res = 0 -> forall s b,
     off (pr_req w) = WInt (u64 (Z.of_nat (length b))) -> cl_path D s -> cl_bytes D i s (fd (pr_req w)) b ->
     cl_report D s (digest b)) /\
  (opcode (pr_req w) = IORING_OP_READ -> res = 0 -> Ready (p_quic p)).

(** A completed open. *)
Lemma open_fine ph free i w a s p K :
  detached ph free i w p K -> file_slot (p_shared p) i w a s -> serves p i w (result (pr_req w)) ->
  callback (pr_req w) = Some on_file_open_cb -> fine ph K (on_file_open (RSlot i) p).
Proof.
  intros Hdt Hf [Hsv _] Hcb. pose proof Hdt as (Hs & Hw & Hi & Ho).
  pose proof (so_thread _ _ _ _ Hs) as Ht.
  destruct (in_flight_entry free i w p (to_slab _ _ Ht) Hi Hw) as (Hn & Hb & _).
  destruct Hf as (Ha & Hh & [Hns HG] & Hl & Hd2 & [(_ & Hop & Had)|(Hx & _)]); [|congruence].
  destruct (Z.lt_ge_cases (result (pr_req w)) 0) as [Hr|Hr].
  - rewrite (on_file_open_fail i w a (s ++ [0]) p) by done. exists (i :: free).
    pose proof (sys_recycle ph free i w (set_pr_data w None 0) p K Hdt eq_refl eq_refl eq_refl eq_refl) as Hr'.
    unfold disown in Hr'. rewrite Ha in Hr'. exact Hr'.
  - rewrite (on_file_open_ok i w p Hw Hn Hr (to_sq _ _ Ht)). exists free.
    apply detached_submit, (detached_put ph free i w); try done.
    left. exists a, s. split_and!; try done. right. cbn. rewrite Hb. split_and!; try done.
    exists []. split; [by eapply Hsv|]. split; [done|]. by rewrite blake3_update_nil.
Qed.

(** A completed read. *)
Lemma read_fine ph free i w a s p K :
  detached ph free i w p K -> file_slot (p_shared p) i w a s ->
  serves p i w (result (pr_req w)) ->
  callback (pr_req w) = Some on_file_read_cb -> result (pr_req w) <= READ_BUF_SIZE ->
  fine_or (result (pr_req w) = 0 /\ ~ (can_report (p_quic p) /\ 0 <= pr_data2 w)) ph K (on_file_read vfuel (RSlot i) p).
Proof.
  intros Hdt Hf (_ & Hsv & Heof & Hready) Hcb Hres. pose proof Hdt as (Hs & Hw & Hi & Ho).
  pose proof (so_thread _ _ _ _ Hs) as Ht.
  destruct (in_flight_entry free i w p (to_slab _ _ Ht) Hi Hw) as (Hn & _ & Hid & _).
  destruct (to_bufs _ _ Ht i (lookup_lt_Some _ _ _ Hw)) as (buf & Hbuf & Hbl).
  pose proof Hf as (Ha & Hh & [Hns HG] & Hl & Hd2 & [(Hx & _)|(_ & Hop & Hlen & Had & b & Hd & Hoff & Hha)]); [congruence|].
  destruct (Z.lt_trichotomy (result (pr_req w)) 0) as [Hr|[Hr|Hr]].
  - rewrite (on_file_read_fail i w a (s ++ [0]) p) by done. exists (i :: free). apply sys_close.
    pose proof (sys_recycle ph free i w (set_pr_data w None 0) p K Hdt eq_refl eq_refl eq_refl eq_refl) as Hr'.
    unfold disown in Hr'. rewrite Ha in Hr'. exact Hr'.
  - rewrite (on_file_read_eof i w i buf a s p vfuel) by (done || apply Ht).
    set (hash := blake3_hasher_finalize _ _).
    assert (Hhl : length hash = 32%nat) by apply hash_length.
    destruct Hd2 as [Hd2|Hd2].
    2: { destruct (verify_hash_long vfuel (u64 (pr_data2 w)) (s ++ [0]) HASH_LEN hash (p_quic p)) as [u ->].
      - rewrite u64_neg, length_app by lia. cbn. lia.
      - split; [done|]. intros [_ ?]. lia. }
    rewrite Hd2, u64_small by lia. destruct ph; [| |].
    1-2: rewrite verify_hash_unconnected by (by destruct (so_conn _ _ _ _ Hs)); (split; [done|]);
      intros [(c & id & c' & st & rest & Hc & _) _]; destruct (so_conn _ _ _ _ Hs) as (Hqn & _); congruence.
    destruct (sys_carries _ _ _ Hs) as (recs & Hti & Hm).
    pose proof (ti_report (p_quic p) recs s hash vfuel Hti (Hready Hop Hr) Hl Hhl) as Hq.
    destruct (verifier_verify_hash _ _ _ _ _ _) as [[[] q]| | | |]; try done; [|split; [done|]; by intros [? _]].
    exists (i :: free). unfold reported. apply sys_close. set (p1 := upd_p_quic q _).
    assert (Hrep : cl_report D s hash) by (unfold hash; rewrite Hha; by apply Heof).
    assert (Hdt1 : detached Up free i w p1 K).
    { split; [|done]. exact (sys_report _ _ _ _ (Report (p_id p) (pr_id w) s hash) recs Hs Hm Hq eq_refl Hrep). }
    pose proof (sys_recycle Up free i w (set_pr_data w None 0) p1 K Hdt1 eq_refl eq_refl eq_refl eq_refl) as Hr'.
    unfold disown in Hr'. rewrite Ha in Hr'. exact Hr'.
  - rewrite (on_file_read_more i w i buf (u64 (Z.of_nat (length b))) p) by (done || lia || apply Ht). exists free.
    apply detached_submit, (detached_put ph free i w); try done.
    left. exists a, s. split_and!; try done. right. split_and!; try done.
    exists (b ++ take (Z.to_nat (result (pr_req w))) buf). split; [by apply Hsv|].
    cbn [pr_req pr_hasher advanced set_pr_req set_pr_hasher off set_off]. rewrite Hha. cbn [blake].
    rewrite blake3_update_app. split; [|done]. f_equal.
    rewrite length_app, length_take, Nat2Z.inj_add, Nat2Z.inj_min, Z2Nat.id by lia.
    rewrite Z.min_l by lia. apply Zplus_mod_idemp_l.
Qed.

(** A completed timer update: the container goes back to the free list. *)
Lemma update_fine ph free i w p K :
  detached ph free i w p K -> timer_slot w -> fine ph K (on_socket_timeout_update (RSlot i) p).
Proof.
  intros Hdt (Hd & Hcb & _). pose proof Hdt as (Hs & Hw & Hi & Ho).
  destruct (in_flight_entry free i w p (to_slab _ _ (so_thread _ _ _ _ Hs)) Hi Hw) as ([Hn1 Hn2] & _).
  unfold on_socket_timeout_update. rewrite (bind_Ret _ _ _ _ _ (req_get_slot _ _ _ Hw)).
  unfold in_slab, processor_free_req. rewrite Hn1, Hn2, Hw. exists (i :: free).
  pose proof (sys_recycle ph free i w w p K Hdt eq_refl eq_refl eq_refl eq_refl) as Hr'.
  unfold disown in Hr'. rewrite Hd in Hr'. unfold recycled in Hr'.
  assert (E : upd_p_shared (upd_e_heap (e_heap (p_shared p)) (p_shared p)) p = p)
    by (by destruct p as [? ? ? ? ? ? ? ? []]).
  by rewrite E in Hr'.
Qed.

(** The completion of a container's request. *)
Lemma slot_fine ph free i w res fl p K :
  detached ph free i w p K -> (opcode (pr_req w) = IORING_OP_READ -> res <= len (pr_req w)) ->
  serves p i w res ->
  fine_or (opcode (pr_req w) = IORING_OP_READ /\ res = 0 /\ ~ (can_report (p_quic p) /\ 0 <= pr_data2 w)) ph K
    (complete vfuel (Cqe (WPtr (PReq (RSlot i))) res fl) p).
Proof.
  intros Hdt Hres Hsv. pose proof Hdt as (Hs & Hw & Hi & Ho).
  destruct (in_flight_entry free i w p (to_slab _ _ (so_thread _ _ _ _ Hs)) Hi Hw) as (Hn & _).
  set (w1 := set_pr_req w (with_result (pr_req w) res fl)).
  assert (Hu1 : (exists a s, file_slot (p_shared p) i w1 a s) \/ timer_slot w1).
  { destruct (so_used _ _ _ _ Hs i w Hw Hi) as [(a & s & Hu)|Hu]; [left; by exists a, s|by right]. }
  pose proof (detached_put ph free i w w1 p K Hdt eq_refl eq_refl eq_refl Hn eq_refl Hu1) as Hdt1.
  unfold complete, ev_complete. cbn [cqe_user_data cqe_res cqe_flags].
  unfold mbind, M_bind, modify. rewrite (store_result_slot _ _ _ _ _ Hw). fold w1.
  unfold run_callback. rewrite (bind_Ret _ _ _ _ _ (req_get_slot i w1 _ (proj1 (proj2 Hdt1)))).
  destruct Hu1 as [(a & s & Hu)|Hu].
  - pose proof Hu as (_ & _ & _ & _ & _ & [(Hcb & _)|(Hcb & Hop & Hl & _)]); rewrite Hcb.
    + by eapply fine_mono, open_fine.
    + eapply fine_mono, read_fine; [|done|done|exact Hsv|done|cbn; cbn in Hl; rewrite <- Hl; by apply Hres]. done.
  - rewrite (proj1 (proj2 Hu)). by eapply fine_mono, update_fine.
Qed.
(** The poll: an event is taken and its file opened, or the poll re-armed. *)
Lemma sys_submit_poll ph free p K : sys_ok ph free p K -> sys_ok ph free (submitted RQueuePoll (p_queue_poll p) p) K.
Proof. intros Hs. apply sys_submit; [done|done|by destruct ph|done|done]. Qed.

Lemma event_zero_ok : event_ok (cl_path D) event_zero.
Proof. exists []. split; [reflexivity|]. split; [apply cl_path_nil|]. split; [simpl; lia|by left]. Qed.

Lemma taken_eq i w free p :
  slab_wf (p_slab p) (i :: free) -> reqs (p_slab p) !! i = Some w ->
  in_slab processor_get_req p = Ret (i, upd_p_slab (taken i w (p_slab p)) p).
Proof. intros Hwf Hw. unfold in_slab. by destruct (get_req_taken _ _ _ _ Hwf Hw) as (-> & _). Qed.

Lemma get_req_none p : slab_wf (p_slab p) [] -> in_slab processor_get_req p = Exit 1.
Proof. intros Hwf. unfold in_slab. by rewrite get_req_empty. Qed.

Lemma head_lookup free i p :
  thread_ok (i :: free) p -> exists w, reqs (p_slab p) !! i = Some w.
Proof.
  intros [(Hc & _) _ _ _]. destruct (chain_lookup _ _ _ i Hc) as [w Hw]; [by left|]. by exists w.
Qed.

Lemma open_event_fine ph free ev p K :
  sys_ok ph free p K -> event_ok (cl_path D) ev -> fine ph K (open_event ev p) /\ open_event ev p <> OutOfFuel.
Proof.
  intros Hs (s & Hc & HG & Hl & Hp). pose proof (so_thread _ _ _ _ Hs) as Ht.
  destruct free as [|i free].
  { unfold open_event, mbind, M_bind. by rewrite (get_req_none _ (to_slab _ _ Ht)). }
  destruct (head_lookup _ _ _ Ht) as [w Hw].
  destruct (malloc_ok (q_world (p_quic p))) as [[] u] eqn:Hm.
  2: { unfold open_event. rewrite (bind_Ret _ _ _ _ _ (taken_eq _ _ _ _ (to_slab _ _ Ht) Hw)).
    unfold mbind, M_bind, strdup. rewrite Hc. change (p_quic (upd_p_slab _ p)) with (p_quic p).
    by rewrite Hm. }
  rewrite (open_event_eq i w free ev s u p (to_slab _ _ Ht) Hw Hc Hm (to_sq _ _ Ht)).
  split; [|done]. exists free. set (w' := opening i w _ _).
  pose proof (sys_world _ _ p K u Hs) as Hs1.
  set (p1 := upd_p_quic _ p) in Hs1.
  assert (Hdt : detached ph free i w' (acquired i w w' (with_string (s ++ [0]) (p_shared p)) p1) K).
  { apply sys_acquire; try done.
    - right. by exists (s ++ [0]).
    - left. exists (e_brk (p_shared p)), s. split; [done|]. split; [cbn; by simplify_map_eq|].
      split; [split; [by eapply c_string_no_nul|done]|]. split; [done|]. split; [done|]. by left. }
  assert (E : opening_state i w (path_len ev) s u p = acquired i w w' (with_string (s ++ [0]) (p_shared p)) p1).
  { unfold opening_state, acquired, put, slab_put, taken, upd_p_slab, upd_p_shared, upd_p_quic, upd_p_verifier.
    cbn. by rewrite list_insert_insert_eq. }
  rewrite E. by apply detached_submit.
Qed.

(** What the queue gives is an event of the hook, or the cleared buffer. *)
Lemma consume_ok p :
  queue_wf (e_queue (p_shared p)) -> Forall (event_ok (cl_path D)) (contents (e_queue (p_shared p))) ->
  exists ret ev q' f',
    queue_consume_try event_zero (e_queue (p_shared p), e_efd (p_shared p)) = Ret (ret, ev, (q', f')) /\
    event_ok (cl_path D) ev /\ queue_wf q' /\ Forall (event_ok (cl_path D)) (contents q') /\ (ret = 1 \/ ret = 0 \/ ret = EAGAIN).
Proof.
  intros Hqw Hqe.
  destruct (queue_consume_refines event_zero _ (e_efd (p_shared p)) Hqw) as (q' & f' & Hc & Hw' & Hct & _).
  set (r := Fifo.consume _ _ _) in *.
  assert (Hev : event_ok (cl_path D) (snd (fst r)) /\ Forall (event_ok (cl_path D)) (contents q') /\
    (fst (fst r) = 1 \/ fst (fst r) = 0 \/ fst (fst r) = EAGAIN)).
  { rewrite Hct. unfold r, Fifo.consume. destruct (_ =? 0).
    - split; [apply event_zero_ok|]. split; [done|]. tauto.
    - destruct (contents (e_queue (p_shared p))) as [|x l].
      + split; [apply event_zero_ok|]. split; [constructor|]. tauto.
      + apply Forall_cons in Hqe as [? ?]. split; [done|]. split; [done|]. tauto. }
  destruct Hev as (He & Hf & Hret). destruct (fst r) as [ret ev].
  exists ret, ev, q', f'. done.
Qed.

(** The process exits while it opens the event. *)
Lemma on_queue_event_exit p q' f' ret ev x :
  data (p_queue_poll p) = Some PProcessor -> 0 <= result (p_queue_poll p) ->
  queue_consume_try event_zero (e_queue (p_shared p), e_efd (p_shared p)) = Ret (ret, ev, (q', f')) ->
  ret = 0 \/ ret = EAGAIN ->
  open_event ev (upd_p_shared (upd_e_queue q' (upd_e_efd f' (p_shared p))) p) = Exit x ->
  on_queue_event RQueuePoll p = Exit x.
Proof.
  intros Hd Hr Hc Hret Hop. unfold on_queue_event, req_get, req_at. unfold mbind at 1, M_bind at 1.
  rewrite Hd, (proj2 (Z.ltb_ge _ _) Hr).
  assert (H1 : consume event_zero p = Ret ((ret, ev), upd_p_shared (upd_e_queue q' (upd_e_efd f' (p_shared p))) p))
    by (unfold consume; by rewrite Hc).
  rewrite (bind_Ret _ _ _ _ _ H1).
  assert (Hb : negb (ret =? 0) && negb (ret =? EAGAIN) = false)
    by (destruct Hret as [-> | ->]; reflexivity).
  rewrite Hb. unfold mbind, M_bind. by rewrite Hop.
Qed.

Lemma poll_fine ph free res fl p K :
  sys_ok ph free p K -> fine ph K (complete vfuel (Cqe (WPtr (PReq RQueuePoll)) res fl) p).
Proof.
  intros Hs0. pose proof (sys_store ph free p K RQueuePoll res fl Hs0 ltac:(done)) as Hs.
  unfold complete, ev_complete. cbn [cqe_user_data cqe_res cqe_flags].
  unfold mbind, M_bind, modify. set (p0 := store_result _ _ _ p) in *.
  destruct (so_poll _ _ _ _ Hs) as [Hd Hcb].
  assert (Hrun : run_callback vfuel RQueuePoll p0 = on_queue_event RQueuePoll p0).
  { unfold run_callback, req_get, req_at. unfold mbind at 1, M_bind at 1. by rewrite Hcb. }
  rewrite Hrun. clear Hrun. destruct (Z.lt_ge_cases (result (p_queue_poll p0)) 0) as [Hr|Hr].
  { rewrite on_queue_event_neg by (done || apply Hs). destruct (decide _); [done|].
    exists free. by apply sys_submit_poll. }
  destruct (so_queue _ _ _ _ Hs) as [Hqw Hqe].
  destruct (consume_ok p0 Hqw Hqe) as (ret & ev & q' & f' & Hc & He & Hw' & Hf & Hret).
  set (p1 := upd_p_shared (upd_e_queue q' (upd_e_efd f' (p_shared p0))) p0).
  assert (Hs1 : sys_ok ph free p1 K) by (by apply sys_queue).
  assert (Harm : forall free' q p2, sys_ok ph free' p2 K -> sys_ok ph free' (rearmed q p2) K).
  { intros free' q p2 Hs2. unfold rearmed. destruct (_ =? 0); [by apply sys_submit_poll|done]. }
  destruct Hret as [-> |Hret].
  - rewrite (on_queue_event_skip p0 q' f' 1 ev) by (done || apply Hs). exists free. by apply Harm.
  - destruct (open_event_fine ph free ev p1 K Hs1 He) as [Ho Hnf].
    destruct (open_event ev p1) as [[[] p2]| | | |] eqn:Hop; try done.
    + destruct Ho as [free' Hs2].
      rewrite (on_queue_event_take p0 q' f' ret ev p2 Hd Hr Hc Hret Hop) by apply Hs2.
      exists free'. by apply Harm.
    + by rewrite (on_queue_event_exit p0 q' f' ret ev _ Hd Hr Hc Hret Hop).
Qed.

(** Without a free container the process exits when the timer is to be moved. *)
Lemma flush_egress_none p q t :
  verifier_quic_flush vfuel (p_quic p) = Ret (t, q) -> 0 <= s64 t ->
  opcode (v_timer_req (p_verifier p)) = IORING_OP_TIMEOUT -> slab_wf (p_slab p) [] ->
  verifier_flush_egress vfuel p = Exit 1.
Proof.
  intros Hf Hpos Hop Hwf. unfold verifier_flush_egress.
  assert (H1 : in_quic (verifier_quic_flush vfuel) p = Ret (t, upd_p_quic q p)) by (unfold in_quic; by rewrite Hf).
  rewrite (bind_Ret _ _ _ _ _ H1), (proj2 (Z.ltb_ge _ _) Hpos).
  cbv zeta. rewrite (bind_Ret _ _ _ tt (with_expiry q (s64 t) p) eq_refl).
  rewrite (bind_Ret (req_get RTimer) _ (with_expiry q (s64 t) p) (v_timer_req (p_verifier p))
             (with_expiry q (s64 t) p) eq_refl), Hop.
  cbn [Z.eqb IORING_OP_TIMEOUT Pos.eqb]. unfold mbind at 1, M_bind at 1.
  by rewrite (get_req_none (with_expiry q (s64 t) p) Hwf).
Qed.

Lemma flush_egress_fuel p : verifier_quic_flush vfuel (p_quic p) = OutOfFuel -> verifier_flush_egress vfuel p = OutOfFuel.
Proof. intros Hf. unfold verifier_flush_egress, mbind, M_bind, in_quic. by rewrite Hf. Qed.

(** A flush after the timer was armed: the process exits, or a container
    carries the update. *)
Lemma flush_egress_fine free p K :
  sys_ok Up free p K -> fine Up K (verifier_flush_egress vfuel p).
Proof.
  intros Hs. pose proof (so_thread _ _ _ _ Hs) as Ht.
  destruct (sys_carries _ _ _ Hs) as (recs & Hti & Hm).
  destruct (ti_flush (p_quic p) recs vfuel Hti) as [Hf|(t & q & Hf & Hq)]; [by rewrite flush_egress_fuel|].
  destruct (Z.lt_ge_cases (s64 t) 0) as [Hneg|Hpos].
  { by rewrite (flush_egress_neg vfuel p q t). }
  destruct (so_conn _ _ _ _ Hs) as (Hrecv & Htd & Htc & Hop).
  assert (Hs1 : sys_ok Up free (with_expiry q (s64 t) p) K).
  { eapply sys_congr; try done; [|apply Hs|by exists recs]. by destruct Ht; split. }
  destruct free as [|i free]; [by rewrite (flush_egress_none p q t Hf Hpos Hop (to_slab _ _ Ht))|].
  destruct (head_lookup _ _ _ Ht) as [w Hw].
  rewrite (flush_egress_move vfuel p q t i free w Hf Hpos (to_sq _ _ Ht) Hop (to_slab _ _ Ht) Hw).
  exists free. set (p1 := with_expiry q (s64 t) p) in *.
  assert (Hdt : detached Up free i (timer_entry i w) (acquired i w (timer_entry i w) (p_shared p1) p1) K).
  { assert (Hd : pr_data w = None) by (eapply (so_free _ _ _ _ Hs); [done|by left]).
    apply sys_acquire; try done; [by left|by right]. }
  apply detached_submit in Hdt.
  assert (E : acquired i w (timer_entry i w) (p_shared p1) p1 =
    put i (timer_entry i w) (upd_p_slab (taken i w (p_slab p)) p1)) by (by destruct p).
  by rewrite E in Hdt.
Qed.

(** Reading a packet and the timer do not depend on what was sent. *)
Lemma sys_carries_some free p K : sys_ok Up free p K -> exists recs, TI (p_quic p) recs.
Proof. intros Hs. destruct (sys_carries _ _ _ Hs) as (recs & Ht & _). by exists recs. Qed.

Lemma read_any (q : quic C W) buf :
  (exists l, TI q l) -> exists r q', verifier_quic_read buf q = Ret (r, q') /\ forall l, TI q l -> TI q' l.
Proof.
  intros [l Hl]. destruct (ti_read q l buf Hl) as (r & q' & Hr & _). exists r, q'. split; [done|].
  intros l' Hl'. destruct (ti_read q l' buf Hl') as (r2 & q2 & Hr2 & H2). congruence.
Qed.

Lemma expiry_any (q : quic C W) :
  (exists l, TI q l) -> exists r q', verifier_quic_handle_expiry q = Ret (r, q') /\ forall l, TI q l -> TI q' l.
Proof.
  intros [l Hl]. destruct (ti_expiry q l Hl) as (r & q' & Hr & _). exists r, q'. split; [done|].
  intros l' Hl'. destruct (ti_expiry q l' Hl') as (r2 & q2 & Hr2 & H2). congruence.
Qed.

(** A datagram. *)
Lemma recv_fine free res fl p K :
  sys_ok Up free p K -> res <= READBUF_SIZE ->
  fine Up K (complete vfuel (Cqe (WPtr (PReq RRecv)) res fl) p).
Proof.
  intros Hs0 Hres. pose proof (sys_store Up free p K RRecv res fl Hs0 ltac:(done)) as Hs.
  unfold complete, ev_complete. cbn [cqe_user_data cqe_res cqe_flags].
  unfold mbind at 1, M_bind at 1, modify. set (p0 := store_result _ _ _ p) in *.
  destruct (so_conn _ _ _ _ Hs) as ((Hd & Hcb & _ & _ & Hl) & _).
  assert (Hg : req_get RRecv p0 = Ret (v_recv_req (p_verifier p0), p0)) by done.
  unfold run_callback. rewrite (bind_Ret _ _ _ _ _ Hg), Hcb. unfold on_socket_read.
  rewrite (bind_Ret _ _ _ _ _ Hg), Hd. change (result (v_recv_req (p_verifier p0))) with res.
  destruct (res <? 0); [done|].
  rewrite (bind_Ret _ _ p0 (v_readbuf (p_verifier p0)) p0 eq_refl).
  rewrite Hl, (proj2 (Z.ltb_ge _ _)) by done.
  set (buf := take _ _). destruct (read_any (p_quic p0) buf) as (r & q & Hr & Hq); [by eapply sys_carries_some|].
  assert (H1 : in_quic (verifier_quic_read buf) p0 = Ret (r, upd_p_quic q p0)) by (unfold in_quic; by rewrite Hr).
  rewrite (bind_Ret _ _ _ _ _ H1).
  pose proof (sys_transport _ _ _ q Hs Hq) as Hs1. set (p1 := upd_p_quic q p0) in *.
  rewrite (bind_Ret _ _ _ _ _ (submit_eq RRecv (v_recv_req (p_verifier p1)) p1 eq_refl
             (to_sq _ _ (so_thread _ _ _ _ Hs1)))).
  eapply flush_egress_fine, sys_submit; try done.
Qed.

(** The timer. *)
Lemma timeout_fine free res fl p K :
  sys_ok Up free p K -> fine Up K (complete vfuel (Cqe (WPtr (PReq RTimer)) res fl) p).
Proof.
  intros Hs0. pose proof (sys_store Up free p K RTimer res fl Hs0 ltac:(done)) as Hs.
  unfold complete, ev_complete. cbn [cqe_user_data cqe_res cqe_flags].
  unfold mbind at 1, M_bind at 1, modify. set (p0 := store_result _ _ _ p) in *.
  destruct (so_conn _ _ _ _ Hs) as (_ & Hd & Hcb & _).
  assert (Hg : req_get RTimer p0 = Ret (v_timer_req (p_verifier p0), p0)) by done.
  unfold run_callback. rewrite (bind_Ret _ _ _ _ _ Hg), Hcb. unfold on_socket_timeout.
  rewrite (bind_Ret _ _ _ _ _ Hg), Hd.
  destruct (expiry_any (p_quic p0)) as (r & q & Hr & Hq); [by eapply sys_carries_some|].
  assert (H1 : in_quic verifier_quic_handle_expiry p0 = Ret (r, upd_p_quic q p0)) by (unfold in_quic; by rewrite Hr).
  rewrite (bind_Ret _ _ _ _ _ H1). exists free. by apply sys_transport.
Qed.


(** ** The connection comes up *)

(** Until the connection exists only the poll and containers can be with the
    kernel besides the connection request, so that without it the verifier may
    change and the next phase begin. *)
Lemma sys_advance ph ph' free p p' K :
  sys_ok ph free p K -> ph <> Up -> omap conn_of (sq_pending (p_loop p) ++ K) = [] ->
  p' = upd_p_verifier (p_verifier p') p -> carries (TI := TI) ph' (p_quic p') [] ->
  conn_ok ph' p' -> sys_ok ph' free p' K.
Proof.
  intros Hs Hph Hn Hp' Hcar Hc.
  assert (Hm : mirrors (cl_report D) (p_id p) [] (e_out (p_shared p)))
    by (destruct ph; [..|done]; destruct (so_sent _ _ _ _ Hs) as (recs & [-> _] & ?); done).
  rewrite Hp' in Hcar, Hc |- *.
  split; try apply Hs; [by destruct (so_thread _ _ _ _ Hs)|done| |by exists []].
  intros e He. destruct (so_out _ _ _ _ Hs e He) as (r & q & Hr & Heq & Ha & Hf). exists r, q.
  assert (Hne : r <> RConn).
  { intros ->. assert (Hin : tt ∈ omap conn_of (sq_pending (p_loop p) ++ K)).
    { apply list_elem_of_omap. exists e. split; [done|]. by rewrite Heq. }
    rewrite Hn in Hin. by apply elem_of_nil in Hin. }
  destruct r, ph; cbn in Ha; try done; split_and!; try done; by destruct ph'.
Qed.

(** A network call changes the world only. *)
Lemma world_op_any {A} (f : W -> A * W) p : exists a p', world_op f p = Ret (a, p') /\ world_only p p'.
Proof. destruct (world_op_ok f p) as (p' & Hf & Hw). eauto. Qed.

Lemma quic_init_cases p :
  verifier_quic_init p = Exit 1 \/
  (exists p', verifier_quic_init p = Ret (-1, p')) \/
  exists c u a u1 u2, ngtcp2_conn_client_new a u1 = ((0, c), u2) /\
    verifier_quic_init p = Ret (0, upd_p_quic (set_conn (set_qworld (p_quic p) u) c) p).
Proof.
  unfold verifier_quic_init.
  destruct (world_op_any (RAND_bytes NGTCP2_MIN_INITIAL_DCIDLEN) p) as (r1 & p1 & H1 & W1).
  rewrite (bind_Ret _ _ _ _ _ H1). destruct (negb (r1 =? 1)); [right; left; by eexists|].
  destruct (world_op_any (RAND_bytes 8) p1) as (r2 & p2 & H2 & W2).
  rewrite (bind_Ret _ _ _ _ _ H2). destruct (negb (r2 =? 1)); [right; left; by eexists|].
  destruct (clock_gettime (q_world (p_quic p2))) as [[[sec nsec]|] w] eqn:Hc.
  2: { left. unfold mbind, M_bind, in_quic, timestamp. by rewrite Hc. }
  set (p3 := upd_p_quic (set_qworld (p_quic p2) w) p2).
  assert (H3 : exists t, in_quic timestamp p2 = Ret (t, p3)) by (unfold in_quic, timestamp; rewrite Hc; by eexists).
  destruct H3 as [t H3]. rewrite (bind_Ret _ _ _ _ _ H3), bind_gets. right. set (a := quic_args _ _).
  destruct (ngtcp2_conn_client_new (C := C) a (q_world (p_quic p3))) as [[rv c] w'] eqn:Hn.
  assert (H4 : world_op (ngtcp2_conn_client_new a) p3 = Ret ((rv, c), upd_p_quic (set_qworld (p_quic p3) w') p3))
    by (unfold world_op; by rewrite Hn).
  rewrite (bind_Ret _ _ _ _ _ H4).
  destruct (Z.eqb_spec rv 0) as [->|Hrv]; cbn [negb]; [right|left; by eexists].
  destruct (world_only_trans _ _ _ W1 W2) as [u Eu].
  exists c, w', a, (q_world (p_quic p3)), w'. split; [done|]. rewrite bind_modify. unfold p3. by rewrite Eu.
Qed.

Lemma on_socket_connect_cases p :
  data (v_conn_req (p_verifier p)) = Some PVerifier -> sq_wf (p_loop p) ->
  on_socket_connect vfuel RConn p = Exit 1 \/
  exists u c a u1 u2, ngtcp2_conn_client_new a u1 = ((0, c), u2) /\
    on_socket_connect vfuel RConn p =
    verifier_flush_egress vfuel
      (submitted RRecv (recv_req_of (v_recv_req (p_verifier p)) (q_sock (p_quic p))) (connected u c p)).
Proof.
  intros Hd Hwf. unfold on_socket_connect.
  rewrite (bind_Ret (req_get RConn) _ p (v_conn_req (p_verifier p)) p eq_refl).
  destruct (result _ <? 0); [by left|]. rewrite Hd.
  destruct (quic_init_cases p) as [Hq|[[p' Hq]|(c & u & a & u1 & u2 & Hn & Hq)]].
  - left. unfold mbind, M_bind. by rewrite Hq.
  - left. by rewrite (bind_Ret _ _ _ _ _ Hq).
  - right. rewrite (bind_Ret _ _ _ _ _ Hq). cbn [negb Z.eqb]. rewrite bind_modify.
    set (p2 := upd_p_verifier _ _). exists u, c, a, u1, u2. split; [done|].
    rewrite (bind_Ret (req_get RRecv) _ p2 (v_recv_req (p_verifier p)) p2 eq_refl), bind_gets.
    change (q_sock (p_quic p2)) with (q_sock (p_quic p)).
    unfold req_put. rewrite bind_modify.
    change (req_set RRecv _ p2) with (connected u c p).
    by rewrite (bind_Ret _ _ _ _ _ (submit_eq RRecv _ (connected u c p) eq_refl Hwf)).
Qed.

(** The socket is there, or the process exits. *)
Lemma create_fine free res fl p K :
  sys_ok Creating free p K -> omap conn_of (sq_pending (p_loop p) ++ K) = [] ->
  fine Connecting K (complete vfuel (Cqe (WPtr (PReq RConn)) res fl) p).
Proof.
  intros Hs0 Hn. pose proof (sys_store Creating free p K RConn res fl Hs0 ltac:(done)) as Hs.
  rewrite (complete_conn _ _ _ _ _ (proj1 (proj2 (proj2 (proj2 (proj2 (so_conn _ _ _ _ Hs0))))))).
  change (store_result RConn res fl p) with (conn_result res fl p) in Hs. set (p0 := conn_result res fl p) in *.
  destruct (so_conn _ _ _ _ Hs) as (Hq & Hi & Ha & Hd & Hcb & Ht & Hb).
  pose proof (on_socket_create_eq p0 Hd Ha (to_sq _ _ (so_thread _ _ _ _ Hs))) as Hc. cbv zeta in Hc.
  destruct (getsockname _ _) as [e u]. rewrite Hc. destruct (_ || _); [done|].
  exists free. set (q := connect_req_of _ _ _). set (p1 := created u _ p0).
  assert (Hs1 : sys_ok Connecting free p1 K).
  { apply (sys_advance Creating Connecting free p0); try done.
    split; [done|]. by destruct (so_sent _ _ _ _ Hs) as (recs & [_ ?] & _). }
  by apply sys_submit.
Qed.

(** The timer started after the read was submitted. *)
Lemma submitted_then_expiry r' q' r (q : quic C W) t p :
  req_set RTimer r (with_expiry q t (submitted r' q' p)) =
  upd_p_quic q (submitted r' q' (req_set RTimer r (with_expiry q t p))).
Proof. unfold submitted. cbn. by destruct (_ <? _). Qed.

(** The connection is there, or the process exits. *)
Lemma connect_fine free res fl p K :
  sys_ok Connecting free p K -> omap conn_of (sq_pending (p_loop p) ++ K) = [] ->
  fine Up K (complete vfuel (Cqe (WPtr (PReq RConn)) res fl) p).
Proof.
  intros Hs0 Hn. pose proof (sys_store Connecting free p K RConn res fl Hs0 ltac:(done)) as Hs.
  rewrite (complete_conn _ _ _ _ _ (proj1 (proj2 (proj2 (proj2 (proj2 (so_conn _ _ _ _ Hs0))))))).
  change (store_result RConn res fl p) with (conn_result res fl p) in Hs. set (p0 := conn_result res fl p) in *.
  destruct (so_conn _ _ _ _ Hs) as (Hq & Hi & Ha & Hd & Hcb & Ht & Hb).
  assert (Hacc : q_accepted (p_quic p0) = []) by (by destruct (so_sent _ _ _ _ Hs) as (recs & [_ ?] & _)).
  pose proof (to_sq _ _ (so_thread _ _ _ _ Hs)) as Hwf.
  destruct (on_socket_connect_cases p0 Hd Hwf) as [->|(u & c & a & u1 & u2 & Hnew & ->)]; [done|].
  set (q1 := recv_req_of _ _). set (p1 := connected u c p0).
  assert (Hti : TI (p_quic (submitted RRecv q1 p1)) []).
  { destruct (submitted_frame RRecv q1 p1) as (_ & _ & _ & _ & _ & _ & _ & v & Ev).
    unfold p_quic. rewrite Ev. apply ti_world. by apply (ti_new (set_qworld (p_quic p0) u) a u1 c u2). }
  destruct (ti_flush _ _ vfuel Hti) as [Hf|(t & q & Hf & Htq)]; [by rewrite flush_egress_fuel|].
  destruct (Z.lt_ge_cases (s64 t) 0) as [Hneg|Hpos]; [by rewrite (flush_egress_neg vfuel _ q t)|].
  destruct (submitted_frame RRecv q1 p1) as (_ & _ & _ & _ & _ & _ & _ & v & Ev).
  rewrite (flush_egress_start vfuel _ q t Hf Hpos); [|by apply submitted_wf|by rewrite Ev].
  exists free. set (q2 := timer_start_req _).
  assert (Hs1 : sys_ok Up free (req_set RTimer q2 (with_expiry q (s64 t) p1)) K).
  { apply (sys_advance Connecting Up free p0); try done. }
  rewrite submitted_then_expiry. set (p2 := req_set RTimer q2 _) in *.
  destruct (submitted_frame RRecv q1 p2) as (_ & _ & _ & _ & _ & _ & _ & v' & Ev').
  assert (Hs2 : sys_ok Up free (submitted RRecv q1 p2) K) by (by apply sys_submit).
  apply sys_submit; try done.
  { apply sys_quic; [exact Hs2|exact (so_conn _ _ _ _ Hs2)|].
    destruct (so_sent _ _ _ _ Hs1) as (recs & _ & Hm). destruct (submitted_frame RRecv q1 p2) as (_ & E2 & _ & E4 & _).
    exists []. split; [done|]. change (mirrors (cl_report D) (p_id (submitted RRecv q1 p2)) [] (e_out (p_shared (submitted RRecv q1 p2)))).
    rewrite E2, E4.
    destruct (so_sent _ _ _ _ Hs) as (recs0 & [-> _] & Hm0). exact Hm0. }
  unfold req_at. change (p_verifier (upd_p_quic q ?p)) with (upd_v_quic q (p_verifier p)). by rewrite Ev'.
Qed.

Lemma conn_fine ph free res fl p K :
  sys_ok ph free p K -> allowed ph RConn -> omap conn_of (sq_pending (p_loop p) ++ K) = [] ->
  exists ph', fine ph' K (complete vfuel (Cqe (WPtr (PReq RConn)) res fl) p).
Proof.
  intros Hs Ha Hn. destruct ph; [|..|done].
  - exists Connecting. by eapply create_fine.
  - exists Up. by eapply connect_fine.
Qed.

(** ** Runs *)

(** The kernel completes [e] of [K]: a read gives at most the bytes asked for,
    and only the poll may stay armed. *)
Definition kernel_completes (K : list io_uring_sqe) (e : io_uring_sqe) (res fl : Z)
    (K' : list io_uring_sqe) : Prop :=
  exists K1 K2, K = K1 ++ e :: K2 /\
    (sqe_opcode e = IORING_OP_READ -> res <= sqe_len e) /\
    (K' = K1 ++ K2 \/
     K' = K /\ sqe_user_data e = WPtr (PReq RQueuePoll) /\ Z.land fl IORING_CQE_F_MORE <> 0).

(** The completion that ends a file finds a connection that grants a stream, room
    for the record, and a path the hook could look up. *)
Definition report_ready (e : io_uring_sqe) (res : Z) (p : P) : Prop :=
  forall i w, slot_of e = Some i -> reqs (p_slab p) !! i = Some w ->
    sqe_opcode e = IORING_OP_READ -> res = 0 -> can_report (p_quic p) /\ 0 <= pr_data2 w.

(** The kernel takes a submission, or completes one and the thread handles it;
    the world moves on. *)
Inductive own_step : P * list io_uring_sqe -> P * list io_uring_sqe -> Prop :=
  | step_take p K e rest :
      sq_pending (p_loop p) = e :: rest ->
      own_step (p, K) (upd_p_loop (kernel_take (p_loop p)) p, K ++ [e])
  | step_complete p K K' e res fl bufs rb p' :
      kernel_completes K e res fl K' -> same_memory bufs rb p ->
      complete vfuel (Cqe (sqe_user_data e) res fl) (set_memory bufs rb p) = Ret (tt, p') ->
      own_step (p, K) (p', K')
  | step_world p K u :
      own_step (p, K) (upd_p_quic (set_qworld (p_quic p) u) p, K).

(** Between its own steps, other threads act on the queue and the eventfd. *)
Inductive step : P * list io_uring_sqe -> P * list io_uring_sqe -> Prop :=
  | step_own s s' : own_step s s' -> step s s'
  | step_queue p K q f :
      queue_wf q -> Forall (event_ok any_path) (contents q) ->
      step (p, K) (upd_p_shared (upd_e_queue q (upd_e_efd f (p_shared p))) p, K).

Lemma sys_completes ph free p K e res fl K' :
  sys_ok ph free p K -> kernel_completes K e res fl K' ->
  sys_ok ph free p K' /\ exists r q, sqe_user_data e = WPtr (PReq r) /\ req_at r p = Some q /\
    e = sqe_of_req r q /\ allowed ph r /\
    (forall i, r = RSlot i -> (i ∉ free) /\ i ∉ (omap slot_of (sq_pending (p_loop p) ++ K'))) /\
    (r = RConn -> omap conn_of (sq_pending (p_loop p) ++ K') = []).
Proof.
  intros Hs (K1 & K2 & -> & _ & Hk).
  destruct (so_out _ _ _ _ Hs e) as (r & q & Hr & He & Hc & Hf).
  { apply elem_of_app. right. apply elem_of_app. right. by left. }
  destruct (sys_drop _ _ _ _ _ _ Hs) as (Hs1 & Hsl & Hcn).
  destruct Hk as [-> | (-> & Hu & _)].
  - split; [done|]. exists r, q. split_and!; try done; [by rewrite He| |].
    + intros i ->. split; [by apply Hf|]. apply Hsl. by rewrite He.
    + intros ->. apply Hcn. by rewrite He.
  - split; [done|]. exists r, q. split_and!; try done; [by rewrite He|intros i ->|intros ->];
      by rewrite He in Hu.
Qed.

(** What the kernel serves the request [e] with; whether its container holds a
    descriptor afterwards is up to the callback. *)
Definition served (p : P) (e : io_uring_sqe) (res : Z) (bufs : list (list Z)) (rb : list Z) : Prop :=
  forall i w, slot_of e = Some i -> reqs (p_slab p) !! i = Some w ->
    serves (set_memory bufs rb p) i w res /\ (forall f, ~ cl_holds D i f).

(** Every completion is handled without fault, but for a report that cannot be
    made. *)
Lemma completion_fine ph free p K e res fl K' bufs rb :
  sys_ok ph free p K -> kernel_completes K e res fl K' -> same_memory bufs rb p -> served p e res bufs rb ->
  exists ph', fine_or (~ report_ready e res p) ph' K' (complete vfuel (Cqe (sqe_user_data e) res fl) (set_memory bufs rb p)).
Proof.
  intros Hs Hk Hm Hsv.
  destruct (sys_completes _ _ _ _ _ _ _ _ Hs Hk) as (Hs' & r & q & Hu & Hr & He & Hc & Hf & Hone).
  assert (Hread : opcode q = IORING_OP_READ -> res <= len q).
  { destruct Hk as (K1 & K2 & _ & Hb & _). rewrite He in Hb. exact Hb. }
  pose proof (sys_memory _ _ _ _ _ _ Hs' Hm) as Hs1. rewrite Hu. destruct r as [|i| | |].
  - exists ph. by eapply fine_mono, poll_fine.
  - exists ph. cbn in Hr. destruct (reqs (p_slab p) !! i) as [w|] eqn:Hw; [|done]. injection Hr as <-.
    destruct (Hsv i w) as [Hsi Hnh]; [unfold slot_of; by rewrite Hu|done|].
    eapply fine_mono; [|apply (slot_fine ph free i w); [by destruct (Hf i eq_refl)|done|done]].
    intros (Ho & Hz & Hn) Hrr. apply Hn, (Hrr i w); [unfold slot_of; by rewrite Hu|done|by rewrite He|done].
  - destruct (conn_fine ph free res fl _ _ Hs1 Hc) as [ph' Hx]; [by apply Hone|]. exists ph'. by eapply fine_mono, Hx.
  - injection Hr as <-. destruct ph; try done. exists Up. eapply fine_mono, recv_fine; [done|done|].
    destruct (so_conn _ _ _ _ Hs) as ((_ & _ & Ho & Hl & _) & _). rewrite <- Hl. by apply Hread.
  - destruct ph; try done. exists Up. by eapply fine_mono, timeout_fine.
Qed.

(** When nothing is claimed of the files, all is served. *)
Lemma served_any p e res bufs rb : claimless D -> (forall q, Ready q) -> served p e res bufs rb.
Proof. intros (HD & HR & _ & Hrep) HQ i w _ _. split; [by split_and!|by intros f]. Qed.

Lemma own_step_ok ph free p K p' K' :
  claimless D -> (forall q, Ready q) -> sys_ok ph free p K -> own_step (p, K) (p', K') ->
  exists ph' free', sys_ok ph' free' p' K'.
Proof.
  intros HD HQ Hs Hst. inversion Hst; subst.
  - exists ph, free. by eapply sys_take.
  - match goal with Hk : kernel_completes _ _ _ _ _, Hm : same_memory _ _ _, Hc : complete _ _ _ = _ |- _ =>
      pose proof (completion_fine _ _ _ _ _ _ _ _ _ _ Hs Hk Hm (served_any _ _ _ _ _ HD HQ)) as [ph' Hx]; rewrite Hc in Hx;
      exists ph'; exact Hx end.
  - exists ph, free. by apply sys_world.
Qed.

Lemma step_ok ph free p K p' K' :
  claimless D -> (forall q, Ready q) -> sys_ok ph free p K -> step (p, K) (p', K') ->
  exists ph' free', sys_ok ph' free' p' K'.
Proof.
  intros HD HQ Hs Hst. inversion Hst; subst; [by eapply own_step_ok|].
  exists ph, free. apply sys_queue; [done|done|]. eapply Forall_impl; [eassumption|].
  intros ev. apply event_ok_impl. intros s _. apply HD.
Qed.

Lemma steps_ok ph free s s' :
  claimless D -> (forall q, Ready q) -> sys_ok ph free (fst s) (snd s) -> rtc step s s' ->
  exists ph' free', sys_ok ph' free' (fst s') (snd s').
Proof.
  intros HD HQ Hs Hr. revert ph free Hs. induction Hr as [s|s [p1 K1] s2 Hst Hr IH]; intros ph free Hs; [by exists ph, free|].
  destruct s as [p K]. destruct (step_ok _ _ _ _ _ _ HD HQ Hs Hst) as (ph1 & free1 & Hs1). by eapply IH.
Qed.
End system.

Section never_faults.
Context {H C W F : Type} `{!Blake3 H, !Blake3Laws H, !IoUring W, !Ngtcp2 C, !Host W, !Net C W, !Malloc W}.
Context `{!Eventfd F, !EventfdSem F, !Ngtcp2Laws C, !StreamLaws C, !HostLaws W}.
Local Abbreviation good := (sys_ok (TI := sends_bytes) (D := no_claims)).

(** A completion in a good state: with enough fuel it is handled to its end,
    which is a good state or the exit of the process. *)
Lemma completion_good ph free (p : processor H C W F) K e res fl K' bufs rb :
  good ph free p K -> kernel_completes K e res fl K' -> report_ready e res p -> same_memory bufs rb p ->
  exists n, forall fuel, (n <= fuel)%nat ->
    match complete fuel (Cqe (sqe_user_data e) res fl) (set_memory bufs rb p) with
    | Ret (_, p') => exists ph' free', good ph' free' p' K'
    | Exit _ => True
    | AssertFailed | Undef _ | OutOfFuel => False
    end.
Proof.
  intros Hs Hk Hrr Hm.
  destruct (complete_ends (H := H) (C := C) (W := W) (F := F) (Cqe (sqe_user_data e) res fl) (set_memory bufs rb p)) as [n Hn].
  exists n. intros fuel Hf. specialize (Hn fuel Hf).
  destruct (completion_fine fuel _ any_time no_claims ph free p K e res fl K' bufs rb Hs Hk Hm
    (served_any _ _ _ _ _ _ _ no_claims_claimless (fun _ => I))) as [ph' Hx].
  destruct (complete _ _ _) as [[u p']| | | |]; try done. by exists ph'.
Qed.

(** No interleaving makes a thread fault. From the phase in which its socket is
    created on, a thread runs against the kernel, which takes submissions and
    completes them in any order with any results (reads give at most what was
    asked for), overwriting the buffers, while other threads change the queue
    and the world moves on; ngtcp2, the socket and the peer do what they like
    within their documented behaviour. Every reachable state is good: the free
    list is intact, no container is with the kernel twice or while free, the
    connection request at most once, every path string on the heap belongs to
    exactly one container in use, so nothing is leaked, freed twice or used
    after it was freed, and what the connection has accepted, followed by what
    waits in the slot, are the records printed. In such a state every completion
    the kernel can deliver is handled to its end without a failing assertion or
    undefined behaviour: the callback returns, or the process exits; except that
    the end of a file is only handled so when the connection exists and grants a
    stream, the slot has room for the record, and the hook could look the path up
    ([report_ready]). *)
Theorem thread_never_faults vfuel ph free (p : processor H C W F) K p' K' :
  good ph free p K -> rtc (step vfuel) (p, K) (p', K') ->
  (exists ph' free', good ph' free' p' K') /\
  forall e res fl K2 bufs rb,
    kernel_completes K' e res fl K2 -> report_ready e res p' -> same_memory bufs rb p' ->
    exists n, forall fuel, (n <= fuel)%nat ->
      match complete fuel (Cqe (sqe_user_data e) res fl) (set_memory bufs rb p') with
      | Ret (_, p2) => exists ph2 free2, good ph2 free2 p2 K2
      | Exit _ => True
      | AssertFailed | Undef _ | OutOfFuel => False
      end.
Proof.
  intros Hs Hr.
  destruct (steps_ok vfuel _ any_time no_claims ph free (p, K) (p', K') no_claims_claimless (fun _ => I) Hs Hr) as (ph' & free' & Hs').
  split; [by exists ph', free'|]. intros e res fl K2 bufs rb. by eapply completion_good.
Qed.
End never_faults.

(** ** Witness: a connection that takes a record at a time

    It grants streams from the first packet on that it reads, writes what it is
    given, and then has nothing else to send. *)

Record keep_conn : Set := KeepConn { kc_more : bool; kc_open : bool; kc_next : nat }.

#[local] Instance keep_ngtcp2 : Ngtcp2 keep_conn := {
  NGTCP2_ERR_WRITE_MORE := -240;
  NGTCP2_ERR_CRYPTO := -215;
  ccerr_liberr_code e := - e;
  ccerr_tls_alert_code a := 256 + a;
  ngtcp2_conn_writev_stream c _ id d _ :=
    if kc_more c && negb (id =? -1)
    then (WritevResult (-240) (Z.of_nat (length d)) [], KeepConn false (kc_open c) (kc_next c))
    else (WritevResult 0 (-1) [], KeepConn true (kc_open c) (kc_next c));
  ngtcp2_conn_open_bidi_stream c :=
    if kc_open c then ((0, 4 * Z.of_nat (kc_next c)), KeepConn (kc_more c) true (S (kc_next c)))
    else ((-206, 0), c);
  ngtcp2_conn_get_expiry2 _ := 5000000000;
  ngtcp2_conn_handle_expiry c _ := (0, c);
  ngtcp2_conn_read_pkt c _ _ := (0, KeepConn (kc_more c) true (kc_next c));
  ngtcp2_conn_get_tls_alert2 _ := 0;
}.

#[local] Instance keep_host : Host nat := {
  clock_gettime w := (Some (1, 0), w);
  sendmsg _ pkt w := (inl (Z.of_nat (length pkt)), w);
}.

#[local] Instance keep_ngtcp2_laws : Ngtcp2Laws keep_conn.
Proof.
  refine {| conn_budget := fun c => if kc_more c then 1%nat else 0%nat |}.
  - by vm_compute.
  - intros [[] o n] fl id d ts r c'; simpl; [destruct (Z.eqb_spec id (-1))|]; intros [= <- <-]; simpl; lia.
  - intros [[] o n] fl id d ts r c'; simpl; [destruct (Z.eqb_spec id (-1))|]; intros [= <- <-]; simpl; lia.
  - intros [[] o n] fl id d ts r c'; simpl; [destruct (Z.eqb_spec id (-1))|]; intros [= <- <-]; simpl; lia.
Defined.

#[local] Instance keep_streams : StreamLaws keep_conn.
Proof.
  refine {| next_stream := fun c => 4 * Z.of_nat (kc_next c) |}.
  - intros [m [] n] rv id c' [= <- <- <-]; cbn [kc_next]; lia.
  - intros [[] o n] fl id d ts r c'; simpl; [destruct (Z.eqb_spec id (-1))|]; intros [= <- <-]; simpl; lia.
  - intros [m o n] pkt ts rv c' [= <- <-]. cbn [kc_next]. lia.
  - intros [m o n] ts rv c' [= <- <-]. cbn [kc_next]. lia.
Defined.

#[local] Instance keep_host_laws : HostLaws nat.
Proof.
  refine {| eintr_budget := fun _ : nat => 0%nat |}; [|done..].
  intros w. by eexists _, _, _.
Defined.

#[local] Instance keep_net : Net keep_conn nat := {
  getaddrinfo w := (Some 16, w);
  getsockname _ w := (0, w);
  RAND_bytes _ w := (1, w);
  ngtcp2_conn_client_new _ w := ((0, KeepConn true false 0), w);
  SSL_CTX_new w := (true, w);
  ngtcp2_crypto_boringssl_configure_client_context w := (0, w);
  SSL_new w := (true, w);
  SSL_set_alpn_protos _ w := (0, w);
  NGTCP2_ERR_CALLBACK_FAILURE := -502;
}.

(** A connected thread with one container, a queued event and its poll in the
    submission ring. *)
Definition keep_verifier : verifier keep_conn nat :=
  {| v_conn_req := ev_io_req_zero; v_recv_req := recv_req_of ev_io_req_zero 9;
     v_timer_req := timer_start_req ev_io_req_zero; v_expiry := (0, 0);
     v_readbuf := replicate (Z.to_nat READBUF_SIZE) 0; v_remote_addr_len := 16;
     v_local_addr_len := 16; v_conn_ref := true;
     v_quic := {| q_conn := Some (KeepConn true true 0); q_slots := [idle_slot; idle_slot; idle_slot; idle_slot];
                  q_sock := 9; q_last_error := 0; q_accepted := []; q_world := 0%nat |} |}.

Definition keep_thread : processor (list Z) keep_conn nat N :=
  {| p_id := 3; p_nr_tasks := 1; p_queue_efd := 5; p_slab := toy_slab;
     p_buffers := [replicate (Z.to_nat READ_BUF_SIZE) 0]; p_queue_poll := toy_poll;
     p_loop := EvLoop (IouRing (2 ^ 32 - 1) 0 1 0) (IouRing 0 0 1 0)
                 [sqe_zero; sqe_of_req RQueuePoll toy_poll] [Cqe (WInt 0) 0 0; Cqe (WInt 0) 0 0] 3;
     p_verifier := keep_verifier; p_shared := p_shared (toy_thread 1) |}.

Lemma keep_thread_ok : sys_ok (TI := sends_bytes) (D := no_claims) Up [0%nat] keep_thread [].
Proof.
  assert (Hpend : sq_pending (p_loop keep_thread) = [sqe_of_req RQueuePoll toy_poll]) by reflexivity.
  split.
  - destruct (toy_thread_ok 1) as [H1 _ H3 _]. split; [exact H1| |exact H3|simpl; lia].
    split; [exact is_mask_1|]. repeat split; vm_compute; congruence.
  - split; [split_and!; done|split; done].
  - split; [split; [by vm_compute|split; by vm_compute]|].
    assert (Hc : contents (e_queue (p_shared keep_thread)) = [toy_event]) by reflexivity.
    rewrite Hc. constructor; [|constructor]. exists [47; 116; 47; 97]. split; [reflexivity|].
    split; [done|]. split; [simpl; lia|by left].
  - done.
  - intros e He. rewrite Hpend in He. apply list_elem_of_singleton in He as ->.
    exists RQueuePoll, toy_poll. done.
  - rewrite Hpend. simpl. lia.
  - rewrite Hpend. constructor.
  - intros [|i] w Hw Hi; [destruct Hi; by left|done].
  - intros [|i] w Hw _; [|done]. injection Hw as <-. done.
  - by intros i f [].
  - exists []. split; [|apply mirrors_nil]. exists idle_slot. split; [|done].
    exists (KeepConn true true 0), [idle_slot; idle_slot; idle_slot]. by split_and!.
  - by intros a [s Hs].
  - by intros a [s Hs].
  - intros [|i] [|j] wi wj a Hi Hj; done.
Qed.

Lemma thread_never_faults_witness :
  exists p1 p2 ph2 free2 fuel,
    rtc (step 20) (keep_thread, []) (p1, [sqe_of_req RQueuePoll toy_poll]) /\
    complete fuel (Cqe (WPtr (PReq RQueuePoll)) 1 2) (set_memory (p_buffers p1) (v_readbuf (p_verifier p1)) p1)
      = Ret (tt, p2) /\
    sys_ok (TI := sends_bytes) (D := no_claims) ph2 free2 p2 [sqe_of_req RQueuePoll toy_poll].
Proof.
  set (p1 := upd_p_loop (kernel_take (p_loop keep_thread)) keep_thread).
  set (e := sqe_of_req RQueuePoll toy_poll).
  assert (Hr : rtc (step 20) (keep_thread, []) (p1, [e])).
  { apply rtc_once, step_own. apply (step_take 20 keep_thread [] e []). reflexivity. }
  destruct (thread_never_faults 20 Up [0%nat] keep_thread [] p1 [e] keep_thread_ok Hr) as [_ Hf].
  destruct (Hf e 1 2 [e] (p_buffers p1) (v_readbuf (p_verifier p1))) as [n Hn].
  - exists [], []. split; [reflexivity|]. split; [discriminate|]. right.
    split; [reflexivity|]. split; [reflexivity|discriminate].
  - intros i w ?. discriminate.
  - split; [by apply Forall2_same_length_lookup_2; [|intros; simplify_eq]|reflexivity].
  - specialize (Hn n (Nat.le_refl n)).
    assert (Hx : match complete n (Cqe (sqe_user_data e) 1 2)
                 (set_memory (p_buffers p1) (v_readbuf (p_verifier p1)) p1) with
               | Ret _ => true | _ => false end = true) by (vm_compute; reflexivity).
    destruct (complete n (Cqe (sqe_user_data e) 1 2) _) as [[u p2]| | | |] eqn:Hc; try discriminate Hx.
    destruct Hn as (ph2 & free2 & Hs2). destruct u. exists p1, p2, ph2, free2, n.
    split; [exact Hr|]. split; [exact Hc|exact Hs2].
Defined.
