(* ===== verification/Boot.v ===== *)
(** * How a thread starts

    [processor_run] up to its event loop establishes the invariant of a running
    thread: [processor_setup] builds the slab and the rings and submits the
    poll, the verifier is zeroed, and [verifier_init] asks for the socket. *)

From stdpp Require Import base numbers list list_numbers gmap.
From S2P Require Import Prelude CStr Queue Ev Hasher Slab Quic Transport State Verifier Ride Processor.
From S2P Require Import Examples Thread Pipeline Connect ThreadInv System.

Open Scope Z_scope.

(** Asked for IPv4 addresses only, [getaddrinfo] fails or finds one. *)
Class NetV4 (C W : Type) `{!Net C W} :=
  addr_v4 w : fst (getaddrinfo w) = None \/ fst (getaddrinfo w) = Some SIZEOF_SOCKADDR_IN.

Section boot.
Context {H C W F : Type} `{!Blake3 H, !Blake3Laws H, !IoUring W, !Ngtcp2 C, !Host W, !Net C W, !NetV4 C W, !Malloc W}.
Context `{!Eventfd F, !EventfdSem F}.
Context (TI : quic C W -> list (list Z) -> Prop) (Ready : quic C W -> Prop) `{!Transport TI Ready}.
Context (D : claims).
Local Abbreviation sys_ok := (sys_ok (TI := TI) (D := D)).
Implicit Types (p : processor H C W F).

(** The address may be known from another thread; if not, it is an IPv4 one. *)
Definition addr_known p : Prop :=
  e_remote_addr (p_shared p) = None \/ e_remote_addr (p_shared p) = Some SIZEOF_SOCKADDR_IN.

Lemma init_addr_cases p :
  addr_known p ->
  init_addr p = Exit 1 \/
  exists u, init_addr p = Ret (tt, upd_p_shared (upd_e_remote_addr (Some SIZEOF_SOCKADDR_IN) (p_shared p))
                                    (upd_p_quic (set_qworld (p_quic p) u) p)).
Proof.
  intros Hr. unfold init_addr. rewrite bind_gets. destruct Hr as [-> | Hr].
  - destruct (world_op_ok getaddrinfo p) as (p1 & H1 & [u ->]). rewrite (bind_Ret _ _ _ _ _ H1).
    destruct (addr_v4 (C := C) (q_world (p_quic p))) as [-> | ->]; [by left|right; by exists u].
  - right. rewrite Hr. exists (q_world (p_quic p)).
    destruct p as [? ? ? ? ? ? ? [? ? ? ? ? ? ? ? []] []]. cbn in *. by rewrite Hr.
Qed.

Lemma ssl_init_cases p :
  verifier_ssl_init p = Exit 1 \/ exists p', verifier_ssl_init p = Ret (0, p') /\ world_only p p'.
Proof.
  unfold verifier_ssl_init.
  destruct (world_op_ok SSL_CTX_new p) as (p1 & H1 & W1).
  rewrite (bind_Ret _ _ _ _ _ H1). destruct (negb _); [by left|].
  destruct (world_op_ok ngtcp2_crypto_boringssl_configure_client_context p1) as (p2 & H2 & W2).
  rewrite (bind_Ret _ _ _ _ _ H2). destruct (negb _); [by left|].
  destruct (world_op_ok SSL_new p2) as (p3 & H3 & W3).
  rewrite (bind_Ret _ _ _ _ _ H3). destruct (negb _); [by left|]. right.
  destruct (world_op_ok (SSL_set_alpn_protos RIDE_ALPN) p3) as (p4 & H4 & W4).
  rewrite (bind_Ret _ _ _ _ _ H4). exists p4.
  split; [done|]. eauto using world_only_trans.
Qed.

Lemma verifier_init_cases p :
  addr_known p -> sq_wf (p_loop p) ->
  verifier_init p = Exit 1 \/
  exists u, verifier_init p = Ret (0, submitted RConn (socket_req_of ev_io_req_zero) (initialised u p)).
Proof.
  intros Hr Hwf. unfold verifier_init.
  rewrite (bind_Ret (req_get RTimer) _ p (v_timer_req (p_verifier p)) p eq_refl). unfold req_put.
  rewrite !bind_modify. set (p2 := upd_p_quic _ _).
  destruct (init_addr_cases p2 Hr) as [H1|[u1 H1]]; [left; unfold mbind, M_bind; by rewrite H1|].
  rewrite (bind_Ret _ _ _ _ _ H1). set (p3 := upd_p_shared _ _).
  destruct (ssl_init_cases p3) as [H2|(p4 & H2 & [u2 E2])]; [left; unfold mbind, M_bind; by rewrite H2|].
  right. exists u2. rewrite (bind_Ret _ _ _ _ _ H2), bind_modify.
  set (p5 := req_set RConn ev_io_req_zero p4).
  assert (Hwf5 : sq_wf (p_loop p5)) by (unfold p5; by rewrite E2).
  rewrite (bind_Ret _ _ _ _ _ (verifier_connect_eq p5 ev_io_req_zero eq_refl Hwf5)).
  unfold p5. by rewrite E2.
Qed.

(** The slots of the zeroed verifier hold nothing. *)
Lemma zeroed_idle (q : quic C W) u :
  idle_slots (set_qworld (set_slots (v_quic (verifier_zero q)) (slots_init (q_slots (v_quic (verifier_zero q))))) u).
Proof.
  split; [by vm_compute|]. eexists _, _. split; [reflexivity|]. split; [|done]. split; [|unfold STREAM_DATA_SIZE; cbn; lia].
  cbn [sdata]. unfold quic_stream_zero. cbn [sdata]. by rewrite length_replicate.
Qed.

(** A thread whose poll is its only submission, with the socket still to be
    asked for. *)
Lemma sys_first n (h0 : hasher H) (p : processor H C W F) :
  thread_ok (seq 0 n) p -> slab_setup h0 true n = Ret (p_slab p) -> conn_ok Creating p ->
  queue_wf (e_queue (p_shared p)) /\ Forall (event_ok (cl_path D)) (contents (e_queue (p_shared p))) ->
  data (p_queue_poll p) = Some PProcessor /\ callback (p_queue_poll p) = Some on_queue_event_cb ->
  sq_pending (p_loop p) = [sqe_of_req RQueuePoll (p_queue_poll p)] -> e_heap (p_shared p) = ∅ ->
  (forall i f, ~ cl_holds D i f) -> q_accepted (p_quic p) = [] -> e_out (p_shared p) = [] ->
  sys_ok Creating (seq 0 n) p [].
Proof.
  intros Ht Hsl Hc Hq Hp Hpend Hh Hnh Hacc Hout.
  pose proof (slab_setup_data h0 n (p_slab p) Hsl) as Hd. rewrite Forall_lookup in Hd.
  assert (Hall : forall i w, reqs (p_slab p) !! i = Some w -> i ∈ seq 0 n).
  { intros i w Hi%lookup_lt_Some. apply elem_of_seq. destruct n as [|m]; [done|].
    destruct (slab_setup_wf h0 (S m) ltac:(lia)) as (s & Hs & _ & Hl). rewrite Hsl in Hs.
    injection Hs as <-. lia. }
  split; try done; rewrite ?app_nil_r, ?Hpend, ?Hh.
  - intros e ->%list_elem_of_singleton. exists RQueuePoll, (p_queue_poll p). done.
  - simpl. lia.
  - constructor.
  - intros i w Hw Hi. destruct Hi. by eapply Hall.
  - intros i w Hw _. by eapply Hd.
  - intros i f Hf. by destruct (Hnh i f).
  - exists []. rewrite Hout. split; [done|apply mirrors_nil].
  - intros a [x Hx]. by rewrite lookup_empty in Hx.
  - intros a [x Hx]. by rewrite lookup_empty in Hx.
  - intros i j wi wj a Hi _ Ha. by rewrite (Hd _ _ Hi) in Ha.
Qed.

(** What the rest of the process has prepared for the thread: a queue of events
    of the hook with paths of the kind [G], no strings of the thread's, the
    verifier's address not looked up yet or an IPv4 one; nothing is printed or
    sent yet. *)
Definition start_env (G : list Z -> Prop) (p : processor H C W F) : Prop :=
  queue_wf (e_queue (p_shared p)) /\ Forall (event_ok G) (contents (e_queue (p_shared p))) /\
  e_heap (p_shared p) = ∅ /\
  (e_remote_addr (p_shared p) = None \/ e_remote_addr (p_shared p) = Some SIZEOF_SOCKADDR_IN) /\
  e_out (p_shared p) = [] /\ q_accepted (p_quic p) = [].

(** What the kernel and the allocator give the thread: an empty ring and a
    buffer for every task. *)
Record start_memory (args : processor_args) (bufs : list (list Z)) (l : ev_loop) : Prop := {
  sm_tasks : (0 < Z.to_nat (pa_io_concurrency args))%nat;
  sm_bufs : length bufs = Z.to_nat (pa_io_concurrency args);
  sm_sizes : Forall (fun b => Z.of_nat (length b) = READ_BUF_SIZE) bufs;
  sm_ring : sq_wf l;
  sm_empty : sq_pending l = [];
}.

Lemma processor_start_fine args bufs (h0 : hasher H) l u p :
  (forall i f, ~ cl_holds D i f) ->
  start_memory args bufs l -> start_env (cl_path D) p ->
  ev_loop_init (None, q_world (p_quic p)) = Ret (0, (Some l, u)) ->
  processor_start args (Some bufs) true h0 p = Exit 1 \/
  exists p', processor_start args (Some bufs) true h0 p = Ret (0, p') /\
    sys_ok Creating (seq 0 (Z.to_nat (pa_io_concurrency args))) p' [] /\
    p_shared p' = upd_e_remote_addr (Some SIZEOF_SOCKADDR_IN) (p_shared p) /\
    length (reqs (p_slab p')) = Z.to_nat (pa_io_concurrency args) /\ sq_size (p_loop p') = sq_size l /\
    (1 < sq_size l -> exists q1 q2, sq_pending (p_loop p') = [sqe_of_req RQueuePoll q1; sqe_of_req RConn q2]).
Proof.
  intros Hnh [Hn Hbl Hb Hwf Hem] (Hqw & Hqe & Hh & Hra & Hout & Hacc) Hl. set (n := Z.to_nat _) in *.
  destruct (processor_setup_eq args bufs h0 l u p Hn Hbl Hb Hl Hwf) as (p2 & Hp & Hs & Ht & El & Hd & Hcb & _ & Esh & Eacc).
  unfold processor_start. rewrite (bind_Ret _ _ _ _ _ Hp), bind_modify.
  set (p3 := submitted _ _ p2). set (p4 := upd_p_verifier _ p3).
  assert (Hroom : sq_len l < sq_size l).
  { rewrite <- length_sq_pending, Hem. apply sq_size_pos in Hwf. simpl. lia. }
  assert (Hpend : sq_pending (p_loop p3) = [sqe_of_req RQueuePoll (p_queue_poll p2)]).
  { unfold p3. rewrite submitted_pending; rewrite El; [by rewrite Hem|done|done]. }
  pose proof (submitted_frame RQueuePoll (p_queue_poll p2) p2) as (E1 & E2 & E3 & E4 & E5 & _ & _ & v0 & Ev).
  fold p3 in E1, E2, E5, Ev.
  pose proof (submitted_thread_ok _ RQueuePoll (p_queue_poll p2) p2 Ht) as Ht3. fold p3 in Ht3.
  assert (Ha : addr_known p4) by (unfold addr_known; change (p_shared p4) with (p_shared p3); by rewrite E2, Esh).
  destruct (verifier_init_cases p4 Ha (to_sq _ _ Ht3)) as [Hi|[v Hi]]; [by left|right].
  eexists. split; [exact Hi|]. split; [apply sys_submit; try done|].
  3: { set (p5 := submitted RConn _ _).
    destruct (submitted_frame RConn (socket_req_of ev_io_req_zero) (initialised v p4)) as (F1 & F2 & _). fold p5 in F1, F2.
    split; [rewrite F2; cbn; by rewrite E2, Esh|]. split; [|split].
    - rewrite F1. change (p_slab (initialised v p4)) with (p_slab p3). rewrite E1.
      destruct (slab_setup_wf h0 n Hn) as (s & Hs' & _ & Hlen).
      change (slab_setup h0 true n = Ret (p_slab p2)) in Hs. rewrite Hs in Hs'. by injection Hs' as ->.
    - unfold p5. rewrite submitted_size. change (p_loop (initialised v p4)) with (p_loop p3).
      unfold p3. by rewrite submitted_size, El.
    - intros Hsz. eexists _, _. unfold p5. rewrite submitted_pending; [|apply (to_sq _ _ Ht3)|].
      + change (p_loop (initialised v p4)) with (p_loop p3). by rewrite Hpend.
      + change (p_loop (initialised v p4)) with (p_loop p3). rewrite <- length_sq_pending, Hpend. cbn [length].
        unfold p3. rewrite submitted_size, El. lia. }
  - apply (sys_first n h0).
    + by destruct Ht3.
    + cbn. by rewrite E1.
    + split_and!; try done. apply zeroed_idle.
    + change (e_queue _) with (e_queue (p_shared p3)). by rewrite E2, Esh.
    + cbn. by rewrite E5.
    + cbn. by rewrite E5.
    + cbn. by rewrite E2, Esh.
    + done.
    + change (q_accepted (p_quic p3) = []). unfold p_quic. rewrite Ev. cbn. congruence.
    + cbn. by rewrite E2, Esh.
  - intros _. cbn [p_loop initialised]. rewrite app_nil_r.
    change (p_loop (initialised v p4)) with (p_loop p3). by rewrite Hpend.
Qed.
End boot.

Section from_the_start.
Context {H C W F : Type} `{!Blake3 H, !Blake3Laws H, !IoUring W, !Ngtcp2 C, !Host W, !Net C W, !NetV4 C W, !Malloc W}.
Context `{!Eventfd F, !EventfdSem F, !Ngtcp2Laws C, !StreamLaws C, !HostLaws W}.
Local Abbreviation good := (sys_ok (TI := sends_bytes) (D := no_claims)).

(** A thread from its start: with memory and a ring for at least one task,
    [processor_run] exits or reaches its event loop in the good state in which
    all containers are free and the poll and the request for the socket are
    submitted; and from there, through the connection set-up and for ever
    after, every completion the kernel can deliver in any reachable state is
    handled to its end without a failing assertion or undefined behaviour, and
    leaves a good state again, unless the process exits; except that the end of
    a file is only handled so when a report can be made ([report_ready]). *)
Theorem started_thread_never_faults vfuel args bufs (h0 : hasher H) l u (p : processor H C W F) :
  start_memory args bufs l -> start_env any_path p ->
  ev_loop_init (None, q_world (p_quic p)) = Ret (0, (Some l, u)) ->
  match processor_start args (Some bufs) true h0 p with
  | Ret (r, p1) =>
      r = 0 /\ good Creating (seq 0 (Z.to_nat (pa_io_concurrency args))) p1 [] /\
      forall p' K' e res fl K2 bufs rb,
        rtc (step vfuel) (p1, []) (p', K') ->
        kernel_completes K' e res fl K2 -> report_ready e res p' -> same_memory bufs rb p' ->
        exists n, forall fuel, (n <= fuel)%nat ->
          match complete fuel (Cqe (sqe_user_data e) res fl) (set_memory bufs rb p') with
          | Ret (_, p2) => exists ph2 free2, good ph2 free2 p2 K2
          | Exit _ => True
          | AssertFailed | Undef _ | OutOfFuel => False
          end
  | Exit _ => True
  | AssertFailed | Undef _ | OutOfFuel => False
  end.
Proof.
  intros Hm He Hl.
  destruct (processor_start_fine sends_bytes any_time no_claims args bufs h0 l u p (proj1 (proj2 no_claims_claimless)) Hm He Hl)
    as [->|(p1 & -> & Hs & _)]; [done|].
  split; [done|]. split; [done|]. intros p' K' e res fl K2 bufs' rb Hr Hk Hrr Hmem.
  destruct (steps_ok vfuel _ any_time no_claims _ _ (p1, []) (p', K') no_claims_claimless (fun _ => I) Hs Hr) as (ph' & free' & Hs').
  by eapply completion_good.
Qed.
End from_the_start.

(** ** Shutdown *)

Section shutdown.
Context {H C W F : Type} `{!Blake3 H, !IoUring W, !Ngtcp2 C, !Host W, !Net C W, !Malloc W, !Eventfd F}.

Lemma processor_run_never_returns vfuel turns args bufs alloc h0 (p : processor H C W F) r p' :
  processor_run vfuel turns args bufs alloc h0 p <> Ret (r, p').
Proof.
  unfold processor_run. intros (r1 & p1 & _ & Hx)%bind_Ret_inv. by apply ev_loop_run_never_returns in Hx.
Qed.

(** [pthread_join] returns only for a thread whose function has returned, and
    the function of a thread is [processor_run]. *)
Definition join_waits (env : run_env) : Prop :=
  forall i, env_join env i = true -> exists vfuel turns args bufs alloc h0 (p : processor H C W F) r p',
    processor_run vfuel turns args bufs alloc h0 p = Ret (r, p').

(** C35. There is no clean shutdown: the processor threads have no way to end, so
    that whatever the calls of a run give, it never returns [EXIT_SUCCESS]. When
    the set-up succeeded, with a ring buffer and at least the first thread, and a
    signal has arrived and is passed on to the quit eventfd, the program waits in
    [pthread_join] for ever, with all its threads. *)
Theorem ride_run_never_succeeds env :
  join_waits env ->
  (forall r, ride_run env = Ret r -> run_status r <> Returned EXIT_SUCCESS) /\
  forall args ro ts k signals res,
    ride_setup env = Ret (inr (args, ro, ts)) -> env_rb env = true -> thread_created env 0 ->
    env_polls env !! k = Some (signals, res) -> signals <> [] -> env_quit_write_fails env = false ->
    ride_run env = Ret {| run_status := BlockedInJoin; run_rodata := Some ro; run_threads := ts |}.
Proof.
  intros Hw. apply ride_run_waits. intros i. destruct (env_join env i) eqn:Hj; [|done].
  destruct (Hw i Hj) as (vfuel & turns & args & bufs & alloc & h0 & p & r & p' & Hx).
  by apply processor_run_never_returns in Hx.
Qed.
End shutdown.

(** ** Witness *)

#[local] Existing Instances keep_ngtcp2 keep_host keep_ngtcp2_laws keep_host_laws keep_net keep_streams.

#[local] Instance keep_v4 : NetV4 keep_conn nat.
Proof. intros w. by right. Qed.

Lemma keep_start_env (G : list Z -> Prop) : G [47; 116; 47; 97] -> start_env G keep_thread.
Proof.
  intros HG. split; [split; [by vm_compute|split; by vm_compute]|].
  assert (Hc : contents (e_queue (p_shared keep_thread)) = [toy_event]) by reflexivity.
  rewrite Hc. split; [|split_and!; [reflexivity|left; reflexivity|reflexivity..]]. constructor; [|constructor].
  exists [47; 116; 47; 97]. split; [reflexivity|]. split; [done|]. split; [simpl; lia|by left].
Qed.

Definition keep_ring : ev_loop :=
  EvLoop (IouRing 0 0 1 0) (IouRing 0 0 1 0) [sqe_zero; sqe_zero] [Cqe (WInt 0) 0 0; Cqe (WInt 0) 0 0] 3.

Lemma keep_start_memory : start_memory toy_args [replicate (Z.to_nat READ_BUF_SIZE) 0] keep_ring.
Proof.
  split.
  - simpl. lia.
  - reflexivity.
  - repeat constructor.
  - split; [exact is_mask_1|]. repeat split; vm_compute; congruence.
  - reflexivity.
Qed.

(** The thread starts, the kernel takes the poll and the request for the
    socket, and completes the second. *)
Lemma started_thread_never_faults_witness :
  exists p1 p2 K K2 p3 ph free n,
    processor_start toy_args (Some [replicate (Z.to_nat READ_BUF_SIZE) 0]) true (Hasher []) keep_thread = Ret (0, p1) /\
    rtc (step 20) (p1, []) (p2, K) /\ length K = 2%nat /\
    complete n (Cqe (WPtr (PReq RConn)) 9 0) (set_memory (p_buffers p2) (v_readbuf (p_verifier p2)) p2) = Ret (tt, p3) /\
    sys_ok (TI := sends_bytes) (D := no_claims) ph free p3 K2.
Proof.
  pose proof (started_thread_never_faults 20 toy_args [replicate (Z.to_nat READ_BUF_SIZE) 0] (Hasher []) keep_ring
    (snd (match ev_loop_init (None, 0%nat) with Ret (_, s) => s | _ => (None, 0%nat) end))
    keep_thread keep_start_memory (keep_start_env any_path I) eq_refl) as Hx.
  set (m := processor_start toy_args _ true (Hasher []) keep_thread) in *.
  assert (Hr : forall n, match m with
    | Ret (_, p1) =>
        let p2 := upd_p_loop (kernel_take (kernel_take (p_loop p1))) p1 in
        match sq_pending (p_loop p1), sq_pending (kernel_take (p_loop p1)) with
        | [_; _], [e2] =>
            match sqe_user_data e2,
              complete n (Cqe (WPtr (PReq RConn)) 9 0) (set_memory (p_buffers p2) (v_readbuf (p_verifier p2)) p2) with
            | WPtr (PReq RConn), Ret _ => sqe_opcode e2 =? IORING_OP_SOCKET
            | _, _ => false
            end
        | _, _ => false
        end
    | _ => false
    end = true) by (intros n; vm_compute; reflexivity).
  destruct m as [[r p1]| | | |]; try discriminate (Hr 0%nat). destruct Hx as (-> & _ & Hx). cbv zeta in Hr.
  set (p2 := upd_p_loop (kernel_take (kernel_take (p_loop p1))) p1) in *.
  destruct (sq_pending (p_loop p1)) as [|e1 [|e1' [|? ?]]] eqn:H1; try discriminate (Hr 0%nat).
  destruct (sq_pending (kernel_take (p_loop p1))) as [|e2 [|? ?]] eqn:H2; try discriminate (Hr 0%nat).
  destruct (sqe_user_data e2) as [|[[]| | | | | | | | ]] eqn:Hu; try discriminate (Hr 0%nat).
  specialize (Hx p2 [e1; e2] e2 9 0 [e1] (p_buffers p2) (v_readbuf (p_verifier p2))). rewrite Hu in Hx.
  assert (Hop : sqe_opcode e2 = IORING_OP_SOCKET)
    by (specialize (Hr 0%nat); destruct (complete 0 _ _) as [[[] ?]| | | |]; try discriminate Hr; by apply Z.eqb_eq in Hr).
  assert (Hst : rtc (step 20) (p1, []) (p2, [e1; e2])).
  { eapply rtc_l; [by apply step_own, (step_take 20 p1 [] e1 [e1'])|].
    by apply rtc_once, step_own, (step_take 20 (upd_p_loop (kernel_take (p_loop p1)) p1) [e1] e2 []). }
  destruct Hx as (n & Hn); [exact Hst| | | |].
  - exists [e1], []. split; [reflexivity|]. split; [rewrite Hop; discriminate|by left].
  - intros i w _ _ Ho. rewrite Hop in Ho. discriminate.
  - split; [by apply Forall2_same_length_lookup_2; [|intros; simplify_eq]|reflexivity].
  - specialize (Hn n (Nat.le_refl n)). specialize (Hr n).
    destruct (complete n _ _) as [[[] p3]| | | |] eqn:Hc; try discriminate Hr. destruct Hn as (ph & free & Hs).
    exists p1, p2, [e1; e2], [e1], p3, ph, free, n. split_and!; done.
Defined.

(** The program of four threads is told to stop. *)
Lemma ride_run_never_succeeds_witness :
  exists ro ts, length ts = 4%nat /\
    ride_run env_ok = Ret {| run_status := BlockedInJoin; run_rodata := Some ro; run_threads := ts |}.
Proof.
  destruct (ride_setup env_ok) as [[r|[[args ro] ts]]| | | |] eqn:Hs; [exfalso; revert Hs; vm_compute; discriminate|
    |exfalso; revert Hs; vm_compute; discriminate..].
  assert (Hl : length ts = 4%nat) by (revert Hs; vm_compute; intros [= _ _ <-]; reflexivity).
  exists ro, ts. split; [exact Hl|].
  assert (Hw : join_waits (H := list Z) (C := keep_conn) (W := nat) (F := N) env_ok) by (by intros i).
  destruct (ride_run_never_succeeds env_ok Hw) as [_ Hb].
  apply (Hb args ro ts 1%nat [15] 0 Hs); [reflexivity..|discriminate|reflexivity].
Defined.
