(* ===== verification/Files.v ===== *)
(** * Threads on files

    A thread with many files in flight, run against a kernel that serves files:
    the descriptors it has open and what it reports about the files. *)

From stdpp Require Import base numbers list list_numbers gmap.
From S2P Require Import Prelude CStr Queue Ev Hasher Slab Quic Transport State Verifier Ride Processor.
From S2P Require Import Examples Thread Pipeline Connect ThreadInv System Boot.

Open Scope Z_scope.

(** The open files of a thread, by descriptor: the container each was opened
    for, and the content. *)
Abbreviation files := (gmap Z (nat * list Z)).

(** The descriptors that are closed leave the table. *)
Definition closes (o : list effect) (T : files) : files :=
  foldr (fun x T => match x with EClose f => delete f T | EWrite _ => T end) T o.

Section file_steps.
Context {H C W F : Type} `{!Blake3 H, !IoUring W, !Ngtcp2 C, !Host W, !Net C W, !Malloc W, !Eventfd F}.
Local Abbreviation P := (processor H C W F).
(** How the kernel may answer a request when these files are open, and the files
    that are open then. *)
Context (Kern : files -> P -> io_uring_sqe -> Z -> list (list Z) -> files -> Prop) (vfuel : nat).
Implicit Types (p : P).

(** The steps of [System.own_step], with the open files. *)
Inductive file_own_step : P * list io_uring_sqe * files -> P * list io_uring_sqe * files -> Prop :=
  | file_take p K T e rest :
      sq_pending (p_loop p) = e :: rest ->
      file_own_step (p, K, T) (upd_p_loop (kernel_take (p_loop p)) p, K ++ [e], T)
  | file_world p K T u :
      file_own_step (p, K, T) (upd_p_quic (set_qworld (p_quic p) u) p, K, T)
  | file_complete p K K' T T1 e res fl bufs rb p' o :
      kernel_completes K e res fl K' -> same_memory bufs rb p ->
      Kern T p e res bufs T1 ->
      complete vfuel (Cqe (sqe_user_data e) res fl) (set_memory bufs rb p) = Ret (tt, p') ->
      e_out (p_shared p') = e_out (p_shared p) ++ o ->
      file_own_step (p, K, T) (p', K', closes o T1).

(** Other threads act on the queue and the eventfd. *)
Inductive file_step (G : list Z -> Prop) : P * list io_uring_sqe * files -> P * list io_uring_sqe * files -> Prop :=
  | file_own x x' : file_own_step x x' -> file_step G x x'
  | file_queue p K T q f :
      queue_wf q -> Forall (event_ok G) (contents q) ->
      file_step G (p, K, T) (upd_p_shared (upd_e_queue q (upd_e_efd f (p_shared p))) p, K, T).

(** Without the files these are steps of the thread. *)
Lemma file_own_step_own p K T p' K' T' : file_own_step (p, K, T) (p', K', T') -> own_step vfuel (p, K) (p', K').
Proof. intros Hst. inversion Hst; subst; [by eapply step_take|by eapply step_world|by eapply step_complete]. Qed.
End file_steps.

(** A kernel that gives any results. *)
Definition any_kernel {H C W F : Type} (T : files) (p : processor H C W F) (e : io_uring_sqe) (res : Z)
    (bufs : list (list Z)) (T1 : files) : Prop := True.

Section serving.
(** The content of the files, by path: no longer than a 64-bit offset can say. *)
Context (fs : list Z -> option (list Z)).
Context (fs_small : forall s c, fs s = Some c -> Z.of_nat (length c) < 2 ^ 64).

Section kernel.
Context {H C W F : Type}.
Implicit Types (p : processor H C W F).

(** How the kernel answers [e] with [res], having written [bufs]. An open that
    succeeds gives a descriptor that is not in use, of the file at the path the
    request points at; a read that succeeds gives bytes of the open file from
    the offset on, and none only when there are none left; other requests do
    not touch the files. *)
Inductive kernel_serves (T : files) p (e : io_uring_sqe) (res : Z) (bufs : list (list Z)) : files -> Prop :=
  | serves_open a str s c i :
      sqe_opcode e = IORING_OP_OPENAT -> 0 <= res -> slot_of e = Some i ->
      sqe_addr e = WPtr (PStr a) -> e_heap (p_shared p) !! a = Some str -> c_string str = Some s ->
      fs s = Some c -> T !! res = None ->
      kernel_serves T p e res bufs (<[res := (i, c)]> T)
  | serves_read j c o k buf :
      sqe_opcode e = IORING_OP_READ -> 0 <= res -> T !! sqe_fd e = Some (j, c) ->
      sqe_off e = WInt o -> sqe_addr e = WPtr (PBuffer k) -> bufs !! k = Some buf ->
      take (Z.to_nat res) buf = take (Z.to_nat res) (drop (Z.to_nat o) c) ->
      (res = 0 -> Z.of_nat (length c) <= o) ->
      kernel_serves T p e res bufs T
  | serves_other :
      res < 0 \/ sqe_opcode e <> IORING_OP_OPENAT /\ (sqe_opcode e = IORING_OP_READ -> T !! sqe_fd e = None) ->
      kernel_serves T p e res bufs T.
End kernel.

(** The kind of paths that are handled. *)
Context (G : list Z -> Prop) (G_nil : G []).

Section steps.
Context {H C W F : Type} `{!Blake3 H, !Blake3Laws H, !IoUring W, !Ngtcp2 C, !Host W, !Net C W, !Malloc W}.
Context `{!Eventfd F, !EventfdSem F}.
Context (vfuel : nat) (TI : quic C W -> list (list Z) -> Prop) (Ready : quic C W -> Prop) `{!Transport TI Ready}.
Local Abbreviation P := (processor H C W F).
Implicit Types (p : processor H C W F) (w : processor_iou_req H) (K : list io_uring_sqe).

(** What is claimed of the files being read when these are open, leaving aside
    what container [x] holds: each container reads the file at its path, and
    has hashed a first part of it; reports have the digest of the file at their
    path. *)
Definition claims_but (x : option nat) (T : files) : claims :=
  Claims G (fun s h => G s /\ exists c, fs s = Some c /\ h = digest c)
         (fun i s f b => exists c, T !! f = Some (i, c) /\ fs s = Some c /\ b `prefix_of` c)
         (fun i f => x <> Some i /\ exists c, T !! f = Some (i, c)) G_nil.

Definition file_claims : files -> claims := claims_but None.

(** ** What a completion does to its container, and what it writes *)

(** Nothing is written but by [on_file_read]. *)
Lemma complete_quiet r q res fl p p' :
  req_at r p = Some q -> callback q <> Some on_file_read_cb ->
  complete vfuel (Cqe (WPtr (PReq r)) res fl) p = Ret (tt, p') -> e_out (p_shared p') = e_out (p_shared p).
Proof.
  intros Hq Hcb. unfold complete, ev_complete. cbn [cqe_user_data cqe_res cqe_flags]. rewrite bind_modify.
  pose proof (frame_store_result (fun _ => False) r res fl p) as Hf. revert Hf.
  unfold store_result. rewrite Hq. set (q' := EvIoReq _ _ _ _ _ _ _ _ _ _ _). set (p0 := req_set r q' p).
  intros Hf Hc.
  assert (Hq' : req_get r p0 = Ret (q', p0)).
  { unfold req_get. assert (req_at r p0 = Some q') as ->; [|done]. destruct r; try done. cbn in Hq |- *.
    destruct (reqs (p_slab p) !! i) as [w|] eqn:Hw; [|done]. rewrite list_lookup_alter_eq, Hw. done. }
  unfold run_callback in Hc. rewrite (bind_Ret _ _ _ _ _ Hq') in Hc.
  change (callback q') with (callback q) in Hc.
  assert (Hx : thread_frame (fun _ => False) p0 p').
  { destruct (callback q) as [[]|]; try done; revert Hc;
      [apply ok_on_queue_event|apply ok_on_file_open|apply ok_on_socket_create|apply ok_on_socket_connect
      |apply ok_on_socket_read|apply ok_on_socket_timeout|apply ok_on_socket_timeout_update]. }
  destruct (transitivity (R := thread_frame _) Hf Hx) as [_ _ _ _ _ _ (o & -> & Ho) _].
  destruct o as [|y o]; [by rewrite app_nil_r|]. by apply Forall_cons in Ho as [[] _].
Qed.

(** A completed open: the container reads from the new descriptor. *)
Lemma open_completed free i w res fl p p' :
  thread_ok free p -> i ∉ free -> reqs (p_slab p) !! i = Some w ->
  callback (pr_req w) = Some on_file_open_cb -> 0 <= res ->
  complete vfuel (Cqe (WPtr (PReq (RSlot i))) res fl) p = Ret (tt, p') ->
  exists w', reqs (p_slab p') !! i = Some w' /\ reads_from res w' /\ in_flight w' = 1 /\
    pr_data w' = pr_data w /\ off (pr_req w') = WInt 0 /\ e_heap (p_shared p') = e_heap (p_shared p).
Proof.
  intros Ht Hi Hw Hcb Hr. rewrite (complete_slot vfuel i w) by done. rewrite Hcb.
  destruct (in_flight_entry free i w p (to_slab _ _ Ht) Hi Hw) as (Hn & _ & _ & Hf).
  pose proof (lookup_lt_Some _ _ _ Hw) as Hlt. set (w1 := set_pr_req w _).
  rewrite (on_file_open_ok i w1) by (done || by apply put_lookup || apply Ht).
  intros [= <-]. exists (opened w1).
  match goal with |- context [submitted ?r ?q ?p0] => pose proof (submitted_frame r q p0) as (E1 & E2 & _) end.
  rewrite E1, E2. split; [by rewrite put_put, put_lookup|done].
Qed.

(** A completed read: the container goes on with its descriptor, or it is free
    again and the descriptor closed, after the line if the file is read. *)
Lemma read_completed D free i w a s res fl p p' :
  thread_ok free p -> i ∉ free -> reqs (p_slab p) !! i = Some w -> file_slot (D := D) (p_shared p) i w a s ->
  callback (pr_req w) = Some on_file_read_cb -> res <= READ_BUF_SIZE ->
  complete vfuel (Cqe (WPtr (PReq (RSlot i))) res fl) p = Ret (tt, p') ->
  let f := fd (pr_req w) in
  exists w', reqs (p_slab p') !! i = Some w' /\
    (0 < res /\ e_out (p_shared p') = e_out (p_shared p) /\ reads_from f w' /\ in_flight w' = 1 /\
       pr_data w' = pr_data w /\ e_heap (p_shared p') = e_heap (p_shared p) /\
       (forall o, off (pr_req w) = WInt o -> off (pr_req w') = WInt (u64 (o + res))) \/
     res < 0 /\ e_out (p_shared p') = e_out (p_shared p) ++ [EClose f] /\ in_flight w' = 0 \/
     res = 0 /\ in_flight w' = 0 /\ e_out (p_shared p') = e_out (p_shared p) ++
       [EWrite (hash_line (p_id p) (Z.of_nat i) s (blake3_hasher_finalize (blake (pr_hasher w)) HASH_LEN)); EClose f]).
Proof.
  intros Ht Hi Hw (Ha & Hh & [Hns _] & Hl & Hd2 & Hu) Hcb Hres Hc f. revert Hc.
  destruct Hu as [(Hx & _)|(_ & Hop & Hlen & Had & b & _ & Hoff & Hha)]; [congruence|].
  rewrite (complete_slot vfuel i w) by done. rewrite Hcb.
  destruct (in_flight_entry free i w p (to_slab _ _ Ht) Hi Hw) as (Hn & _ & Hid & Hf).
  destruct (to_bufs _ _ Ht i (lookup_lt_Some _ _ _ Hw)) as (buf & Hbuf & Hbl).
  pose proof (lookup_lt_Some _ _ _ Hw) as Hlt. set (w1 := set_pr_req w _). set (p0 := put i w1 p).
  assert (Hw1 : reqs (p_slab p0) !! i = Some w1) by (by apply put_lookup).
  destruct (Z.lt_trichotomy res 0) as [Hr|[Hr|Hr]].
  - rewrite (on_file_read_fail i w1 a (s ++ [0])) by done. intros [= <-].
    eexists. split; [cbn; apply list_lookup_insert_eq; by rewrite length_insert|]. right; left. done.
  - rewrite (on_file_read_eof i w1 i buf a s) by (done || apply Ht).
    destruct (verifier_verify_hash _ _ _ _ _ _) as [[v q]| | | |]; try done. intros [= <-].
    eexists. split; [cbn; apply list_lookup_insert_eq; by rewrite length_insert|]. right; right.
    split; [done|]. split; [done|]. cbn. by rewrite <- app_assoc, Hid.
  - rewrite (on_file_read_more i w1 i buf (u64 (Z.of_nat (length b)))) by (done || apply Ht || (cbn; lia)).
    intros [= <-]. set (w2 := advanced w1 _ _ _). set (q := set_off _ _).
    destruct (submitted_frame (RSlot i) q (put i w2 p0)) as (E1 & E2 & _).
    eexists. rewrite E1, E2. split; [apply put_lookup; cbn; by rewrite length_insert|]. left. split_and!; try done.
    intros o Ho. rewrite Hoff in Ho. by injection Ho as <-.
Qed.

(** Is the container free? *)
Lemma free_entry free i w p :
  slab_wf (p_slab p) free -> reqs (p_slab p) !! i = Some w -> in_flight w = 0 -> i ∈ free.
Proof.
  intros Hs Hw Hf. destruct (decide (i ∈ free)) as [|Hi]; [done|].
  destruct (in_flight_entry free i w p Hs Hi Hw) as (_ & _ & _ & Hx). lia.
Qed.

Lemma used_entry free i w p :
  slab_wf (p_slab p) free -> reqs (p_slab p) !! i = Some w -> in_flight w = 1 -> i ∉ free.
Proof.
  intros (_ & _ & _ & He) Hw Hf Hi. destruct (He i w Hw) as (_ & _ & Hx).
  rewrite bool_decide_true in Hx by done. lia.
Qed.

(** ** The files, and what is claimed of them *)

Local Abbreviation sys_ok D := (sys_ok (TI := TI) (D := D)).

Lemma serves_entry T p e res bufs T1 f j c :
  kernel_serves T p e res bufs T1 -> T1 !! f = Some (j, c) ->
  T !! f = Some (j, c) \/ slot_of e = Some j /\ sqe_opcode e = IORING_OP_OPENAT /\ f = res.
Proof.
  intros []; [|by left..]. intros [[<- [= <- <-]]|[_ Hx]]%lookup_insert_Some; [by right|by left].
Qed.

Lemma serves_mono T p e res bufs T1 f x :
  kernel_serves T p e res bufs T1 -> T !! f = Some x -> T1 !! f = Some x.
Proof. intros Hk Hx. destruct Hk; [|done..]. rewrite lookup_insert_ne; [done|]. congruence. Qed.

(** Only an open changes the table. *)
Lemma serves_same T p e res bufs T1 :
  kernel_serves T p e res bufs T1 -> sqe_opcode e <> IORING_OP_OPENAT \/ res < 0 -> T1 = T.
Proof. intros Hk Hx. destruct Hk; [|done..]. destruct Hx; [done|lia]. Qed.

(** While the completion of [e] is handled, its container is left aside. *)
Lemma sys_aside T p e res bufs T1 ph free K :
  sys_ok (file_claims T) ph free p K -> kernel_serves T p e res bufs T1 ->
  sys_ok (claims_but (slot_of e) T1) ph free p K.
Proof.
  intros Hs Hk. apply (sys_weaken _ _ _ _ _ _ Hs); [|done|done|].
  - intros i s f b _ (c & Hf & Hc). exists c. split; [by eapply serves_mono|done].
  - intros i f (Hi & c & Hf). left. split; [done|]. exists c.
    by destruct (serves_entry _ _ _ _ _ _ _ _ _ Hk Hf) as [?|[? _]].
Qed.

Lemma prefix_read (b c : list Z) n : b `prefix_of` c -> (b ++ take n (drop (length b) c)) `prefix_of` c.
Proof. intros [k ->]. rewrite drop_app_length. apply prefix_app, prefix_take. Qed.

Lemma small_offset s c b : fs s = Some c -> b `prefix_of` c -> u64 (Z.of_nat (length b)) = Z.of_nat (length b).
Proof. intros Hc Hb%prefix_length. pose proof (fs_small s c Hc). apply u64_small. lia. Qed.

(** The whole file is hashed when the kernel has nothing left. *)
Lemma served_whole T p e res bufs T1 f i s b c :
  kernel_serves T p e res bufs T1 -> res = 0 -> sqe_opcode e = IORING_OP_READ -> sqe_fd e = f ->
  sqe_off e = WInt (u64 (Z.of_nat (length b))) -> T !! f = Some (i, c) -> fs s = Some c -> b `prefix_of` c -> b = c.
Proof.
  intros Hk Hr Hop Hfd Hoff Hf Hs Hb.
  destruct Hk as [a str s' c' i' Ho|j c' o k buf _ _ Hc Ho _ _ _ Hend|[?|[_ Hno]]].
  { by rewrite Hop in Ho. } 2: { lia. } 2: { specialize (Hno Hop). congruence. }
  rewrite Hfd, Hf in Hc. injection Hc as <- <-. rewrite Hoff, (small_offset s c b) in Ho by done. injection Ho as <-.
  specialize (Hend Hr). destruct Hb as [[|x k'] ->]; [by rewrite app_nil_r|]. rewrite length_app in Hend. cbn in Hend. lia.
Qed.

(** When the answer ends a file, the connection is as [Ready] says. *)
Definition ready_at (e : io_uring_sqe) (res : Z) p : Prop :=
  is_Some (slot_of e) -> sqe_opcode e = IORING_OP_READ -> res = 0 -> Ready (p_quic p).

(** The kernel serves what is claimed. *)
Lemma serves_claims T p e i w res bufs rb T1 :
  kernel_serves T p e res bufs T1 -> ready_at e res p -> e = sqe_of_req (RSlot i) (pr_req w) ->
  serves Ready (claims_but (Some i) T1) (set_memory bufs rb p) i w res.
Proof.
  intros Hk Hrd He. split_and!; [..|intros Hop Hr; apply Hrd; [rewrite He; by exists i|by rewrite He|done]].
  - intros Hop Hr a s Had Hh Hns. destruct Hk as [a' str s' c i' Ho Hr' Hi Ha' Hs' Hc Hf| |[Hneg|[Hno _]]]; subst e.
    + cbn in Hi, Ha'. injection Hi as <-. rewrite Had in Ha'. injection Ha' as <-.
      change (e_heap _ !! a) with (e_heap (p_shared p) !! a) in Hh. rewrite Hs' in Hh. injection Hh as ->.
      rewrite (c_string_app s []) in Hc by done. injection Hc as <-.
      exists c. split; [by simplify_map_eq|]. split; [done|]. apply prefix_nil.
    + cbn in *. congruence.
    + lia.
    + done.
  - intros Hop Hr s b buf Had Hbuf Hoff (c & Hc & Hs & Hb).
    destruct Hk as [a' str s' c' i' Ho|j c' o k buf' _ _ Hf Ho Ha' Hb' Ht _|[Hneg|[_ Hno]]]; subst e; cbn in *.
    + congruence.
    + rewrite Hf in Hc. injection Hc as -> ->. rewrite Had in Ha'. injection Ha' as <-.
      rewrite Hoff, (small_offset s c b) in Ho by done. injection Ho as <-.
      rewrite Hb' in Hbuf. injection Hbuf as ->. exists c. split; [done|]. split; [done|].
      rewrite Ht, Nat2Z.id. by apply prefix_read.
    + lia.
    + rewrite Hno in Hc; done.
  - intros Hop Hr s b Hoff HG (c & Hc & Hs & Hb). split; [done|]. exists c. split; [done|].
    assert (Hsame : T1 = T) by (eapply serves_same; [exact Hk|]; left; subst e; cbn; by rewrite Hop). subst T1 e.
    by rewrite (served_whole _ _ _ _ _ _ (fd (pr_req w)) i s b c Hk).
Qed.

(** The container that was left aside holds what is open for it. *)
Lemma sys_back T ph free p K i :
  sys_ok (claims_but (Some i) T) ph free p K ->
  (forall f c, T !! f = Some (i, c) -> (i ∉ free) /\ exists w, reqs (p_slab p) !! i = Some w /\ reads_from f w) ->
  sys_ok (file_claims T) ph free p K.
Proof.
  intros Hs Hi. apply (sys_weaken _ _ _ _ _ _ Hs); [done|done|done|].
  intros j f (_ & c & Hf). destruct (decide (j = i)) as [->|Hne]; [right; by eapply Hi|left].
  split; [congruence|by exists c].
Qed.

(** It is free, and the descriptor it held is closed. *)
Lemma sys_closed T ph free p K i f c :
  sys_ok (claims_but (Some i) T) ph free p K -> i ∈ free -> T !! f = Some (i, c) ->
  (forall f' c', T !! f' = Some (i, c') -> f' = f) ->
  sys_ok (file_claims (delete f T)) ph free p K.
Proof.
  intros Hs Hi Hf Hu. apply (sys_weaken _ _ _ _ _ _ Hs); [|done|done|].
  - intros j s f' b Hj (c' & Hf' & Hc). exists c'. split; [|done].
    rewrite lookup_delete_ne; [done|]. intros ->. congruence.
  - intros j f' (_ & c' & [Hne Hf']%lookup_delete_Some). left. split; [|by exists c'].
    intros [= ->]. by destruct Hne, (Hu f' c').
Qed.

(** The requests of the thread itself do not read files. *)
Lemma own_request_quiet D ph free p K r q :
  sys_ok D ph free p K -> allowed ph r -> req_at r p = Some q -> (forall i, r <> RSlot i) ->
  callback q <> Some on_file_read_cb.
Proof.
  intros Hs Ha Hq Hr. destruct r as [|i| | |]; [|by destruct (Hr i)|..]; injection Hq as <-.
  - destruct (so_poll _ _ _ _ Hs) as [_ ->]. done.
  - destruct ph; [..|done]; destruct (so_conn _ _ _ _ Hs) as (_ & _ & _ & _ & -> & _); done.
  - destruct ph; try done. by destruct (so_conn _ _ _ _ Hs) as ((_ & -> & _) & _).
  - destruct ph; try done. by destruct (so_conn _ _ _ _ Hs) as (_ & _ & -> & _).
Qed.

(** What a completion may write when these files are open: the line of an open
    file, with the digest of its whole content, and the close of one. *)
Definition effect_ok (id : Z) (T : files) (x : effect) : Prop :=
  match x with
  | EWrite line => exists f i s c, T !! f = Some (i, c) /\ fs s = Some c /\ G s /\
      line = hash_line id (Z.of_nat i) s (digest c)
  | EClose f => is_Some (T !! f)
  end.

(** A container that is not reading a file holds none. *)
Lemma holds_reading T ph free p K i w f c :
  sys_ok (file_claims T) ph free p K -> reqs (p_slab p) !! i = Some w -> T !! f = Some (i, c) -> reads_from f w.
Proof.
  intros Hs Hw Hf. destruct (so_held _ _ _ _ Hs i f) as (_ & w' & Hw' & Hr); [split; [done|by exists c]|].
  congruence.
Qed.

(** After a step that writes nothing. *)
Lemma quiet_files T p p' ph free K :
  e_out (p_shared p') = e_out (p_shared p) -> sys_ok (file_claims T) ph free p' K ->
  exists o, e_out (p_shared p') = e_out (p_shared p) ++ o /\ Forall (effect_ok (p_id p) T) o /\
    sys_ok (file_claims (closes o T)) ph free p' K.
Proof. intros Ho Hs. exists []. rewrite app_nil_r. by split_and!. Qed.

(** The completion of an open or of a timer update. *)
Lemma other_slot_files T T1 ph free p K e i w res fl bufs rb p' ph' free' K' :
  sys_ok (file_claims T) ph free p K -> thread_ok free (set_memory bufs rb p) -> (i ∉ free) ->
  reqs (p_slab p) !! i = Some w -> e = sqe_of_req (RSlot i) (pr_req w) -> kernel_serves T p e res bufs T1 ->
  callback (pr_req w) = Some on_file_open_cb /\ opcode (pr_req w) = IORING_OP_OPENAT \/ timer_slot w ->
  complete vfuel (Cqe (sqe_user_data e) res fl) (set_memory bufs rb p) = Ret (tt, p') ->
  sys_ok (claims_but (Some i) T1) ph' free' p' K' ->
  exists o, e_out (p_shared p') = e_out (p_shared p) ++ o /\ Forall (effect_ok (p_id p) T1) o /\
    sys_ok (file_claims (closes o T1)) ph' free' p' K'.
Proof.
  intros Hs Ht Hi Hw He Hk Hu Hc Hs'. rewrite He in Hc.
  assert (Hno : opcode (pr_req w) <> IORING_OP_READ /\ callback (pr_req w) <> Some on_file_read_cb).
  { destruct Hu as [(-> & ->)|(_ & -> & ->)]; done. }
  apply quiet_files.
  { apply (complete_quiet (RSlot i) (pr_req w) _ _ _ _) in Hc; [done|cbn; by rewrite Hw|apply Hno]. }
  apply (sys_back _ _ _ _ _ i Hs'). intros f c Hf.
  destruct (serves_entry _ _ _ _ _ _ _ _ _ Hk Hf) as [Hx|(_ & Ho & ->)].
  { by destruct (holds_reading _ _ _ _ _ i w _ _ Hs Hw Hx) as [Hy _], Hno. }
  destruct Hu as [[Hcb Hop]|(_ & _ & Hop)]; [|rewrite He in Ho; cbn in Ho; by rewrite Hop in Ho].
  destruct (Z.lt_ge_cases res 0) as [Hneg|Hpos].
  - pose proof (serves_same _ _ _ _ _ _ Hk ltac:(by right)) as ->.
    by destruct (holds_reading _ _ _ _ _ i w _ _ Hs Hw Hf) as [Hy _], Hno.
  - destruct (open_completed free i w res fl _ _ Ht Hi Hw Hcb Hpos Hc) as (w' & Hw' & Hr & Hfl & _).
    split; [|by exists w']. eapply used_entry; [apply (so_thread _ _ _ _ Hs')|done|done].
Qed.

(** The completion of a read. *)
Lemma read_slot_files T T1 ph free p K e i w a s res fl bufs rb p' ph' free' K' :
  sys_ok (file_claims T) ph free p K -> thread_ok free (set_memory bufs rb p) -> (i ∉ free) ->
  reqs (p_slab p) !! i = Some w -> e = sqe_of_req (RSlot i) (pr_req w) -> kernel_serves T p e res bufs T1 ->
  file_slot (D := file_claims T) (p_shared p) i w a s -> callback (pr_req w) = Some on_file_read_cb ->
  res <= READ_BUF_SIZE ->
  complete vfuel (Cqe (sqe_user_data e) res fl) (set_memory bufs rb p) = Ret (tt, p') ->
  sys_ok (claims_but (Some i) T1) ph' free' p' K' ->
  exists o, e_out (p_shared p') = e_out (p_shared p) ++ o /\ Forall (effect_ok (p_id p) T1) o /\
    sys_ok (file_claims (closes o T1)) ph' free' p' K'.
Proof.
  intros Hs Ht Hi Hw He Hk Hu Hcb Hres Hc Hs'. rewrite He in Hc.
  pose proof (to_slab _ _ (so_thread _ _ _ _ Hs')) as Hwf.
  destruct (read_completed (file_claims T) free i w a s res fl (set_memory bufs rb p) p' Ht Hi Hw Hu Hcb Hres Hc)
    as (w' & Hw' & Hcase).
  destruct Hu as (_ & _ & [_ HG] & _ & _ & [(Hx & _)|(_ & Hop & _ & _ & b & (c & Hf & Hfs & Hb) & Hoff & Hha)]); [congruence|].
  pose proof (serves_same _ _ _ _ _ _ Hk) as Hsame. rewrite He in Hsame. cbn [sqe_opcode sqe_of_req] in Hsame.
  rewrite Hop in Hsame. specialize (Hsame ltac:(by left)) as ->.
  assert (Hone : forall f' c', T !! f' = Some (i, c') -> f' = fd (pr_req w)).
  { intros f' c' Hf'. by destruct (holds_reading _ _ _ _ _ i w _ _ Hs Hw Hf'). }
  destruct Hcase as [(_ & Ho & Hr & Hfl & _)|[(_ & Ho & Hfl)|(Hz & Hfl & Ho)]].
  - apply quiet_files; [done|]. apply (sys_back _ _ _ _ _ i Hs'). intros f' c' ->%Hone.
    split; [by eapply used_entry|by exists w'].
  - exists [EClose (fd (pr_req w))]. split; [done|]. split; [apply Forall_singleton; by exists (i, c)|].
    eapply sys_closed; [exact Hs'|by eapply free_entry|done|done].
  - assert (b = c) as ->.
    { rewrite He in Hk. by apply (served_whole _ _ _ _ _ _ (fd (pr_req w)) i s b c Hk). }
    eexists. split; [exact Ho|]. split.
    + repeat constructor; [|by exists (i, c)]. exists (fd (pr_req w)), i, s, c. by rewrite Hha.
    + eapply sys_closed; [exact Hs'|by eapply free_entry|done|done].
Qed.

(** Every completion: what is written is right, and what is claimed of the open
    files holds again. *)
Lemma completion_files T T1 ph free p K e res fl K' bufs rb p' :
  sys_ok (file_claims T) ph free p K -> kernel_completes K e res fl K' -> ready_at e res p ->
  same_memory bufs rb p -> kernel_serves T p e res bufs T1 ->
  complete vfuel (Cqe (sqe_user_data e) res fl) (set_memory bufs rb p) = Ret (tt, p') ->
  exists o ph' free', e_out (p_shared p') = e_out (p_shared p) ++ o /\ Forall (effect_ok (p_id p) T1) o /\
    sys_ok (file_claims (closes o T1)) ph' free' p' K'.
Proof.
  intros Hs Hk Hrr Hm Hsv Hc.
  destruct (sys_completes _ _ _ _ _ _ _ _ _ _ Hs Hk) as (Hs' & r & q & Hu & Hr & He & Ha & Hf & _).
  pose proof (so_thread _ _ _ _ (sys_memory _ _ _ _ _ _ Hs' Hm)) as Ht.
  assert (Hserved : served Ready (claims_but (slot_of e) T1) p e res bufs rb).
  { intros i w Hi Hw. rewrite Hi. split; [|intros f [Hx _]; by destruct Hx].
    apply (serves_claims T p e); [done|done|]. unfold slot_of in Hi. rewrite Hu in Hi. destruct r; try done.
    injection Hi as ->. cbn in Hr. rewrite Hw in Hr. injection Hr as <-. done. }
  destruct (completion_fine vfuel TI Ready _ ph free p K e res fl K' bufs rb (sys_aside _ _ _ _ _ _ _ _ _ Hs Hsv) Hk Hm Hserved)
    as [ph' Hfine]. rewrite Hc in Hfine. destruct Hfine as [free' Hs2].
  assert (Hgo : exists o, e_out (p_shared p') = e_out (p_shared p) ++ o /\ Forall (effect_ok (p_id p) T1) o /\
    sys_ok (file_claims (closes o T1)) ph' free' p' K'); [|destruct Hgo as (o & Ho); by exists o, ph', free'].
  unfold slot_of in Hs2. rewrite Hu in Hs2.
  assert ((exists i, r = RSlot i) \/ (forall i, r <> RSlot i)) as [[i ->]|Hns] by (destruct r; eauto).
  - cbn in Hr. destruct (reqs (p_slab p) !! i) as [w|] eqn:Hw; [|done]. injection Hr as <-.
    destruct (Hf i eq_refl) as [Hi _].
    destruct (so_used _ _ _ _ Hs i w Hw Hi) as [(a & s & Hfs)|Htm].
    + pose proof Hfs as (_ & _ & _ & _ & _ & [(Hcb & Hop & _)|(Hcb & Hop & Hl & _)]).
      * by eapply other_slot_files; eauto.
      * eapply read_slot_files; eauto. destruct Hk as (K1 & K2 & _ & Hlen & _). rewrite He in Hlen.
        cbn in Hlen. rewrite <- Hl. by apply Hlen.
    + by eapply other_slot_files; eauto.
  - apply quiet_files.
    + rewrite Hu in Hc. apply (complete_quiet r q) in Hc; [done|by destruct r|exact (own_request_quiet _ _ _ _ _ _ _ Hs Ha Hr Hns)].
    + by destruct r as [|i| | |]; [|destruct (Hns i)|..].
Qed.

(** ** Runs *)

(** What holds of a run of thread [id]. *)
Definition files_ok (id : Z) (x : P * list io_uring_sqe * files) : Prop :=
  let '(p, K, T) := x in p_id p = id /\ exists ph free, sys_ok (file_claims T) ph free p K.

(** A kernel that serves files, and ends one when the connection is ready. *)
Context (Kern : files -> P -> io_uring_sqe -> Z -> list (list Z) -> files -> Prop).
Context (Kern_serves : forall T p e res bufs T1, Kern T p e res bufs T1 -> kernel_serves T p e res bufs T1 /\ ready_at e res p).

Lemma file_own_step_ok id x x' :
  files_ok id x -> file_own_step Kern vfuel x x' -> files_ok id x'.
Proof.
  intros Hx Hst. destruct Hst as [p K T e rest He|p K T u|p K K' T T1 e res fl bufs rb p' o Hk Hm [Hsv Hr]%Kern_serves Hc Ho];
    destruct Hx as (Hid & ph & free & Hs).
  - split; [done|]. exists ph, free. by eapply sys_take.
  - split; [done|]. exists ph, free. by apply sys_world.
  - destruct (completion_files _ _ _ _ _ _ _ _ _ _ _ _ _ Hs Hk Hr Hm Hsv Hc) as (o' & ph' & free' & Ho' & _ & Hs').
    rewrite Ho in Ho'. apply app_inv_head in Ho' as <-.
    destruct (ok_complete any_effect vfuel _ (fun _ => I) _ _ _ Hc) as [_ _ _ _ _ Hid' _ _].
    split; [by rewrite Hid'|]. by exists ph', free'.
Qed.

Lemma file_step_ok id x x' :
  files_ok id x -> file_step Kern vfuel G x x' -> files_ok id x'.
Proof.
  intros Hx Hst. destruct Hst as [x x' Hst|p K T q f Hq Hqe]; [by eapply file_own_step_ok|].
  destruct Hx as (Hid & ph & free & Hs). split; [done|]. exists ph, free. by apply sys_queue.
Qed.

Lemma file_steps_ok id x x' :
  files_ok id x -> rtc (file_step Kern vfuel G) x x' -> files_ok id x'.
Proof. intros Hx Hr. induction Hr; eauto using file_step_ok. Qed.

(** ** Runs that can be computed *)

(** The kernel's answer, if it is one. *)
Definition serve (T : files) p (e : io_uring_sqe) (res : Z) (bufs : list (list Z)) : option files :=
  if res <? 0 then Some T
  else if sqe_opcode e =? IORING_OP_OPENAT then
    match slot_of e, sqe_addr e, T !! res with
    | Some i, WPtr (PStr a), None =>
        str ← e_heap (p_shared p) !! a; s ← c_string str; c ← fs s; Some (<[res := (i, c)]> T)
    | _, _, _ => None
    end
  else if sqe_opcode e =? IORING_OP_READ then
    match T !! sqe_fd e, sqe_off e, sqe_addr e with
    | None, _, _ => Some T
    | Some (_, c), WInt o, WPtr (PBuffer k) =>
        buf ← bufs !! k;
        if bool_decide (take (Z.to_nat res) buf = take (Z.to_nat res) (drop (Z.to_nat o) c)) &&
           (negb (res =? 0) || (Z.of_nat (length c) <=? o))
        then Some T else None
    | _, _, _ => None
    end
  else Some T.

Lemma serve_sound T p e res bufs T1 : serve T p e res bufs = Some T1 -> kernel_serves T p e res bufs T1.
Proof.
  unfold serve. destruct (Z.ltb_spec res 0) as [|Hr]; [intros [= <-]; apply serves_other; by left|].
  destruct (Z.eqb_spec (sqe_opcode e) IORING_OP_OPENAT) as [Ho|Ho].
  - destruct (slot_of e) as [i|] eqn:Hi; [|done]. destruct (sqe_addr e) as [|[]] eqn:Ha; try done.
    destruct (T !! res) eqn:Hf; [done|]. destruct (e_heap _ !! _) as [str|] eqn:Hs; cbn; [|done].
    destruct (c_string str) as [s|] eqn:Hc; cbn; [|done]. destruct (fs s) as [c|] eqn:Hfs; cbn; [|done].
    intros [= <-]. by eapply serves_open.
  - destruct (Z.eqb_spec (sqe_opcode e) IORING_OP_READ) as [Hre|Hre];
      [|intros [= <-]; apply serves_other; right; by split].
    destruct (T !! sqe_fd e) as [[j c]|] eqn:Hf; [|intros [= <-]; apply serves_other; right; by split].
    destruct (sqe_off e) as [o|] eqn:Hoff; [|done]. destruct (sqe_addr e) as [|[]] eqn:Ha; try done.
    destruct (bufs !! i) as [buf|] eqn:Hb; cbn; [|done]. case_bool_decide as Ht; cbn; [|done].
    destruct (negb (res =? 0) || _) eqn:Hz; [|done]. intros [= <-]. eapply serves_read; try done. intros ->.
    apply orb_true_iff in Hz as [Hz|Hz]; [done|by apply Z.leb_le in Hz].
Qed.

(** The kernel takes the oldest submission, or completes the [n]-th of those it
    has, after writing [bytes] if it is a read into a buffer of the slab. *)
Inductive act : Type := Take | Done (n : nat) (res fl : Z) (bytes : list Z).

Definition written (e : io_uring_sqe) (bytes : list Z) (bufs : list (list Z)) : list (list Z) :=
  match sqe_addr e with
  | WPtr (PBuffer k) => alter (fun buf => bytes ++ drop (length bytes) buf) k bufs
  | _ => bufs
  end.

Definition file_exec (a : act) (x : P * list io_uring_sqe * files) : option (P * list io_uring_sqe * files) :=
  let '(p, K, T) := x in
  match a with
  | Take =>
      match sq_pending (p_loop p) with
      | e :: _ => Some (upd_p_loop (kernel_take (p_loop p)) p, K ++ [e], T)
      | [] => None
      end
  | Done n res fl bytes =>
      e ← K !! n;
      let bufs := written e bytes (p_buffers p) in
      if bool_decide (sqe_opcode e = IORING_OP_READ) &&
         negb (res <=? sqe_len e)
      then None
      else if negb (bool_decide (length <$> bufs = length <$> p_buffers p)) then None
      else
        T1 ← serve T p e res bufs;
        match complete vfuel (Cqe (sqe_user_data e) res fl) (set_memory bufs (v_readbuf (p_verifier p)) p) with
        | Ret (_, p') =>
            Some (p', take n K ++ drop (S n) K, closes (drop (length (e_out (p_shared p))) (e_out (p_shared p'))) T1)
        | _ => None
        end
  end.

Fixpoint file_run (l : list act) (x : P * list io_uring_sqe * files) : option (P * list io_uring_sqe * files) :=
  match l with
  | [] => Some x
  | a :: l => x1 ← file_exec a x; file_run l x1
  end.

(** What an executed completion is. *)
Lemma file_exec_done n res fl bytes p K T x' :
  file_exec (Done n res fl bytes) (p, K, T) = Some x' ->
  exists e bufs rb T1 p' o, K !! n = Some e /\ (sqe_opcode e = IORING_OP_READ -> res <= sqe_len e) /\
    same_memory bufs rb p /\ kernel_serves T p e res bufs T1 /\
    complete vfuel (Cqe (sqe_user_data e) res fl) (set_memory bufs rb p) = Ret (tt, p') /\
    e_out (p_shared p') = e_out (p_shared p) ++ o /\ x' = (p', take n K ++ drop (S n) K, closes o T1).
Proof.
  cbn [file_exec]. destruct (K !! n) as [e|] eqn:He; cbn [mbind option_bind]; [|done]. set (bufs := written _ _ _).
  destruct (bool_decide (sqe_opcode e = _) && _) eqn:Hrd; [done|].
  destruct (bool_decide (_ <$> _ = _)) eqn:Hl; cbn [negb]; [|done]. apply bool_decide_eq_true in Hl.
  destruct (serve _ _ _ _ _) as [T1|] eqn:Hsv; cbn [mbind option_bind]; [|done].
  destruct (complete _ _ _) as [[[] p']| | | |] eqn:Hc; [|done..]. intros [= <-].
  assert (Hread : sqe_opcode e = IORING_OP_READ -> res <= sqe_len e).
  { intros Ho. rewrite bool_decide_true in Hrd by done. by apply negb_false_iff, Z.leb_le in Hrd. }
  destruct (ok_complete any_effect vfuel _ (fun _ => I) _ _ _ Hc) as [_ _ _ _ _ _ (o & Ho & _) _].
  change (e_out (p_shared (set_memory _ _ p))) with (e_out (p_shared p)) in Ho.
  exists e, bufs, (v_readbuf (p_verifier p)), T1, p', o. rewrite Ho, drop_app_length.
  split_and!; try done; [|by apply serve_sound].
  split; [|done]. apply (Forall2_fmap_1 length length eq). by rewrite Hl.
Qed.

Lemma file_exec_sound a x x' : file_exec a x = Some x' -> file_own_step kernel_serves vfuel x x'.
Proof.
  destruct x as [[p K] T]. destruct a as [|n res fl bytes].
  - cbn. destruct (sq_pending _) as [|e rest] eqn:He; [done|]. intros [= <-]. by eapply file_take.
  - intros (e & bufs & rb & T1 & p' & o & He & Hr & Hm & Hsv & Hc & Ho & ->)%file_exec_done.
    eapply file_complete; try done. exists (take n K), (drop (S n) K).
    split; [by rewrite take_drop_middle|]. split; [done|by left].
Qed.

Lemma file_run_sound l x x' : file_run l x = Some x' -> rtc (file_own_step kernel_serves vfuel) x x'.
Proof.
  revert x. induction l as [|a l IH]; intros x; cbn; [by intros [= <-]|].
  intros (x1 & Hx & Hr)%bind_Some. eapply rtc_l; [by apply file_exec_sound in Hx|by apply IH].
Qed.

Lemma file_run_steps l x x' : file_run l x = Some x' -> rtc (file_step kernel_serves vfuel G) x x'.
Proof. intros Hr%file_run_sound. eapply rtc_subrel; [|exact Hr]. intros y y'. apply file_own. Qed.
End steps.
End serving.

Section reports.
Context {H C W F : Type} `{!Blake3 H, !Blake3Laws H, !IoUring W, !Ngtcp2 C, !Host W, !Net C W, !NetV4 C W, !Malloc W}.
Context `{!Eventfd F, !EventfdSem F, !Ngtcp2Laws C, !StreamLaws C, !HostLaws W}.
Context (vfuel : nat).
Context (fs : list Z -> option (list Z)).
Implicit Types p : processor H C W F.

(** A thread that has just started has no files open. *)
Lemma started_files args bufs (h0 : hasher H) l u p p1 p' K' T' :
  (forall s c, fs s = Some c -> Z.of_nat (length c) < 2 ^ 64) ->
  start_memory args bufs l -> start_env any_path p ->
  ev_loop_init (None, q_world (p_quic p)) = Ret (0, (Some l, u)) ->
  processor_start args (Some bufs) true h0 p = Ret (0, p1) ->
  rtc (file_step (kernel_serves fs) vfuel any_path) (p1, [], ∅) (p', K', T') ->
  files_ok fs any_path I sends_bytes (p_id p1) (p', K', T').
Proof.
  intros Hsm Hm He Hl Hp Hr.
  apply (file_steps_ok fs Hsm any_path I vfuel sends_bytes any_time (kernel_serves fs) ltac:(done) _ (p1, [], ∅)); [|exact Hr].
  destruct (processor_start_fine sends_bytes any_time (file_claims fs any_path I ∅) args bufs h0 l u p) as [Hx|(p2 & Hx & Hs & _)];
    [|done..|congruence|].
  { by intros i f (_ & c & Hc). }
  assert (p2 = p1) as -> by congruence. split; [done|]. by eexists _, _.
Qed.

(** C14. Descriptors are neither leaked nor used after their close. In every
    state a started thread can reach through callbacks that return, against a
    kernel that serves files (none longer than a 64-bit offset) and whatever
    ngtcp2, the socket and the peer do, the files it has open are exactly those
    its containers in flight are reading, each by one container; and whatever
    completion comes next, when its callback returns, every line it has passed to
    [write] is of a file that is open, with the digest of its content, and every
    descriptor it has closed is one that is open. *)
Theorem descriptors_match_containers args bufs (h0 : hasher H) l u p p1 p' K' T' :
  (forall s c, fs s = Some c -> Z.of_nat (length c) < 2 ^ 64) ->
  start_memory args bufs l -> start_env any_path p ->
  ev_loop_init (None, q_world (p_quic p)) = Ret (0, (Some l, u)) ->
  processor_start args (Some bufs) true h0 p = Ret (0, p1) ->
  rtc (file_step (kernel_serves fs) vfuel any_path) (p1, [], ∅) (p', K', T') ->
  (forall f i, (exists c, T' !! f = Some (i, c)) <->
     exists w, reqs (p_slab p') !! i = Some w /\ in_flight w = 1 /\ reads_from f w) /\
  forall e res fl K2 bufs' rb T1 p2,
    kernel_completes K' e res fl K2 -> same_memory bufs' rb p' ->
    kernel_serves fs T' p' e res bufs' T1 ->
    complete vfuel (Cqe (sqe_user_data e) res fl) (set_memory bufs' rb p') = Ret (tt, p2) ->
    exists o, e_out (p_shared p2) = e_out (p_shared p') ++ o /\ Forall (effect_ok fs any_path (p_id p1) T1) o.
Proof.
  intros Hsm Hm He Hl Hp Hr.
  destruct (started_files args bufs h0 l u p p1 p' K' T' Hsm Hm He Hl Hp Hr) as (Hid & ph & free & Hs).
  pose proof (to_slab _ _ (so_thread _ _ _ _ Hs)) as Hwf. split.
  - intros f i. split.
    + intros [c Hf]. destruct (so_held _ _ _ _ Hs i f) as (Hi & w & Hw & Hx); [split; [done|by exists c]|].
      exists w. split; [done|]. split; [|done].
      by destruct (in_flight_entry free i w p' Hwf Hi Hw) as (_ & _ & _ & ?).
    + intros (w & Hw & Hfl & Hop & Hfd). pose proof (used_entry free i w p' Hwf Hw Hfl) as Hi.
      destruct (so_used _ _ _ _ Hs i w Hw Hi) as [(a & s & _ & _ & _ & _ & _ & [(_ & Hx & _)|Hx])|(_ & _ & Hx)];
        [by rewrite Hop in Hx| |by rewrite Hop in Hx].
      destruct Hx as (_ & _ & _ & _ & b & (c & Hc & _) & _). rewrite Hfd in Hc. by exists c.
  - intros e res fl K2 bufs' rb T1 p2 Hk Hmem Hsv Hc.
    destruct (completion_files fs Hsm any_path I vfuel sends_bytes any_time _ _ _ _ _ _ _ _ _ _ _ _ _ Hs Hk ltac:(done) Hmem Hsv Hc)
      as (o & _ & _ & Ho & Hf & _). rewrite Hid in Hf. by exists o.
Qed.
End reports.

(** ** Witnesses: one file, from the start of the thread to its line *)

#[local] Existing Instances keep_ngtcp2 keep_host keep_ngtcp2_laws keep_host_laws keep_net keep_streams keep_v4.

(** The socket is created and connected, a datagram is read and the timer moved,
    the poll completes, the file is opened as descriptor 7 and the first two bytes
    are read. *)
Definition toy_acts : list act :=
  [Take; Take; Done 1 9 0 []; Take; Done 1 0 0 []; Take; Take; Done 1 100 0 []; Take; Take; Done 3 0 0 []; Done 0 1 0 []; Take; Take;
   Done 2 7 0 []; Take; Done 3 2 0 [104; 105]; Take].

(** The last byte, and the end of the file. *)
Definition toy_acts_end : list act := [Done 3 1 0 [10]; Take; Done 3 0 0 []].

Local Abbreviation toy_start :=
  (processor_start toy_args (Some [replicate (Z.to_nat READ_BUF_SIZE) 0]) true (Hasher []) keep_thread).

Lemma toy_fs_small s c : toy_fs s = Some c -> Z.of_nat (length c) < 2 ^ 64.
Proof. unfold toy_fs. case_bool_decide; [|done]. intros [= <-]. cbn. lia. Qed.

Lemma descriptors_match_containers_witness :
  exists p1 p' K' T' c, toy_start = Ret (0, p1) /\
    rtc (file_step (kernel_serves toy_fs) 20 any_path) (p1, [], ∅) (p', K', T') /\ T' !! 7 = Some (0%nat, c) /\
    exists w, reqs (p_slab p') !! 0%nat = Some w /\ in_flight w = 1 /\ reads_from 7 w.
Proof.
  assert (Hx : match toy_start with
    | Ret (0, p1) =>
        match file_run toy_fs 20 toy_acts (p1, [], ∅) with
        | Some (_, _, T') => match T' !! 7 with Some (O, _) => true | _ => false end
        | _ => false
        end
    | _ => false
    end = true) by (vm_compute; reflexivity).
  pose proof (fun p1 p' K' T' => descriptors_match_containers 20 toy_fs toy_args [replicate (Z.to_nat READ_BUF_SIZE) 0] (Hasher [])
    keep_ring 0%nat keep_thread p1 p' K' T' toy_fs_small keep_start_memory (keep_start_env any_path I) eq_refl) as Ht.
  set (m := processor_start toy_args _ true (Hasher []) keep_thread) in *.
  destruct m as [[[| |] p1]| | | |]; try discriminate Hx.
  destruct (file_run _ _ _ _) as [[[p' K'] T']|] eqn:Hr; [|discriminate Hx]. apply file_run_steps with (G := any_path) in Hr.
  destruct (Ht p1 p' K' T' eq_refl Hr) as [Hd _].
  destruct (T' !! 7) as [[[|] c]|] eqn:H7; try discriminate Hx.
  exists p1, p', K', T', c. split; [reflexivity|]. split; [exact Hr|]. split; [exact H7|].
  apply Hd. by exists c.
Defined.
