(* ===== verification/Armed.v ===== *)
(** * No request is lost

    A thread with at least three more submission entries than containers never
    meets a full ring: every request it is waiting for is with the kernel, in
    the ring or taken from it, exactly once. The poll of the queue is always
    armed, the connection request is out until there is a connection and the
    read of the socket from then on, and every container in flight has its
    request out. *)

From stdpp Require Import base numbers list list_numbers gmap.
From S2P Require Import Prelude CStr Queue Ev Hasher Slab Quic Transport State Verifier Ride Processor.
From S2P Require Import Examples Thread Pipeline Connect ThreadInv System Boot Files.

Open Scope Z_scope.

(** The request object a submission is of. *)
Definition req_of (e : io_uring_sqe) : option req_ptr :=
  match sqe_user_data e with WPtr (PReq r) => Some r | _ => None end.

#[export] Instance req_ptr_eq_dec : EqDecision req_ptr.
Proof. solve_decision. Defined.

Section waiting.
Context {H C W F : Type} `{!Blake3 H, !Blake3Laws H, !IoUring W, !Ngtcp2 C, !Host W, !Net C W, !Malloc W}.
Context `{!Eventfd F, !EventfdSem F}.
Local Abbreviation P := (processor H C W F).
Implicit Types (p : P) (w : processor_iou_req H) (K : list io_uring_sqe) (r : req_ptr).

(** ** What a thread waits for *)

(** The requests with the kernel, the marks of the containers and whether there
    is a connection. *)
Definition outstanding p K : list req_ptr := omap req_of (sq_pending (p_loop p) ++ K).
Definition flights p : list Z := in_flight <$> reqs (p_slab p).
Definition online p : bool := bool_decide (is_Some (q_conn (p_quic p))).

(** The requests a thread waits for, and those that may be with the kernel: the
    timer fires once. *)
Definition in_use p r : Prop :=
  match r with
  | RQueuePoll => True
  | RSlot i => flights p !! i = Some 1
  | RConn => online p = false
  | RRecv => online p = true
  | RTimer => False
  end.

Definition may_be_out p r : Prop := in_use p r \/ r = RTimer /\ online p = true.

(** All that is waited for is with the kernel, but for [x], which are not. *)
Record waits (x : list req_ptr) p K : Prop := {
  wt_ring : sq_wf (p_loop p);
  wt_room : Z.of_nat (length (flights p)) + 3 <= sq_size (p_loop p);
  wt_named : forall e, e ∈ (sq_pending (p_loop p) ++ K) -> is_Some (req_of e);
  wt_once : NoDup (outstanding p K);
  wt_out : forall r, r ∈ outstanding p K -> may_be_out p r;
  wt_all : forall r, in_use p r -> r ∉ x -> r ∈ outstanding p K;
  wt_but : forall r, r ∈ x -> may_be_out p r /\ r ∉ outstanding p K;
}.

(** Everything that may be out, listed. *)
Definition universe p : list req_ptr :=
  RQueuePoll :: (if online p then [RRecv; RTimer] else [RConn]) ++ (RSlot <$> seq 0 (length (flights p))).

Lemma may_universe p r : may_be_out p r -> r ∈ universe p.
Proof.
  unfold universe. rewrite elem_of_cons, elem_of_app. intros [Hu|[-> ->]]; [|right; left; right; by left].
  destruct r as [|i| | |]; cbn in Hu; [by left|..|done]; right; [right|left; rewrite Hu; by left..].
  apply list_elem_of_fmap. exists i. split; [done|]. apply elem_of_seq.
  apply lookup_lt_Some in Hu. lia.
Qed.

Lemma length_named (l : list io_uring_sqe) :
  (forall e, e ∈ l -> is_Some (req_of e)) -> length (omap req_of l) = length l.
Proof.
  induction l as [|e l IH]; intros Hl; [done|]. cbn. destruct (Hl e) as [r ->]; [by left|].
  cbn. rewrite IH; [done|]. intros e' He'. apply Hl. by right.
Qed.

(** There is an entry for a request that is not out. *)
Lemma waits_entry x p K r :
  waits x p K -> may_be_out p r -> r ∉ outstanding p K -> sq_len (p_loop p) < sq_size (p_loop p).
Proof.
  intros Hw Hm Hr. pose proof (wt_room _ _ _ Hw) as Hn.
  assert (Hl : (length (r :: outstanding p K) <= length (universe p))%nat).
  { apply submseteq_length, NoDup_submseteq; [apply NoDup_cons; by split; [|apply Hw]|].
    intros r' [->|Hr']%elem_of_cons; apply may_universe; [done|by apply (wt_out _ _ _ Hw)]. }
  unfold outstanding in Hl. cbn [length] in Hl. rewrite omap_app, length_app, length_named in Hl.
  2: { intros e He. apply (wt_named _ _ _ Hw). apply elem_of_app. by left. }
  rewrite <- length_sq_pending. unfold universe in Hl. cbn [length] in Hl.
  rewrite length_app, length_fmap, length_seq in Hl. destruct (online p); cbn [length] in Hl; lia.
Qed.

(** Nothing that is needed is missing: the poll of the eventfd is out, the
    request that creates or connects the socket until there is a connection, the
    read of the socket from then on, and the request of every container in
    flight. *)
Definition all_armed p K : Prop :=
  RQueuePoll ∈ outstanding p K /\
  (q_conn (p_quic p) = None -> RConn ∈ outstanding p K) /\
  (is_Some (q_conn (p_quic p)) -> RRecv ∈ outstanding p K) /\
  forall i w, reqs (p_slab p) !! i = Some w -> in_flight w = 1 -> RSlot i ∈ outstanding p K.

Lemma waits_armed p K : waits [] p K -> all_armed p K.
Proof.
  intros [_ _ _ _ _ Hall _].
  assert (Hin : forall r, in_use p r -> r ∈ outstanding p K) by (intros r Hr; apply Hall; [done|apply not_elem_of_nil]).
  split; [by apply Hin|]. split_and!.
  - intros Hq. apply Hin. cbn. unfold online. by rewrite bool_decide_eq_false, <- eq_None_not_Some.
  - intros Hq. apply Hin. cbn. unfold online. by rewrite bool_decide_eq_true.
  - intros i w Hi Hf. apply Hin. cbn. unfold flights. rewrite list_lookup_fmap, Hi. cbn. by rewrite Hf.
Qed.

(** ** How it changes *)

Lemma waits_same x p p' K :
  p_loop p' = p_loop p -> flights p' = flights p -> online p' = online p -> waits x p K -> waits x p' K.
Proof.
  intros El Ef Eo [H1 H2 H3 H4 H5 H6 H7].
  split; unfold outstanding, may_be_out, in_use in *; rewrite ?El, ?Ef, ?Eo; done.
Qed.

(** The kernel takes an entry. *)
Lemma waits_take x p K e rest :
  waits x p K -> sq_pending (p_loop p) = e :: rest ->
  waits x (upd_p_loop (kernel_take (p_loop p)) p) (K ++ [e]).
Proof.
  intros [H1 H2 H3 H4 H5 H6 H7] He.
  assert (Hlen : 0 < sq_len (p_loop p)) by (rewrite <- length_sq_pending, He; cbn; lia).
  destruct (kernel_take_pending _ H1 Hlen) as (e' & He'). rewrite He in He'. injection He' as <- ->.
  set (p' := upd_p_loop _ p).
  assert (Hp : sq_pending (p_loop p') ++ K ++ [e] ≡ₚ sq_pending (p_loop p) ++ K).
  { rewrite He. cbn. rewrite app_assoc. symmetry. apply Permutation_cons_append. }
  assert (Hq : outstanding p' (K ++ [e]) ≡ₚ outstanding p K) by (unfold outstanding; by rewrite Hp).
  split; try done; [by apply kernel_take_wf|..].
  - intros e'. rewrite Hp. apply H3.
  - by rewrite Hq.
  - intros r. rewrite Hq. apply H5.
  - intros r Hu Hx. rewrite Hq. by apply H6.
  - intros r. rewrite Hq. apply H7.
Qed.

(** The kernel is done with an entry. *)
Lemma waits_drop p K1 e K2 r :
  waits [] p (K1 ++ e :: K2) -> req_of e = Some r -> waits [r] p (K1 ++ K2).
Proof.
  intros [H1 H2 H3 H4 H5 H6 H7] He.
  assert (Hp : sq_pending (p_loop p) ++ K1 ++ e :: K2 ≡ₚ e :: sq_pending (p_loop p) ++ K1 ++ K2).
  { rewrite !app_assoc. symmetry. apply Permutation_middle. }
  assert (Hq : outstanding p (K1 ++ e :: K2) ≡ₚ r :: outstanding p (K1 ++ K2)).
  { unfold outstanding. rewrite Hp. cbn. by rewrite He. }
  rewrite Hq in H4. apply NoDup_cons in H4 as [H4 H4'].
  split; try done.
  - intros e' He'. apply H3. rewrite Hp. by right.
  - intros r' Hr'. apply H5. rewrite Hq. by right.
  - intros r' Hu Hx. assert (Hr' : r' ∈ outstanding p (K1 ++ e :: K2)) by (apply H6; [done|apply not_elem_of_nil]).
    rewrite Hq in Hr'. apply elem_of_cons in Hr' as [->|]; [|done]. destruct Hx. by left.
  - intros r' ->%list_elem_of_singleton. split; [|done]. apply H5. rewrite Hq. by left.
Qed.

(** A request that may be out and is not is submitted. *)
Lemma waits_submit r q x p K : waits (r :: x) p K -> r ∉ x -> waits x (submitted r q p) K.
Proof.
  intros Hw Hrx. pose proof Hw as [H1 H2 H3 H4 H5 H6 H7]. destruct (H7 r ltac:(by left)) as [Hm Hr].
  pose proof (waits_entry _ _ _ _ Hw Hm Hr) as Hroom.
  pose proof (submitted_frame r q p) as (E1 & _ & _ & _ & _ & _ & _ & u & Ev).
  assert (Ef : flights (submitted r q p) = flights p) by (unfold flights; by rewrite E1).
  assert (Eo : online (submitted r q p) = online p) by (unfold online, p_quic; by rewrite Ev).
  assert (Hp : sq_pending (p_loop (submitted r q p)) ++ K ≡ₚ sqe_of_req r q :: sq_pending (p_loop p) ++ K).
  { rewrite submitted_pending, <- app_assoc by done. symmetry. apply Permutation_middle. }
  assert (Hq : outstanding (submitted r q p) K ≡ₚ r :: outstanding p K).
  { unfold outstanding. by rewrite Hp. }
  split; [by apply submitted_wf|by rewrite Ef, submitted_size|..].
  - intros e. rewrite Hp. intros [->|He]%elem_of_cons; [by eexists|by apply H3].
  - rewrite Hq. apply NoDup_cons. done.
  - intros r'. unfold may_be_out, in_use. rewrite Hq, Ef, Eo. intros [->|Hr']%elem_of_cons; [done|by apply H5].
  - intros r' Hu Hx. unfold in_use in Hu. rewrite Ef, Eo in Hu. rewrite Hq.
    destruct (decide (r' = r)) as [->|Hne]; [by left|right]. apply H6; [done|]. by apply not_elem_of_cons.
  - intros r' Hr'. unfold may_be_out, in_use. rewrite Hq, Ef, Eo. destruct (H7 r' ltac:(by right)) as [Hm' Hn'].
    split; [done|]. apply not_elem_of_cons. split; [|done]. congruence.
Qed.

(** A free container is taken: it may be submitted. *)
Lemma waits_acquire i x p p' K :
  waits x p K -> p_loop p' = p_loop p -> online p' = online p -> flights p !! i = Some 0 ->
  flights p' = <[i := 1]> (flights p) -> waits (RSlot i :: x) p' K /\ RSlot i ∉ x.
Proof.
  intros [H1 H2 H3 H4 H5 H6 H7] El Eo Hi Ef. pose proof (lookup_lt_Some _ _ _ Hi) as Hlt.
  assert (Hq : outstanding p' K = outstanding p K) by (unfold outstanding; by rewrite El).
  assert (Hu : forall r, in_use p' r <-> in_use p r \/ r = RSlot i).
  { intros r. unfold in_use. rewrite Ef, Eo. destruct r as [|j| | |]; try (split; [by left|by intros [?|?]]).
    destruct (decide (j = i)) as [->|Hne].
    - rewrite list_lookup_insert_eq by done. split; [by right|done].
    - rewrite list_lookup_insert_ne by done. split; [by left|]. intros [?|[= ?]]; done. }
  assert (Hm : forall r, may_be_out p r -> may_be_out p' r).
  { intros r. unfold may_be_out. rewrite Hu, Eo. tauto. }
  assert (Hni : ~ may_be_out p (RSlot i)) by (intros [Hy|[? _]]; [cbn in Hy; congruence|done]).
  split; [|intros Hx; by destruct Hni, (H7 _ Hx)].
  split; rewrite ?Hq, ?El; try done.
  - rewrite Ef, length_insert. done.
  - intros r Hr. by apply Hm, H5.
  - intros r [Hr| ->]%Hu Hx; apply not_elem_of_cons in Hx as [? ?]; [by apply H6|done].
  - intros r [->|Hr]%elem_of_cons; [|destruct (H7 r Hr); by split; [apply Hm|]].
    split; [left; apply Hu; by right|]. intros Hx. by apply Hni, H5.
Qed.

(** The container of the request that is not out is released. *)
Lemma waits_release i p p' K :
  waits [RSlot i] p K -> p_loop p' = p_loop p -> online p' = online p ->
  flights p' = <[i := 0]> (flights p) -> waits [] p' K.
Proof.
  intros [H1 H2 H3 H4 H5 H6 H7] El Eo Ef. destruct (H7 (RSlot i) ltac:(by left)) as [_ Hni].
  assert (Hq : outstanding p' K = outstanding p K) by (unfold outstanding; by rewrite El).
  assert (Hu : forall r, r <> RSlot i -> in_use p' r <-> in_use p r).
  { intros r Hne. unfold in_use. rewrite Ef, Eo. destruct r as [|j| | |]; try done.
    rewrite list_lookup_insert_ne by congruence. done. }
  split; rewrite ?Hq, ?El; try done.
  - rewrite Ef, length_insert. done.
  - intros r Hr. unfold may_be_out. rewrite Hu, Eo by congruence. by apply H5.
  - intros r Hr _. assert (Hne : r <> RSlot i).
    { intros ->. cbn in Hr. rewrite Ef in Hr. apply list_lookup_insert_Some in Hr as [(_ & ? & _)|[? _]]; done. }
    apply H6; [by apply Hu|]. by intros ?%list_elem_of_singleton.
  - by intros r ?%elem_of_nil.
Qed.

(** With the connection, the read of the socket and the timer replace the
    request for it. *)
Lemma waits_connect p p' K :
  waits [RConn] p K -> p_loop p' = p_loop p -> flights p' = flights p -> online p = false -> online p' = true ->
  waits [RRecv; RTimer] p' K.
Proof.
  intros [H1 H2 H3 H4 H5 H6 H7] El Ef Eo Eo'. destruct (H7 RConn ltac:(by left)) as [_ Hni].
  assert (Hq : outstanding p' K = outstanding p K) by (unfold outstanding; by rewrite El).
  assert (Hno : forall r, r ∈ outstanding p K -> r <> RConn /\ r <> RRecv /\ r <> RTimer /\ in_use p r).
  { intros r Hr. destruct (H5 r Hr) as [Hx|[_ Hx]]; [|congruence].
    split_and!; try done; intros ->; try done. cbn in Hx. congruence. }
  split; rewrite ?Hq, ?El, ?Ef; try done.
  - intros r Hr. destruct (Hno r Hr) as (N1 & N2 & N3 & Hx). left. unfold in_use in *. rewrite Ef.
    by destruct r.
  - intros r Hr [Hx _]%not_elem_of_cons.
    apply H6; [|intros ->%list_elem_of_singleton; cbn in Hr; congruence].
    unfold in_use in *. rewrite Ef in Hr. by destruct r.
  - intros r [->|[->|[]%elem_of_nil]%elem_of_cons]%elem_of_cons; (split; [by left + by right|]);
      intros Hr; by destruct (Hno _ Hr) as (_ & ? & ? & _).
Qed.

(** The timer is not waited for. *)
Lemma waits_fired p K : waits [RTimer] p K -> waits [] p K.
Proof.
  intros [H1 H2 H3 H4 H5 H6 H7]. split; try done; [|by intros r ?%elem_of_nil].
  intros r Hu _. apply H6; [done|]. by intros ->%list_elem_of_singleton.
Qed.
End waiting.

(** ** What the callbacks do *)

Section handlers.
Context {H C W F : Type} `{!Blake3 H, !Blake3Laws H, !IoUring W, !Ngtcp2 C, !Host W, !Net C W, !Malloc W}.
Context `{!Eventfd F, !EventfdSem F}.
Context (vfuel : nat) (TI : quic C W -> list (list Z) -> Prop) (Ready : quic C W -> Prop) `{!Transport TI Ready}.
Context (Ready_any : forall q, Ready q) (D : claims).
Local Abbreviation P := (processor H C W F).
Local Abbreviation sys_ok := (sys_ok (TI := TI) (D := D)).
Implicit Types (p : P) (w : processor_iou_req H) (K : list io_uring_sqe).

(** The containers in flight and their paths stay as they are, but for [x]. *)
Definition kept_but (x : option nat) p p' : Prop :=
  forall i w, x <> Some i -> reqs (p_slab p) !! i = Some w -> in_flight w = 1 ->
    reqs (p_slab p') !! i = Some w /\
    forall a s, pr_data w = Some a -> e_heap (p_shared p) !! a = Some s -> e_heap (p_shared p') !! a = Some s.

(** Nothing that is waited for is missing after a completion was handled. *)
Definition handled (x : option nat) p p' K : Prop := waits [] p' K /\ kept_but x p p'.

Lemma kept_same x p p' :
  reqs (p_slab p') = reqs (p_slab p) -> e_heap (p_shared p') = e_heap (p_shared p) -> kept_but x p p'.
Proof. intros E1 E2 i w _. by rewrite E1, E2. Qed.

Lemma kept_trans x p1 p2 p3 : kept_but x p1 p2 -> kept_but x p2 p3 -> kept_but x p1 p3.
Proof.
  intros K1 K2 i w Hx Hw Hf. destruct (K1 i w Hx Hw Hf) as [Hw2 Hh]. destruct (K2 i w Hx Hw2 Hf) as [Hw3 Hh'].
  split; [done|]. intros a s Ha Hs. apply Hh'; [done|]. by apply Hh.
Qed.

Lemma kept_none x p p' : kept_but None p p' -> kept_but x p p'.
Proof. intros Hk i w _. by apply Hk. Qed.

Lemma online_up p recs : TI (p_quic p) recs -> online p = true.
Proof. intros Ht. unfold online. apply bool_decide_eq_true. by eapply ti_conn. Qed.

Lemma sys_online free p K : sys_ok Up free p K -> online p = true.
Proof. intros Hs. destruct (sys_carries _ _ _ Hs) as (recs & Ht & _). by eapply online_up. Qed.

Lemma kept_submitted x r q p : kept_but x p (submitted r q p).
Proof. destruct (submitted_frame r q p) as (E1 & E2 & _). apply kept_same; by rewrite ?E1, ?E2. Qed.

(** Container [i] is submitted again, as [w']. *)
Lemma resubmit_handled i w w' q p K :
  waits [RSlot i] p K -> reqs (p_slab p) !! i = Some w -> in_flight w' = in_flight w ->
  handled (Some i) p (submitted (RSlot i) q (put i w' p)) K.
Proof.
  intros Hwt Hw Hf. split.
  - apply waits_submit; [|apply not_elem_of_nil]. apply (waits_same _ p); try done. unfold flights. cbn.
    rewrite list_fmap_insert, Hf. apply list_insert_id. by rewrite list_lookup_fmap, Hw.
  - eapply kept_trans; [|apply kept_submitted]. intros j wj Hx Hj Hfj. cbn.
    rewrite list_lookup_insert_ne by congruence. done.
Qed.

(** Container [i] is released, with the string it owns. *)
Lemma release_handled ph free i w w0 p p' K :
  sys_ok ph free p K -> waits [RSlot i] p K -> reqs (p_slab p) !! i = Some w ->
  p_loop p' = p_loop p -> online p' = online p -> reqs (p_slab p') = <[i := w0]> (reqs (p_slab p)) ->
  in_flight w0 = 0 -> e_heap (p_shared p') = disown w (e_heap (p_shared p)) -> handled (Some i) p p' K.
Proof.
  intros Hs Hwt Hw El Eo Er Hf Eh. split.
  - apply (waits_release i p); try done. unfold flights. by rewrite Er, list_fmap_insert, Hf.
  - intros j wj Hx Hj Hfj. rewrite Er, list_lookup_insert_ne by congruence. split; [done|].
    intros a s Ha Hh. rewrite Eh. apply lookup_disown. split; [done|]. intros Hwa. apply Hx. f_equal.
    by eapply (so_unique _ _ _ _ Hs).
Qed.

(** The file callbacks and the update of the timer. *)
Lemma slot_handled ph free i w res fl p p' K :
  sys_ok ph free p K -> waits [RSlot i] p K -> reqs (p_slab p) !! i = Some w -> i ∉ free ->
  (opcode (pr_req w) = IORING_OP_READ -> res <= len (pr_req w)) ->
  complete vfuel (Cqe (WPtr (PReq (RSlot i))) res fl) p = Ret (tt, p') -> handled (Some i) p p' K.
Proof.
  intros Hs Hwt Hw Hi Hres. pose proof (so_thread _ _ _ _ Hs) as Ht.
  destruct (in_flight_entry free i w p (to_slab _ _ Ht) Hi Hw) as (Hn & _ & _ & Hfl).
  pose proof (lookup_lt_Some _ _ _ Hw) as Hlt. rewrite (complete_slot vfuel i w) by done.
  set (w1 := set_pr_req w _). set (p0 := put i w1 p).
  assert (Hw1 : reqs (p_slab p0) !! i = Some w1) by (by apply put_lookup).
  destruct (so_used _ _ _ _ Hs i w Hw Hi) as [(a & s & Ha & Hh & [Hns _] & Hl & Hd2 & Hu)|(Hd & Hcb & _)].
  2: { rewrite Hcb. unfold complete, ev_complete. cbn [cqe_user_data cqe_res cqe_flags].
    rewrite bind_modify, (store_result_slot _ _ _ _ _ Hw). fold w1 p0. unfold run_callback.
    rewrite (bind_Ret _ _ _ _ _ (req_get_slot _ _ _ Hw1)). change (callback (pr_req w1)) with (callback (pr_req w)).
    rewrite Hcb. unfold on_socket_timeout_update. rewrite (bind_Ret _ _ _ _ _ (req_get_slot _ _ _ Hw1)).
    unfold in_slab, processor_free_req. destruct Hn as [Hn1 Hn2]. change (data (pr_req w1)) with (data (pr_req w)).
    change (data2 (pr_req w1)) with (data2 (pr_req w)). rewrite Hn1, Hn2, Hw1. intros [= <-].
    eapply (release_handled _ _ i w); try done; [cbn; by rewrite list_insert_insert_eq|done|].
    unfold disown. by rewrite Hd. }
  destruct Hu as [(Hcb & _)|(Hcb & Hop & Hlen & Had & b & _ & Hoff & _)]; rewrite Hcb.
  - destruct (Z.lt_ge_cases res 0) as [Hr|Hr].
    + rewrite (on_file_open_fail i w1 a (s ++ [0])) by done. intros [= <-].
      eapply (release_handled _ _ i w); try done; [cbn; by rewrite list_insert_insert_eq|done|].
      unfold disown. by rewrite Ha.
    + rewrite (on_file_open_ok i w1) by (done || apply Ht). intros [= <-]. unfold p0. rewrite put_put.
      by eapply resubmit_handled.
  - specialize (Hres Hop). destruct (to_bufs _ _ Ht i Hlt) as (buf & Hbuf & Hbl).
    destruct (Z.lt_trichotomy res 0) as [Hr|[Hr|Hr]].
    + rewrite (on_file_read_fail i w1 a (s ++ [0])) by done. intros [= <-].
      eapply (release_handled _ _ i w); try done; [cbn; by rewrite list_insert_insert_eq|done|].
      unfold disown. by rewrite Ha.
    + rewrite (on_file_read_eof i w1 i buf a s) by (done || apply Ht).
      set (hash := blake3_hasher_finalize _ _).
      assert (Hhl : length hash = 32%nat) by apply hash_length.
      change (pr_data2 w1) with (pr_data2 w). change (p_quic p0) with (p_quic p).
      destruct Hd2 as [Hd2|Hd2].
      2: { destruct (verify_hash_long vfuel (u64 (pr_data2 w)) (s ++ [0]) HASH_LEN hash (p_quic p)) as [u ->]; [|done].
        rewrite u64_neg, length_app by lia. cbn. lia. }
      rewrite Hd2, u64_small by lia. destruct ph.
      1-2: by rewrite verify_hash_unconnected by (by destruct (so_conn _ _ _ _ Hs)).
      destruct (sys_carries _ _ _ Hs) as (recs & Hti & _).
      pose proof (ti_report (p_quic p) recs s hash vfuel Hti (Ready_any _) Hl Hhl) as Hq.
      destruct (verifier_verify_hash _ _ _ _ _ _) as [[[] q]| | | |]; try done. intros [= <-].
      eapply (release_handled _ _ i w); try done; [|cbn; by rewrite list_insert_insert_eq|done|].
      * rewrite (online_up p recs) by done. by eapply online_up.
      * unfold disown. by rewrite Ha.
    + rewrite (on_file_read_more i w1 i buf (u64 (Z.of_nat (length b)))) by (done || apply Ht || (cbn; lia)).
      intros [= <-]. unfold p0. rewrite put_put. by eapply resubmit_handled.
Qed.

(** The head of the free list is taken and submitted. *)
Lemma acquire_submit ph free i w w' q x p p1 K :
  sys_ok ph (i :: free) p K -> waits x p K -> reqs (p_slab p) !! i = Some w -> in_flight w' = 1 ->
  p_loop p1 = p_loop p -> online p1 = online p -> reqs (p_slab p1) = <[i := w']> (reqs (p_slab p)) ->
  (forall a s, e_heap (p_shared p) !! a = Some s -> e_heap (p_shared p1) !! a = Some s) ->
  waits x (submitted (RSlot i) q p1) K /\ kept_but None p (submitted (RSlot i) q p1).
Proof.
  intros Hs Hwt Hw Hf El Eo Er Eh. destruct (to_slab _ _ (so_thread _ _ _ _ Hs)) as (_ & _ & _ & He).
  destruct (He i w Hw) as (_ & _ & H0). rewrite bool_decide_true in H0 by (by left). split.
  - destruct (waits_acquire i x p p1 K) as [Hwt1 Hni]; try done; [|..|by apply waits_submit].
    + unfold flights. by rewrite list_lookup_fmap, Hw, <- H0.
    + unfold flights. by rewrite Er, list_fmap_insert, Hf.
  - eapply kept_trans; [|apply kept_submitted]. intros j wj _ Hj Hfj. rewrite Er.
    rewrite list_lookup_insert_ne by (intros <-; assert (wj = w) as -> by congruence; lia).
    split; [done|]. intros a s _. apply Eh.
Qed.

Lemma open_event_handled ph free ev x p p' K :
  sys_ok ph free p K -> event_ok (cl_path D) ev -> waits x p K -> open_event ev p = Ret (tt, p') ->
  waits x p' K /\ kept_but None p p'.
Proof.
  intros Hs (s & Hc & _) Hwt. pose proof (so_thread _ _ _ _ Hs) as Ht.
  destruct free as [|i free].
  { unfold open_event, mbind, M_bind. by rewrite (get_req_none _ (to_slab _ _ Ht)). }
  destruct (head_lookup _ _ _ Ht) as [w Hw].
  destruct (malloc_ok (q_world (p_quic p))) as [[] u] eqn:Hm.
  2: { unfold open_event. rewrite (bind_Ret _ _ _ _ _ (taken_eq _ _ _ _ (to_slab _ _ Ht) Hw)).
    unfold mbind, M_bind, strdup. rewrite Hc. change (p_quic (upd_p_slab _ p)) with (p_quic p).
    by rewrite Hm. }
  rewrite (open_event_eq i w free ev s u p (to_slab _ _ Ht) Hw Hc Hm (to_sq _ _ Ht)). intros [= <-].
  eapply (acquire_submit ph free i w (opening i w _ _)); [exact Hs|exact Hwt|exact Hw|done..|]. intros a str Ha. cbn. rewrite lookup_insert_ne; [done|]. intros <-.
  pose proof (so_brk _ _ _ _ Hs (e_brk (p_shared p)) ltac:(by exists str)). lia.
Qed.

(** The poll: re-armed exactly when the kernel does not keep it. *)
Lemma poll_handled ph free res fl p p' K :
  sys_ok ph free p K ->
  (if Z.land fl IORING_CQE_F_MORE =? 0 then waits [RQueuePoll] p K else waits [] p K /\ 0 <= res) ->
  complete vfuel (Cqe (WPtr (PReq RQueuePoll)) res fl) p = Ret (tt, p') -> handled None p p' K.
Proof.
  intros Hs0 Hwt. pose proof (sys_store ph free p K RQueuePoll res fl Hs0 ltac:(done)) as Hs.
  unfold complete, ev_complete. cbn [cqe_user_data cqe_res cqe_flags].
  unfold mbind, M_bind, modify. set (p0 := store_result _ _ _ p) in *.
  assert (Hk0 : forall q f, kept_but None p (upd_p_shared (upd_e_queue q (upd_e_efd f (p_shared p0))) p0))
    by (intros; by apply kept_same).
  assert (Hwx : exists x, waits x p0 K /\ x = if Z.land fl IORING_CQE_F_MORE =? 0 then [RQueuePoll] else []).
  { eexists. split; [|done]. destruct (_ =? 0); [|destruct Hwt as [Hwt _]]; by apply (waits_same _ p). }
  destruct (so_poll _ _ _ _ Hs) as [Hd Hcb]. destruct Hwx as (x & Hx & Ex).
  assert (Hrun : run_callback vfuel RQueuePoll p0 = on_queue_event RQueuePoll p0).
  { unfold run_callback, req_get, req_at. unfold mbind at 1, M_bind at 1. by rewrite Hcb. }
  rewrite Hrun. clear Hrun. destruct (Z.lt_ge_cases (result (p_queue_poll p0)) 0) as [Hr|Hr].
  { rewrite on_queue_event_neg by (done || apply Hs). destruct (decide (_ \/ _)); [done|]. intros [= <-].
    destruct (Z.land fl IORING_CQE_F_MORE =? 0) eqn:Hmore; [|cbn in Hr; lia]. subst x. split.
    - apply waits_submit; [done|apply not_elem_of_nil].
    - eapply kept_trans; [by apply (kept_same None p p0)|apply kept_submitted]. }
  destruct (so_queue _ _ _ _ Hs) as [Hqw Hqe].
  destruct (consume_ok D p0 Hqw Hqe) as (ret & ev & q' & f' & Hc & He & Hw' & Hf & Hret).
  set (p1 := upd_p_shared (upd_e_queue q' (upd_e_efd f' (p_shared p0))) p0).
  assert (Hs1 : sys_ok ph free p1 K) by (by apply sys_queue).
  assert (Harm : forall p2, waits x p2 K -> kept_but None p p2 -> handled None p (rearmed (p_queue_poll p0) p2) K).
  { intros p2 H2 Hk. unfold rearmed. change (result_flags (p_queue_poll p0)) with fl.
    destruct (_ =? 0); subst x; [|done]. split; [apply waits_submit; [done|apply not_elem_of_nil]|].
    eapply kept_trans; [done|apply kept_submitted]. }
  destruct Hret as [-> |Hret].
  - rewrite (on_queue_event_skip p0 q' f' 1 ev) by (done || apply Hs). intros [= <-].
    apply Harm; [by apply (waits_same _ p0)|apply Hk0].
  - destruct (open_event_fine TI Ready D ph free ev p1 K Hs1 He) as [Ho Hnf].
    destruct (open_event ev p1) as [[[] p2]| | | |] eqn:Hop; try done.
    + destruct Ho as [free' Hs2].
      rewrite (on_queue_event_take p0 q' f' ret ev p2 Hd Hr Hc Hret Hop) by apply Hs2. intros [= <-].
      destruct (open_event_handled ph free ev x p1 p2 K Hs1 He) as [H2 Hk]; [by apply (waits_same _ p0)|done|].
      apply Harm; [done|]. eapply kept_trans; [apply Hk0|exact Hk].
    + by rewrite (on_queue_event_exit p0 q' f' ret ev _ Hd Hr Hc Hret Hop).
Qed.

(** A flush once the timer was started: a container carries its update. *)
Lemma flush_egress_handled free p p' K :
  sys_ok Up free p K -> waits [] p K -> verifier_flush_egress vfuel p = Ret (tt, p') -> handled None p p' K.
Proof.
  intros Hs Hwt. pose proof (so_thread _ _ _ _ Hs) as Ht.
  destruct (sys_carries _ _ _ Hs) as (recs & Hti & _).
  destruct (ti_flush (p_quic p) recs vfuel Hti) as [Hf|(t & q & Hf & Hq)]; [by rewrite flush_egress_fuel|].
  destruct (so_conn _ _ _ _ Hs) as (_ & _ & _ & Hop).
  destruct (Z.lt_ge_cases (s64 t) 0) as [Hneg|Hpos]; [by rewrite (flush_egress_neg vfuel p q t)|].
  destruct free as [|i free]; [by rewrite (flush_egress_none vfuel p q t Hf Hpos Hop (to_slab _ _ Ht))|].
  destruct (head_lookup _ _ _ Ht) as [w Hw].
  rewrite (flush_egress_move vfuel p q t i free w Hf Hpos (to_sq _ _ Ht) Hop (to_slab _ _ Ht) Hw). intros [= <-].
  eapply (acquire_submit Up free i w (timer_entry i w)); [exact Hs|exact Hwt|exact Hw|done|done| | |done].
  - rewrite (online_up p recs) by done. by eapply online_up.
  - cbn. by rewrite list_insert_insert_eq.
Qed.

(** A datagram: the read is armed again, then the timer moved. *)
Lemma recv_handled free res fl p p' K :
  sys_ok Up free p K -> waits [RRecv] p K -> res <= READBUF_SIZE ->
  complete vfuel (Cqe (WPtr (PReq RRecv)) res fl) p = Ret (tt, p') -> handled None p p' K.
Proof.
  intros Hs0 Hwt Hres. pose proof (sys_store Up free p K RRecv res fl Hs0 ltac:(done)) as Hs.
  unfold complete, ev_complete. cbn [cqe_user_data cqe_res cqe_flags].
  unfold mbind at 1, M_bind at 1, modify. set (p0 := store_result _ _ _ p) in *.
  destruct (so_conn _ _ _ _ Hs) as ((Hd & Hcb & _ & _ & Hl) & _).
  assert (Hg : req_get RRecv p0 = Ret (v_recv_req (p_verifier p0), p0)) by done.
  unfold run_callback. rewrite (bind_Ret _ _ _ _ _ Hg), Hcb. unfold on_socket_read.
  rewrite (bind_Ret _ _ _ _ _ Hg), Hd. change (result (v_recv_req (p_verifier p0))) with res.
  destruct (res <? 0); [done|].
  rewrite (bind_Ret _ _ p0 (v_readbuf (p_verifier p0)) p0 eq_refl).
  rewrite Hl, (proj2 (Z.ltb_ge _ _)) by done.
  set (buf := take _ _).
  destruct (read_any TI Ready (p_quic p0) buf) as (r & q & Hr & Hq); [by eapply sys_carries_some|].
  assert (H1 : in_quic (verifier_quic_read buf) p0 = Ret (r, upd_p_quic q p0)) by (unfold in_quic; by rewrite Hr).
  rewrite (bind_Ret _ _ _ _ _ H1).
  pose proof (sys_transport _ _ _ q Hs Hq) as Hs1. set (p1 := upd_p_quic q p0) in *.
  rewrite (bind_Ret _ _ _ _ _ (submit_eq RRecv (v_recv_req (p_verifier p1)) p1 eq_refl
             (to_sq _ _ (so_thread _ _ _ _ Hs1)))).
  set (p2 := submitted RRecv _ p1).
  assert (Hs2 : sys_ok Up free p2 K) by (by apply sys_submit).
  assert (Hw1 : waits [RRecv] p1 K).
  { apply (waits_same _ p); try done. by rewrite (sys_online _ _ _ Hs0), (sys_online _ _ _ Hs1). }
  intros Hfl. destruct (flush_egress_handled free p2 p' K Hs2) as [Hw' Hk]; [|exact Hfl|].
  - apply waits_submit; [exact Hw1|apply not_elem_of_nil].
  - split; [done|]. eapply kept_trans; [by apply (kept_same None p p1)|].
    eapply kept_trans; [apply kept_submitted|exact Hk].
Qed.

(** The timer fires; it is not armed again. *)
Lemma timeout_handled free res fl p p' K :
  sys_ok Up free p K -> waits [RTimer] p K ->
  complete vfuel (Cqe (WPtr (PReq RTimer)) res fl) p = Ret (tt, p') -> handled None p p' K.
Proof.
  intros Hs0 Hwt. pose proof (sys_store Up free p K RTimer res fl Hs0 ltac:(done)) as Hs.
  unfold complete, ev_complete. cbn [cqe_user_data cqe_res cqe_flags].
  unfold mbind at 1, M_bind at 1, modify. set (p0 := store_result _ _ _ p) in *.
  destruct (so_conn _ _ _ _ Hs) as (_ & Hd & Hcb & _).
  assert (Hg : req_get RTimer p0 = Ret (v_timer_req (p_verifier p0), p0)) by done.
  unfold run_callback. rewrite (bind_Ret _ _ _ _ _ Hg), Hcb. unfold on_socket_timeout.
  rewrite (bind_Ret _ _ _ _ _ Hg), Hd.
  destruct (expiry_any TI Ready (p_quic p0)) as (r & q & Hr & Hq); [by eapply sys_carries_some|].
  assert (H1 : in_quic verifier_quic_handle_expiry p0 = Ret (r, upd_p_quic q p0)) by (unfold in_quic; by rewrite Hr).
  rewrite (bind_Ret _ _ _ _ _ H1). intros [= <-]. split; [|by apply kept_same].
  apply waits_fired, (waits_same _ p); try done.
  by rewrite (sys_online _ _ _ Hs0), (sys_online _ _ _ (sys_transport _ _ _ q Hs Hq)).
Qed.

(** The socket is there: the connect takes the place of its request. *)
Lemma create_handled free res fl p p' K :
  sys_ok Creating free p K -> waits [RConn] p K ->
  complete vfuel (Cqe (WPtr (PReq RConn)) res fl) p = Ret (tt, p') -> handled None p p' K.
Proof.
  intros Hs0 Hwt. pose proof (sys_store Creating free p K RConn res fl Hs0 ltac:(done)) as Hs.
  rewrite (complete_conn _ _ _ _ _ (proj1 (proj2 (proj2 (proj2 (proj2 (so_conn _ _ _ _ Hs0))))))).
  change (store_result RConn res fl p) with (conn_result res fl p) in Hs. set (p0 := conn_result res fl p) in *.
  destruct (so_conn _ _ _ _ Hs) as (_ & _ & Ha & Hd & _).
  pose proof (on_socket_create_eq p0 Hd Ha (to_sq _ _ (so_thread _ _ _ _ Hs))) as Hc. cbv zeta in Hc.
  destruct (getsockname _ _) as [e u]. rewrite Hc. destruct (_ || _); [done|]. intros [= <-]. split.
  - apply waits_submit; [|apply not_elem_of_nil]. by apply (waits_same _ p).
  - eapply kept_trans; [|apply kept_submitted]. by apply kept_same.
Qed.

(** The connection is there: the read and the timer are started. *)
Lemma connect_handled free res fl p p' K :
  sys_ok Connecting free p K -> waits [RConn] p K ->
  complete vfuel (Cqe (WPtr (PReq RConn)) res fl) p = Ret (tt, p') -> handled None p p' K.
Proof.
  intros Hs0 Hwt. pose proof (sys_store Connecting free p K RConn res fl Hs0 ltac:(done)) as Hs.
  rewrite (complete_conn _ _ _ _ _ (proj1 (proj2 (proj2 (proj2 (proj2 (so_conn _ _ _ _ Hs0))))))).
  change (store_result RConn res fl p) with (conn_result res fl p) in Hs. set (p0 := conn_result res fl p) in *.
  destruct (so_conn _ _ _ _ Hs) as (Hqn & Hi & _ & Hd & _ & Ht & _).
  assert (Hacc : q_accepted (p_quic p0) = []) by (by destruct (so_sent _ _ _ _ Hs) as (recs & [_ ?] & _)).
  pose proof (to_sq _ _ (so_thread _ _ _ _ Hs)) as Hwf.
  destruct (on_socket_connect_cases vfuel p0 Hd Hwf) as [->|(u & c & a & u1 & u2 & Hnew & ->)]; [done|].
  set (q1 := recv_req_of _ _). set (p1 := connected u c p0). set (p2 := submitted RRecv q1 p1).
  destruct (submitted_frame RRecv q1 p1) as (_ & _ & _ & _ & _ & _ & _ & v & Ev). fold p2 in Ev.
  assert (Hti : TI (p_quic p2) []).
  { unfold p_quic. rewrite Ev. apply ti_world. by apply (ti_new (set_qworld (p_quic p0) u) a u1 c u2). }
  destruct (ti_flush _ _ vfuel Hti) as [Hf|(t & q & Hf & Htq)]; [by rewrite flush_egress_fuel|].
  destruct (Z.lt_ge_cases (s64 t) 0) as [Hneg|Hpos]; [by rewrite (flush_egress_neg vfuel p2 q t)|].
  rewrite (flush_egress_start vfuel p2 q t Hf Hpos); [|by apply submitted_wf|by rewrite Ev].
  intros [= <-].
  assert (Hw1 : waits [RRecv; RTimer] p1 K).
  { apply (waits_connect p); try done. unfold online. by rewrite bool_decide_eq_false, <- eq_None_not_Some. }
  assert (Hw2 : waits [RTimer] p2 K) by (apply waits_submit; [done|by intros ?%list_elem_of_singleton]).
  split.
  - apply waits_submit; [|apply not_elem_of_nil]. apply (waits_same _ p2); try done.
    rewrite (online_up p2 []) by exact Hti. by eapply online_up.
  - eapply kept_trans; [by apply (kept_same None p p1)|].
    eapply kept_trans; [apply (kept_submitted _ RRecv q1 p1)|]. fold p2.
    eapply kept_trans; [|apply kept_submitted]. by apply kept_same.
Qed.

(** ** Completions *)

(** The kernel completes [e] of [K] and keeps the poll exactly when it says so
    with the flag, which it does not do with an error. *)
Definition armed_completes K (e : io_uring_sqe) (res fl : Z) K' : Prop :=
  exists K1 K2, K = K1 ++ e :: K2 /\ (sqe_opcode e = IORING_OP_READ -> res <= sqe_len e) /\
    if Z.land fl IORING_CQE_F_MORE =? 0 then K' = K1 ++ K2
    else K' = K /\ sqe_user_data e = WPtr (PReq RQueuePoll) /\ 0 <= res.

Lemma armed_kernel K e res fl K' : armed_completes K e res fl K' -> kernel_completes K e res fl K'.
Proof.
  intros (K1 & K2 & E & Hl & Hk). exists K1, K2. split; [done|]. split; [done|].
  destruct (Z.eqb_spec (Z.land fl IORING_CQE_F_MORE) 0); [by left|right]. by destruct Hk as (-> & Hu & _).
Qed.

(** Every completion that is handled leaves nothing out. *)
Lemma completion_handled ph free p p' K K' e res fl bufs rb :
  sys_ok ph free p K -> waits [] p K -> armed_completes K e res fl K' ->
  same_memory bufs rb p -> complete vfuel (Cqe (sqe_user_data e) res fl) (set_memory bufs rb p) = Ret (tt, p') ->
  handled (slot_of e) p p' K'.
Proof.
  intros Hs Hwt Hk Hm Hc. pose proof (armed_kernel _ _ _ _ _ Hk) as Hk0.
  destruct (sys_completes _ _ _ _ _ _ _ _ _ _ Hs Hk0) as (Hs' & r & q & Hu & Hr & He & Ha & Hf & _).
  pose proof (sys_memory _ _ _ _ _ _ Hs' Hm) as Hs1. set (p0 := set_memory bufs rb p) in *.
  destruct Hk as (K1 & K2 & -> & Hlen & Hk).
  assert (Hread : opcode q = IORING_OP_READ -> res <= len q) by (intros Ho; rewrite He in Hlen; by apply Hlen).
  assert (Hgone : r <> RQueuePoll -> waits [r] p0 K').
  { intros Hne. destruct (_ =? 0); [subst K'|destruct Hk as (_ & Hu' & _); congruence].
    apply (waits_same _ p); try done. eapply waits_drop; [exact Hwt|]. unfold req_of. by rewrite Hu. }
  assert (Hgo : handled (slot_of e) p0 p' K').
  2: { destruct Hgo as [Hw Hkb]. split; [done|]. eapply kept_trans; [|exact Hkb]. by apply kept_same. }
  unfold slot_of. rewrite Hu in Hc |- *. destruct r as [|i| | |].
  - eapply poll_handled; [exact Hs1| |exact Hc]. destruct (Z.land fl IORING_CQE_F_MORE =? 0).
    + subst K'. apply (waits_same _ p); try done. eapply waits_drop; [exact Hwt|]. unfold req_of. by rewrite Hu.
    + destruct Hk as (-> & _ & Hres). split; [|done]. by apply (waits_same _ p).
  - cbn in Hr. destruct (reqs (p_slab p) !! i) as [w|] eqn:Hw; [|done]. injection Hr as <-.
    destruct (Hf i eq_refl) as [Hi _]. eapply slot_handled; [exact Hs1|by apply Hgone|exact Hw|done|done|exact Hc].
  - destruct ph; [..|done].
    + eapply create_handled; [exact Hs1|by apply Hgone|exact Hc].
    + eapply connect_handled; [exact Hs1|by apply Hgone|exact Hc].
  - injection Hr as <-. destruct ph; try done. eapply recv_handled; [exact Hs1|by apply Hgone| |exact Hc].
    destruct (so_conn _ _ _ _ Hs) as ((_ & _ & Ho & Hl & _) & _). rewrite <- Hl. by apply Hread.
  - destruct ph; try done. eapply timeout_handled; [exact Hs1|by apply Hgone|exact Hc].
Qed.
End handlers.

(** ** Runs *)

Section runs.
Context {H C W F : Type} `{!Blake3 H, !IoUring W, !Ngtcp2 C, !Host W, !Net C W, !Malloc W, !Eventfd F}.
Local Abbreviation P := (processor H C W F).
Local Abbreviation state := (P * list io_uring_sqe * files)%type.
Context (Kern : files -> P -> io_uring_sqe -> Z -> list (list Z) -> files -> Prop) (vfuel : nat).
Context (G : list Z -> Prop).
Implicit Types (p : P) (K : list io_uring_sqe).

(** The steps of a thread, labelled with the request that is completed and its
    result: those of [file_own_step], with a kernel that keeps the poll as it
    says. *)
Inductive live_own_step : option (io_uring_sqe * Z) -> state -> state -> Prop :=
  | live_take p K T e rest :
      sq_pending (p_loop p) = e :: rest ->
      live_own_step None (p, K, T) (upd_p_loop (kernel_take (p_loop p)) p, K ++ [e], T)
  | live_world p K T u :
      live_own_step None (p, K, T) (upd_p_quic (set_qworld (p_quic p) u) p, K, T)
  | live_complete p K K' T T1 e res fl bufs rb p' o :
      armed_completes K e res fl K' -> same_memory bufs rb p ->
      Kern T p e res bufs T1 ->
      complete vfuel (Cqe (sqe_user_data e) res fl) (set_memory bufs rb p) = Ret (tt, p') ->
      e_out (p_shared p') = e_out (p_shared p) ++ o ->
      live_own_step (Some (e, res)) (p, K, T) (p', K', closes o T1).

(** Other threads act on the queue and the eventfd. *)
Inductive live_step : option (io_uring_sqe * Z) -> state -> state -> Prop :=
  | live_own l x x' : live_own_step l x x' -> live_step l x x'
  | live_queue p K T q f :
      queue_wf q -> Forall (event_ok G) (contents q) ->
      live_step None (p, K, T) (upd_p_shared (upd_e_queue q (upd_e_efd f (p_shared p))) p, K, T).

Definition live_steps : state -> state -> Prop := rtc (fun x x' => exists l, live_step l x x').

Lemma live_own_file l x x' : live_own_step l x x' -> file_own_step Kern vfuel x x'.
Proof.
  intros []; [by eapply file_take|apply file_world|]. eapply file_complete; try done. by apply armed_kernel.
Qed.

Lemma live_file l x x' : live_step l x x' -> file_step Kern vfuel G x x'.
Proof. intros [l' y y' Hst|]; [by eapply file_own, live_own_file|by apply file_queue]. Qed.

(** Executed steps are such steps when the kernel keeps no poll. *)
Definition plain (a : act) : Prop := match a with Take => True | Done _ _ fl _ => fl = 0 end.

(** The container whose request is completed. *)
Definition done_of (l : option (io_uring_sqe * Z)) : option nat := l ≫= fun '(e, _) => slot_of e.
End runs.

Section execution.
Context {H C W F : Type} `{!Blake3 H, !Blake3Laws H, !IoUring W, !Ngtcp2 C, !Host W, !Net C W, !Malloc W, !Eventfd F}.
Context (fs : list Z -> option (list Z)) (vfuel : nat) (G : list Z -> Prop).
Implicit Types x : processor H C W F * list io_uring_sqe * files.

(** Some answers are any answers. *)
Lemma live_steps_any Kern x x' : live_steps Kern vfuel G x x' -> live_steps any_kernel vfuel G x x'.
Proof.
  apply rtc_subrel. intros y y' [l Hst]. exists l.
  destruct Hst as [l x1 x2 Hst|]; [|by apply live_queue]. apply live_own.
  destruct Hst; [by eapply live_take|by apply live_world|by eapply live_complete].
Qed.

Lemma file_exec_live a x x' :
  file_exec fs vfuel a x = Some x' -> plain a ->
  exists l, live_step (kernel_serves fs) vfuel G l x x' /\
    (done_of l = match a with Take => None | Done n _ _ _ => x.1.2 !! n ≫= slot_of end) /\
    (forall e r, l = Some (e, r) -> exists n fl bytes, a = Done n r fl bytes).
Proof.
  destruct x as [[p K] T]. destruct a as [|n res fl bytes].
  - cbn. destruct (sq_pending _) as [|e rest] eqn:He; [done|]. intros [= <-] _.
    exists None. split; [by eapply live_own, live_take|done].
  - intros (e & bufs & rb & T1 & p' & o & He & Hr & Hm & Hsv & Hc & Ho & ->)%file_exec_done Hfl.
    cbn in Hfl. subst fl. exists (Some (e, res)). split; [|split].
    + eapply live_own, live_complete; try done. exists (take n K), (drop (S n) K).
      split; [by rewrite take_drop_middle|done].
    + cbn. by rewrite He.
    + intros e' r [= <- <-]. by eexists _, _, _.
Qed.

Lemma file_run_live l x x' :
  file_run fs vfuel l x = Some x' -> Forall plain l -> live_steps (kernel_serves fs) vfuel G x x'.
Proof.
  intros Hr Hl. revert x Hr. induction Hl as [|a l Ha Hl IH]; intros x; cbn; [by intros [= <-]|].
  intros (x1 & Hx & Hr)%bind_Some. destruct (file_exec_live _ _ _ Hx Ha) as (lb & Hst & _).
  eapply rtc_l; [by exists lb|by apply IH].
Qed.
End execution.

Section never_lost.
Context {H C W F : Type} `{!Blake3 H, !Blake3Laws H, !IoUring W, !Ngtcp2 C, !Host W, !Net C W, !NetV4 C W, !Malloc W}.
Context `{!Eventfd F, !EventfdSem F}.
Context (TI : quic C W -> list (list Z) -> Prop) (Ready : quic C W -> Prop) `{!Transport TI Ready}.
Context (Ready_any : forall q, Ready q).
Implicit Types (p : processor H C W F) (K : list io_uring_sqe).

Lemma live_own_waits vfuel D Kern ph free l p K T p' K' T' :
  sys_ok (TI := TI) (D := D) ph free p K -> waits [] p K ->
  live_own_step Kern vfuel l (p, K, T) (p', K', T') -> handled (done_of l) p p' K'.
Proof.
  intros Hs Hwt Hst. inversion Hst; subst; cbn [done_of mbind option_bind].
  - split; [by eapply waits_take|by apply kept_same].
  - split; [by apply (waits_same _ p)|by apply kept_same].
  - by eapply (completion_handled vfuel TI Ready Ready_any D).
Qed.

Lemma live_step_waits vfuel D Kern G ph free l p K T p' K' T' :
  sys_ok (TI := TI) (D := D) ph free p K -> waits [] p K ->
  live_step Kern vfuel G l (p, K, T) (p', K', T') -> handled (done_of l) p p' K'.
Proof.
  intros Hs Hwt Hst. inversion Hst; subst; [by eapply live_own_waits|].
  split; [by apply (waits_same _ p)|by apply kept_same].
Qed.

(** A thread that has just started waits for its poll and its socket. *)
Lemma first_waits D n p q1 q2 :
  sys_ok (TI := TI) (D := D) Creating (seq 0 n) p [] -> length (reqs (p_slab p)) = n ->
  Z.of_nat n + 3 <= sq_size (p_loop p) ->
  sq_pending (p_loop p) = [sqe_of_req RQueuePoll q1; sqe_of_req RConn q2] -> waits [] p [].
Proof.
  intros Hs Hn Hsz Hp. assert (Ho : outstanding p [] = [RQueuePoll; RConn]) by (unfold outstanding; by rewrite Hp).
  destruct (so_conn _ _ _ _ Hs) as [Hqn _].
  assert (Hon : online p = false) by (unfold online; by rewrite bool_decide_eq_false, <- eq_None_not_Some).
  assert (Hfl : forall i, flights p !! i <> Some 1).
  { intros i (w & Hw1 & Hw)%list_lookup_fmap_Some. destruct (to_slab _ _ (so_thread _ _ _ _ Hs)) as (_ & _ & _ & He).
    destruct (He i w Hw) as (_ & _ & Hx). apply lookup_lt_Some in Hw.
    rewrite bool_decide_true in Hx by (apply elem_of_seq; lia). lia. }
  split; rewrite ?Ho; try done.
  - apply Hs.
  - unfold flights. rewrite length_fmap. lia.
  - rewrite app_nil_r, Hp. intros e [->|[->|[]%elem_of_nil]%elem_of_cons]%elem_of_cons; by eexists.
  - apply NoDup_cons. split; [by intros ?%list_elem_of_singleton|apply NoDup_singleton].
  - intros r [->|[->|[]%elem_of_nil]%elem_of_cons]%elem_of_cons; by left.
  - intros [|i| | |] Hu _; cbn in Hu; [by left|by destruct (Hfl i)|right; by left|congruence|done].
  - by intros r ?%elem_of_nil.
Qed.
End never_lost.

Section from_the_start.
Context {H C W F : Type} `{!Blake3 H, !Blake3Laws H, !IoUring W, !Ngtcp2 C, !Host W, !Net C W, !NetV4 C W, !Malloc W}.
Context `{!Eventfd F, !EventfdSem F, !Ngtcp2Laws C, !StreamLaws C, !HostLaws W}.
Context (vfuel : nat).

(** The started thread, for any claims without descriptors. *)
Lemma started_waits D args bufs (h0 : hasher H) l u (p p1 : processor H C W F) :
  (forall i f, ~ cl_holds D i f) ->
  start_memory args bufs l -> start_env (cl_path D) p -> pa_io_concurrency args + 3 <= sq_size l ->
  ev_loop_init (None, q_world (p_quic p)) = Ret (0, (Some l, u)) ->
  processor_start args (Some bufs) true h0 p = Ret (0, p1) ->
  (exists ph free, sys_ok (TI := sends_bytes) (D := D) ph free p1 []) /\ waits [] p1 [].
Proof.
  intros Hnh Hm He Hsz Hl Hp.
  destruct (processor_start_fine sends_bytes any_time D args bufs h0 l u p Hnh Hm He Hl)
    as [Hx|(p2 & Hx & Hs & _ & Hlen & Esz & Hpend)]; [congruence|].
  assert (p2 = p1) as -> by congruence. pose proof (sm_tasks _ _ _ Hm).
  destruct Hpend as (q1 & q2 & Hpend); [lia|]. split; [by eexists _, _|].
  eapply first_waits; [exact Hs|exact Hlen|rewrite Esz; lia|exact Hpend].
Qed.

(** C5. No request is ever lost. On a submission ring with at least three more
    entries than the thread has containers (the ring has 128, so up to 125
    containers), in every state a started thread can reach through callbacks
    that return, whatever the kernel answers and in whatever order (it keeps the
    poll exactly as long as it says), and whatever ngtcp2, the socket and the
    peer do: no request is with the kernel twice; the
    poll of the queue is armed; the request for the connection is out until
    there is a connection, and the read of the socket from then on; and the
    request of every container in flight is out. So every callback finds room
    in the ring, and every file in flight can go on. *)
Theorem requests_never_lost args bufs (h0 : hasher H) l u p p1 (p' : processor H C W F) K' T' :
  start_memory args bufs l -> start_env any_path p -> pa_io_concurrency args + 3 <= sq_size l ->
  ev_loop_init (None, q_world (p_quic p)) = Ret (0, (Some l, u)) ->
  processor_start args (Some bufs) true h0 p = Ret (0, p1) ->
  live_steps any_kernel vfuel any_path (p1, [], ∅) (p', K', T') ->
  NoDup (outstanding p' K') /\ all_armed p' K' /\
  forall r, may_be_out p' r -> r ∉ outstanding p' K' -> sq_len (p_loop p') < sq_size (p_loop p').
Proof.
  intros Hm He Hsz Hl Hp Hr.
  destruct (started_waits no_claims args bufs h0 l u p p1) as (Hs & Hwt); try done; [by intros i f []|].
  set (Inv := fun x : processor H C W F * list io_uring_sqe * files =>
    (exists ph free, sys_ok (TI := sends_bytes) (D := no_claims) ph free x.1.1 x.1.2) /\ waits [] x.1.1 x.1.2).
  assert (HI : Inv (p', K', T')).
  { assert (H0 : Inv (p1, [], ∅)) by done. revert H0.
    induction Hr as [x|[[pa Ka] Ta] [[pb Kb] Tb] z [lb Hst] _ IH]; [done|]. intros [(ph & free & Hs1) Hw1]. apply IH.
    split; [|exact (proj1 (live_step_waits sends_bytes any_time (fun _ => I) vfuel _ _ _ _ _ _ _ _ _ _ _ _ Hs1 Hw1 Hst))].
    eapply (step_ok vfuel sends_bytes any_time no_claims); [exact no_claims_claimless|done|exact Hs1|].
    destruct (live_file _ _ _ _ _ _ Hst) as [[[? ?] ?] [[? ?] ?] Ho|]; [apply step_own; by eapply file_own_step_own|].
    by apply step_queue. }
  destruct HI as [_ Hw]. cbn [fst snd] in *. split; [apply Hw|]. split; [by apply waits_armed|].
  intros r Hm' Hr'. by eapply waits_entry.
Qed.
End from_the_start.

(** ** Witness: a ring of four entries *)

#[local] Existing Instances keep_ngtcp2 keep_host keep_ngtcp2_laws keep_host_laws keep_net keep_streams keep_v4.

#[local] Instance wide_uring : IoUring nat := {
  io_uring_setup _ _ w := (3, w);
  mmap_sq _ w := (Some (IouRing 0 0 3 0), w);
  mmap_cq _ w := (Some (IouRing 0 0 1 0, [Cqe (WInt 0) 0 0; Cqe (WInt 0) 0 0]), w);
  mmap_sqes _ w := (Some [sqe_zero; sqe_zero; sqe_zero; sqe_zero], w);
  io_uring_enter _ _ _ _ w := (0, w);
}.

Definition wide_ring : ev_loop :=
  EvLoop (IouRing 0 0 3 0) (IouRing 0 0 1 0) [sqe_zero; sqe_zero; sqe_zero; sqe_zero]
    [Cqe (WInt 0) 0 0; Cqe (WInt 0) 0 0] 3.

Lemma is_mask_3 : is_mask 3.
Proof. exists 2. split; [lia|reflexivity]. Qed.

Lemma wide_start_memory : start_memory toy_args [replicate (Z.to_nat READ_BUF_SIZE) 0] wide_ring.
Proof.
  split.
  - simpl. lia.
  - reflexivity.
  - repeat constructor.
  - split; [exact is_mask_3|]. repeat split; vm_compute; congruence.
  - reflexivity.
Qed.

Local Abbreviation wide_start :=
  (processor_start toy_args (Some [replicate (Z.to_nat READ_BUF_SIZE) 0]) true (Hasher []) keep_thread).

(** The connection is made, and a file is being read. *)
Lemma requests_never_lost_witness :
  exists p1 p' K' T', wide_start = Ret (0, p1) /\
    live_steps any_kernel 20 any_path (p1, [], ∅) (p', K', T') /\ is_Some (q_conn (p_quic p')) /\
    RQueuePoll ∈ outstanding p' K' /\ RRecv ∈ outstanding p' K' /\ RSlot 0 ∈ outstanding p' K'.
Proof.
  assert (Hx : match wide_start with
    | Ret (0, p1) =>
        match file_run toy_fs 20 toy_acts (p1, [], ∅) with
        | Some (p', _, _) =>
            match reqs (p_slab p') !! 0%nat with
            | Some w => bool_decide (in_flight w = 1) && bool_decide (is_Some (q_conn (p_quic p')))
            | None => false
            end
        | None => false
        end
    | _ => false
    end = true) by (vm_compute; reflexivity).
  pose proof (fun p1 p' K' T' => requests_never_lost 20 toy_args [replicate (Z.to_nat READ_BUF_SIZE) 0] (Hasher [])
    wide_ring 0%nat keep_thread p1 p' K' T' wide_start_memory (keep_start_env any_path I)) as Ht.
  set (m := processor_start toy_args _ true (Hasher []) keep_thread) in *.
  destruct m as [[[| |] p1]| | | |]; try discriminate Hx.
  destruct (file_run _ _ _ _) as [[[p' K'] T']|] eqn:Hr; [|discriminate Hx].
  destruct (reqs (p_slab p') !! 0%nat) as [w|] eqn:Hw; [|discriminate Hx].
  apply andb_true_iff in Hx as [H1 H2]. apply bool_decide_eq_true in H1, H2.
  apply file_run_live with (G := any_path) in Hr; [|by repeat constructor].
  apply live_steps_any in Hr.
  destruct (Ht p1 p' K' T' ltac:(vm_compute; discriminate) eq_refl eq_refl Hr) as (_ & (Hq & _ & Hc & Hs) & _).
  exists p1, p', K', T'. split; [reflexivity|]. split; [exact Hr|]. split; [exact H2|].
  split; [exact Hq|]. split; [exact (Hc H2)|exact (Hs 0%nat w Hw H1)].
Defined.
