(* ===== verification/Progress.v ===== *)
(** * Every file in flight is reported

    A file a thread has taken on is finished by the completions of its own
    container, at most two more than it has bytes, whatever happens to the
    thread in between; and until then its request is with the kernel. *)

From stdpp Require Import base numbers list list_numbers gmap.
From S2P Require Import Prelude CStr Queue Ev Hasher Slab Quic Transport State Verifier Ride Processor.
From S2P Require Import Examples Thread Pipeline Connect ThreadInv System Boot Files Armed.

Open Scope Z_scope.

Section progress.
Context {H C W F : Type} `{!Blake3 H, !Blake3Laws H, !IoUring W, !Ngtcp2 C, !Host W, !Net C W, !Malloc W}.
Context `{!Eventfd F, !EventfdSem F}.
Context (fs : list Z -> option (list Z)).
Context (vfuel : nat) (G : list Z -> Prop).
Local Abbreviation P := (processor H C W F).
Local Abbreviation state := (P * list io_uring_sqe * files)%type.
Implicit Types (p : P) (w : processor_iou_req H) (K : list io_uring_sqe) (x : state).

(** The kernel serves a request without an error of its own: an open fails only
    when there is no file at the path, and a read does not fail. *)
Definition served_well p (e : io_uring_sqe) (res : Z) : Prop :=
  (sqe_opcode e = IORING_OP_READ -> 0 <= res) /\
  (sqe_opcode e = IORING_OP_OPENAT -> res < 0 -> forall a str s,
     sqe_addr e = WPtr (PStr a) -> e_heap (p_shared p) !! a = Some str -> c_string str = Some s -> fs s = None).

(** A run in which the kernel completes the requests of container [i] exactly
    [n] times, and serves them well. *)
Inductive run (i : nat) : nat -> state -> state -> Prop :=
  | run_nil x : run i 0 x x
  | run_other n x y z l :
      run i n x y -> live_step (kernel_serves fs) vfuel G l y z -> done_of l <> Some i -> run i n x z
  | run_own n x y z e res :
      run i n x y -> live_step (kernel_serves fs) vfuel G (Some (e, res)) y z -> slot_of e = Some i ->
      served_well y.1.1 e res -> run i (S n) x z.

(** Container [i] is in flight for the path [s], and [n] completions have
    brought it as far as they should. *)
Definition on_its_way (i : nat) (s : list Z) (n : nat) p : Prop :=
  exists w a, reqs (p_slab p) !! i = Some w /\ in_flight w = 1 /\ pr_data w = Some a /\
    e_heap (p_shared p) !! a = Some (s ++ [0]) /\
    (opcode (pr_req w) = IORING_OP_OPENAT /\ n = 0%nat \/
     opcode (pr_req w) = IORING_OP_READ /\ exists o, off (pr_req w) = WInt o /\ Z.of_nat n <= o + 1).

Definition printed (id : Z) (i : nat) (s c : list Z) p : Prop :=
  EWrite (hash_line id (Z.of_nat i) s (digest c)) ∈ e_out (p_shared p).

(** What is printed stays printed. *)
Lemma live_out l p K T p' K' T' :
  live_step (kernel_serves fs) vfuel G l (p, K, T) (p', K', T') ->
  exists o, e_out (p_shared p') = e_out (p_shared p) ++ o.
Proof.
  intros Hst. inversion Hst as [? ? ? Hown|]; subst; [|exists []; by rewrite app_nil_r].
  inversion Hown; subst; [..|by exists o]; exists []; by rewrite app_nil_r.
Qed.

(** The container keeps its place while others are served. *)
Lemma on_its_way_kept i s n p p' (j : option nat) :
  kept_but j p p' -> j <> Some i -> on_its_way i s n p -> on_its_way i s n p'.
Proof.
  intros Hk Hx (w & a & Hw & Hf & Ha & Hh & Hu). destruct (Hk i w Hx Hw Hf) as [Hw' Hh'].
  exists w, a. split_and!; try done. by apply Hh'.
Qed.

Context (fs_small : forall s c, fs s = Some c -> Z.of_nat (length c) < 2 ^ 64) (G_nil : G []).
Context (TI : quic C W -> list (list Z) -> Prop) (Ready : quic C W -> Prop) `{!Transport TI Ready}.
Context (Ready_any : forall q, Ready q).
Local Abbreviation claims_at := (file_claims (H := H) fs G G_nil).
Local Abbreviation sys_ok T := (sys_ok (TI := TI) (D := claims_at T)).

(** What the invariant says of a container on its way. *)
Lemma on_its_way_slot ph free p K T i s n :
  sys_ok T ph free p K -> on_its_way i s n p ->
  exists w a, reqs (p_slab p) !! i = Some w /\ (i ∉ free) /\ file_slot (D := claims_at T) (p_shared p) i w a s /\
    (opcode (pr_req w) = IORING_OP_OPENAT /\ n = 0%nat \/
     opcode (pr_req w) = IORING_OP_READ /\ exists o, off (pr_req w) = WInt o /\ Z.of_nat n <= o + 1).
Proof.
  intros Hs (w & a & Hw & Hf & Ha & Hh & Hu).
  pose proof (used_entry free i w p (to_slab _ _ (so_thread _ _ _ _ Hs)) Hw Hf) as Hi.
  destruct (so_used _ _ _ _ Hs i w Hw Hi) as [(a' & s' & Hfs)|[Hx _]]; [|congruence].
  pose proof Hfs as (Ha' & Hh' & _). assert (a' = a) as -> by congruence.
  rewrite Hh in Hh'. injection Hh' as Hss. apply app_inj_tail in Hss as [-> _]. by exists w, a.
Qed.

(** A container on its way has not read past the end. *)
Lemma on_its_way_bound ph free p K T i s n c :
  sys_ok T ph free p K -> on_its_way i s n p -> fs s = Some c -> (n <= length c + 1)%nat.
Proof.
  intros Hs Hi Hc. destruct (on_its_way_slot _ _ _ _ _ _ _ _ Hs Hi) as (w & a & _ & _ & Hf & Hu).
  destruct Hu as [[_ ->]|(Hop & o & Ho & Hn)]; [lia|].
  destruct Hf as (_ & _ & _ & _ & _ & [(_ & Hop' & _)|(_ & _ & _ & _ & b & (c' & _ & Hc' & Hb) & Hoff & _)]);
    [by rewrite Hop in Hop'|].
  assert (c' = c) as -> by congruence. rewrite Hoff in Ho. injection Ho as <-.
  rewrite (small_offset fs fs_small s c b) in Hn by done. apply prefix_length in Hb. lia.
Qed.

(** The kernel gives no bytes the file does not have. *)
Lemma served_within T p e res bufs T1 i c o k buf :
  kernel_serves fs T p e res bufs T1 -> sqe_opcode e = IORING_OP_READ -> 0 < res -> T !! sqe_fd e = Some (i, c) ->
  sqe_off e = WInt o -> 0 <= o -> sqe_addr e = WPtr (PBuffer k) -> bufs !! k = Some buf ->
  res <= Z.of_nat (length buf) -> o + res <= Z.of_nat (length c).
Proof.
  intros Hk Hop Hr Hf Ho Hpos Had Hb Hl.
  destruct Hk as [a' str s' c' i' Hx|j c' o' k' buf' _ _ Hf' Ho' Ha' Hb' Ht _|[?|[_ Hno]]];
    [congruence| |lia|specialize (Hno Hop); congruence].
  rewrite Ho in Ho'. rewrite Had in Ha'. injection Ho' as <-. injection Ha' as <-. simplify_eq.
  apply (f_equal length) in Ht. rewrite !length_take, length_drop in Ht. lia.
Qed.

(** A completion of its own: the file is opened, more of it is read, or it is
    at its end and is printed. *)
Lemma own_completion ph free p K K' T T1 e res fl bufs rb p' i s n c :
  sys_ok T ph free p K -> on_its_way i s n p -> fs s = Some c ->
  armed_completes K e res fl K' -> same_memory bufs rb p ->
  kernel_serves fs T p e res bufs T1 -> slot_of e = Some i -> served_well p e res ->
  complete vfuel (Cqe (sqe_user_data e) res fl) (set_memory bufs rb p) = Ret (tt, p') ->
  printed (p_id p) i s c p' \/ on_its_way i s (S n) p'.
Proof.
  intros Hs Hi Hc Hk Hm Hsv Hsl [Hre Hop] Hcomp.
  destruct (on_its_way_slot _ _ _ _ _ _ _ _ Hs Hi) as (w & a & Hw & Hif & Hf & Hu).
  destruct (sys_completes _ _ _ _ _ _ _ _ _ _ Hs (armed_kernel _ _ _ _ _ Hk))
    as (Hs' & r & q & Hud & Hr & He & _).
  unfold slot_of in Hsl. rewrite Hud in Hsl. destruct r as [|j| | |]; try done. injection Hsl as ->.
  cbn in Hr. rewrite Hw in Hr. injection Hr as <-. rewrite Hud in Hcomp.
  pose proof (so_thread _ _ _ _ (sys_memory _ _ _ _ _ _ Hs' Hm)) as Ht.
  pose proof Hf as (Ha & Hh & [Hns HG] & Hl & Hd2 & Hcase).
  destruct Hcase as [(Hcb & Hopc & Had)|(Hcb & Hopc & Hlen & Had & b & (c' & Hfd & Hc' & Hb) & Hoff & Hha)].
  - right. destruct Hu as [[_ ->]|[Hx _]]; [|by rewrite Hopc in Hx].
    assert (Hpos : 0 <= res).
    { destruct (Z.lt_ge_cases res 0) as [Hneg|]; [|done]. rewrite He in Hop.
      specialize (Hop Hopc Hneg a (s ++ [0]) s Had Hh (c_string_app s [] Hns)). congruence. }
    destruct (open_completed vfuel free i w res fl _ _ Ht Hif Hw Hcb Hpos Hcomp) as (w' & Hw' & [Ho' _] & Hfl & Hd' & Hoff' & Hh').
    exists w', a. rewrite Hd', Hh'. split_and!; try done. right. split; [done|]. exists 0. split; [done|lia].
  - destruct Hu as [[Hx _]|(_ & o & Ho & Hn)]; [by rewrite Hopc in Hx|].
    assert (c' = c) as -> by congruence. rewrite Hoff in Ho. injection Ho as <-.
    rewrite (small_offset fs fs_small s c b) in Hn by done.
    assert (Hmax : res <= READ_BUF_SIZE).
    { destruct Hk as (K1 & K2 & _ & Hb' & _). rewrite He in Hb'. cbn in Hb'. rewrite <- Hlen. by apply Hb'. }
    assert (Hpos : 0 <= res) by (apply Hre; by rewrite He).
    destruct (read_completed vfuel (claims_at T) free i w a s res fl (set_memory bufs rb p) p' Ht Hif Hw Hf Hcb Hmax Hcomp)
      as (w' & Hw' & [(Hgt & _ & [Ho' _] & Hfl & Hd' & Hh' & Hoff')|[(? & _)|(Hz & _ & Hout)]]); [|lia|].
    + right. exists w', a. rewrite Hd', Hh'. split_and!; try done. right. split; [done|].
      eexists. split; [exact (Hoff' _ Hoff)|]. rewrite He in Hsv.
      assert (Hlt : Z.of_nat (length b) + res <= Z.of_nat (length c)).
      { destruct (to_bufs _ _ Ht i (lookup_lt_Some _ _ _ Hw)) as (buf & Hbuf & Hbl).
        apply (served_within _ _ _ _ _ _ i c _ i buf Hsv Hopc Hgt Hfd); [|lia|exact Had|exact Hbuf|lia].
        cbn. by rewrite Hoff, (small_offset fs fs_small s c b). }
      pose proof (fs_small _ _ Hc). rewrite (small_offset fs fs_small s c b), u64_small by (done || lia). lia.
    + left. unfold printed. rewrite Hout. apply elem_of_app. right. rewrite Hha. cbn [blake].
      assert (b = c) as ->; [|by left].
      rewrite He in Hsv. by apply (served_whole fs fs_small _ _ _ _ _ _ (fd (pr_req w)) i s b c Hsv).
Qed.

(** A thread with container [i] on its way, or its file printed. *)
Definition underway (id : Z) (i : nat) (s c : list Z) (n : nat) x : Prop :=
  files_ok fs G G_nil TI id x /\ waits [] x.1.1 x.1.2 /\ (printed id i s c x.1.1 \/ on_its_way i s n x.1.1).

(** Every step keeps the invariants and what is printed, and steps for others
    keep the container as it is. *)
Lemma underway_step id i s c n l y z :
  files_ok fs G G_nil TI id y -> waits [] y.1.1 y.1.2 -> live_step (kernel_serves fs) vfuel G l y z ->
  files_ok fs G G_nil TI id z /\ waits [] z.1.1 z.1.2 /\
  (printed id i s c y.1.1 -> printed id i s c z.1.1) /\
  (done_of l <> Some i -> on_its_way i s n y.1.1 -> on_its_way i s n z.1.1).
Proof.
  intros Hok Hwt Hst.
  split; [exact (file_step_ok fs fs_small G G_nil vfuel TI Ready (kernel_serves fs) (fun _ _ _ _ _ _ Hk => conj Hk (fun _ _ _ => Ready_any _)) _ _ _ Hok
    (live_file _ _ _ _ _ _ Hst))|].
  destruct y as [[py Ky] Ty], z as [[pz Kz] Tz]. destruct Hok as (Hid & ph & free & Hs). cbn [fst snd] in *.
  destruct (live_step_waits TI Ready Ready_any vfuel _ _ _ _ _ _ _ _ _ _ _ _ Hs Hwt Hst) as [Hwz Hk]. split; [done|].
  destruct (live_out _ _ _ _ _ _ _ Hst) as [o Ho]. split.
  - unfold printed. rewrite Ho. intros Hp. apply elem_of_app. by left.
  - intros Hl. by eapply on_its_way_kept.
Qed.

Lemma live_steps_ok id x x' :
  files_ok fs G G_nil TI id x -> waits [] x.1.1 x.1.2 -> live_steps (kernel_serves fs) vfuel G x x' ->
  files_ok fs G G_nil TI id x' /\ waits [] x'.1.1 x'.1.2.
Proof.
  intros Hok Hwt Hr. induction Hr as [x|x y z [l Hst] _ IH]; [done|].
  destruct (underway_step id 0 [] [] 0 l x y Hok Hwt Hst) as (Hy & Hwy & _). by apply IH.
Qed.

(** A whole run. *)
Lemma run_underway id i s c n x x' :
  fs s = Some c -> run i n x x' -> underway id i s c 0 x -> underway id i s c n x'.
Proof.
  intros Hc Hr Hx. induction Hr as [x|n x y z l Hr IH Hst Hl|n x y z e res Hr IH Hst Hsl Hsw]; [done|..];
    destruct (IH Hx) as (Hok1 & Hwt1 & Hy);
    destruct (underway_step id i s c n _ _ _ Hok1 Hwt1 Hst) as (Hok & Hwt & Hp & Hw);
    (split; [done|]; split; [done|]); destruct Hy as [Hy|Hy]; [left|right|left|]; [auto..|].
  inversion Hst as [? ? ? Hown|]; subst. inversion Hown; subst. destruct Hok1 as (<- & ph & free & Hs).
  by eapply own_completion.
Qed.
End progress.

(** ** Executed runs *)

Section execution.
Context {H C W F : Type} `{!Blake3 H, !Blake3Laws H, !IoUring W, !Ngtcp2 C, !Host W, !Net C W, !Malloc W, !Eventfd F}.
Context (fs : list Z -> option (list Z)) (vfuel : nat) (G : list Z -> Prop).
Implicit Types x : processor H C W F * list io_uring_sqe * files.

(** The completions of container [i] in an execution. *)
Definition own_act (i : nat) (a : act) x : bool :=
  match a with Take => false | Done n _ _ _ => bool_decide (x.1.2 !! n ≫= slot_of = Some i) end.

Fixpoint own_acts (i : nat) (l : list act) x : nat :=
  match l with
  | [] => 0
  | a :: l => match file_exec fs vfuel a x with
              | Some x1 => ((if own_act i a x then 1 else 0) + own_acts i l x1)%nat
              | None => 0
              end
  end.

(** Executed steps without errors. *)
Definition succeeds (a : act) : Prop := match a with Take => True | Done _ res fl _ => fl = 0 /\ 0 <= res end.

Lemma run_trans i n m x y z : run fs vfuel G i n x y -> run fs vfuel G i m y z -> run fs vfuel G i (n + m) x z.
Proof.
  intros H1 H2. induction H2 as [y|m y z z' l H2 IH Hst Hl|m y z z' e res H2 IH Hst Hsl Hsw].
  - by rewrite Nat.add_0_r.
  - by eapply run_other; [apply IH| |].
  - rewrite Nat.add_succ_r. by eapply run_own; [apply IH|..].
Qed.

Lemma file_run_run i l x x' :
  file_run fs vfuel l x = Some x' -> Forall succeeds l -> run fs vfuel G i (own_acts i l x) x x'.
Proof.
  intros Hr Hl. revert x Hr. induction Hl as [|a l Ha Hl IH]; intros x; cbn [file_run own_acts]; [intros [= <-]; constructor|].
  intros (x1 & Hx & Hr)%bind_Some. rewrite Hx. eapply run_trans; [|by apply IH].
  destruct (file_exec_live fs vfuel G a x x1 Hx) as (lb & Hst & Hd & He); [by destruct a; [|destruct Ha]|].
  destruct lb as [[e res]|].
  - destruct (He e res eq_refl) as (n & fl & bytes & ->). cbn in Hd |- *. rewrite <- Hd. case_bool_decide as Hs.
    + apply (run_own fs vfuel G i 0 x x x1 e res); [constructor|done|done|]. destruct Ha as [_ Hpos]. split; [done|lia].
    + eapply run_other; [constructor|exact Hst|done].
  - assert (own_act i a x = false) as ->; [|eapply run_other; [constructor|exact Hst|done]].
    destruct a as [|n res fl bytes]; [done|]. cbn in Hd |- *. by rewrite <- Hd.
Qed.
End execution.

(** ** From the start of a thread *)

Section reported.
Context {H C W F : Type} `{!Blake3 H, !Blake3Laws H, !IoUring W, !Ngtcp2 C, !Host W, !Net C W, !NetV4 C W, !Malloc W}.
Context `{!Eventfd F, !EventfdSem F, !Ngtcp2Laws C, !StreamLaws C, !HostLaws W}.
Context (vfuel : nat).
Context (fs : list Z -> option (list Z)).

(** C3. Every file in flight is reported. A thread is started on a ring with at
    least three more entries than it has containers, and has reached any state
    in which container [i] is in flight for the path [s] of a file with content
    [c]. From there it runs on, in any interleaving with the other files, the
    poll, the socket, the timer and the other threads, and whatever ngtcp2 and
    the peer do, while the kernel completes requests of container [i] exactly [n]
    times, without errors of its own and with reads as short as it likes, and
    each of these callbacks returns. Then the line with the digest of [c] has
    been passed to [write], or [n] is at most the length of [c] plus one and the
    request of the container is in the ring or with the kernel: so the file is
    reported by the time the kernel has completed its requests length plus two
    times, and it never waits for anything else. (That the callbacks return, or
    the process exits, is the theorem on faults of [Program], with its condition
    on the last one: a connection, a stream, room, and a path that was looked
    up. No file is longer than a 64-bit offset.) *)
Theorem files_in_flight_are_reported args bufs (h0 : hasher H) l u (p p1 p2 p3 : processor H C W F)
    K2 T2 i w a s c n K3 T3 :
  (forall s c, fs s = Some c -> Z.of_nat (length c) < 2 ^ 64) ->
  start_memory args bufs l -> start_env any_path p -> pa_io_concurrency args + 3 <= sq_size l ->
  ev_loop_init (None, q_world (p_quic p)) = Ret (0, (Some l, u)) ->
  processor_start args (Some bufs) true h0 p = Ret (0, p1) ->
  live_steps (kernel_serves fs) vfuel any_path (p1, [], ∅) (p2, K2, T2) ->
  reqs (p_slab p2) !! i = Some w -> in_flight w = 1 -> pr_data w = Some a ->
  e_heap (p_shared p2) !! a = Some (s ++ [0]) -> fs s = Some c ->
  run fs vfuel any_path i n (p2, K2, T2) (p3, K3, T3) ->
  EWrite (hash_line (p_id p1) (Z.of_nat i) s (digest c)) ∈ e_out (p_shared p3) \/
  (n <= length c + 1)%nat /\ RSlot i ∈ outstanding p3 K3.
Proof.
  intros Hsm Hm He Hsz Hl Hp Hreach Hw Hf Ha Hh Hc Hrun.
  destruct (started_waits (file_claims fs any_path I ∅) args bufs h0 l u p p1) as (Hs & Hwt); try done.
  { by intros j f (_ & x & Hx). }
  assert (Hok1 : files_ok fs any_path I sends_bytes (p_id p1) (p1, [], ∅)) by done.
  destruct (live_steps_ok fs vfuel any_path Hsm I sends_bytes any_time (fun _ => I) (p_id p1) (p1, [], ∅) (p2, K2, T2) Hok1 Hwt Hreach) as [Hok Hwt2].
  pose proof Hok as (_ & ph & free & Hs2).
  assert (Hway : on_its_way i s 0 p2).
  { exists w, a. split_and!; try done.
    pose proof (used_entry free i w p2 (to_slab _ _ (so_thread _ _ _ _ Hs2)) Hw Hf) as Hi.
    destruct (so_used _ _ _ _ Hs2 i w Hw Hi) as [(a' & s' & _ & _ & _ & _ & _ & Hu)|[Hx _]]; [|congruence].
    destruct Hu as [(_ & Hop & _)|(_ & Hop & _ & _ & b & _ & Hoff & _)]; [by left|right].
    split; [done|]. eexists. split; [exact Hoff|]. pose proof (u64_range (Z.of_nat (length b))). lia. }
  destruct (run_underway fs vfuel any_path Hsm I sends_bytes any_time (fun _ => I) (p_id p1) i s c n _ _ Hc Hrun) as (Hok3 & Hwt3 & [Hx|Hx]);
    [by split_and!; [..|right]|by left|right].
  destruct Hok3 as (_ & ph3 & free3 & Hs3).
  split; [by eapply on_its_way_bound|]. destruct Hx as (w3 & a3 & Hw3 & Hf3 & _). cbn [fst snd] in *.
  apply (wt_all _ _ _ Hwt3); [|apply not_elem_of_nil]. cbn. unfold flights. rewrite list_lookup_fmap, Hw3. cbn. by rewrite Hf3.
Qed.
End reported.

(** ** Witnesses: a ring of four entries, and a file read byte by byte *)

#[local] Existing Instances keep_ngtcp2 keep_host keep_ngtcp2_laws keep_host_laws keep_net keep_streams keep_v4 wide_uring.

(** The socket is created and connected, a datagram is read and the timer moved,
    and the poll brings the event. *)
Definition wide_acts : list act :=
  [Take; Take; Done 1 9 0 []; Take; Done 1 0 0 []; Take; Take; Done 1 100 0 []; Take; Take; Done 3 0 0 [];
   Done 0 1 0 []; Take; Take].

(** The file is opened, its three bytes are read one by one, and it ends. *)
Definition wide_acts_end : list act :=
  [Done 2 7 0 []; Take; Done 3 1 0 [104]; Take; Done 3 1 0 [105]; Take; Done 3 1 0 [10]; Take; Done 3 0 0 []].

Local Abbreviation wide_start :=
  (processor_start toy_args (Some [replicate (Z.to_nat READ_BUF_SIZE) 0]) true (Hasher []) keep_thread).

Lemma files_in_flight_are_reported_witness :
  exists p1 x2 p3 K3 T3, wide_start = Ret (0, p1) /\ live_steps (kernel_serves toy_fs) 20 any_path (p1, [], ∅) x2 /\
    run toy_fs 20 any_path 0 5 x2 (p3, K3, T3) /\
    EWrite (hash_line (p_id p1) 0 [47; 116; 47; 97] (digest [104; 105; 10])) ∈ e_out (p_shared p3).
Proof.
  assert (Hx : match wide_start with
    | Ret (0, p1) =>
        match file_run toy_fs 20 wide_acts (p1, [], ∅) with
        | Some (p2, K2, T2) =>
            match reqs (p_slab p2) !! 0%nat with
            | Some w =>
                match pr_data w with
                | Some a =>
                    bool_decide (in_flight w = 1) && bool_decide (e_heap (p_shared p2) !! a = Some [47; 116; 47; 97; 0]) &&
                    bool_decide (own_acts toy_fs 20 0 wide_acts_end (p2, K2, T2) = 5%nat) &&
                    match file_run toy_fs 20 wide_acts_end (p2, K2, T2) with Some _ => true | None => false end
                | None => false
                end
            | None => false
            end
        | None => false
        end
    | _ => false
    end = true) by (vm_compute; reflexivity).
  pose proof (fun p1 p2 p3 => files_in_flight_are_reported 20 toy_fs toy_args [replicate (Z.to_nat READ_BUF_SIZE) 0] (Hasher [])
    wide_ring 0%nat keep_thread p1 p2 p3) as Ht.
  set (m := processor_start toy_args _ true (Hasher []) keep_thread) in *.
  destruct m as [[[| |] p1]| | | |]; try discriminate Hx.
  destruct (file_run _ _ wide_acts _) as [[[p2 K2] T2]|] eqn:Hr; [|discriminate Hx].
  destruct (reqs (p_slab p2) !! 0%nat) as [w|] eqn:Hw; [|discriminate Hx].
  destruct (pr_data w) as [a|] eqn:Ha; [|discriminate Hx].
  destruct (file_run _ _ wide_acts_end _) as [[[p3 K3] T3]|] eqn:Hr2; [|by rewrite andb_false_r in Hx].
  rewrite andb_true_r in Hx. apply andb_true_iff in Hx as [[H1 H2]%andb_true_iff H3].
  apply bool_decide_eq_true in H1, H2, H3.
  apply file_run_live with (G := any_path) in Hr; [|by repeat constructor].
  apply file_run_run with (G := any_path) (i := 0%nat) in Hr2; [|repeat constructor; lia]. rewrite H3 in Hr2.
  exists p1, (p2, K2, T2), p3, K3, T3. split; [reflexivity|]. split; [exact Hr|]. split; [exact Hr2|].
  destruct (Ht p1 p2 p3 K2 T2 0%nat w a [47; 116; 47; 97] [104; 105; 10] 5%nat K3 T3) as [Hp|[Hn _]].
  - exact toy_fs_small.
  - exact wide_start_memory.
  - exact (keep_start_env any_path I).
  - vm_compute. discriminate.
  - reflexivity.
  - reflexivity.
  - exact Hr.
  - exact Hw.
  - exact H1.
  - exact Ha.
  - exact H2.
  - reflexivity.
  - exact Hr2.
  - exact Hp.
  - cbn in Hn. lia.
Defined.
