(* ===== verification/Program.v ===== *)
(** * The whole program

    The components together: the hook writes records into the ring buffer, the
    main thread's callback moves them into the queue and signals a processor,
    and the processor threads start and run against the kernel, all sharing the
    queue. The invariant is parametrised by what is claimed of the paths, the
    open files and the reports of a thread. *)

From stdpp Require Import base numbers list list_numbers gmap.
From S2P Require Import Prelude CStr Queue Ev Hasher Slab Quic Transport State Verifier Ride Bpf KernelHook Processor.
From S2P Require Import Examples Thread Pipeline Connect ThreadInv System Boot Files Armed.

Open Scope Z_scope.

(** The code returns, or exits the process: no failing assertion, no undefined
    behaviour, no divergence. *)
Definition no_fault {A} (o : outcome A) : Prop :=
  match o with Ret _ | Exit _ => True | AssertFailed | Undef _ | OutOfFuel => False end.

(** ** Events of the hook *)

(** The documented behaviour of [bpf_path_d_path] on the array of a record: it
    fails with a negative error and leaves any bytes, or it leaves a path with
    its terminator at the start and returns the number of bytes. *)
Definition d_path_spec (d_path : list Z -> Z * list Z) : Prop :=
  forall buf, length buf = Z.to_nat MAX_FILENAME_LEN ->
    length (snd (d_path buf)) = Z.to_nat MAX_FILENAME_LEN /\
    (-4095 <= fst (d_path buf) < 0 \/
     exists p rest, no_nul p /\ d_path buf = (Z.of_nat (length p) + 1, p ++ 0 :: rest)).

(** A run of the hook: of a record reserved from the ring buffer, any bytes may
    be left from before. *)
Definition hook_runs ro pid f reserve d_path ops : Prop :=
  d_path_spec d_path /\ (forall ev, reserve = Some ev -> length (path ev) = Z.to_nat MAX_FILENAME_LEN) /\
  ride ro pid f reserve d_path = Ret (0, ops).

(** The terminator the hook stores makes every array a string. *)
Lemma set_last_string (buf : list Z) :
  length buf = Z.to_nat MAX_FILENAME_LEN ->
  exists buf' s, arr_set buf (MAX_FILENAME_LEN - 1) 0 = Some buf' /\ length buf' = Z.to_nat MAX_FILENAME_LEN /\
    c_string buf' = Some s /\ (length s < 128)%nat.
Proof.
  intros Hl. rewrite arr_set_in by (rewrite Hl; unfold MAX_FILENAME_LEN; lia). eexists.
  set (buf' := <[_ := 0]> buf). assert (Hl' : length buf' = Z.to_nat MAX_FILENAME_LEN) by (unfold buf'; by rewrite length_insert).
  destruct (c_string buf') as [s|] eqn:Hs.
  - exists s. split_and!; try done. destruct (c_string_shape _ _ Hs) as [rest E]. apply (f_equal length) in E.
    rewrite Hl', length_app in E. cbn [length] in E. unfold MAX_FILENAME_LEN in E. lia.
  - exfalso. assert (Hn : ~ no_nul buf').
    { unfold no_nul. rewrite Forall_lookup. intros Hx. apply (Hx (Z.to_nat (MAX_FILENAME_LEN - 1)) 0); [|done].
      apply list_lookup_insert_eq. rewrite Hl. unfold MAX_FILENAME_LEN. lia. }
    apply Hn. clear -Hs. induction buf' as [|c l IH]; [constructor|]. cbn in Hs.
    destruct (Z.eqb_spec c 0); [done|]. destruct (c_string l); [done|]. constructor; [done|by apply IH].
Qed.

(** A text without null bytes at the start of an array is at the start of its
    string. *)
Lemma prefix_string (a buf s : list Z) : no_nul a -> c_string buf = Some s -> a `prefix_of` buf -> a `prefix_of` s.
Proof.
  intros Ha. revert buf s. induction Ha as [|c a Hc _ IH]; intros buf s Hs Hp; [apply prefix_nil|].
  destruct buf as [|c' buf]; [by apply prefix_nil_not in Hp|]. pose proof (prefix_cons_inv_1 _ _ _ _ Hp) as <-.
  apply prefix_cons_inv_2 in Hp. cbn in Hs. destruct (Z.eqb_spec c 0); [done|].
  apply fmap_Some in Hs as (s' & Hs & ->). apply prefix_cons. by eapply IH.
Qed.

(** What the hook submits is an event with a terminated path, and the path is in
    the watched one, even if it is what the record held before. *)
Lemma hook_event ro pid f reserve d_path ops ev :
  hook_runs ro pid f reserve d_path ops -> RbSubmit ev ∈ ops ->
  length (path ev) = 128%nat /\ event_ok any_path ev /\
  (rodata_wf ro -> no_nul (watched ro) -> forall s, c_string (path ev) = Some s -> matches_watch ro s).
Proof.
  intros (Hd & Hr & Hrun) Hin. revert Hrun. unfold ride. destruct (_ =? _); [by intros [= <-]; apply elem_of_nil in Hin|].
  destruct (_ || _); [by intros [= <-]; apply elem_of_nil in Hin|]. unfold ride_report.
  destruct reserve as [ev0|]; [|by intros [= <-]; apply elem_of_nil in Hin].
  destruct (Hd (path ev0) (Hr ev0 eq_refl)) as [Hl Hcase]. destruct (d_path (path ev0)) as [r buf]. cbn [fst snd] in *.
  assert (Hset : exists buf' s, arr_set buf (MAX_FILENAME_LEN - 1) 0 = Some buf' /\ length buf' = Z.to_nat MAX_FILENAME_LEN /\
    c_string buf' = Some s /\ (length s < 128)%nat /\ length_for s (s32 (r - 1))).
  { destruct Hcase as [Hneg|(p & rest & Hn & [= -> ->])].
    - destruct (set_last_string buf Hl) as (buf' & s & ? & ? & ? & ?). exists buf', s. split_and!; try done.
      right. rewrite s32_small; lia.
    - destruct (set_last_nul p rest Hl) as (rest' & Hs & Hl'). exists (p ++ 0 :: rest'), p.
      assert (length p < 128)%nat by (rewrite length_app in Hl'; cbn [length] in Hl'; unfold MAX_FILENAME_LEN in Hl'; lia).
      split_and!; try done; [by apply c_string_app|]. left. rewrite s32_small; lia. }
  destruct Hset as (buf' & s & -> & Hl' & Hs & Hls & Hlen). cbn [path path_len].
  intros Hrun. destruct (in_watch_path ro buf' (s32 (r - 1))) as [[]| | | |] eqn:Hw; try done; injection Hrun as <-;
    apply list_elem_of_singleton in Hin; [|done]. injection Hin as ->. cbn [path path_len].
  split; [exact Hl'|]. split; [by exists s|]. intros Hwf Hnn s' Hs'. assert (s' = s) as -> by congruence.
  rewrite in_watch_path_decides in Hw by done. injection Hw as [Ht Hpre]%andb_true_iff.
  apply bool_decide_eq_true in Hpre. apply (prefix_string _ _ _ Hnn Hs) in Hpre.
  unfold matches_watch. destruct (watch_path_type ro); [|done]. apply Z.eqb_eq in Ht.
  destruct Hwf as [Hwl Hwr]. pose proof (length_watched ro (conj Hwl Hwr)) as Hlw. unfold MAX_FILENAME_LEN in *.
  destruct Hlen as [Hlen|Hneg]; [|rewrite u64_neg in Ht; lia]. rewrite Hlen, u64_small in Ht by lia.
  destruct Hpre as [k ->]. rewrite length_app in Ht. destruct k; [by rewrite app_nil_r|]. cbn [length] in Ht. lia.
Qed.

(** The hook always returns, and its accesses are in bounds. *)
Lemma hook_total ro pid f reserve d_path :
  rodata_wf ro -> d_path_spec d_path ->
  (forall ev, reserve = Some ev -> length (path ev) = Z.to_nat MAX_FILENAME_LEN) ->
  exists ops, ride ro pid f reserve d_path = Ret (0, ops).
Proof.
  intros Hwf Hd Hr. unfold ride. destruct (_ =? _); [by eexists|]. destruct (_ || _); [by eexists|].
  unfold ride_report. destruct reserve as [ev|]; [|by eexists].
  destruct (Hd (path ev) (Hr ev eq_refl)) as [Hl _]. destruct (d_path (path ev)) as [r buf].
  destruct (set_last_string buf Hl) as (buf' & s & -> & Hl' & _). cbn [path path_len].
  rewrite in_watch_path_decides by done. destruct (path_matches _ _ _); by eexists.
Qed.

(** A record in the ring buffer that holds an event of the hook. *)
Definition record_ok (G : list Z -> Prop) (data : list Z) : Prop :=
  exists ev, event_of data = Some ev /\ event_ok G ev.

Section program.
Context {H C W F : Type} `{!Blake3 H, !Blake3Laws H, !IoUring W, !Ngtcp2 C, !Host W, !Net C W, !NetV4 C W, !Malloc W}.
Context `{!Eventfd F, !EventfdSem F}.
Context (vfuel : nat) (TI : quic C W -> list (list Z) -> Prop) (Ready : quic C W -> Prop) `{!Transport TI Ready}.
Local Abbreviation P := (processor H C W F).
(** The constants the hook was loaded with, and the steps of a thread. *)
Context (ro : rodata) (Own : P * list io_uring_sqe * files -> P * list io_uring_sqe * files -> Prop).

(** ** State and steps *)

(** A thread that was created, or that is in its event loop with submissions
    the kernel has not completed and open files. *)
Inductive thread_state : Type :=
  | Starting (args : processor_args) (p : P)
  | Running (p : P) (K : list io_uring_sqe) (T : files).

(** The queue is common to the threads; the eventfd of a thread is its own and
    is signalled by the main thread. *)
Record program : Type := Program {
  g_records : list (list Z);   (* submitted to the ring buffer, oldest first *)
  g_queue : queue;
  g_next : Z;                  (* efd_next of the callback *)
  g_threads : list thread_state;
}.

Definition with_queue (q : queue) (p : P) : P := upd_p_shared (upd_e_queue q (p_shared p)) p.
Definition with_efd (f : F) (p : P) : P := upd_p_shared (upd_e_efd f (p_shared p)) p.

Definition thread_of (t : thread_state) : P := match t with Starting _ p | Running p _ _ => p end.
Definition efd_of (t : thread_state) : F := e_efd (p_shared (thread_of t)).
Definition signal (f : F) (t : thread_state) : thread_state :=
  match t with
  | Starting args p => Starting args (with_efd f p)
  | Running p K T => Running (with_efd f p) K T
  end.

(** The program as the callback of the ring buffer sees it. *)
Definition feeder_of (g : program) : feeder F :=
  {| f_queue := g_queue g; queue_eventfd := efd_of <$> g_threads g; efd_next := g_next g |}.

Inductive prog_step : program -> program -> Prop :=
  (* a file is opened, and the hook submits its event *)
  | prog_open g pid f reserve d_path ops ev reserved data :
      hook_runs ro pid f reserve d_path ops -> RbSubmit ev ∈ ops ->
      length reserved = 136%nat -> event_bytes ev reserved = Some data ->
      prog_step g (Program (g_records g ++ [data]) (g_queue g) (g_next g) (g_threads g))
  (* the main thread handles the oldest record *)
  | prog_feed g data rest r s :
      g_records g = data :: rest -> ride_ringbuf_handle_raw data (feeder_of g) = Ret (r, s) ->
      prog_step g (Program rest (f_queue s) (efd_next s) (zip_with signal (queue_eventfd s) (g_threads g)))
  (* a thread gets to its event loop *)
  | prog_start g i args p bufs h0 l u r p' :
      g_threads g !! i = Some (Starting args p) -> start_memory args bufs l ->
      ev_loop_init (None, q_world (p_quic p)) = Ret (0, (Some l, u)) ->
      processor_start args (Some bufs) true h0 (with_queue (g_queue g) p) = Ret (r, p') ->
      prog_step g (Program (g_records g) (e_queue (p_shared p')) (g_next g)
                     (<[i := Running p' [] ∅]> (g_threads g)))
  (* a thread in its event loop *)
  | prog_run g i p K T p' K' T' :
      g_threads g !! i = Some (Running p K T) ->
      Own (with_queue (g_queue g) p, K, T) (p', K', T') ->
      prog_step g (Program (g_records g) (e_queue (p_shared p')) (g_next g)
                     (<[i := Running p' K' T']> (g_threads g))).

(** ** The invariant *)

(** What is claimed of a thread: of the paths it handles, of the files it has
    open, and of what it reports. *)
Context (G : list Z -> Prop) (G_nil : G []) (R : list Z -> list Z -> Prop).
Context (cl_b : files -> nat -> list Z -> Z -> list Z -> Prop) (cl_h : files -> nat -> Z -> Prop).
Definition claims_of (T : files) : claims := Claims G R (cl_b T) (cl_h T) G_nil.
Local Abbreviation sys_ok T := (sys_ok (TI := TI) (D := claims_of T)).

(** The claims hold of paths that the hook submits, and a thread keeps them. *)
Record kept : Prop := {
  kept_hook pid f reserve d_path ops ev s :
    hook_runs ro pid f reserve d_path ops -> RbSubmit ev ∈ ops -> c_string (path ev) = Some s -> G s;
  kept_start i f : ~ cl_h ∅ i f;
  kept_step ph free p K T p' K' T' :
    sys_ok T ph free p K -> Own (p, K, T) (p', K', T') ->
    exists ph' free', sys_ok T' ph' free' p' K';
}.
Context (Hkept : kept).
Local Abbreviation event_ok := (event_ok G).
Local Abbreviation record_ok := (record_ok G).

Definition thread_good (q : queue) (t : thread_state) : Prop :=
  match t with
  | Starting _ p => start_env G (with_queue q p)
  | Running p K T => exists ph free, sys_ok T ph free (with_queue q p) K
  end.

Definition queue_good (q : queue) : Prop := queue_wf q /\ Forall event_ok (contents q).

Record prog_ok (g : program) : Prop := {
  go_records : Forall record_ok (g_records g);
  go_queue : queue_good (g_queue g);
  go_next : 0 <= g_next g;
  go_threads : Forall (thread_good (g_queue g)) (g_threads g);
}.

Lemma good_queue q q' t : queue_good q' -> thread_good q t -> thread_good q' t.
Proof.
  intros [Hw He]. destruct t as [args p|p K T]; cbn.
  - intros (_ & _ & Hh & Ha & Ho & Hq). by split_and!.
  - intros (ph & free & Hs). exists ph, free.
    pose proof (sys_queue _ _ _ _ q' (e_efd (p_shared p)) Hs Hw He) as Hs'.
    by destruct p as [? ? ? ? ? ? ? ? []].
Qed.

Lemma good_signal q f t : queue_good q -> thread_good q t -> thread_good q (signal f t).
Proof.
  intros [Hw He]. destruct t as [args p|p K T]; cbn.
  - intros (_ & _ & Hh & Ha & Ho & Hq). by split_and!.
  - intros (ph & free & Hs). exists ph, free. exact (sys_queue _ _ _ _ q f Hs Hw He).
Qed.

Lemma good_signals q fs ts :
  queue_good q -> Forall (thread_good q) ts -> Forall (thread_good q) (zip_with signal fs ts).
Proof.
  intros Hq Ht. revert fs. induction Ht as [|t ts Hg Ht IH]; intros [|f fs]; constructor; auto.
  by apply good_signal.
Qed.

(** After a step of its own a thread is good, and so is the queue it leaves. *)
Lemma good_stepped ph free p' K' T' :
  sys_ok T' ph free p' K' ->
  queue_good (e_queue (p_shared p')) /\ thread_good (e_queue (p_shared p')) (Running p' K' T').
Proof.
  intros Hs. split; [exact (so_queue _ _ _ _ Hs)|]. exists ph, free.
  by destruct p' as [? ? ? ? ? ? ? ? []].
Qed.

(** One thread moves and the queue with it. *)
Lemma prog_ok_thread g i t q :
  prog_ok g -> queue_good q -> thread_good q t ->
  prog_ok (Program (g_records g) q (g_next g) (<[i := t]> (g_threads g))).
Proof.
  intros [Hr Hq Hn Ht] Hq' Ht'. split; try done. cbn. apply Forall_insert; [|done].
  eapply Forall_impl; [exact Ht|]. intros t0. by apply good_queue.
Qed.

(** The main thread enqueues the event of a record. *)
Lemma handle_good data g r s :
  record_ok data -> prog_ok g -> ride_ringbuf_handle_raw data (feeder_of g) = Ret (r, s) ->
  queue_good (f_queue s) /\ efd_next s = g_next g + 1.
Proof.
  intros (ev & Hev & Hok) [_ [Hw He] Hn _]. unfold ride_ringbuf_handle_raw. rewrite Hev.
  intros (_ & Hw' & Hc & Hnext & _)%handle_inv; [|done..].
  split; [|done]. split; [done|]. rewrite Hc. unfold Fifo.add. destruct (_ <? _); [|done].
  apply Forall_app. by split; [|apply Forall_singleton].
Qed.

Lemma prog_step_ok g g' : prog_ok g -> prog_step g g' -> prog_ok g'.
Proof.
  intros Hok Hst. pose proof Hok as [Hr Hq Hn Ht]. inversion Hst; subst.
  - split; try done. cbn. apply Forall_app. split; [done|]. apply Forall_singleton.
    edestruct hook_event as (Hl & (s & Hc & _ & Hs & Hp) & _); [done..|].
    edestruct (event_bytes_of ev reserved) as (d & Hd & _ & Ho); [exact Hl|destruct Hp; lia|done|].
    exists ev. split; [congruence|]. exists s. split; [done|]. split; [by eapply (kept_hook Hkept)|done].
  - match goal with Hrec : g_records g = _ |- _ => rewrite Hrec in Hr end. apply Forall_cons in Hr as [Hd Hr].
    edestruct handle_good as [Hq' Hn']; [exact Hd|exact Hok|eassumption|].
    split; cbn; try done; [lia|]. apply good_signals; [done|].
    eapply Forall_impl; [exact Ht|]. intros t. by apply good_queue.
  - pose proof (Forall_lookup_1 _ _ _ _ Ht ltac:(eassumption)) as Henv.
    edestruct (processor_start_fine TI Ready (claims_of ∅) args bufs h0 l u (with_queue (g_queue g) p)) as [Hx|(p1 & Hx & Hs & _)];
      [apply (kept_start Hkept)|done..|congruence|].
    assert (p1 = p') as -> by congruence. apply good_stepped in Hs as [Hq' Ht']. by apply prog_ok_thread.
  - pose proof (Forall_lookup_1 _ _ _ _ Ht ltac:(eassumption)) as (ph & free & Hs).
    edestruct (kept_step Hkept) as (ph' & free' & Hs'); [exact Hs|eassumption|].
    apply good_stepped in Hs' as [Hq' Ht']. by apply prog_ok_thread.
Qed.

(** What can be done in a good state is done without fault. *)

Lemma handle_fine data g :
  record_ok data -> prog_ok g -> g_threads g <> [] -> g_next g < 2 ^ 31 - 1 ->
  no_fault (ride_ringbuf_handle_raw data (feeder_of g)).
Proof.
  intros (ev & Hev & _) [_ [Hw _] Hn _] Hne Hlt. unfold ride_ringbuf_handle_raw. rewrite Hev.
  unfold ride_ringbuf_handle. destruct (queue_add_refines ev _ Hw) as (q' & Hadd & _).
  change (f_queue (feeder_of g)) with (g_queue g). rewrite Hadd. cbn [queue_eventfd feeder_of efd_next].
  rewrite length_fmap. set (n := Z.of_nat (length (g_threads g))).
  assert (0 < n) by (unfold n; destruct (g_threads g); [done|cbn [length]; lia]).
  destruct (Z.eqb_spec n 0); [lia|]. destruct (Z.eqb_spec (g_next g) (2 ^ 31 - 1)); [lia|].
  pose proof (Z.mod_pos_bound (u32 (g_next g)) n ltac:(lia)) as Hb.
  unfold arr_get. destruct (Z.leb_spec 0 (u32 (g_next g) mod n)); [|lia].
  destruct (lookup_lt_is_Some_2 (efd_of <$> g_threads g) (Z.to_nat (u32 (g_next g) mod n))) as [f ->];
    [rewrite length_fmap; unfold n in *; lia|].
  by destruct (eventfd_write f 1) as [[] ?].
Qed.

Lemma prog_steps_ok g g' : prog_ok g -> rtc prog_step g g' -> prog_ok g'.
Proof. intros Hok Hr. induction Hr; eauto using prog_step_ok. Qed.

Lemma prog_step_threads g g' : prog_step g g' -> length (g_threads g') = length (g_threads g).
Proof.
  intros Hst. inversion Hst; subst; cbn; rewrite ?length_insert; try done.
  match goal with Hh : ride_ringbuf_handle_raw _ _ = _ |- _ => revert Hh end.
  unfold ride_ringbuf_handle_raw, ride_ringbuf_handle. repeat case_match; try done.
  intros [= <- <-]. cbn. rewrite length_zip_with, length_insert, length_fmap. lia.
Qed.

Lemma prog_steps_threads g g' : rtc prog_step g g' -> length (g_threads g') = length (g_threads g).
Proof. induction 1 as [|g1 g2 g3 Hst _ IH]; [done|]. rewrite IH. by apply prog_step_threads. Qed.

(** ** Signals *)

(** Every queued event has its own pending signal. *)
Definition signalled (g : program) : Prop :=
  Z.of_nat (length (contents (g_queue g))) <= tokens (efd_of <$> g_threads g).

Lemma signalled_some g ev rest :
  signalled g -> contents (g_queue g) = ev :: rest -> exists i t, g_threads g !! i = Some t /\ 0 < efd_count (efd_of t).
Proof.
  unfold signalled. intros Hs Hc. rewrite Hc in Hs. cbn [length] in Hs.
  destruct (tokens_pos (efd_of <$> g_threads g)) as (i & f & Hi & Hpos); [lia|].
  apply list_lookup_fmap_Some in Hi as (t & -> & Hi). by exists i, t.
Qed.

(** Taking events: each takes a signal too, unless the queue is empty. *)
Lemma consumes_signals (s s' : queue * F) :
  queue_wf (fst s) -> rtc consumes s s' ->
  (contents (fst s) = [] -> contents (fst s') = []) /\
  (contents (fst s') = [] \/ Z.of_nat (length (contents (fst s'))) - efd_count (snd s') <=
                             Z.of_nat (length (contents (fst s))) - efd_count (snd s)).
Proof.
  intros Hwf Hr. revert Hwf. induction Hr as [s|[q f] [q1 f1] s' (ev & r & Hc) _ IH]; intros Hwf; [split; [done|right; lia]|].
  destruct (queue_consume_refines ev q f Hwf) as (q2 & f2 & Hc2 & Hwf2 & Ec & Ef).
  cbn [fst snd] in *. rewrite Hc in Hc2. injection Hc2 as _ -> ->.
  destruct (IH Hwf2) as [Hnil Hle]. revert Ec Ef. unfold Fifo.consume.
  destruct (Z.eqb_spec (efd_count f) 0); [|destruct (contents q) as [|e l]]; cbn [fst snd]; intros Ec Ef.
  - by rewrite Ec, Ef in *.
  - split; [auto|]. left. by apply Hnil.
  - split; [done|]. rewrite Ec, Ef in Hle. cbn [length]. destruct Hle as [?|?]; [by left|right; lia].
Qed.

(** A thread that only takes events keeps the others signalled. *)
Lemma signalled_thread g i t t' q :
  signalled g -> queue_wf (g_queue g) -> g_threads g !! i = Some t ->
  rtc consumes (g_queue g, efd_of t) (q, efd_of t') ->
  signalled (Program (g_records g) q (g_next g) (<[i := t']> (g_threads g))).
Proof.
  unfold signalled. intros Hg Hwf Hi Hr. cbn [g_queue g_threads].
  destruct (consumes_signals (g_queue g, efd_of t) _ Hwf Hr) as [_ [Hc|Hc]]; cbn [fst snd] in Hc.
  - rewrite Hc. apply tokens_nonneg.
  - rewrite list_fmap_insert, (tokens_insert _ i (efd_of t)) by (by rewrite list_lookup_fmap, Hi). lia.
Qed.

(** The queue and the eventfd of a running thread are only consumed from. *)
Lemma own_step_consumes p K p' K' :
  own_step vfuel (p, K) (p', K') ->
  rtc consumes (e_queue (p_shared p), e_efd (p_shared p)) (e_queue (p_shared p'), e_efd (p_shared p')).
Proof.
  intros Hst. inversion Hst; subst; [reflexivity| |reflexivity].
  match goal with Hc : complete _ _ _ = _ |- _ =>
    destruct (ok_complete any_effect vfuel _ (fun _ => I) _ _ _ Hc) as [_ _ _ _ _ _ _ Hq] end.
  exact Hq.
Qed.

Lemma efd_of_signal (fs : list F) (ts : list thread_state) :
  length fs = length ts -> efd_of <$> zip_with signal fs ts = fs.
Proof.
  intros Hl. revert ts Hl. induction fs as [|f fs IH]; intros [|t ts] Hl; try done.
  cbn. f_equal; [by destruct t|]. apply IH. by injection Hl.
Qed.

Context (Own_own : forall p K T p' K' T', Own (p, K, T) (p', K', T') -> own_step vfuel (p, K) (p', K')).

Lemma prog_step_signalled g g' : prog_ok g -> signalled g -> prog_step g g' -> signalled g'.
Proof.
  intros Hok Hg Hst. pose proof Hok as [Hr [Hwf Hqe] Hn Ht]. inversion Hst; subst.
  - done.
  - match goal with Hrec : g_records g = _, Hh : ride_ringbuf_handle_raw _ _ = _ |- _ =>
      rewrite Hrec in Hr; rename Hh into Hhandle end. apply Forall_cons in Hr as [(ev & Hev & _) _].
    unfold ride_ringbuf_handle_raw in Hhandle. rewrite Hev in Hhandle.
    apply handle_inv in Hhandle as (_ & _ & Hc & _ & f & f' & Hf & Hcnt & Hefd); [|done..].
    unfold signalled. cbn [g_queue g_threads].
    rewrite efd_of_signal by (rewrite Hefd, length_insert; apply length_fmap).
    rewrite Hefd, (tokens_insert _ _ _ _ Hf), Hcnt, Hc.
    change (queue_eventfd (feeder_of g)) with (efd_of <$> g_threads g). change (f_queue (feeder_of g)) with (g_queue g).
    pose proof (fifo_add_length ev (contents (g_queue g))). unfold signalled in Hg. lia.
  - pose proof (Forall_lookup_1 _ _ _ _ Ht ltac:(eassumption)) as Henv.
    edestruct (processor_start_fine TI Ready (claims_of ∅) args bufs h0 l u (with_queue (g_queue g) p)) as [Hx|(p1 & Hx & _ & Esh & _)];
      [apply (kept_start Hkept)|done..|congruence|].
    assert (p1 = p') as -> by congruence.
    eapply signalled_thread; [done|done|eassumption|].
    unfold efd_of. cbn [thread_of]. rewrite Esh. reflexivity.
  - eapply signalled_thread; [done|done|eassumption|].
    match goal with Ho : Own _ _ |- _ => exact (own_step_consumes _ _ _ _ (Own_own _ _ _ _ _ _ Ho)) end.
Qed.

Lemma prog_steps_signalled g g' : prog_ok g -> signalled g -> rtc prog_step g g' -> signalled g'.
Proof. intros Hok Hg Hr. induction Hr; eauto using prog_step_ok, prog_step_signalled. Qed.

(** The program once its threads are created and the hook is attached. *)
Definition prog_init (ts : list (processor_args * P)) : program :=
  {| g_records := []; g_queue := queue_static; g_next := 0;
     g_threads := (fun '(args, p) => Starting args p) <$> ts |}.

Definition created_ok (p : P) : Prop :=
  e_out (p_shared p) = [] /\ q_accepted (p_quic p) = [] /\ e_heap (p_shared p) = ∅ /\
  (e_remote_addr (p_shared p) = None \/ e_remote_addr (p_shared p) = Some SIZEOF_SOCKADDR_IN).

Lemma prog_init_ok ts : Forall (fun t => created_ok (snd t)) ts -> prog_ok (prog_init ts).
Proof.
  intros Hts. assert (Hq : queue_good queue_static) by (split; [exact queue_static_wf|constructor]).
  split; [constructor|done|done|]. cbn. apply Forall_fmap. eapply Forall_impl; [exact Hts|].
  intros [args p] (Ho & Hq0 & Hh & Ha). destruct Hq. by split_and!.
Qed.
End program.

(** Whatever the kernel answers, nothing need be claimed. *)
Lemma kept_any {H C W F : Type} `{!Blake3 H, !Blake3Laws H, !IoUring W, !Ngtcp2 C, !Host W, !Net C W, !Malloc W}
    `{!Eventfd F, !EventfdSem F} (vfuel : nat) (TI : quic C W -> list (list Z) -> Prop) (Ready : quic C W -> Prop)
    `{!Transport TI Ready} (ro : rodata)
    (Own : processor H C W F * list io_uring_sqe * files -> processor H C W F * list io_uring_sqe * files -> Prop) :
  (forall q, Ready q) -> (forall p K T p' K' T', Own (p, K, T) (p', K', T') -> own_step vfuel (p, K) (p', K')) ->
  kept TI ro Own any_path I (cl_report no_claims) (fun _ => cl_bytes no_claims)
    (fun _ => cl_holds no_claims).
Proof.
  intros HQ Hown. split; [done|by intros i f []|]. intros ph free p K T p' K' T' Hs Hst.
  exact (own_step_ok vfuel TI Ready no_claims _ _ _ _ _ _ no_claims_claimless HQ Hs (Hown _ _ _ _ _ _ Hst)).
Qed.

Section never_faults.
Context {H C W F : Type} `{!Blake3 H, !Blake3Laws H, !IoUring W, !Ngtcp2 C, !Host W, !Net C W, !NetV4 C W, !Malloc W}.
Context `{!Eventfd F, !EventfdSem F, !Ngtcp2Laws C, !StreamLaws C, !HostLaws W}.
Context (vfuel : nat).

(** What holds whatever the kernel answers. *)
Lemma reach_ok ro Own (ts : list (processor_args * processor H C W F)) g :
  (forall p K T p' K' T', Own (p, K, T) (p', K', T') -> own_step vfuel (p, K) (p', K')) ->
  Forall (fun t => created_ok (snd t)) ts -> rtc (prog_step ro Own) (prog_init ts) g ->
  prog_ok sends_bytes any_path I (cl_report no_claims) (fun _ => cl_bytes no_claims)
    (fun _ => cl_holds no_claims) g /\
  signalled g /\ length (g_threads g) = length ts.
Proof.
  intros Hown Hts Hr. pose proof (kept_any (F := F) (H := H) vfuel sends_bytes any_time ro Own (fun _ => I) Hown) as Hk.
  pose proof (prog_init_ok sends_bytes any_path I (cl_report no_claims)
    (fun _ => cl_bytes no_claims) (fun _ => cl_holds no_claims) ts Hts) as Hok. split_and!.
  - exact (prog_steps_ok sends_bytes any_time _ _ _ _ _ _ _ Hk _ _ Hok Hr).
  - refine (prog_steps_signalled vfuel sends_bytes any_time _ _ _ _ _ _ _ Hk Hown _ _ Hok _ Hr). apply tokens_nonneg.
  - rewrite (prog_steps_threads _ _ _ _ Hr). apply length_fmap.
Qed.

(** C2. The program as a whole never faults. Files are opened and the hook
    writes their events into the ring buffer, whether or not it can look up their
    paths; the main thread moves records into the queue and signals processors;
    and any number of processor threads start and run, in any interleaving and
    with any results from the kernel, from ngtcp2 and from the socket. In every
    reachable state the queue holds only events with a terminated path, and with
    its length or the negative one of a failed lookup; and whatever comes next
    is handled to its end without a failing assertion or undefined behaviour: the
    opening of a file by the hook, the oldest record by the main thread (until
    its counter of signals reaches the largest [int]), the start of a thread that
    is given memory and a ring, and every completion of a running one, for which
    some amount of fuel is always enough. Only the completion that ends a file
    has a condition ([report_ready]): the connection exists, it grants a stream,
    the slot has room for the record and the path of the file could be looked up;
    what happens without these is shown in [Pipeline], [Quic] and [Bpf]. *)
Theorem program_never_faults ro (ts : list (processor_args * processor H C W F)) g :
  ts <> [] -> Forall (fun t => created_ok (snd t)) ts -> rtc (prog_step ro (file_own_step any_kernel vfuel)) (prog_init ts) g ->
  Forall (event_ok any_path) (contents (g_queue g)) /\
  (forall pid f reserve d_path, rodata_wf ro -> d_path_spec d_path ->
     (forall ev, reserve = Some ev -> length (path ev) = Z.to_nat MAX_FILENAME_LEN) ->
     no_fault (ride ro pid f reserve d_path)) /\
  (forall data rest, g_records g = data :: rest -> g_next g < 2 ^ 31 - 1 ->
     no_fault (ride_ringbuf_handle_raw data (feeder_of g))) /\
  (forall i args p bufs h0 l u, g_threads g !! i = Some (Starting args p) -> start_memory args bufs l ->
     ev_loop_init (None, q_world (p_quic p)) = Ret (0, (Some l, u)) ->
     no_fault (processor_start args (Some bufs) true h0 (with_queue (g_queue g) p))) /\
  (forall i p K T e res fl K2 bufs rb, g_threads g !! i = Some (Running p K T) ->
     kernel_completes K e res fl K2 -> report_ready e res p -> same_memory bufs rb p ->
     exists n, forall fuel, (n <= fuel)%nat ->
       no_fault (complete fuel (Cqe (sqe_user_data e) res fl) (set_memory bufs rb (with_queue (g_queue g) p)))).
Proof.
  intros Hne Hts Hr. destruct (reach_ok _ _ _ _ (file_own_step_own _ _) Hts Hr) as (Hok & _ & Hl). pose proof Hok as [Hrec [Hqw Hqe] Hn Ht]. split; [done|]. split_and!.
  - intros pid f reserve d_path Hwf Hd Hres. by destruct (hook_total ro pid f reserve d_path Hwf Hd Hres) as [ops ->].
  - intros data rest Hd Hlt. rewrite Hd in Hrec. apply Forall_cons in Hrec as [Hrec _].
    eapply handle_fine; [done|exact Hok| |done]. intros E. rewrite E in Hl. by destruct ts.
  - intros i args p bufs h0 l u Hi Hm Hl0. pose proof (Forall_lookup_1 _ _ _ _ Ht Hi) as Henv.
    destruct (processor_start_fine sends_bytes any_time no_claims args bufs h0 l u (with_queue (g_queue g) p)
                (proj1 (proj2 no_claims_claimless)) Hm Henv Hl0)
      as [-> |(p1 & -> & _)]; done.
  - intros i p K T e res fl K2 bufs rb Hi Hk Hrr Hm.
    pose proof (Forall_lookup_1 _ _ _ _ Ht Hi) as (ph & free & Hs).
    destruct (completion_good ph free _ K e res fl K2 bufs rb Hs Hk Hrr Hm) as [n Hx].
    exists n. intros fuel Hf. specialize (Hx fuel Hf). by destruct (complete _ _ _) as [[]| | | |].
Qed.

(** C10. The whole program strands no event: in every state that can be reached
    through steps with defined behaviour, in any interleaving of hook, main
    thread and processor threads and with any results from the kernel, from
    ngtcp2 and from the socket, if events wait in the queue, then some thread has
    a signal it has not taken yet, and the [queue_consume_try] of that thread
    takes the oldest event and leaves the others in order. *)
Theorem program_strands_no_event ro (ts : list (processor_args * processor H C W F)) g ev out :
  Forall (fun t => created_ok (snd t)) ts -> rtc (prog_step ro (file_own_step any_kernel vfuel)) (prog_init ts) g ->
  forall rest, contents (g_queue g) = ev :: rest ->
  exists i t q' f', g_threads g !! i = Some t /\ 0 < efd_count (efd_of t) /\
    queue_consume_try out (g_queue g, efd_of t) = Ret ((0, ev), (q', f')) /\
    queue_wf q' /\ contents q' = rest.
Proof.
  intros Hts Hr rest Hc. destruct (reach_ok _ _ _ _ (file_own_step_own _ _) Hts Hr) as ([_ [Hwf _] _ _] & Hs & _).
  destruct (signalled_some _ _ _ Hs Hc) as (i & t & Ht & Hpos).
  destruct (queue_consume_refines out _ (efd_of t) Hwf) as (q' & f' & Hcons & Hwf' & Hc' & _).
  rewrite Hc in Hcons, Hc'. unfold Fifo.consume in Hcons, Hc'.
  destruct (Z.eqb_spec (efd_count (efd_of t)) 0); [lia|]. by exists i, t, q', f'.
Qed.
End never_faults.

(** ** What the threads wait for *)

Section listening.
Context {H C W F : Type} `{!Blake3 H, !Blake3Laws H, !IoUring W, !Ngtcp2 C, !Host W, !Net C W, !NetV4 C W, !Malloc W}.
Context `{!Eventfd F, !EventfdSem F, !Ngtcp2Laws C, !StreamLaws C, !HostLaws W}.
Context (vfuel : nat).
Local Abbreviation P := (processor H C W F).

(** The steps of a thread whose kernel keeps the poll as it says. *)
Definition live (x x' : P * list io_uring_sqe * files) : Prop := exists l, live_own_step any_kernel vfuel l x x'.

Lemma live_own_own p K T p' K' T' : live (p, K, T) (p', K', T') -> own_step vfuel (p, K) (p', K').
Proof. intros [l Hst]. by eapply file_own_step_own, live_own_file. Qed.

(** The ring of a thread has an entry for each of its requests. *)
Definition roomy (args : processor_args) (p : P) : Prop :=
  forall l u, ev_loop_init (None, q_world (p_quic p)) = Ret (0, (Some l, u)) -> pa_io_concurrency args + 3 <= sq_size l.

(** A running thread waits for all it needs, one to be started will. *)
Definition listens (t : thread_state) : Prop :=
  match t with Starting args p => roomy args p | Running p K _ => waits [] p K end.

Lemma listens_signals fs (ts : list thread_state) : Forall listens ts -> Forall listens (zip_with signal fs ts).
Proof.
  intros Ht. revert fs. induction Ht as [|t ts Hg Ht IH]; intros [|f fs]; constructor; auto.
  destruct t as [args p|p K T]; [exact Hg|]. by apply (waits_same [] p).
Qed.

Lemma start_listens q args bufs (h0 : hasher H) l u r (p p' : P) :
  start_env any_path (with_queue q p) -> roomy args p -> start_memory args bufs l ->
  ev_loop_init (None, q_world (p_quic p)) = Ret (0, (Some l, u)) ->
  processor_start args (Some bufs) true h0 (with_queue q p) = Ret (r, p') -> waits [] p' [].
Proof.
  intros He Hroom Hm Hl Hp. pose proof (proj1 (proj2 no_claims_claimless)) as Hnc.
  destruct (processor_start_fine sends_bytes any_time no_claims args bufs h0 l u _ Hnc Hm He Hl)
    as [Hx|(p1 & Hx & _)]; [congruence|]. rewrite Hx in Hp. injection Hp as <- ->.
  by apply (started_waits no_claims args bufs h0 l u (with_queue q p)); [..|eapply Hroom| |].
Qed.

Lemma prog_step_listens ro (g g' : program) :
  prog_ok sends_bytes any_path I (cl_report no_claims) (fun _ => cl_bytes no_claims)
    (fun _ => cl_holds no_claims) g ->
  Forall listens (g_threads g) -> prog_step ro live g g' -> Forall listens (g_threads g').
Proof.
  intros [_ _ _ Ht] Hl Hst. inversion Hst; subst; cbn [g_threads]; [done|by apply listens_signals|..].
  - apply Forall_insert; [done|]. pose proof (Forall_lookup_1 _ _ _ _ Hl ltac:(eassumption)) as Hroom.
    pose proof (Forall_lookup_1 _ _ _ _ Ht ltac:(eassumption)) as Henv. by eapply start_listens.
  - apply Forall_insert; [done|]. pose proof (Forall_lookup_1 _ _ _ _ Hl ltac:(eassumption)) as Hw.
    pose proof (Forall_lookup_1 _ _ _ _ Ht ltac:(eassumption)) as (ph & free & Hs).
    match goal with Ho : live _ _ |- _ => destruct Ho as [lb Ho] end.
    eapply (live_own_waits sends_bytes any_time (fun _ => I) vfuel no_claims); [exact Hs| |eassumption].
    by apply (waits_same [] p).
Qed.

Lemma prog_listens ro (ts : list (processor_args * P)) (g : program) :
  Forall (fun t => created_ok (snd t)) ts -> Forall (fun t => roomy (fst t) (snd t)) ts ->
  rtc (prog_step ro live) (prog_init ts) g -> Forall listens (g_threads g).
Proof.
  intros Hts Hroom Hr.
  assert (H0 : Forall listens (g_threads (prog_init ts)))
    by (cbn; apply Forall_fmap; eapply Forall_impl; [exact Hroom|]; by intros [args p]).
  pose proof (kept_any (F := F) (H := H) vfuel sends_bytes any_time ro live (fun _ => I) live_own_own) as Hk.
  pose proof (prog_init_ok sends_bytes any_path I (cl_report no_claims)
    (fun _ => cl_bytes no_claims) (fun _ => cl_holds no_claims) ts Hts) as Hok. revert Hok H0.
  induction Hr as [|g1 g2 g3 Hst _ IH]; [done|]. intros Hok H0. apply IH.
  - exact (prog_step_ok sends_bytes any_time _ _ _ _ _ _ _ Hk _ _ Hok Hst).
  - by eapply prog_step_listens.
Qed.

(** C4. No event waits because nobody looks: in every state that can be reached
    through steps with defined behaviour, whatever the kernel, ngtcp2 and the
    socket answer, if events wait in the queue, then some thread has a signal it
    has not taken, and if it is running, its poll of the eventfd is in the ring
    or with the kernel, and so is everything else it needs to go on; if it has
    still to start, that is so once it has. (The ring of each thread has three
    entries more than the thread has containers, and the kernel keeps a poll as
    long as it says.) *)
Theorem program_keeps_listening ro (ts : list (processor_args * P)) g ev rest :
  Forall (fun t => created_ok (snd t)) ts -> Forall (fun t => roomy (fst t) (snd t)) ts ->
  rtc (prog_step ro live) (prog_init ts) g -> contents (g_queue g) = ev :: rest ->
  exists i t, g_threads g !! i = Some t /\ 0 < efd_count (efd_of t) /\
    match t with
    | Running p K _ => all_armed p K
    | Starting args p => forall bufs h0 l u r p', start_memory args bufs l ->
        ev_loop_init (None, q_world (p_quic p)) = Ret (0, (Some l, u)) ->
        processor_start args (Some bufs) true h0 (with_queue (g_queue g) p) = Ret (r, p') -> all_armed p' []
    end.
Proof.
  intros Hts Hroom Hr Hc. destruct (reach_ok _ _ _ _ _ live_own_own Hts Hr) as ([_ _ _ Hg] & Hs & _).
  pose proof (prog_listens _ _ _ Hts Hroom Hr) as Hl.
  destruct (signalled_some _ _ _ Hs Hc) as (i & t & Ht & Hpos).
  exists i, t. split; [done|]. split; [done|].
  pose proof (Forall_lookup_1 _ _ _ _ Hl Ht) as Hw. pose proof (Forall_lookup_1 _ _ _ _ Hg Ht) as Hg'.
  destruct t as [args p|p K T]; [|by apply waits_armed].
  intros bufs h0 l u r p' Hm He Hp. by eapply waits_armed, start_listens.
Qed.
End listening.

(** ** What the program reports *)

Section reports.
Context {H C W F : Type} `{!Blake3 H, !Blake3Laws H, !IoUring W, !Ngtcp2 C, !Host W, !Net C W, !NetV4 C W, !Malloc W}.
Context `{!Eventfd F, !EventfdSem F, !Ngtcp2Laws C, !StreamLaws C, !HostLaws W}.
Context (vfuel : nat).
Context (fs : list Z -> option (list Z)) (ro : rodata).

(** The paths that threads handle: those in the watched path, and the empty one
    that a wake-up without an event gives. *)
Definition in_watch (s : list Z) : Prop := s = [] \/ matches_watch ro s.

Lemma in_watch_nil : in_watch [].
Proof. by left. Qed.

(** Any kernel that serves files, with any transport. *)
Lemma kept_files TI Ready `{!Transport TI Ready} Kern :
  (forall T p e res bufs T1, Kern T p e res bufs T1 -> kernel_serves fs T p e res bufs T1 /\ ready_at Ready e res p) ->
  rodata_wf ro -> no_nul (watched ro) -> (forall s c, fs s = Some c -> Z.of_nat (length c) < 2 ^ 64) ->
  kept (H := H) (F := F) TI ro (file_own_step Kern vfuel) in_watch in_watch_nil
    (cl_report (file_claims (H := H) fs in_watch in_watch_nil ∅))
    (fun T => cl_bytes (file_claims (H := H) fs in_watch in_watch_nil T))
    (fun T => cl_holds (file_claims (H := H) fs in_watch in_watch_nil T)).
Proof.
  intros Hkern Hro Hnn Hsm. split.
  - intros pid f reserve d_path ops ev s Hrun Hin Hs. right.
    destruct (hook_event _ _ _ _ _ _ _ Hrun Hin) as (_ & _ & Hm). by apply Hm.
  - by intros i f (_ & c & Hc).
  - intros ph free p K T p' K' T' Hs Hst.
    assert (Hx : files_ok fs in_watch in_watch_nil TI (p_id p) (p, K, T))
      by (split; [done|]; by exists ph, free).
    by apply (file_own_step_ok fs Hsm in_watch in_watch_nil vfuel TI Ready Kern Hkern _ _ _ Hx) in Hst as (_ & Hs').
Qed.

(** Each report is true of a watched file. *)
Definition true_report (id : Z) (r : report) : Prop :=
  rp_thread r = id /\ matches_watch ro (rp_path r) /\
  exists content, fs (rp_path r) = Some content /\ rp_hash r = digest content.

(** What a thread reports is true, and its connection is given what it prints. *)
Lemma reports_carried TI Ready `{!Transport TI Ready} Kern (ts : list (processor_args * processor H C W F)) g :
  (forall T p e res bufs T1, Kern T p e res bufs T1 -> kernel_serves fs T p e res bufs T1 /\ ready_at Ready e res p) ->
  rodata_wf ro -> no_nul (watched ro) -> (forall s c, fs s = Some c -> Z.of_nat (length c) < 2 ^ 64) -> fs [] = None ->
  Forall (fun t => created_ok (snd t)) ts -> rtc (prog_step ro (file_own_step Kern vfuel)) (prog_init ts) g ->
  forall i p K T, g_threads g !! i = Some (Running p K T) ->
  exists ph l, lines (e_out (p_shared p)) = line_of <$> l /\ Forall (true_report (p_id p)) l /\
    conn_ok ph (with_queue (g_queue g) p) /\ carries (TI := TI) ph (p_quic p) (record_of <$> l).
Proof.
  intros Hkern Hro Hnn Hsm Hnil Hts Hr i p K T Hi.
  pose proof (prog_steps_ok TI Ready _ _ _ _ _ _ _ (kept_files TI Ready Kern Hkern Hro Hnn Hsm) _ _
    (prog_init_ok TI _ _ _ _ _ ts Hts) Hr) as [_ _ _ Ht].
  destruct (Forall_lookup_1 _ _ _ _ Ht Hi) as (ph & free & Hs).
  destruct (so_sent _ _ _ _ Hs) as (recs & Hc & l & Hl & -> & Hf). exists ph, l. split_and!; [exact Hl| |apply Hs|exact Hc].
  eapply Forall_impl; [exact Hf|]. intros r (Hid & [Hp|Hm] & c & Hc' & Hh); [by rewrite Hp, Hnil in Hc'|].
  split; [exact Hid|]. split; [done|]. by exists c.
Qed.

(** A connection was given these records: what it has accepted, followed by what
    waits in the slot, are their bytes; without a connection there are none. *)
Definition handed_over (q : quic C W) (recs : list (list Z)) : Prop :=
  match q_conn q with
  | Some _ => exists st rest, q_slots q = st :: rest /\ concat (snd <$> q_accepted q) ++ leftover st = concat recs
  | None => recs = [] /\ q_accepted q = []
  end.

(** C1. Everything the program prints and sends is a true report of a watched
    file. Files are opened anywhere, the hook filters them (also those whose path
    it cannot look up), the main thread moves the events of the rest into the
    queue, and any number of threads open, read and hash the files, in any
    interleaving, with any schedule of short reads and failures, and whatever
    ngtcp2, the socket and the peer do within their documented behaviour. In
    every state that can be reached through steps with defined behaviour ([Pipeline]
    and [Quic] show those without) there is, for each running thread, a list of
    reports such that the lines it has passed to [write] are exactly the
    lines of these reports, and the bytes its connection to the verifier has
    accepted, followed by those that wait in the stream slot, are exactly their
    records, in the same order; and each report is of a path that is the watched
    file or lies under the watched directory, with the BLAKE3 digest of exactly
    the content of the file there. (No file has the empty path, none is longer
    than a 64-bit offset, and files do not change while the program runs; the
    watched path has no null bytes.) *)
Theorem program_reports_watched_files (ts : list (processor_args * processor H C W F)) g :
  rodata_wf ro -> no_nul (watched ro) -> (forall s c, fs s = Some c -> Z.of_nat (length c) < 2 ^ 64) -> fs [] = None ->
  Forall (fun t => created_ok (snd t)) ts -> rtc (prog_step ro (file_own_step (kernel_serves fs) vfuel)) (prog_init ts) g ->
  forall i p K T, g_threads g !! i = Some (Running p K T) ->
  exists l, lines (e_out (p_shared p)) = line_of <$> l /\ handed_over (p_quic p) (record_of <$> l) /\
    Forall (fun r => rp_thread r = p_id p /\ matches_watch ro (rp_path r) /\
                     exists content, fs (rp_path r) = Some content /\ rp_hash r = digest content) l.
Proof.
  intros Hro Hnn Hsm Hnil Hts Hr i p K T Hi.
  destruct (reports_carried sends_bytes any_time (kernel_serves fs) ts g ltac:(done) Hro Hnn Hsm Hnil Hts Hr i p K T Hi)
    as (ph & l & Hl & Hf & Hc & Hs). exists l. split; [exact Hl|]. split; [|exact Hf]. unfold handed_over.
  destruct ph; [destruct Hc as [Hn _]; change (q_conn (p_quic p) = None) in Hn; by rewrite Hn..|].
  destruct Hs as (st & (c & rest & -> & Hst & _) & Hb). by exists st, rest.
Qed.
End reports.

(** ** Witness: "/t/a" is opened, and one thread is created *)

#[local] Existing Instances keep_ngtcp2 keep_host keep_ngtcp2_laws keep_host_laws keep_net keep_streams keep_v4.

(** The record of the event, and the program with the record submitted. *)
Definition toy_record : list Z :=
  default [] (event_bytes {| path := [47; 116; 47; 97] ++ replicate 124 0; path_len := 4 |} (replicate 136 7)).
Local Abbreviation toy_init := (prog_init [(toy_args, keep_thread)]).
Local Abbreviation toy_opened := (Program [toy_record] (g_queue toy_init) (g_next toy_init) (g_threads toy_init)).

Lemma d_path_ta_spec : d_path_spec d_path_ta.
Proof.
  intros buf Hl. destruct (d_path_ta_gives buf Hl) as (rest & E & Hr). rewrite E. split; [exact Hr|]. right.
  exists [47; 116; 47; 97], rest. split; [repeat constructor; lia|reflexivity].
Qed.

Lemma toy_prog_open `{!IoUring nat} Own : prog_step ro_t Own toy_init toy_opened.
Proof.
  set (ev := {| path := [47; 116; 47; 97] ++ replicate 124 0; path_len := 4 |}).
  apply (prog_open ro_t Own toy_init (Z.shiftl 5 32) file_reg (Some event_zero) d_path_ta
    [RbSubmit ev] ev (replicate 136 7) toy_record).
  - split; [exact d_path_ta_spec|]. split; [intros e [= <-]; reflexivity|vm_compute; reflexivity].
  - by left.
  - reflexivity.
  - vm_compute. reflexivity.
Qed.

Lemma toy_created : Forall (fun t => created_ok (snd t)) [(toy_args, keep_thread)].
Proof. constructor; [|constructor]. split_and!; [reflexivity..|by left]. Qed.

(** The main thread moves the record into the queue and signals the thread. *)
Definition toy_fed : feeder _ :=
  match ride_ringbuf_handle_raw toy_record (feeder_of toy_opened) with Ret (_, s) => s | _ => feeder_of toy_opened end.

Lemma toy_prog_feed `{!IoUring nat} Own :
  rtc (prog_step ro_t Own) toy_init
    (Program [] (f_queue toy_fed) (efd_next toy_fed) (zip_with signal (queue_eventfd toy_fed) (g_threads toy_init))).
Proof.
  eapply rtc_l; [apply toy_prog_open|]. apply rtc_once.
  by apply (prog_feed ro_t Own toy_opened toy_record [] 0 toy_fed).
Qed.

Lemma program_never_faults_witness :
  exists g data, rtc (prog_step ro_t (file_own_step any_kernel 20)) toy_init g /\ g_records g = [data] /\
    no_fault (ride_ringbuf_handle_raw data (feeder_of g)) /\
    no_fault (processor_start toy_args (Some [replicate (Z.to_nat READ_BUF_SIZE) 0]) true (Hasher [])
                (with_queue (g_queue g) keep_thread)).
Proof.
  destruct (program_never_faults 20 ro_t [(toy_args, keep_thread)] toy_opened) as (_ & _ & H1 & H2 & _).
  - discriminate.
  - exact toy_created.
  - exact (rtc_once _ _ (toy_prog_open (file_own_step any_kernel 20))).
  - exists toy_opened, toy_record. split; [exact (rtc_once _ _ (toy_prog_open (file_own_step any_kernel 20)))|]. split; [reflexivity|].
    split; [by apply (H1 toy_record [])|].
    eapply (H2 0%nat); [reflexivity|exact keep_start_memory|reflexivity].
Defined.

(** The event of the record is in the queue. *)
Lemma toy_fed_one : exists ev, contents (f_queue toy_fed) = [ev].
Proof.
  assert (Hx : length (contents (f_queue toy_fed)) = 1%nat) by (vm_compute; reflexivity).
  destruct (contents _) as [|ev [|? ?]]; try done. by exists ev.
Qed.

Lemma program_strands_no_event_witness :
  exists g ev i t, rtc (prog_step ro_t (file_own_step any_kernel 20)) toy_init g /\ contents (g_queue g) = [ev] /\
    g_threads g !! i = Some t /\ 0 < efd_count (efd_of t) /\
    exists s, queue_consume_try event_zero (g_queue g, efd_of t) = Ret ((0, ev), s).
Proof.
  destruct toy_fed_one as [ev Hc].
  destruct (program_strands_no_event 20 ro_t [(toy_args, keep_thread)] _ ev event_zero toy_created
    (toy_prog_feed (file_own_step any_kernel 20)) [] Hc) as (i & t & q' & f' & Hi & Hp & Hq & _).
  eexists _, ev, i, t. split; [exact (toy_prog_feed _)|]. split; [exact Hc|]. split; [exact Hi|]. split; [exact Hp|].
  exists (q', f'). exact Hq.
Defined.

(** The steps of one thread are steps of the program. *)
Lemma lift_steps {H C W F : Type} `{!Blake3 H, !IoUring W, !Ngtcp2 C, !Host W, !Net C W, !Malloc W, !Eventfd F}
    (ro : rodata) Own i (x x' : processor H C W F * list io_uring_sqe * files) g :
  rtc Own x x' ->
  g_threads g !! i = Some (Running (fst (fst x)) (snd (fst x)) (snd x)) ->
  e_queue (p_shared (fst (fst x))) = g_queue g ->
  rtc (prog_step ro Own) g
    (Program (g_records g) (e_queue (p_shared (fst (fst x')))) (g_next g)
       (<[i := Running (fst (fst x')) (snd (fst x')) (snd x')]> (g_threads g))).
Proof.
  intros Hr. revert g. induction Hr as [x|[[p K] T] [[p1 K1] T1] x' Hst _ IH]; intros g Hi Hq; cbn [fst snd] in *.
  - rewrite Hq, list_insert_id by done. by destruct g.
  - set (g1 := Program (g_records g) (e_queue (p_shared p1)) (g_next g) (<[i := Running p1 K1 T1]> (g_threads g))).
    assert (H1 : prog_step ro Own g g1).
    { eapply prog_run; [exact Hi|]. rewrite <- Hq. unfold with_queue. by destruct p as [? ? ? ? ? ? ? ? []]. }
    eapply rtc_l; [exact H1|]. pose proof (IH g1) as Hg. cbn in Hg. rewrite list_insert_insert_eq in Hg. apply Hg; [|done].
    apply list_lookup_insert_eq. by eapply lookup_lt_Some.
Qed.

(** The event goes through the queue, the thread starts, connects, opens and
    reads the file, prints its line and sends its record. *)
Local Abbreviation toy_bufs := [replicate (Z.to_nat READ_BUF_SIZE) 0].

Lemma toy_prog_run Own q f n r r' p1 x :
  ride_ringbuf_handle_raw toy_record (feeder_of toy_opened) =
    Ret (r, {| f_queue := q; queue_eventfd := [f]; efd_next := n |}) ->
  processor_start toy_args (Some toy_bufs) true (Hasher []) (with_queue q (with_efd f keep_thread)) = Ret (r', p1) ->
  rtc Own (p1, [], ∅) x ->
  rtc (prog_step ro_t Own) toy_init
    (Program [] (e_queue (p_shared (fst (fst x)))) n [Running (fst (fst x)) (snd (fst x)) (snd x)]).
Proof.
  intros H1 H2 H3. eapply rtc_l; [apply toy_prog_open|].
  eapply rtc_l; [eapply (prog_feed _ _ toy_opened toy_record []); [reflexivity|exact H1]|].
  set (g := Program [] _ _ _).
  eapply rtc_l; [eapply (prog_start _ _ g 0%nat); [reflexivity|exact keep_start_memory|reflexivity|exact H2]|].
  exact (lift_steps ro_t Own 0%nat (p1, [], ∅) x (Program [] (e_queue (p_shared p1)) n [Running p1 [] ∅]) H3 eq_refl eq_refl).
Qed.

Lemma toy_reached :
  exists g p K T line, rtc (prog_step ro_t (file_own_step (kernel_serves toy_fs) 20)) toy_init g /\
    g_threads g !! 0%nat = Some (Running p K T) /\ lines (e_out (p_shared p)) = [line].
Proof.
  assert (Hx : match ride_ringbuf_handle_raw toy_record (feeder_of toy_opened) with
    | Ret (_, {| f_queue := q; queue_eventfd := [f] |}) =>
        match processor_start toy_args (Some toy_bufs) true (Hasher []) (with_queue q (with_efd f keep_thread)) with
        | Ret (_, p1) =>
            match file_run toy_fs 20 (toy_acts ++ toy_acts_end) (p1, [], ∅) with
            | Some (p2, _, _) => match lines (e_out (p_shared p2)) with [_] => true | _ => false end
            | None => false
            end
        | _ => false
        end
    | _ => false
    end = true) by (vm_compute; reflexivity).
  pose proof (toy_prog_run (file_own_step (kernel_serves toy_fs) 20)) as Hrun.
  set (m := ride_ringbuf_handle_raw toy_record _) in *.
  destruct m as [[r [q [|f [|? ?]] n]]| | | |]; [discriminate Hx| |discriminate Hx..].
  specialize (fun r' p1 x => Hrun q f n r r' p1 x eq_refl).
  set (m := processor_start toy_args _ true _ _) in *.
  destruct m as [[r' p1]| | | |]; try discriminate Hx. specialize (fun x => Hrun r' p1 x eq_refl).
  destruct (file_run _ _ _ _) as [[[p2 K2] T2]|] eqn:Hr; [|discriminate Hx].
  specialize (Hrun _ (file_run_sound _ _ _ _ _ Hr)). cbn [fst snd] in Hrun.
  destruct (lines (e_out (p_shared p2))) as [|line [|? ?]] eqn:Hl; try discriminate Hx.
  by eexists _, p2, K2, T2, line.
Qed.

Lemma ro_t_no_nul : no_nul (watched ro_t).
Proof. repeat constructor; lia. Qed.

Lemma program_reports_watched_files_witness :
  exists g p K T r, rtc (prog_step ro_t (file_own_step (kernel_serves toy_fs) 20)) toy_init g /\
    g_threads g !! 0%nat = Some (Running p K T) /\
    lines (e_out (p_shared p)) = [line_of r] /\ handed_over (p_quic p) [record_of r] /\
    matches_watch ro_t (rp_path r) /\
    exists content, toy_fs (rp_path r) = Some content /\ rp_hash r = digest content.
Proof.
  destruct toy_reached as (g & p & K & T & line & Hrun & Hi & Hline).
  destruct (program_reports_watched_files 20 toy_fs ro_t [(toy_args, keep_thread)] g ro_t_wf ro_t_no_nul toy_fs_small eq_refl
    toy_created Hrun 0%nat p K T Hi) as (l & Hl & Ha & Hf).
  destruct l as [|r [|r' l]]; [by rewrite Hl in Hline| |by rewrite Hl in Hline].
  apply Forall_cons in Hf as [(_ & Hm & Hc) _].
  exists g, p, K, T, r. split; [exact Hrun|]. split; [exact Hi|]. split; [exact Hl|]. split; [exact Ha|]. done.
Defined.

(** ** Witness: the thread has started, with a ring of four entries *)

#[local] Existing Instance wide_uring.

Lemma program_keeps_listening_witness :
  exists g ev p, rtc (prog_step ro_t (live 20)) toy_init g /\ contents (g_queue g) = [ev] /\
    g_threads g !! 0%nat = Some (Running p [] ∅) /\ 0 < efd_count (e_efd (p_shared p)) /\ all_armed p [].
Proof.
  destruct (queue_eventfd toy_fed) as [|f [|? ?]] eqn:Hf; [vm_compute in Hf; discriminate| |vm_compute in Hf; discriminate].
  pose proof (toy_prog_feed (live 20)) as Hr. rewrite Hf in Hr. cbn in Hr.
  assert (Hx : match processor_start toy_args (Some toy_bufs) true (Hasher [])
                       (with_queue (f_queue toy_fed) (with_efd f keep_thread)) with
    | Ret (_, p1) => length (contents (e_queue (p_shared p1)))
    | _ => 0%nat
    end = 1%nat).
  { replace f with (default f (queue_eventfd toy_fed !! 0%nat)) by (by rewrite Hf). vm_compute. reflexivity. }
  destruct (processor_start _ _ _ _ _) as [[r p1]| | | |] eqn:Hp; try discriminate Hx.
  destruct (contents (e_queue (p_shared p1))) as [|ev [|? ?]] eqn:Hc; try discriminate Hx.
  pose proof (rtc_r _ _ _ Hr (prog_start ro_t (live 20)
    (Program [] (f_queue toy_fed) (efd_next toy_fed) [Starting toy_args (with_efd f keep_thread)]) 0%nat toy_args
    (with_efd f keep_thread) toy_bufs (Hasher []) wide_ring 0%nat r p1 eq_refl wide_start_memory eq_refl Hp)) as Hg.
  cbn in Hg. set (g := Program [] _ _ _) in Hg.
  destruct (program_keeps_listening 20 ro_t [(toy_args, keep_thread)] g ev [] toy_created) as ([|i] & t & Hi & Hpos & Ha);
    [|exact Hg|exact Hc| |discriminate Hi].
  - constructor; [|constructor]. intros l u [= <- <-]. vm_compute. discriminate.
  - injection Hi as <-. exists g, ev, p1. split; [exact Hg|]. split; [exact Hc|].
    split; [reflexivity|]. split; [exact Hpos|exact Ha].
Defined.
