(* ===== verification/Server.v ===== *)
(** * The verifier server (verifier/cmd/verifier/main.go and
    verifier/internal/server/server.go)

    The Go program at the other end of a thread's connection: its command line,
    the server loop on the interface of quic-go, and what it receives of the
    reports of the threads. *)

From stdpp Require Import base numbers list list_numbers gmap strings.
From S2P Require Import Prelude CStr Printf Queue Ev Hasher Slab Quic Transport State Verifier Ride Bpf KernelHook Processor.
From S2P Require Import Examples Thread Pipeline Connect Fuel ThreadInv System Boot Files Program.

Open Scope Z_scope.

(** ** Configuration *)

(** [quic.Config]: durations in nanoseconds. *)
Record quic_Config : Set := QuicConfig { MaxIdleTimeout : Z; KeepAlivePeriod : Z }.

Definition time_Second : Z := 1000000000.
Definition quicConfig : quic_Config :=
  {| MaxIdleTimeout := 30 * time_Second; KeepAlivePeriod := 15 * time_Second |}.

(** What of [tls.Config] is the program's own. *)
Definition NextProtos : list (list Z) := [bytes_of "ride0.1"].

(** What the server uses of quic-go, of [io] and of [crypto], on a world [S]
    with listeners [L], connections [N] and streams [T]; [None] is an error. *)
Class QuicGo (S L N T : Type) := {
  rsa_GenerateKey : Z -> S -> bool * S;
  x509_CreateCertificate : S -> bool * S;
  quic_ListenAddr : list Z -> list (list Z) -> quic_Config -> S -> option L * S;
  listener_Accept : L -> S -> option N * S;
  conn_AcceptStream : N -> S -> option T * S;
  io_ReadAll : T -> S -> option (list Z) * S;
  stream_Close : T -> S -> S;
}.

(** What a panic exits with. *)
Definition PANIC : Z := 2.

Section server.
Context {S L N T : Type} `{!QuicGo S L N T}.

(** The process: what it has printed, and the world. *)
Record server : Type := Server { sv_out : list (list Z); sv_world : S }.

Definition Println (line : list Z) : M server unit :=
  modify (fun s => Server (sv_out s ++ [line]) (sv_world s)).

Definition go {A} (f : S -> A * S) : M server A := fun s =>
  let '(a, w) := f (sv_world s) in Ret (a, Server (sv_out s) w).

(** A call whose error is a panic. *)
Definition try {A} (f : S -> option A * S) : M server A :=
  o ← go f;
  match o with Some a => mret a | None => exit_ PANIC end.

Definition generateTLSConfig : M server (list (list Z)) :=
  ok ← go (rsa_GenerateKey 2048);
  if negb ok then exit_ PANIC
  else
    ok ← go x509_CreateCertificate;
    if negb ok then exit_ PANIC else mret NextProtos.

Definition txt_received (payload : list Z) : list Z := bytes_of "Received '" ++ payload ++ bytes_of "'".

(** One turn of the loop. *)
Definition serve_stream (conn : N) : M server unit :=
  Println (bytes_of "Waiting for a stream");;
  stream ← try (conn_AcceptStream conn);
  Println (bytes_of "Accepted stream");;
  payload ← try (io_ReadAll stream);
  Println (txt_received payload);;
  go (fun w => (tt, stream_Close stream w)).

(** The loop has no end: [turns] of it are observed. *)
Fixpoint serve_streams (turns : nat) (conn : N) : M server unit :=
  match turns with
  | O => mret tt
  | Datatypes.S turns => serve_stream conn;; serve_streams turns conn
  end.

Definition VerifierServer (turns : nat) (addr dbPath : list Z) : M server unit :=
  tls ← generateTLSConfig;
  listener ← try (quic_ListenAddr addr tls quicConfig);
  Println (bytes_of "Listening on " ++ addr);;
  conn ← try (listener_Accept listener);
  serve_streams turns conn.

(** ** The command line *)

(** [flag.Parse] when no flag is defined: an argument that is not a flag ends
    the flags, as does the terminator; [-h] and [-help] exit with 0 and every
    other flag with 2. *)
Definition dash : Z := 45.

Fixpoint flag_name (s : list Z) : list Z :=
  match s with
  | [] => []
  | c :: s => if c =? 61 then [] else c :: flag_name s
  end.

Definition flag_Parse (args : list (list Z)) : M server (list (list Z)) :=
  match args with
  | [] => mret []
  | s :: rest =>
      match s with
      | c :: c1 :: s1 =>
          if negb (c =? dash) then mret args
          else if (c1 =? dash) && bool_decide (s1 = []) then mret rest
          else
            let name := if c1 =? dash then s1 else c1 :: s1 in
            match name with
            | [] => exit_ 2
            | n :: _ =>
                if (n =? dash) || (n =? 61) then exit_ 2
                else if bool_decide (flag_name name = bytes_of "help" \/ flag_name name = bytes_of "h") then exit_ 0
                else exit_ 2
            end
      | _ => mret args
      end
  end.

Definition usage : M server unit := Println (bytes_of "Usage: verifier [options]").

(** The flag [-db] is defined after the command line was parsed, so that
    [dbPath] is its default. *)
Definition server_main (turns : nat) (argv : list (list Z)) : M server unit :=
  args ← flag_Parse argv;
  let dbPath := bytes_of "./store.db" in
  (if bool_decide (args = []) then mret tt else usage);;
  VerifierServer turns (bytes_of "localhost:4433") dbPath.
End server.
Arguments server : clear implicits.

(** The name the client asks for is the one the server offers, in the wire
    format of TLS. *)
Lemma alpn_agrees : RIDE_ALPN = concat ((fun p => Z.of_nat (length p) :: p) <$> NextProtos).
Proof. reflexivity. Qed.

(** ** What the server receives *)

(** The streams that the peer of a connection has opened, each with the bytes it
    has sent to their end: they are accepted in order and read whole. *)
Class Delivers {S L N T : Type} `{!QuicGo S L N T} (streams : N -> S -> list (list Z)) := {
  carries : T -> S -> list Z -> Prop;
  dl_accept c w d rest : streams c w = d :: rest -> exists t w',
    conn_AcceptStream c w = (Some t, w') /\ carries t w' d /\ streams c w' = rest;
  dl_read c t w d : carries t w d -> exists w', io_ReadAll t w = (Some d, w') /\ streams c w' = streams c w;
  dl_close c t w : streams c (stream_Close t w) = streams c w;
}.

Section receives.
Context {S L N T : Type} `{!QuicGo S L N T} (streams : N -> S -> list (list Z)) `{!Delivers streams}.
Implicit Types s : server S.

(** What is printed for a stream. *)
Definition txt_stream (d : list Z) : list (list Z) :=
  [bytes_of "Waiting for a stream"; bytes_of "Accepted stream"; txt_received d].

Lemma serve_stream_ok c d rest s :
  streams c (sv_world s) = d :: rest ->
  exists w, serve_stream c s = Ret (tt, Server (sv_out s ++ txt_stream d) w) /\ streams c w = rest.
Proof.
  intros Hs. destruct s as [out w0]. cbn in *. destruct (dl_accept c w0 d rest Hs) as (t & w1 & Ha & Hc & Hs1).
  destruct (dl_read c t w1 d Hc) as (w2 & Hr & Hs2). exists (stream_Close t w2).
  split; [|by rewrite dl_close, Hs2].
  unfold serve_stream, Println, try, go. rewrite bind_modify. unfold mbind, M_bind. cbn [sv_world sv_out].
  rewrite Ha. unfold modify. cbn [sv_world sv_out mret M_ret]. rewrite Hr. cbn. by rewrite <- !app_assoc.
Qed.

(** The streams are printed in order, each completely. *)
Lemma serve_streams_ok c ds rest s :
  streams c (sv_world s) = ds ++ rest ->
  exists w, serve_streams (length ds) c s = Ret (tt, Server (sv_out s ++ concat (txt_stream <$> ds)) w) /\
    streams c w = rest.
Proof.
  revert s. induction ds as [|d ds IH]; intros s Hs; cbn [length serve_streams].
  - exists (sv_world s). split; [|done]. destruct s. cbn. by rewrite app_nil_r.
  - destruct (serve_stream_ok c d (ds ++ rest) s Hs) as (w & Hw & Hr).
    destruct (IH (Server (sv_out s ++ txt_stream d) w) Hr) as (w' & Hw' & Hr').
    exists w'. split; [|done]. rewrite (bind_Ret _ _ _ _ _ Hw), Hw'. cbn [sv_out fmap list_fmap concat].
    by rewrite <- app_assoc.
Qed.
End receives.

(** ** The reports of a thread at the server *)

Section reports.
Context {H C W F : Type} `{!Blake3 H, !Blake3Laws H, !IoUring W, !Ngtcp2 C, !Host W, !Net C W, !NetV4 C W, !Malloc W}.
Context `{!Eventfd F, !EventfdSem F, !Ngtcp2Laws C, !StreamLaws C, !HostLaws W}.
Context (vfuel : nat) (fs : list Z -> option (list Z)) (ro : rodata).
Context {S L N T : Type} `{!QuicGo S L N T} (streams : N -> S -> list (list Z)) `{!Delivers streams}.

(** A kernel that serves files, and ends one only when the connection has
    accepted the records before it. Otherwise the rest of a record would be sent
    on the stream of the next one. *)
Definition timely (T : files) (p : processor H C W F) (e : io_uring_sqe) (res : Z) (bufs : list (list Z)) (T1 : files) : Prop :=
  kernel_serves fs T p e res bufs T1 /\ ready_at all_accepted e res p.

(** Once all is accepted, the data of the streams are the records. *)
Lemma streams_records (q : quic C W) l :
  sends_streams q (record_of <$> l) -> all_accepted q -> Forall (fun r => rp_hash r <> []) l ->
  snd <$> by_stream (q_accepted q) = record_of <$> l.
Proof.
  intros Hs Ha Hl. apply on_streams_data; [by apply streams_accepted|]. apply Forall_fmap.
  eapply Forall_impl; [exact Hl|]. intros r Hr. unfold compose, record_of. by intros [? _]%app_eq_nil.
Qed.

(** C6. The verifier receives the reports. The whole program has reached any
    state through steps with defined behaviour, in which each file ended when the
    connection of its thread had accepted the records before it; the connection
    of a running thread has accepted all it was given; and the server has that
    connection, of which the network has delivered the first [k] streams, each
    with the bytes that were accepted for it. Then the server prints for them, in
    order, exactly the records of the first [k] reports the thread has printed:
    each record is alone on a stream and is received whole, its first 32 bytes
    are the digest of the content of the file, and the rest is the path of the
    file, which is in the watched path. (No file has the empty path, none is
    longer than a 64-bit offset, and files do not change; the watched path has no
    null bytes.) *)
Theorem verifier_receives_reports (ts : list (processor_args * processor H C W F)) g i p K Tb k c (s : server S) :
  rodata_wf ro -> no_nul (watched ro) -> (forall s c, fs s = Some c -> Z.of_nat (length c) < 2 ^ 64) -> fs [] = None ->
  Forall (fun t => created_ok (snd t)) ts -> rtc (prog_step ro (file_own_step timely vfuel)) (prog_init ts) g ->
  g_threads g !! i = Some (Running p K Tb) -> all_accepted (p_quic p) ->
  streams c (sv_world s) = take k (snd <$> by_stream (q_accepted (p_quic p))) ->
  exists l w, lines (e_out (p_shared p)) = line_of <$> l /\
    serve_streams (length (streams c (sv_world s))) c s =
      Ret (tt, Server (sv_out s ++ concat ((fun r => txt_stream (record_of r)) <$> take k l)) w) /\
    Forall (fun r => take 32 (record_of r) = rp_hash r /\ drop 32 (record_of r) = rp_path r /\
                     matches_watch ro (rp_path r) /\
                     exists content, fs (rp_path r) = Some content /\ rp_hash r = digest content) l.
Proof.
  intros Hro Hnn Hsm Hnil Hts Hr Hi Hall Hst.
  destruct (reports_carried vfuel fs ro sends_streams all_accepted timely ts g ltac:(done) Hro Hnn Hsm Hnil Hts Hr i p K Tb Hi)
    as (ph & l & Hl & Hf & _ & Hc).
  assert (Hlen : Forall (fun r => length (rp_hash r) = 32%nat) l).
  { eapply Forall_impl; [exact Hf|]. intros r (_ & _ & content & _ & ->). apply digest_length. }
  assert (Ha : snd <$> by_stream (q_accepted (p_quic p)) = record_of <$> l).
  { destruct ph; [destruct Hc as [-> ->]; done..|]. apply streams_records; [exact Hc|exact Hall|].
    eapply Forall_impl; [exact Hlen|]. intros r Hx Hn. cbv beta in Hx. by rewrite Hn in Hx. }
  rewrite Ha, <- fmap_take in Hst.
  destruct (serve_streams_ok streams c (record_of <$> take k l) [] s) as (w & Hw & _); [by rewrite app_nil_r|].
  exists l, w. split; [exact Hl|]. split; [rewrite Hst, Hw, <- list_fmap_compose; reflexivity|].
  rewrite Forall_forall in Hf, Hlen |- *. intros r Hin. destruct (Hf r Hin) as (_ & Hm & content & Hx & Hh).
  unfold record_of. rewrite <- (Hlen r Hin), take_app_length, drop_app_length. split_and!; try done. by exists content.
Qed.
End reports.

(** ** One connection *)

Section once.
Context {S L N T : Type} `{!QuicGo S L N T}.

(** The world with the connections that were accepted, and those that streams
    were asked of. *)
Definition note {A} (f : S -> A * S) (w : S * (list N * list N)) : A * (S * (list N * list N)) :=
  let '(a, w') := f (fst w) in (a, (w', snd w)).

#[local] Instance noted : QuicGo (S * (list N * list N)) L N T := {
  rsa_GenerateKey n := note (rsa_GenerateKey n);
  x509_CreateCertificate := note x509_CreateCertificate;
  quic_ListenAddr a t q := note (quic_ListenAddr a t q);
  listener_Accept l w := let '(o, (w', (cs, us))) := note (listener_Accept l) w in (o, (w', (cs ++ option_list o, us)));
  conn_AcceptStream c w := let '(o, (w', (cs, us))) := note (conn_AcceptStream c) w in (o, (w', (cs, us ++ [c])));
  io_ReadAll t := note (io_ReadAll t);
  stream_Close t w := (stream_Close t (fst w), snd w);
}.

Implicit Types s : server (S * (list N * list N)).

(** What is noted. *)
Definition notes s : list N * list N := snd (sv_world s).

Lemma go_note {A} (f : S -> A * S) s a s' : go (note f) s = Ret (a, s') -> notes s' = notes s.
Proof. unfold go, note. destruct (f _) as [x w]. by intros [= <- <-]. Qed.

Lemma try_note {A} (f : S -> option A * S) s a s' : try (note f) s = Ret (a, s') -> notes s' = notes s.
Proof.
  unfold try. intros (o & s1 & H1 & H2)%bind_Ret_inv. destruct o; [|done]. injection H2 as <- <-.
  by eapply go_note.
Qed.

Lemma Println_note line s u s' : Println line s = Ret (u, s') -> notes s' = notes s.
Proof. by intros [= <- <-]. Qed.

Lemma serve_stream_notes c s u s' :
  serve_stream c s = Ret (u, s') -> notes s' = (fst (notes s), snd (notes s) ++ [c]).
Proof.
  unfold serve_stream. intros (? & s1 & <-%Println_note & H1)%bind_Ret_inv.
  apply bind_Ret_inv in H1 as (t & s2 & H2 & H3).
  assert (E2 : notes s2 = (fst (notes s1), snd (notes s1) ++ [c])).
  { revert H2. unfold try, go, conn_AcceptStream, noted, note, notes. cbn. unfold mbind, M_bind.
    destruct (QuicGo0.(conn_AcceptStream) c _) as [o w]. destruct (snd (sv_world s1)) as [cs us].
    cbn. destruct o; [|done]. by intros [= <- <-]. }
  rewrite <- E2. clear E2 H2.
  apply bind_Ret_inv in H3 as (? & s3 & <-%Println_note & H3).
  apply bind_Ret_inv in H3 as (d & s4 & <-%try_note & H3).
  apply bind_Ret_inv in H3 as (? & s5 & <-%Println_note & H3). by injection H3 as <- <-.
Qed.

Lemma serve_streams_notes n c s u s' :
  serve_streams n c s = Ret (u, s') -> notes s' = (fst (notes s), snd (notes s) ++ replicate n c).
Proof.
  revert s. induction n as [|n IH]; intros s; cbn [serve_streams].
  - intros [= <- <-]. cbn. rewrite app_nil_r. by destruct (notes s).
  - intros (u1 & s1 & H1%serve_stream_notes & H2%IH)%bind_Ret_inv. rewrite H2, H1. cbn. by rewrite <- app_assoc.
Qed.

(** C19. The server reads from one connection only: however long it runs and
    whatever the network does, it accepts a connection exactly once, and every
    stream it asks for is of that connection. The client opens a connection
    per thread, so the reports of all other threads are never received. *)
Theorem server_reads_one_connection turns addr dbPath s u s' :
  notes s = ([], []) -> VerifierServer turns addr dbPath s = Ret (u, s') ->
  exists c, notes s' = ([c], replicate turns c).
Proof.
  intros Hn. unfold VerifierServer. intros (tls & s1 & H1 & H2)%bind_Ret_inv.
  assert (E1 : notes s1 = notes s).
  { revert H1. unfold generateTLSConfig. intros (ok & sa & <-%go_note & H1)%bind_Ret_inv.
    destruct ok; [|done]. apply bind_Ret_inv in H1 as (ok & sb & <-%go_note & H1). destruct ok; [|done].
    by injection H1 as _ <-. }
  apply bind_Ret_inv in H2 as (l & s2 & E2%try_note & H2).
  apply bind_Ret_inv in H2 as (? & s3 & E3%Println_note & H2).
  apply bind_Ret_inv in H2 as (c & s4 & H4 & H5%serve_streams_notes). exists c. rewrite H5.
  assert (E4 : notes s4 = (fst (notes s3) ++ [c], snd (notes s3))).
  { revert H4. unfold try, go, listener_Accept, noted, note, notes. cbn. unfold mbind, M_bind.
    destruct (QuicGo0.(listener_Accept) l _) as [o w]. destruct (snd (sv_world s3)) as [cs us].
    cbn. destruct o; [|done]. by intros [= <- <-]. }
  rewrite E4, E3, E2, E1, Hn. done.
Qed.
End once.

(** The option for the location of the database cannot be given: every command
    line that starts with it, in any of its forms, exits with code 2 before the
    server is started. *)
Lemma db_option_rejected {S L N T} `{!QuicGo S L N T} turns (two : bool) rest argv (s : server S) :
  rest = [] \/ rest !! 0%nat = Some 61 ->
  server_main turns (((if two then [dash; dash] else [dash]) ++ bytes_of "db" ++ rest) :: argv) s = Exit 2.
Proof.
  intros [->|Hr]; [by destruct two; vm_compute|]. destruct rest as [|c rest]; [done|]. injection Hr as ->.
  by destruct two; vm_compute.
Qed.

(** ** Witnesses: a network that delivers *)

#[local] Existing Instances keep_ngtcp2 keep_host keep_ngtcp2_laws keep_host_laws keep_net keep_streams keep_v4.

(** The world is the streams still to be accepted; a stream is its bytes. *)
#[local] Instance toy_go : QuicGo (list (list Z)) unit unit (list Z) := {
  rsa_GenerateKey _ w := (true, w);
  x509_CreateCertificate w := (true, w);
  quic_ListenAddr _ _ _ w := (Some tt, w);
  listener_Accept _ w := (Some tt, w);
  conn_AcceptStream _ w := match w with d :: w => (Some d, w) | [] => (None, []) end;
  io_ReadAll t w := (Some t, w);
  stream_Close _ w := w;
}.

#[local] Instance toy_delivers : Delivers (fun _ w => w).
Proof.
  refine {| carries := fun t _ d => t = d |}.
  - intros c w d rest ->. by exists d, rest.
  - intros c t w d ->. by exists w.
  - done.
Defined.

(** A run in which all is accepted before each step. *)
Definition accepted_all (q : quic keep_conn nat) : bool :=
  match q_slots q with st :: _ => nwrite st =? datalen st | [] => false end.

Lemma accepted_all_sound q : accepted_all q = true -> all_accepted q.
Proof. unfold accepted_all. destruct (q_slots q) as [|st rest] eqn:E; [done|]. intros ?%Z.eqb_eq. by exists st, rest. Qed.

Local Abbreviation toy_state := (processor (list Z) keep_conn nat N * list io_uring_sqe * files)%type.

Fixpoint timely_run (l : list act) (x : toy_state) : option toy_state :=
  if accepted_all (p_quic x.1.1) then
    match l with
    | [] => Some x
    | a :: l => x1 ← file_exec toy_fs 20 a x; timely_run l x1
    end
  else None.

Lemma timely_run_sound l x x' :
  timely_run l x = Some x' -> rtc (file_own_step (timely toy_fs) 20) x x' /\ all_accepted (p_quic x'.1.1).
Proof.
  revert x. induction l as [|a l IH]; intros x; cbn [timely_run]; destruct (accepted_all _) eqn:Ha; try done;
    apply accepted_all_sound in Ha; [by intros [= <-]|].
  intros (x1 & Hx & Hr)%bind_Some. destruct (IH _ Hr) as [Hr' Ha']. split; [|done]. eapply rtc_l; [|exact Hr'].
  destruct (file_exec_sound _ _ _ _ _ Hx) as [p K T e rest He|p K T u|p K K' T T1 e res fl bufs rb p' o Hk Hm Hs Hc Ho];
    [by eapply file_take|apply file_world|].
  eapply file_complete; [done|done|split; [done|by intros _ _ _]|done|done].
Qed.

Local Abbreviation toy_init := (prog_init [(toy_args, keep_thread)]).
Local Abbreviation toy_opened := (Program [toy_record] (g_queue toy_init) (g_next toy_init) (g_threads toy_init)).
Local Abbreviation toy_bufs := [replicate (Z.to_nat READ_BUF_SIZE) 0].

Lemma toy_timely :
  exists g p K T line, rtc (prog_step ro_t (file_own_step (timely toy_fs) 20)) toy_init g /\
    g_threads g !! 0%nat = Some (Running p K T) /\ lines (e_out (p_shared p)) = [line] /\ all_accepted (p_quic p).
Proof.
  assert (Hx : match ride_ringbuf_handle_raw toy_record (feeder_of toy_opened) with
    | Ret (_, {| f_queue := q; queue_eventfd := [f] |}) =>
        match processor_start toy_args (Some toy_bufs) true (Hasher []) (with_queue q (with_efd f keep_thread)) with
        | Ret (_, p1) =>
            match timely_run (toy_acts ++ toy_acts_end) (p1, [], ∅) with
            | Some (p2, _, _) => match lines (e_out (p_shared p2)) with [_] => true | _ => false end
            | None => false
            end
        | _ => false
        end
    | _ => false
    end = true) by (vm_compute; reflexivity).
  pose proof (toy_prog_run (file_own_step (timely toy_fs) 20)) as Hrun.
  set (m := ride_ringbuf_handle_raw toy_record _) in *.
  destruct m as [[r [q [|f [|? ?]] n]]| | | |]; [discriminate Hx| |discriminate Hx..].
  specialize (fun r' p1 x => Hrun q f n r r' p1 x eq_refl).
  set (m := processor_start toy_args _ true _ _) in *.
  destruct m as [[r' p1]| | | |]; try discriminate Hx. specialize (fun x => Hrun r' p1 x eq_refl).
  destruct (timely_run _ _) as [[[p2 K2] T2]|] eqn:Hr; [|discriminate Hx].
  destruct (timely_run_sound _ _ _ Hr) as [Hr' Ha]. specialize (Hrun _ Hr'). cbn [fst snd] in Hrun, Ha.
  destruct (lines (e_out (p_shared p2))) as [|line [|? ?]] eqn:Hl; try discriminate Hx.
  by eexists _, p2, K2, T2, line.
Qed.

Lemma verifier_receives_reports_witness :
  exists (p : processor (list Z) keep_conn nat N) r w content, lines (e_out (p_shared p)) = [line_of r] /\
    (let ds := take 1 (snd <$> by_stream (q_accepted (p_quic p))) in
     serve_streams (length ds) tt (Server [] ds) = Ret (tt, Server (txt_stream (record_of r)) w)) /\
    toy_fs (drop 32 (record_of r)) = Some content /\ take 32 (record_of r) = digest content.
Proof.
  destruct toy_timely as (g & p & K & T & line & Hrun & Hi & Hline & Hall).
  destruct (verifier_receives_reports 20 toy_fs ro_t (fun _ w => w) [(toy_args, keep_thread)] g 0%nat p K T 1%nat tt
    (Server [] (take 1 (snd <$> by_stream (q_accepted (p_quic p))))) ro_t_wf ro_t_no_nul toy_fs_small eq_refl toy_created Hrun Hi
    Hall eq_refl) as (l & w & Hl & Hs & Hf).
  destruct l as [|r [|r' l]]; [by rewrite Hl in Hline| |by rewrite Hl in Hline].
  apply Forall_cons in Hf as [(H1 & H2 & _ & content & Hc & Hh) _].
  exists p, r, w, content. split; [exact Hl|]. split; [exact Hs|]. split; [by rewrite H2|by rewrite H1].
Defined.

Lemma server_reads_one_connection_witness :
  exists u s', VerifierServer (QuicGo0 := noted) 2 [] [] (Server [] ([[1]; [2]], ([], []))) = Ret (u, s') /\
    notes s' = ([tt], [tt; tt]).
Proof.
  assert (Hx : match VerifierServer (QuicGo0 := noted) 2 [] [] (Server [] ([[1]; [2]], ([], []))) with
    | Ret _ => true | _ => false end = true) by (vm_compute; reflexivity).
  destruct (VerifierServer _ _ _ _) as [[u s']| | | |] eqn:H; try discriminate Hx.
  destruct (server_reads_one_connection 2 [] [] (Server [] ([[1]; [2]], ([], []))) u s' eq_refl H) as [[] Hn].
  exists u, s'. split; [reflexivity|exact Hn].
Defined.
