(* ===== verification/Client.v ===== *)
(** * The quiche-based client (src/client.c, src/client.h)

    An earlier form of the verifier client: one background call,
    [client_advance], drives connecting, timeouts, receiving and sending, and
    [client_verify_request] sends one record. quiche, the socket calls and the
    address lookup are classes of operations, a quiche configuration is the
    settings made on it, in order. Of the log only the text of the connection id
    is modelled. [struct job_verify] is not in the repository: a request is the
    payload it carries. *)

From stdpp Require Import base numbers list list_numbers.
From S2P Require Import Prelude.

Open Scope Z_scope.

Definition MAX_DATAGRAM_SIZE : Z := 1350.
Definition MAX_IDLE_TIMEOUT : Z := 1000.
Definition RETRY_BACKOFF : Z := 100.
Definition VBG_TIMEOUT : Z := 1.
Definition VBG_RECV : Z := 2.
Definition EWOULDBLOCK : Z := 11.
Definition SIZEOF_SOCKADDR : Z := 16.
Definition SIZEOF_SOCKADDR_STORAGE : Z := 128.

(** ["\x07ride0.1"]; the length 8 leaves the terminator out. *)
Definition RIDE_ALPN_client : list Z := [7; 114; 105; 100; 101; 48; 46; 49].

Record verifier_config : Set := VerifierConfig { requires_background_job : bool }.

Definition client_verifier_config : verifier_config := VerifierConfig true.

(** The callback stored in the background job; its argument is the client. *)
Inductive job_callback : Set := client_advance_cb.

(** A setting made on a quiche configuration. *)
Inductive quiche_setting : Set :=
  | set_application_protos (protos : list Z)
  | set_max_idle_timeout (ms : Z)
  | set_max_recv_udp_payload_size (n : Z)
  | set_max_send_udp_payload_size (n : Z)
  | set_initial_max_data (n : Z)
  | set_initial_max_stream_data_bidi_local (n : Z)
  | set_initial_max_stream_data_uni (n : Z)
  | set_initial_max_streams_bidi (n : Z)
  | set_initial_max_streams_uni (n : Z)
  | set_disable_active_migration (b : bool)
  | enable_early_data.

(** ** External code *)

Record addrinfo : Set := Addrinfo { ai_family : Z; ai_addrlen : Z }.

Class Quiche (Q W : Type) := {
  QUICHE_ERR_DONE : Z;
  QUICHE_PROTOCOL_VERSION : Z;
  (* a configuration, or NULL *)
  quiche_config_new : Z -> W -> bool * W;
  (* the connection id, the length of the address, the configuration *)
  quiche_connect : list Z -> Z -> option (list quiche_setting) -> W -> option Q * W;
  quiche_conn_is_closed : Q -> bool;
  quiche_conn_is_established : Q -> bool;
  (* bytes written or an error, and the packet *)
  quiche_conn_send : Q -> (Z * list Z) * Q;
  quiche_conn_recv : Q -> list Z -> Z * Q;
  quiche_conn_on_timeout : Q -> Q;
  quiche_conn_send_ack_eliciting : Q -> Q;
  (* a [uint64_t], [UINT64_MAX] for no timer *)
  quiche_conn_timeout_as_millis : Q -> Z;
  (* stream, data, fin *)
  quiche_conn_stream_send : Q -> Z -> list Z -> bool -> Z * Q;
}.

Class Sockets (W : Type) := {
  cl_getaddrinfo : W -> option (list addrinfo) * W;
  cl_socket : addrinfo -> W -> Z * W;
  cl_getsockname : Z -> W -> Z * W;
  cl_fcntl_nonblock : Z -> W -> Z * W;
  (* the random bytes, or failure *)
  cl_getrandom : W -> option (list Z) * W;
  cl_sendto : Z -> list Z -> W -> Z * W;
  (* [inl] the datagram, [inr] errno *)
  cl_recvfrom : Z -> W -> (list Z + Z) * W;
}.

Section client.
Context {Q W : Type} `{!Quiche Q W, !Sockets W}.

(** [struct client] and the static [remote_addr] (the rest of the list of
    addresses, empty for NULL), with the world. [cl_opened] records the sockets
    obtained, in order; nothing in the file closes one. *)
Record client : Type := Client {
  quiche_conn : option Q;
  cl_config : option (list quiche_setting);   (* NULL, or what was set *)
  cl_scid : list Z;
  cl_stream_id : Z;
  cl_sock_fd : Z;
  cl_remote_addr_len : Z;
  cl_local_addr_len : Z;
  cl_remote_addr : list addrinfo;
  cl_opened : list Z;
  cl_world : W;
}.

Definition set_cl_conn (c : option Q) (s : client) : client :=
  {| quiche_conn := c; cl_config := cl_config s; cl_scid := cl_scid s; cl_stream_id := cl_stream_id s; cl_sock_fd := cl_sock_fd s;
     cl_remote_addr_len := cl_remote_addr_len s; cl_local_addr_len := cl_local_addr_len s;
     cl_remote_addr := cl_remote_addr s; cl_opened := cl_opened s; cl_world := cl_world s |}.
Definition set_cl_world (w : W) (s : client) : client :=
  {| quiche_conn := quiche_conn s; cl_config := cl_config s; cl_scid := cl_scid s; cl_stream_id := cl_stream_id s;
     cl_sock_fd := cl_sock_fd s; cl_remote_addr_len := cl_remote_addr_len s;
     cl_local_addr_len := cl_local_addr_len s; cl_remote_addr := cl_remote_addr s;
     cl_opened := cl_opened s; cl_world := w |}.
Definition set_cl_addrs (l : list addrinfo) (s : client) : client :=
  {| quiche_conn := quiche_conn s; cl_config := cl_config s; cl_scid := cl_scid s; cl_stream_id := cl_stream_id s;
     cl_sock_fd := cl_sock_fd s; cl_remote_addr_len := cl_remote_addr_len s;
     cl_local_addr_len := cl_local_addr_len s; cl_remote_addr := l;
     cl_opened := cl_opened s; cl_world := cl_world s |}.
Definition set_cl_sock (fd : Z) (s : client) : client :=
  {| quiche_conn := quiche_conn s; cl_config := cl_config s; cl_scid := cl_scid s; cl_stream_id := cl_stream_id s;
     cl_sock_fd := fd; cl_remote_addr_len := cl_remote_addr_len s;
     cl_local_addr_len := cl_local_addr_len s; cl_remote_addr := cl_remote_addr s;
     cl_opened := cl_opened s; cl_world := cl_world s |}.
Definition set_cl_remote_len (n : Z) (s : client) : client :=
  {| quiche_conn := quiche_conn s; cl_config := cl_config s; cl_scid := cl_scid s; cl_stream_id := cl_stream_id s;
     cl_sock_fd := cl_sock_fd s; cl_remote_addr_len := n;
     cl_local_addr_len := cl_local_addr_len s; cl_remote_addr := cl_remote_addr s;
     cl_opened := cl_opened s; cl_world := cl_world s |}.
Definition set_cl_scid (l : list Z) (s : client) : client :=
  {| quiche_conn := quiche_conn s; cl_config := cl_config s; cl_scid := l; cl_stream_id := cl_stream_id s;
     cl_sock_fd := cl_sock_fd s; cl_remote_addr_len := cl_remote_addr_len s;
     cl_local_addr_len := cl_local_addr_len s; cl_remote_addr := cl_remote_addr s;
     cl_opened := cl_opened s; cl_world := cl_world s |}.
Definition set_cl_stream (n : Z) (s : client) : client :=
  {| quiche_conn := quiche_conn s; cl_config := cl_config s; cl_scid := cl_scid s; cl_stream_id := n;
     cl_sock_fd := cl_sock_fd s; cl_remote_addr_len := cl_remote_addr_len s;
     cl_local_addr_len := cl_local_addr_len s; cl_remote_addr := cl_remote_addr s;
     cl_opened := cl_opened s; cl_world := cl_world s |}.
Definition set_cl_config (l : option (list quiche_setting)) (s : client) : client :=
  {| quiche_conn := quiche_conn s; cl_config := l; cl_scid := cl_scid s; cl_stream_id := cl_stream_id s;
     cl_sock_fd := cl_sock_fd s; cl_remote_addr_len := cl_remote_addr_len s;
     cl_local_addr_len := cl_local_addr_len s; cl_remote_addr := cl_remote_addr s;
     cl_opened := cl_opened s; cl_world := cl_world s |}.
Definition set_cl_local_len (n : Z) (s : client) : client :=
  {| quiche_conn := quiche_conn s; cl_config := cl_config s; cl_scid := cl_scid s; cl_stream_id := cl_stream_id s;
     cl_sock_fd := cl_sock_fd s; cl_remote_addr_len := cl_remote_addr_len s;
     cl_local_addr_len := n; cl_remote_addr := cl_remote_addr s;
     cl_opened := cl_opened s; cl_world := cl_world s |}.
Definition open_cl_sock (fd : Z) (s : client) : client :=
  {| quiche_conn := quiche_conn s; cl_config := cl_config s; cl_scid := cl_scid s; cl_stream_id := cl_stream_id s;
     cl_sock_fd := fd; cl_remote_addr_len := cl_remote_addr_len s;
     cl_local_addr_len := cl_local_addr_len s; cl_remote_addr := cl_remote_addr s;
     cl_opened := cl_opened s ++ [fd]; cl_world := cl_world s |}.

Definition call {A} (f : W -> A * W) : M client A := fun s =>
  let '(a, w) := f (cl_world s) in Ret (a, set_cl_world w s).

(** The connection, dereferenced by quiche. *)
Definition cl_conn : M client Q := fun s =>
  match quiche_conn s with Some c => Ret (c, s) | None => Undef NullDeref end.

Definition init_addr_client : M client unit :=
  l ← gets (fun s => cl_remote_addr s);
  match l with
  | _ :: _ => mret tt
  | [] =>
      r ← call cl_getaddrinfo;
      match r with
      | None => exit_ 1
      | Some l => modify (set_cl_addrs l)
      end
  end.

(** Every path through the loop body returns, so it runs once. The [int]
    returned is the truncated count or error. *)
Definition flush_out : M client Z :=
  c ← cl_conn;
  let '((n, out), c) := quiche_conn_send c in
  modify (set_cl_conn (Some c));;
  if n =? QUICHE_ERR_DONE then mret 0
  else if n <? 0 then mret (s32 n)
  else
    fd ← gets (fun s => cl_sock_fd s);
    r ← call (cl_sendto fd (take (Z.to_nat n) out));
    mret (s32 r).

Definition client_receive : M client Z :=
  fd ← gets (fun s => cl_sock_fd s);
  r ← call (cl_recvfrom fd);
  match r with
  | inr e => mret (if e =? EWOULDBLOCK then - EWOULDBLOCK else -1)
  | inl buf =>
      c ← cl_conn;
      let '(n, c) := quiche_conn_recv c buf in
      modify (set_cl_conn (Some c));;
      mret (if n <? 0 then s32 n else 0)
  end.

Fixpoint client_process_receive (fuel : nat) : M client Z :=
  match fuel with
  | O => fun _ => OutOfFuel
  | S fuel =>
      n ← client_receive;
      if n =? - EWOULDBLOCK then mret n
      else if n =? QUICHE_ERR_DONE then mret 0
      else client_process_receive fuel
  end.

(** The text of the connection id that is logged. *)
Definition hexchars : list Z := [48; 49; 50; 51; 52; 53; 54; 55; 56; 57; 97; 98; 99; 100; 101; 102].
Definition scid_str (scid : list Z) : list Z :=
  concat ((fun b => [hexchars !!! (if 4 <? b then 1%nat else 0%nat); hexchars !!! Z.to_nat (Z.land b 15)]) <$> scid).

Definition client_new_quiche_conn : M client Z :=
  r ← call cl_getrandom;
  match r with
  | None => exit_ 1
  | Some scid =>
      modify (set_cl_scid scid);;
      len ← gets (fun s => cl_remote_addr_len s);
      config ← gets (fun s => cl_config s);
      c ← call (quiche_connect scid len config);
      modify (set_cl_conn c);;
      mret (match c with None => -1 | Some _ => 0 end)
  end.

(** The [for] loop over the addresses: [remote_addr] itself is the loop
    variable, so the addresses tried before are gone. *)
Fixpoint socket_loop (l : list addrinfo) (sock_fd : Z) : M client Z :=
  match l with
  | [] => modify (set_cl_addrs []);; mret sock_fd
  | a :: rest =>
      fd ← call (cl_socket a);
      if fd <? 0 then modify (set_cl_addrs rest);; socket_loop rest fd
      else if SIZEOF_SOCKADDR <? ai_addrlen a then undef OutOfBounds
      else
        modify (set_cl_remote_len (ai_addrlen a));;
        modify (open_cl_sock fd);;
        mret fd
  end.

Definition client_new_connection : M client Z :=
  init_addr_client;;
  modify (set_cl_remote_len 0);;
  l ← gets (fun s => cl_remote_addr s);
  sock_fd ← socket_loop l 0;
  if sock_fd =? 0 then exit_ 1
  else
    fd ← gets (fun s => cl_sock_fd s);
    r ← call (cl_getsockname fd);
    if negb (r =? 0) then exit_ 1
    else
      r ← call (cl_fcntl_nonblock fd);
      if negb (r =? 0) then exit_ 1
      else
        r ← client_new_quiche_conn;
        mret (if negb (r =? 0) then 1 else 0).

Definition client_close_connection : M client unit :=
  modify (set_cl_conn None);;
  modify (set_cl_sock 0).

(** The calls [client_init] makes on the configuration. *)
Definition quiche_settings : list quiche_setting :=
  [ set_application_protos RIDE_ALPN_client;
    set_max_idle_timeout MAX_IDLE_TIMEOUT;
    set_max_recv_udp_payload_size MAX_DATAGRAM_SIZE;
    set_max_send_udp_payload_size MAX_DATAGRAM_SIZE;
    set_initial_max_data 10000000;
    set_initial_max_stream_data_bidi_local 10000000;
    set_initial_max_stream_data_uni 10000000;
    set_initial_max_streams_bidi 10000;
    set_initial_max_streams_uni 10000;
    set_disable_active_migration true;
    enable_early_data ].

(** [client_init]; the result is the callback of the background job. A failed
    [quiche_config_new] is not noticed: the settings are made on NULL. *)
Definition client_init : M client job_callback :=
  modify (set_cl_conn None);;
  ok ← call (quiche_config_new QUICHE_PROTOCOL_VERSION);
  modify (set_cl_config (if ok : bool then Some [] else None));;
  modify (set_cl_local_len SIZEOF_SOCKADDR_STORAGE);;
  modify (set_cl_stream 0);;
  config ← gets (fun s => cl_config s);
  match config with
  | None => undef NullDeref
  | Some l =>
      modify (set_cl_config (Some (l ++ quiche_settings)));;
      mret client_advance_cb
  end.

Definition clamp_timeout (t : Z) : Z :=
  let timeout := s64 t in
  let timeout := if timeout <? MAX_IDLE_TIMEOUT / 2 then timeout else MAX_IDLE_TIMEOUT / 2 in
  if timeout =? 0 then 1 else if timeout <? 0 then RETRY_BACKOFF else timeout.

(** "Process time out" of [client_advance]. *)
Definition process_timeout (flags : Z) : M client unit :=
  if negb (Z.land flags VBG_TIMEOUT =? 0) then
    c ← cl_conn;
    let c := if quiche_conn_is_established c then quiche_conn_send_ack_eliciting c else c in
    modify (set_cl_conn (Some (quiche_conn_on_timeout c)))
  else mret tt.

(** The part of [client_advance] on a connection. *)
Definition advance_conn (fuel : nat) (flags : Z) : M client Z :=
  process_timeout flags;;
  (if negb (Z.land flags VBG_RECV =? 0) then client_process_receive fuel;; mret tt else mret tt);;
  flush_out;;
  c ← cl_conn;
  mret (clamp_timeout (quiche_conn_timeout_as_millis c)).

(** The second component is what is stored in [*out_sock_fd], if anything. *)
Definition client_advance (fuel : nat) (flags : Z) : M client (Z * option Z) :=
  c ← gets (fun s => quiche_conn s);
  match c with
  | Some c =>
      if quiche_conn_is_closed c then
        client_close_connection;;
        mret (RETRY_BACKOFF, Some 0)
      else
        t ← advance_conn fuel flags;
        mret (t, None)
  | None =>
      r ← client_new_connection;
      if negb (r =? 0) then mret (RETRY_BACKOFF, None)
      else
        fd ← gets (fun s => cl_sock_fd s);
        t ← advance_conn fuel flags;
        mret (t, Some fd)
  end.

Definition client_verify_request (payload : list Z) : M client Z :=
  c ← gets (fun s => quiche_conn s);
  match c with
  | None => mret (-1)
  | Some c =>
      if negb (quiche_conn_is_established c) || quiche_conn_is_closed c then mret (-1)
      else
        id ← gets (fun s => cl_stream_id s);
        let '(n, c) := quiche_conn_stream_send c id payload true in
        modify (set_cl_conn (Some c));;
        if (n <? 0) && negb (n =? QUICHE_ERR_DONE) then mret 0
        else
          modify (set_cl_stream (u64 (id + 2)));;
          flush_out;;
          mret 0
  end.
End client.
Arguments client : clear implicits.

(** ** Properties *)

(** Only finitely many datagrams and errors are pending before the socket
    would block. *)
Class RecvLaws (W : Type) `{!Sockets W} := {
  recv_budget : W -> nat;
  recv_progress fd w r w' :
    cl_recvfrom fd w = (r, w') -> r <> inr EWOULDBLOCK -> (recv_budget w' < recv_budget w)%nat;
}.

Lemma clamp_timeout_range t : 1 <= clamp_timeout t <= MAX_IDLE_TIMEOUT / 2.
Proof.
  unfold clamp_timeout. change (MAX_IDLE_TIMEOUT / 2) with 500. unfold RETRY_BACKOFF. z_cases; lia.
Qed.

(** The log does not tell connection ids apart: the first digit of a byte is
    the same for all bytes from 16 on. *)
Lemma scid_str_ambiguous a b d l :
  1 <= a < 16 -> 1 <= b < 16 -> 0 <= d < 16 -> scid_str (16 * a + d :: l) = scid_str (16 * b + d :: l).
Proof.
  intros Ha Hb Hd. assert (E : forall x, 1 <= x < 16 -> (4 <? 16 * x + d) = true /\ Z.land (16 * x + d) 15 = d).
  { intros x Hx. split; [apply Z.ltb_lt; lia|]. change 15 with (Z.ones 4). rewrite Z.land_ones by lia.
    change (2 ^ 4) with 16. rewrite Z.add_comm, Z.mul_comm, Z.mod_add by lia. by apply Z.mod_small. }
  destruct (E a Ha) as [Ea1 Ea2], (E b Hb) as [Eb1 Eb2].
  unfold scid_str. cbn [fmap list_fmap concat]. by rewrite Ea1, Ea2, Eb1, Eb2.
Qed.

Section properties.
Context {Q W : Type} `{!Quiche Q W, !Sockets W, !RecvLaws W}.
Implicit Types s : client Q W.

(** What sending and receiving on a connection leave alone. *)
Definition same_client s s' : Prop :=
  cl_stream_id s' = cl_stream_id s /\ cl_sock_fd s' = cl_sock_fd s /\ cl_opened s' = cl_opened s /\
  is_Some (quiche_conn s').

Lemma same_client_trans s1 s2 s3 : same_client s1 s2 -> same_client s2 s3 -> same_client s1 s3.
Proof. intros (A1 & A2 & A3 & _) (B1 & B2 & B3 & B4). split_and!; congruence || done. Qed.

Lemma cl_conn_ok c s : quiche_conn s = Some c -> cl_conn s = Ret (c, s).
Proof. intros Hc. unfold cl_conn. by rewrite Hc. Qed.

Lemma flush_out_ok s :
  is_Some (quiche_conn s) -> exists r s', flush_out s = Ret (r, s') /\ same_client s s'.
Proof.
  intros [c Hc]. unfold flush_out. rewrite (bind_Ret _ _ _ _ _ (cl_conn_ok _ _ Hc)).
  destruct (quiche_conn_send c) as [[n out] c'].
  unfold mbind at 1, M_bind at 1, modify at 1. set (s1 := set_cl_conn (Some c') s).
  assert (Hs1 : same_client s s1) by done.
  destruct (n =? QUICHE_ERR_DONE); [eauto|]. destruct (n <? 0); [eauto|].
  unfold gets, call. unfold mbind at 1, M_bind at 1. unfold mbind at 1, M_bind at 1.
  destruct (cl_sendto _ _ _) as [r w]. eexists _, _. split; [done|]. done.
Qed.

Lemma client_receive_ok s :
  is_Some (quiche_conn s) -> exists n s', client_receive s = Ret (n, s') /\ same_client s s' /\
    (n <> - EWOULDBLOCK -> recv_budget (cl_world s') < recv_budget (cl_world s))%nat.
Proof.
  intros [c Hc]. unfold client_receive, gets, call. unfold mbind at 1, M_bind at 1.
  unfold mbind at 1, M_bind at 1. destruct (cl_recvfrom _ _) as [[buf|e] w] eqn:Hr.
  - set (s1 := set_cl_world w s). assert (Hc1 : quiche_conn s1 = Some c) by done.
    rewrite (bind_Ret _ _ _ _ _ (cl_conn_ok _ _ Hc1)). destruct (quiche_conn_recv c buf) as [n c'].
    eexists _, _. split; [done|]. split; [done|]. intros _. by eapply recv_progress.
  - eexists _, _. split; [done|]. split; [by split_and!; try done; eexists|].
    destruct (Z.eqb_spec e EWOULDBLOCK) as [->|Hne]; [done|]. intros _.
    eapply recv_progress; [done|congruence].
Qed.

(** Fuel beyond what is pending on the socket is enough. *)
Lemma client_process_receive_ok fuel s :
  is_Some (quiche_conn s) -> (recv_budget (cl_world s) < fuel)%nat ->
  exists n s', client_process_receive fuel s = Ret (n, s') /\ same_client s s'.
Proof.
  revert s. induction fuel as [|fuel IH]; intros s Hc Hf; [lia|]. cbn [client_process_receive].
  destruct (client_receive_ok s Hc) as (n & s1 & Hr & Hs & Hb). rewrite (bind_Ret _ _ _ _ _ Hr).
  destruct (Z.eqb_spec n (- EWOULDBLOCK)) as [|Hn]; [eauto|].
  destruct (n =? QUICHE_ERR_DONE); [eauto|].
  destruct (IH s1) as (m & s2 & Hm & Hs2); [apply Hs|specialize (Hb Hn); lia|].
  exists m, s2. split; [done|]. by eapply same_client_trans.
Qed.

Lemma process_timeout_ok flags s :
  is_Some (quiche_conn s) ->
  exists s', process_timeout flags s = Ret (tt, s') /\ same_client s s' /\ cl_world s' = cl_world s.
Proof.
  intros [c Hc]. unfold process_timeout.
  destruct (negb _); [|exists s; split; [done|]; by split_and!; try done; eexists].
  rewrite (bind_Ret _ _ _ _ _ (cl_conn_ok _ _ Hc)). eexists. split; [done|]. done.
Qed.

Lemma advance_conn_ok fuel flags s :
  is_Some (quiche_conn s) -> (recv_budget (cl_world s) < fuel)%nat ->
  exists t s', advance_conn fuel flags s = Ret (t, s') /\ same_client s s' /\
    1 <= t <= MAX_IDLE_TIMEOUT / 2.
Proof.
  intros Hc Hf. unfold advance_conn.
  destruct (process_timeout_ok flags s Hc) as (s1 & H1 & Hs1 & Hw1). rewrite (bind_Ret _ _ _ _ _ H1).
  assert (H2 : exists s2, (if negb (Z.land flags VBG_RECV =? 0) then client_process_receive fuel;; mret tt
                else mret tt) s1 = Ret (tt, s2) /\ same_client s s2).
  { destruct (negb _); [|by exists s1].
    destruct (client_process_receive_ok fuel s1) as (n & s2 & Hr & Hs2); [apply Hs1|by rewrite Hw1|].
    exists s2. rewrite (bind_Ret _ _ _ _ _ Hr). split; [done|]. by eapply same_client_trans. }
  destruct H2 as (s2 & H2 & Hs2). rewrite (bind_Ret _ _ _ _ _ H2).
  destruct (flush_out_ok s2) as (r & s3 & H3 & Hs3); [apply Hs2|]. rewrite (bind_Ret _ _ _ _ _ H3).
  pose proof (same_client_trans _ _ _ Hs2 Hs3) as Hs. destruct (proj2 (proj2 (proj2 Hs))) as [c3 Hc3].
  rewrite (bind_Ret _ _ _ _ _ (cl_conn_ok _ _ Hc3)). eexists _, s3. split; [done|].
  split; [done|]. apply clamp_timeout_range.
Qed.

(** C27. [client_advance] on an open connection returns, for every
    combination of flags, when only finitely much is pending on the socket; it
    asks to be called again in 1 to 500 milliseconds, whatever quiche's timer
    says (no timer and past timers included), and keeps the socket, the stream
    id and the connection. *)
Theorem client_advance_schedules fuel flags s c :
  quiche_conn s = Some c -> quiche_conn_is_closed c = false ->
  (recv_budget (cl_world s) < fuel)%nat ->
  exists t s', client_advance fuel flags s = Ret ((t, None), s') /\ 1 <= t <= 500 /\ same_client s s'.
Proof.
  intros Hc Hcl Hf. unfold client_advance, gets. unfold mbind at 1, M_bind at 1. rewrite Hc, Hcl.
  destruct (advance_conn_ok fuel flags s) as (t & s' & Ht & Hs & Hr); [by eexists|done|].
  rewrite (bind_Ret _ _ _ _ _ Ht). exists t, s'. done.
Qed.

(** An initialised client has no connection, and a configuration with every
    setting, which each connection is then made with. *)
Lemma client_init_ok s w :
  quiche_config_new QUICHE_PROTOCOL_VERSION (cl_world s) = (true, w) ->
  exists s', client_init s = Ret (client_advance_cb, s') /\ quiche_conn s' = None /\
    cl_config s' = Some quiche_settings /\ cl_stream_id s' = 0 /\ cl_world s' = w.
Proof.
  intros Hn. unfold client_init. rewrite bind_modify. unfold call at 1. unfold mbind at 1, M_bind at 1.
  cbn [cl_world set_cl_conn]. rewrite Hn, !bind_modify. cbn. eexists. split; [reflexivity|]. done.
Qed.

(** When no configuration can be had, the settings are made on NULL. *)
Lemma client_init_null s w :
  quiche_config_new QUICHE_PROTOCOL_VERSION (cl_world s) = (false, w) -> client_init s = Undef NullDeref.
Proof.
  intros Hn. unfold client_init. rewrite bind_modify. unfold call at 1. unfold mbind at 1, M_bind at 1.
  cbn [cl_world set_cl_conn]. by rewrite Hn, !bind_modify.
Qed.

(** The calls by which a new connection is made on the first address. *)
Record connects (s : client Q W) (a : addrinfo) (fd : Z) (c : Q) (w : W) : Prop := {
  cn_addr : exists rest, cl_remote_addr s = a :: rest;
  cn_len : ai_addrlen a <= SIZEOF_SOCKADDR;
  cn_fd : 0 < fd;
  cn_calls : exists w1 w2 w3 w4 scid,
    cl_socket a (cl_world s) = (fd, w1) /\ cl_getsockname fd w1 = (0, w2) /\
    cl_fcntl_nonblock fd w2 = (0, w3) /\ cl_getrandom w3 = (Some scid, w4) /\
    quiche_connect scid (ai_addrlen a) (cl_config s) w4 = (Some c, w);
}.

Lemma client_new_connection_ok s a fd c w :
  connects s a fd c w ->
  exists s', client_new_connection s = Ret (0, s') /\ quiche_conn s' = Some c /\
    cl_sock_fd s' = fd /\ cl_opened s' = cl_opened s ++ [fd] /\ cl_world s' = w /\
    cl_stream_id s' = cl_stream_id s /\ cl_config s' = cl_config s.
Proof.
  intros [[rest Ha] Hl Hfd (w1 & w2 & w3 & w4 & scid & H1 & H2 & H3 & H4 & H5)].
  unfold client_new_connection, init_addr_client, client_new_quiche_conn, call, gets, modify.
  unfold mbind, M_bind, mret, M_ret. rewrite Ha. cbn. rewrite Ha. cbn. unfold call, modify, mbind, M_bind. cbn.
  rewrite H1. rewrite (proj2 (Z.ltb_ge fd 0)), (proj2 (Z.ltb_ge _ _) Hl) by lia. cbn.
  rewrite (proj2 (Z.eqb_neq fd 0)) by lia. cbn. rewrite H2. cbn. rewrite H3. cbn. rewrite H4. cbn.
  rewrite H5. cbn. eexists. split; [reflexivity|]. done.
Qed.

(** A closed connection is replaced in two calls, and its socket is
    leaked: the first call frees the connection, forgets the socket and asks
    for a retry after the backoff; the next makes a new connection on a new
    socket, announces it, and both sockets are still open. *)
Theorem client_reconnects_and_leaks fuel flags s c a fd c' w :
  quiche_conn s = Some c -> quiche_conn_is_closed c = true ->
  connects s a fd c' w -> (recv_budget w < fuel)%nat ->
  exists s1 t s2,
    client_advance fuel flags s = Ret ((RETRY_BACKOFF, Some 0), s1) /\
    quiche_conn s1 = None /\ cl_sock_fd s1 = 0 /\
    client_advance fuel flags s1 = Ret ((t, Some fd), s2) /\ 1 <= t <= 500 /\
    cl_sock_fd s2 = fd /\ is_Some (quiche_conn s2) /\ cl_opened s2 = cl_opened s ++ [fd].
Proof.
  intros Hc Hcl Hn Hf. set (s1 := set_cl_sock 0 (set_cl_conn None s)).
  assert (Hn1 : connects s1 a fd c' w) by (by destruct Hn; split).
  destruct (client_new_connection_ok s1 a fd c' w Hn1) as (s2 & H2 & Hq & Hfd & Ho & Hw & _).
  destruct (advance_conn_ok fuel flags s2) as (t & s3 & Ht & (E1 & E2 & E3 & E4) & Hr);
    [by eexists|by rewrite Hw|].
  exists s1, t, s3. split.
  { unfold client_advance, gets. unfold mbind at 1, M_bind at 1. by rewrite Hc, Hcl. }
  split; [done|]. split; [done|]. split.
  { unfold client_advance, gets. unfold mbind at 1, M_bind at 1.
    change (quiche_conn s1) with (@None Q). cbv iota beta. rewrite (bind_Ret _ _ _ _ _ H2). cbn [negb Z.eqb].
    unfold mbind at 1, M_bind at 1. rewrite (bind_Ret _ _ _ _ _ Ht). by rewrite Hfd. }
  split; [done|]. split; [congruence|]. split; [done|]. by rewrite E3.
Qed.

(** [client_verify_request] on every branch: without an established open
    connection it returns -1 and changes nothing; when quiche refuses the data
    it still returns 0, with the stream id unchanged; otherwise the record was
    sent with FIN on the current stream, and the next request uses the id two
    above. *)
Theorem client_verify_request_spec payload s :
  match quiche_conn s with
  | Some c =>
      if quiche_conn_is_established c && negb (quiche_conn_is_closed c) then
        let '(n, c') := quiche_conn_stream_send c (cl_stream_id s) payload true in
        if decide (n < 0 /\ n <> QUICHE_ERR_DONE)
        then client_verify_request payload s = Ret (0, set_cl_conn (Some c') s)
        else exists s', client_verify_request payload s = Ret (0, s') /\
               cl_stream_id s' = u64 (cl_stream_id s + 2) /\ cl_sock_fd s' = cl_sock_fd s
      else client_verify_request payload s = Ret (-1, s)
  | None => client_verify_request payload s = Ret (-1, s)
  end.
Proof.
  destruct (quiche_conn s) as [c|] eqn:Hc; [|unfold client_verify_request; mrun; by rewrite Hc].
  destruct (quiche_conn_is_established c) eqn:He, (quiche_conn_is_closed c) eqn:Hcl; cbn [andb negb];
    try (unfold client_verify_request; mrun; by rewrite Hc, He, ?Hcl).
  destruct (quiche_conn_stream_send c (cl_stream_id s) payload true) as [n c'] eqn:Hs.
  assert (Hm : client_verify_request payload s =
    (if (n <? 0) && negb (n =? QUICHE_ERR_DONE) then mret 0
     else modify (set_cl_stream (u64 (cl_stream_id s + 2)));; flush_out;; mret 0)
      (set_cl_conn (Some c') s)).
  { unfold client_verify_request. rewrite (bind_Ret _ _ s (quiche_conn s) s eq_refl), Hc, He, Hcl.
    cbn [orb negb]. rewrite (bind_Ret _ _ s (cl_stream_id s) s eq_refl), Hs.
    by rewrite (bind_Ret _ _ s tt (set_cl_conn (Some c') s) eq_refl). }
  rewrite Hm. clear Hm.
  destruct (decide (n < 0 /\ n <> QUICHE_ERR_DONE)) as [[H1 H2]|Hd].
  - by rewrite (proj2 (Z.ltb_lt _ _) H1), (proj2 (Z.eqb_neq _ _) H2).
  - assert (E : (n <? 0) && negb (n =? QUICHE_ERR_DONE) = false).
    { destruct (Z.ltb_spec n 0), (Z.eqb_spec n QUICHE_ERR_DONE); try done. exfalso. tauto. }
    rewrite E. unfold mbind at 1, M_bind at 1, modify at 1.
    destruct (flush_out_ok (set_cl_stream (u64 (cl_stream_id s + 2)) (set_cl_conn (Some c') s)))
      as (r & s' & Hr & E1 & E2 & _); [by eexists|].
    rewrite (bind_Ret _ _ _ _ _ Hr). exists s'. done.
Qed.
End properties.

(** ** Witnesses: a connection that is open or closed; the world counts the
    datagrams pending on the socket *)

Record toy_qconn : Set := ToyQconn { tq_closed : bool; tq_established : bool }.

Definition toy_quiche : Quiche toy_qconn nat := {|
  QUICHE_ERR_DONE := -1;
  QUICHE_PROTOCOL_VERSION := 1;
  quiche_config_new := fun _ w => (true, w);
  quiche_connect := fun _ _ _ w => (Some (ToyQconn false true), w);
  quiche_conn_is_closed := tq_closed;
  quiche_conn_is_established := tq_established;
  quiche_conn_send := fun c => ((3, [1; 2; 3]), c);
  quiche_conn_recv := fun c buf => (Z.of_nat (length buf), c);
  quiche_conn_on_timeout := fun c => c;
  quiche_conn_send_ack_eliciting := fun c => c;
  quiche_conn_timeout_as_millis := fun _ => 2 ^ 64 - 1;
  quiche_conn_stream_send := fun c _ p _ => (Z.of_nat (length p), c);
|}.

Definition toy_sockets : Sockets nat := {|
  cl_getaddrinfo := fun w => (Some [Addrinfo 2 16], w);
  cl_socket := fun _ w => (8, w);
  cl_getsockname := fun _ w => (0, w);
  cl_fcntl_nonblock := fun _ w => (0, w);
  cl_getrandom := fun w => (Some (replicate 16 7), w);
  cl_sendto := fun _ pkt w => (Z.of_nat (length pkt), w);
  cl_recvfrom := fun _ w => match w with O => (inr EWOULDBLOCK, O) | S w => (inl [9; 9], w) end;
|}.

Definition toy_recv_laws : @RecvLaws nat toy_sockets.
Proof.
  refine {| recv_budget := fun w => w |}. intros fd [|w] r w' [= <- <-]; [done|]. simpl. lia.
Defined.

Definition toy_client (closed : bool) : client toy_qconn nat :=
  {| quiche_conn := Some (ToyQconn closed true); cl_config := Some quiche_settings; cl_scid := []; cl_stream_id := 4; cl_sock_fd := 7;
     cl_remote_addr_len := 16; cl_local_addr_len := 128; cl_remote_addr := [Addrinfo 2 16];
     cl_opened := [7]; cl_world := 3%nat |}.

Lemma client_advance_schedules_witness :
  exists t s', client_advance (Quiche0 := toy_quiche) (Sockets0 := toy_sockets) 4 3 (toy_client false) =
               Ret ((t, None), s') /\ 1 <= t <= 500 /\ cl_sock_fd s' = 7.
Proof.
  destruct (client_advance_schedules (Quiche0 := toy_quiche) (Sockets0 := toy_sockets)
    (RecvLaws0 := toy_recv_laws) 4 3 (toy_client false) (ToyQconn false true)) as (t & s' & H1 & H2 & H3);
    [reflexivity|reflexivity|simpl; lia|].
  exists t, s'. split; [exact H1|]. split; [exact H2|exact (proj1 (proj2 H3))].
Defined.

Lemma client_reconnects_and_leaks_witness :
  exists s1 t s2,
    client_advance (Quiche0 := toy_quiche) (Sockets0 := toy_sockets) 4 0 (toy_client true) =
      Ret ((100, Some 0), s1) /\
    client_advance (Quiche0 := toy_quiche) (Sockets0 := toy_sockets) 4 0 s1 = Ret ((t, Some 8), s2) /\
    cl_opened s2 = [7; 8].
Proof.
  destruct (client_reconnects_and_leaks (Quiche0 := toy_quiche) (Sockets0 := toy_sockets)
    (RecvLaws0 := toy_recv_laws) 4 0 (toy_client true) (ToyQconn true true) (Addrinfo 2 16) 8
    (ToyQconn false true) 3%nat) as (s1 & t & s2 & H1 & _ & _ & H2 & _ & _ & _ & H3);
    [reflexivity|reflexivity| |simpl; lia|].
  - split; [by exists []|vm_compute; congruence|lia|].
    exists 3%nat, 3%nat, 3%nat, 3%nat, (replicate 16 7). repeat split.
  - exists s1, t, s2. split; [exact H1|]. split; [exact H2|exact H3].
Defined.
